(* ===== verification/_CoqProject ===== *)
-Q . S2P
Prelude.v
CLib.v
World.v
Logic.v
Signals.v
Fs.v
Net.v
Protocol.v
TransferIo.v
MessageStore.v
HttpBuf.v
HttpJson.v
PicoHttp.v
HttpRequest.v
ConnTracker.v
Cli.v
AppService.v
HttpResponse.v
WebUi.v
HttpFiles.v
HttpMessages.v
Http.v
Server.v
Client.v
DaemonState.v
EndToEnd.v
Connection.v
Control.v
Daemon.v
Address.v
Listener.v
Process.v
Session.v
Concurrent.v
Terminal.v
