(* ===== verification/Prelude.v ===== *)
(** * HFile: a verified model of the LAN file-transfer tool

    HFile (src/, C) sends files and text messages between machines of a local
    network. One executable is the server -- a listener, one thread per
    connection, a wire protocol and an HTTP page on the same port -- and the
    client, one command per run. This library is a shallow embedding of its
    Linux (POSIX, LP64) build and the theorems about it.

    ** The program's parts and the files of the library

    Every function of the program keeps its name; paths are below src/.

    - [CLib]: what the program uses of the C library ([isspace], [snprintf],
      [strtoul], [strtol], [strchr], [inet_pton], ...).
    - [World]: the operating system as one thread sees it: a connected stream
      socket (the bytes the peer will send, the bytes it received), a file
      system with regular files, directories and symbolic links, a descriptor
      table, pipes, [malloc], [errno], a clock; and the program's statics (the
      message store of message_store.c, the flags of shutdown.c).
    - [Logic]: total-correctness rules [wp] of the system calls, and the frame
      relations ([only_io], [only_net], [only_files], [only_errno]) that say
      which part of the world a call leaves alone.
    - [Fs] (fs.c): [fs_validate_file_name], [fs_validate_relative_path], the
      path builders, [fs_write_all], temporary files and their commit,
      recursive removal.
    - [Net] (net.c): [send_all], [recv_all], 64-bit big-endian integers, and
      files over the socket: [sendfile] and [splice] with their buffered
      fall-backs.
    - [Protocol] (protocol.c): header, response frame, file prefix; encoders,
      decoders, and the calls that send and receive them.
    - [TransferIo] (transfer_io.c): an upload goes to a temporary file that is
      renamed over the final path. The protocol and the HTTP entry point differ
      in how they receive the body; the class [BodyReceiver] is what the storing
      code needs of it.
    - [MessageStore] (message_store.c): the latest text message, trimming, the
      version counter, waiting for an update.
    - [ConnTracker] (server_conn_tracker.c, with the thread functions of
      server.c as steps): the list of live connections.
    - [AppService] (app_service.c): uploads, downloads and messages for the
      protocol and the HTTP handlers.
    - [Server] (server.c): the connection kind, [handle_protocol_connection],
      and the handlers of the three message types.
    - [Client] (client.c): [client], [client_send_file_raw],
      [client_send_message], [client_get_file].
    - [Cli] (cli.c, and [init_client_opt], [init_server_opt] of hfile.c): the
      command line.
    - [DaemonState] (daemon_state.c): the state file of a running daemon.
    - [EndToEnd]: a client's run against a server's run on one connection.
    - [Signals] (shutdown.c): the flags a signal sets, and the exit code.
    - [HttpBuf], [HttpJson] (http.c): the growable buffer; JSON strings
      and the bodies that carry a message.
    - [PicoHttp] (third_party/picohttpparser.c): the request parser.
    - [HttpRequest] (http.c): reading the header block, the request, percent
      decoding, queries.
    - [HttpResponse] (http.c): status lines, errors, JSON replies, the format of
      the event stream.
    - [HttpFiles] (http.c): listing, download and upload of files.
    - [HttpMessages] (http.c): reading and posting a message, the event stream.
    - [WebUi] (webui.c): the page, its three other files, and their table.
    - [Http] (http.c): routing and [handle_http_connection].
    - [Connection] (server.c): the thread of one connection, from its start to
      its end, whichever protocol the peer speaks.
    - [Control] (control.c): "hf status", "hf stop", the page's URL.
    - [Daemon] (server.c): the daemon's record, the check for a second daemon, the
      thread that keeps the recorded address up to date.
    - [Address] (net.c, control.c): [net_primary_ipv4] and what the URL names.
    - [Listener] (server.c, [net_wait_readable] of net.c): the listening socket
      and the loop that accepts connections.
    - [Process] (server.c, hfile.c): [server_run_process] from its start to its
      cleanup, the pipe between parent and child, [server], and [main].
    - [Session]: a daemon and the runs of "hf", "hf status", "hf stop" beside it.
    - [Concurrent] (transfer_io.c, app_service.c): uploads and downloads of many
      connections at the same time, one system call per step, over one directory
      of inodes.
    - [Terminal] (control.c, server.c, cli.c, client.c): what is printed: the
      access details, the status, the QR code, the usage, the names of errors.

    A server handler calls AppService, which calls TransferIo (uploads) or Fs
    (downloads) and MessageStore; TransferIo, Server and Client move bytes with
    Protocol and Net; Fs and Net make the system calls of World. Http calls
    HttpRequest for the request and HttpFiles, HttpMessages and WebUi for the
    answers. Connection chooses between Http and Server; Listener starts
    Connection's threads, Process runs Listener between Daemon's record and the
    cleanup, and [hfile_main] in Process runs the one command the line names. Each
    file requires what it calls.

    ** How the code is translated

    Bytes are integers below 256, buffers and C strings lists of them (a string
    without its terminating NUL), integers are [Z] with the wrap-around of their
    C type written out ([u8] to [u64]), a pointer that may be NULL is an
    [option]. A function that touches the system is a computation of the monad
    [M A = world -> option (A * world)]; one that does not is a plain function.
    A value returned through a pointer is part of the result. [goto CLEAN_UP] is
    the code that follows the nested calls returning what it needs.

    Failures come from an adversary: the world holds a script of faults, and
    every call that can fail, be interrupted or move fewer bytes than asked
    takes the next one ([FErr e], [FShort n], [FNone]). Theorems quantify over
    the script, so they cover every pattern of failures; a theorem that says
    "when nothing fails" assumes the empty script.

    Loops that are not structural have fuel, chosen from the state in which the
    loop starts: the faults left plus the bytes still to move plus one or two
    (an interrupted call uses up a fault, any other call moves a byte, ends the
    loop or uses up a fault). [None] is the loop that ran out of fuel; [wp] is
    false of it, so every [wp] theorem proves that the chosen fuel is enough.
    Constant bounds of the code (three temporary names, names of 255 bytes,
    paths of 4096, chunks of [CHUNK_SIZE], ...) are the code's.

    Other threads and processes appear where the code waits for them. A connection
    thread's world is its own socket and the shared file system; a caller that
    waits on the message store's condition variable sees what the others did
    ([w_waits]: messages, a shutdown, a signal); the main thread sees it in the
    events of its [select] and of its waits for other threads
    ([Listener.other_acts]: also steps of connection threads and changes of
    files). In [ConnTracker] the listener, the connection threads and the main
    thread interleave as steps of a transition system, one critical section at a
    time, and [Listener] and [Process] prove that their runs are paths of it. In
    [Concurrent] the threads that store an upload or send a file are machines that
    make one system call per step; a schedule picks the thread and says how its call
    ends, and the sequential code is proved to be a run of its machine. Files are
    inodes there, and two names are two files: links are not part of it.
    [kill] answers from a list ([Control.procs_t]); the address of the machine is
    an argument. [fork] is one run per process: the child's run gives the bytes it
    reports, the parent's run is given what it reads. The endless loops -- the
    event stream, the watcher, the listener -- run for as many rounds as there are
    events, and a result says whether they go on.

    ** What is proved

    - Transfers end to end ([EndToEnd]): a file sent, a file fetched, a message
      sent: both sides succeed and the bytes are the same.
    - Safety under every failure: uploads and downloads are stored atomically
      ([TransferIo], [Client.client_get_file_atomic],
      [DaemonState.daemon_state_write_atomic]); a connection changes at most one
      entry of the served directory and leaks no descriptor
      ([Server.connection_confined]); a download opens nothing but a regular
      file below the served directory ([AppService]).
    - Many connections at once ([Concurrent]): in every interleaving and whatever
      fails, a file holds all the bytes of one upload that reported success or what
      it held before, a success is not lost, no upload needs another to go on, a
      download is one version of its file; the code runs as its machine
      ([Concurrent.upload_runs_its_thread], [Concurrent.download_runs_its_thread]).
      It is assumed that no upload has another's temporary name as its target.
    - Refinement of the protocol: what the server and the client send and
      conclude is one of the outcomes of [Server.file_transfer_outcome],
      [Server.get_file_outcome], and [Client.client_send_file_raw_exact].
    - Byte-exact transfers ([Net]): complete sends and receives, order, no gaps,
      agreement of the zero-copy and the buffered way.
    - The wire format ([Protocol]): codecs inverse on valid values, everything
      else rejected, frames and prefixes cross the connection.
    - Validation and bounds ([Fs], [MessageStore]): exact characterisations of
      accepted names, no buffer overrun, no underflow.
    - The connection tracker: its list is the live connections in every
      reachable state; shutdown reaches them all; the wait for the last one
      misses no wake-up.
    - HTTP: every request is answered as the routing table says
      ([Http.http_routing_exact]); uploads and posts are reported as they
      happened; what is put or posted is read back; any connection changes at most
      one entry of the served directory and leaks nothing
      ([Http.http_connection_confined], [Connection.connection_thread_confined]);
      what the C protocol sends the page reads. Parsed requests fit their struct
      ([HttpRequest.http_request_typed]); parsing inverts rendering; a JSON body
      means what [HttpJson.http_parse_message_json_exact] says. The event stream reports each change once
      and ends on shutdown.
    - The daemon: the parent reports success only for a child that was recorded
      and listening ([Process.daemon_start_truthful]); the process cleans up
      whatever happened ([Process.server_run_process_lifecycle]); the listener is
      a path of the tracker's system ([Listener.server_run_listener_refines]); it is
      found, stopped and gone as the commands say ([Session.daemon_session]); a
      daemon's record is found by "status" and "stop", which signal nothing but
      the recorded process; the recorded address follows the network.
    - The command line, the state file and [main]: accepted command lines are
      complete commands; printing and parsing are inverse; [main] runs the one
      command and returns its result. What "hf status" and "hf stop" print is true,
      and the printed QR code is the encoded one ([Terminal]).

    Some lemmas record behaviour the code does not intend:
    [Client.client_get_file_removes_foreign],
    [Server.server_accepts_wrapped_size], [Net.net_recv_file_all_direct_hole],
    [ConnTracker.tracker_aborts_closed_socket],
    [DaemonState.daemon_state_newline_lost], [Cli.parse_port_lenient],
    [HttpResponse.sse_carriage_return_lost], [Control.control_stop_signals_all],
    [Daemon.watcher_keeps_old_address], [Process.second_daemon_removes_record],
    [Concurrent.uploads_mix_on_temp_name], [Concurrent.download_of_temp_file],
    [Terminal.message_too_large_unknown].

    ** What is not modelled

    - The messages on the standard error stream ([perror], [sock_perror] and the
      [fprintf]s at errors), but for the usage and the shutdown notice. The QR
      encoder (third_party/qrcodegen.c) is a parameter of [Terminal], which takes any
      buffer it returns; nothing is assumed but that the size in it is not negative.
    - Of third_party/picohttpparser.c the SSE4.2 variant and the parsers of
      responses and chunks, which the program does not call.
    - The Windows branches of the source, which are another build.
    - The page's JavaScript: webui.c is text to the program, and to [WebUi].
    - Memory is a yes or no of [malloc]; that every block is freed once is not
      stated.
    - The network is one reliable stream per connection, without time: receive
      time-outs appear as errors of the script. [splice] into a file is taken
      both ways ([e_splice_direct]); theorems about it assume the documented
      behaviour, that one end has to be a pipe. *)

From Stdlib Require Export ZArith Lia ZifyBool ZifyNat Ascii String.
From stdpp Require Export base list gmap.

#[global] Open Scope Z_scope.
#[global] Unset Mangle Names.

Declare Scope hf_scope.
Delimit Scope hf_scope with hf.

(** Bytes are integers in [0, 256); buffers and C strings are lists of them. *)
Notation bytes := (list Z).

(** The length of a list as a C integer. *)
Notation zlen l := (Z.of_nat (List.length l)).

(** [ztake n l] and [zdrop n l]: the first [n] bytes of a buffer, the rest. *)
Notation ztake n l := (take (Z.to_nat n) l).
Notation zdrop n l := (drop (Z.to_nat n) l).

(** ** Definitions *)

(** The bytes of a string literal. *)
Fixpoint bs (s : string) : bytes :=
  match s with
  | EmptyString => []
  | String.String a s' => Z.of_N (N_of_ascii a) :: bs s'
  end.

Definition is_byte (b : Z) : Prop := 0 <= b < 256.

(** What a C string (a NUL-terminated [char *]) can hold: bytes other than NUL. *)
Definition is_char (b : Z) : Prop := 0 < b < 256.

(** Fixed-width unsigned integers: [uN] wraps. *)
Definition u8 (n : Z) : Z := n mod 2 ^ 8.
Definition u16 (n : Z) : Z := n mod 2 ^ 16.
Definition u32 (n : Z) : Z := n mod 2 ^ 32.
Definition u64 (n : Z) : Z := n mod 2 ^ 64.

Definition INT_MAX : Z := 2 ^ 31 - 1.
Definition UINT64_MAX : Z := 2 ^ 64 - 1.
Definition ULONG_MAX : Z := 2 ^ 64 - 1.
Definition LONG_MAX : Z := 2 ^ 63 - 1.
Definition LONG_MIN : Z := - 2 ^ 63.

(** ** Automation *)

Create Rewrite HintDb len.
#[export] Hint Rewrite @length_app @length_take @length_drop @length_replicate
  @length_nil @length_cons @length_fmap @length_insert : len.

(** Linear arithmetic over lengths of lists. *)
Ltac len_lia := autorewrite with len in *; simpl List.length in *; lia.

(** Case analysis on the boolean tests of an [if] in the goal. *)
Ltac case_if :=
  match goal with
  | |- context [ if ?b then _ else _ ] => destruct b eqn:?
  end.

(** Boolean comparisons as facts [lia] understands. *)
Ltac bool_lia :=
  repeat match goal with
  | H : (_ && _)%bool = true |- _ => apply andb_prop in H as [? ?]
  | H : (_ || _)%bool = false |- _ => apply orb_false_elim in H as [? ?]
  | H : negb _ = true |- _ => apply negb_true_iff in H
  | H : negb _ = false |- _ => apply negb_false_iff in H
  end; lia.

(** A decidable fact about concrete values, by computation. *)
Ltac by_decision := apply (bool_decide_unpack _); vm_compute; exact I.

(** ** Shared lemmas *)

Section ListLemmas.
Context {A : Type}.
Implicit Types l : list A.

Lemma take_drop_Z (n : Z) l : ztake n l ++ zdrop n l = l.
Proof. apply take_drop. Qed.

Lemma zlen_ztake (n : Z) l : 0 <= n <= zlen l -> zlen (ztake n l) = n.
Proof. intros. len_lia. Qed.

Lemma take_take_drop_app (n m : Z) l :
  0 <= n -> 0 <= m -> ztake n l ++ ztake m (zdrop n l) = ztake (n + m) l.
Proof.
  intros. rewrite Z2Nat.inj_add by lia. apply take_take_drop.
Qed.

Lemma zdrop_zdrop (n m : Z) l :
  0 <= n -> 0 <= m -> zdrop m (zdrop n l) = zdrop (n + m) l.
Proof. intros. rewrite drop_drop, Z2Nat.inj_add by lia. done. Qed.

Lemma ztake_ge (n : Z) l : zlen l <= n -> ztake n l = l.
Proof. intros. apply take_ge. lia. Qed.

Lemma zdrop_ge (n : Z) l : zlen l <= n -> zdrop n l = [].
Proof. intros. apply drop_ge. lia. Qed.

Lemma ztake_app_exact (n : Z) l l' : zlen l = n -> ztake n (l ++ l') = l.
Proof. intros <-. rewrite Nat2Z.id. apply take_app_length. Qed.

Lemma zdrop_app_exact (n : Z) l l' : zlen l = n -> zdrop n (l ++ l') = l'.
Proof. intros <-. rewrite Nat2Z.id. apply drop_app_length. Qed.

Lemma app_eq_len l1 l2 k1 k2 :
  l1 ++ k1 = l2 ++ k2 -> zlen l1 = zlen l2 -> l1 = l2 /\ k1 = k2.
Proof. intros H Hl. apply app_inj_1; [lia | done]. Qed.
End ListLemmas.

(** ** Words: bytes of a big-endian integer *)

Lemma lor_shift_byte (a b m n : Z) :
  0 <= b < 256 -> 0 <= n -> m = n + 8 ->
  Z.lor (Z.shiftl a m) (Z.shiftl b n) = Z.shiftl (a * 256 + b) n.
Proof.
  intros Hb Hn ->.
  rewrite (Z.add_comm n 8), <- Z.shiftl_shiftl, <- Z.shiftl_lor by lia.
  f_equal. change 256 with (2 ^ 8). rewrite <- Z.shiftl_mul_pow2 by lia.
  rewrite <- Z.add_lor_land.
  assert (Z.land (Z.shiftl a 8) b = 0) as ->; [|lia].
  apply Z.bits_inj'. intros i Hi. rewrite Z.land_spec, Z.bits_0.
  destruct (decide (i < 8)).
  - rewrite Z.shiftl_spec_low by lia. done.
  - rewrite (Z.bits_above_log2 b), andb_false_r; [done|lia|].
    destruct (decide (b = 0)) as [->|]; [simpl; lia|].
    assert (Z.log2 b < 8); [apply Z.log2_lt_pow2; lia|lia].
Qed.

Lemma lor_shift_low a b n : 0 <= n -> 0 <= b < 2 ^ n -> Z.lor (Z.shiftl a n) b = a * 2 ^ n + b.
Proof.
  intros Hn Hb. rewrite <- Z.shiftl_mul_pow2 by done. rewrite <- Z.add_lor_land.
  assert (Z.land (Z.shiftl a n) b = 0) as ->; [|lia].
  apply Z.bits_inj'. intros i Hi. rewrite Z.land_spec, Z.bits_0.
  destruct (decide (i < n)).
  - by rewrite Z.shiftl_spec_low.
  - destruct (decide (b = 0)) as [->|]; [by rewrite Z.testbit_0_l, andb_false_r|].
    rewrite (Z.bits_above_log2 b), andb_false_r; [done|lia|].
    apply Z.log2_lt_pow2; [lia|]. eapply Z.lt_le_trans; [apply Hb|]. apply Z.pow_le_mono_r; lia.
Qed.

Lemma lor_high k n b : 0 <= n -> 0 <= b < 2 ^ n -> Z.lor (k * 2 ^ n) b = k * 2 ^ n + b.
Proof. intros. by rewrite <- (Z.shiftl_mul_pow2 k n), lor_shift_low, Z.shiftl_mul_pow2 by done. Qed.

Lemma byte_of_shift (v n : Z) :
  0 <= n -> u8 (Z.land (Z.shiftr v n) 255) = (v / 2 ^ n) mod 256.
Proof.
  intros. unfold u8. change 255 with (Z.ones 8).
  rewrite Z.land_ones, Z.shiftr_div_pow2 by lia. rewrite Z.mod_mod by lia. done.
Qed.

Lemma is_byte_mod (v : Z) : is_byte (v mod 256).
Proof. apply Z.mod_pos_bound. lia. Qed.

#[export] Hint Resolve is_byte_mod : core.

Lemma bs_is_char (s : string) :
  forallb (fun b => (0 <? b) && (b <? 256)) (bs s) = true -> Forall is_char (bs s).
Proof.
  intros H. apply Forall_forall. intros b Hb.
  rewrite forallb_forall in H. apply list_elem_of_In in Hb.
  specialize (H b Hb). unfold is_char. bool_lia.
Qed.

Lemma u64_small n : 0 <= n < 2 ^ 64 -> u64 n = n.
Proof. apply Z.mod_small. Qed.
