(* ===== verification/CLib.v ===== *)
(** * The C library functions the program calls

    Character classes of the "C" locale, the string functions of <string.h>,
    [snprintf] with the conversions the program uses, [strtoul]/[strtol] of a
    64-bit (LP64) platform. A C string is the list of its bytes before the
    terminating NUL; [cstr] reads one out of a buffer that may hold a NUL. *)

From S2P Require Import Prelude.

(** ** Definitions *)

(** *** <ctype.h>, "C" locale *)

Definition isspace (c : Z) : bool := ((9 <=? c) && (c <=? 13)) || (c =? 32).
Definition isdigit (c : Z) : bool := (48 <=? c) && (c <=? 57).
Definition isxdigit (c : Z) : bool :=
  isdigit c || ((97 <=? c) && (c <=? 102)) || ((65 <=? c) && (c <=? 70)).
Definition tolower (c : Z) : Z := if (65 <=? c) && (c <=? 90) then c + 32 else c.

(** *** <string.h> *)

(** The C string at the start of a buffer: the bytes before the first NUL. *)
Fixpoint cstr (buf : bytes) : bytes :=
  match buf with
  | [] => []
  | b :: buf' => if b =? 0 then [] else b :: cstr buf'
  end.

Definition strlen (s : bytes) : Z := zlen s.

(** Index of the first occurrence ([strchr], [memchr]). *)
Fixpoint strchr (s : bytes) (c : Z) : option nat :=
  match s with
  | [] => None
  | b :: s' => if b =? c then Some O else S <$> strchr s' c
  end.

(** Index of the last occurrence. *)
Fixpoint strrchr (s : bytes) (c : Z) : option nat :=
  match s with
  | [] => None
  | b :: s' =>
      match strrchr s' c with
      | Some i => Some (S i)
      | None => if b =? c then Some O else None
      end
  end.

Fixpoint prefixb (p s : bytes) : bool :=
  match p, s with
  | [], _ => true
  | a :: p', b :: s' => (a =? b) && prefixb p' s'
  | _ :: _, [] => false
  end.

(** Does [needle] occur in [s] ([strstr(s, needle) != NULL])? *)
Fixpoint strstr (s needle : bytes) : bool :=
  prefixb needle s ||
  match s with
  | [] => false
  | _ :: s' => strstr s' needle
  end.

(** The sign of [strcmp(a, b)]: the first difference decides, the end of a string
    comes before any byte. *)
Fixpoint strcmp (a b : bytes) : Z :=
  match a, b with
  | [], [] => 0
  | [], _ :: _ => -1
  | _ :: _, [] => 1
  | x :: a, y :: b => if x =? y then strcmp a b else if x <? y then -1 else 1
  end.

(** [strcmp(a, b) == 0]. *)
Definition streq (a b : bytes) : bool := bool_decide (a = b).

(** Number of leading bytes not in [reject]. *)
Fixpoint strcspn (s reject : bytes) : nat :=
  match s with
  | [] => O
  | b :: s' => if bool_decide (b ∈ reject) then O else S (strcspn s' reject)
  end.

(** *** <stdio.h>: [snprintf]

    The returned [int] is the length of the whole text (negative when it does
    not fit an [int]); the buffer receives at most [cap - 1] bytes of it. *)
Definition snprintf (cap : Z) (text : bytes) : Z * bytes :=
  (if zlen text <=? INT_MAX then zlen text else -1, ztake (cap - 1) text).

(** The test [n < 0 || (size_t)n >= cap] the callers make. *)
Definition snprintf_failed (n cap : Z) : bool := (n <? 0) || (cap <=? n).

(** Decimal digits of a non-negative number ([%u], [%lu], [PRIu64]). *)
Fixpoint udec_aux (fuel : nat) (n : Z) (acc : bytes) : bytes :=
  match fuel with
  | O => acc
  | S fuel =>
      let acc' := (48 + n mod 10) :: acc in
      if n <? 10 then acc' else udec_aux fuel (n / 10) acc'
  end.

Definition udec (n : Z) : bytes := udec_aux (S (Z.to_nat (Z.log2 n))) n [].

(** [%d], [%ld]. *)
Definition sdec (n : Z) : bytes := if n <? 0 then 45 :: udec (- n) else udec n.

(** *** <stdlib.h>: [strtoul], [strtol], base 10 *)

Fixpoint skip_space (s : bytes) : bytes :=
  match s with
  | [] => []
  | b :: s' => if isspace b then skip_space s' else s
  end.

Fixpoint span_digits (s : bytes) : bytes * bytes :=
  match s with
  | [] => ([], [])
  | b :: s' => if isdigit b then let '(d, r) := span_digits s' in (b :: d, r) else ([], s)
  end.

Definition dec_value (ds : bytes) : Z := fold_left (fun v c => v * 10 + (c - 48)) ds 0.

Definition take_sign (s : bytes) : bool * bytes :=
  match s with
  | b :: s' => if b =? 45 then (true, s') else if b =? 43 then (false, s') else (false, s)
  | [] => (false, [])
  end.

(** Result of a conversion: the value, the text at [*end], whether [errno] was
    set to [ERANGE]. When no digit is found [*end] is the whole input. *)
Definition strtoul (s : bytes) : Z * bytes * bool :=
  let '(neg, s2) := take_sign (skip_space s) in
  let '(ds, rest) := span_digits s2 in
  match ds with
  | [] => (0, s, false)
  | _ =>
      let v := dec_value ds in
      if ULONG_MAX <? v then (ULONG_MAX, rest, true)
      else ((if neg then u64 (- v) else v), rest, false)
  end.

Definition strtol (s : bytes) : Z * bytes * bool :=
  let '(neg, s2) := take_sign (skip_space s) in
  let '(ds, rest) := span_digits s2 in
  match ds with
  | [] => (0, s, false)
  | _ =>
      let v := if neg then - dec_value ds else dec_value ds in
      if v <? LONG_MIN then (LONG_MIN, rest, true)
      else if LONG_MAX <? v then (LONG_MAX, rest, true)
      else (v, rest, false)
  end.

(** *** <arpa/inet.h> *)

(** [inet_pton(AF_INET, s, ...) == 1]: four decimal numbers up to 255, without
    leading zeros, separated by dots. [octets] counts those begun, [v] is the one
    being read. *)
Fixpoint inet_pton_octets (s : bytes) (octets : Z) (saw_digit : bool) (v : Z) : bool :=
  match s with
  | [] => octets =? 4
  | c :: s =>
      if isdigit c then
        if saw_digit && (v =? 0) then false
        else if 255 <? v * 10 + (c - 48) then false
        else if saw_digit then inet_pton_octets s octets true (v * 10 + (c - 48))
        else if 4 <? octets + 1 then false
        else inet_pton_octets s (octets + 1) true (v * 10 + (c - 48))
      else if (c =? 46) && saw_digit then
        if octets =? 4 then false else inet_pton_octets s octets false 0
      else false
  end.
Definition inet_pton (s : bytes) : bool := inet_pton_octets s 0 false 0.

(** ** Lemmas *)

(** *** C strings *)

Lemma cstr_no_nul (s : bytes) : Forall is_char s -> cstr s = s.
Proof.
  induction 1 as [|b s Hb _ IH]; simpl; [done|].
  unfold is_char in Hb. destruct (Z.eqb_spec b 0); [lia|]. by rewrite IH.
Qed.

Lemma cstr_app_nul (s t : bytes) : Forall is_char s -> cstr (s ++ 0 :: t) = s.
Proof.
  induction 1 as [|b s Hb _ IH]; simpl; [done|].
  unfold is_char in Hb. destruct (Z.eqb_spec b 0); [lia|]. by rewrite IH.
Qed.

Lemma cstr_prefix (buf : bytes) : exists rest, buf = cstr buf ++ rest.
Proof.
  induction buf as [|b buf [rest IH]]; simpl; [by exists []|].
  destruct (b =? 0); [by exists (b :: buf)|]. exists rest. simpl. by f_equal.
Qed.

Lemma cstr_length (buf : bytes) : (length (cstr buf) <= length buf)%nat.
Proof. destruct (cstr_prefix buf) as [r Hr]. rewrite Hr at 2. len_lia. Qed.

Lemma cstr_chars (buf : bytes) : Forall is_byte buf -> Forall is_char (cstr buf).
Proof.
  induction 1 as [|b buf Hb _ IH]; simpl; [done|].
  destruct (Z.eqb_spec b 0); [done|]. constructor; [|done].
  unfold is_byte, is_char in *. lia.
Qed.

Lemma cstr_full (buf : bytes) : zlen (cstr buf) = zlen buf -> cstr buf = buf.
Proof.
  destruct (cstr_prefix buf) as [r Hr]. rewrite Hr at 2. intros Hl.
  rewrite Hr at 2. destruct r; [by rewrite app_nil_r|]. len_lia.
Qed.

Lemma cstr_nonzero (buf : bytes) : Forall (fun b => b <> 0) (cstr buf).
Proof.
  induction buf as [|b buf IH]; simpl; [done|].
  destruct (Z.eqb_spec b 0); [done|]. by constructor.
Qed.

(** *** Comparing *)

Lemma strcmp_opp (a b : bytes) : strcmp b a = - strcmp a b.
Proof.
  revert b. induction a as [|x a IH]; intros [|y b]; try done. cbn [strcmp].
  destruct (Z.eqb_spec x y), (Z.eqb_spec y x), (Z.ltb_spec x y), (Z.ltb_spec y x); done || lia.
Qed.

Lemma strcmp_eq (a b : bytes) : strcmp a b = 0 -> a = b.
Proof.
  revert b. induction a as [|x a IH]; intros [|y b]; try done. cbn [strcmp].
  destruct (Z.eqb_spec x y) as [->|]; [intros H; by rewrite (IH b H)|by destruct (x <? y)].
Qed.

Lemma strcmp_trans (a b c : bytes) : strcmp a b <= 0 -> strcmp b c <= 0 -> strcmp a c <= 0.
Proof.
  revert b c. induction a as [|x a IH]; intros [|y b] [|z c]; cbn [strcmp]; try lia.
  destruct (Z.eqb_spec x y), (Z.eqb_spec y z), (Z.eqb_spec x z), (Z.ltb_spec x y), (Z.ltb_spec y z),
    (Z.ltb_spec x z); intros; lia || eauto.
Qed.

(** *** Searching *)

Lemma strchr_Some (s : bytes) c i :
  strchr s c = Some i ->
  s = take i s ++ c :: drop (S i) s /\ c ∉ take i s /\ (i < length s)%nat.
Proof.
  revert i. induction s as [|b s IH]; simpl; intros i H; [done|].
  destruct (Z.eqb_spec b c) as [->|Hne].
  - injection H as <-. simpl. split_and!; [by rewrite drop_0|set_solver|lia].
  - destruct (strchr s c) as [j|] eqn:E; [|done]. injection H as <-.
    destruct (IH j eq_refl) as (H1 & H2 & H3). simpl.
    split_and!; [by f_equal|set_solver|lia].
Qed.

Lemma strchr_None (s : bytes) c : strchr s c = None <-> c ∉ s.
Proof.
  induction s as [|b s IH]; simpl; [set_solver|].
  destruct (Z.eqb_spec b c) as [->|Hne].
  - set_solver.
  - destruct (strchr s c); simpl; [|set_solver].
    split; [done|]. intros H. destruct IH as [_ IH]. set_solver.
Qed.

Lemma strchr_app (s t : bytes) c : c ∉ s -> strchr (s ++ c :: t) c = Some (length s).
Proof.
  induction s as [|b s IH]; simpl; intros H.
  - by rewrite Z.eqb_refl.
  - destruct (Z.eqb_spec b c); [set_solver|]. rewrite IH by set_solver. done.
Qed.

Lemma prefixb_spec (p s : bytes) : prefixb p s = true <-> exists r, s = p ++ r.
Proof.
  revert s. induction p as [|a p IH]; intros s; simpl; [split; eauto|].
  destruct s as [|b s]; simpl.
  - split; [done|intros [r Hr]; done].
  - rewrite andb_true_iff, IH, Z.eqb_eq. split.
    + intros [-> [r ->]]. eauto.
    + intros [r [= -> ->]]. eauto.
Qed.

Lemma strstr_spec (s p : bytes) :
  strstr s p = true <-> exists l r, s = l ++ p ++ r.
Proof.
  induction s as [|b s IH]; simpl; rewrite orb_true_iff, prefixb_spec.
  - split.
    + intros [[r Hr]|]; [|done]. exists [], r. done.
    + intros (l & r & H). left. exists r. symmetry in H.
      apply app_eq_nil in H as [-> H]. by rewrite H.
  - rewrite IH. split.
    + intros [[r Hr]|(l & r & ->)]; [by exists [], r|by exists (b :: l), r].
    + intros (l & r & H). destruct l as [|x l]; simpl in H; [left; by exists r|].
      injection H as -> ->. right. by exists l, r.
Qed.

Lemma strcspn_app (s t reject : bytes) c :
  Forall (fun b => b ∉ reject) s -> c ∈ reject ->
  strcspn (s ++ c :: t) reject = length s.
Proof.
  induction 1 as [|b s Hb _ IH]; intros Hc; simpl.
  - by rewrite bool_decide_eq_true_2.
  - rewrite bool_decide_eq_false_2 by done. by rewrite IH.
Qed.

Lemma streq_true (a b : bytes) : streq a b = true <-> a = b.
Proof. unfold streq. apply bool_decide_eq_true. Qed.

Lemma streq_false (a b : bytes) : streq a b = false <-> a <> b.
Proof. unfold streq. apply bool_decide_eq_false. Qed.

(** *** snprintf *)

Lemma snprintf_fits (cap : Z) (text : bytes) :
  snprintf_failed (fst (snprintf cap text)) cap = false ->
  fst (snprintf cap text) = zlen text /\ zlen text < cap /\
  snd (snprintf cap text) = text.
Proof.
  unfold snprintf, snprintf_failed; simpl. intros H.
  destruct (Z.leb_spec (zlen text) INT_MAX); apply orb_false_elim in H as [H1 H2]; [|lia].
  split_and!; [done|lia|]. apply ztake_ge. lia.
Qed.

Lemma snprintf_ok (cap : Z) (text : bytes) :
  zlen text < cap -> zlen text <= INT_MAX ->
  snprintf cap text = (zlen text, text) /\ snprintf_failed (zlen text) cap = false.
Proof.
  intros Hc Hm. unfold snprintf, snprintf_failed.
  destruct (Z.leb_spec (zlen text) INT_MAX); [|lia].
  rewrite ztake_ge by lia. split; [done|]. apply orb_false_intro; lia.
Qed.

(** *** Decimal numbers *)

Lemma dec_value_acc (ds : bytes) v :
  fold_left (fun v c => v * 10 + (c - 48)) ds v = v * 10 ^ zlen ds + dec_value ds.
Proof.
  unfold dec_value. revert v. induction ds as [|d ds IH]; intros v.
  - simpl. lia.
  - cbn [fold_left]. rewrite IH, (IH (0 * 10 + _)). rewrite length_cons, Nat2Z.inj_succ.
    rewrite Z.pow_succ_r by lia. lia.
Qed.

Lemma dec_value_cons d (ds : bytes) :
  dec_value (d :: ds) = (d - 48) * 10 ^ zlen ds + dec_value ds.
Proof. unfold dec_value at 1. cbn [fold_left]. rewrite dec_value_acc. lia. Qed.

Lemma dec_value_app (ds es : bytes) :
  dec_value (ds ++ es) = dec_value ds * 10 ^ zlen es + dec_value es.
Proof. unfold dec_value at 1. rewrite fold_left_app, dec_value_acc. done. Qed.

Lemma dec_value_nonneg (ds : bytes) :
  Forall (fun c => isdigit c = true) ds -> 0 <= dec_value ds.
Proof.
  induction 1 as [|d ds Hd _ IH]; [done|]. rewrite dec_value_cons.
  unfold isdigit in Hd. bool_lia || (apply andb_prop in Hd; nia).
Qed.

Lemma udec_aux_spec fuel n acc :
  0 <= n -> Z.log2 n < Z.of_nat fuel -> 0 < Z.of_nat fuel ->
  exists ds, udec_aux fuel n acc = ds ++ acc /\ ds <> [] /\
    Forall (fun c => isdigit c = true) ds /\ dec_value ds = n.
Proof.
  revert n acc. induction fuel as [|fuel IH]; intros n acc Hn Hl Hf; [lia|].
  cbn [udec_aux].
  assert (Hd : isdigit (48 + n mod 10) = true).
  { unfold isdigit. pose proof (Z.mod_pos_bound n 10). apply andb_true_intro. lia. }
  destruct (Z.ltb_spec n 10) as [Hlt|Hge].
  - exists [48 + n mod 10]. split_and!; [done|done|by constructor|].
    rewrite Z.mod_small by lia. rewrite dec_value_cons. simpl.
    change (dec_value []) with 0. lia.
  - assert (Hlog : Z.log2 (n / 10) < Z.log2 n).
    { assert (0 < n / 10) by (apply Z.div_str_pos; lia).
      apply Z.le_lt_trans with (Z.log2 (n / 2)).
      - apply Z.log2_le_mono. apply Z.div_le_compat_l; lia.
      - change (n / 2) with (n / 2 ^ 1). rewrite <- Z.shiftr_div_pow2 by lia.
        rewrite Z.log2_shiftr by lia.
        assert (0 < Z.log2 n) by (apply Z.log2_pos; lia). lia. }
    destruct (IH (n / 10) ((48 + n mod 10) :: acc)) as (ds & H1 & H2 & H3 & H4).
    { apply Z.div_pos; lia. } { lia. }
    { pose proof (Z.log2_nonneg (n / 10)). lia. }
    exists (ds ++ [48 + n mod 10]). rewrite H1, <- app_assoc. split_and!.
    + done.
    + by destruct ds.
    + apply Forall_app; split; [done|by constructor].
    + rewrite dec_value_app, H4, dec_value_cons. simpl.
      change (dec_value []) with 0. pose proof (Z.div_mod n 10). lia.
Qed.

Lemma udec_spec n :
  0 <= n ->
  udec n <> [] /\ Forall (fun c => isdigit c = true) (udec n) /\ dec_value (udec n) = n.
Proof.
  intros Hn. unfold udec.
  destruct (udec_aux_spec (S (Z.to_nat (Z.log2 n))) n []) as (ds & -> & H); [lia| |lia|].
  - pose proof (Z.log2_nonneg n). lia.
  - by rewrite app_nil_r.
Qed.

Lemma udec_aux_length fuel n acc :
  (length (udec_aux fuel n acc) <= fuel + length acc)%nat.
Proof.
  revert n acc. induction fuel as [|fuel IH]; intros n acc; simpl; [lia|].
  destruct (n <? 10); simpl; [lia|]. specialize (IH (n / 10) ((48 + n mod 10) :: acc)).
  simpl in IH. lia.
Qed.

(** A number below [2 ^ k] prints in at most [k + 1] digits. *)
Lemma udec_length n k : 0 <= n < 2 ^ k -> zlen (udec n) <= k + 1.
Proof.
  intros Hn. unfold udec. pose proof (udec_aux_length (S (Z.to_nat (Z.log2 n))) n []) as H.
  simpl length in H at 2. rewrite Nat.add_0_r in H.
  assert (0 <= k) by (destruct (decide (k < 0)); [rewrite Z.pow_neg_r in Hn by lia|]; lia).
  destruct (decide (n = 0)) as [->|].
  - change (Z.log2 0) with 0 in *. simpl in *. lia.
  - assert (Z.log2 n < k) by (apply Z.log2_lt_pow2; lia).
    pose proof (Z.log2_nonneg n). lia.
Qed.

(** A number below [10 ^ k] prints in at most [k] digits. *)
Lemma udec_digits n k : 0 <= n < 10 ^ k -> 1 <= k -> zlen (udec n) <= k.
Proof.
  unfold udec. intros Hn Hk.
  assert (H : forall fuel n k acc, 0 <= n < 10 ^ k -> 1 <= k ->
    zlen (udec_aux fuel n acc) <= k + zlen acc).
  { clear. induction fuel as [|fuel IH]; intros n k acc Hn Hk; cbn [udec_aux]; [lia|].
    destruct (Z.ltb_spec n 10); [rewrite length_cons; lia|].
    assert (k <> 1) by (intros ->; lia).
    replace k with (Z.succ (k - 1)) in Hn by lia. rewrite Z.pow_succ_r in Hn by lia.
    specialize (IH (n / 10) (k - 1) ((48 + n mod 10) :: acc)). rewrite length_cons in IH.
    enough (0 <= n / 10 < 10 ^ (k - 1)) by lia. split; [apply Z.div_pos; lia|].
    apply Z.div_lt_upper_bound; lia. }
  specialize (H (S (Z.to_nat (Z.log2 n))) n k [] Hn Hk). simpl in H. simpl. lia.
Qed.

Lemma udec_no (n c : Z) : 0 <= n -> isdigit c = false -> c ∉ udec n.
Proof.
  intros Hn Hc Hin. destruct (udec_spec n Hn) as (_ & H & _).
  rewrite Forall_forall in H. apply H in Hin. congruence.
Qed.

Lemma span_digits_all (ds rest : bytes) :
  Forall (fun c => isdigit c = true) ds ->
  match rest with [] => True | c :: _ => isdigit c = false end ->
  span_digits (ds ++ rest) = (ds, rest).
Proof.
  induction 1 as [|d ds Hd _ IH]; intros Hr; simpl.
  - destruct rest as [|c rest]; simpl; [done|]. by rewrite Hr.
  - rewrite Hd, IH by done. done.
Qed.

Lemma digits_lead (ds : bytes) :
  Forall (fun c => isdigit c = true) ds -> ds <> [] ->
  skip_space ds = ds /\ take_sign ds = (false, ds).
Proof.
  intros H Hne. destruct ds as [|d ds]; [done|]. inversion H as [|? ? Hd]; subst.
  unfold isdigit in Hd. apply andb_prop in Hd as [H1 H2]. simpl. unfold isspace.
  repeat (match goal with |- context [ ?a <=? ?b ] => destruct (Z.leb_spec a b); [|lia] end
    || match goal with |- context [ ?a <=? ?b ] => destruct (Z.leb_spec a b); [lia|] end
    || match goal with |- context [ ?a =? ?b ] => destruct (Z.eqb_spec a b); [lia|] end).
  done.
Qed.

Lemma strtoul_udec n : 0 <= n <= ULONG_MAX -> strtoul (udec n) = (n, [], false).
Proof.
  intros Hn. destruct (udec_spec n) as (Hne & Hd & Hv); [lia|]. unfold strtoul.
  destruct (digits_lead _ Hd Hne) as [-> ->].
  rewrite <- (app_nil_r (udec n)) at 1. rewrite span_digits_all by done.
  rewrite Hv. destruct (udec n); [done|].
  destruct (Z.ltb_spec ULONG_MAX n); [lia|]. done.
Qed.

Lemma strtol_udec n : 0 <= n <= LONG_MAX -> strtol (udec n) = (n, [], false).
Proof.
  intros Hn. destruct (udec_spec n) as (Hne & Hd & Hv); [lia|]. unfold strtol.
  destruct (digits_lead _ Hd Hne) as [-> ->].
  rewrite <- (app_nil_r (udec n)) at 1. rewrite span_digits_all by done.
  rewrite Hv. destruct (udec n); [done|].
  unfold LONG_MIN. destruct (Z.ltb_spec n (- 2 ^ 63)); [lia|].
  destruct (Z.ltb_spec LONG_MAX n); [lia|]. done.
Qed.

Lemma span_digits_digits (s : bytes) :
  Forall (fun c => isdigit c = true) (fst (span_digits s)).
Proof.
  induction s as [|b s IH]; [constructor|]. cbn [span_digits].
  destruct (isdigit b) eqn:E; [|constructor].
  destruct (span_digits s) as [d r]. simpl in *. by constructor.
Qed.

Lemma strtoul_range (s : bytes) : 0 <= fst (fst (strtoul s)) <= ULONG_MAX.
Proof.
  unfold strtoul. destruct (take_sign _) as [neg s2].
  pose proof (span_digits_digits s2) as Hd. destruct (span_digits s2) as [ds rest]. simpl in Hd.
  destruct ds as [|d ds]; [by vm_compute|]. apply dec_value_nonneg in Hd.
  revert Hd. generalize (dec_value (d :: ds)). intros v Hd.
  destruct (Z.ltb_spec ULONG_MAX v); cbn [fst]; [unfold ULONG_MAX; lia|].
  destruct neg; [|lia]. unfold u64, ULONG_MAX. pose proof (Z.mod_pos_bound (- v) (2 ^ 64)). lia.
Qed.
