(* ===== verification/World.v ===== *)
(** * The world of one thread: operating system, adversary, statics

    The program is written against POSIX. This file models what it uses of it:
    one connected stream socket, a file system, a descriptor table, memory
    allocation. Every call that can fail consults a script of faults chosen by
    an adversary: it may fail with any [errno], or transfer fewer bytes than
    asked. When the script is exhausted calls behave as well as they can, so a
    run always ends; a theorem that quantifies over the script covers every
    pattern of failures, short transfers and interruptions.

    Computations are functions [world -> option (A * world)]; [None] is a loop
    that ran out of fuel, never an outcome of a call. [wp] is total correctness:
    the run finishes and its result satisfies the postcondition. *)

From S2P Require Import Prelude CLib.

(** ** Definitions *)

(** *** errno values (Linux) *)

Definition EPERM : Z := 1.
Definition ENOENT : Z := 2.
Definition ESRCH : Z := 3.
Definition EINTR : Z := 4.
Definition EIO : Z := 5.
Definition EBADF : Z := 9.
Definition ENOMEM : Z := 12.
Definition EEXIST : Z := 17.
Definition ENOTDIR : Z := 20.
Definition EISDIR : Z := 21.
Definition EINVAL : Z := 22.
Definition ENFILE : Z := 23.
Definition EMFILE : Z := 24.
Definition ENAMETOOLONG : Z := 36.
Definition ENOSYS : Z := 38.
Definition ENOTEMPTY : Z := 39.
Definition ELOOP : Z := 40.
Definition ENOTSUP : Z := 95.
Definition ETIMEDOUT : Z := 110.

(** *** open(2) flags (Linux) *)

Definition O_RDONLY : Z := 0.
Definition O_WRONLY : Z := 1.
Definition O_CREAT : Z := 64.
Definition O_EXCL : Z := 128.
Definition O_TRUNC : Z := 512.
Definition O_NOFOLLOW : Z := 131072.

(** One decision of the adversary, for one call. *)
Inductive fault :=
  | FNone                (* behave normally *)
  | FErr (e : Z)         (* fail, with this errno *)
  | FShort (n : Z).      (* transfer at most [n] bytes *)

(** A file system object; [mtime] is its modification time. *)
Inductive node :=
  | NFile (content : bytes) (mtime : Z)
  | NDir (mtime : Z)
  | NLink (target : bytes) (mtime : Z)
  | NOther (mtime : Z).

(** An open descriptor: a file at an offset, or an end of a pipe (the write end
    names its read end). *)
Inductive fdesc :=
  | FdFile (path : bytes) (pos : Z) (wr : bool)
  | FdPipeR
  | FdPipeW (r : Z).

(** The connection: bytes the peer has still to deliver, bytes sent so far. *)
Record net_t := Net { n_in : bytes; n_out : bytes }.

(** Paths are compared as written. [f_next] is the next descriptor number. *)
Record files_t := Files {
  f_fs : gmap bytes node;
  f_fds : gmap Z fdesc;
  f_next : Z;
  f_pipes : gmap Z bytes
}.

(** What never changes during a run: process id, [TMPDIR], the clock, and
    whether the kernel accepts [splice] from a socket straight into a file
    (Linux does not: one end has to be a pipe). *)
Record env_t := Env {
  e_pid : Z;
  e_tmpdir : option bytes;
  e_now : Z;
  e_splice_direct : bool
}.

(** The statics of message_store.c ([g_message_store]). *)
Record message_store_state_t := MessageStoreState {
  ms_message : option bytes;
  ms_version : Z;
  ms_initialized : bool;
  ms_shutting_down : bool
}.

(** What another thread does while this one waits: a critical section on the
    store, or a signal or thread that asks for a shutdown. *)
Inductive store_act :=
  | ActSet (copy : bytes)
  | ActShutdown
  | ActRequest (sig : Z).

(** What one [pthread_cond_timedwait] sees: the other threads' critical
    sections, then a wake-up, a timeout or an error. *)
Inductive wait_event :=
  | WWake (acts : list store_act)
  | WTimeout (acts : list store_act)
  | WErr (e : Z).

(** The statics of shutdown.c. *)
Record shutdown_t := Shutdown { g_requested : Z; g_signal : Z }.

Record prog_t := Prog {
  p_store : message_store_state_t;
  p_shutdown : shutdown_t
}.

Record world := World {
  w_faults : list fault;
  w_errno : Z;
  w_net : net_t;
  w_files : files_t;
  w_env : env_t;
  w_prog : prog_t;
  w_waits : list wait_event
}.

Definition set_faults (v : list fault) (w : world) : world :=
  World v (w_errno w) (w_net w) (w_files w) (w_env w) (w_prog w) (w_waits w).
Definition set_errno_w (v : Z) (w : world) : world :=
  World (w_faults w) v (w_net w) (w_files w) (w_env w) (w_prog w) (w_waits w).
Definition set_net (v : net_t) (w : world) : world :=
  World (w_faults w) (w_errno w) v (w_files w) (w_env w) (w_prog w) (w_waits w).
Definition set_files (v : files_t) (w : world) : world :=
  World (w_faults w) (w_errno w) (w_net w) v (w_env w) (w_prog w) (w_waits w).
Definition set_prog (v : prog_t) (w : world) : world :=
  World (w_faults w) (w_errno w) (w_net w) (w_files w) (w_env w) v (w_waits w).
Definition set_waits (v : list wait_event) (w : world) : world :=
  World (w_faults w) (w_errno w) (w_net w) (w_files w) (w_env w) (w_prog w) v.

Definition set_fs (v : gmap bytes node) (f : files_t) : files_t :=
  Files v (f_fds f) (f_next f) (f_pipes f).
Definition set_fds (v : gmap Z fdesc) (f : files_t) : files_t :=
  Files (f_fs f) v (f_next f) (f_pipes f).
Definition set_pipes (v : gmap Z bytes) (f : files_t) : files_t :=
  Files (f_fs f) (f_fds f) (f_next f) v.

(** Number of faults the adversary has left. *)
Definition flen (w : world) : nat := length (w_faults w).

(** *** The monad *)

Definition M (A : Type) : Type := world -> option (A * world).

Definition ret {A} (a : A) : M A := fun w => Some (a, w).
Definition bind {A B} (m : M A) (f : A -> M B) : M B :=
  fun w => match m w with Some (a, w') => f a w' | None => None end.
Definition out_of_fuel {A} : M A := fun _ => None.
Definition get : M world := fun w => Some (w, w).
Definition modify (f : world -> world) : M unit := fun w => Some (tt, f w).

Notation "'let!' x ':=' c 'in' k" := (bind c (fun x => k))
  (at level 200, x pattern, c at level 100, k at level 200, right associativity) : hf_scope.
Notation "c ';;!' k" := (bind c (fun _ => k))
  (at level 199, right associativity) : hf_scope.
#[global] Open Scope hf_scope.

(** Total correctness. *)
Definition wp {A} (m : M A) (Q : A -> world -> Prop) (w : world) : Prop :=
  match m w with Some (a, w') => Q a w' | None => False end.

Definition get_errno : M Z := fun w => Some (w_errno w, w).
Definition set_errno (e : Z) : M unit := modify (set_errno_w e).

(** The next decision of the adversary. *)
Definition pop_fault : M fault := fun w =>
  match w_faults w with
  | [] => Some (FNone, w)
  | f :: fs => Some (f, set_faults fs w)
  end.

(** A call that fails: [errno] is set and the given value returned. *)
Definition fail_with {A} (e : Z) (a : A) : M A := set_errno e ;;! ret a.

(** How many bytes a transfer of [len] may move under a fault. *)
Definition limit (f : fault) (len : Z) : Z :=
  match f with FShort k => Z.max 0 (Z.min k len) | _ => len end.

(** *** Memory: does [malloc] return a block? *)
Definition sys_malloc : M bool :=
  let! f := pop_fault in
  match f with FErr _ => fail_with ENOMEM false | _ => ret true end.

(** *** Sockets *)

(** [recv(sock, buf, len, 0)]: the result and the bytes stored in [buf]. *)
Definition sys_recv (sock len : Z) : M (Z * bytes) :=
  let! f := pop_fault in
  match f with
  | FErr e => fail_with e (-1, [])
  | _ =>
      let! w := get in
      let d := ztake (limit f len) (n_in (w_net w)) in
      modify (set_net (Net (zdrop (limit f len) (n_in (w_net w))) (n_out (w_net w)))) ;;!
      ret (zlen d, d)
  end.

(** [recv(sock, buf, len, MSG_PEEK)]: nothing is consumed. *)
Definition sys_recv_peek (sock len : Z) : M (Z * bytes) :=
  let! f := pop_fault in
  match f with
  | FErr e => fail_with e (-1, [])
  | _ =>
      let! w := get in
      let d := ztake (limit f len) (n_in (w_net w)) in
      ret (zlen d, d)
  end.

(** [send(sock, data, len, MSG_NOSIGNAL)]. *)
Definition sys_send (sock : Z) (data : bytes) : M Z :=
  let! f := pop_fault in
  match f with
  | FErr e => fail_with e (-1)
  | _ =>
      let! w := get in
      let d := ztake (limit f (zlen data)) data in
      modify (set_net (Net (n_in (w_net w)) (n_out (w_net w) ++ d))) ;;!
      ret (zlen d)
  end.

(** [socket(AF_INET, SOCK_STREAM, 0)]: a new descriptor number, or -1. The table
    holds files and pipes only; the connection itself is [w_net]. *)
Definition sys_socket : M Z :=
  let! f := pop_fault in
  match f with
  | FErr e => fail_with e (-1)
  | _ =>
      let! w := get in
      let fs := w_files w in
      modify (set_files (Files (f_fs fs) (f_fds fs) (f_next fs + 1) (f_pipes fs))) ;;!
      ret (f_next fs)
  end.

(** A call on a socket that succeeds or fails as a whole ([setsockopt],
    [shutdown], [connect]): 0, or -1 with [errno] set. *)
Definition sys_sockcall : M Z :=
  let! f := pop_fault in
  match f with FErr e => fail_with e (-1) | _ => ret 0 end.

(** *** Files *)

(** The directory a path is created in, when the path names one: the part before
    the last '/'; the current directory and "/" always exist. *)
Definition parent_ok (fs : gmap bytes node) (path : bytes) : bool :=
  match strrchr path 47 with
  | None => true
  | Some O => true
  | Some i =>
      match fs !! take i path with
      | Some (NDir _) => true
      | Some (NLink t _) => match fs !! t with Some (NDir _) => true | _ => false end
      | _ => false
      end
  end.

(** [data] written over [content] at offset [pos]; a gap reads as zeros. *)
Definition write_at (content : bytes) (pos : Z) (data : bytes) : bytes :=
  ztake pos content ++ replicate (Z.to_nat pos - length content) 0 ++ data ++
  zdrop (pos + zlen data) content.

Definition set_file (path : bytes) (n : node) (w : world) : world :=
  set_files (set_fs (<[path := n]> (f_fs (w_files w))) (w_files w)) w.
Definition del_file (path : bytes) (w : world) : world :=
  set_files (set_fs (delete path (f_fs (w_files w))) (w_files w)) w.
Definition set_fd (fd : Z) (d : fdesc) (w : world) : world :=
  set_files (set_fds (<[fd := d]> (f_fds (w_files w))) (w_files w)) w.
Definition del_fd (fd : Z) (w : world) : world :=
  set_files (set_fds (delete fd (f_fds (w_files w))) (w_files w)) w.
Definition set_pipe (r : Z) (buf : bytes) (w : world) : world :=
  set_files (set_pipes (<[r := buf]> (f_pipes (w_files w))) (w_files w)) w.

(** A fresh descriptor for [d]. *)
Definition alloc_fd (d : fdesc) : M Z := fun w =>
  let f := w_files w in
  Some (f_next f,
        set_files (Files (f_fs f) (<[f_next f := d]> (f_fds f)) (f_next f + 1) (f_pipes f)) w).

Definition has_flag (flags b : Z) : bool := negb (Z.land flags b =? 0).

(** Opening an existing object that is not a symbolic link. *)
Definition open_node (path : bytes) (n : node) (flags : Z) : M Z :=
  let wr := has_flag flags O_WRONLY in
  match n with
  | NDir _ => if wr then fail_with EISDIR (-1) else alloc_fd (FdFile path 0 false)
  | NFile _ m =>
      (if has_flag flags O_TRUNC then modify (set_file path (NFile [] m)) else ret tt) ;;!
      alloc_fd (FdFile path 0 wr)
  | _ => alloc_fd (FdFile path 0 wr)
  end.

(** [open(path, flags, mode)]; one symbolic link is followed. *)
Definition sys_open (path : bytes) (flags : Z) : M Z :=
  let! f := pop_fault in
  match f with
  | FErr e => fail_with e (-1)
  | _ =>
      let! w := get in
      let fs := f_fs (w_files w) in
      match fs !! path with
      | Some n =>
          if has_flag flags O_CREAT && has_flag flags O_EXCL then fail_with EEXIST (-1)
          else
            match n with
            | NLink t _ =>
                if has_flag flags O_NOFOLLOW then fail_with ELOOP (-1)
                else match fs !! t with
                     | Some (NLink _ _) => fail_with ELOOP (-1)
                     | Some n' => open_node t n' flags
                     | None => fail_with ENOENT (-1)
                     end
            | _ => open_node path n flags
            end
      | None =>
          if has_flag flags O_CREAT && parent_ok fs path then
            modify (set_file path (NFile [] (e_now (w_env w)))) ;;!
            alloc_fd (FdFile path 0 (has_flag flags O_WRONLY))
          else fail_with ENOENT (-1)
      end
  end.

(** [close(fd)]: the descriptor is released even when an error is reported. *)
Definition sys_close (fd : Z) : M Z :=
  let! f := pop_fault in
  modify (del_fd fd) ;;!
  match f with FErr e => fail_with e (-1) | _ => ret 0 end.

(** [read(fd, buf, len)]. *)
Definition sys_read (fd len : Z) : M (Z * bytes) :=
  let! f := pop_fault in
  match f with
  | FErr e => fail_with e (-1, [])
  | _ =>
      let! w := get in
      match f_fds (w_files w) !! fd with
      | Some (FdFile path pos wr) =>
          match f_fs (w_files w) !! path with
          | Some (NFile c _) =>
              let d := ztake (limit f len) (zdrop pos c) in
              modify (set_fd fd (FdFile path (pos + zlen d) wr)) ;;!
              ret (zlen d, d)
          | Some (NDir _) => fail_with EISDIR (-1, [])
          | _ => ret (0, [])
          end
      | _ => fail_with EBADF (-1, [])
      end
  end.

(** The effect of storing [d] in the file at [path] at offset [pos]. *)
Definition store_bytes (path : bytes) (pos : Z) (d : bytes) (w : world) : world :=
  match f_fs (w_files w) !! path with
  | Some (NFile c _) => set_file path (NFile (write_at c pos d) (e_now (w_env w))) w
  | _ => w
  end.

(** [write(fd, data, len)]. *)
Definition sys_write (fd : Z) (data : bytes) : M Z :=
  let! f := pop_fault in
  match f with
  | FErr e => fail_with e (-1)
  | _ =>
      let! w := get in
      match f_fds (w_files w) !! fd with
      | Some (FdFile path pos true) =>
          let d := ztake (limit f (zlen data)) data in
          modify (store_bytes path pos d) ;;!
          modify (set_fd fd (FdFile path (pos + zlen d) true)) ;;!
          ret (zlen d)
      | _ => fail_with EBADF (-1)
      end
  end.

Definition sys_lseek_start (fd : Z) : M Z :=
  let! f := pop_fault in
  match f with
  | FErr e => fail_with e (-1)
  | _ =>
      let! w := get in
      match f_fds (w_files w) !! fd with
      | Some (FdFile path _ wr) => modify (set_fd fd (FdFile path 0 wr)) ;;! ret 0
      | _ => fail_with EBADF (-1)
      end
  end.

(** What [lstat]/[fstat] report. *)
Inductive st_mode := S_IFREG | S_IFDIR | S_IFLNK | S_IFOTHER.
Record stat_t := Stat { st_kind : st_mode; st_size : Z; st_mtime : Z }.

Definition stat_of (n : node) : stat_t :=
  match n with
  | NFile c m => Stat S_IFREG (zlen c) m
  | NDir m => Stat S_IFDIR 0 m
  | NLink t m => Stat S_IFLNK (zlen t) m
  | NOther m => Stat S_IFOTHER 0 m
  end.

Definition sys_lstat (path : bytes) : M (option stat_t) :=
  let! f := pop_fault in
  match f with
  | FErr e => fail_with e None
  | _ =>
      let! w := get in
      match f_fs (w_files w) !! path with
      | Some n => ret (Some (stat_of n))
      | None => fail_with ENOENT None
      end
  end.

Definition sys_fstat (fd : Z) : M (option stat_t) :=
  let! f := pop_fault in
  match f with
  | FErr e => fail_with e None
  | _ =>
      let! w := get in
      match f_fds (w_files w) !! fd with
      | Some (FdFile path _ _) =>
          match f_fs (w_files w) !! path with
          | Some n => ret (Some (stat_of n))
          | None => ret (Some (Stat S_IFREG 0 0))
          end
      | _ => fail_with EBADF None
      end
  end.

(** [rename(a, b)]: atomically replaces [b]. *)
Definition sys_rename (a b : bytes) : M Z :=
  let! f := pop_fault in
  match f with
  | FErr e => fail_with e (-1)
  | _ =>
      let! w := get in
      let fs := f_fs (w_files w) in
      match fs !! a, fs !! b with
      | None, _ => fail_with ENOENT (-1)
      | Some (NDir m), Some (NDir _) =>
          modify (del_file a) ;;! modify (set_file b (NDir m)) ;;! ret 0
      | Some (NDir _), Some _ => fail_with ENOTDIR (-1)
      | Some _, Some (NDir _) => fail_with EISDIR (-1)
      | Some n, _ =>
          if parent_ok fs b then
            modify (del_file a) ;;! modify (set_file b n) ;;! ret 0
          else fail_with ENOENT (-1)
      end
  end.

(** The path of an entry [name] of directory [dir]. *)
Definition entry_path (dir name : bytes) : bytes :=
  dir ++ (if bool_decide (last dir = Some 47) then [] else [47]) ++ name.

(** The entries of a directory: what follows [dir/] in the paths that are one
    level below it. *)
Definition entry_name (dir path : bytes) : option bytes :=
  let p := entry_path dir [] in
  if prefixb p path then
    let name := drop (length p) path in
    match name, strchr name 47 with
    | _ :: _, None => Some name
    | _, _ => None
    end
  else None.

Definition dir_entries (fs : gmap bytes node) (dir : bytes) : list bytes :=
  omap (fun '(p, _) => entry_name dir p) (map_to_list fs).

(** [remove(path)] ([unlink], or [rmdir] for a directory). *)
Definition sys_remove (path : bytes) : M Z :=
  let! f := pop_fault in
  match f with
  | FErr e => fail_with e (-1)
  | _ =>
      let! w := get in
      match f_fs (w_files w) !! path with
      | None => fail_with ENOENT (-1)
      | Some (NDir _) =>
          match dir_entries (f_fs (w_files w)) path with
          | [] => modify (del_file path) ;;! ret 0
          | _ => fail_with ENOTEMPTY (-1)
          end
      | Some _ => modify (del_file path) ;;! ret 0
      end
  end.

Definition sys_rmdir (path : bytes) : M Z :=
  let! f := pop_fault in
  match f with
  | FErr e => fail_with e (-1)
  | _ =>
      let! w := get in
      match f_fs (w_files w) !! path with
      | Some (NDir _) =>
          match dir_entries (f_fs (w_files w)) path with
          | [] => modify (del_file path) ;;! ret 0
          | _ => fail_with ENOTEMPTY (-1)
          end
      | Some _ => fail_with ENOTDIR (-1)
      | None => fail_with ENOENT (-1)
      end
  end.

(** [opendir]: the names [readdir] will return, "." and ".." first. *)
Definition sys_opendir (path : bytes) : M (option (list bytes)) :=
  let! f := pop_fault in
  match f with
  | FErr e => fail_with e None
  | _ =>
      let! w := get in
      let fs := f_fs (w_files w) in
      let names d := Some ([46] :: [46; 46] :: dir_entries fs d) in
      match fs !! path with
      | Some (NDir _) => ret (names path)
      | Some (NLink t _) =>
          match fs !! t with
          | Some (NDir _) => ret (names t)
          | _ => fail_with ENOTDIR None
          end
      | Some _ => fail_with ENOTDIR None
      | None => fail_with ENOENT None
      end
  end.

(** [readdir] when [names] are left: the next name, or [None], with [errno]
    unchanged at the end of the directory and set on an error. *)
Definition sys_readdir (names : list bytes) : M (option bytes) :=
  let! f := pop_fault in
  match f with
  | FErr e => fail_with e None
  | _ => ret (head names)
  end.

Definition sys_closedir : M Z :=
  let! f := pop_fault in
  match f with FErr e => fail_with e (-1) | _ => ret 0 end.

(** *** Zero-copy transfers *)

(** [pipe(fds)]: the read and the write end. *)
Definition sys_pipe : M (option (Z * Z)) :=
  let! f := pop_fault in
  match f with
  | FErr e => fail_with e None
  | _ =>
      let! r := alloc_fd FdPipeR in
      let! wr := alloc_fd (FdPipeW r) in
      modify (set_pipe r []) ;;!
      ret (Some (r, wr))
  end.

(** [sendfile(sock, fd, &offset, want)]: the result and the new offset. *)
Definition sys_sendfile (sock fd offset want : Z) : M (Z * Z) :=
  let! f := pop_fault in
  match f with
  | FErr e => fail_with e (-1, offset)
  | _ =>
      let! w := get in
      match f_fds (w_files w) !! fd with
      | Some (FdFile path _ _) =>
          match f_fs (w_files w) !! path with
          | Some (NFile c _) =>
              let d := ztake (limit f want) (zdrop offset c) in
              modify (set_net (Net (n_in (w_net w)) (n_out (w_net w) ++ d))) ;;!
              ret (zlen d, offset + zlen d)
          | _ => fail_with EINVAL (-1, offset)
          end
      | _ => fail_with EBADF (-1, offset)
      end
  end.

(** [splice(sock, NULL, fd, &offset, want, ...)]: one of the two has to be a
    pipe, otherwise [EINVAL]. The kernel advances [offset] itself. *)
Definition sys_splice_direct (sock fd offset want : Z) : M (Z * Z) :=
  let! f := pop_fault in
  match f with
  | FErr e => fail_with e (-1, offset)
  | _ =>
      let! w := get in
      if e_splice_direct (w_env w) then
        match f_fds (w_files w) !! fd with
        | Some (FdFile path _ true) =>
            let d := ztake (limit f want) (n_in (w_net w)) in
            modify (set_net (Net (zdrop (limit f want) (n_in (w_net w))) (n_out (w_net w)))) ;;!
            modify (store_bytes path offset d) ;;!
            ret (zlen d, offset + zlen d)
        | _ => fail_with EBADF (-1, offset)
        end
      else fail_with EINVAL (-1, offset)
  end.

(** [splice(sock, NULL, pipe_w, NULL, want, ...)]. *)
Definition sys_splice_to_pipe (sock pw want : Z) : M Z :=
  let! f := pop_fault in
  match f with
  | FErr e => fail_with e (-1)
  | _ =>
      let! w := get in
      match f_fds (w_files w) !! pw with
      | Some (FdPipeW r) =>
          match f_pipes (w_files w) !! r with
          | Some buf =>
              let d := ztake (limit f want) (n_in (w_net w)) in
              modify (set_net (Net (zdrop (limit f want) (n_in (w_net w))) (n_out (w_net w)))) ;;!
              modify (set_pipe r (buf ++ d)) ;;!
              ret (zlen d)
          | None => fail_with EBADF (-1)
          end
      | _ => fail_with EBADF (-1)
      end
  end.

(** [splice(pipe_r, NULL, fd, NULL, want, ...)]. *)
Definition sys_splice_from_pipe (pr fd want : Z) : M Z :=
  let! f := pop_fault in
  match f with
  | FErr e => fail_with e (-1)
  | _ =>
      let! w := get in
      match f_fds (w_files w) !! pr, f_pipes (w_files w) !! pr, f_fds (w_files w) !! fd with
      | Some FdPipeR, Some buf, Some (FdFile path pos true) =>
          let d := ztake (limit f want) buf in
          modify (set_pipe pr (zdrop (limit f want) buf)) ;;!
          modify (store_bytes path pos d) ;;!
          modify (set_fd fd (FdFile path (pos + zlen d) true)) ;;!
          ret (zlen d)
      | _, _, _ => fail_with EBADF (-1)
      end
  end.

(** *** Worlds to run examples in *)

(** Process 7 on a kernel whose [splice] wants a pipe. *)
Definition demo_env : env_t := Env 7 None 1000 false.

Definition demo_files (fs : gmap bytes node) : files_t := Files fs ∅ 3 ∅.

(** The store initialised and empty, nothing sent yet. *)
Definition demo_world (faults : list fault) (input : bytes) (files : files_t) : world :=
  World faults 0 (Net input []) files demo_env
    (Prog (MessageStoreState None 0 true false) (Shutdown 0 0)) [].
