(* ===== verification/Logic.v ===== *)
(** * Reasoning about runs

    The rules of [wp], the frame relations that say which part of the world a
    call may touch, and one rule per system call: every outcome the adversary
    can choose, with the part of the world it changes. *)

From S2P Require Import Prelude CLib World.

(** ** Definitions: frames *)

(** The program's statics and the environment are untouched and the adversary
    did not gain decisions: what every operating-system call guarantees. *)
Definition only_io (w w' : world) : Prop :=
  w_env w' = w_env w /\ w_prog w' = w_prog w /\ w_waits w' = w_waits w /\
  (flen w' <= flen w)%nat.

(** ... and nothing but the connection changed, *)
Definition only_net (w w' : world) : Prop := only_io w w' /\ w_files w' = w_files w.
(** ... nothing but files and descriptors, *)
Definition only_files (w w' : world) : Prop := only_io w w' /\ w_net w' = w_net w.
(** ... nothing but [errno]. *)
Definition only_errno (w w' : world) : Prop := only_net w w' /\ w_net w' = w_net w.

(** [fd] is open for writing at the end of the file [p], which holds [c]. *)
Definition file_at (f : files_t) (fd : Z) (p c : bytes) : Prop :=
  f_fds f !! fd = Some (FdFile p (zlen c) true) /\
  exists m, f_fs f !! p = Some (NFile c m).

(** Only the file [p], open as [fd], changed: it now holds [c]. *)
Definition files_grow (fd : Z) (p c : bytes) (f f' : files_t) : Prop :=
  (exists m, f_fs f' = <[p := NFile c m]> (f_fs f)) /\
  f_fds f' = <[fd := FdFile p (zlen c) true]> (f_fds f) /\
  f_next f <= f_next f'.

(** Between [w] and [w'] all of [reply] was sent, or a part of it. *)
Definition said_all (reply : bytes) (w w' : world) : Prop :=
  n_out (w_net w') = n_out (w_net w) ++ reply.
Definition said (reply : bytes) (w w' : world) : Prop :=
  exists d, d `prefix_of` reply /\ said_all d w w'.

(** The numbers from [f_next] on are not in use. *)
Definition fds_ok (f : files_t) : Prop :=
  0 <= f_next f /\ forall n, f_next f <= n -> f_fds f !! n = None.

(** ** Automation *)

Create HintDb frame.

Ltac unfold_frames := unfold only_errno, only_net, only_files, only_io in *.

(** Closes frame goals from the frames in the context. *)
Ltac frame := intros; unfold_frames; destruct_and?; split_and?;
  solve [ done | congruence | lia | eauto with frame ].

(** ** The rules of [wp] *)

Section WpRules.
Context {A B : Type}.
Implicit Types (w : world).

Lemma wp_ret (a : A) Q w : Q a w -> wp (ret a) Q w.
Proof. done. Qed.

Lemma wp_bind (m : M A) (f : A -> M B) Q w :
  wp m (fun a w' => wp (f a) Q w') w -> wp (bind m f) Q w.
Proof. unfold wp, bind. destruct (m w) as [[a w']|]; done. Qed.

Lemma wp_bind_inv (m : M A) (f : A -> M B) Q w :
  wp (bind m f) Q w -> wp m (fun a w' => wp (f a) Q w') w.
Proof. unfold wp, bind. destruct (m w) as [[a w']|]; done. Qed.

Lemma wp_mono (m : M A) (P Q : A -> world -> Prop) w :
  wp m P w -> (forall a w', P a w' -> Q a w') -> wp m Q w.
Proof. unfold wp. destruct (m w) as [[a w']|]; eauto. Qed.

Lemma wp_conj (m : M A) (P Q : A -> world -> Prop) w :
  wp m P w -> wp m Q w -> wp m (fun a w' => P a w' /\ Q a w') w.
Proof. unfold wp. destruct (m w) as [[a w']|]; eauto. Qed.

(** A run that meets its postcondition has a result that does. *)
Lemma wp_run (m : M A) Q w : wp m Q w <-> exists a w', m w = Some (a, w') /\ Q a w'.
Proof.
  unfold wp. destruct (m w) as [[a w']|]; split; intros H.
  - eauto.
  - by destruct H as (? & ? & [= <- <-] & ?).
  - done.
  - by destruct H as (? & ? & ? & ?).
Qed.

Lemma wp_result (m : M A) Q w a w' : wp m Q w -> m w = Some (a, w') -> Q a w'.
Proof. unfold wp. intros H E. by rewrite E in H. Qed.

Lemma wp_with_run (m : M A) Q w : wp m Q w -> wp m (fun a w' => m w = Some (a, w') /\ Q a w') w.
Proof. unfold wp. destruct (m w) as [[a w']|]; by intros H. Qed.

Lemma bind_run (m : M A) (f : A -> M B) w a w' :
  m w = Some (a, w') -> bind m f w = f a w'.
Proof. unfold bind. intros E. by rewrite E. Qed.
End WpRules.

Lemma wp_get Q w : Q w w -> wp get Q w.
Proof. done. Qed.

Lemma wp_get_errno Q w : Q (w_errno w) w -> wp get_errno Q w.
Proof. done. Qed.

Lemma wp_modify f Q w : Q tt (f w) -> wp (modify f) Q w.
Proof. done. Qed.

Lemma wp_alloc_fd d Q w :
  Q (f_next (w_files w))
    (set_files (Files (f_fs (w_files w)) (<[f_next (w_files w) := d]> (f_fds (w_files w)))
                      (f_next (w_files w) + 1) (f_pipes (w_files w))) w) ->
  wp (alloc_fd d) Q w.
Proof. done. Qed.

Lemma wp_fail_with {A} e (a : A) Q w :
  Q a (set_errno_w e w) -> wp (fail_with e a) Q w.
Proof. done. Qed.

(** One step of symbolic execution. *)
Ltac wp_step :=
  lazymatch goal with
  | |- wp (bind _ _) _ _ => apply wp_bind
  | |- wp (ret _) _ _ => apply wp_ret
  | |- wp get _ _ => apply wp_get
  | |- wp get_errno _ _ => apply wp_get_errno
  | |- wp (modify _) _ _ => apply wp_modify
  | |- wp (fail_with _ _) _ _ => apply wp_fail_with
  | |- wp (alloc_fd _) _ _ => apply wp_alloc_fd
  | |- wp (let '(_, _) := ?x in _) _ _ => destruct x eqn:?
  | |- wp (if ?b then _ else _) _ _ => destruct b eqn:?
  | |- wp (match ?o with None => _ | Some _ => _ end) _ _ => destruct o eqn:?
  end.

(** Use a proved specification for the call at the head. *)
Ltac wp_use H := eapply wp_mono; [eapply H|].

(** ** Frames are preorders *)

#[export] Instance only_io_preorder : PreOrder only_io.
Proof. split; [intros w|intros w1 w2 w3 ??]; frame. Qed.
#[export] Instance only_net_preorder : PreOrder only_net.
Proof. split; [intros w|intros w1 w2 w3 ??]; frame. Qed.
#[export] Instance only_files_preorder : PreOrder only_files.
Proof. split; [intros w|intros w1 w2 w3 ??]; frame. Qed.
#[export] Instance only_errno_preorder : PreOrder only_errno.
Proof. split; [intros w|intros w1 w2 w3 ??]; frame. Qed.

Lemma only_errno_net w w' : only_errno w w' -> only_net w w'.
Proof. frame. Qed.
Lemma only_errno_files w w' : only_errno w w' -> only_files w w'.
Proof. frame. Qed.
Lemma only_net_io w w' : only_net w w' -> only_io w w'.
Proof. frame. Qed.
Lemma only_files_io w w' : only_files w w' -> only_io w w'.
Proof. frame. Qed.

#[export] Hint Resolve only_errno_net only_errno_files only_net_io only_files_io : frame.

Lemma no_faults_flen w : w_faults w = [] <-> flen w = 0%nat.
Proof. unfold flen. destruct (w_faults w); done. Qed.

Lemma only_io_no_faults w w' : only_io w w' -> w_faults w = [] -> w_faults w' = [].
Proof.
  rewrite !no_faults_flen. unfold only_io. lia.
Qed.

(** ** Files that grow *)

Lemma files_grow_refl f fd p c : file_at f fd p c -> files_grow fd p c f f.
Proof.
  intros [H1 [m H2]]. split_and!; [exists m; by rewrite insert_id|by rewrite insert_id|lia].
Qed.

Lemma files_grow_trans f1 f2 f3 fd p c c' :
  files_grow fd p c f1 f2 -> files_grow fd p c' f2 f3 -> files_grow fd p c' f1 f3.
Proof.
  intros ([m1 H1] & H2 & H3) ([m2 H4] & H5 & H6). split_and!; [|by rewrite H5, H2, insert_insert_eq|lia].
  exists m2. by rewrite H4, H1, insert_insert_eq.
Qed.

Lemma files_grow_at f f' fd p c : files_grow fd p c f f' -> file_at f' fd p c.
Proof.
  intros ([m H1] & H2 & _). split; [by rewrite H2, lookup_insert_eq|].
  exists m. by rewrite H1, lookup_insert_eq.
Qed.

Lemma fds_ok_open f fd p c : fds_ok f -> file_at f fd p c -> fd < f_next f.
Proof.
  intros [_ Hok] [H _]. destruct (decide (fd < f_next f)); [done|].
  rewrite Hok in H by lia. done.
Qed.

Lemma files_grow_ok f f' fd p c c' :
  fds_ok f -> file_at f fd p c -> files_grow fd p c' f f' -> fds_ok f'.
Proof.
  intros Hok Hat (_ & H2 & H3). pose proof (fds_ok_open _ _ _ _ Hok Hat).
  destruct Hok as [H0 Hok]. split; [lia|]. intros n Hn.
  rewrite H2, lookup_insert_ne by lia. apply Hok. lia.
Qed.

Lemma write_at_end c d : write_at c (zlen c) d = c ++ d.
Proof.
  unfold write_at. rewrite ztake_ge by lia.
  rewrite zdrop_ge by lia. rewrite Nat2Z.id, Nat.sub_diag. simpl.
  by rewrite app_nil_r.
Qed.

(** ** System calls *)

Lemma wp_pop_fault Q w :
  (forall f w', only_errno w w' -> w_errno w' = w_errno w ->
     (f <> FNone -> (flen w' < flen w)%nat) ->
     (w_faults w = [] -> f = FNone /\ w' = w) -> Q f w') ->
  wp pop_fault Q w.
Proof.
  intros H. unfold wp, pop_fault.
  destruct (w_faults w) as [|f fs] eqn:E; apply H; try done.
  - assert ((flen (set_faults fs w) <= flen w)%nat) by (unfold flen; rewrite E; simpl; lia).
    by unfold_frames.
  - intros _. unfold flen. rewrite E. simpl. lia.
Qed.

(** The rule of a call whose outcomes are an error or success [b]. *)
Lemma wp_simple_call {A} (e' : option Z) (a b : A) Q w :
  (forall w', only_errno w w' -> (flen w' < flen w)%nat -> Q a w') ->
  (forall w', only_errno w w' -> w_errno w' = w_errno w -> Q b w') ->
  wp (let! f := pop_fault in
      match f with
      | FErr e => fail_with (match e' with Some x => x | None => e end) a
      | _ => ret b
      end) Q w.
Proof.
  intros Ha Hb. wp_step. apply wp_pop_fault. intros f w' Hf He Hlt _.
  destruct f; [by apply Hb|apply wp_fail_with, Ha|by apply Hb].
  - frame.
  - apply Hlt. done.
Qed.

Lemma wp_sys_malloc Q w :
  (forall w', only_errno w w' -> (flen w' < flen w)%nat -> Q false w') ->
  (forall w', only_errno w w' -> w_errno w' = w_errno w -> Q true w') ->
  wp sys_malloc Q w.
Proof. apply (wp_simple_call (Some ENOMEM)). Qed.

Lemma wp_sys_sockcall Q w :
  (forall w', only_errno w w' -> (flen w' < flen w)%nat -> Q (-1) w') ->
  (forall w', only_errno w w' -> w_errno w' = w_errno w -> Q 0 w') ->
  wp sys_sockcall Q w.
Proof. apply (wp_simple_call None). Qed.

Lemma wp_sys_closedir Q w :
  (forall w', only_errno w w' -> (flen w' < flen w)%nat -> Q (-1) w') ->
  (forall w', only_errno w w' -> w_errno w' = w_errno w -> Q 0 w') ->
  wp sys_closedir Q w.
Proof. apply (wp_simple_call None). Qed.

Lemma limit_range f len : 0 <= len -> 0 <= limit f len <= len.
Proof. destruct f; simpl; lia. Qed.

(** What the transfers have in common: the adversary fails the call, or picks
    how much of the [len] bytes at hand moves. *)
Lemma wp_transfer {A} (err : Z -> M A) (ok : fault -> M A) Q w :
  (forall e w', only_errno w w' -> (flen w' < flen w)%nat -> wp (err e) Q w') ->
  (forall f w', only_errno w w' ->
     (w_faults w = [] -> f = FNone /\ w' = w) -> wp (ok f) Q w') ->
  wp (let! f := pop_fault in match f with FErr e => err e | _ => ok f end) Q w.
Proof.
  intros He Hok. wp_step. apply wp_pop_fault. intros f w' Hf Hn Hlt H0.
  destruct f; [apply Hok|apply He; [|apply Hlt]|apply Hok]; done.
Qed.

(** [f'] differs from [f] in the next number only. *)
Definition next_fd (f f' : files_t) : Prop :=
  f_fs f' = f_fs f /\ f_fds f' = f_fds f /\ f_pipes f' = f_pipes f /\ f_next f <= f_next f'.

Lemma wp_sys_socket Q w :
  (forall w', only_errno w w' -> (flen w' < flen w)%nat -> Q (-1) w') ->
  (forall w', only_files w w' -> next_fd (w_files w) (w_files w') -> Q (f_next (w_files w)) w') ->
  wp sys_socket Q w.
Proof.
  intros He Hok. unfold sys_socket. apply (wp_transfer (fun e => fail_with e (-1))).
  - intros e w' Hf Hlt. apply wp_fail_with. apply He; frame.
  - intros f w' Hf _. do 5 wp_step. assert (w_files w' = w_files w) as Hw by frame. rewrite Hw.
    apply Hok; [frame|]. split_and!; simpl; try done. lia.
Qed.

Lemma wp_sys_recv sock len Q w :
  0 <= len ->
  (forall e w', only_net w w' -> w_net w' = w_net w -> w_errno w' = e ->
     (flen w' < flen w)%nat -> Q (-1, []) w') ->
  (forall d rest w', only_net w w' -> n_in (w_net w) = d ++ rest ->
     w_net w' = Net rest (n_out (w_net w)) -> zlen d <= len ->
     (w_faults w = [] -> zlen d = Z.min len (zlen (n_in (w_net w)))) ->
     Q (zlen d, d) w') ->
  wp (sys_recv sock len) Q w.
Proof.
  intros Hlen He Hd. unfold sys_recv. apply (wp_transfer (fun e => fail_with e (-1, []))).
  - intros e w' Hf Hlt. apply wp_fail_with. apply (He e); frame.
  - intros f w' Hf H0. do 4 wp_step. pose proof (limit_range f len Hlen) as Hlim.
    assert (w_net w' = w_net w) as Hnet by frame. rewrite Hnet.
    eapply (Hd _ (zdrop (limit f len) (n_in (w_net w)))).
    + frame.
    + by rewrite take_drop_Z.
    + done.
    + len_lia.
    + intros E. destruct (H0 E) as [-> _]. simpl in *. len_lia.
Qed.

Lemma wp_sys_recv_peek sock len Q w :
  0 <= len ->
  (forall w', only_errno w w' -> (flen w' < flen w)%nat -> Q (-1, []) w') ->
  (forall d rest w', only_errno w w' -> n_in (w_net w) = d ++ rest -> zlen d <= len ->
     (w_faults w = [] -> zlen d = Z.min len (zlen (n_in (w_net w)))) ->
     Q (zlen d, d) w') ->
  wp (sys_recv_peek sock len) Q w.
Proof.
  intros Hlen He Hd. unfold sys_recv_peek. apply (wp_transfer (fun e => fail_with e (-1, []))).
  - intros e w' Hf Hlt. apply wp_fail_with. apply He; frame.
  - intros f w' Hf H0. do 3 wp_step. pose proof (limit_range f len Hlen) as Hlim.
    assert (w_net w' = w_net w) as -> by apply Hf.
    apply (Hd _ (zdrop (limit f len) (n_in (w_net w)))); [done|by rewrite take_drop_Z|len_lia|].
    intros E. destruct (H0 E) as [-> _]. simpl in *. len_lia.
Qed.

Lemma wp_sys_send sock data Q w :
  (forall e w', only_net w w' -> w_net w' = w_net w -> w_errno w' = e ->
     (flen w' < flen w)%nat -> Q (-1) w') ->
  (forall d rest w', only_net w w' -> data = d ++ rest ->
     w_net w' = Net (n_in (w_net w)) (n_out (w_net w) ++ d) ->
     (w_faults w = [] -> rest = []) -> Q (zlen d) w') ->
  wp (sys_send sock data) Q w.
Proof.
  intros He Hd. unfold sys_send. apply (wp_transfer (fun e => fail_with e (-1))).
  - intros e w' Hf Hlt. apply wp_fail_with. apply (He e); frame.
  - intros f w' Hf H0. do 4 wp_step.
    assert (w_net w' = w_net w) as Hnet by frame. rewrite Hnet.
    eapply (Hd _ (zdrop (limit f (zlen data)) data)); [frame|by rewrite take_drop_Z|done|].
    intros E. destruct (H0 E) as [-> _]. simpl. by apply zdrop_ge.
Qed.

Lemma store_bytes_at f w fd p c d :
  w_files w = f -> file_at f fd p c ->
  w_files (set_fd fd (FdFile p (zlen c + zlen d) true) (store_bytes p (zlen c) d w)) =
  Files (<[p := NFile (c ++ d) (e_now (w_env w))]> (f_fs f))
        (<[fd := FdFile p (zlen (c ++ d)) true]> (f_fds f)) (f_next f) (f_pipes f).
Proof.
  intros <- [H1 [m H2]]. unfold store_bytes. rewrite H2. unfold set_file, set_fd. simpl.
  by rewrite write_at_end, length_app, Nat2Z.inj_add.
Qed.

Lemma wp_sys_write fd data p c Q w :
  file_at (w_files w) fd p c ->
  (forall e w', only_files w w' -> w_files w' = w_files w -> w_errno w' = e ->
     (flen w' < flen w)%nat -> Q (-1) w') ->
  (forall d rest w', only_files w w' -> data = d ++ rest ->
     files_grow fd p (c ++ d) (w_files w) (w_files w') ->
     (w_faults w = [] -> rest = []) -> Q (zlen d) w') ->
  wp (sys_write fd data) Q w.
Proof.
  intros Hat He Hd. unfold sys_write. apply (wp_transfer (fun e => fail_with e (-1))).
  - intros e w' Hf Hlt. apply wp_fail_with. apply (He e); frame.
  - intros f w' Hf H0. do 2 wp_step.
    assert (w_files w' = w_files w) as Hw by frame. rewrite Hw.
    destruct Hat as [H1 H2]. rewrite H1. do 5 wp_step.
    set (d := ztake (limit f (zlen data)) data).
    eapply (Hd d (zdrop (limit f (zlen data)) data)).
    + unfold store_bytes. rewrite Hw. destruct H2 as [m ->]. frame.
    + by rewrite <- (take_drop_Z (limit f (zlen data)) data) at 1.
    + rewrite (store_bytes_at (w_files w)) by done. split_and!; simpl; [by eexists|done|lia].
    + intros E. destruct (H0 E) as [-> _]. simpl. by apply zdrop_ge.
Qed.

Lemma wp_sys_close fd Q w :
  (forall r w', only_files w w' -> r = 0 \/ r = -1 ->
     (w_faults w = [] -> r = 0) ->
     w_files w' = set_fds (delete fd (f_fds (w_files w))) (w_files w) -> Q r w') ->
  wp (sys_close fd) Q w.
Proof.
  intros H. unfold sys_close. wp_step. apply wp_pop_fault. intros f w' Hf Hn Hlt H0.
  do 2 wp_step.
  assert (w_files w' = w_files w) as Hw by frame.
  destruct f; [apply wp_ret|apply wp_fail_with|apply wp_ret]; apply H; try frame; simpl; rewrite ?Hw; auto.
  intros E. by destruct (H0 E).
Qed.

(** The rule of a call that reads the files and changes at most [errno]. *)
Lemma wp_lookup {A} (err : A) (body : files_t -> M A) Q w :
  (forall e w', only_errno w w' -> (flen w' < flen w)%nat -> Q err (set_errno_w e w')) ->
  (forall w', only_errno w w' -> wp (body (w_files w)) Q w') ->
  wp (let! f := pop_fault in
      match f with
      | FErr e => fail_with e err
      | _ => let! w := get in body (w_files w)
      end) Q w.
Proof.
  intros He Hb. apply (wp_transfer (fun e => fail_with e err)).
  - intros e w' Hf Hlt. apply wp_fail_with. by apply He.
  - intros f w' Hf _. do 2 wp_step. assert (w_files w' = w_files w) as -> by frame. by apply Hb.
Qed.

Lemma wp_sys_lstat path Q w :
  (forall r w', only_errno w w' ->
     match r with
     | None => w_faults w = [] -> f_fs (w_files w) !! path = None
     | Some st => exists n, f_fs (w_files w) !! path = Some n /\ st = stat_of n
     end -> Q r w') ->
  wp (sys_lstat path) Q w.
Proof.
  intros H.
  apply (wp_lookup None (fun fl => match f_fs fl !! path with
           | Some n => ret (Some (stat_of n)) | None => fail_with ENOENT None end)).
  - intros e w' Hf Hlt. apply H; [frame|]. rewrite no_faults_flen. lia.
  - intros w' Hf. wp_step; [apply wp_ret|apply wp_fail_with]; apply H; [frame|eauto|frame|done].
Qed.

Lemma wp_sys_fstat fd path n Q w :
  (exists pos wr, f_fds (w_files w) !! fd = Some (FdFile path pos wr)) ->
  f_fs (w_files w) !! path = Some n ->
  (forall r w', only_errno w w' ->
     match r with None => w_faults w <> [] | Some st => st = stat_of n end -> Q r w') ->
  wp (sys_fstat fd) Q w.
Proof.
  intros (pos & wr & Hfd) Hn H. unfold sys_fstat.
  apply (wp_transfer (fun e => fail_with e None)).
  - intros e w' Hf Hlt. apply wp_fail_with, H; [frame|]. rewrite no_faults_flen. lia.
  - intros f w' Hf _. do 2 wp_step. assert (w_files w' = w_files w) as -> by frame.
    rewrite Hfd, Hn. apply wp_ret, H; done.
Qed.

(** [rename] of a file onto a path that is not a directory. *)
(** [remove] of anything: a directory may be refused. *)
Lemma wp_sys_remove_any path Q w :
  (forall r w', only_files w w' -> w_files w' = w_files w -> Q r w') ->
  (forall w', only_files w w' ->
     w_files w' = set_fs (delete path (f_fs (w_files w))) (w_files w) -> Q 0 w') ->
  wp (sys_remove path) Q w.
Proof.
  intros He Hok. unfold sys_remove. apply (wp_transfer (fun e => fail_with e (-1))).
  - intros e w' Hf Hlt. apply wp_fail_with, He; frame.
  - intros f w' Hf _. do 2 wp_step. assert (w_files w' = w_files w) as Hw by frame. rewrite Hw.
    assert (Hgo : wp (modify (del_file path) ;;! ret 0) Q w').
    { do 3 wp_step. apply Hok; [frame|]. unfold del_file. simpl. by rewrite Hw. }
    destruct (f_fs (w_files w) !! path) as [[]|]; try done.
    + destruct (dir_entries _ _); [done|]. wp_step. apply He; frame.
    + wp_step. apply He; frame.
Qed.

Lemma wp_sys_rename a b c m Q w :
  f_fs (w_files w) !! a = Some (NFile c m) ->
  (forall e w', only_files w w' -> w_files w' = w_files w -> w_errno w' = e ->
     (w_faults w = [] -> parent_ok (f_fs (w_files w)) b = false \/
        exists m', f_fs (w_files w) !! b = Some (NDir m')) -> Q (-1) w') ->
  (forall w', only_files w w' ->
     w_files w' = set_fs (<[b := NFile c m]> (delete a (f_fs (w_files w)))) (w_files w) ->
     Q 0 w') ->
  wp (sys_rename a b) Q w.
Proof.
  intros Ha He Hok. unfold sys_rename. apply (wp_transfer (fun e => fail_with e (-1))).
  - intros e w' Hf Hlt. apply wp_fail_with. apply (He e); try frame.
    rewrite no_faults_flen. lia.
  - intros f w' Hf _. do 2 wp_step. assert (w_files w' = w_files w) as Hw by frame.
    rewrite Hw, Ha.
    assert (Hgo : wp (if parent_ok (f_fs (w_files w)) b then
                modify (del_file a) ;;! modify (set_file b (NFile c m)) ;;! ret 0
              else fail_with ENOENT (-1)) Q w').
    { wp_step.
      - do 5 wp_step. apply Hok; [frame|]. unfold set_file, del_file. simpl. by rewrite Hw.
      - wp_step. apply (He ENOENT); frame. }
    destruct (f_fs (w_files w) !! b) as [[]|]; try done.
    wp_step. apply (He EISDIR); frame.
Qed.

(** [remove] of something that is not a directory. *)
Lemma wp_sys_remove path Q w :
  (forall m, f_fs (w_files w) !! path <> Some (NDir m)) ->
  (forall w', only_files w w' -> w_files w' = w_files w ->
     (w_faults w = [] -> f_fs (w_files w) !! path = None) -> Q (-1) w') ->
  (forall w', only_files w w' ->
     w_files w' = set_fs (delete path (f_fs (w_files w))) (w_files w) -> Q 0 w') ->
  wp (sys_remove path) Q w.
Proof.
  intros Hnd He Hok. unfold sys_remove. apply (wp_transfer (fun e => fail_with e (-1))).
  - intros e w' Hf Hlt. apply wp_fail_with, He; try frame. rewrite no_faults_flen. lia.
  - intros f w' Hf _. do 2 wp_step. assert (w_files w' = w_files w) as Hw by frame.
    rewrite Hw.
    assert (Hgo : wp (modify (del_file path) ;;! ret 0) Q w').
    { do 3 wp_step. apply Hok; [frame|]. unfold del_file. simpl. by rewrite Hw. }
    destruct (f_fs (w_files w) !! path) as [[| m | |]|] eqn:E; try done.
    + by destruct (Hnd m).
    + wp_step. apply He; frame.
Qed.

(** [sendfile] from a regular file. *)
Lemma wp_sys_sendfile sock fd offset want path pos wr c m Q w :
  0 <= want ->
  f_fds (w_files w) !! fd = Some (FdFile path pos wr) ->
  f_fs (w_files w) !! path = Some (NFile c m) ->
  (forall e w', only_net w w' -> w_net w' = w_net w -> w_errno w' = e ->
     (flen w' < flen w)%nat -> Q (-1, offset) w') ->
  (forall d rest w', only_net w w' -> zdrop offset c = d ++ rest -> zlen d <= want ->
     w_net w' = Net (n_in (w_net w)) (n_out (w_net w) ++ d) ->
     (w_faults w = [] -> zlen d = Z.min want (zlen (zdrop offset c))) ->
     Q (zlen d, offset + zlen d) w') ->
  wp (sys_sendfile sock fd offset want) Q w.
Proof.
  intros Hw Hfd Hc He Hok. unfold sys_sendfile.
  apply (wp_transfer (fun e => fail_with e (-1, offset))).
  - intros e w' Hf Hlt. apply wp_fail_with, (He e); frame.
  - intros f w' Hf H0. do 2 wp_step.
    assert (w_files w' = w_files w) as -> by frame. rewrite Hfd, Hc. do 3 wp_step.
    assert (w_net w' = w_net w) as Hnet by frame. rewrite Hnet.
    pose proof (limit_range f want Hw) as Hlim.
    eapply (Hok _ (zdrop (limit f want) (zdrop offset c))).
    + frame.
    + by rewrite take_drop_Z.
    + rewrite length_take. lia.
    + done.
    + intros E. destruct (H0 E) as [-> _]. simpl. rewrite length_take. lia.
Qed.

Lemma wp_sys_read fd len path pos wr c m Q w :
  0 <= len ->
  f_fds (w_files w) !! fd = Some (FdFile path pos wr) ->
  f_fs (w_files w) !! path = Some (NFile c m) ->
  (forall e w', only_files w w' -> w_files w' = w_files w -> w_errno w' = e ->
     (flen w' < flen w)%nat -> Q (-1, []) w') ->
  (forall d rest w', only_files w w' -> zdrop pos c = d ++ rest -> zlen d <= len ->
     w_files w' = set_fds (<[fd := FdFile path (pos + zlen d) wr]> (f_fds (w_files w))) (w_files w) ->
     (w_faults w = [] -> zlen d = Z.min len (zlen (zdrop pos c))) ->
     Q (zlen d, d) w') ->
  wp (sys_read fd len) Q w.
Proof.
  intros Hl Hfd Hc He Hok. unfold sys_read.
  apply (wp_transfer (fun e => fail_with e (-1, []))).
  - intros e w' Hf Hlt. apply wp_fail_with, (He e); frame.
  - intros f w' Hf H0. do 2 wp_step.
    assert (w_files w' = w_files w) as Hw by frame. rewrite Hw, Hfd, Hc. do 3 wp_step.
    pose proof (limit_range f len Hl) as Hlim.
    eapply (Hok _ (zdrop (limit f len) (zdrop pos c))).
    + frame.
    + by rewrite take_drop_Z.
    + rewrite length_take. lia.
    + unfold set_fd. simpl. by rewrite Hw.
    + intros E. destruct (H0 E) as [-> _]. simpl. rewrite length_take. lia.
Qed.

(** [splice] straight into a file, on a kernel that wants a pipe. *)
Lemma wp_sys_splice_direct sock fd offset want Q w :
  e_splice_direct (w_env w) = false ->
  (forall e w', only_errno w w' -> w_errno w' = e ->
     (w_faults w = [] -> e = EINVAL) -> (e <> EINVAL -> (flen w' < flen w)%nat) ->
     Q (-1, offset) w') ->
  wp (sys_splice_direct sock fd offset want) Q w.
Proof.
  intros Hd H. unfold sys_splice_direct.
  apply (wp_transfer (fun e => fail_with e (-1, offset))).
  - intros e w' Hf Hlt. apply wp_fail_with, (H e); try frame. rewrite no_faults_flen. lia.
  - intros f w' Hf _. do 2 wp_step. assert (w_env w' = w_env w) as -> by frame.
    rewrite Hd. wp_step. apply (H EINVAL); frame.
Qed.

(** The pipe between the connection and the file [p] open as [fd]: over the
    descriptors of [f0], its two ends are open, the file holds [c] and the pipe
    [buf]. *)
Definition piped (f0 : files_t) (fd : Z) (p c : bytes) (pr pw : Z) (buf : bytes)
    (f : files_t) : Prop :=
  (exists m, f_fs f = <[p := NFile c m]> (f_fs f0)) /\
  f_fds f = <[fd := FdFile p (zlen c) true]>
              (<[pw := FdPipeW pr]> (<[pr := FdPipeR]> (f_fds f0))) /\
  f_pipes f !! pr = Some buf /\ f_next f0 <= f_next f /\
  fd <> pr /\ fd <> pw /\ pr <> pw /\ f_fds f0 !! pr = None /\ f_fds f0 !! pw = None.

Lemma wp_sys_pipe fd p c Q w :
  fds_ok (w_files w) -> file_at (w_files w) fd p c ->
  (forall w', only_files w w' -> w_files w' = w_files w -> (w_faults w <> []) -> Q None w') ->
  (forall pr pw w', only_files w w' -> piped (w_files w) fd p c pr pw [] (w_files w') ->
     Q (Some (pr, pw)) w') ->
  wp sys_pipe Q w.
Proof.
  intros Hok Hat He Hp. unfold sys_pipe. apply (wp_transfer (fun e => fail_with e None)).
  - intros e w' Hf Hlt. apply wp_fail_with, He; try frame. rewrite no_faults_flen. lia.
  - intros f w' Hf _. do 7 wp_step. apply Hp; [frame|].
    assert (w_files w' = w_files w) as Hw by frame.
    pose proof (fds_ok_open _ _ _ _ Hok Hat) as Hlt. destruct Hok as [H0 Hok].
    destruct Hat as [Hfd [m Hm]]. unfold piped, set_pipe, set_files. simpl. rewrite !Hw.
    split_and!; try lia.
    + exists m. by rewrite insert_id.
    + symmetry. apply insert_id. by rewrite !lookup_insert_ne by lia.
    + by rewrite lookup_insert_eq.
    + apply Hok; lia.
    + apply Hok; lia.
Qed.

Lemma wp_sys_splice_to_pipe f0 fd p c pr pw buf sock want Q w :
  0 <= want -> piped f0 fd p c pr pw buf (w_files w) ->
  (forall e w', only_errno w w' -> w_errno w' = e -> (flen w' < flen w)%nat -> Q (-1) w') ->
  (forall d rest w', only_io w w' -> n_in (w_net w) = d ++ rest -> zlen d <= want ->
     w_net w' = Net rest (n_out (w_net w)) ->
     piped f0 fd p c pr pw (buf ++ d) (w_files w') ->
     (w_faults w = [] -> zlen d = Z.min want (zlen (n_in (w_net w)))) ->
     Q (zlen d) w') ->
  wp (sys_splice_to_pipe sock pw want) Q w.
Proof.
  intros Hwant (H1 & H2 & H3 & H4 & H5 & H6 & H7 & H8 & H9) He Hok.
  unfold sys_splice_to_pipe. apply (wp_transfer (fun e => fail_with e (-1))).
  - intros e w' Hf Hlt. apply wp_fail_with, (He e); frame.
  - intros f w' Hf H0. do 2 wp_step.
    assert (w_files w' = w_files w) as Hw by frame.
    assert (w_net w' = w_net w) as Hn by frame. rewrite Hw, H2.
    rewrite lookup_insert_ne, lookup_insert_eq, H3 by lia. do 5 wp_step.
    pose proof (limit_range f want Hwant) as Hlim. rewrite Hn.
    eapply (Hok _ (zdrop (limit f want) (n_in (w_net w)))).
    + frame.
    + by rewrite take_drop_Z.
    + rewrite length_take. lia.
    + done.
    + unfold piped, set_pipe. simpl. rewrite Hw, lookup_insert_eq. split_and!; done.
    + intros E. destruct (H0 E) as [-> _]. simpl. rewrite length_take. lia.
Qed.

Lemma wp_sys_splice_from_pipe f0 fd p c pr pw buf want Q w :
  0 <= want -> piped f0 fd p c pr pw buf (w_files w) ->
  (forall e w', only_errno w w' -> w_errno w' = e -> (flen w' < flen w)%nat -> Q (-1) w') ->
  (forall d rest w', only_files w w' -> buf = d ++ rest -> zlen d <= want ->
     piped f0 fd p (c ++ d) pr pw rest (w_files w') ->
     (w_faults w = [] -> zlen d = Z.min want (zlen buf)) ->
     Q (zlen d) w') ->
  wp (sys_splice_from_pipe pr fd want) Q w.
Proof.
  intros Hwant ([m H1] & H2 & H3 & H4 & H5 & H6 & H7 & H8 & H9) He Hok.
  unfold sys_splice_from_pipe. apply (wp_transfer (fun e => fail_with e (-1))).
  - intros e w' Hf Hlt. apply wp_fail_with, (He e); frame.
  - intros f w' Hf H0. do 2 wp_step.
    assert (w_files w' = w_files w) as Hw by frame. rewrite Hw, H2, H3.
    rewrite lookup_insert_ne, lookup_insert_ne, lookup_insert_eq by lia.
    rewrite lookup_insert_eq. do 7 wp_step.
    pose proof (limit_range f want Hwant) as Hlim.
    eapply (Hok _ (zdrop (limit f want) buf)).
    + unfold store_bytes. simpl. rewrite Hw, H1, lookup_insert_eq. frame.
    + by rewrite take_drop_Z.
    + rewrite length_take. lia.
    + unfold store_bytes. simpl. rewrite Hw, H1, lookup_insert_eq, write_at_end.
      unfold piped, set_fd, set_file, set_pipe. simpl. rewrite Hw, H1, H2, lookup_insert_eq.
      rewrite !insert_insert_eq, length_app, Nat2Z.inj_add. split_and!; try done. by eexists.
    + intros E. destruct (H0 E) as [-> _]. simpl. rewrite length_take. lia.
Qed.

Lemma piped_close f0 fd p c pr pw buf f f' :
  piped f0 fd p c pr pw buf f ->
  f_fs f' = f_fs f -> f_next f' = f_next f ->
  f_fds f' = delete pw (delete pr (f_fds f)) -> files_grow fd p c f0 f'.
Proof.
  intros (H1 & H2 & _ & H4 & H5 & H6 & H7 & H8 & H9) E1 E2 E3. split_and!.
  - by rewrite E1.
  - rewrite E3, H2. apply map_eq. intros i. rewrite !lookup_delete, !lookup_insert.
    repeat case_decide; congruence.
  - by rewrite E2.
Qed.

(** *** Opening to read *)

(** The next descriptor opened on [path]. *)
Definition opened (path : bytes) (wr : bool) (f : files_t) : files_t :=
  Files (f_fs f) (<[f_next f := FdFile path 0 wr]> (f_fds f)) (f_next f + 1) (f_pipes f).

(** [open(path, O_RDONLY | O_NOFOLLOW)]. *)
Lemma wp_sys_open_nofollow path Q w :
  (forall w', only_files w w' -> w_files w' = w_files w ->
     (w_faults w = [] -> f_fs (w_files w) !! path = None \/
        exists t m, f_fs (w_files w) !! path = Some (NLink t m)) -> Q (-1) w') ->
  (forall n w', only_files w w' -> f_fs (w_files w) !! path = Some n ->
     w_files w' = opened path false (w_files w) -> Q (f_next (w_files w)) w') ->
  wp (sys_open path (Z.lor O_RDONLY O_NOFOLLOW)) Q w.
Proof.
  intros He Hok. unfold sys_open. apply (wp_transfer (fun e => fail_with e (-1))).
  - intros e w' Hf Hlt. apply wp_fail_with, He; try frame. rewrite no_faults_flen. lia.
  - intros f w' Hf _. do 2 wp_step. assert (w_files w' = w_files w) as Hw by frame. rewrite Hw.
    change (has_flag (Z.lor O_RDONLY O_NOFOLLOW) O_CREAT) with false. cbn [andb].
    unfold open_node. change (has_flag (Z.lor O_RDONLY O_NOFOLLOW) O_WRONLY) with false.
    change (has_flag (Z.lor O_RDONLY O_NOFOLLOW) O_TRUNC) with false.
    change (has_flag (Z.lor O_RDONLY O_NOFOLLOW) O_NOFOLLOW) with true. cbv zeta iota.
    assert (Hfiles : w_files (set_files (Files (f_fs (w_files w'))
        (<[f_next (w_files w') := FdFile path 0 false]> (f_fds (w_files w')))
        (f_next (w_files w') + 1) (f_pipes (w_files w'))) w') = opened path false (w_files w))
      by (simpl; by rewrite Hw).
    destruct (f_fs (w_files w) !! path) as [[c m|m|t m|m]|] eqn:E.
    + do 2 wp_step. wp_step. rewrite Hw at 1. eapply Hok; [frame|done|done].
    + wp_step. rewrite Hw at 1. eapply Hok; [frame|done|done].
    + wp_step. apply He; [frame|frame|eauto].
    + wp_step. rewrite Hw at 1. eapply Hok; [frame|done|done].
    + wp_step. apply He; [frame|frame|auto].
Qed.

(** [open(path, O_RDONLY)] of a regular file. *)
Lemma wp_sys_open_file path c m Q w :
  f_fs (w_files w) !! path = Some (NFile c m) ->
  (forall w', only_files w w' -> w_files w' = w_files w -> w_faults w <> [] -> Q (-1) w') ->
  (forall w', only_files w w' -> w_files w' = opened path false (w_files w) ->
     Q (f_next (w_files w)) w') ->
  wp (sys_open path O_RDONLY) Q w.
Proof.
  intros Hp He Hok. unfold sys_open. apply (wp_transfer (fun e => fail_with e (-1))).
  - intros e w' Hf Hlt. apply wp_fail_with, He; try frame. rewrite no_faults_flen. lia.
  - intros f w' Hf _. do 2 wp_step. assert (w_files w' = w_files w) as Hw by frame. rewrite Hw, Hp.
    change (has_flag O_RDONLY O_CREAT) with false. cbn [andb]. unfold open_node.
    change (has_flag O_RDONLY O_WRONLY) with false. change (has_flag O_RDONLY O_TRUNC) with false.
    cbv zeta iota. do 2 wp_step. wp_step. rewrite Hw at 1. apply Hok; [frame|].
    simpl. by rewrite Hw.
Qed.

Lemma opened_ok path wr f : fds_ok f -> fds_ok (opened path wr f).
Proof.
  intros [H0 H]. split; simpl; [lia|]. intros n Hn. rewrite lookup_insert_ne by lia. apply H. lia.
Qed.

(** Where [open] ends up: one symbolic link is followed. *)
Definition resolved (fs : gmap bytes node) (path : bytes) : bytes :=
  match fs !! path with Some (NLink t _) => t | _ => path end.

(** [open(path, O_RDONLY)]. *)
Lemma wp_sys_open_rdonly path Q w :
  (forall w', only_files w w' -> w_files w' = w_files w ->
     (w_faults w = [] -> forall c m, f_fs (w_files w) !! path <> Some (NFile c m)) -> Q (-1) w') ->
  (forall n w', only_files w w' -> 
     f_fs (w_files w) !! resolved (f_fs (w_files w)) path = Some n ->
     w_files w' = opened (resolved (f_fs (w_files w)) path) false (w_files w) ->
     Q (f_next (w_files w)) w') ->
  wp (sys_open path O_RDONLY) Q w.
Proof.
  intros He Hok. unfold sys_open. apply (wp_transfer (fun e => fail_with e (-1))).
  - intros e w' Hf Hlt. apply wp_fail_with, He; try frame. rewrite no_faults_flen. lia.
  - intros f w' Hf _. do 2 wp_step. assert (w_files w' = w_files w) as Hw by frame. rewrite Hw.
    change (has_flag O_RDONLY O_CREAT) with false. cbn [andb].
    change (has_flag O_RDONLY O_NOFOLLOW) with false. cbv iota.
    assert (Hopen : forall p n, f_fs (w_files w) !! p = Some n ->
              resolved (f_fs (w_files w)) path = p -> wp (open_node p n O_RDONLY) Q w').
    { intros p n Hp Hr. unfold open_node. change (has_flag O_RDONLY O_WRONLY) with false.
      change (has_flag O_RDONLY O_TRUNC) with false. cbv zeta iota. rewrite Hr in Hok.
      assert (Hgo : wp (alloc_fd (FdFile p 0 false)) Q w').
      { wp_step. rewrite Hw at 1. eapply Hok; [frame|done|]. simpl. by rewrite Hw. }
      destruct n; [do 2 wp_step|..]; done. }
    unfold resolved in *. destruct (f_fs (w_files w) !! path) as [[c m|m|t m|m]|] eqn:E; eauto.
    + destruct (f_fs (w_files w) !! t) as [[]|] eqn:Et; eauto; wp_step; apply He; try frame; congruence.
    + wp_step. apply He; frame.
Qed.

(** *** What was sent *)

Lemma said_nil w w' : n_out (w_net w') = n_out (w_net w) -> said_all [] w w'.
Proof. unfold said_all. by rewrite app_nil_r. Qed.

Lemma said_all_said s w w' : said_all s w w' -> said s w w'.
Proof. by exists s. Qed.

Lemma said_all_trans s1 s2 w1 w2 w3 :
  said_all s1 w1 w2 -> said_all s2 w2 w3 -> said_all (s1 ++ s2) w1 w3.
Proof. unfold said_all. intros H1 ->. by rewrite H1, <- app_assoc. Qed.

Lemma said_all_after s w1 w2 w3 :
  n_out (w_net w2) = n_out (w_net w1) -> said_all s w2 w3 -> said_all s w1 w3.
Proof. unfold said_all. by intros ->. Qed.

Lemma said_after s w1 w2 w3 :
  n_out (w_net w2) = n_out (w_net w1) -> said s w2 w3 -> said s w1 w3.
Proof. intros E (d & Hd & H). exists d. split; [done|by eapply said_all_after]. Qed.

Lemma said_trans s1 s2 w1 w2 w3 : said_all s1 w1 w2 -> said s2 w2 w3 -> said (s1 ++ s2) w1 w3.
Proof.
  intros H1 (d & [t ->] & H2). exists (s1 ++ d). split; [|by eapply said_all_trans].
  exists t. by rewrite app_assoc.
Qed.

Lemma said_more s t w w' : said s w w' -> said (s ++ t) w w'.
Proof. intros (d & [u ->] & H). exists d. split; [|done]. exists (u ++ t). by rewrite <- app_assoc. Qed.

Lemma said_net s w w' : w_net w' = w_net w -> said s w w'.
Proof. intros E. exists []. split; [by exists s|]. apply said_nil. by rewrite E. Qed.

(** *** Example worlds *)

Lemma demo_files_ok fs : fds_ok (demo_files fs).
Proof. split; [simpl; lia|done]. Qed.

(** A file open for writing at its end. *)
Definition demo_open (p c : bytes) : files_t :=
  Files {[p := NFile c 0]} {[3 := FdFile p (zlen c) true]} 4 ∅.

Lemma demo_open_ok p c : fds_ok (demo_open p c) /\ file_at (demo_open p c) 3 p c.
Proof.
  split; split; simpl.
  - lia.
  - intros n Hn. apply lookup_singleton_ne. lia.
  - apply lookup_singleton_eq.
  - exists 0. apply lookup_singleton_eq.
Qed.
