(* ===== verification/Signals.v ===== *)
(** * The shutdown flags (src/shutdown.c)

    A signal handler and the threads share two flags. A thread can only see them
    change where other threads run; here that is in [pthread_cond_timedwait]. *)

From S2P Require Import Prelude CLib World Logic.

(** ** Definitions *)

Definition SIGINT : Z := 2.
Definition SIGTERM : Z := 15.

(** [shutdown_set_requested(sig)], and the signal handler. *)
Definition shutdown_set_requested (sig : Z) (s : shutdown_t) : shutdown_t :=
  Shutdown 1 (if negb (sig =? 0) then sig else g_signal s).

Definition put_shutdown (s : shutdown_t) : M unit :=
  modify (fun w => set_prog (Prog (p_store (w_prog w)) s) w).
Definition get_shutdown : M shutdown_t := let! w := get in ret (p_shutdown (w_prog w)).

(** [sigaction]: 0 or -1. *)
Definition sys_sigaction (sig : Z) : M Z :=
  let! f := pop_fault in
  match f with FErr e => fail_with e (-1) | _ => ret 0 end.

Definition shutdown_init : M Z :=
  put_shutdown (Shutdown 0 0) ;;!
  let! r := sys_sigaction SIGINT in
  if negb (r =? 0) then ret 1
  else
    let! r := sys_sigaction SIGTERM in
    ret (if negb (r =? 0) then 1 else 0).

Definition shutdown_cleanup : M unit :=
  let! _ := sys_sigaction SIGINT in
  let! _ := sys_sigaction SIGTERM in
  ret tt.

Definition shutdown_request : M unit :=
  let! s := get_shutdown in put_shutdown (shutdown_set_requested 0 s).

Definition shutdown_requested : M Z :=
  let! s := get_shutdown in ret (if negb (g_requested s =? 0) then 1 else 0).

Definition shutdown_signal_number : M Z := let! s := get_shutdown in ret (g_signal s).

Definition shutdown_exit_code : Z := 130.

(** ** Theorems *)

Lemma wp_get_shutdown Q w : Q (p_shutdown (w_prog w)) w -> wp get_shutdown Q w.
Proof. done. Qed.

Lemma shutdown_requested_spec Q w :
  Q (if negb (g_requested (p_shutdown (w_prog w)) =? 0) then 1 else 0) w -> wp shutdown_requested Q w.
Proof. done. Qed.
