(* ===== verification/Fs.v ===== *)
(** * File system helpers (src/fs.c, POSIX build)

    Name and path validation, path building, complete writes, temporary files
    and their atomic commit, recursive removal. A [NULL] pointer is [None]; a
    function that fills a caller's buffer returns what the buffer holds. *)

From S2P Require Import Prelude CLib World Logic.

(** ** Definitions *)

(** [CHUNK_SIZE] (fs.h). *)
Definition CHUNK_SIZE : Z := 1024 * 1024.

Inductive fs_path_kind_t :=
  | FS_PATH_KIND_FILE
  | FS_PATH_KIND_DIR
  | FS_PATH_KIND_SYMLINK
  | FS_PATH_KIND_OTHER.

#[export] Instance fs_path_kind_eq_dec : EqDecision fs_path_kind_t.
Proof. solve_decision. Defined.

Record fs_path_info_t := PathInfo { kind : fs_path_kind_t; size : Z; mtime : Z }.

Definition fs_open (path : bytes) (flags mode : Z) : M Z := sys_open path flags.
Definition fs_read (fd len : Z) : M (Z * bytes) := sys_read fd len.
Definition fs_write (fd : Z) (buf : bytes) : M Z := sys_write fd buf.
Definition fs_close (fd : Z) : M Z := sys_close fd.
Definition fs_seek_start (fd : Z) : M Z :=
  let! r := sys_lseek_start fd in ret (if r <? 0 then -1 else 0).

(** The loop of [fs_write_all]; [total] bytes of [buf] are written. *)
Fixpoint fs_write_all_loop (fuel : nat) (fd : Z) (buf : bytes) (total : Z) : M Z :=
  match fuel with
  | O => out_of_fuel
  | S fuel =>
      if total <? zlen buf then
        let! n := fs_write fd (zdrop total buf) in
        if n =? -1 then
          let! errno := get_errno in
          if errno =? EINTR then fs_write_all_loop fuel fd buf total else ret (-1)
        else if n =? 0 then ret total
        else fs_write_all_loop fuel fd buf (total + n)
      else ret total
  end.

Definition fs_write_all (fd : Z) (buf : bytes) : M Z := fun w =>
  fs_write_all_loop (S (flen w + length buf)) fd buf 0 w.

Definition fs_validate_file_name (file_name : option bytes) : Z :=
  match file_name with
  | None => 1
  | Some s =>
      match s with
      | [] => 1
      | _ =>
          if bool_decide (strchr s 47 <> None) then 1
          else if bool_decide (strchr s 92 <> None) then 1
          else if strstr s [46; 46] then 1
          else 0
      end
  end.

(** The segment loop of [fs_validate_relative_path]. *)
Fixpoint fs_validate_segments (fuel : nat) (segment : bytes) : Z :=
  match fuel with
  | O => 1
  | S fuel =>
      match segment with
      | [] => 0
      | _ =>
          let slash := strchr segment 47 in
          let len := match slash with Some i => i | None => length segment end in
          if (len =? 0)%nat then 1
          else if (len =? 1)%nat && bool_decide (segment !! 0%nat = Some 46) then 1
          else if (len =? 2)%nat && bool_decide (segment !! 0%nat = Some 46)
                  && bool_decide (segment !! 1%nat = Some 46) then 1
          else match slash with
               | None => 0
               | Some i => fs_validate_segments fuel (drop (S i) segment)
               end
      end
  end.

Definition fs_validate_relative_path (path : option bytes) : Z :=
  match path with
  | None => 1
  | Some s =>
      match s with
      | [] => 1
      | c :: _ =>
          if c =? 47 then 1
          else if bool_decide (strchr s 92 <> None) then 1
          else fs_validate_segments (S (length s)) s
      end
  end.

(** [fs_join_path(out, out_cap, dir, file)]: the result and what [out] holds. *)
Definition fs_join_path (out_cap : Z) (dir file : option bytes) : Z * bytes :=
  if out_cap =? 0 then (1, [])
  else
    match dir, file with
    | Some dir, Some file =>
        let sep := if bool_decide (last dir = Some 47) then [] else [47] in
        let '(n, out) := snprintf out_cap (dir ++ sep ++ file) in
        if snprintf_failed n out_cap then (1, out) else (0, out)
    | _, _ => (1, [])
    end.

Definition fs_join_relative_path (out_cap : Z) (base_dir relative_path : option bytes)
    : Z * bytes :=
  if out_cap =? 0 then (1, [])
  else
    match base_dir with
    | None => (1, [])
    | Some base =>
        match relative_path with
        | None | Some [] =>
            let '(n, out) := snprintf out_cap base in
            (if snprintf_failed n out_cap then 1 else 0, out)
        | Some rel =>
            if negb (fs_validate_relative_path (Some rel) =? 0) then (1, [])
            else
              let '(r, out) := fs_join_path out_cap base_dir relative_path in
              if negb (r =? 0) then (1, out) else (0, out)
        end
    end.

(** [fs_stat_path(path, out)]: [None] is a non-zero result. *)
Definition fs_stat_path (path : option bytes) : M (option fs_path_info_t) :=
  match path with
  | None => ret None
  | Some path =>
      let! st := sys_lstat path in
      match st with
      | None => ret None
      | Some st =>
          match st_kind st with
          | S_IFLNK => ret (Some (PathInfo FS_PATH_KIND_SYMLINK 0 (u64 (st_mtime st))))
          | S_IFDIR => ret (Some (PathInfo FS_PATH_KIND_DIR 0 (u64 (st_mtime st))))
          | S_IFREG =>
              if st_size st <? 0 then ret None
              else ret (Some (PathInfo FS_PATH_KIND_FILE (st_size st) (u64 (st_mtime st))))
          | S_IFOTHER => ret (Some (PathInfo FS_PATH_KIND_OTHER 0 (u64 (st_mtime st))))
          end
      end
  end.

(** The text ["%s.tmp.%d.%d"]. *)
Definition temp_path_text (final_path : bytes) (pid attempt : Z) : bytes :=
  final_path ++ bs ".tmp." ++ sdec pid ++ bs "." ++ sdec attempt.

Definition fs_build_temp_path (out_cap : Z) (final_path : option bytes) (pid attempt : Z)
    : Z * bytes :=
  if out_cap =? 0 then (1, [])
  else
    match final_path with
    | None => (1, [])
    | Some p =>
        let '(n, out) := snprintf out_cap (temp_path_text p pid attempt) in
        if snprintf_failed n out_cap then (1, out) else (0, out)
    end.

Definition fs_open_temp_file (tmp_path : option bytes) : M Z :=
  match tmp_path with
  | None => fail_with EINVAL (-1)
  | Some p => fs_open p (Z.lor O_CREAT (Z.lor O_WRONLY (Z.lor O_TRUNC O_EXCL))) 420
  end.

Definition fs_commit_temp_file (tmp_path final_path : option bytes) : M Z :=
  match tmp_path, final_path with
  | Some a, Some b =>
      let! r := sys_rename a b in
      ret (if negb (r =? 0) then 1 else 0)
  | _, _ => ret 1
  end.

Definition fs_remove_ignore_error (path : option bytes) : M unit :=
  match path with
  | None => ret tt
  | Some p => let! _ := sys_remove p in ret tt
  end.

(** [fs_basename_from_path(&path, &name)]: the result and the name. *)
Definition fs_basename_from_path (file_path : option bytes) : Z * option bytes :=
  match file_path with
  | None => (1, None)
  | Some p =>
      match strrchr p 47 with
      | None => (0, Some p)
      | Some i => (0, Some (drop (S i) p))
      end
  end.

(** The two loops over a directory have one shape: [visit] is called on each
    child, [finish] when the directory has been read. *)
Fixpoint fs_each_child (visit : bytes -> M Z) (finish : M Z) (path : bytes)
    (names : list bytes) : M Z :=
  set_errno 0 ;;!
  let! de := sys_readdir names in
  match de, names with
  | Some d_name, _ :: names' =>
      if streq d_name [46] || streq d_name [46; 46] then
        fs_each_child visit finish path names'
      else
        let '(r, child_path) := fs_join_path 4096 (Some path) (Some d_name) in
        if negb (r =? 0) then
          let! _ := sys_closedir in fail_with ENAMETOOLONG 1
        else
          let! r := visit child_path in
          if negb (r =? 0) then let! _ := sys_closedir in ret 1
          else fs_each_child visit finish path names'
  | _, _ =>
      let! errno := get_errno in
      if negb (errno =? 0) then let! _ := sys_closedir in ret 1
      else finish
  end.

Fixpoint fs_remove_tree_validate (fuel : nat) (path : bytes) : M Z :=
  match fuel with
  | O => out_of_fuel
  | S fuel =>
      let! info := fs_stat_path (Some path) in
      match info with
      | None => ret 1
      | Some info =>
          match kind info with
          | FS_PATH_KIND_FILE => ret 0
          | FS_PATH_KIND_DIR =>
              let! dp := sys_opendir path in
              match dp with
              | None => ret 1
              | Some names =>
                  fs_each_child (fs_remove_tree_validate fuel)
                    (let! _ := sys_closedir in ret 0) path names
              end
          | _ => fail_with EINVAL 1
          end
      end
  end.

Fixpoint fs_remove_tree_impl (fuel : nat) (path : bytes) : M Z :=
  match fuel with
  | O => out_of_fuel
  | S fuel =>
      let! info := fs_stat_path (Some path) in
      match info with
      | None => ret 1
      | Some info =>
          match kind info with
          | FS_PATH_KIND_FILE =>
              let! r := sys_remove path in ret (if r =? 0 then 0 else 1)
          | FS_PATH_KIND_DIR =>
              let! dp := sys_opendir path in
              match dp with
              | None => ret 1
              | Some names =>
                  fs_each_child (fs_remove_tree_impl fuel)
                    (let! r := sys_closedir in
                     if negb (r =? 0) then ret 1
                     else let! r := sys_rmdir path in ret (if r =? 0 then 0 else 1))
                    path names
              end
          | _ => fail_with EINVAL 1
          end
      end
  end.

(** A child's path is longer than its parent's and shorter than 4096 bytes:
    that many levels are enough. *)
Definition fs_tree_depth : nat := 4098.

Definition fs_remove_tree (path : option bytes) : M Z :=
  match path with
  | None | Some [] => fail_with EINVAL 1
  | Some p =>
      let! r := fs_remove_tree_validate fs_tree_depth p in
      if negb (r =? 0) then ret 1 else fs_remove_tree_impl fs_tree_depth p
  end.

(** *** Specifications *)

(** A path segment that names an entry of the current directory. *)
Definition ok_segment (s : bytes) : Prop :=
  s <> [] /\ 47 ∉ s /\ 92 ∉ s /\ s <> [46] /\ s <> [46; 46].

Fixpoint join_slash (segs : list bytes) : bytes :=
  match segs with
  | [] => []
  | [s] => s
  | s :: segs' => s ++ 47 :: join_slash segs'
  end.

(** A relative path that stays below its base: good segments, separated by
    single slashes, with at most one slash at the end. *)
Definition relative_path_ok (p : bytes) : Prop :=
  exists segs, segs <> [] /\ Forall ok_segment segs /\
    (p = join_slash segs \/ p = join_slash segs ++ [47]).

(** A name with no separator and no "..". *)
Definition file_name_ok (s : bytes) : Prop :=
  s <> [] /\ 47 ∉ s /\ 92 ∉ s /\ ~ exists l r, s = l ++ [46; 46] ++ r.

Definition bad_segment (s : bytes) : Prop := s = [] \/ s = [46] \/ s = [46; 46].

#[export] Instance bad_segment_dec s : Decision (bad_segment s).
Proof. unfold bad_segment. apply _. Defined.

(** ** Theorems *)

(** *** Complete writes *)

Lemma fs_write_all_loop_spec fuel fd p buf pre todo c w :
  buf = pre ++ todo -> file_at (w_files w) fd p (c ++ pre) ->
  (flen w + length todo < fuel)%nat ->
  wp (fs_write_all_loop fuel fd buf (zlen pre)) (fun r w' =>
    only_files w w' /\ (w_faults w = [] -> r = zlen buf) /\
    exists d rest, todo = d ++ rest /\ (r = -1 \/ r = zlen pre + zlen d) /\
      files_grow fd p (c ++ pre ++ d) (w_files w) (w_files w')) w.
Proof.
  revert pre todo w. induction fuel as [|fuel IH]; intros pre todo w -> Hat Hf; [lia|].
  cbn [fs_write_all_loop]. wp_step; cycle 1.
  { wp_step. split_and!; [done|intros; len_lia|]. exists [], todo.
    split_and!; [done|right; simpl; lia|]. rewrite app_nil_r. by apply files_grow_refl. }
  wp_step. rewrite zdrop_app_exact by done.
  apply (wp_sys_write _ _ p (c ++ pre)); [done| |].
  - intros e w' Hfr Hsame Herr Hlt. simpl. wp_step. wp_step. wp_step.
    + eapply wp_mono; [apply (IH pre todo); [done|by rewrite Hsame|lia]|].
      intros r w2 (H1 & H2 & d & rest & H3 & H4 & H5). split_and!.
      * by etrans.
      * intros E. apply H2. eapply only_io_no_faults; [|done]. frame.
      * exists d, rest. by rewrite <- Hsame.
    + wp_step. split_and!; [done|rewrite no_faults_flen; lia|].
      exists [], todo. split_and!; [done|by left|]. rewrite app_nil_r, Hsame.
      by apply files_grow_refl.
  - intros d rest w' Hfr -> Hg Hfull.
    destruct (Z.eqb_spec (zlen d) (-1)); [lia|].
    destruct (Z.eqb_spec (zlen d) 0) as [E|Hne].
    + assert (d = []) as -> by (destruct d; [done|simpl in E; lia]).
      wp_step. split_and!; [done| |].
      * intros E0. rewrite (Hfull E0). len_lia.
      * exists [], rest. split_and!; [done|right; simpl; lia|]. by rewrite app_assoc.
    + replace (zlen pre + zlen d) with (zlen (pre ++ d)) by len_lia.
      eapply wp_mono; [apply (IH (pre ++ d) rest)|].
      * by rewrite <- app_assoc.
      * rewrite app_assoc. by eapply files_grow_at.
      * destruct Hfr as [(_ & _ & _ & ?) _]. len_lia.
      * intros r w2 (H1 & H2 & d2 & rest2 & -> & H4 & H5). split_and!.
        -- by etrans.
        -- intros E. rewrite H2 by (eapply only_io_no_faults; [|done]; frame). len_lia.
        -- exists (d ++ d2), rest2. split_and!; [by rewrite <- app_assoc| |].
           ++ destruct H4 as [->| ->]; [by left|right; len_lia].
           ++ rewrite <- app_assoc in H5. eapply files_grow_trans; eauto.
Qed.

(** [fs_write_all] appends a prefix of the buffer, all of it exactly when it
    returns the buffer's length; it always returns. *)
Lemma fs_write_all_spec fd p buf c w :
  file_at (w_files w) fd p c ->
  wp (fs_write_all fd buf) (fun r w' =>
    only_files w w' /\ (w_faults w = [] -> r = zlen buf) /\
    exists d rest, buf = d ++ rest /\ (r = -1 \/ r = zlen d) /\
      files_grow fd p (c ++ d) (w_files w) (w_files w')) w.
Proof.
  intros Hat.
  eapply wp_mono; [apply (fs_write_all_loop_spec _ fd p buf [] buf c)|]; try done.
  - by rewrite app_nil_r.
  - unfold flen. lia.
Qed.

(** *** Validation *)

Lemma fs_validate_file_name_iff s :
  fs_validate_file_name (Some s) = 0 <-> file_name_ok s.
Proof.
  unfold fs_validate_file_name, file_name_ok. destruct s as [|c s]; [naive_solver|].
  assert (Hne : c :: s <> []) by done. revert Hne. generalize (c :: s). intros n Hne.
  rewrite <- !strchr_None, <- strstr_spec.
  destruct (strchr n 47); [simpl; naive_solver|].
  destruct (strchr n 92); [simpl; naive_solver|].
  destruct (strstr n [46; 46]); simpl; naive_solver.
Qed.

Lemma segment_test {A} (p : bytes) (len : nat) (a b : A) :
  (len <= length p)%nat ->
  (if (len =? 0)%nat then a
   else if (len =? 1)%nat && bool_decide (p !! 0%nat = Some 46) then a
   else if (len =? 2)%nat && bool_decide (p !! 0%nat = Some 46)
           && bool_decide (p !! 1%nat = Some 46) then a
   else b) = if decide (bad_segment (take len p)) then a else b.
Proof.
  intros Hl. unfold bad_segment.
  set (d := decide _).
  destruct len as [|[|[|len]]]; simpl in d |- *.
  - by destruct d; naive_solver.
  - destruct p as [|x p]; simpl in *; [lia|].
    repeat case_bool_decide; destruct d; naive_solver.
  - destruct p as [|x [|y p]]; simpl in *; try lia.
    repeat case_bool_decide; destruct d; naive_solver.
  - destruct p as [|x [|y [|z p]]]; simpl in *; try lia.
    destruct d; naive_solver.
Qed.

Lemma fs_validate_segments_step fuel p :
  p <> [] ->
  fs_validate_segments (S fuel) p =
    let s := match strchr p 47 with Some i => take i p | None => p end in
    if decide (bad_segment s) then 1
    else match strchr p 47 with
         | None => 0
         | Some i => fs_validate_segments fuel (drop (S i) p)
         end.
Proof.
  intros Hp. cbn [fs_validate_segments]. destruct p as [|c p]; [done|].
  destruct (strchr (c :: p) 47) as [i|] eqn:E.
  - apply strchr_Some in E as (_ & _ & Hi). rewrite segment_test by lia. done.
  - rewrite segment_test by lia. by rewrite take_ge by lia.
Qed.

Lemma ok_segment_intro s : 47 ∉ s -> 92 ∉ s -> ~ bad_segment s -> ok_segment s.
Proof. unfold ok_segment, bad_segment. naive_solver. Qed.

Lemma fs_validate_segments_sound fuel p :
  92 ∉ p -> fs_validate_segments fuel p = 0 -> p = [] \/ relative_path_ok p.
Proof.
  revert p. induction fuel as [|fuel IH]; intros p Hb H; [done|].
  destruct (decide (p = [])) as [->|Hp]; [by left|right].
  rewrite fs_validate_segments_step in H by done. simpl in H.
  destruct (strchr p 47) as [i|] eqn:E.
  - apply strchr_Some in E as (E & Hni & Hi). case_decide as Hok; [done|].
    assert (Hseg : ok_segment (take i p)).
    { apply ok_segment_intro; [done| |done]. intros Hin. apply Hb. rewrite E. set_solver. }
    apply IH in H as [H|(segs & Hne & Hs & H)].
    + exists [take i p]. split_and!; [done|by constructor|]. right. rewrite E at 1. by rewrite H.
    + exists (take i p :: segs). split_and!; [done|by constructor|].
      destruct segs as [|s2 segs]; [done|]. cbn [join_slash] in *.
      destruct H as [H|H]; [left|right]; rewrite E at 1; rewrite H; [done|].
      by rewrite <- app_assoc.
    + intros Hin. apply Hb. rewrite E. set_solver.
  - apply strchr_None in E. case_decide as Hok; [done|].
    exists [p]. split_and!; [done|constructor; [by apply ok_segment_intro|done]|by left].
Qed.

Lemma ok_segment_not_bad s : ok_segment s -> ~ bad_segment s.
Proof. unfold ok_segment, bad_segment. naive_solver. Qed.

Lemma fs_validate_segments_cons fuel s p :
  ok_segment s ->
  fs_validate_segments (S fuel) (s ++ 47 :: p) = fs_validate_segments fuel p.
Proof.
  intros Hs. rewrite fs_validate_segments_step by (by destruct s).
  assert (47 ∉ s) by apply Hs. rewrite strchr_app by done. simpl.
  rewrite take_app_length, decide_False by by apply ok_segment_not_bad.
  f_equal. by rewrite drop_app_cons || (rewrite (cons_middle 47), app_assoc, drop_app_length'; [done|len_lia]).
Qed.

Lemma fs_validate_segments_last fuel s :
  ok_segment s -> fs_validate_segments (S fuel) s = 0.
Proof.
  intros Hs. rewrite fs_validate_segments_step by apply Hs.
  assert (strchr s 47 = None) as -> by (apply strchr_None, Hs). simpl.
  by rewrite decide_False by by apply ok_segment_not_bad.
Qed.

Lemma fs_validate_segments_complete fuel p :
  relative_path_ok p -> (length p < fuel)%nat -> fs_validate_segments fuel p = 0.
Proof.
  intros (segs & Hne & Hs & Hp). revert p fuel Hp.
  induction Hs as [|s segs Hok Hs IH]; intros p fuel Hp Hf; [done|].
  destruct fuel as [|fuel]; [lia|].
  destruct segs as [|s2 segs].
  - simpl in Hp. destruct Hp as [->| ->].
    + by apply fs_validate_segments_last.
    + rewrite fs_validate_segments_cons by done. destruct fuel; [len_lia|done].
  - destruct Hp as [->| ->].
    + change (join_slash (s :: s2 :: segs)) with (s ++ 47 :: join_slash (s2 :: segs)) in *.
      rewrite fs_validate_segments_cons by done. apply IH; [done|by left|len_lia].
    + change (join_slash (s :: s2 :: segs)) with (s ++ 47 :: join_slash (s2 :: segs)) in *.
      rewrite <- app_assoc, <- app_comm_cons in *.
      rewrite fs_validate_segments_cons by done. apply IH; [done|by right|len_lia].
Qed.

Lemma join_slash_no c segs :
  c <> 47 -> Forall (fun s => c ∉ s) segs -> c ∉ join_slash segs.
Proof.
  intros Hc. induction 1 as [|s segs Hs Hss IH]; simpl; [set_solver|].
  destruct segs; [done|]. set_solver.
Qed.

Lemma fs_validate_relative_path_iff p :
  fs_validate_relative_path (Some p) = 0 <-> relative_path_ok p.
Proof.
  unfold fs_validate_relative_path. split.
  - destruct p as [|c p]; [done|]. destruct (c =? 47) eqn:Ec; [done|].
    case_bool_decide as Hb; [done|].
    intros H. apply fs_validate_segments_sound in H; [|by apply strchr_None].
    by destruct H.
  - intros Hok. pose proof Hok as (segs & Hne & Hs & Hp).
    assert (92 ∉ p) as Hb.
    { assert (92 ∉ join_slash segs).
      { apply join_slash_no; [lia|]. eapply Forall_impl; [done|]. intros s Hx. apply Hx. }
      destruct Hp as [->| ->]; set_solver. }
    assert (exists c p', p = c :: p' /\ c <> 47) as (c & p' & -> & Hc).
    { destruct segs as [|s segs]; [done|]. inversion Hs as [|? ? Hseg _]; subst.
      destruct s as [|c s]; [by destruct Hseg|].
      assert (c <> 47) by (destruct Hseg as (_ & ? & _); set_solver).
      destruct segs; destruct Hp as [->| ->]; simpl; eauto. }
    destruct (Z.eqb_spec c 47); [done|].
    rewrite bool_decide_eq_false_2 by (rewrite <- strchr_None in Hb; naive_solver).
    apply fs_validate_segments_complete; [done|lia].
Qed.

(** *** Building paths *)

Lemma fs_join_path_0 cap dir file out :
  fs_join_path cap (Some dir) (Some file) = (0, out) ->
  out = entry_path dir file /\ zlen out < cap.
Proof.
  unfold fs_join_path, entry_path. case_if; [done|].
  set (text := dir ++ _). intros H.
  destruct (snprintf_failed (fst (snprintf cap text)) cap) eqn:E;
    destruct (snprintf cap text) as [n o] eqn:Es; simpl in E; rewrite E in H; [done|].
  injection H as <-. pose proof (snprintf_fits cap text) as Hf. rewrite Es in Hf. simpl in Hf.
  destruct (Hf E) as (_ & ? & ->). done.
Qed.

Lemma fs_join_path_fits cap dir file :
  0 < cap <= INT_MAX -> zlen (entry_path dir file) < cap ->
  fs_join_path cap (Some dir) (Some file) = (0, entry_path dir file).
Proof.
  intros Hc Hl. unfold fs_join_path. destruct (Z.eqb_spec cap 0); [lia|].
  fold (entry_path dir file). destruct (snprintf_ok cap (entry_path dir file)) as [-> E]; [done|lia|].
  by rewrite E.
Qed.

Lemma fs_join_relative_path_0 cap base rel out :
  rel <> [] ->
  fs_join_relative_path cap (Some base) (Some rel) = (0, out) ->
  relative_path_ok rel /\ out = entry_path base rel /\ zlen out < cap.
Proof.
  intros Hne. unfold fs_join_relative_path. case_if; [done|].
  destruct rel as [|c rel]; [done|]. case_if; [done|]. intros H.
  destruct (fs_join_path cap (Some base) (Some (c :: rel))) as [r o] eqn:Ej.
  destruct (Z.eqb_spec r 0); simpl in H; [|done]. injection H as <-. subst r.
  split; [|by apply fs_join_path_0]. apply fs_validate_relative_path_iff. lia.
Qed.

Lemma fs_join_relative_path_fits cap base rel :
  0 < cap <= INT_MAX -> relative_path_ok rel -> zlen (entry_path base rel) < cap ->
  fs_join_relative_path cap (Some base) (Some rel) = (0, entry_path base rel).
Proof.
  intros Hc Hok Hl. unfold fs_join_relative_path. destruct (Z.eqb_spec cap 0); [lia|].
  apply fs_validate_relative_path_iff in Hok.
  destruct rel as [|c rel]; [done|]. rewrite Hok. simpl negb. cbv iota.
  rewrite fs_join_path_fits by done. done.
Qed.

Lemma fs_build_temp_path_0 cap p pid k out :
  fs_build_temp_path cap (Some p) pid k = (0, out) ->
  out = temp_path_text p pid k /\ zlen out < cap.
Proof.
  unfold fs_build_temp_path. case_if; [done|].
  set (text := temp_path_text p pid k). intros H.
  destruct (snprintf_failed (fst (snprintf cap text)) cap) eqn:E;
    destruct (snprintf cap text) as [n o] eqn:Es; simpl in E; rewrite E in H; [done|].
  injection H as <-. pose proof (snprintf_fits cap text) as Hf. rewrite Es in Hf. simpl in Hf.
  destruct (Hf E) as (_ & ? & ->). done.
Qed.

Lemma fs_build_temp_path_fits cap p pid k :
  0 < cap <= INT_MAX -> zlen (temp_path_text p pid k) < cap ->
  fs_build_temp_path cap (Some p) pid k = (0, temp_path_text p pid k).
Proof.
  intros Hc Hl. unfold fs_build_temp_path. destruct (Z.eqb_spec cap 0); [lia|].
  destruct (snprintf_ok cap (temp_path_text p pid k)) as [-> E]; [done|lia|]. by rewrite E.
Qed.

Lemma temp_path_neq p pid k : temp_path_text p pid k <> p.
Proof. unfold temp_path_text. intros E. apply (f_equal length) in E. simpl in *. len_lia. Qed.

Lemma temp_path_nonempty p pid k : temp_path_text p pid k <> [].
Proof. unfold temp_path_text. intros E. apply (f_equal length) in E. simpl in *. len_lia. Qed.

Lemma sdec_no_slash n : 47 ∉ sdec n.
Proof.
  unfold sdec. destruct (Z.ltb_spec n 0).
  - rewrite not_elem_of_cons. split; [done|]. apply udec_no; [lia|done].
  - apply udec_no; [lia|done].
Qed.

Lemma strrchr_no (s : bytes) c : c ∉ s -> strrchr s c = None.
Proof.
  induction s as [|b s IH]; simpl; [done|]. intros H.
  rewrite IH by set_solver. destruct (Z.eqb_spec b c); [set_solver|done].
Qed.

Lemma strrchr_app_no (p s : bytes) c : c ∉ s -> strrchr (p ++ s) c = strrchr p c.
Proof.
  intros Hs. induction p as [|b p IH]; simpl; [by apply strrchr_no|]. by rewrite IH.
Qed.

Lemma strrchr_lt (s : bytes) c i : strrchr s c = Some i -> (i < length s)%nat.
Proof.
  revert i. induction s as [|b s IH]; simpl; intros i H; [done|].
  destruct (strrchr s c) as [j|]; [injection H as <-; specialize (IH j eq_refl); lia|].
  destruct (b =? c); [injection H as <-; lia|done].
Qed.

(** A temporary file lives in the directory of its final path. *)
Lemma parent_ok_temp fs p pid k : parent_ok fs (temp_path_text p pid k) = parent_ok fs p.
Proof.
  unfold parent_ok, temp_path_text. rewrite strrchr_app_no.
  - destruct (strrchr p 47) as [[|i]|] eqn:E; try done.
    apply strrchr_lt in E. by rewrite take_app_le by lia.
  - rewrite !not_elem_of_app. split_and!; try apply sdec_no_slash; vm_compute; set_solver.
Qed.

(** *** Temporary files *)

(** The file created by [fs_open_temp_file]: empty, new, open at the next
    descriptor. *)
Definition temp_opened (p : bytes) (now : Z) (f f' : files_t) : Prop :=
  f_fs f !! p = None /\
  f' = Files (<[p := NFile [] now]> (f_fs f))
             (<[f_next f := FdFile p 0 true]> (f_fds f)) (f_next f + 1) (f_pipes f).

Lemma fs_open_temp_file_spec p w :
  wp (fs_open_temp_file (Some p)) (fun r w' =>
    only_files w w' /\
    ((r = -1 /\ w_files w' = w_files w /\
      (w_faults w = [] ->
         (is_Some (f_fs (w_files w) !! p) /\ w_errno w' = EEXIST) \/
         parent_ok (f_fs (w_files w)) p = false)) \/
     (r = f_next (w_files w) /\ parent_ok (f_fs (w_files w)) p = true /\
      temp_opened p (e_now (w_env w)) (w_files w) (w_files w')))) w.
Proof.
  unfold fs_open_temp_file, fs_open, sys_open.
  apply (wp_transfer (fun e => fail_with e (-1))).
  - intros e w' Hf Hlt. apply wp_fail_with. split; [frame|]. left.
    split_and!; [done|frame|]. rewrite no_faults_flen. lia.
  - intros f w' Hf _. do 2 wp_step.
    assert (w_files w' = w_files w) as Hw by frame.
    assert (w_env w' = w_env w) as He by frame. rewrite Hw.
    destruct (f_fs (w_files w) !! p) as [n|] eqn:E.
    + change (has_flag _ O_CREAT && has_flag _ O_EXCL) with true. cbv iota.
      wp_step. split; [frame|]. left. split_and!; [done|done|]. intros _. left. split; [by eexists|done].
    + change (has_flag _ O_CREAT) with true. cbn [andb]. wp_step.
      * do 3 wp_step. split; [frame|]. right. simpl. rewrite Hw, He. done.
      * wp_step. split; [frame|]. left. split_and!; [done|done|]. by right.
Qed.

Lemma temp_opened_at p now f f' :
  fds_ok f -> temp_opened p now f f' -> file_at f' (f_next f) p [] /\ fds_ok f'.
Proof.
  intros [H0 Hok] [_ ->]. split; [split|split]; simpl.
  - by rewrite lookup_insert_eq.
  - exists now. by rewrite lookup_insert_eq.
  - lia.
  - intros n Hn. rewrite lookup_insert_ne by lia. apply Hok. lia.
Qed.

Lemma fs_remove_ignore_error_spec p w :
  (forall m, f_fs (w_files w) !! p <> Some (NDir m)) ->
  wp (fs_remove_ignore_error (Some p)) (fun _ w' =>
    only_files w w' /\
    (w_files w' = w_files w \/
     w_files w' = set_fs (delete p (f_fs (w_files w))) (w_files w)) /\
    (w_faults w = [] -> f_fs (w_files w') = delete p (f_fs (w_files w)))) w.
Proof.
  intros Hnd. unfold fs_remove_ignore_error. wp_step. apply wp_sys_remove; [done| |].
  - intros w' Hf Hw Hn. wp_step. split_and!; [done|by left|].
    intros E. rewrite Hw. symmetry. apply delete_id. by apply Hn.
  - intros w' Hf Hw. wp_step. split_and!; [done|by right|]. by rewrite Hw.
Qed.

(** A name without a slash names an entry of the directory itself. *)
Lemma entry_name_path dir name :
  name <> [] -> 47 ∉ name -> entry_name dir (entry_path dir name) = Some name.
Proof.
  intros Hne Hs. unfold entry_name, entry_path.
  generalize (if bool_decide (last dir = Some 47) then [] else [47]). intros sep.
  rewrite app_nil_r.
  assert (prefixb (dir ++ sep) (dir ++ sep ++ name) = true) as ->.
  { apply prefixb_spec. exists name. by rewrite app_assoc. }
  rewrite (app_assoc dir), drop_app_length. cbv zeta.
  apply strchr_None in Hs. destruct name as [|c name]; [done|]. by rewrite Hs.
Qed.

(** A file name that passes validation is such a name, *)
Lemma file_name_entry dir name :
  file_name_ok name -> entry_name dir (entry_path dir name) = Some name.
Proof. intros (Hne & Hs & _ & _). by apply entry_name_path. Qed.

(** and so is the name of its temporary file. *)
Lemma temp_path_entry dir name pid k :
  file_name_ok name ->
  entry_name dir (temp_path_text (entry_path dir name) pid k) =
    Some (temp_path_text name pid k).
Proof.
  intros (Hne & Hs & _ & _). rewrite <- entry_name_path with (dir := dir).
  - unfold temp_path_text, entry_path. by rewrite <- !app_assoc.
  - unfold temp_path_text. by destruct name.
  - unfold temp_path_text. rewrite !not_elem_of_app.
    split_and!; [done| |apply sdec_no_slash| |apply sdec_no_slash].
    + by apply (bool_decide_unpack _).
    + by apply (bool_decide_unpack _).
Qed.

(** ** Properties *)

(** [fs_validate_file_name] accepts exactly the non-empty names without
    '/', '\' and ".."; such a name, joined to a directory, is an entry of that
    directory itself. *)
Theorem fs_validate_file_name_exact s dir :
  (fs_validate_file_name (Some s) = 0 <-> file_name_ok s) /\
  (fs_validate_file_name (Some s) = 0 -> entry_name dir (entry_path dir s) = Some s).
Proof.
  split; [apply fs_validate_file_name_iff|].
  intros H. by apply file_name_entry, fs_validate_file_name_iff.
Qed.

(** [fs_validate_relative_path] accepts exactly the relative paths made of
    segments other than "", "." and "..", separated by single slashes and
    without '\'; one slash may follow the last segment. *)
Theorem fs_validate_relative_path_exact p :
  fs_validate_relative_path (Some p) = 0 <-> relative_path_ok p.
Proof. apply fs_validate_relative_path_iff. Qed.

(** The path builders never write more than the buffer holds, report
    success exactly when the whole path fits, and then produce it:
    [dir/file], and the temporary name [path.tmp.<pid>.<attempt>], which is in
    the same directory and differs from the path. *)
Theorem fs_path_builders_exact cap dir file pid attempt fs
    (Hcap : 0 < cap <= INT_MAX) :
  let '(r1, out1) := fs_join_path cap (Some dir) (Some file) in
  let '(r2, out2) := fs_build_temp_path cap (Some dir) pid attempt in
  zlen out1 < cap /\ (r1 = 0 <-> zlen (entry_path dir file) < cap) /\
  (r1 = 0 -> out1 = entry_path dir file) /\
  zlen out2 < cap /\ (r2 = 0 <-> zlen (temp_path_text dir pid attempt) < cap) /\
  (r2 = 0 -> out2 = temp_path_text dir pid attempt /\ out2 <> dir /\
             parent_ok fs out2 = parent_ok fs dir).
Proof.
  assert (Hb : forall text, zlen (snd (snprintf cap text)) < cap) by (intros; simpl; len_lia).
  destruct (fs_join_path cap (Some dir) (Some file)) as [r1 out1] eqn:E1.
  destruct (fs_build_temp_path cap (Some dir) pid attempt) as [r2 out2] eqn:E2.
  split_and!.
  - revert E1. unfold fs_join_path. fold (entry_path dir file).
    case_if; [lia|]. specialize (Hb (entry_path dir file)).
    destruct (snprintf cap (entry_path dir file)). case_if; intros [= _ <-]; done.
  - split; [intros ->|intros Hl].
    + by apply fs_join_path_0 in E1 as [-> ?].
    + rewrite fs_join_path_fits in E1 by done. by injection E1.
  - intros ->. by apply fs_join_path_0 in E1 as [-> ?].
  - revert E2. unfold fs_build_temp_path. case_if; [lia|].
    specialize (Hb (temp_path_text dir pid attempt)).
    destruct (snprintf cap (temp_path_text dir pid attempt)). case_if; intros [= _ <-]; done.
  - split; [intros ->|intros Hl].
    + by apply fs_build_temp_path_0 in E2 as [-> ?].
    + rewrite fs_build_temp_path_fits in E2 by done. by injection E2.
  - intros ->. apply fs_build_temp_path_0 in E2 as [-> ?].
    split_and!; [done|apply temp_path_neq|apply parent_ok_temp].
Qed.

Lemma fs_path_builders_exact_witness :
  let '(r1, out1) := fs_join_path 8 (Some (bs "dir")) (Some (bs "name")) in
  let '(r2, out2) := fs_build_temp_path 8 (Some (bs "dir")) 12 1 in
  zlen out1 < 8 /\ (r1 = 0 <-> zlen (entry_path (bs "dir") (bs "name")) < 8) /\
  (r1 = 0 -> out1 = entry_path (bs "dir") (bs "name")) /\
  zlen out2 < 8 /\ (r2 = 0 <-> zlen (temp_path_text (bs "dir") 12 1) < 8) /\
  (r2 = 0 -> out2 = temp_path_text (bs "dir") 12 1 /\ out2 <> bs "dir" /\
             parent_ok ∅ out2 = parent_ok ∅ (bs "dir")).
Proof.
  apply (fs_path_builders_exact 8 (bs "dir") (bs "name") 12 1 ∅). unfold INT_MAX. lia.
Defined.

(** [fs_write_all] always returns; the file grew by a prefix of the buffer,
    by all of it exactly when the result is the length of the buffer, which it
    is when nothing fails; nothing else changes. *)
Theorem fs_write_all_writes_all fd p buf c w (Hat : file_at (w_files w) fd p c) :
  wp (fs_write_all fd buf) (fun r w' =>
    w_net w' = w_net w /\ (w_faults w = [] -> r = zlen buf) /\
    exists d rest, buf = d ++ rest /\ (r = -1 \/ r = zlen d) /\ (r = zlen buf -> rest = []) /\
      files_grow fd p (c ++ d) (w_files w) (w_files w')) w.
Proof.
  wp_use fs_write_all_spec; [done|]. intros r w' ([_ Hn] & H0 & d & rest & -> & Hr & Hg).
  split_and!; try done. exists d, rest. split_and!; try done.
  intros E. destruct rest; [done|]. len_lia.
Qed.

Lemma fs_write_all_writes_all_witness :
  let w := demo_world [FShort 1; FErr EINTR; FShort 1; FErr EIO] [] (demo_open (bs "f") [9]) in
  wp (fs_write_all 3 [1; 2; 3]) (fun r w' =>
    w_net w' = w_net w /\ (w_faults w = [] -> r = 3) /\
    exists d rest, [1; 2; 3] = d ++ rest /\ (r = -1 \/ r = zlen d) /\ (r = 3 -> rest = []) /\
      files_grow 3 (bs "f") ([9] ++ d) (w_files w) (w_files w')) w.
Proof. apply fs_write_all_writes_all. apply demo_open_ok. Defined.
