(* ===== verification/Net.v ===== *)
(** * Socket transfers (src/net.c, Linux build)

    Complete sends and receives, big-endian 64-bit integers, and the two ways a
    file crosses the connection: zero-copy ([sendfile], [splice] through a pipe)
    and buffered, the first falling back on the second before any byte moved. *)

From S2P Require Import Prelude CLib World Logic Fs.

(** ** Definitions *)

Definition is_socket_invalid (sock : Z) : bool := sock <? 0.

Inductive net_send_file_result_t :=
  | NET_SEND_FILE_OK
  | NET_SEND_FILE_UNSUPPORTED
  | NET_SEND_FILE_SOURCE_CHANGED
  | NET_SEND_FILE_IO
  | NET_SEND_FILE_INVALID_ARGUMENT.

Inductive net_recv_file_result_t :=
  | NET_RECV_FILE_OK
  | NET_RECV_FILE_UNSUPPORTED
  | NET_RECV_FILE_EOF
  | NET_RECV_FILE_IO
  | NET_RECV_FILE_INVALID_ARGUMENT.

#[export] Instance net_send_file_result_eq_dec : EqDecision net_send_file_result_t.
Proof. solve_decision. Defined.
#[export] Instance net_recv_file_result_eq_dec : EqDecision net_recv_file_result_t.
Proof. solve_decision. Defined.

Fixpoint send_all_loop (fuel : nat) (sock : Z) (data : bytes) (total : Z) : M Z :=
  match fuel with
  | O => out_of_fuel
  | S fuel =>
      if total <? zlen data then
        let! n := sys_send sock (zdrop total data) in
        if n <? 0 then
          let! errno := get_errno in
          if errno =? EINTR then send_all_loop fuel sock data total else ret (-1)
        else if n =? 0 then ret total
        else send_all_loop fuel sock data (total + n)
      else ret total
  end.

Definition send_all (sock : Z) (data : bytes) : M Z := fun w =>
  send_all_loop (S (flen w + length data)) sock data 0 w.

(** [buf] holds the [total] bytes received so far. *)
Fixpoint recv_all_loop (fuel : nat) (sock len : Z) (buf : bytes) : M (Z * bytes) :=
  match fuel with
  | O => out_of_fuel
  | S fuel =>
      if zlen buf <? len then
        let! (n, d) := sys_recv sock (len - zlen buf) in
        if n <? 0 then
          let! errno := get_errno in
          if errno =? EINTR then recv_all_loop fuel sock len buf else ret (-1, buf)
        else if n =? 0 then ret (zlen buf, buf)
        else recv_all_loop fuel sock len (buf ++ d)
      else ret (zlen buf, buf)
  end.

(** [recv_all(sock, buf, len)]: the result and the bytes stored in [buf]. *)
Definition recv_all (sock len : Z) : M (Z * bytes) := fun w =>
  recv_all_loop (S (flen w + length (n_in (w_net w)))) sock len [] w.

Definition encode_u64_be (v : Z) : bytes :=
  [ u8 (Z.land (Z.shiftr v 56) 255);
    u8 (Z.land (Z.shiftr v 48) 255);
    u8 (Z.land (Z.shiftr v 40) 255);
    u8 (Z.land (Z.shiftr v 32) 255);
    u8 (Z.land (Z.shiftr v 24) 255);
    u8 (Z.land (Z.shiftr v 16) 255);
    u8 (Z.land (Z.shiftr v 8) 255);
    u8 (Z.land v 255) ].

Definition decode_u64_be (b : bytes) : Z :=
  Z.lor (Z.lor (Z.lor (Z.lor (Z.lor (Z.lor (Z.lor
    (Z.shiftl (nth 0 b 0) 56)
    (Z.shiftl (nth 1 b 0) 48))
    (Z.shiftl (nth 2 b 0) 40))
    (Z.shiftl (nth 3 b 0) 32))
    (Z.shiftl (nth 4 b 0) 24))
    (Z.shiftl (nth 5 b 0) 16))
    (Z.shiftl (nth 6 b 0) 8))
    (nth 7 b 0).

Definition socket_close (s : Z) : M Z :=
  if is_socket_invalid s then ret 0 else sys_sockcall.

(** *** Sending a file *)

(** The length of the file behind a descriptor (to bound the loops). *)
Definition fd_length (fd : Z) (w : world) : nat :=
  match f_fds (w_files w) !! fd with
  | Some (FdFile path _ _) =>
      match f_fs (w_files w) !! path with Some (NFile c _) => length c | _ => O end
  | _ => O
  end.

Definition SIZE_MAX : Z := 2 ^ 64 - 1.

Definition unsupported_errno (errno : Z) : bool :=
  (errno =? EINVAL) || (errno =? ENOSYS) || (errno =? ENOTSUP).

Fixpoint net_send_file_all_loop (fuel : nat) (sock in_fd offset remaining : Z)
    : M net_send_file_result_t :=
  match fuel with
  | O => out_of_fuel
  | S fuel =>
      if 0 <? remaining then
        let want := if SIZE_MAX <? remaining then SIZE_MAX else remaining in
        let! (n, offset') := sys_sendfile sock in_fd offset want in
        if n <? 0 then
          let! errno := get_errno in
          if unsupported_errno errno && (offset' =? 0) then ret NET_SEND_FILE_UNSUPPORTED
          else if errno =? EINTR then
            net_send_file_all_loop fuel sock in_fd offset' remaining
          else ret NET_SEND_FILE_IO
        else if n =? 0 then ret NET_SEND_FILE_SOURCE_CHANGED
        else net_send_file_all_loop fuel sock in_fd offset' (u64 (remaining - n))
      else ret NET_SEND_FILE_OK
  end.

Definition net_send_file_all (sock in_fd content_size : Z) : M net_send_file_result_t :=
  if content_size =? 0 then ret NET_SEND_FILE_OK
  else if is_socket_invalid sock || (in_fd <? 0) then ret NET_SEND_FILE_INVALID_ARGUMENT
  else fun w =>
    net_send_file_all_loop (S (flen w + fd_length in_fd w)) sock in_fd 0 content_size w.

Fixpoint net_send_file_buffered_loop (fuel : nat) (sock in_fd remaining : Z)
    : M net_send_file_result_t :=
  match fuel with
  | O => out_of_fuel
  | S fuel =>
      if 0 <? remaining then
        let want := if remaining <? CHUNK_SIZE then remaining else CHUNK_SIZE in
        let! (nr, buf) := fs_read in_fd want in
        if nr <? 0 then ret NET_SEND_FILE_IO
        else if nr =? 0 then ret NET_SEND_FILE_SOURCE_CHANGED
        else
          let! n := send_all sock buf in
          if negb (n =? nr) then ret NET_SEND_FILE_IO
          else net_send_file_buffered_loop fuel sock in_fd (u64 (remaining - nr))
      else ret NET_SEND_FILE_OK
  end.

Definition net_send_file_buffered (sock in_fd content_size : Z) : M net_send_file_result_t :=
  if is_socket_invalid sock || (in_fd <? 0) then ret NET_SEND_FILE_INVALID_ARGUMENT
  else if content_size =? 0 then ret NET_SEND_FILE_OK
  else
    let! buf := sys_malloc in
    if negb buf then ret NET_SEND_FILE_IO
    else fun w =>
      net_send_file_buffered_loop (S (flen w + fd_length in_fd w)) sock in_fd content_size w.

Definition net_send_file_best_effort (sock in_fd content_size : Z)
    : M net_send_file_result_t :=
  let! res := net_send_file_all sock in_fd content_size in
  if negb (bool_decide (res = NET_SEND_FILE_UNSUPPORTED)) then ret res
  else net_send_file_buffered sock in_fd content_size.

(** *** Receiving a file *)

Definition close_pipe (pipefd : Z * Z) : M unit :=
  let! _ := sys_close (fst pipefd) in
  let! _ := sys_close (snd pipefd) in
  ret tt.

(** The loop that empties the pipe into the file: the remaining and moved byte
    counts, or the result [net_recv_file_all] returns at once. *)
Fixpoint net_drain_pipe (fuel : nat) (pipefd : Z * Z) (out_fd pipe_remaining remaining moved : Z)
    : M (Z * Z + net_recv_file_result_t) :=
  match fuel with
  | O => out_of_fuel
  | S fuel =>
      if 0 <? pipe_remaining then
        let! written := sys_splice_from_pipe (fst pipefd) out_fd pipe_remaining in
        if written <? 0 then
          let! errno := get_errno in
          if errno =? EINTR then
            net_drain_pipe fuel pipefd out_fd pipe_remaining remaining moved
          else close_pipe pipefd ;;! ret (inr NET_RECV_FILE_IO)
        else if written =? 0 then close_pipe pipefd ;;! ret (inr NET_RECV_FILE_IO)
        else net_drain_pipe fuel pipefd out_fd (pipe_remaining - written)
               (u64 (remaining - written)) (u64 (moved + written))
      else ret (inl (remaining, moved))
  end.

(** The transfer loop; [pipe] is [Some] once [use_pipe_fallback] is set. *)
Fixpoint net_recv_file_all_loop (fuel : nat) (sock out_fd remaining moved : Z)
    (pipe : option (Z * Z)) (file_offset : Z) : M net_recv_file_result_t :=
  match fuel with
  | O => out_of_fuel
  | S fuel =>
      if 0 <? remaining then
        let want := if remaining <? CHUNK_SIZE then remaining else CHUNK_SIZE in
        match pipe with
        | None =>
            let! (n, file_offset) := sys_splice_direct sock out_fd file_offset want in
            if n <? 0 then
              let! errno := get_errno in
              if unsupported_errno errno && (moved =? 0) then
                let! p := sys_pipe in
                match p with
                | None =>
                    let! errno := get_errno in
                    if (errno =? EMFILE) || (errno =? ENFILE) then ret NET_RECV_FILE_IO
                    else ret NET_RECV_FILE_UNSUPPORTED
                | Some pipefd =>
                    net_recv_file_all_loop fuel sock out_fd remaining moved
                      (Some pipefd) file_offset
                end
              else if errno =? EINTR then
                net_recv_file_all_loop fuel sock out_fd remaining moved None file_offset
              else ret NET_RECV_FILE_IO
            else if n =? 0 then ret NET_RECV_FILE_EOF
            else
              net_recv_file_all_loop fuel sock out_fd (u64 (remaining - n)) (u64 (moved + n))
                None (file_offset + n)
        | Some pipefd =>
            let! n := sys_splice_to_pipe sock (snd pipefd) want in
            if n <? 0 then
              let! errno := get_errno in
              if unsupported_errno errno && (moved =? 0) then
                close_pipe pipefd ;;! ret NET_RECV_FILE_UNSUPPORTED
              else if errno =? EINTR then
                net_recv_file_all_loop fuel sock out_fd remaining moved pipe file_offset
              else close_pipe pipefd ;;! ret NET_RECV_FILE_IO
            else if n =? 0 then close_pipe pipefd ;;! ret NET_RECV_FILE_EOF
            else
              let! r := (fun w => net_drain_pipe (S (flen w + Z.to_nat n)) pipefd out_fd n
                                    remaining moved w) in
              match r with
              | inr res => ret res
              | inl (remaining, moved) =>
                  net_recv_file_all_loop fuel sock out_fd remaining moved pipe file_offset
              end
        end
      else
        match pipe with
        | Some pipefd => close_pipe pipefd ;;! ret NET_RECV_FILE_OK
        | None => ret NET_RECV_FILE_OK
        end
  end.

Definition net_recv_file_all (sock out_fd content_size : Z) : M net_recv_file_result_t :=
  if content_size =? 0 then ret NET_RECV_FILE_OK
  else if is_socket_invalid sock || (out_fd <? 0) then ret NET_RECV_FILE_INVALID_ARGUMENT
  else fun w =>
    net_recv_file_all_loop (S (S (flen w + length (n_in (w_net w))))) sock out_fd content_size
      0 None 0 w.

(** The receive loop over a buffer of [buf_cap] bytes. *)
Fixpoint net_recv_file_buffered_loop (fuel : nat) (sock out_fd buf_cap remaining : Z)
    : M net_recv_file_result_t :=
  match fuel with
  | O => out_of_fuel
  | S fuel =>
      if 0 <? remaining then
        let want := if remaining <? buf_cap then remaining else buf_cap in
        let! (n, buf) := sys_recv sock want in
        if n <? 0 then
          let! errno := get_errno in
          if errno =? EINTR then net_recv_file_buffered_loop fuel sock out_fd buf_cap remaining
          else ret NET_RECV_FILE_IO
        else if n =? 0 then ret NET_RECV_FILE_EOF
        else
          let! r := fs_write_all out_fd buf in
          if negb (r =? n) then ret NET_RECV_FILE_IO
          else net_recv_file_buffered_loop fuel sock out_fd buf_cap (u64 (remaining - n))
      else ret NET_RECV_FILE_OK
  end.

Definition net_recv_file_buffered (sock out_fd content_size : Z) : M net_recv_file_result_t :=
  if is_socket_invalid sock || (out_fd <? 0) then ret NET_RECV_FILE_INVALID_ARGUMENT
  else if content_size =? 0 then ret NET_RECV_FILE_OK
  else
    let loop buf_cap : M net_recv_file_result_t := fun w =>
      net_recv_file_buffered_loop (S (flen w + length (n_in (w_net w)))) sock out_fd buf_cap
        content_size w in
    if 1024 * 1024 <? content_size then
      let! heap_buf := sys_malloc in
      if negb heap_buf then ret NET_RECV_FILE_IO else loop (256 * 1024)
    else loop 8192.

Definition net_recv_file_best_effort (sock out_fd content_size : Z)
    : M net_recv_file_result_t :=
  let! res := net_recv_file_all sock out_fd content_size in
  if negb (bool_decide (res = NET_RECV_FILE_UNSUPPORTED)) then ret res
  else net_recv_file_buffered sock out_fd content_size.

(** ** Theorems *)

(** *** Complete sends and receives *)

Lemma send_all_loop_spec fuel sock data pre todo w :
  data = pre ++ todo -> (flen w + length todo < fuel)%nat ->
  wp (send_all_loop fuel sock data (zlen pre)) (fun r w' =>
    only_net w w' /\ (w_faults w = [] -> r = zlen data) /\
    exists d rest, todo = d ++ rest /\ (r = -1 \/ r = zlen pre + zlen d) /\
      w_net w' = Net (n_in (w_net w)) (n_out (w_net w) ++ d)) w.
Proof.
  revert pre todo w. induction fuel as [|fuel IH]; intros pre todo w -> Hf; [lia|].
  assert (Hnil : forall w : world, w_net w = Net (n_in (w_net w)) (n_out (w_net w) ++ [])).
  { intros w0. rewrite app_nil_r. by destruct (w_net w0). }
  cbn [send_all_loop]. wp_step; cycle 1.
  { wp_step. split_and!; [done|intros; len_lia|]. exists [], todo.
    split_and!; [done|right; simpl; lia|done]. }
  wp_step. rewrite zdrop_app_exact by done. apply wp_sys_send.
  - intros e w' Hfr Hsame Herr Hlt. simpl. wp_step. wp_step. wp_step.
    + eapply wp_mono; [apply (IH pre todo); [done|lia]|].
      intros r w2 (H1 & H2 & d & rest & H3 & H4 & H5). split_and!; [by etrans| |].
      * intros E. apply H2. eapply only_io_no_faults; [|done]. frame.
      * exists d, rest. by rewrite <- Hsame.
    + wp_step. split_and!; [done|rewrite no_faults_flen; lia|].
      exists [], todo. split_and!; [done|by left|]. by rewrite Hsame.
  - intros d rest w' Hfr -> Hg Hfull.
    destruct (Z.ltb_spec (zlen d) 0); [lia|].
    destruct (Z.eqb_spec (zlen d) 0) as [E|Hne].
    + assert (d = []) as -> by (destruct d; [done|simpl in E; lia]).
      wp_step. split_and!; [done| |].
      * intros E0. rewrite (Hfull E0). len_lia.
      * exists [], rest. split_and!; [done|right; simpl; lia|done].
    + replace (zlen pre + zlen d) with (zlen (pre ++ d)) by len_lia.
      eapply wp_mono; [apply (IH (pre ++ d) rest)|].
      * by rewrite <- app_assoc.
      * destruct Hfr as [(_ & _ & _ & ?) _]. len_lia.
      * intros r w2 (H1 & H2 & d2 & rest2 & -> & H4 & H5). split_and!; [by etrans| |].
        -- intros E. rewrite H2 by (eapply only_io_no_faults; [|done]; frame). len_lia.
        -- exists (d ++ d2), rest2. split_and!; [by rewrite <- app_assoc| |].
           ++ destruct H4 as [->| ->]; [by left|right; len_lia].
           ++ rewrite H5, Hg. simpl. by rewrite <- app_assoc.
Qed.

(** [send_all] always returns; it sent a prefix of the data, all of it exactly
    when it returns its length; interruptions are retried. *)
Lemma send_all_spec sock data w :
  wp (send_all sock data) (fun r w' =>
    only_net w w' /\ (w_faults w = [] -> r = zlen data) /\
    exists d rest, data = d ++ rest /\ (r = -1 \/ r = zlen d) /\
      w_net w' = Net (n_in (w_net w)) (n_out (w_net w) ++ d)) w.
Proof.
  eapply wp_mono; [apply (send_all_loop_spec _ sock data [] data)|]; try done.
  unfold flen. lia.
Qed.

Lemma recv_all_loop_spec fuel sock len buf w :
  zlen buf <= len -> (flen w + length (n_in (w_net w)) < fuel)%nat ->
  wp (recv_all_loop fuel sock len buf) (fun '(r, buf') w' =>
    only_net w w' /\
    exists d rest, n_in (w_net w) = d ++ rest /\ buf' = buf ++ d /\
      w_net w' = Net rest (n_out (w_net w)) /\
      (r = -1 /\ zlen buf' < len \/ r = zlen buf') /\ zlen buf' <= len /\
      (w_faults w = [] -> r = Z.min len (zlen buf + zlen (n_in (w_net w))))) w.
Proof.
  revert buf w. induction fuel as [|fuel IH]; intros buf w Hb Hf; [lia|].
  assert (Hnil : forall w : world, w_net w = Net (n_in (w_net w)) (n_out (w_net w))).
  { intros w0. by destruct (w_net w0). }
  cbn [recv_all_loop]. wp_step; cycle 1.
  { wp_step. split; [done|]. exists [], (n_in (w_net w)). rewrite app_nil_r.
    split_and!; try done; [by right|lia]. }
  wp_step. apply wp_sys_recv; [lia| |].
  - intros e w' Hfr Hsame Herr Hlt. simpl. wp_step. wp_step. wp_step.
    + eapply wp_mono; [apply IH; [done|rewrite Hsame; lia]|].
      intros [r buf'] w2 (H1 & d & rest & H2 & H3 & H4 & H5 & H6 & H7).
      split; [by etrans|]. rewrite <- Hsame. exists d, rest. split_and!; try done.
      intros E. apply H7. eapply only_io_no_faults; [|done]. frame.
    + wp_step. split; [done|]. exists [], (n_in (w_net w)). rewrite app_nil_r, Hsame.
      split_and!; try done; [left; lia|rewrite no_faults_flen; lia].
  - intros d rest w' Hfr Hin Hnet Hle Hmin.
    destruct (Z.ltb_spec (zlen d) 0); [lia|].
    destruct (Z.eqb_spec (zlen d) 0) as [E|Hne].
    + assert (d = []) as -> by (destruct d; [done|simpl in E; lia]).
      wp_step. split; [done|]. exists [], rest. rewrite app_nil_r.
      split_and!; try done; [by right|]. intros E0. specialize (Hmin E0). simpl in *. lia.
    + eapply wp_mono; [apply (IH (buf ++ d))|].
      * len_lia.
      * rewrite Hnet. simpl. destruct Hfr as [(_ & _ & _ & ?) _].
        rewrite Hin in Hf. len_lia.
      * intros [r buf'] w2 (H1 & d2 & rest2 & H2 & H3 & H4 & H5 & H6 & H7).
        rewrite Hnet in *. simpl in *. subst rest.
        split; [by etrans|]. exists (d ++ d2), rest2. split_and!; try done.
        -- by rewrite Hin, <- app_assoc.
        -- by rewrite H3, <- app_assoc.
        -- intros E. rewrite H7 by (eapply only_io_no_faults; [|done]; frame).
           rewrite Hin. len_lia.
Qed.

(** [recv_all] always returns; it consumed exactly the bytes it stored, in
    order, and reports how many unless an error stopped it short. *)
Lemma recv_all_spec sock len w :
  0 <= len ->
  wp (recv_all sock len) (fun '(r, buf) w' =>
    only_net w w' /\
    exists rest, n_in (w_net w) = buf ++ rest /\ w_net w' = Net rest (n_out (w_net w)) /\
      (r = -1 /\ zlen buf < len \/ r = zlen buf) /\ zlen buf <= len /\
      (w_faults w = [] -> r = Z.min len (zlen (n_in (w_net w))))) w.
Proof.
  intros Hl. eapply wp_mono; [apply (recv_all_loop_spec _ sock len [])|].
  - done.
  - unfold flen. lia.
  - intros [r buf] w' (H1 & d & rest & H2 & -> & H4 & H5 & H6 & H7).
    split; [done|]. exists rest. by split_and!.
Qed.

(** *** 64-bit integers, big endian *)

Lemma encode_u64_be_length v : length (encode_u64_be v) = 8%nat.
Proof. done. Qed.

Lemma encode_u64_be_bytes v : Forall is_byte (encode_u64_be v).
Proof. unfold encode_u64_be, u8. repeat constructor; apply Z.mod_pos_bound; lia. Qed.

Lemma encode_u64_be_div v :
  encode_u64_be v = [ (v / 2 ^ 56) mod 256; (v / 2 ^ 48) mod 256; (v / 2 ^ 40) mod 256;
                      (v / 2 ^ 32) mod 256; (v / 2 ^ 24) mod 256; (v / 2 ^ 16) mod 256;
                      (v / 2 ^ 8) mod 256; v mod 256 ].
Proof.
  unfold encode_u64_be.
  rewrite (byte_of_shift v 56), (byte_of_shift v 48), (byte_of_shift v 40), (byte_of_shift v 32),
    (byte_of_shift v 24), (byte_of_shift v 16), (byte_of_shift v 8) by lia.
  pose proof (byte_of_shift v 0) as H0. rewrite Z.shiftr_0_r, Z.div_1_r in H0.
  by rewrite H0 by lia.
Qed.

(** The value of eight bytes. *)
Lemma decode_u64_be_value b0 b1 b2 b3 b4 b5 b6 b7 :
  Forall is_byte [b0; b1; b2; b3; b4; b5; b6; b7] ->
  decode_u64_be [b0; b1; b2; b3; b4; b5; b6; b7] =
    ((((((b0 * 256 + b1) * 256 + b2) * 256 + b3) * 256 + b4) * 256 + b5) * 256 + b6) * 256 + b7.
Proof.
  rewrite !Forall_cons. intros (? & ? & ? & ? & ? & ? & ? & ? & _). unfold is_byte in *.
  unfold decode_u64_be. cbn [nth].
  rewrite (lor_shift_byte b0 b1 56 48), (lor_shift_byte _ b2 48 40),
    (lor_shift_byte _ b3 40 32), (lor_shift_byte _ b4 32 24), (lor_shift_byte _ b5 24 16),
    (lor_shift_byte _ b6 16 8) by lia.
  rewrite <- (Z.shiftl_0_r b7) at 1. rewrite (lor_shift_byte _ b7 8 0) by lia.
  apply Z.shiftl_0_r.
Qed.

(** One step of Horner's rule, backwards. *)
Lemma div_mod_byte v m n :
  0 <= n -> m = n + 8 -> v / 2 ^ m * 256 + v / 2 ^ n mod 256 = v / 2 ^ n.
Proof.
  intros Hn ->. rewrite Z.pow_add_r, <- Z.div_div by lia. change (2 ^ 8) with 256.
  rewrite Z.mul_comm. symmetry. apply Z.div_mod. lia.
Qed.

Lemma decode_encode_u64 v : 0 <= v < 2 ^ 64 -> decode_u64_be (encode_u64_be v) = v.
Proof.
  intros Hv. pose proof (encode_u64_be_bytes v) as Hb. rewrite encode_u64_be_div in *.
  rewrite decode_u64_be_value by done. clear Hb.
  rewrite (Z.mod_small (v / 2 ^ 56)) by (split; [apply Z.div_pos|apply Z.div_lt_upper_bound]; lia).
  rewrite (div_mod_byte v 56 48), (div_mod_byte v 48 40), (div_mod_byte v 40 32),
    (div_mod_byte v 32 24), (div_mod_byte v 24 16), (div_mod_byte v 16 8) by lia.
  change (2 ^ 8) with 256.
  rewrite (Z.mul_comm _ 256). symmetry. apply Z.div_mod. lia.
Qed.

Lemma horner_byte x b n :
  0 <= b < 2 ^ n -> 0 <= n -> forall y, 0 <= y < 256 ->
  ((x * 256 + y) * 2 ^ n + b) / 2 ^ n mod 256 = y.
Proof.
  intros Hb Hn y Hy. rewrite Z.add_comm, Z.div_add, Z.div_small by lia.
  rewrite Z.add_0_l, Z.add_comm, Z.mod_add by lia. by apply Z.mod_small.
Qed.

Lemma encode_decode_u64 b :
  Forall is_byte b -> length b = 8%nat -> encode_u64_be (decode_u64_be b) = b.
Proof.
  intros Hb Hl. do 8 (destruct b as [|? b]; [done|]). destruct b; [|done].
  rewrite decode_u64_be_value by done. rewrite !Forall_cons in Hb. unfold is_byte in Hb.
  destruct_and!. rewrite encode_u64_be_div.
  assert (Hh : forall x y b n, 0 <= b < 2 ^ n -> 0 <= n -> 0 <= y < 256 ->
            forall v, v = (x * 256 + y) * 2 ^ n + b -> v / 2 ^ n mod 256 = y).
  { intros x y b n ? ? ? v0 ->. by apply horner_byte. }
  assert (Hl8 : forall x y v, 0 <= y < 256 -> v = x * 256 + y -> v mod 256 = y).
  { intros x y v0 ? ->. rewrite Z.add_comm, Z.mod_add by lia. by apply Z.mod_small. }
  repeat f_equal.
  - apply (Hh 0 z (((((((z0 * 256 + z1) * 256 + z2) * 256 + z3) * 256 + z4) * 256 + z5) * 256 + z6))); lia.
  - apply (Hh z z0 ((((((z1 * 256 + z2) * 256 + z3) * 256 + z4) * 256 + z5) * 256 + z6))); lia.
  - apply (Hh (z * 256 + z0) z1 (((((z2 * 256 + z3) * 256 + z4) * 256 + z5) * 256 + z6))); lia.
  - apply (Hh ((z * 256 + z0) * 256 + z1) z2 ((((z3 * 256 + z4) * 256 + z5) * 256 + z6))); lia.
  - apply (Hh (((z * 256 + z0) * 256 + z1) * 256 + z2) z3 (((z4 * 256 + z5) * 256 + z6))); lia.
  - apply (Hh ((((z * 256 + z0) * 256 + z1) * 256 + z2) * 256 + z3) z4 ((z5 * 256 + z6))); lia.
  - apply (Hh (((((z * 256 + z0) * 256 + z1) * 256 + z2) * 256 + z3) * 256 + z4) z5 z6); lia.
  - eapply Hl8; [lia|done].
Qed.

Lemma decode_u64_be_range b :
  Forall is_byte b -> length b = 8%nat -> 0 <= decode_u64_be b < 2 ^ 64.
Proof.
  intros Hb Hl. do 8 (destruct b as [|? b]; [done|]). destruct b; [|done].
  rewrite decode_u64_be_value by done. rewrite !Forall_cons in Hb. unfold is_byte in Hb. lia.
Qed.

(** *** Sending a file *)

(** What every way of sending the file [c] from offset [off] promises: some part
    of it, in order, at most [size] bytes, all of them when it reports success. *)
Definition sent_file (c : bytes) (off size : Z) (r : net_send_file_result_t)
    (w w' : world) : Prop :=
  exists d rest, zdrop off c = d ++ rest /\ zlen d <= size /\
    w_net w' = Net (n_in (w_net w)) (n_out (w_net w) ++ d) /\
    (r = NET_SEND_FILE_OK -> zlen d = size) /\
    (r = NET_SEND_FILE_UNSUPPORTED -> off = 0 /\ d = []) /\
    (w_faults w = [] -> size <= zlen (zdrop off c) -> r = NET_SEND_FILE_OK).

Lemma net_eta (n : net_t) : n = Net (n_in n) (n_out n ++ []).
Proof. rewrite app_nil_r. by destruct n. Qed.

(** Nothing sent, and not because of a missing fault or a complete file. *)
Lemma sent_file_nothing c off size r w w' :
  0 <= size -> w_net w' = w_net w -> (r = NET_SEND_FILE_OK -> size = 0) ->
  (r = NET_SEND_FILE_UNSUPPORTED -> off = 0) ->
  (w_faults w = [] -> size <= zlen (zdrop off c) -> r = NET_SEND_FILE_OK) ->
  sent_file c off size r w w'.
Proof.
  intros Hs Hn Hok Hu H0. exists [], (zdrop off c). split_and!; try done.
  - rewrite Hn. apply net_eta.
  - simpl. intros E. specialize (Hok E). lia.
  - intros E. split; [by apply Hu|done].
Qed.

(** A part [d] sent first, then the rest. *)
Lemma sent_file_more c off size d rest r w w1 w' :
  0 <= off -> zdrop off c = d ++ rest -> d <> [] -> zlen d <= size -> only_io w w1 ->
  w_net w1 = Net (n_in (w_net w)) (n_out (w_net w) ++ d) ->
  sent_file c (off + zlen d) (size - zlen d) r w1 w' -> sent_file c off size r w w'.
Proof.
  intros Hoff Hd Hne Hl Hio Hn (d2 & rest2 & H1 & H2 & H3 & H4 & H5 & H6).
  assert (0 < zlen d) by (destruct d; [done|simpl; lia]).
  assert (Hrest : zdrop (off + zlen d) c = rest).
  { rewrite <- zdrop_zdrop by lia. rewrite Hd. by apply zdrop_app_exact. }
  rewrite Hrest in *. subst rest.
  exists (d ++ d2), rest2. split_and!.
  - by rewrite Hd, <- app_assoc.
  - len_lia.
  - rewrite H3, Hn. simpl. by rewrite <- app_assoc.
  - intros E. specialize (H4 E). len_lia.
  - intros E. destruct (H5 E). lia.
  - intros E Hle. apply H6; [by eapply only_io_no_faults|]. rewrite Hd in Hle. len_lia.
Qed.

Lemma zdrop_length_lt (n : Z) (c d rest : bytes) :
  zdrop n c = d ++ rest -> (length d + (length c - Z.to_nat (n + zlen d)) <= length c - Z.to_nat n)%nat
    \/ n < 0.
Proof.
  intros H. apply (f_equal length) in H. len_lia.
Qed.

Lemma net_send_file_all_loop_spec fuel sock fd off size path pos wr c m w :
  0 <= off -> 0 <= size < 2 ^ 64 ->
  f_fds (w_files w) !! fd = Some (FdFile path pos wr) ->
  f_fs (w_files w) !! path = Some (NFile c m) ->
  (flen w + (length c - Z.to_nat off) < fuel)%nat ->
  wp (net_send_file_all_loop fuel sock fd off size) (fun r w' =>
    only_net w w' /\ sent_file c off size r w w') w.
Proof.
  revert off size w. induction fuel as [|fuel IH]; intros off size w Hoff Hs Hfd Hc Hf; [lia|].
  cbn [net_send_file_all_loop]. wp_step; cycle 1.
  { wp_step. split; [done|]. apply sent_file_nothing; try done; lia. }
  assert ((if SIZE_MAX <? size then SIZE_MAX else size) = size) as ->.
  { unfold SIZE_MAX. case_if; lia. }
  wp_step. eapply (wp_sys_sendfile _ _ _ _ path pos wr c m); [lia|done|done| |].
  - intros e w' Hfr Hsame _ Hlt. change (-1 <? 0) with true. cbv iota. wp_step. wp_step.
    assert (Hno : w_faults w <> []) by (rewrite no_faults_flen; lia).
    wp_step; [|wp_step].
    + wp_step. split; [done|]. apply sent_file_nothing; try done; lia.
    + assert (w_files w' = w_files w) as Hw by frame.
      eapply wp_mono; [apply IH; rewrite ?Hw; done || lia|].
      intros r w2 (H1 & H2). split; [by etrans|].
      destruct H2 as (d & rest & H2). exists d, rest. rewrite Hsame in H2.
      destruct_and!. by split_and!.
    + wp_step. split; [done|]. apply sent_file_nothing; try done; lia.
  - intros d rest w' Hfr Hd Hle Hnet Hmin. wp_step; [lia|]. wp_step.
    + wp_step. split; [done|].
      assert (d = []) as -> by (destruct d; [done|simpl in *; lia]).
      exists [], rest. split_and!; try done; simpl.
      intros E Hl. specialize (Hmin E). simpl in Hmin. lia.
    + rewrite u64_small by lia.
      pose proof (zdrop_length_lt _ _ _ _ Hd) as Hlen.
      assert (w_files w' = w_files w) as Hw by frame.
      assert ((flen w' <= flen w)%nat) by frame.
      eapply wp_mono; [apply IH; rewrite ?Hw; done || lia|].
      intros r w2 (H1 & H2). split; [by etrans|].
      eapply (sent_file_more _ _ _ d rest _ _ w'); try done; [|by apply only_net_io].
      intros ->. simpl in *. lia.
Qed.

Definition moved_fd (fd : Z) (path : bytes) (wr : bool) (w w' : world) : Prop :=
  exists pos', w_files w' =
    set_fds (<[fd := FdFile path pos' wr]> (f_fds (w_files w))) (w_files w).

Lemma moved_fd_refl fd path pos wr w w' :
  f_fds (w_files w) !! fd = Some (FdFile path pos wr) -> w_files w' = w_files w ->
  moved_fd fd path wr w w'.
Proof.
  intros H E. exists pos. rewrite E, insert_id by done. by destruct (w_files w).
Qed.

Lemma moved_fd_trans fd path wr w1 w2 w3 :
  moved_fd fd path wr w1 w2 -> moved_fd fd path wr w2 w3 -> moved_fd fd path wr w1 w3.
Proof.
  intros [p1 H1] [p2 H2]. exists p2. rewrite H2, H1. unfold set_fds. simpl.
  by rewrite insert_insert_eq.
Qed.

Lemma net_send_file_buffered_loop_spec fuel sock fd off size path wr c m w :
  0 <= off -> 0 <= size < 2 ^ 64 ->
  f_fds (w_files w) !! fd = Some (FdFile path off wr) ->
  f_fs (w_files w) !! path = Some (NFile c m) ->
  (flen w + (length c - Z.to_nat off) < fuel)%nat ->
  wp (net_send_file_buffered_loop fuel sock fd size) (fun r w' =>
    only_io w w' /\ moved_fd fd path wr w w' /\ sent_file c off size r w w' /\
    r <> NET_SEND_FILE_UNSUPPORTED) w.
Proof.
  revert off size w. induction fuel as [|fuel IH]; intros off size w Hoff Hs Hfd Hc Hf; [lia|].
  cbn [net_send_file_buffered_loop]. wp_step; cycle 1.
  { wp_step. split_and!; [done|by eapply moved_fd_refl| |done].
    apply sent_file_nothing; try done; lia. }
  set (want := if size <? CHUNK_SIZE then size else CHUNK_SIZE).
  assert (0 < want <= size) by (unfold want, CHUNK_SIZE; case_if; lia).
  wp_step. eapply (wp_sys_read _ _ path off wr c m); [lia|done|done| |].
  - intros e w' Hfr Hsame _ Hlt. change (-1 <? 0) with true. cbv iota. wp_step.
    assert (Hno : w_faults w <> []) by (rewrite no_faults_flen; lia).
    split_and!; [frame|by eapply moved_fd_refl| |done].
    apply sent_file_nothing; try done; try lia. frame.
  - intros d rest w1 Hfr Hd Hle Hfiles Hmin.
    assert (Hmv : moved_fd fd path wr w w1) by (by eexists).
    assert (Hn1 : w_net w1 = w_net w) by frame.
    wp_step; [lia|]. wp_step.
    + wp_step. assert (d = []) as -> by (destruct d; [done|simpl in *; lia]).
      split_and!; [frame|done| |done]. apply sent_file_nothing; done || (simpl in *; lia).
    + wp_step. wp_use send_all_spec. intros n w2 (Hf2 & Hfull & d1 & rest1 & Hsp & Hr & Hn2).
      assert (Hio : only_io w w2) by (etrans; [|apply only_net_io; done]; frame).
      assert (Hmv2 : moved_fd fd path wr w w2).
      { eapply moved_fd_trans; [done|]. eapply moved_fd_refl; [|frame].
        rewrite Hfiles. simpl. by rewrite lookup_insert_eq. }
      wp_step.
      * wp_step. split_and!; [done|done| |done]. subst d. exists d1, (rest1 ++ rest).
        split_and!; try done.
        -- by rewrite Hd, <- app_assoc.
        -- len_lia.
        -- by rewrite Hn2, Hn1.
        -- intros E _. assert (w_faults w1 = []) as E1.
           { eapply only_io_no_faults; [|done]. frame. }
           specialize (Hfull E1). lia.
      * assert (n = zlen d) as -> by lia.
        assert (rest1 = [] /\ d1 = d) as [-> ->].
        { destruct Hr as [Hr|Hr]; [lia|]. rewrite Hsp in Hr.
          destruct rest1; [by rewrite app_nil_r in Hsp|len_lia]. }
        rewrite u64_small by lia.
        pose proof (zdrop_length_lt _ _ _ _ Hd) as Hlen.
        assert (w_files w2 = w_files w1) as Hw2 by frame.
        assert ((flen w2 <= flen w)%nat) by frame.
        eapply wp_mono; [apply (IH (off + zlen d)); rewrite ?Hw2, ?Hfiles; simpl;
                         rewrite ?lookup_insert_eq; done || lia|].
        intros r w3 (H1 & H2 & H3 & H4). split_and!; [by etrans|by eapply moved_fd_trans| |done].
        eapply (sent_file_more _ _ _ d rest _ _ w2);
          [done|done| |lia|done|by rewrite Hn2, Hn1|done].
        intros ->. simpl in *. lia.
Qed.

(** Both ways of sending, and the fall-back between them: what was sent is a
    part of the file, complete when the result says so; in a run without faults
    the file is sent. *)
Lemma net_send_file_best_effort_spec sock fd size path wr c m w :
  0 <= sock -> 0 <= fd -> 0 <= size < 2 ^ 64 ->
  f_fds (w_files w) !! fd = Some (FdFile path 0 wr) ->
  f_fs (w_files w) !! path = Some (NFile c m) ->
  wp (net_send_file_best_effort sock fd size) (fun r w' =>
    only_io w w' /\ moved_fd fd path wr w w' /\ sent_file c 0 size r w w' /\
    r <> NET_SEND_FILE_UNSUPPORTED) w.
Proof.
  intros Hsock Hfd0 Hs Hfd Hc. unfold net_send_file_best_effort, net_send_file_all. wp_step.
  destruct (Z.eqb_spec size 0) as [->|Hne].
  { wp_step. rewrite bool_decide_eq_false_2 by done. simpl negb. cbv iota. wp_step.
    split_and!; [done|by eapply moved_fd_refl| |done].
    by apply sent_file_nothing. }
  assert (is_socket_invalid sock || (fd <? 0) = false) as Hinv
    by (unfold is_socket_invalid; lia).
  rewrite Hinv. eapply wp_mono; [apply (net_send_file_all_loop_spec _ sock fd 0 size path 0 wr c m)|];
    try done.
  { unfold fd_length. rewrite Hfd, Hc. lia. }
  intros r w1 [Hf1 H1]. case_bool_decide as Hu; simpl negb; cbv iota.
  - subst r. destruct H1 as (d & rest & Hd & Hle & Hn & _ & Hu & H0).
    destruct (Hu eq_refl) as [_ ->]. rewrite app_nil_r in Hn.
    assert (Hn1 : w_net w1 = w_net w) by (rewrite Hn; by destruct (w_net w)).
    assert (Hw1 : w_files w1 = w_files w) by frame.
    assert (Hno : w_faults w = [] -> ~ size <= zlen (zdrop 0 c)).
    { intros E Hl. by specialize (H0 E Hl). }
    unfold net_send_file_buffered. rewrite Hinv.
    destruct (Z.eqb_spec size 0); [done|]. wp_step. apply wp_sys_malloc.
    + intros w2 Hf2 Hlt. simpl negb. cbv iota. wp_step. split_and!; [transitivity w1; frame|eapply moved_fd_refl; [done|frame]| |done].
      apply sent_file_nothing; [lia|by transitivity (w_net w1); [frame|]|done|done|].
      intros E Hl. by destruct (Hno E).
    + intros w2 Hf2 _. simpl negb. cbv iota.
      assert (Hw2 : w_files w2 = w_files w) by frame.
      eapply wp_mono; [apply (net_send_file_buffered_loop_spec _ sock fd 0 size path wr c m)|];
        rewrite ?Hw2; try done.
      { unfold fd_length. rewrite Hw2, Hfd, Hc. lia. }
      intros r w3 (Hf3 & Hm3 & H3 & Hr). split_and!; [|by rewrite Hw2 in Hm3 || by
        (destruct Hm3 as [p Hm3]; exists p; by rewrite Hm3, Hw2)| |done].
      * transitivity w2; [|done]. etrans; frame.
      * destruct H3 as (d & rest' & A1 & A2 & A3 & A4 & A5 & A6). exists d, rest'.
        assert (w_net w2 = w_net w) as Hn2 by frame. rewrite Hn2 in A3.
        split_and!; try done. intros E Hl. by destruct (Hno E).
  - wp_step. split_and!; [frame|eapply moved_fd_refl; [done|frame]|done|done].
Qed.

(** *** Receiving a file *)

(** What every way of receiving [size] bytes into the file [p], which held [c]
    and is open as [fd], promises: bytes leave the connection in order; the file
    grows by the first of them, at most [size]; on success these are all the
    bytes that left and there are [size] of them; nothing else changes. [f0]
    are the files at the start. *)
Definition received (fd : Z) (p c : bytes) (size : Z) (ok : Prop) (f0 : files_t)
    (w w' : world) : Prop :=
  exists d lost, n_in (w_net w) = d ++ lost ++ n_in (w_net w') /\
    n_out (w_net w') = n_out (w_net w) /\
    files_grow fd p (c ++ d) f0 (w_files w') /\ zlen d <= size /\
    (ok -> zlen d = size /\ lost = []) /\
    (w_faults w = [] -> size <= zlen (n_in (w_net w)) -> ok).

(** The exact state when nothing was received. *)
Definition received_nothing (fd : Z) (p c : bytes) (f0 : files_t) (w w' : world) : Prop :=
  w_net w' = w_net w /\ files_grow fd p c f0 (w_files w').

Lemma received_none fd p c size (ok : Prop) f0 w w' :
  0 <= size -> received_nothing fd p c f0 w w' -> (ok -> size = 0) ->
  (w_faults w = [] -> size <= zlen (n_in (w_net w)) -> ok) ->
  received fd p c size ok f0 w w'.
Proof.
  intros Hs [Hn Hg] Hok H0. exists [], []. rewrite app_nil_r, Hn. split_and!; try done.
  intros E. split; [simpl; specialize (Hok E); lia|done].
Qed.

Lemma received_more fd p c size ok f0 d w w1 w' :
  only_io w w1 -> n_in (w_net w) = d ++ n_in (w_net w1) ->
  n_out (w_net w1) = n_out (w_net w) ->
  received fd p (c ++ d) (size - zlen d) ok f0 w1 w' -> received fd p c size ok f0 w w'.
Proof.
  intros Hio Hin Hout (d2 & lost & H1 & H2 & H3 & H4 & H5 & H6).
  exists (d ++ d2), lost. split_and!.
  - by rewrite Hin, H1, <- app_assoc.
  - congruence.
  - by rewrite app_assoc.
  - len_lia.
  - intros Hk. destruct (H5 Hk). split; [len_lia|done].
  - intros E Hl. apply H6; [by eapply only_io_no_faults|]. rewrite Hin in Hl. len_lia.
Qed.

Lemma received_weaken fd p c size (ok ok' : Prop) f0 w w' :
  (ok <-> ok') -> received fd p c size ok f0 w w' -> received fd p c size ok' f0 w w'.
Proof.
  intros Hk (d & lost & H). exists d, lost. destruct_and!. split_and!; try done; tauto.
Qed.

Lemma received_base fd p c0 c size ok f0 f1 w w' :
  files_grow fd p c0 f0 f1 -> received fd p c size ok f1 w w' -> received fd p c size ok f0 w w'.
Proof.
  intros Hg (d & lost & H1 & H2 & H3 & H4). exists d, lost. split_and!; try done; try apply H4.
  by eapply files_grow_trans.
Qed.

(** Steps that touch neither connection nor files do not matter. *)
Lemma received_skip fd p c size ok f0 w w1 w' :
  only_io w w1 -> w_net w1 = w_net w ->
  received fd p c size ok f0 w1 w' -> received fd p c size ok f0 w w'.
Proof.
  intros Hio Hn H. eapply (received_more _ _ _ _ _ _ []); try done; [by rewrite Hn|by rewrite Hn|].
  rewrite app_nil_r. simpl. by rewrite Z.sub_0_r.
Qed.

Lemma close_pipe_spec f0 fd p c pr pw buf w :
  piped f0 fd p c pr pw buf (w_files w) ->
  wp (close_pipe (pr, pw)) (fun _ w' =>
    only_files w w' /\ files_grow fd p c f0 (w_files w')) w.
Proof.
  intros Hp. unfold close_pipe. simpl. wp_step. apply wp_sys_close.
  intros r1 w1 Hf1 _ _ H1. wp_step. apply wp_sys_close. intros r2 w2 Hf2 _ _ H2.
  wp_step. split; [by etrans|]. eapply piped_close; [done| | |]; rewrite H2, H1; done.
Qed.

Lemma net_drain_pipe_spec f0 fuel fd p c pr pw buf remaining moved w :
  piped f0 fd p c pr pw buf (w_files w) -> (flen w + length buf < fuel)%nat ->
  zlen buf <= remaining -> 0 <= moved -> moved + remaining < 2 ^ 64 ->
  wp (net_drain_pipe fuel (pr, pw) fd (zlen buf) remaining moved) (fun r w' =>
    only_files w w' /\
    match r with
    | inl (rem', mov') =>
        rem' = remaining - zlen buf /\ mov' = moved + zlen buf /\
        piped f0 fd p (c ++ buf) pr pw [] (w_files w')
    | inr res =>
        res = NET_RECV_FILE_IO /\ w_faults w <> [] /\
        exists d rest, buf = d ++ rest /\ files_grow fd p (c ++ d) f0 (w_files w')
    end) w.
Proof.
  revert c buf remaining moved w. induction fuel as [|fuel IH];
    intros c buf remaining moved w Hp Hf Hb Hm Hlim; [lia|].
  cbn [net_drain_pipe]. simpl fst. wp_step; cycle 1.
  { assert (buf = []) as -> by (destruct buf; [done|simpl in *; lia]).
    wp_step. split; [done|]. rewrite app_nil_r. simpl. split_and!; [lia|lia|done]. }
  assert (Hclose : forall w1, only_files w w1 -> piped f0 fd p c pr pw buf (w_files w1) ->
    w_faults w <> [] ->
    wp (close_pipe (pr, pw) ;;! ret (inr NET_RECV_FILE_IO)) (fun r w' =>
      only_files w w' /\
      match r with
      | inl (rem', mov') =>
          rem' = remaining - zlen buf /\ mov' = moved + zlen buf /\
          piped f0 fd p (c ++ buf) pr pw [] (w_files w')
      | inr res =>
          res = NET_RECV_FILE_IO /\ w_faults w <> [] /\
          exists d rest, buf = d ++ rest /\ files_grow fd p (c ++ d) f0 (w_files w')
      end) w1).
  { intros w1 Hf1 Hp1 Hno. wp_step. wp_use close_pipe_spec; [done|].
    intros _ w2 [Hf2 Hg]. wp_step. split; [by etrans|]. split_and!; [done|done|].
    exists [], buf. by rewrite app_nil_r. }
  wp_step. eapply wp_sys_splice_from_pipe; [lia|done| |].
  - intros e w1 Hf1 _ Hlt. change (-1 <? 0) with true. cbv iota.
    assert (Hno : w_faults w <> []) by (rewrite no_faults_flen; lia).
    assert (Hw1 : w_files w1 = w_files w) by frame.
    do 3 wp_step.
    + eapply wp_mono; [apply (IH c buf); rewrite ?Hw1; done || lia|].
      intros r w2 [Hf2 H2]. split; [by etrans; [apply only_errno_files|]|].
      destruct r as [[]|]; [done|]. by destruct_and!; split_and!.
    + apply Hclose; [by apply only_errno_files|by rewrite Hw1|done].
  - intros d rest w1 Hf1 -> Hle Hp1 Hmin. wp_step; [lia|]. wp_step.
    + assert (d = []) as -> by (destruct d; [done|simpl in *; lia]). simpl in *.
      rewrite app_nil_r in Hp1. apply Hclose; [done|done|].
      intros E. specialize (Hmin E). lia.
    + rewrite !u64_small by len_lia.
      replace (zlen (d ++ rest) - zlen d) with (zlen rest) by len_lia.
      assert ((flen w1 <= flen w)%nat) by frame.
      eapply wp_mono; [apply (IH (c ++ d) rest); [done|len_lia..]|].
      intros r w2 [Hf2 H2]. split; [by etrans|]. destruct r as [[rem' mov']|res].
      * destruct H2 as (-> & -> & H2). rewrite app_assoc. split_and!; [len_lia|len_lia|done].
      * destruct H2 as (-> & Hno & d2 & rest2 & -> & H2). split_and!; [done| |].
        -- intros E. apply Hno. eapply only_io_no_faults; [|done]. frame.
        -- exists (d ++ d2), rest2. by rewrite !app_assoc.
Qed.

(** The outcome of the zero-copy loop that still expects [size] bytes. *)
Definition zero_copied (fd : Z) (p c : bytes) (moved size : Z) (f0 : files_t)
    (r : net_recv_file_result_t) (w w' : world) : Prop :=
  only_io w w' /\ received fd p c size (r = NET_RECV_FILE_OK) f0 w w' /\
  (r = NET_RECV_FILE_UNSUPPORTED ->
     moved = 0 /\ w_faults w <> [] /\ received_nothing fd p c f0 w w').

(** A result that ends the loop before anything moved. *)
Lemma zero_copied_stop fd p c moved size f0 r w w' :
  0 <= size -> only_io w w' -> received_nothing fd p c f0 w w' -> w_faults w <> [] ->
  (r = NET_RECV_FILE_OK -> size = 0) -> (r = NET_RECV_FILE_UNSUPPORTED -> moved = 0) ->
  zero_copied fd p c moved size f0 r w w'.
Proof.
  intros Hs Hio Hn Hno Hok Hu. split_and!; [done| |].
  - apply received_none; done || tauto.
  - intros E. split_and!; [by apply Hu|done|done].
Qed.

(** Steps before it that touch neither connection nor files do not matter. *)
Lemma zero_copied_skip fd p c moved size f0 r w w1 w' :
  only_io w w1 -> w_net w1 = w_net w ->
  zero_copied fd p c moved size f0 r w1 w' -> zero_copied fd p c moved size f0 r w w'.
Proof.
  intros Hio Hn (H1 & H2 & H3). split_and!; [by etrans|by eapply received_skip|].
  intros E. destruct (H3 E) as (? & Hno & Hr & ?). split_and!; [done| |].
  - intros E0. apply Hno. by eapply only_io_no_faults.
  - split; [congruence|done].
Qed.

(** Bytes that left the connection but did not all reach the file. *)
Lemma received_short fd p c size (ok : Prop) f0 d lost w w1 w' :
  n_in (w_net w) = d ++ lost ++ n_in (w_net w1) -> n_out (w_net w1) = n_out (w_net w) ->
  w_net w' = w_net w1 -> files_grow fd p (c ++ d) f0 (w_files w') -> zlen d <= size ->
  ~ ok -> w_faults w <> [] -> received fd p c size ok f0 w w'.
Proof.
  intros H1 H2 H3 H4 H5 H6 H7. exists d, lost. rewrite H3. split_and!; done.
Qed.

Lemma zero_copied_close f0 fd p c pr pw buf moved size r w w1 :
  piped f0 fd p c pr pw buf (w_files w1) -> 0 <= size -> only_io w w1 ->
  w_net w1 = w_net w -> w_faults w <> [] ->
  (r = NET_RECV_FILE_OK -> size = 0) -> (r = NET_RECV_FILE_UNSUPPORTED -> moved = 0) ->
  wp (close_pipe (pr, pw) ;;! ret r) (fun r w' => zero_copied fd p c moved size f0 r w w') w1.
Proof.
  intros Hp Hs Hio Hn Hno Hok Hu. wp_step. wp_use close_pipe_spec; [done|].
  intros _ w2 [Hf2 Hg]. wp_step. apply zero_copied_stop; try done.
  - etrans; [done|]. by apply only_files_io.
  - split; [|done]. rewrite <- Hn. apply Hf2.
Qed.

Lemma want_range remaining cap :
  0 < remaining -> 0 < cap -> 0 < (if remaining <? cap then remaining else cap) <= remaining.
Proof. intros. case_if; lia. Qed.

Lemma net_recv_file_all_loop_pipe f0 fuel sock fd p c pr pw remaining moved off w :
  piped f0 fd p c pr pw [] (w_files w) ->
  (flen w + length (n_in (w_net w)) < fuel)%nat ->
  0 <= remaining -> 0 <= moved -> moved + remaining < 2 ^ 64 ->
  wp (net_recv_file_all_loop fuel sock fd remaining moved (Some (pr, pw)) off)
     (fun r w' => zero_copied fd p c moved remaining f0 r w w') w.
Proof.
  revert c remaining moved off w. induction fuel as [|fuel IH];
    intros c remaining moved off w Hp Hf Hr Hm Hlim; [lia|].
  cbn [net_recv_file_all_loop]. wp_step; cycle 1.
  { wp_step. wp_use close_pipe_spec; [done|]. intros _ w1 [Hf1 Hg]. wp_step.
    split_and!; [by apply only_files_io| |done].
    apply received_none; [lia|split; [apply Hf1|done]|lia|done]. }
  pose proof (want_range remaining CHUNK_SIZE ltac:(lia) ltac:(done)) as Hwant.
  cbv zeta. revert Hwant. generalize (if remaining <? CHUNK_SIZE then remaining else CHUNK_SIZE).
  intros want Hwant. wp_step. simpl snd.
  eapply wp_sys_splice_to_pipe; [lia|done| |].
  - intros e w1 Hf1 _ Hlt. change (-1 <? 0) with true. cbv iota.
    assert (Hno : w_faults w <> []) by (rewrite no_faults_flen; lia).
    assert (Hw1 : w_files w1 = w_files w) by frame.
    assert (Hn1 : w_net w1 = w_net w) by frame.
    assert (Hio : only_io w w1) by frame.
    do 3 wp_step; [|wp_step].
    + eapply zero_copied_close; rewrite ?Hw1; done || lia.
    + eapply wp_mono; [apply (IH c); rewrite ?Hw1, ?Hn1; done || lia|].
      intros r w2 H2. by eapply zero_copied_skip.
    + eapply zero_copied_close; rewrite ?Hw1; done || lia.
  - intros d rest w1 Hio Hin Hle Hnet Hp1 Hmin. wp_step; [lia|]. wp_step.
    + assert (d = []) as -> by (destruct d; [done|simpl in *; lia]). simpl in *.
      wp_step. wp_use close_pipe_spec; [done|]. intros _ w2 [Hf2 Hg]. wp_step.
      assert (Hn2 : w_net w2 = w_net w).
      { transitivity (w_net w1); [apply Hf2|]. rewrite Hnet, <- Hin. by destruct (w_net w). }
      split_and!; [etrans; [done|by apply only_files_io]| |done].
      apply received_none; [done|done|done|]. intros E Hl. specialize (Hmin E). lia.
    + wp_step. rewrite app_nil_l in Hp1. eapply wp_mono; [apply (net_drain_pipe_spec f0 _ fd p c pr pw d)|].
      1: done. 1: unfold flen; lia. 1-3: lia.
      assert (Hin1 : n_in (w_net w) = d ++ n_in (w_net w1)) by (by rewrite Hnet).
      assert (Hout1 : n_out (w_net w1) = n_out (w_net w)) by (by rewrite Hnet).
      assert ((flen w1 <= flen w)%nat) by frame.
      intros [[rem' mov']|res] w2 [Hf2 H2].
      * destruct H2 as (-> & -> & Hp2). assert (Hn2 : w_net w2 = w_net w1) by apply Hf2.
        assert ((flen w2 <= flen w1)%nat) by frame.
        eapply wp_mono; [apply (IH (c ++ d)); [done| |lia..]|].
        { rewrite Hn2. apply (f_equal length) in Hin1. len_lia. }
        intros r w3 (H3 & H4 & H5).
        assert (Hio2 : only_io w w2) by (etrans; [done|by apply only_files_io]).
        split_and!; [by etrans| |].
        -- eapply (received_more _ _ _ _ _ _ d); [exact Hio2|by rewrite Hn2|by rewrite Hn2|done].
        -- intros E. destruct (H5 E). lia.
      * destruct H2 as (-> & Hno & d2 & rest2 & -> & Hg). wp_step.
        split_and!; [etrans; [done|by apply only_files_io]| |done].
        eapply (received_short _ _ _ _ _ _ d2 rest2 _ w1); try done.
        -- by rewrite Hin1, <- app_assoc.
        -- apply Hf2.
        -- len_lia.
        -- intros E. apply Hno. by eapply only_io_no_faults.
Qed.

Lemma net_recv_file_all_loop_start fuel sock fd p c remaining off w :
  e_splice_direct (w_env w) = false -> fds_ok (w_files w) -> file_at (w_files w) fd p c ->
  (S (flen w + length (n_in (w_net w))) < fuel)%nat -> 0 <= remaining < 2 ^ 64 ->
  wp (net_recv_file_all_loop fuel sock fd remaining 0 None off)
     (fun r w' => zero_copied fd p c 0 remaining (w_files w) r w w') w.
Proof.
  revert off w. induction fuel as [|fuel IH]; intros off w He Hok Hat Hf Hr; [lia|].
  pose proof (files_grow_refl _ _ _ _ Hat) as Hg0.
  cbn [net_recv_file_all_loop]. wp_step; cycle 1.
  { wp_step. split_and!; [done| |done].
    apply received_none; [lia|done|lia|done]. }
  cbv zeta. wp_step. apply wp_sys_splice_direct; [done|]. intros e w1 Hf1 Herr H0 Hlt.
  change (-1 <? 0) with true. cbv iota.
  assert (Hw1 : w_files w1 = w_files w) by frame.
  assert (Hn1 : w_net w1 = w_net w) by frame.
  assert (Hio : only_io w w1) by frame.
  do 3 wp_step.
  - wp_step. apply (wp_sys_pipe fd p c); [by rewrite Hw1|by rewrite Hw1| |].
    + intros w2 Hf2 Hsame Hno.
      assert (only_io w w2) by (etrans; [done|by apply only_files_io]).
      assert (w_net w2 = w_net w) by (transitivity (w_net w1); [apply Hf2|done]).
      assert (w_faults w <> []) by (intros E; apply Hno; by eapply only_io_no_faults).
      wp_step. wp_step. wp_step; wp_step;
        (apply zero_copied_stop; [lia|done|split; [done|by rewrite Hsame, Hw1]|done|done|done]).
    + intros pr pw w2 Hf2 Hp. rewrite Hw1 in Hp.
      assert (Hn2 : w_net w2 = w_net w) by (transitivity (w_net w1); [apply Hf2|done]).
      assert (Hio2 : only_io w w2) by (etrans; [done|by apply only_files_io]).
      assert ((flen w2 <= flen w)%nat) by apply Hio2.
      eapply wp_mono; [apply (net_recv_file_all_loop_pipe (w_files w)); try done;
                       rewrite ?Hn2; lia|].
      intros r w3 H3. by eapply zero_copied_skip.
  - wp_step.
    + assert (w_errno w1 <> EINVAL) as Hne by (unfold EINVAL; unfold EINTR in *; lia).
      rewrite Herr in Hne. specialize (Hlt Hne). rewrite <- Hw1.
      eapply wp_mono; [apply IH; rewrite ?Hw1, ?Hn1; try done; [|lia]|].
      * destruct Hio as (E & _). by rewrite E.
      * intros r w2 H2. by eapply zero_copied_skip.
    + wp_step. apply zero_copied_stop; [lia|done|by split; [|rewrite Hw1]| |done|done].
      intros E. specialize (H0 E). unfold unsupported_errno in *. lia.
Qed.

Lemma net_recv_file_all_spec sock fd p c size w :
  0 <= sock -> 0 <= fd -> 0 <= size < 2 ^ 64 ->
  e_splice_direct (w_env w) = false -> fds_ok (w_files w) -> file_at (w_files w) fd p c ->
  wp (net_recv_file_all sock fd size)
     (fun r w' => zero_copied fd p c 0 size (w_files w) r w w') w.
Proof.
  intros Hs Hfd Hsize He Hok Hat. unfold net_recv_file_all, is_socket_invalid.
  destruct (Z.eqb_spec size 0).
  - wp_step. split_and!; [done| |done]. apply received_none; try done; [lia|].
    split; [done|by apply files_grow_refl].
  - assert ((sock <? 0) || (fd <? 0) = false) as -> by lia.
    eapply wp_mono; [apply net_recv_file_all_loop_start|]; try done. unfold flen. lia.
Qed.

Lemma net_recv_file_buffered_loop_spec fuel sock fd p c cap remaining w :
  0 < cap -> file_at (w_files w) fd p c ->
  (flen w + length (n_in (w_net w)) < fuel)%nat -> 0 <= remaining < 2 ^ 64 ->
  wp (net_recv_file_buffered_loop fuel sock fd cap remaining) (fun r w' =>
    only_io w w' /\ received fd p c remaining (r = NET_RECV_FILE_OK) (w_files w) w w' /\
    r <> NET_RECV_FILE_UNSUPPORTED) w.
Proof.
  intros Hcap. revert c remaining w. induction fuel as [|fuel IH]; intros c remaining w Hat Hf Hr; [lia|].
  pose proof (files_grow_refl _ _ _ _ Hat) as Hg0.
  cbn [net_recv_file_buffered_loop]. wp_step; cycle 1.
  { wp_step. split_and!; [done| |done]. apply received_none; [lia|done|lia|done]. }
  pose proof (want_range remaining cap ltac:(lia) Hcap) as Hwant.
  cbv zeta. revert Hwant. generalize (if remaining <? cap then remaining else cap).
  intros want Hwant. wp_step. apply wp_sys_recv; [lia| |].
  - intros e w1 Hf1 Hn1 _ Hlt. change (-1 <? 0) with true. cbv iota.
    assert (Hno : w_faults w <> []) by (rewrite no_faults_flen; lia).
    assert (Hw1 : w_files w1 = w_files w) by apply Hf1.
    assert (Hio : only_io w w1) by apply Hf1. wp_step. wp_step. wp_step.
    + rewrite <- Hw1. eapply wp_mono; [apply IH; rewrite ?Hw1, ?Hn1; done || lia|].
      intros r w2 (H1 & H2 & H3). split_and!; [by etrans|by eapply received_skip|done].
    + wp_step. split_and!; [done| |done]. apply received_none; try done; [lia|].
      by split; [|rewrite Hw1].
  - intros d rest w1 Hf1 Hin Hnet Hle Hmin.
    assert (Hw1 : w_files w1 = w_files w) by apply Hf1.
    assert (Hio : only_io w w1) by apply Hf1.
    assert (Hin1 : n_in (w_net w) = d ++ n_in (w_net w1)) by (by rewrite Hnet).
    assert (Hout1 : n_out (w_net w1) = n_out (w_net w)) by (by rewrite Hnet).
    wp_step; [lia|]. wp_step.
    + assert (d = []) as -> by (destruct d; [done|simpl in *; lia]). simpl in *.
      wp_step. split_and!; [done| |done]. apply received_none; [lia| |done|].
      * split; [|by rewrite Hw1]. rewrite Hnet, <- Hin. by destruct (w_net w).
      * intros E Hl. specialize (Hmin E). lia.
    + wp_step. wp_use fs_write_all_spec; [by rewrite Hw1|].
      intros k w2 (Hf2 & Hfull & d1 & rest1 & -> & Hk & Hg). rewrite Hw1 in Hg.
      assert (Hn2 : w_net w2 = w_net w1) by apply Hf2.
      assert (Hio2 : only_io w w2) by (etrans; [done|by apply only_files_io]).
      wp_step.
      * wp_step. split_and!; [done| |done].
        eapply (received_short _ _ _ _ _ _ d1 rest1 _ w1); try done; [by rewrite Hin1, <- app_assoc|len_lia|].
        intros E. assert (w_faults w1 = []) as E1 by by eapply only_io_no_faults.
        specialize (Hfull E1). lia.
      * assert (rest1 = []) as -> by (destruct rest1; [done|]; len_lia).
        rewrite app_nil_r in *. rewrite u64_small by lia.
        assert ((flen w2 <= flen w)%nat) by apply Hio2.
        eapply wp_mono; [apply (IH (c ++ d1)); [by eapply files_grow_at| |lia]|].
        { rewrite Hn2. apply (f_equal length) in Hin1. len_lia. }
        intros r w3 (H1 & H2 & H3). split_and!; [by etrans| |done].
        eapply (received_more _ _ _ _ _ _ d1); [done|by rewrite Hn2|by rewrite Hn2|].
        by eapply received_base.
Qed.

Lemma net_recv_file_buffered_spec sock fd p c size w :
  0 <= sock -> 0 <= fd -> 0 <= size < 2 ^ 64 -> file_at (w_files w) fd p c ->
  wp (net_recv_file_buffered sock fd size) (fun r w' =>
    only_io w w' /\ received fd p c size (r = NET_RECV_FILE_OK) (w_files w) w w' /\
    r <> NET_RECV_FILE_UNSUPPORTED) w.
Proof.
  intros Hs Hfd Hsize Hat. pose proof (files_grow_refl _ _ _ _ Hat) as Hg0.
  unfold net_recv_file_buffered, is_socket_invalid.
  assert ((sock <? 0) || (fd <? 0) = false) as -> by lia.
  destruct (Z.eqb_spec size 0).
  { wp_step. split_and!; [done| |done]. apply received_none; try done; lia. }
  cbv zeta. wp_step.
  - wp_step. apply wp_sys_malloc; intros w1 Hf1 H1;
      assert (Hw1 : w_files w1 = w_files w) by frame;
      assert (Hn1 : w_net w1 = w_net w) by frame; simpl negb; cbv iota.
    + wp_step. split_and!; [frame| |done]. apply received_none; try done; [lia|by split; [|rewrite Hw1]|].
      intros E. rewrite no_faults_flen in E. lia.
    + rewrite <- Hw1.
      eapply wp_mono; [apply (net_recv_file_buffered_loop_spec _ _ _ p c)|]; rewrite ?Hw1; try done;
        [unfold flen; lia|].
      intros r w2 (H2 & H3 & H4). split_and!; [etrans; [|done]; frame| |done].
      eapply received_skip; [|done|done]. frame.
  - eapply wp_mono; [apply (net_recv_file_buffered_loop_spec _ _ _ p c)|]; try done. unfold flen; lia.
Qed.

(** Receiving a file, zero-copy or buffered: see [received]. *)
Lemma net_recv_file_best_effort_spec sock fd p c size w :
  0 <= sock -> 0 <= fd -> 0 <= size < 2 ^ 64 ->
  e_splice_direct (w_env w) = false -> fds_ok (w_files w) -> file_at (w_files w) fd p c ->
  wp (net_recv_file_best_effort sock fd size) (fun r w' =>
    only_io w w' /\ received fd p c size (r = NET_RECV_FILE_OK) (w_files w) w w' /\
    r <> NET_RECV_FILE_UNSUPPORTED) w.
Proof.
  intros Hs Hfd Hsize He Hok Hat. unfold net_recv_file_best_effort. wp_step.
  eapply wp_mono; [by apply (net_recv_file_all_spec _ _ p c)|].
  intros r w1 (H1 & H2 & H3). case_bool_decide as Hu; simpl negb; cbv iota; [|by wp_step].
  destruct (H3 Hu) as (_ & Hno & Hn & Hg).
  eapply wp_mono; [apply (net_recv_file_buffered_spec _ _ p c); try done; by eapply files_grow_at|].
  intros r' w2 (H4 & H5 & H6). split_and!; [by etrans| |done].
  eapply received_skip; [done|done|]. by eapply received_base.
Qed.

(** ** Properties *)

(** Whatever the network does, [send_all] returns: the connection has
    received a prefix of the data, all of it exactly when the result is the
    length of the data, which it is when nothing fails; interrupted and short
    sends are continued where they stopped. *)
Theorem send_all_sends_all sock data w :
  wp (send_all sock data) (fun r w' =>
    w_files w' = w_files w /\ (w_faults w = [] -> r = zlen data) /\
    exists d rest, data = d ++ rest /\ (r = -1 \/ r = zlen d) /\ (r = zlen data -> rest = []) /\
      w_net w' = Net (n_in (w_net w)) (n_out (w_net w) ++ d)) w.
Proof.
  wp_use send_all_spec. intros r w' ([_ Hf] & H0 & d & rest & Hd & Hr & Hn).
  split_and!; try done. exists d, rest. split_and!; try done.
  intros E. destruct rest; [done|]. rewrite Hd in E. len_lia.
Qed.

(** [recv_all] always returns; the bytes stored are exactly the bytes taken
    off the connection, never more than asked; a result other than -1 is their
    number, and without failures it is all that was asked or, at the end of the
    stream, all there was. *)
Theorem recv_all_receives_all sock len w (Hlen : 0 <= len) :
  wp (recv_all sock len) (fun '(r, buf) w' =>
    w_files w' = w_files w /\ n_out (w_net w') = n_out (w_net w) /\
    n_in (w_net w) = buf ++ n_in (w_net w') /\ zlen buf <= len /\
    (r <> -1 -> r = zlen buf) /\
    (w_faults w = [] -> r = Z.min len (zlen (n_in (w_net w))))) w.
Proof.
  wp_use recv_all_spec; [done|]. intros [r buf] w' ([_ Hf] & rest & Hin & Hnet & Hr & Hle & H0).
  rewrite Hnet. split_and!; try done. lia.
Qed.

Lemma recv_all_receives_all_witness :
  wp (recv_all 5 3) (fun '(r, buf) w' =>
    w_files w' = demo_files ∅ /\ n_out (w_net w') = [] /\
    [1; 2; 3; 4] = buf ++ n_in (w_net w') /\ zlen buf <= 3 /\
    (r <> -1 -> r = zlen buf) /\
    ([FErr EINTR; FShort 1] = [] -> r = Z.min 3 4))
    (demo_world [FErr EINTR; FShort 1] [1; 2; 3; 4] (demo_files ∅)).
Proof.
  apply (recv_all_receives_all 5 3 (demo_world [FErr EINTR; FShort 1] [1; 2; 3; 4] (demo_files ∅))).
  lia.
Defined.

(** The eight-byte big-endian encoding: decoding what was encoded gives the
    64-bit value back, and every eight bytes are the encoding of their value. *)
Theorem u64_be_roundtrip v b
    (Hv : 0 <= v < 2 ^ 64) (Hb : Forall is_byte b) (Hl : length b = 8%nat) :
  decode_u64_be (encode_u64_be v) = v /\ encode_u64_be (decode_u64_be b) = b /\
  Forall is_byte (encode_u64_be v) /\ 0 <= decode_u64_be b < 2 ^ 64.
Proof.
  split_and!; [by apply decode_encode_u64|by apply encode_decode_u64|apply encode_u64_be_bytes|
    by apply decode_u64_be_range..].
Qed.

Lemma u64_be_roundtrip_witness :
  decode_u64_be (encode_u64_be 1311768467463790320) = 1311768467463790320 /\
  encode_u64_be (decode_u64_be [255; 0; 1; 128; 127; 64; 2; 254]) =
    [255; 0; 1; 128; 127; 64; 2; 254] /\
  Forall is_byte (encode_u64_be 1311768467463790320) /\
  0 <= decode_u64_be [255; 0; 1; 128; 127; 64; 2; 254] < 2 ^ 64.
Proof.
  apply (u64_be_roundtrip 1311768467463790320 [255; 0; 1; 128; 127; 64; 2; 254]);
    [lia|repeat constructor; unfold is_byte; lia|reflexivity].
Defined.



(** C27: [net_recv_file_best_effort], on a kernel whose [splice] needs a pipe,
    always returns; bytes leave the connection in order and the file grows by
    the first of them, never by more than the size asked; when the result is
    [OK] the file grew by exactly the bytes taken off the connection and there
    are [size] of them; no descriptor is left open; nothing else changes. *)
Theorem net_recv_file_best_effort_receives sock fd p c size w
    (Hsock : 0 <= sock) (Hfd : 0 <= fd) (Hsize : 0 <= size < 2 ^ 64)
    (Hkernel : e_splice_direct (w_env w) = false)
    (Hfds : fds_ok (w_files w)) (Hat : file_at (w_files w) fd p c) :
  wp (net_recv_file_best_effort sock fd size) (fun r w' =>
    exists d lost m, n_in (w_net w) = d ++ lost ++ n_in (w_net w') /\
      n_out (w_net w') = n_out (w_net w) /\ zlen d <= size /\
      f_fs (w_files w') = <[p := NFile (c ++ d) m]> (f_fs (w_files w)) /\
      f_fds (w_files w') = <[fd := FdFile p (zlen (c ++ d)) true]> (f_fds (w_files w)) /\
      (r = NET_RECV_FILE_OK -> zlen d = size /\ lost = []) /\
      (w_faults w = [] -> size <= zlen (n_in (w_net w)) -> r = NET_RECV_FILE_OK)) w.
Proof.
  wp_use net_recv_file_best_effort_spec; try done.
  intros r w' (_ & (d & lost & H1 & H2 & ([m H3] & H4 & _) & H5 & H6 & H7) & _).
  exists d, lost, m. by split_and!.
Qed.

Lemma net_recv_file_best_effort_receives_witness :
  let w := demo_world [FNone; FNone; FShort 2; FErr EINTR] [1; 2; 3; 4; 5]
             (demo_open (bs "f") [9]) in
  wp (net_recv_file_best_effort 5 3 4) (fun r w' =>
    exists d lost m, n_in (w_net w) = d ++ lost ++ n_in (w_net w') /\
      n_out (w_net w') = n_out (w_net w) /\ zlen d <= 4 /\
      f_fs (w_files w') = <[bs "f" := NFile ([9] ++ d) m]> (f_fs (w_files w)) /\
      f_fds (w_files w') =
        <[3 := FdFile (bs "f") (zlen ([9] ++ d)) true]> (f_fds (w_files w)) /\
      (r = NET_RECV_FILE_OK -> zlen d = 4 /\ lost = []) /\
      (w_faults w = [] -> 4 <= zlen (n_in (w_net w)) -> r = NET_RECV_FILE_OK)) w.
Proof.
  apply net_recv_file_best_effort_receives; [lia|lia|lia|reflexivity|apply demo_open_ok..].
Defined.

(** The zero-copy and the buffered way of receiving a file agree: when
    nothing fails and enough bytes arrive, both succeed, append the same bytes
    to the file and leave the same bytes on the connection. *)
Theorem net_recv_file_ways_agree sock fd p c size w
    (Hsock : 0 <= sock) (Hfd : 0 <= fd) (Hsize : 0 <= size < 2 ^ 64)
    (Hkernel : e_splice_direct (w_env w) = false)
    (Hfds : fds_ok (w_files w)) (Hat : file_at (w_files w) fd p c)
    (Hnofail : w_faults w = []) (Hlen : size <= zlen (n_in (w_net w))) :
  exists w1 w2 m1 m2,
    net_recv_file_all sock fd size w = Some (NET_RECV_FILE_OK, w1) /\
    net_recv_file_buffered sock fd size w = Some (NET_RECV_FILE_OK, w2) /\
    w_net w1 = w_net w2 /\ n_in (w_net w1) = zdrop size (n_in (w_net w)) /\
    f_fds (w_files w1) = f_fds (w_files w2) /\
    f_fs (w_files w1) = <[p := NFile (c ++ ztake size (n_in (w_net w))) m1]> (f_fs (w_files w)) /\
    f_fs (w_files w2) = <[p := NFile (c ++ ztake size (n_in (w_net w))) m2]> (f_fs (w_files w)).
Proof.
  pose proof (net_recv_file_all_spec sock fd p c size w) as H1.
  pose proof (net_recv_file_buffered_spec sock fd p c size w) as H2.
  apply wp_run in H1 as (r1 & w1 & E1 & _ & H1 & _); try done.
  apply wp_run in H2 as (r2 & w2 & E2 & _ & H2 & _); try done.
  assert (Hr : forall r w', received fd p c size (r = NET_RECV_FILE_OK) (w_files w) w w' ->
    r = NET_RECV_FILE_OK /\ w_net w' = Net (zdrop size (n_in (w_net w))) (n_out (w_net w)) /\
    exists m, f_fds (w_files w') =
        <[fd := FdFile p (zlen c + size) true]> (f_fds (w_files w)) /\
      f_fs (w_files w') = <[p := NFile (c ++ ztake size (n_in (w_net w))) m]> (f_fs (w_files w))).
  { intros r w' (d & lost & Hin & Hout & ([m Hm] & Hg & _) & _ & Hk & H0).
    specialize (H0 Hnofail Hlen). destruct (Hk H0) as [Hd ->]. rewrite app_nil_l in Hin.
    rewrite Hin, zdrop_app_exact, ztake_app_exact by done. split_and!; [done| |].
    - rewrite <- Hout. by destruct (w_net w').
    - exists m. split; [|done]. rewrite Hg. by rewrite length_app, Nat2Z.inj_add, Hd. }
  destruct (Hr _ _ H1) as (-> & N1 & m1 & F1 & G1).
  destruct (Hr _ _ H2) as (-> & N2 & m2 & F2 & G2).
  exists w1, w2, m1, m2. rewrite N1, N2, F1, F2. by split_and!.
Qed.

Lemma net_recv_file_ways_agree_witness :
  let w := demo_world [] [1; 2; 3] (demo_open (bs "f") [9]) in
  exists w1 w2 m1 m2,
    net_recv_file_all 5 3 2 w = Some (NET_RECV_FILE_OK, w1) /\
    net_recv_file_buffered 5 3 2 w = Some (NET_RECV_FILE_OK, w2) /\
    w_net w1 = w_net w2 /\ n_in (w_net w1) = zdrop 2 (n_in (w_net w)) /\
    f_fds (w_files w1) = f_fds (w_files w2) /\
    f_fs (w_files w1) = <[bs "f" := NFile ([9] ++ ztake 2 [1; 2; 3]) m1]> (f_fs (w_files w)) /\
    f_fs (w_files w2) = <[bs "f" := NFile ([9] ++ ztake 2 [1; 2; 3]) m2]> (f_fs (w_files w)).
Proof.
  apply (net_recv_file_ways_agree 5 3 (bs "f") [9] 2);
    [lia|lia|lia|reflexivity|apply demo_open_ok..|reflexivity|simpl; lia].
Defined.

(** On a kernel that would splice from a socket straight into a file, the
    offset is advanced twice, by the call and by the loop: a body that arrives
    in two parts is stored with a hole. *)
Lemma net_recv_file_all_direct_hole :
  let w := demo_world [FShort 1] [1; 2] (demo_open (bs "f") []) in
  let w := World (w_faults w) 0 (w_net w) (w_files w) (Env 7 None 1000 true) (w_prog w) [] in
  exists w', net_recv_file_all 5 3 2 w = Some (NET_RECV_FILE_OK, w') /\
    f_fs (w_files w') !! bs "f" = Some (NFile [1; 0; 2] 1000).
Proof. eexists. split; vm_compute; reflexivity. Qed.
