(* ===== verification/Protocol.v ===== *)
(** * The wire protocol (src/protocol.c, src/protocol.h)

    The 13-byte header, the 4-byte response frame, the length-prefixed file name
    and the prefix of a file transfer: their encoders, decoders and the calls
    that move them over the connection. Output parameters are addresses of the
    caller's variables and never [NULL], so their guards are left out; decoders
    take the variable's previous contents, which an early return leaves in
    place. *)

From S2P Require Import Prelude CLib World Logic Net.

(** ** Definitions *)

Definition HF_PROTOCOL_MAX_FILE_NAME_LEN : Z := 255.
Definition HF_MAX_FILE_SIZE : Z := 100 * 1024 * 1024 * 1024.
Definition HF_PROTOCOL_MAX_TEXT_MESSAGE_SIZE : Z := 256 * 1024.
Definition HF_PROTOCOL_HEADER_SIZE : Z := 13.
Definition HF_PROTOCOL_RES_FRAME_SIZE : Z := 4.
Definition HF_PROTOCOL_MAGIC : Z := 1065. (* 0x0429 *)
Definition HF_PROTOCOL_VERSION : Z := 3.
Definition HF_MSG_TYPE_SEND_FILE : Z := 1.
Definition HF_MSG_TYPE_TEXT_MESSAGE : Z := 2.
Definition HF_MSG_TYPE_GET_FILE : Z := 3.
Definition HF_MSG_FLAG_NONE : Z := 0.

Record protocol_header_t := Header {
  magic : Z;
  version : Z;
  msg_type : Z;
  flags : Z;
  payload_size : Z
}.

Inductive protocol_result_t :=
  | PROTOCOL_OK
  | PROTOCOL_ERR_HEADER_MAGIC
  | PROTOCOL_ERR_HEADER_VERSION
  | PROTOCOL_ERR_HEADER_MSG_TYPE
  | PROTOCOL_ERR_HEADER_MSG_FLAG
  | PROTOCOL_ERR_INVALID_ARGUMENT
  | PROTOCOL_ERR_FILE_NAME_LEN
  | PROTOCOL_ERR_INVALID_FILE_NAME
  | PROTOCOL_ERR_PAYLOAD_SIZE_MISMATCH
  | PROTOCOL_ERR_IO
  | PROTOCOL_ERR_SHORT_WRITE
  | PROTOCOL_ERR_ALLOC
  | PROTOCOL_ERR_EOF
  | PROTOCOL_ERR_MSG_TOO_LARGE.

#[export] Instance protocol_result_eq_dec : EqDecision protocol_result_t.
Proof. solve_decision. Defined.

(** The value of the enumerator. *)
Definition result_code (r : protocol_result_t) : Z :=
  match r with
  | PROTOCOL_OK => 0
  | PROTOCOL_ERR_HEADER_MAGIC => 1
  | PROTOCOL_ERR_HEADER_VERSION => 2
  | PROTOCOL_ERR_HEADER_MSG_TYPE => 3
  | PROTOCOL_ERR_HEADER_MSG_FLAG => 4
  | PROTOCOL_ERR_INVALID_ARGUMENT => 5
  | PROTOCOL_ERR_FILE_NAME_LEN => 6
  | PROTOCOL_ERR_INVALID_FILE_NAME => 7
  | PROTOCOL_ERR_PAYLOAD_SIZE_MISMATCH => 8
  | PROTOCOL_ERR_IO => 9
  | PROTOCOL_ERR_SHORT_WRITE => 10
  | PROTOCOL_ERR_ALLOC => 11
  | PROTOCOL_ERR_EOF => 12
  | PROTOCOL_ERR_MSG_TOO_LARGE => 13
  end.

Definition result_ok (r : protocol_result_t) : bool := bool_decide (r = PROTOCOL_OK).

Definition PROTO_PHASE_READY : Z := 0.
Definition PROTO_PHASE_FINAL : Z := 1.
Definition PROTO_STATUS_OK : Z := 0.
Definition PROTO_STATUS_REJECTED : Z := 1.
Definition PROTO_STATUS_FAILED : Z := 2.

Record res_frame_t := ResFrame { phase : Z; status : Z; error_code : Z }.

(** [htons] followed by [memcpy] of the two bytes, and back. *)
Definition htons_bytes (v : Z) : bytes := [u8 (Z.shiftr v 8); u8 v].
Definition ntohs_bytes (b : bytes) : Z := Z.lor (Z.shiftl (nth 0 b 0) 8) (nth 1 b 0).

(** *** Response frames *)

Definition proto_res_frame_phase_valid (phase : Z) : bool :=
  (phase =? PROTO_PHASE_READY) || (phase =? PROTO_PHASE_FINAL).

Definition proto_res_frame_status_valid (status : Z) : bool :=
  (status =? PROTO_STATUS_OK) || (status =? PROTO_STATUS_REJECTED) ||
  (status =? PROTO_STATUS_FAILED).

Definition proto_res_frame_error_code_valid (error_code : Z) : bool :=
  error_code <=? result_code PROTOCOL_ERR_MSG_TOO_LARGE.

Definition proto_res_frame_valid (frame : option res_frame_t) : bool :=
  match frame with
  | None => false
  | Some frame =>
      if negb (proto_res_frame_phase_valid (phase frame))
         || negb (proto_res_frame_status_valid (status frame))
         || negb (proto_res_frame_error_code_valid (error_code frame)) then false
      else if (status frame =? PROTO_STATUS_OK) && negb (error_code frame =? result_code PROTOCOL_OK)
      then false
      else if negb (status frame =? PROTO_STATUS_OK) && (error_code frame =? result_code PROTOCOL_OK)
      then false
      else if phase frame =? PROTO_PHASE_READY then
        (status frame =? PROTO_STATUS_OK) || (status frame =? PROTO_STATUS_REJECTED)
      else (status frame =? PROTO_STATUS_OK) || (status frame =? PROTO_STATUS_FAILED)
  end.

(** The result and the bytes written to [out]. *)
Definition encode_res_frame (frame : option res_frame_t) : protocol_result_t * bytes :=
  match frame with
  | None => (PROTOCOL_ERR_INVALID_ARGUMENT, [])
  | Some f =>
      if negb (proto_res_frame_valid frame) then (PROTOCOL_ERR_INVALID_ARGUMENT, [])
      else (PROTOCOL_OK, phase f :: status f :: htons_bytes (error_code f))
  end.

(** The result and the contents of [*frame]. *)
Definition decode_res_frame (b : bytes) : protocol_result_t * res_frame_t :=
  let frame := ResFrame (nth 0 b 0) (nth 1 b 0) (ntohs_bytes (drop 2 b)) in
  if negb (proto_res_frame_valid (Some frame)) then (PROTOCOL_ERR_INVALID_ARGUMENT, frame)
  else (PROTOCOL_OK, frame).

Definition send_res_frame (sock : Z) (frame : option res_frame_t) : M protocol_result_t :=
  if is_socket_invalid sock || bool_decide (frame = None) then
    ret PROTOCOL_ERR_INVALID_ARGUMENT
  else
    let '(res, buf) := encode_res_frame frame in
    if negb (result_ok res) then ret res
    else
      let! n := send_all sock buf in
      if n <? HF_PROTOCOL_RES_FRAME_SIZE then
        if 0 <=? n then ret PROTOCOL_ERR_SHORT_WRITE else ret PROTOCOL_ERR_IO
      else ret PROTOCOL_OK.

Definition recv_res_frame (sock : Z) (frame : res_frame_t) : M (protocol_result_t * res_frame_t) :=
  if is_socket_invalid sock then ret (PROTOCOL_ERR_INVALID_ARGUMENT, frame)
  else
    let! (n, buf) := recv_all sock HF_PROTOCOL_RES_FRAME_SIZE in
    if n <? HF_PROTOCOL_RES_FRAME_SIZE then
      if n <? 0 then ret (PROTOCOL_ERR_IO, frame) else ret (PROTOCOL_ERR_EOF, frame)
    else ret (decode_res_frame buf).

(** *** File names and prefixes *)

(** [None] is a non-zero result. *)
Definition proto_get_file_name_len (file_name : option bytes) : option Z :=
  match file_name with
  | None => None
  | Some s =>
      let len := strlen s in
      if (len =? 0) || (HF_PROTOCOL_MAX_FILE_NAME_LEN <? len) then None else Some (u16 len)
  end.

Definition proto_file_name_only_size (file_name_len : Z) : Z := 2 + file_name_len.

Definition proto_file_transfer_prefix_size (file_name_len : Z) : Z :=
  proto_file_name_only_size file_name_len + 8.

Definition encode_file_name_only (file_name : option bytes) : protocol_result_t * bytes :=
  match file_name, proto_get_file_name_len file_name with
  | Some s, Some file_name_len =>
      (PROTOCOL_OK, htons_bytes file_name_len ++ ztake file_name_len s)
  | _, _ => (PROTOCOL_ERR_FILE_NAME_LEN, [])
  end.

Definition encode_file_prefix (file_name : option bytes) (content_size : Z)
    : protocol_result_t * bytes :=
  match file_name, proto_get_file_name_len file_name with
  | Some s, Some file_name_len =>
      (PROTOCOL_OK,
       htons_bytes file_name_len ++ ztake file_name_len s ++ encode_u64_be content_size)
  | _, _ => (PROTOCOL_ERR_FILE_NAME_LEN, [])
  end.

Definition proto_send_payload (sock : Z) (data : option bytes) : M protocol_result_t :=
  match data with
  | None => ret PROTOCOL_ERR_INVALID_ARGUMENT
  | Some data =>
      if is_socket_invalid sock then ret PROTOCOL_ERR_INVALID_ARGUMENT
      else
        let! n := send_all sock data in
        if n <? zlen data then
          if 0 <=? n then ret PROTOCOL_ERR_SHORT_WRITE else ret PROTOCOL_ERR_IO
        else ret PROTOCOL_OK
  end.

(** The result and [*file_name_out]: a C string read out of the received bytes,
    which may hold a NUL before their end. *)
Definition proto_recv_file_name_only (sock : Z) : M (protocol_result_t * option bytes) :=
  let! (n, net_len) := recv_all sock 2 in
  if negb (n =? 2) then
    ret (if n <? 0 then PROTOCOL_ERR_IO else PROTOCOL_ERR_EOF, None)
  else
    let file_name_len := ntohs_bytes net_len in
    if (file_name_len =? 0) || (HF_PROTOCOL_MAX_FILE_NAME_LEN <? file_name_len) then
      ret (PROTOCOL_ERR_FILE_NAME_LEN, None)
    else
      let! file_name := sys_malloc in
      if negb file_name then ret (PROTOCOL_ERR_ALLOC, None)
      else
        let! (n, file_name) := recv_all sock file_name_len in
        if negb (n =? file_name_len) then
          ret (if n <? 0 then PROTOCOL_ERR_IO else PROTOCOL_ERR_EOF, None)
        else ret (PROTOCOL_OK, Some (cstr (file_name ++ [0]))).

(** The result, [*file_name_out] and [*content_size_out]. *)
Definition proto_recv_file_transfer_prefix (sock : Z)
    : M (protocol_result_t * option bytes * Z) :=
  let! (res, file_name) := proto_recv_file_name_only sock in
  if negb (result_ok res) then ret (res, None, 0)
  else
    let! (n, szbuf) := recv_all sock 8 in
    if negb (n =? 8) then
      ret (if n <? 0 then PROTOCOL_ERR_IO else PROTOCOL_ERR_EOF, None, 0)
    else ret (PROTOCOL_OK, file_name, decode_u64_be szbuf).

(** *** Headers *)

Definition init_header : protocol_header_t :=
  Header HF_PROTOCOL_MAGIC HF_PROTOCOL_VERSION 0 HF_MSG_FLAG_NONE 0.

Definition encode_header (header : option protocol_header_t) : protocol_result_t * bytes :=
  match header with
  | None => (PROTOCOL_ERR_INVALID_ARGUMENT, [])
  | Some h =>
      (PROTOCOL_OK,
       htons_bytes (magic h) ++ version h :: msg_type h :: flags h ::
       encode_u64_be (payload_size h))
  end.

(** The result and the contents of [*header], which held [h] before. *)
Definition decode_header (h : protocol_header_t) (b : bytes)
    : protocol_result_t * protocol_header_t :=
  let h := Header (ntohs_bytes b) (version h) (msg_type h) (flags h) (payload_size h) in
  if negb (magic h =? HF_PROTOCOL_MAGIC) then (PROTOCOL_ERR_HEADER_MAGIC, h)
  else
    let h := Header (magic h) (nth 2 b 0) (msg_type h) (flags h) (payload_size h) in
    if negb (version h =? HF_PROTOCOL_VERSION) then (PROTOCOL_ERR_HEADER_VERSION, h)
    else
      let h := Header (magic h) (version h) (nth 3 b 0) (flags h) (payload_size h) in
      if negb (msg_type h =? HF_MSG_TYPE_TEXT_MESSAGE) && negb (msg_type h =? HF_MSG_TYPE_SEND_FILE)
         && negb (msg_type h =? HF_MSG_TYPE_GET_FILE) then (PROTOCOL_ERR_HEADER_MSG_TYPE, h)
      else
        let h := Header (magic h) (version h) (msg_type h) (nth 4 b 0) (payload_size h) in
        if negb (flags h =? HF_MSG_FLAG_NONE) then (PROTOCOL_ERR_HEADER_MSG_FLAG, h)
        else (PROTOCOL_OK, Header (magic h) (version h) (msg_type h) (flags h)
                                  (decode_u64_be (drop 5 b))).

Definition recv_header (sock : Z) : M (protocol_result_t * bytes) :=
  if is_socket_invalid sock then ret (PROTOCOL_ERR_INVALID_ARGUMENT, [])
  else
    let! (n, out) := recv_all sock HF_PROTOCOL_HEADER_SIZE in
    if n <? HF_PROTOCOL_HEADER_SIZE then
      if n <? 0 then ret (PROTOCOL_ERR_IO, out) else ret (PROTOCOL_ERR_EOF, out)
    else ret (PROTOCOL_OK, out).

(** *** Specifications *)

(** A header a peer of this version may send. *)
Definition header_ok (h : protocol_header_t) : Prop :=
  magic h = HF_PROTOCOL_MAGIC /\ version h = HF_PROTOCOL_VERSION /\
  (msg_type h = HF_MSG_TYPE_SEND_FILE \/ msg_type h = HF_MSG_TYPE_TEXT_MESSAGE \/
   msg_type h = HF_MSG_TYPE_GET_FILE) /\
  flags h = HF_MSG_FLAG_NONE /\ 0 <= payload_size h < 2 ^ 64.

(** A response frame that makes sense: success carries code 0, a rejection can
    only come first and a failure only last, each with an error code. *)
Definition res_frame_ok (f : res_frame_t) : Prop :=
  (phase f = PROTO_PHASE_READY \/ phase f = PROTO_PHASE_FINAL) /\
  (status f = PROTO_STATUS_OK /\ error_code f = 0 \/
   status f = (if phase f =? PROTO_PHASE_READY then PROTO_STATUS_REJECTED else PROTO_STATUS_FAILED) /\
   1 <= error_code f <= 13).

(** The wire form of a name and of a file transfer's prefix. *)
Definition name_wire (name : bytes) : bytes := htons_bytes (zlen name) ++ name.
Definition prefix_wire (name : bytes) (content_size : Z) : bytes :=
  name_wire name ++ encode_u64_be content_size.

(** [0 < length <= 255]. *)
Definition name_length_ok (name : bytes) : Prop :=
  0 < zlen name <= HF_PROTOCOL_MAX_FILE_NAME_LEN.

(** ** Automation *)

(** The constants of protocol.h as numbers. *)
Ltac proto_lia :=
  unfold HF_PROTOCOL_MAX_FILE_NAME_LEN, HF_MAX_FILE_SIZE, HF_PROTOCOL_MAX_TEXT_MESSAGE_SIZE,
    HF_PROTOCOL_HEADER_SIZE, HF_PROTOCOL_RES_FRAME_SIZE, HF_PROTOCOL_MAGIC, HF_PROTOCOL_VERSION,
    HF_MSG_TYPE_SEND_FILE, HF_MSG_TYPE_TEXT_MESSAGE, HF_MSG_TYPE_GET_FILE, HF_MSG_FLAG_NONE,
    PROTO_PHASE_READY, PROTO_PHASE_FINAL, PROTO_STATUS_OK, PROTO_STATUS_REJECTED,
    PROTO_STATUS_FAILED in *; lia.

(** ** Theorems *)

(** *** Two-byte integers *)

Lemma ntohs_value a b l : is_byte a -> is_byte b -> ntohs_bytes (a :: b :: l) = a * 256 + b.
Proof.
  unfold is_byte. intros Ha Hb. unfold ntohs_bytes. cbn [nth].
  rewrite <- (Z.shiftl_0_r b) at 1. rewrite (lor_shift_byte a b 8 0) by lia. apply Z.shiftl_0_r.
Qed.

Lemma ntohs_htons v l : 0 <= v < 2 ^ 16 -> ntohs_bytes (htons_bytes v ++ l) = v.
Proof.
  intros Hv. unfold htons_bytes. cbn [app].
  rewrite ntohs_value by apply is_byte_mod.
  unfold u8. rewrite Z.shiftr_div_pow2 by lia. change (2 ^ 8) with 256.
  rewrite (Z.mod_small (v / 256)) by lia. lia.
Qed.

Lemma htons_ntohs a b : is_byte a -> is_byte b -> htons_bytes (ntohs_bytes [a; b]) = [a; b].
Proof.
  intros Ha Hb. rewrite ntohs_value by done. unfold htons_bytes, u8, is_byte in *.
  rewrite Z.shiftr_div_pow2 by lia. change (2 ^ 8) with 256. repeat f_equal; lia.
Qed.

Lemma ntohs_range b : Forall is_byte b -> length b = 2%nat -> 0 <= ntohs_bytes b < 2 ^ 16.
Proof.
  intros Hb Hl. do 3 (destruct b as [|? b]; try done). rewrite !Forall_cons in Hb.
  destruct Hb as (? & ? & _). rewrite ntohs_value by done. unfold is_byte in *. lia.
Qed.

Lemma htons_bytes_ok v : Forall is_byte (htons_bytes v).
Proof. repeat constructor; apply is_byte_mod. Qed.

(** *** Headers *)

Lemma decode_header_ok h0 b h :
  Forall is_byte b -> length b = 13%nat ->
  decode_header h0 b = (PROTOCOL_OK, h) ->
  header_ok h /\ encode_header (Some h) = (PROTOCOL_OK, b).
Proof.
  intros Hb Hl. do 5 (destruct b as [|? b]; [done|]).
  assert (length b = 8%nat) by (simpl in Hl; lia).
  rewrite !Forall_cons in Hb. destruct Hb as (? & ? & ? & ? & ? & Hb).
  unfold decode_header. cbn [nth drop magic version msg_type flags payload_size].
  set (m := ntohs_bytes _). rewrite drop_0. do 4 (case_if; [done|]). intros [= <-].
  split.
  - unfold header_ok. simpl. pose proof (decode_u64_be_range b Hb ltac:(done)).
    split_and!; proto_lia.
  - unfold encode_header. cbn [magic version msg_type flags payload_size].
    rewrite encode_decode_u64 by done. do 2 f_equal.
    subst m. replace (ntohs_bytes _) with (ntohs_bytes [z; z0]) by done.
    by rewrite htons_ntohs.
Qed.

Lemma decode_encode_header h0 h b :
  header_ok h -> encode_header (Some h) = (PROTOCOL_OK, b) ->
  decode_header h0 b = (PROTOCOL_OK, h).
Proof.
  intros (Hm & Hv & Ht & Hf & Hp) E. apply (f_equal snd) in E. cbn [encode_header snd] in E. subst b.
  unfold decode_header. rewrite ntohs_htons by (rewrite Hm; vm_compute; split; done).
  cbn [magic version msg_type flags payload_size app htons_bytes nth drop].
  rewrite drop_0, decode_encode_u64 by done.
  destruct h as [m v t f p]. simpl in *. subst m v f.
  rewrite !Z.eqb_refl. simpl negb. cbv iota.
  replace (_ && _ && _) with false; [done|].
  symmetry. destruct Ht as [->|[->| ->]]; done.
Qed.

Lemma encode_header_length h b :
  encode_header (Some h) = (PROTOCOL_OK, b) -> zlen b = HF_PROTOCOL_HEADER_SIZE.
Proof. intros [= <-]. done. Qed.

Lemma encode_header_bytes h b :
  header_ok h -> encode_header (Some h) = (PROTOCOL_OK, b) -> Forall is_byte b.
Proof.
  intros (Hm & Hv & Ht & Hf & Hp) E. apply (f_equal snd) in E. cbn [encode_header snd] in E.
  subst b. apply Forall_app. split; [apply htons_bytes_ok|].
  rewrite !Forall_cons. rewrite Hv, Hf.
  split_and!; try (vm_compute; split; done); [|apply encode_u64_be_bytes].
  destruct Ht as [->|[->| ->]]; vm_compute; split; done.
Qed.

(** *** Response frames *)

Lemma res_frame_valid_iff f :
  0 <= error_code f ->
  proto_res_frame_valid (Some f) = true <-> res_frame_ok f.
Proof.
  destruct f as [p s e]. simpl. intros He.
  unfold proto_res_frame_valid, res_frame_ok, proto_res_frame_phase_valid,
    proto_res_frame_status_valid, proto_res_frame_error_code_valid, PROTO_PHASE_READY,
    PROTO_PHASE_FINAL, PROTO_STATUS_OK, PROTO_STATUS_REJECTED, PROTO_STATUS_FAILED.
  cbn [phase status error_code result_code].
  repeat case_if; lia.
Qed.

Lemma decode_encode_res_frame f b :
  0 <= error_code f ->
  encode_res_frame (Some f) = (PROTOCOL_OK, b) -> decode_res_frame b = (PROTOCOL_OK, f).
Proof.
  intros He. unfold encode_res_frame. destruct (negb _) eqn:Hv; [done|]. intros E.
  apply (f_equal snd) in E. cbn [snd] in E. subst b.
  assert (res_frame_ok f) as Hok by (apply res_frame_valid_iff; [done|by apply negb_false_iff]).
  unfold decode_res_frame. cbn [nth drop]. rewrite drop_0, <- (app_nil_r (htons_bytes _)).
  rewrite ntohs_htons by (destruct Hok as [_ [[_ ->]|[_ ?]]]; lia).
  destruct f as [p s e]. simpl in *. by rewrite Hv.
Qed.

Lemma encode_decode_res_frame f b :
  Forall is_byte b -> length b = 4%nat ->
  decode_res_frame b = (PROTOCOL_OK, f) -> encode_res_frame (Some f) = (PROTOCOL_OK, b) /\ res_frame_ok f.
Proof.
  intros Hb Hl. do 5 (destruct b as [|? b]; try done).
  rewrite !Forall_cons in Hb. destruct Hb as (? & ? & ? & ? & _).
  unfold decode_res_frame. cbn [nth drop]. destruct (negb _) eqn:Hv; [done|]. intros [= <-].
  unfold encode_res_frame. rewrite Hv. cbn [phase status error_code].
  rewrite htons_ntohs by done. split; [done|].
  apply res_frame_valid_iff; [|by apply negb_false_iff]. cbn [error_code].
  rewrite ntohs_value by done. unfold is_byte in *. lia.
Qed.

Lemma encode_res_frame_ok f :
  res_frame_ok f ->
  encode_res_frame (Some f) =
    (PROTOCOL_OK, phase f :: status f :: htons_bytes (error_code f)).
Proof.
  intros Hok. assert (0 <= error_code f) by (destruct Hok as [_ [[_ ->]|[_ ?]]]; lia).
  unfold encode_res_frame. by rewrite (proj2 (res_frame_valid_iff f ltac:(done)) Hok).
Qed.

(** *** Exact receives *)

(** [recv_all] as its callers use it: all [len] bytes, or a failure. *)
Lemma recv_exact_spec sock len w :
  0 <= len ->
  wp (recv_all sock len) (fun '(r, b) w' =>
    only_net w w' /\ n_in (w_net w) = b ++ n_in (w_net w') /\
    n_out (w_net w') = n_out (w_net w) /\ zlen b <= len /\ r <= len /\
    (r = len -> zlen b = len) /\
    (w_faults w = [] -> len <= zlen (n_in (w_net w)) -> r = len) /\
    (w_faults w = [] -> r = Z.min len (zlen (n_in (w_net w))))) w.
Proof.
  intros Hl. wp_use recv_all_spec; [done|].
  intros [r b] w' (Hf & rest & Hin & Hnet & Hr & Hle & H0). rewrite Hnet. simpl.
  split_and!; try done; lia.
Qed.

Lemma recv_header_spec sock w :
  0 <= sock ->
  wp (recv_header sock) (fun '(r, b) w' =>
    only_net w w' /\ n_in (w_net w) = b ++ n_in (w_net w') /\
    n_out (w_net w') = n_out (w_net w) /\
    (r = PROTOCOL_OK -> zlen b = HF_PROTOCOL_HEADER_SIZE) /\
    (w_faults w = [] -> HF_PROTOCOL_HEADER_SIZE <= zlen (n_in (w_net w)) -> r = PROTOCOL_OK)) w.
Proof.
  intros Hs. unfold recv_header, is_socket_invalid. destruct (Z.ltb_spec sock 0); [lia|].
  wp_step. wp_use recv_exact_spec; [done|].
  intros [r b] w' (Hf & Hin & Hout & Hle & Hr & Hfull & H0 & _).
  repeat wp_step; split_and!; try done; try (intros E Hlen; specialize (H0 E Hlen); lia).
  intros _. apply Hfull. lia.
Qed.

Lemma recv_res_frame_spec sock f0 w :
  0 <= sock -> Forall is_byte (n_in (w_net w)) ->
  wp (recv_res_frame sock f0) (fun '(r, f) w' =>
    only_net w w' /\ n_out (w_net w') = n_out (w_net w) /\
    (exists b, n_in (w_net w) = b ++ n_in (w_net w') /\
      (r = PROTOCOL_OK -> encode_res_frame (Some f) = (PROTOCOL_OK, b) /\ res_frame_ok f)) /\
    (w_faults w = [] -> forall f' rest, res_frame_ok f' ->
       n_in (w_net w) = snd (encode_res_frame (Some f')) ++ rest ->
       r = PROTOCOL_OK /\ f = f' /\ n_in (w_net w') = rest)) w.
Proof.
  intros Hs Hbytes. unfold recv_res_frame, is_socket_invalid. destruct (Z.ltb_spec sock 0); [lia|].
  wp_step. wp_use recv_exact_spec; [done|].
  intros [r b] w' (Hf & Hin & Hout & Hle & Hr & Hfull & H0 & _).
  assert (Hlen : forall f' rest, res_frame_ok f' ->
            n_in (w_net w) = snd (encode_res_frame (Some f')) ++ rest ->
            HF_PROTOCOL_RES_FRAME_SIZE <= zlen (n_in (w_net w))).
  { intros f' rest Hok ->. rewrite encode_res_frame_ok by done.
    unfold HF_PROTOCOL_RES_FRAME_SIZE. simpl. lia. }
  wp_step; [wp_step|]; wp_step.
  1,2: split_and!; [done|done|by exists b|intros E f' rest Hok Hi;
         specialize (H0 E (Hlen _ _ Hok Hi)); lia].
  assert (zlen b = 4) as Hb by (apply Hfull; unfold HF_PROTOCOL_RES_FRAME_SIZE in *; lia).
  rewrite Hin in Hbytes. apply Forall_app in Hbytes as [Hbb _].
  destruct (decode_res_frame b) as [r' f] eqn:E.
  split_and!; [done|done| |].
  - exists b. split; [done|]. intros ->. by apply encode_decode_res_frame; [|lia|].
  - intros _ f' rest Hok Hi. rewrite Hin in Hi. rewrite (encode_res_frame_ok _ Hok) in Hi.
    apply app_eq_len in Hi as [Hi Hrest]; [|simpl in *; lia].
    rewrite (decode_encode_res_frame f') in E.
    + by injection E as <- <-.
    + destruct Hok as [_ [[_ ->]|[_ ?]]]; lia.
    + rewrite encode_res_frame_ok by done. by rewrite Hi.
Qed.

Lemma send_res_frame_spec sock f w :
  0 <= sock -> res_frame_ok f ->
  wp (send_res_frame sock (Some f)) (fun r w' =>
    only_net w w' /\ n_in (w_net w') = n_in (w_net w) /\
    (w_faults w = [] -> r = PROTOCOL_OK) /\
    exists d rest, snd (encode_res_frame (Some f)) = d ++ rest /\
      n_out (w_net w') = n_out (w_net w) ++ d /\ (r = PROTOCOL_OK -> rest = [])) w.
Proof.
  intros Hs Hok. unfold send_res_frame, is_socket_invalid. destruct (Z.ltb_spec sock 0); [lia|].
  rewrite bool_decide_eq_false_2 by done. cbn [orb]. rewrite (encode_res_frame_ok f Hok).
  set (buf := phase f :: _). change (negb (result_ok PROTOCOL_OK)) with false. cbv iota.
  assert (zlen buf = HF_PROTOCOL_RES_FRAME_SIZE) as Hl by done.
  wp_step. wp_use send_all_spec. intros n w' (Hf & Hfull & d & rest & Hd & Hn & Hnet).
  wp_step; [wp_step|]; wp_step; rewrite Hnet; simpl; (split_and!;
    [done|done|intros E; specialize (Hfull E); first [done|lia]|]); exists d, rest;
    split_and!; try done.
  intros _. destruct rest; [done|]. apply (f_equal (fun l => zlen l)) in Hd. len_lia.
Qed.

Lemma proto_send_payload_spec sock data w :
  0 <= sock ->
  wp (proto_send_payload sock (Some data)) (fun r w' =>
    only_net w w' /\ n_in (w_net w') = n_in (w_net w) /\
    (w_faults w = [] -> r = PROTOCOL_OK) /\
    exists d rest, data = d ++ rest /\
      n_out (w_net w') = n_out (w_net w) ++ d /\ (r = PROTOCOL_OK -> rest = [])) w.
Proof.
  intros Hs. unfold proto_send_payload, is_socket_invalid. destruct (Z.ltb_spec sock 0); [lia|].
  wp_step. wp_use send_all_spec. intros n w' (Hf & Hfull & d & rest & Hd & Hn & Hnet).
  wp_step; [wp_step|]; wp_step; rewrite Hnet; simpl; (split_and!;
    [done|done|intros E; specialize (Hfull E); first [done|lia]|]); exists d, rest;
    split_and!; try done.
  intros _. destruct rest; [done|]. apply (f_equal (fun l => zlen l)) in Hd. len_lia.
Qed.

(** *** File names over the connection *)

Lemma cstr_snoc_nul s : cstr (s ++ [0]) = cstr s.
Proof. induction s as [|b s IH]; simpl; [done|]. by rewrite IH. Qed.

Lemma name_wire_length name : zlen (name_wire name) = 2 + zlen name.
Proof. unfold name_wire, htons_bytes. len_lia. Qed.

Lemma name_wire_inj n1 n2 r1 r2 :
  name_length_ok n1 -> name_length_ok n2 ->
  name_wire n1 ++ r1 = name_wire n2 ++ r2 -> n1 = n2 /\ r1 = r2.
Proof.
  unfold name_length_ok. intros H1 H2. unfold name_wire. rewrite <- !app_assoc. intros E.
  assert (zlen n1 = zlen n2) as El.
  { rewrite <- (ntohs_htons (zlen n1) (n1 ++ r1)) by proto_lia.
    rewrite E. apply ntohs_htons. proto_lia. }
  apply app_eq_len in E as [_ E]; [|done]. by apply app_eq_len in E.
Qed.

(** What [proto_recv_file_name_only] consumes and answers. *)
Definition name_received (r : protocol_result_t) (name : option bytes) (d : bytes) : Prop :=
  match name with
  | Some s => r = PROTOCOL_OK /\
      exists raw, name_length_ok raw /\ d = name_wire raw /\ s = cstr raw
  | None => r <> PROTOCOL_OK /\
      (r = PROTOCOL_ERR_FILE_NAME_LEN ->
         exists v, (v = 0 \/ HF_PROTOCOL_MAX_FILE_NAME_LEN < v < 2 ^ 16) /\ d = htons_bytes v)
  end.

Lemma bytes2 b : Forall is_byte b -> zlen b = 2 -> htons_bytes (ntohs_bytes b) = b.
Proof.
  intros Hb Hl. destruct b as [|a [|c [|d b]]]; simpl in Hl; try lia.
  rewrite !Forall_cons in Hb. destruct Hb as (? & ? & _). by apply htons_ntohs.
Qed.

Lemma proto_recv_file_name_only_spec sock w :
  Forall is_byte (n_in (w_net w)) ->
  wp (proto_recv_file_name_only sock) (fun '(r, name) w' =>
    only_net w w' /\ n_out (w_net w') = n_out (w_net w) /\
    (exists d, n_in (w_net w) = d ++ n_in (w_net w') /\ name_received r name d) /\
    (w_faults w = [] -> forall v rest, 0 <= v < 2 ^ 16 ->
       n_in (w_net w) = htons_bytes v ++ rest ->
       (v = 0 \/ HF_PROTOCOL_MAX_FILE_NAME_LEN < v -> r = PROTOCOL_ERR_FILE_NAME_LEN) /\
       (0 < v <= HF_PROTOCOL_MAX_FILE_NAME_LEN -> v <= zlen rest -> r = PROTOCOL_OK))) w.
Proof.
  intros Hbytes. unfold proto_recv_file_name_only. wp_step. wp_use recv_exact_spec; [lia|].
  intros [r b] w1 (Hf1 & Hin1 & Hout1 & Hle1 & Hr1 & Hfull1 & H01 & _).
  assert (Henough : forall v rest, n_in (w_net w) = htons_bytes v ++ rest ->
            2 <= zlen (n_in (w_net w))).
  { intros v rest ->. unfold htons_bytes. len_lia. }
  destruct (Z.eqb_spec r 2) as [->|Hne]; simpl negb; cbv iota; cycle 1.
  { wp_step. split_and!; [done|done| |].
    - exists b. split; [done|]. split; case_if; done.
    - intros E v rest _ Hi. specialize (H01 E (Henough _ _ Hi)). done. }
  specialize (Hfull1 eq_refl). rewrite Hin1 in Hbytes. apply Forall_app in Hbytes as [Hb Hbytes].
  pose proof (ntohs_range b Hb ltac:(lia)) as Hrange. pose proof (bytes2 b Hb Hfull1) as Hbb.
  assert (Hv : forall v rest, 0 <= v < 2 ^ 16 -> n_in (w_net w) = htons_bytes v ++ rest ->
            v = ntohs_bytes b /\ rest = n_in (w_net w1)).
  { intros v rest Hv Hi. rewrite Hin1 in Hi. apply app_eq_len in Hi as [-> ->]; [|done].
    split; [|done]. rewrite <- (app_nil_r (htons_bytes v)). by rewrite ntohs_htons. }
  destruct (_ || _) eqn:Hbad.
  { wp_step. split_and!; [done|done| |].
    - exists b. split; [done|]. split; [done|]. intros _. exists (ntohs_bytes b).
      split; [proto_lia|done].
    - intros E v rest Hvr Hi. destruct (Hv _ _ Hvr Hi) as [-> ->]. split; [done|]. proto_lia. }
  wp_step. apply wp_sys_malloc.
  { intros w2 Hf2 Hlt. simpl negb. cbv iota. wp_step. split_and!; [frame|frame| |].
    - exists b. split; [|done]. assert (w_net w2 = w_net w1) as -> by frame. done.
    - rewrite no_faults_flen. assert ((flen w1 <= flen w)%nat) by frame. lia. }
  intros w2 Hf2 _. simpl negb. cbv iota. wp_step.
  assert (Hn2 : w_net w2 = w_net w1) by frame.
  wp_use recv_exact_spec; [lia|].
  intros [r3 raw] w3 (Hf3 & Hin3 & Hout3 & Hle3 & Hr3 & Hfull3 & H03 & _). rewrite Hn2 in *.
  assert (Hf : only_net w w3) by (transitivity w2; [transitivity w1; [done|frame]|done]).
  assert (Hin : n_in (w_net w) = (b ++ raw) ++ n_in (w_net w3)) by (by rewrite Hin1, Hin3, <- app_assoc).
  destruct (Z.eqb_spec r3 (ntohs_bytes b)) as [->|Hne]; simpl negb; cbv iota; wp_step.
  - specialize (Hfull3 eq_refl). split_and!; [done|congruence| |].
    + exists (b ++ raw). split; [done|]. split; [done|]. exists raw.
      split_and!; [unfold name_length_ok; proto_lia| |apply cstr_snoc_nul].
      unfold name_wire. by rewrite Hfull3, Hbb.
    + intros E v rest Hvr Hi. destruct (Hv _ _ Hvr Hi) as [-> ->]. split; [proto_lia|done].
  - split_and!; [done|congruence| |].
    + exists (b ++ raw). split; [done|]. split; case_if; done.
    + intros E v rest Hvr Hi. destruct (Hv _ _ Hvr Hi) as [-> ->]. split; [proto_lia|].
      intros _ Hl. destruct Hne. apply H03; [|done]. eapply only_io_no_faults; [|done]. frame.
Qed.

Lemma proto_recv_file_transfer_prefix_spec sock w :
  Forall is_byte (n_in (w_net w)) ->
  wp (proto_recv_file_transfer_prefix sock) (fun '(r, name, content_size) w' =>
    only_net w w' /\ n_out (w_net w') = n_out (w_net w) /\
    (exists d, n_in (w_net w) = d ++ n_in (w_net w') /\
      match name with
      | Some s => r = PROTOCOL_OK /\ exists raw, name_length_ok raw /\
          d = prefix_wire raw content_size /\ s = cstr raw /\ 0 <= content_size < 2 ^ 64
      | None => r <> PROTOCOL_OK /\ content_size = 0
      end) /\
    (w_faults w = [] -> forall raw size rest, name_length_ok raw -> 
       n_in (w_net w) = prefix_wire raw size ++ rest -> r = PROTOCOL_OK)) w.
Proof.
  intros Hbytes. unfold proto_recv_file_transfer_prefix. wp_step.
  wp_use proto_recv_file_name_only_spec; [done|].
  intros [r name] w1 (Hf1 & Hout1 & (d & Hd & Hname) & H01).
  assert (Hok1 : w_faults w = [] -> forall raw size rest, name_length_ok raw ->
            n_in (w_net w) = prefix_wire raw size ++ rest -> r = PROTOCOL_OK).
  { intros E raw size rest Hraw Hi. unfold prefix_wire, name_wire in Hi. rewrite <- !app_assoc in Hi.
    unfold name_length_ok in Hraw. eapply (H01 E); [|done|done|]; [proto_lia|len_lia]. }
  unfold result_ok. case_bool_decide as Hr; simpl negb; cbv iota; cycle 1.
  { wp_step. split_and!; [done|done| |done]. exists d. split; [done|]. done. }
  destruct name as [s|]; [|by destruct Hname]. destruct Hname as (_ & raw & Hraw & -> & Hs).
  wp_step. wp_use recv_exact_spec; [lia|].
  intros [r3 b] w3 (Hf3 & Hin3 & Hout3 & Hle3 & Hr3 & Hfull3 & H03 & _).
  rewrite Hd, Hin3 in Hbytes. apply Forall_app in Hbytes as [_ Hbytes].
  apply Forall_app in Hbytes as [Hb _].
  destruct (Z.eqb_spec r3 8) as [->|Hne]; simpl negb; cbv iota; wp_step.
  - specialize (Hfull3 eq_refl). split_and!; [by etrans|congruence| |done].
    exists (prefix_wire raw (decode_u64_be b)). unfold prefix_wire.
    rewrite encode_decode_u64 by (done || lia). split.
    + by rewrite Hd, Hin3, <- !app_assoc.
    + split; [done|]. exists raw. split_and!; try done; apply decode_u64_be_range; done || lia.
  - split_and!; [by etrans|congruence| |].
    + exists (name_wire raw ++ b). split; [by rewrite Hd, Hin3, <- app_assoc|]. by case_if.
    + intros E raw' size rest Hraw' Hi. destruct Hne. apply H03.
      * eapply only_io_no_faults; [|done]. frame.
      * rewrite Hd in Hi. unfold prefix_wire in Hi. rewrite <- app_assoc in Hi.
        apply name_wire_inj in Hi as [_ ->]; [|done|done]. 
        rewrite length_app, encode_u64_be_length. lia.
Qed.

(** What the encoders of names produce is the wire form. *)
Lemma encode_file_prefix_ok name content_size :
  name_length_ok name ->
  encode_file_prefix (Some name) content_size = (PROTOCOL_OK, prefix_wire name content_size).
Proof.
  intros Hl. unfold name_length_ok in Hl. unfold encode_file_prefix, proto_get_file_name_len, strlen.
  assert ((zlen name =? 0) || (HF_PROTOCOL_MAX_FILE_NAME_LEN <? zlen name) = false) as -> by proto_lia.
  unfold u16. rewrite Z.mod_small, ztake_ge by proto_lia.
  unfold prefix_wire, name_wire. by rewrite <- app_assoc.
Qed.

Lemma encode_file_name_only_ok name :
  name_length_ok name -> encode_file_name_only (Some name) = (PROTOCOL_OK, name_wire name).
Proof.
  intros Hl. unfold name_length_ok in Hl. unfold encode_file_name_only, proto_get_file_name_len, strlen.
  assert ((zlen name =? 0) || (HF_PROTOCOL_MAX_FILE_NAME_LEN <? zlen name) = false) as -> by proto_lia.
  unfold u16. by rewrite Z.mod_small, ztake_ge by proto_lia.
Qed.

Lemma prefix_wire_length name content_size :
  zlen (prefix_wire name content_size) = proto_file_transfer_prefix_size (zlen name).
Proof.
  unfold prefix_wire, proto_file_transfer_prefix_size, proto_file_name_only_size.
  rewrite length_app, encode_u64_be_length, Nat2Z.inj_add, name_wire_length. lia.
Qed.

Lemma prefix_wire_inj n1 n2 s1 s2 r1 r2 :
  name_length_ok n1 -> name_length_ok n2 -> 0 <= s1 < 2 ^ 64 -> 0 <= s2 < 2 ^ 64 ->
  prefix_wire n1 s1 ++ r1 = prefix_wire n2 s2 ++ r2 -> n1 = n2 /\ s1 = s2 /\ r1 = r2.
Proof.
  intros H1 H2 Hs1 Hs2 E. unfold prefix_wire in E. rewrite <- !app_assoc in E.
  apply name_wire_inj in E as [-> E]; [|done|done].
  apply app_eq_len in E as [Hsz ->]; [|done].
  apply (f_equal decode_u64_be) in Hsz. by rewrite !decode_encode_u64 in Hsz.
Qed.

(** ** Properties *)

(** Headers on the wire: thirteen bytes decode to [h] exactly when [h] is a
    header of this protocol (magic, version, a known type, no flags, a 64-bit
    payload size) and the bytes are its encoding; so encoding and decoding are
    inverse and every other thirteen bytes are rejected. *)
Theorem header_wire_exact h0 h b
    (Hb : Forall is_byte b) (Hl : zlen b = HF_PROTOCOL_HEADER_SIZE) :
  decode_header h0 b = (PROTOCOL_OK, h) <->
  header_ok h /\ encode_header (Some h) = (PROTOCOL_OK, b).
Proof.
  split.
  - apply decode_header_ok; [done|]. unfold HF_PROTOCOL_HEADER_SIZE in Hl. lia.
  - intros [Hok E]. by apply decode_encode_header.
Qed.

Lemma header_wire_exact_witness :
  decode_header init_header [4; 41; 3; 2; 0; 0; 0; 0; 0; 0; 0; 1; 0] =
    (PROTOCOL_OK, Header 1065 3 2 0 256) <->
  header_ok (Header 1065 3 2 0 256) /\
  encode_header (Some (Header 1065 3 2 0 256)) =
    (PROTOCOL_OK, [4; 41; 3; 2; 0; 0; 0; 0; 0; 0; 0; 1; 0]).
Proof.
  apply (header_wire_exact init_header (Header 1065 3 2 0 256)
           [4; 41; 3; 2; 0; 0; 0; 0; 0; 0; 0; 1; 0]);
    [repeat constructor; unfold is_byte; lia|reflexivity].
Defined.

(** Response frames on the wire: four bytes decode to [f] exactly when they
    encode [f] and [f] makes sense (a phase, a status the phase allows, an error
    code that is zero exactly on success); [encode_res_frame] refuses exactly
    the frames that do not. *)
Theorem res_frame_wire_exact f b
    (Hb : Forall is_byte b) (Hl : zlen b = HF_PROTOCOL_RES_FRAME_SIZE) (He : 0 <= error_code f) :
  (decode_res_frame b = (PROTOCOL_OK, f) <-> encode_res_frame (Some f) = (PROTOCOL_OK, b)) /\
  (fst (encode_res_frame (Some f)) = PROTOCOL_OK <-> res_frame_ok f).
Proof.
  unfold HF_PROTOCOL_RES_FRAME_SIZE in Hl. split; [split|].
  - intros H. by apply encode_decode_res_frame; [|lia|].
  - by apply decode_encode_res_frame.
  - rewrite <- res_frame_valid_iff by done. unfold encode_res_frame.
    by destruct (proto_res_frame_valid (Some f)).
Qed.

Lemma res_frame_wire_exact_witness :
  (decode_res_frame [0; 1; 0; 7] = (PROTOCOL_OK, ResFrame 0 1 7) <->
   encode_res_frame (Some (ResFrame 0 1 7)) = (PROTOCOL_OK, [0; 1; 0; 7])) /\
  (fst (encode_res_frame (Some (ResFrame 0 1 7))) = PROTOCOL_OK <->
   res_frame_ok (ResFrame 0 1 7)).
Proof.
  apply (res_frame_wire_exact (ResFrame 0 1 7) [0; 1; 0; 7]);
    [repeat constructor; unfold is_byte; lia|reflexivity|simpl; lia].
Defined.

(** A response frame crosses the connection: what [send_res_frame] puts on
    it, [recv_res_frame] takes off again as the same frame, leaving what
    follows, when nothing fails. *)
Theorem res_frame_crosses sock f f0 w1 w2 rest
    (Hsock : 0 <= sock) (Hok : res_frame_ok f)
    (Hf1 : w_faults w1 = []) (Hf2 : w_faults w2 = []) (Hempty : n_out (w_net w1) = [])
    (Hrest : Forall is_byte rest) :
  wp (send_res_frame sock (Some f)) (fun r1 w1' =>
    r1 = PROTOCOL_OK /\
    (n_in (w_net w2) = n_out (w_net w1') ++ rest ->
     wp (recv_res_frame sock f0) (fun '(r2, f') w2' =>
       r2 = PROTOCOL_OK /\ f' = f /\ n_in (w_net w2') = rest) w2)) w1.
Proof.
  wp_use send_res_frame_spec; [done|done|].
  intros r1 w1' (_ & _ & Hr & d & rest1 & Hd & Hout & Hall). specialize (Hr Hf1).
  rewrite (Hall Hr), app_nil_r in Hd. split; [done|]. intros Hin.
  rewrite Hout, Hempty, app_nil_l, <- Hd in Hin.
  eapply wp_mono; [apply recv_res_frame_spec; [done|]|].
  - rewrite Hin, encode_res_frame_ok by done. apply Forall_app. split; [|done].
    destruct Hok as [Hp Hs]. cbn [snd]. rewrite !Forall_cons.
    split_and!; [| |apply htons_bytes_ok]; unfold is_byte.
    + proto_lia.
    + destruct Hs as [[-> _]|[-> _]]; [proto_lia|]. case_if; proto_lia.
  - intros [r2 f'] w2' (_ & _ & _ & H0). by destruct (H0 Hf2 f rest Hok Hin) as (-> & -> & ->).
Qed.

Lemma res_frame_crosses_witness :
  wp (send_res_frame 5 (Some (ResFrame 1 2 9))) (fun r1 w1' =>
    r1 = PROTOCOL_OK /\
    (n_in (w_net (demo_world [] [1; 2; 0; 9; 77] (demo_files ∅))) = n_out (w_net w1') ++ [77] ->
     wp (recv_res_frame 5 (ResFrame 0 0 0)) (fun '(r2, f') w2' =>
       r2 = PROTOCOL_OK /\ f' = ResFrame 1 2 9 /\ n_in (w_net w2') = [77])
       (demo_world [] [1; 2; 0; 9; 77] (demo_files ∅)))) (demo_world [] [] (demo_files ∅)).
Proof.
  apply res_frame_crosses; [lia| |reflexivity|reflexivity|reflexivity|].
  - split; simpl; [by right|]. right. split; [done|lia].
  - repeat constructor; unfold is_byte; lia.
Defined.

(** The prefix of a file transfer: whatever the network does, when
    [proto_recv_file_transfer_prefix] succeeds it has taken exactly the encoding
    of some name of 1 to 255 bytes and a 64-bit size off the connection and
    returns that size and the name (up to a NUL in it); when what arrives is the
    encoding made by [encode_file_prefix] and nothing fails, it succeeds and
    returns what was encoded. *)
Theorem file_prefix_crosses sock w (Hbytes : Forall is_byte (n_in (w_net w))) :
  wp (proto_recv_file_transfer_prefix sock) (fun '(r, name, content_size) w' =>
    w_files w' = w_files w /\
    (r = PROTOCOL_OK -> exists raw, name_length_ok raw /\ name = Some (cstr raw) /\
       0 <= content_size < 2 ^ 64 /\
       n_in (w_net w) = prefix_wire raw content_size ++ n_in (w_net w')) /\
    (forall s size rest, w_faults w = [] -> Forall is_char s -> 0 <= size < 2 ^ 64 ->
       fst (encode_file_prefix (Some s) size) = PROTOCOL_OK ->
       n_in (w_net w) = snd (encode_file_prefix (Some s) size) ++ rest ->
       r = PROTOCOL_OK /\ name = Some s /\ content_size = size /\ n_in (w_net w') = rest)) w.
Proof.
  wp_use proto_recv_file_transfer_prefix_spec; [done|].
  intros [[r name] content_size] w' ([_ Hf] & _ & (d & Hd & Hname) & H0).
  assert (Hok : r = PROTOCOL_OK -> exists raw, name_length_ok raw /\ name = Some (cstr raw) /\
       0 <= content_size < 2 ^ 64 /\
       n_in (w_net w) = prefix_wire raw content_size ++ n_in (w_net w')).
  { intros E. destruct name as [s|]; [|by destruct Hname]. destruct Hname as (_ & raw & ? & -> & -> & ?).
    by exists raw. }
  split_and!; [done|done|]. intros s size rest E Hs Hsize Hfst Hin.
  assert (Hlen : name_length_ok s).
  { unfold encode_file_prefix, proto_get_file_name_len, strlen, name_length_ok in *.
    destruct (_ || _) eqn:Hl in Hfst; [done|]. lia. }
  rewrite encode_file_prefix_ok in Hin by done. simpl in Hin.
  pose proof (H0 E s size rest Hlen Hin) as Hr. split; [done|].
  destruct (Hok Hr) as (raw & Hraw & -> & Hcs & Hin'). rewrite Hin in Hin'.
  apply prefix_wire_inj in Hin' as (-> & -> & <-); [|done..]. by rewrite cstr_no_nul.
Qed.

Lemma file_prefix_crosses_witness :
  let w := demo_world [] ([0; 2; 104; 105; 0; 0; 0; 0; 0; 0; 1; 0] ++ [7]) (demo_files ∅) in
  wp (proto_recv_file_transfer_prefix 5) (fun '(r, name, content_size) w' =>
    w_files w' = w_files w /\
    (r = PROTOCOL_OK -> exists raw, name_length_ok raw /\ name = Some (cstr raw) /\
       0 <= content_size < 2 ^ 64 /\
       n_in (w_net w) = prefix_wire raw content_size ++ n_in (w_net w')) /\
    (forall s size rest, w_faults w = [] -> Forall is_char s -> 0 <= size < 2 ^ 64 ->
       fst (encode_file_prefix (Some s) size) = PROTOCOL_OK ->
       n_in (w_net w) = snd (encode_file_prefix (Some s) size) ++ rest ->
       r = PROTOCOL_OK /\ name = Some s /\ content_size = size /\ n_in (w_net w') = rest)) w.
Proof. apply file_prefix_crosses. repeat constructor; unfold is_byte; lia. Defined.

(** A name length of zero or above 255 is refused after the two bytes that
    carry it, and a name that is refused never reaches the caller. *)
Theorem file_name_length_refused sock v rest w
    (Hv : v = 0 \/ HF_PROTOCOL_MAX_FILE_NAME_LEN < v < 2 ^ 16)
    (Hin : n_in (w_net w) = htons_bytes v ++ rest) (Hrest : Forall is_byte rest) :
  wp (proto_recv_file_name_only sock) (fun '(r, name) w' =>
    name = None /\ r <> PROTOCOL_OK /\ w_files w' = w_files w /\
    (w_faults w = [] -> r = PROTOCOL_ERR_FILE_NAME_LEN /\ n_in (w_net w') = rest)) w.
Proof.
  assert (Hbytes : Forall is_byte (n_in (w_net w))).
  { rewrite Hin. apply Forall_app. split; [apply htons_bytes_ok|done]. }
  wp_use proto_recv_file_name_only_spec; [done|].
  intros [r name] w' ([_ Hf] & _ & (d & Hd & Hname) & H0). rewrite Hin in Hd.
  destruct name as [s|].
  { destruct Hname as (_ & raw & Hraw & -> & _). exfalso. unfold name_length_ok in Hraw.
    unfold name_wire in Hd. rewrite <- app_assoc in Hd. apply app_eq_len in Hd as [Hd _]; [|done].
    apply (f_equal (fun b => ntohs_bytes (b ++ []))) in Hd.
    rewrite !ntohs_htons in Hd by proto_lia. proto_lia. }
  destruct Hname as [Hr Hlen]. split_and!; try done. intros E.
  assert (0 <= v < 2 ^ 16) as Hvr by proto_lia.
  destruct (H0 E v rest Hvr Hin) as [H1 _].
  assert (r = PROTOCOL_ERR_FILE_NAME_LEN) as -> by (apply H1; proto_lia).
  split; [done|]. destruct (Hlen eq_refl) as (v' & _ & ->). by apply app_eq_len in Hd as [_ <-].
Qed.

Lemma file_name_length_refused_witness :
  let w := demo_world [] [1; 0; 65] (demo_files ∅) in
  wp (proto_recv_file_name_only 5) (fun '(r, name) w' =>
    name = None /\ r <> PROTOCOL_OK /\ w_files w' = w_files w /\
    (w_faults w = [] -> r = PROTOCOL_ERR_FILE_NAME_LEN /\ n_in (w_net w') = [65])) w.
Proof.
  apply (file_name_length_refused 5 256 [65]);
    [right; vm_compute; by split|reflexivity|repeat constructor; unfold is_byte; lia].
Defined.
