(* ===== verification/TransferIo.v ===== *)
(** * Storing an upload (src/transfer_io.c)

    A received file is written to a temporary file next to its final path and
    renamed over it when all of it has arrived. The two entry points differ in
    how they receive the body; what they need of it is the class [BodyReceiver],
    and the theorems about storing are proved against it. *)

From S2P Require Import Prelude CLib World Logic Fs Net Protocol.

(** ** Definitions *)

Definition STACK_BUF_SIZE : Z := 8192.
Definition HEAP_BUF_SIZE : Z := 256 * 1024.
Definition HEAP_THRESHOLD : Z := 1 * 1024 * 1024.

(** [sizeof(full_path)] and [sizeof(tmp_path)]. *)
Definition PATH_CAP : Z := 4096.

Fixpoint transfer_recv_loop (fuel : nat) (conn out buf_cap remaining : Z) : M protocol_result_t :=
  match fuel with
  | O => out_of_fuel
  | S fuel =>
      if 0 <? remaining then
        let want := if remaining <? buf_cap then remaining else buf_cap in
        let! (n, buf) := sys_recv conn want in
        if n <? 0 then
          let! errno := get_errno in
          if errno =? EINTR then transfer_recv_loop fuel conn out buf_cap remaining
          else ret PROTOCOL_ERR_IO
        else if n =? 0 then ret PROTOCOL_ERR_EOF
        else
          let! r := fs_write_all out buf in
          if negb (r =? n) then ret PROTOCOL_ERR_IO
          else transfer_recv_loop fuel conn out buf_cap (u64 (remaining - n))
      else ret PROTOCOL_OK
  end.

Definition transfer_recv_socket_http_file_buffered (conn out content_size : Z)
    : M protocol_result_t :=
  let loop buf_cap : M protocol_result_t := fun w =>
    transfer_recv_loop (S (flen w + length (n_in (w_net w)))) conn out buf_cap content_size w in
  if HEAP_THRESHOLD <? content_size then
    let! heap_buf := sys_malloc in
    if negb heap_buf then ret PROTOCOL_ERR_ALLOC else loop HEAP_BUF_SIZE
  else loop STACK_BUF_SIZE.

(** The attempts to create a temporary file: the result, [tmp_path], [*out_fd]. *)
Fixpoint transfer_open_temp (pid : Z) (full_path : bytes) (attempts : list Z) (tmp_path : bytes)
    : M (protocol_result_t * bytes * Z) :=
  match attempts with
  | [] => ret (PROTOCOL_ERR_IO, tmp_path, -1)
  | attempt :: attempts =>
      let '(r, tmp_path) := fs_build_temp_path PATH_CAP (Some full_path) pid attempt in
      if negb (r =? 0) then ret (PROTOCOL_ERR_INVALID_ARGUMENT, tmp_path, -1)
      else
        let! fd := fs_open_temp_file (Some tmp_path) in
        if negb (fd =? -1) then ret (PROTOCOL_OK, tmp_path, fd)
        else
          let! errno := get_errno in
          if errno =? EEXIST then transfer_open_temp pid full_path attempts tmp_path
          else ret (PROTOCOL_ERR_IO, tmp_path, -1)
  end.

(** The result, [full_path], [tmp_path] and [*out_fd]. *)
Definition transfer_prepare_output (base_dir file_name : option bytes)
    : M (protocol_result_t * bytes * bytes * Z) :=
  if bool_decide (base_dir = None) || bool_decide (file_name = None) then
    ret (PROTOCOL_ERR_INVALID_ARGUMENT, [], [], -1)
  else
    let '(r, full_path) := fs_join_relative_path PATH_CAP base_dir file_name in
    if negb (r =? 0) then ret (PROTOCOL_ERR_INVALID_ARGUMENT, full_path, [], -1)
    else
      let! w := get in
      let! (result, tmp_path, out_fd) :=
        transfer_open_temp (e_pid (w_env w)) full_path [0; 1; 2] [] in
      ret (result, full_path, tmp_path, out_fd).

(** The result, [*out_fd] and what [full_path_out] received. *)
Definition transfer_finalize_output (out_fd : Z) (tmp_path full_path : bytes) (full_path_cap : Z)
    : M (protocol_result_t * Z * option bytes) :=
  if full_path_cap =? 0 then ret (PROTOCOL_ERR_INVALID_ARGUMENT, out_fd, None)
  else
    let full_path_len := strlen full_path in
    if full_path_cap <? full_path_len + 1 then
      ret (PROTOCOL_ERR_INVALID_ARGUMENT, out_fd, None)
    else
      let! closed := if negb (out_fd =? -1) then fs_close out_fd else ret 0 in
      if negb (closed =? 0) then ret (PROTOCOL_ERR_IO, -1, None)
      else
        let! committed := fs_commit_temp_file (Some tmp_path) (Some full_path) in
        if negb (committed =? 0) then ret (PROTOCOL_ERR_IO, -1, None)
        else ret (PROTOCOL_OK, -1, Some full_path).

(** The label [CLEANUP]. *)
Definition transfer_cleanup (result : protocol_result_t) (out : Z) (tmp_path : bytes) : M unit :=
  (if negb (out =? -1) then let! _ := fs_close out in ret tt else ret tt) ;;!
  if negb (result_ok result) && negb (bool_decide (tmp_path = [])) then
    fs_remove_ignore_error (Some tmp_path)
  else ret tt.

(** What the two entry points share: everything but how the body arrives. The
    result and what [full_path_out] received. *)
Definition transfer_recv_with (recv_body : Z -> Z -> Z -> M protocol_result_t)
    (conn : Z) (base_dir file_name : option bytes) (content_size full_path_cap : Z)
    : M (protocol_result_t * option bytes) :=
  if bool_decide (base_dir = None) || bool_decide (file_name = None) || (full_path_cap =? 0) then
    ret (PROTOCOL_ERR_INVALID_ARGUMENT, None)
  else
    let! (result, full_path, tmp_path, out) := transfer_prepare_output base_dir file_name in
    if negb (result_ok result) then ret (result, None)
    else
      let! result := recv_body conn out content_size in
      if negb (result_ok result) then
        transfer_cleanup result out tmp_path ;;! ret (result, None)
      else
        let! (result, out, path_out) :=
          transfer_finalize_output out tmp_path full_path full_path_cap in
        transfer_cleanup result out tmp_path ;;! ret (result, path_out).

(** The translation of a [net_recv_file_result_t] in [transfer_recv_socket_file]. *)
Definition transfer_recv_result (recv_res : net_recv_file_result_t) : protocol_result_t :=
  match recv_res with
  | NET_RECV_FILE_OK => PROTOCOL_OK
  | NET_RECV_FILE_EOF => PROTOCOL_ERR_EOF
  | NET_RECV_FILE_IO => PROTOCOL_ERR_IO
  | NET_RECV_FILE_INVALID_ARGUMENT => PROTOCOL_ERR_INVALID_ARGUMENT
  | NET_RECV_FILE_UNSUPPORTED => PROTOCOL_ERR_IO
  end.

Definition transfer_recv_net_body (conn out content_size : Z) : M protocol_result_t :=
  let! recv_res := net_recv_file_best_effort conn out content_size in
  ret (transfer_recv_result recv_res).

Definition transfer_recv_socket_file := transfer_recv_with transfer_recv_net_body.
Definition transfer_recv_socket_http_file :=
  transfer_recv_with transfer_recv_socket_http_file_buffered.

(** *** Specifications *)

(** What storing needs of a body receiver: see [Net.received]. *)
Class BodyReceiver (recv_body : Z -> Z -> Z -> M protocol_result_t) : Prop :=
  body_received : forall conn fd p c size w,
    0 <= conn -> 0 <= fd -> 0 <= size < 2 ^ 64 ->
    e_splice_direct (w_env w) = false -> fds_ok (w_files w) -> file_at (w_files w) fd p c ->
    wp (recv_body conn fd size) (fun r w' =>
      only_io w w' /\ received fd p c size (r = PROTOCOL_OK) (w_files w) w w') w.

(** The final path of [file_name] below [base_dir]; an empty name is the
    directory itself (as [fs_join_relative_path] has it). *)
Definition target_path (base_dir file_name : bytes) : bytes :=
  match file_name with [] => base_dir | _ => entry_path base_dir file_name end.

(** Where an upload is stored meanwhile, on attempt [k] of the process. *)
Definition upload_temp (w : world) (base_dir file_name : bytes) (k : Z) : bytes :=
  temp_path_text (target_path base_dir file_name) (e_pid (w_env w)) k.

(** What an upload may change. On success the final path, and nothing else,
    holds exactly the [size] bytes taken off the connection. On failure no file
    that existed changed; at most a new temporary file with the bytes that
    arrived is left, and only if the system failed. No descriptor leaks. *)
Definition upload_outcome (base_dir file_name : bytes) (size : Z)
    (r : protocol_result_t) (saved : option bytes) (w w' : world) : Prop :=
  exists d lost,
    n_in (w_net w) = d ++ lost ++ n_in (w_net w') /\ n_out (w_net w') = n_out (w_net w) /\
    f_fds (w_files w') = f_fds (w_files w) /\ fds_ok (w_files w') /\
    if decide (r = PROTOCOL_OK) then
      zlen d = size /\ lost = [] /\ saved = Some (target_path base_dir file_name) /\
      (file_name = [] \/ relative_path_ok file_name) /\
      exists m, f_fs (w_files w') =
        <[target_path base_dir file_name := NFile d m]> (f_fs (w_files w))
    else
      saved = None /\ zlen d <= size /\
      (f_fs (w_files w') = f_fs (w_files w) \/
       w_faults w <> [] /\ exists k m, 0 <= k < 3 /\
         f_fs (w_files w) !! upload_temp w base_dir file_name k = None /\
         f_fs (w_files w') =
           <[upload_temp w base_dir file_name k := NFile d m]> (f_fs (w_files w))).

(** A place where a file can be stored. *)
Definition upload_ready (base_dir file_name : bytes) (cap : Z) (w : world) : Prop :=
  relative_path_ok file_name /\
  zlen (upload_temp w base_dir file_name 0) < PATH_CAP /\
  zlen (target_path base_dir file_name) < cap /\
  parent_ok (f_fs (w_files w)) (target_path base_dir file_name) = true /\
  (forall m, f_fs (w_files w) !! target_path base_dir file_name <> Some (NDir m)) /\
  exists k, 0 <= k < 3 /\ f_fs (w_files w) !! upload_temp w base_dir file_name k = None.

(** ** Theorems *)

(** *** Body receivers *)

#[export] Instance transfer_recv_net_body_receiver : BodyReceiver transfer_recv_net_body.
Proof.
  intros conn fd p c size w Hc Hfd Hs He Hok Hat. unfold transfer_recv_net_body. wp_step.
  wp_use net_recv_file_best_effort_spec; try done.
  intros r w' (Hio & Hr & Hu). wp_step. split; [done|].
  eapply received_weaken; [|done]. by destruct r.
Qed.

(** The HTTP receive loop is the buffered loop of net.c, with its results in the
    other enumeration. *)
Lemma transfer_recv_loop_net fuel conn out cap remaining w :
  transfer_recv_loop fuel conn out cap remaining w =
  (let! r := net_recv_file_buffered_loop fuel conn out cap remaining in
   ret (transfer_recv_result r)) w.
Proof.
  revert remaining w. induction fuel as [|fuel IH]; intros remaining w; [done|].
  unfold bind in *. cbn [transfer_recv_loop net_recv_file_buffered_loop]. unfold bind.
  destruct (0 <? remaining); [|done].
  destruct (sys_recv _ _ w) as [[[n buf] w1]|]; [|done].
  destruct (n <? 0); simpl.
  - destruct (w_errno w1 =? EINTR); [apply IH|done].
  - destruct (n =? 0); [done|].
    destruct (fs_write_all out buf w1) as [[r w2]|]; [|done].
    destruct (negb (r =? n)); [done|apply IH].
Qed.

#[export] Instance transfer_recv_http_body_receiver :
  BodyReceiver transfer_recv_socket_http_file_buffered.
Proof.
  intros conn fd p c size w Hc Hfd Hs He Hok Hat.
  assert (Hloop : forall cap w1, 0 < cap -> only_errno w w1 ->
    wp (fun w0 => transfer_recv_loop (S (flen w0 + length (n_in (w_net w0)))) conn fd cap size w0)
       (fun r w' => only_io w w' /\ received fd p c size (r = PROTOCOL_OK) (w_files w) w w') w1).
  { intros cap w1 Hcap Hf1. assert (Hw1 : w_files w1 = w_files w) by frame.
    unfold wp. rewrite transfer_recv_loop_net. fold (wp (let! r := net_recv_file_buffered_loop
      (S (flen w1 + length (n_in (w_net w1)))) conn fd cap size in ret (transfer_recv_result r))
      (fun r w' => only_io w w' /\ received fd p c size (r = PROTOCOL_OK) (w_files w) w w') w1).
    wp_step. eapply wp_mono; [apply (net_recv_file_buffered_loop_spec _ conn fd p c);
      [done|by rewrite Hw1|lia|done]|].
    intros r w2 (H1 & H2 & H3). rewrite Hw1 in H2. wp_step. split; [etrans; [|done]; frame|].
    eapply received_skip; [|frame|]; [frame|]. eapply received_weaken; [|done]. by destruct r. }
  unfold transfer_recv_socket_http_file_buffered. wp_step; [|by apply Hloop].
  wp_step. apply wp_sys_malloc; intros w1 Hf1 H1; simpl negb; cbv iota; [|by apply Hloop].
  wp_step. split; [frame|]. apply received_none; [lia| |done|].
  - assert (w_files w1 = w_files w) as E by frame. split; [frame|rewrite E; by apply files_grow_refl].
  - rewrite no_faults_flen. lia.
Qed.

(** *** Storing *)

Lemma temp_path_length p pid k :
  0 <= k < 3 -> zlen (temp_path_text p pid k) = zlen (temp_path_text p pid 0).
Proof.
  intros Hk. assert (Hd : length (sdec k) = length (sdec 0)).
  { by assert (k = 0 \/ k = 1 \/ k = 2) as [->|[->| ->]] by lia. }
  unfold temp_path_text. rewrite !length_app, Hd. lia.
Qed.

Lemma transfer_open_temp_spec pid full attempts tmp0 w :
  (forall k, k ∈ attempts -> 0 <= k < 3) -> 0 <= f_next (w_files w) ->
  wp (transfer_open_temp pid full attempts tmp0) (fun '(r, tmp, fd) w' =>
    only_files w w' /\
    (r = PROTOCOL_OK -> exists k, 0 <= k < 3 /\ tmp = temp_path_text full pid k /\
       fd = f_next (w_files w) /\
       temp_opened tmp (e_now (w_env w)) (w_files w) (w_files w')) /\
    (r <> PROTOCOL_OK -> w_files w' = w_files w) /\
    (w_faults w = [] -> zlen (temp_path_text full pid 0) < PATH_CAP ->
       parent_ok (f_fs (w_files w)) full = true ->
       (exists k, k ∈ attempts /\ f_fs (w_files w) !! temp_path_text full pid k = None) ->
       r = PROTOCOL_OK)) w.
Proof.
  revert tmp0 w. induction attempts as [|k attempts IH]; intros tmp0 w Hk Hnext;
    cbn [transfer_open_temp].
  { wp_step. split_and!; try done. intros _ _ _ (k & Hin & _). set_solver. }
  assert (0 <= k < 3) as Hk0 by (apply Hk; set_solver).
  destruct (fs_build_temp_path PATH_CAP (Some full) pid k) as [r tmp] eqn:Et.
  destruct (Z.eqb_spec r 0) as [->|Hr]; simpl negb; cbv iota; cycle 1.
  { wp_step. split_and!; try done. intros _ Hl. rewrite <- (temp_path_length _ _ k) in Hl by done.
    rewrite fs_build_temp_path_fits in Et; [by injection Et as <- _|by vm_compute|done]. }
  apply fs_build_temp_path_0 in Et as [-> Hlen].
  wp_step. wp_use fs_open_temp_file_spec. intros fd w1 (Hf1 & H1).
  destruct (Z.eqb_spec fd (-1)) as [->|Hfd]; simpl negb; cbv iota; cycle 1.
  { wp_step. destruct H1 as [[-> _]|(-> & Hp & Ho)]; [done|]. split_and!; try done.
    intros _. by exists k. }
  destruct H1 as [(_ & Hw1 & H1)|(E & _)]; [|lia].
  wp_step. wp_step. wp_step.
  - assert (w_env w1 = w_env w) as He by apply Hf1.
    eapply wp_mono; [apply IH; [set_solver|by rewrite Hw1]|].
    intros [[r tmp] fd] w2 (Hf2 & H2 & H3 & H4). rewrite Hw1, He in *.
    split_and!; [by etrans|done|by intros; rewrite H3|].
    intros E0 Hl Hp (j & Hj & Hno). apply H4; try done.
    + eapply only_io_no_faults; [|done]. by apply only_files_io.
    + apply elem_of_cons in Hj as [->|Hj]; [|by exists j].
      destruct (H1 E0) as [[[n Hn] _]|Hp']; [congruence|].
      rewrite parent_ok_temp in Hp'. congruence.
  - wp_step. split_and!; try done. intros E0 Hl Hp _.
    destruct (H1 E0) as [[_ He]|Hp']; [lia|]. rewrite parent_ok_temp in Hp'. congruence.
Qed.

Lemma fs_join_target base name full :
  fs_join_relative_path PATH_CAP (Some base) (Some name) = (0, full) ->
  (name = [] \/ relative_path_ok name) /\ full = target_path base name /\ zlen full < PATH_CAP.
Proof.
  destruct name as [|c name].
  - unfold fs_join_relative_path. change (PATH_CAP =? 0) with false. cbv iota.
    pose proof (snprintf_fits PATH_CAP base) as Hf.
    destruct (snprintf PATH_CAP base) as [n o]. cbn [fst snd] in Hf. case_if; [done|].
    intros [= <-]. destruct (Hf eq_refl) as (_ & ? & ->). split_and!; [by left|done|done].
  - intros H. apply fs_join_relative_path_0 in H as (? & -> & ?); [|done]. auto.
Qed.

(** [transfer_prepare_output]: a new, empty temporary file or no change. *)
Lemma transfer_prepare_output_spec base name w :
  fds_ok (w_files w) ->
  wp (transfer_prepare_output (Some base) (Some name)) (fun '(r, full, tmp, fd) w' =>
    only_files w w' /\
    (r = PROTOCOL_OK -> (name = [] \/ relative_path_ok name) /\ full = target_path base name /\
       exists k, 0 <= k < 3 /\ tmp = upload_temp w base name k /\ fd = f_next (w_files w) /\
       temp_opened tmp (e_now (w_env w)) (w_files w) (w_files w')) /\
    (r <> PROTOCOL_OK -> w_files w' = w_files w) /\
    (w_faults w = [] -> forall cap, upload_ready base name cap w -> r = PROTOCOL_OK)) w.
Proof.
  intros [Hnext _]. unfold transfer_prepare_output.
  rewrite !bool_decide_eq_false_2 by done. cbn [orb].
  destruct (fs_join_relative_path PATH_CAP (Some base) (Some name)) as [r full] eqn:Ej.
  destruct (Z.eqb_spec r 0) as [->|Hr]; simpl negb; cbv iota; cycle 1.
  { wp_step. split_and!; try done. intros _ cap (Hrel & Hlen & _).
    destruct Hr. assert (name <> []) as Hne.
    { intros ->. apply fs_validate_relative_path_iff in Hrel. done. }
    rewrite fs_join_relative_path_fits in Ej; [by injection Ej as <- _|by vm_compute|done|].
    destruct name as [|c name]; [done|]. unfold upload_temp, temp_path_text, target_path in Hlen.
    len_lia. }
  apply fs_join_target in Ej as (Hname & -> & Hlen). do 3 wp_step.
  wp_use transfer_open_temp_spec; [set_solver by lia|done|].
  intros [[r tmp] fd] w1 (Hf1 & H1 & H2 & H3). wp_step.
  split_and!; [done| |done|].
  - intros E. split_and!; [done|done|]. by apply H1.
  - intros E cap (Hrel & Hl & _ & Hp & _ & k & Hk & Hno). apply H3; try done.
    exists k. split; [|done]. assert (k = 0 \/ k = 1 \/ k = 2) by lia. set_solver.
Qed.

(** The temporary file [tmp], new with respect to [f0], holds [d]; it is open as
    [out], or closed when [out] is -1. *)
Definition stored (f0 : files_t) (tmp d : bytes) (out : Z) (f : files_t) : Prop :=
  (exists m, f_fs f = <[tmp := NFile d m]> (f_fs f0)) /\ f_next f0 <= f_next f /\
  if out =? -1 then f_fds f = f_fds f0
  else f_fds f0 !! out = None /\ exists x, f_fds f = <[out := x]> (f_fds f0).

Lemma parent_ok_insert fs tmp n p :
  fs !! tmp = None -> parent_ok fs p = true -> parent_ok (<[tmp := n]> fs) p = true.
Proof.
  intros Hno. unfold parent_ok. destruct (strrchr p 47) as [[|i]|]; try done.
  destruct (fs !! take (S i) p) as [e|] eqn:E; [|done].
  rewrite lookup_insert_ne by congruence. rewrite E. destruct e as [| |t ?|]; try done.
  destruct (fs !! t) as [e|] eqn:Et; [|done]. rewrite lookup_insert_ne by congruence. by rewrite Et.
Qed.

Lemma fds_ok_same f f' :
  fds_ok f -> f_fds f' = f_fds f -> f_next f <= f_next f' -> fds_ok f'.
Proof. intros [H0 H] E Hn. split; [lia|]. intros n Hle. rewrite E. apply H. lia. Qed.

(** Closing the temporary file. *)
Lemma stored_close f0 tmp d out w :
  stored f0 tmp d out (w_files w) -> out <> -1 ->
  wp (fs_close out) (fun r w' =>
    only_files w w' /\ (w_faults w = [] -> r = 0) /\ stored f0 tmp d (-1) (w_files w')) w.
Proof.
  intros (Hm & Hn & Hfds) Ho. destruct (Z.eqb_spec out (-1)); [done|].
  destruct Hfds as [Hnone [x Hx]]. unfold fs_close. apply wp_sys_close.
  intros r w' Hf _ H0 Hw. split_and!; [done|done|]. rewrite Hw. split_and!; simpl; try done.
  rewrite Hx. by rewrite delete_insert_eq, delete_id.
Qed.

Lemma transfer_cleanup_ok tmp w : wp (transfer_cleanup PROTOCOL_OK (-1) tmp) (fun _ w' => w' = w) w.
Proof. done. Qed.

Lemma transfer_cleanup_spec f0 tmp d out r w :
  stored f0 tmp d out (w_files w) -> f_fs f0 !! tmp = None -> tmp <> [] -> r <> PROTOCOL_OK ->
  wp (transfer_cleanup r out tmp) (fun _ w' =>
    only_files w w' /\ f_fds (w_files w') = f_fds f0 /\ f_next f0 <= f_next (w_files w') /\
    (f_fs (w_files w') = f_fs f0 \/
     w_faults w <> [] /\ exists m, f_fs (w_files w') = <[tmp := NFile d m]> (f_fs f0))) w.
Proof.
  intros Hst Hno Htmp Hr. unfold transfer_cleanup. wp_step.
  apply (wp_mono _ (fun _ w' => only_files w w' /\ stored f0 tmp d (-1) (w_files w'))).
  { destruct (Z.eqb_spec out (-1)) as [->|Ho]; simpl negb; cbv iota; [by wp_step|].
    wp_step. wp_use stored_close; [done|done|]. intros r1 w1 (H1 & _ & H2). by wp_step. }
  intros _ w1 (Hf1 & [m Hm] & Hn & Hfds). change (-1 =? -1) with true in Hfds. cbv iota in Hfds.
  unfold result_ok. rewrite !bool_decide_eq_false_2 by done. cbn [negb andb].
  wp_use fs_remove_ignore_error_spec; [intros m'; by rewrite Hm, lookup_insert_eq|].
  intros _ w2 (Hf2 & Hw2 & H0). split_and!; [by etrans| | |].
  - destruct Hw2 as [->| ->]; done.
  - destruct Hw2 as [->| ->]; done.
  - destruct Hw2 as [Hw2|Hw2]; rewrite Hw2; simpl; rewrite Hm; [|by left; rewrite delete_insert_id].
    destruct (decide (w_faults w = [])) as [E|Hne]; [|right; eauto].
    left. rewrite <- Hm, <- Hw2, H0, Hm, delete_insert_id; [done|done|].
    eapply only_io_no_faults; [|done]. by apply only_files_io.
Qed.

Lemma transfer_finalize_output_spec f0 tmp full d out cap w :
  stored f0 tmp d out (w_files w) -> out <> -1 -> f_fs f0 !! tmp = None -> tmp <> full ->
  wp (transfer_finalize_output out tmp full cap) (fun '(r, out', path) w' =>
    only_files w w' /\
    (r = PROTOCOL_OK -> out' = -1 /\ path = Some full /\ f_fds (w_files w') = f_fds f0 /\
       f_next f0 <= f_next (w_files w') /\
       exists m, f_fs (w_files w') = <[full := NFile d m]> (f_fs f0)) /\
    (r <> PROTOCOL_OK -> path = None /\ stored f0 tmp d out' (w_files w')) /\
    (w_faults w = [] -> parent_ok (f_fs f0) full = true ->
       (forall m, f_fs f0 !! full <> Some (NDir m)) -> zlen full < cap -> r = PROTOCOL_OK)) w.
Proof.
  intros Hst Ho Hno Hne. unfold transfer_finalize_output, strlen.
  destruct (Z.eqb_spec cap 0).
  { wp_step. split_and!; try done. intros _ _ _ Hl. lia. }
  destruct (Z.ltb_spec cap (zlen full + 1)).
  { wp_step. split_and!; try done. intros _ _ _ Hl. lia. }
  wp_step. destruct (Z.eqb_spec out (-1)); [done|]. simpl negb. cbv iota.
  wp_use stored_close; [done|done|]. intros r1 w1 (Hf1 & H1 & Hst1).
  destruct (Z.eqb_spec r1 0) as [->|Hr]; simpl negb; cbv iota; cycle 1.
  { wp_step. split_and!; try done. intros E. by specialize (H1 E). }
  pose proof Hst1 as ([m Hm] & Hn & Hfds). change (-1 =? -1) with true in Hfds. cbv iota in Hfds.
  wp_step. unfold fs_commit_temp_file. wp_step. apply (wp_sys_rename _ _ d m); [by rewrite Hm, lookup_insert_eq| |].
  - intros e w2 Hf2 Hw2 _ H2. wp_step. simpl negb. cbv iota. wp_step.
    split_and!; [by etrans|done|by rewrite Hw2|].
    intros E Hp Hdir _. destruct H2 as [H2|[m' H2]].
    + eapply only_io_no_faults; [|done]. by apply only_files_io.
    + rewrite Hm, parent_ok_insert in H2; done.
    + rewrite Hm, lookup_insert_ne in H2 by done. by apply Hdir in H2.
  - intros w2 Hf2 Hw2. wp_step. simpl negb. cbv iota. wp_step.
    split_and!; [by etrans| |done|done]. intros _. rewrite Hw2. simpl.
    split_and!; try done. exists m. by rewrite Hm, delete_insert_id.
Qed.

Lemma opened_stored f0 tmp now fd d f1 f2 :
  fds_ok f0 -> temp_opened tmp now f0 f1 -> fd = f_next f0 -> files_grow fd tmp d f1 f2 ->
  stored f0 tmp d fd f2.
Proof.
  intros [Hn0 Hok] [Hno ->] -> ([m Hm] & Hfds & Hn). simpl in *. split_and!.
  - exists m. by rewrite Hm, insert_insert_eq.
  - lia.
  - destruct (Z.eqb_spec (f_next f0) (-1)); [lia|]. split; [apply Hok; lia|].
    eexists. by rewrite Hfds, insert_insert_eq.
Qed.

(** What storing an upload comes to. *)
Definition upload_done (base name : bytes) (size cap : Z) (w : world)
    (rs : protocol_result_t * option bytes) (w' : world) : Prop :=
  let '(r, saved) := rs in
  only_io w w' /\ upload_outcome base name size r saved w w' /\
  (w_faults w = [] -> upload_ready base name cap w -> size <= zlen (n_in (w_net w)) ->
     r = PROTOCOL_OK).

(** The temporary file holds [d]; the upload is given up with the error [r]. *)
Lemma upload_given_up base name size cap r out k d lost w w3 :
  r <> PROTOCOL_OK -> only_io w w3 -> 0 <= k < 3 ->
  f_fs (w_files w) !! upload_temp w base name k = None ->
  stored (w_files w) (upload_temp w base name k) d out (w_files w3) -> fds_ok (w_files w) ->
  n_in (w_net w) = d ++ lost ++ n_in (w_net w3) -> n_out (w_net w3) = n_out (w_net w) ->
  zlen d <= size ->
  ~ (w_faults w = [] /\ upload_ready base name cap w /\ size <= zlen (n_in (w_net w))) ->
  wp (transfer_cleanup r out (upload_temp w base name k) ;;! ret (r, None))
    (upload_done base name size cap w) w3.
Proof.
  intros Hr Hio3 Hk Hno Hst3 Hok Hin Hout Hle Hlive.
  wp_step. wp_use transfer_cleanup_spec; try done; [apply temp_path_nonempty|].
  intros _ w4 (Hf4 & Hfds4 & Hn4 & Hfs4). wp_step.
  split_and!; [etrans; [done|by apply only_files_io]| |by intros; destruct Hlive].
  exists d, lost. assert (w_net w4 = w_net w3) as -> by apply Hf4.
  rewrite decide_False by done. split_and!; try done; [by apply (fds_ok_same (w_files w))|].
  destruct Hfs4 as [?|[Hno4 [m Hm]]]; [by left|right]. split.
  - intros E. apply Hno4. by eapply only_io_no_faults.
  - by exists k, m.
Qed.

(** All of the body is in the temporary file. *)
Lemma upload_finished base name cap fd k d w w2 :
  only_io w w2 -> fds_ok (w_files w) -> fd <> -1 -> 0 <= k < 3 ->
  (name = [] \/ relative_path_ok name) ->
  f_fs (w_files w) !! upload_temp w base name k = None ->
  stored (w_files w) (upload_temp w base name k) d fd (w_files w2) ->
  n_in (w_net w) = d ++ n_in (w_net w2) -> n_out (w_net w2) = n_out (w_net w) ->
  wp (let! (result, out, saved_path) :=
        transfer_finalize_output fd (upload_temp w base name k) (target_path base name) cap in
      transfer_cleanup result out (upload_temp w base name k) ;;! ret (result, saved_path))
    (upload_done base name (zlen d) cap w) w2.
Proof.
  intros Hio Hok Hfd Hk Hname Hno Hst Hin Hout.
  wp_step. wp_use (transfer_finalize_output_spec (w_files w)); [done..|apply temp_path_neq|].
  intros [[r3 out] path] w3 (Hf3 & H4 & H5 & H6).
  assert (Hn3 : w_net w3 = w_net w2) by apply Hf3.
  assert (Hio3 : only_io w w3) by (etrans; [done|by apply only_files_io]).
  destruct (decide (r3 = PROTOCOL_OK)) as [->|Hr3].
  - destruct (H4 eq_refl) as (-> & -> & Hfds & Hnx & [m Hm]). wp_step. wp_use transfer_cleanup_ok.
    intros _ w4 ->. wp_step. split_and!; [done| |done].
    exists d, []. rewrite Hn3. rewrite decide_True by done.
    split_and!; try done; [by apply (fds_ok_same (w_files w))|]. by exists m.
  - destruct (H5 Hr3) as [-> Hst3].
    apply (upload_given_up _ _ _ _ _ _ _ d []); try done; [by rewrite Hn3|by rewrite Hn3|].
    intros (E & (_ & _ & Hl & Hp & Hdir & _) & _). apply Hr3, H6; try done. by eapply only_io_no_faults.
Qed.

(** Storing an upload, with any body receiver: see [upload_outcome]. *)
Lemma transfer_recv_with_spec recv_body `{!BodyReceiver recv_body} conn base name size cap w :
  0 <= conn -> 0 <= size < 2 ^ 64 -> 0 < cap ->
  e_splice_direct (w_env w) = false -> fds_ok (w_files w) ->
  wp (transfer_recv_with recv_body conn (Some base) (Some name) size cap)
    (upload_done base name size cap w) w.
Proof.
  intros Hconn Hsize Hcap He Hok. unfold transfer_recv_with.
  rewrite !bool_decide_eq_false_2 by done. destruct (Z.eqb_spec cap 0); [lia|]. cbn [orb].
  wp_step. wp_use transfer_prepare_output_spec; [done|].
  intros [[[r full] tmp] fd] w1 (Hf1 & H1 & H2 & H3). assert (Hn1 : w_net w1 = w_net w) by apply Hf1.
  unfold result_ok at 1. case_bool_decide as Hr; simpl negb; cbv iota; cycle 1.
  { wp_step. specialize (H2 Hr). split_and!; [by apply only_files_io| |].
    - exists [], []. rewrite Hn1, H2. rewrite decide_False by done. split_and!; try done; [simpl; lia|].
      by left.
    - intros E Hrdy _. by eapply H3. }
  destruct (H1 Hr) as (Hname & -> & k & Hk & -> & Hfd & Ho).
  pose proof (temp_opened_at _ _ _ _ Hok Ho) as [Hat Hok1].
  assert (Hio1 : only_io w w1) by (by apply only_files_io).
  assert (Hno : f_fs (w_files w) !! upload_temp w base name k = None) by apply Ho.
  wp_step. eapply wp_mono; [apply (body_received conn fd (upload_temp w base name k) []); try done|].
  { subst fd. apply Hok. } { destruct Hio1 as (E & _). by rewrite E. } { by rewrite Hfd. }
  intros r2 w2 (Hio2 & d & lost & Hin & Hout & Hg & Hle & Hk2 & H02).
  rewrite app_nil_l, Hn1 in *. pose proof (opened_stored _ _ _ _ _ _ _ Hok Ho Hfd Hg) as Hst.
  assert (Hio : only_io w w2) by (by etrans).
  assert (Hfdne : fd <> -1) by (destruct Hok; lia).
  unfold result_ok. case_bool_decide as Hr2; simpl negb; cbv iota.
  - destruct (Hk2 Hr2) as [<- ->]. by apply upload_finished.
  - eapply upload_given_up; try done. intros (E & _ & Hl).
    apply Hr2, H02; [by eapply only_io_no_faults|done].
Qed.

(** ** Properties *)

(** C4: an upload over the protocol is stored atomically, whatever the network
    and the file system do: [transfer_recv_socket_file] always returns; when it
    reports success the final path -- below the base directory -- holds exactly
    the [size] bytes taken off the connection and nothing else changed; when it
    reports an error no existing file changed (see [upload_outcome]); no
    descriptor leaks. *)
Theorem transfer_recv_socket_file_atomic conn base name size cap w
    (Hconn : 0 <= conn) (Hsize : 0 <= size < 2 ^ 64) (Hcap : 0 < cap)
    (Hkernel : e_splice_direct (w_env w) = false) (Hfds : fds_ok (w_files w)) :
  wp (transfer_recv_socket_file conn (Some base) (Some name) size cap) (fun '(r, saved) w' =>
    upload_outcome base name size r saved w w') w.
Proof.
  wp_use (transfer_recv_with_spec transfer_recv_net_body); try done.
  by intros [r saved] w' (_ & H & _).
Qed.

Definition demo_dir : files_t := demo_files {[bs "d" := NDir 0]}.

Lemma transfer_recv_socket_file_atomic_witness :
  let w := demo_world [FNone; FErr EEXIST; FNone; FShort 2; FErr EIO] [1; 2; 3] demo_dir in
  wp (transfer_recv_socket_file 5 (Some (bs "d")) (Some (bs "f")) 3 4096) (fun '(r, saved) w' =>
    upload_outcome (bs "d") (bs "f") 3 r saved w w') w.
Proof.
  apply transfer_recv_socket_file_atomic; [lia|lia|lia|reflexivity|apply demo_files_ok].
Defined.

(** An HTTP upload is stored atomically as well, whatever the network and the
    file system do: [transfer_recv_socket_http_file] always returns; on success
    the final path -- below the base directory -- holds exactly the [size] bytes
    taken off the connection and nothing else changed; on an error no existing
    file changed; no descriptor leaks. *)
Theorem transfer_recv_socket_http_file_atomic conn base name size cap w
    (Hconn : 0 <= conn) (Hsize : 0 <= size < 2 ^ 64) (Hcap : 0 < cap)
    (Hkernel : e_splice_direct (w_env w) = false) (Hfds : fds_ok (w_files w)) :
  wp (transfer_recv_socket_http_file conn (Some base) (Some name) size cap) (fun '(r, saved) w' =>
    upload_outcome base name size r saved w w') w.
Proof.
  wp_use (transfer_recv_with_spec transfer_recv_socket_http_file_buffered); try done.
  by intros [r saved] w' (_ & H & _).
Qed.

Lemma transfer_recv_socket_http_file_atomic_witness :
  let w := demo_world [FNone; FErr EINTR; FShort 2; FErr EIO] [1; 2; 3] demo_dir in
  wp (transfer_recv_socket_http_file 5 (Some (bs "d")) (Some (bs "a/f")) 3 4096)
    (fun '(r, saved) w' => upload_outcome (bs "d") (bs "a/f") 3 r saved w w') w.
Proof.
  apply transfer_recv_socket_http_file_atomic; [lia|lia|lia|reflexivity|apply demo_files_ok].
Defined.

(** Nothing refuses an upload without a reason: when no call fails, the
    name is a relative path, the paths fit their buffers, the directory exists,
    no directory is in the place of the file, one of the three temporary names
    is free and the peer delivers all the bytes, both entry points succeed and
    store them at the final path. *)
Theorem transfer_recv_succeeds conn base name size cap w
    (Hconn : 0 <= conn) (Hsize : 0 <= size < 2 ^ 64) (Hcap : 0 < cap)
    (Hkernel : e_splice_direct (w_env w) = false) (Hfds : fds_ok (w_files w))
    (Hnofail : w_faults w = []) (Hready : upload_ready base name cap w)
    (Hlen : size <= zlen (n_in (w_net w))) :
  let stored r saved w' :=
    r = PROTOCOL_OK /\ saved = Some (entry_path base name) /\
    n_in (w_net w') = zdrop size (n_in (w_net w)) /\
    exists m, f_fs (w_files w') =
      <[entry_path base name := NFile (ztake size (n_in (w_net w))) m]> (f_fs (w_files w)) in
  wp (transfer_recv_socket_file conn (Some base) (Some name) size cap)
    (fun '(r, saved) w' => stored r saved w') w /\
  wp (transfer_recv_socket_http_file conn (Some base) (Some name) size cap)
    (fun '(r, saved) w' => stored r saved w') w.
Proof.
  intros stored.
  assert (Hne : name <> []).
  { destruct Hready as (Hrel & _). intros ->. by apply fs_validate_relative_path_iff in Hrel. }
  assert (Ht : target_path base name = entry_path base name) by (by destruct name).
  assert (Hgo : forall r saved w', upload_outcome base name size r saved w w' ->
            r = PROTOCOL_OK -> stored r saved w').
  { intros r saved w' (d & lost & Hin & _ & _ & _ & H) ->. rewrite decide_True in H by done.
    destruct H as (Hd & -> & -> & _ & m & Hm). rewrite app_nil_l in Hin. unfold stored.
    rewrite <- Ht, Hin, zdrop_app_exact, ztake_app_exact by done. split_and!; try done. by exists m. }
  split.
  - wp_use (transfer_recv_with_spec transfer_recv_net_body); try done.
    intros [r saved] w' (_ & H & Hr). by apply Hgo, Hr.
  - wp_use (transfer_recv_with_spec transfer_recv_socket_http_file_buffered); try done.
    intros [r saved] w' (_ & H & Hr). by apply Hgo, Hr.
Qed.

Lemma demo_upload_ready :
  upload_ready (bs "d") (bs "f") 4096 (demo_world [] [1; 2; 3; 4] demo_dir).
Proof.
  split_and!.
  - by apply fs_validate_relative_path_iff.
  - vm_compute. reflexivity.
  - vm_compute. reflexivity.
  - reflexivity.
  - intros m. vm_compute. discriminate.
  - exists 0. split; [lia|vm_compute; reflexivity].
Qed.

Lemma transfer_recv_succeeds_witness :
  let w := demo_world [] [1; 2; 3; 4] demo_dir in
  let stored r saved w' :=
    r = PROTOCOL_OK /\ saved = Some (entry_path (bs "d") (bs "f")) /\
    n_in (w_net w') = zdrop 3 (n_in (w_net w)) /\
    exists m, f_fs (w_files w') =
      <[entry_path (bs "d") (bs "f") := NFile (ztake 3 (n_in (w_net w))) m]> (f_fs (w_files w)) in
  wp (transfer_recv_socket_file 5 (Some (bs "d")) (Some (bs "f")) 3 4096)
    (fun '(r, saved) w' => stored r saved w') w /\
  wp (transfer_recv_socket_http_file 5 (Some (bs "d")) (Some (bs "f")) 3 4096)
    (fun '(r, saved) w' => stored r saved w') w.
Proof.
  apply (transfer_recv_succeeds 5 (bs "d") (bs "f") 3 4096 (demo_world [] [1; 2; 3; 4] demo_dir));
    [lia|lia|lia|reflexivity|apply demo_files_ok|reflexivity|apply demo_upload_ready|simpl; lia].
Defined.

(** The HTTP receive loop refines the buffered loop of net.c: from the same
    state they make the same calls and end in the same state, with corresponding
    results. *)
Theorem transfer_recv_loop_refines fuel conn out cap remaining w :
  transfer_recv_loop fuel conn out cap remaining w =
  (let! r := net_recv_file_buffered_loop fuel conn out cap remaining in
   ret (transfer_recv_result r)) w.
Proof. apply transfer_recv_loop_net. Qed.
