(* ===== verification/MessageStore.v ===== *)
(** * The message store (src/message_store.c)

    The latest text message, shared by the connections' threads: trimming of
    trailing Unicode white space, the version counter, and waiting for an update
    on a condition variable. A call is one critical section of the calling
    thread; while it waits, other threads run theirs ([World.wait_event]). *)

From S2P Require Import Prelude CLib World Logic Signals.

(** ** Definitions *)

Definition message_store_is_unicode_whitespace (cp : Z) : bool :=
  if cp <=? 127 then isspace cp
  else
    (cp =? 133) || (cp =? 160) || (cp =? 5760) ||
    ((8192 <=? cp) && (cp <=? 8202)) || (cp =? 8232) ||
    (cp =? 8233) || (cp =? 8239) || (cp =? 8287) || (cp =? 12288).

(** [message[i]]. *)
Definition char_at (message : bytes) (i : Z) : Z := nth (Z.to_nat i) message 0.

(** The loop that looks for the first byte of the last sequence. *)
Fixpoint utf8_start (message : bytes) (start : nat) : nat :=
  match start with
  | O => O
  | S k =>
      if Z.land (nth start message 0) 192 =? 128 then utf8_start message k else start
  end.

(** The loop over the continuation bytes; [None] is its [return 0]. *)
Fixpoint utf8_continue (cp : Z) (rest : bytes) : option Z :=
  match rest with
  | [] => Some cp
  | bx :: rest =>
      if negb (Z.land bx 192 =? 128) then None
      else utf8_continue (Z.lor (u32 (Z.shiftl cp 6)) (Z.land bx 63)) rest
  end.

(** The length of a sequence and the bits of its first byte; [None]: no first byte. *)
Definition utf8_first (b0 : Z) : option (Z * Z) :=
  if Z.land b0 224 =? 192 then Some (2, Z.land b0 31)
  else if Z.land b0 240 =? 224 then Some (3, Z.land b0 15)
  else if Z.land b0 248 =? 240 then Some (4, Z.land b0 7)
  else None.

Definition utf8_invalid (seq_len cp : Z) : bool :=
  ((seq_len =? 2) && (cp <? 128)) || ((seq_len =? 3) && (cp <? 2048)) ||
  ((seq_len =? 4) && (cp <? 65536)) || ((55296 <=? cp) && (cp <=? 57343)) || (1114111 <? cp).

Definition message_store_trailing_whitespace_bytes (message : bytes) (len : Z) : Z :=
  if len =? 0 then 0
  else if Z.land (char_at message (len - 1)) 128 =? 0 then
    if message_store_is_unicode_whitespace (char_at message (len - 1)) then 1 else 0
  else
    let start := Z.of_nat (utf8_start message (Z.to_nat (len - 1))) in
    match utf8_first (char_at message start) with
    | None => 0
    | Some (seq_len, cp) =>
        if negb (start + seq_len =? len) then 0
        else
          match utf8_continue cp (ztake (len - (start + 1)) (zdrop (start + 1) message)) with
          | None => 0
          | Some cp =>
              if utf8_invalid seq_len cp then 0
              else if message_store_is_unicode_whitespace cp then seq_len else 0
          end
    end.

(** The trimming loop of [message_store_set]. *)
Fixpoint message_store_trim (fuel : nat) (message : bytes) (len : Z) : Z :=
  match fuel with
  | O => len
  | S fuel =>
      if 0 <? len then
        let trimmed := message_store_trailing_whitespace_bytes message len in
        if trimmed =? 0 then len else message_store_trim fuel message (len - trimmed)
      else len
  end.

(** *** The state *)

Definition get_store : M message_store_state_t :=
  let! w := get in ret (p_store (w_prog w)).
Definition put_store (s : message_store_state_t) : M unit :=
  modify (fun w => set_prog (Prog s (p_shutdown (w_prog w))) w).

(** [pthread_mutex_init], [pthread_cond_init]: 0 or an error number. *)
Definition sys_pthread_init : M Z :=
  let! f := pop_fault in
  match f with FErr _ => ret 1 | _ => ret 0 end.

(** [clock_gettime(CLOCK_REALTIME)]: seconds and nanoseconds. *)
Definition sys_clock_gettime : M (option (Z * Z)) :=
  let! f := pop_fault in
  match f with
  | FErr e => fail_with e None
  | _ => let! w := get in ret (Some (e_now (w_env w), 0))
  end.

Definition message_store_init : M Z :=
  let! s := get_store in
  if ms_initialized s then ret 0
  else
    let! r := sys_pthread_init in
    if negb (r =? 0) then ret 1
    else
      let! r := sys_pthread_init in
      if negb (r =? 0) then ret 1
      else put_store (MessageStoreState None 0 true false) ;;! ret 0.

(** Storing [copy] and waking the waiters: the critical section of
    [message_store_set]. *)
Definition store_set (copy : bytes) (s : message_store_state_t) : message_store_state_t :=
  MessageStoreState (Some copy) (u64 (ms_version s + 1)) (ms_initialized s) (ms_shutting_down s).

(** The critical section of [message_store_shutdown]. *)
Definition store_shutdown (s : message_store_state_t) : message_store_state_t :=
  MessageStoreState (ms_message s) (ms_version s) (ms_initialized s) true.

Definition message_store_shutdown : M unit :=
  let! s := get_store in
  if negb (ms_initialized s) then ret tt else put_store (store_shutdown s).

Definition message_store_cleanup : M unit :=
  let! s := get_store in
  if negb (ms_initialized s) then ret tt
  else
    message_store_shutdown ;;!
    let! s := get_store in
    put_store (MessageStoreState None (ms_version s) false (ms_shutting_down s)).

Definition message_store_set (message : option bytes) : M Z :=
  let! s := get_store in
  match message with
  | None => ret 1
  | Some message =>
      if negb (ms_initialized s) then ret 1
      else
        let len := message_store_trim (S (length message)) message (strlen message) in
        let! copy := sys_malloc in
        if negb copy then ret 1
        else
          let! s := get_store in
          put_store (store_set (ztake len message) s) ;;! ret 0
  end.

(** [strlen], [malloc] and [memcpy] of a string that may be absent; [None] is a
    string that could not be copied. *)
Definition copy_string (src : option bytes) : M (option (option bytes)) :=
  match src with
  | None => ret (Some None)
  | Some s => let! ok := sys_malloc in ret (if ok then Some (Some s) else None)
  end.

(** The result, [*message_out], [*has_message_out] and [*version_out]; [None] is
    a non-zero result. *)
Definition message_store_get_snapshot : M (option (option bytes * bool * Z)) :=
  let! s := get_store in
  if negb (ms_initialized s) then ret None
  else
    let src := ms_message s in
    let! copy := copy_string src in
    match copy with
    | None => ret None
    | Some copy => ret (Some (copy, bool_decide (src <> None), ms_version s))
    end.

Definition message_store_get_copy : M (option (option bytes * bool)) :=
  let! r := message_store_get_snapshot in
  ret (fst <$> r).

Definition run_act (a : store_act) (s : message_store_state_t) : message_store_state_t :=
  match a with
  | ActSet copy => store_set copy s
  | ActShutdown => store_shutdown s
  | ActRequest _ => s
  end.

Definition run_acts (acts : list store_act) (s : message_store_state_t) : message_store_state_t :=
  fold_left (fun s a => run_act a s) acts s.

(** The flags of shutdown.c meanwhile. *)
Definition run_requests (acts : list store_act) (s : shutdown_t) : shutdown_t :=
  fold_left (fun s a => match a with ActRequest sig => shutdown_set_requested sig s | _ => s end)
    acts s.

Definition run_others (acts : list store_act) : M unit :=
  modify (fun w => set_prog (Prog (run_acts acts (p_store (w_prog w)))
                                  (run_requests acts (p_shutdown (w_prog w)))) w).

(** [pthread_cond_timedwait]: 0, [ETIMEDOUT] or another error. The mutex is
    released meanwhile and held again afterwards. *)
Definition sys_cond_timedwait (deadline : Z * Z) : M Z :=
  let! w := get in
  match w_waits w with
  | [] => ret ETIMEDOUT
  | e :: waits =>
      modify (set_waits waits) ;;!
      match e with
      | WWake acts => run_others acts ;;! ret 0
      | WTimeout acts => run_others acts ;;! ret ETIMEDOUT
      | WErr e => ret e
      end
  end.

(** The time [timeout_ms] after [ts]. *)
Definition message_store_deadline (ts : Z * Z) (timeout_ms : Z) : Z * Z :=
  let tv_sec := fst ts + timeout_ms / 1000 in
  let tv_nsec := snd ts + (timeout_ms mod 1000) * 1000000 in
  if 1000000000 <=? tv_nsec then (tv_sec + 1, tv_nsec - 1000000000) else (tv_sec, tv_nsec).

(** The waiting loop; [false] is its [return 1]. *)
Fixpoint message_store_wait_loop (fuel : nat) (known_version timeout_ms : Z) : M bool :=
  match fuel with
  | O => out_of_fuel
  | S fuel =>
      let! s := get_store in
      if ms_version s <=? known_version then
        if ms_shutting_down s then ret true
        else
          let! ts := sys_clock_gettime in
          match ts with
          | None => ret false
          | Some ts =>
              let! err := sys_cond_timedwait (message_store_deadline ts timeout_ms) in
              if negb (err =? 0) && negb (err =? ETIMEDOUT) then ret false
              else if err =? ETIMEDOUT then ret true
              else message_store_wait_loop fuel known_version timeout_ms
          end
      else ret true
  end.

Definition message_store_wait_for_update (known_version timeout_ms : Z)
    : M (option (option bytes * bool * Z)) :=
  let! s := get_store in
  if negb (ms_initialized s) then ret None
  else
    let! ok := (fun w => message_store_wait_loop (S (length (w_waits w))) known_version
                           timeout_ms w) in
    if negb ok then ret None
    else
      let! s := get_store in
      let updated := known_version <? ms_version s in
      let src := if updated then ms_message s else None in
      let! copy := copy_string src in
      match copy with
      | None => ret None
      | Some copy => ret (Some (copy, bool_decide (src <> None), ms_version s))
      end.

(** *** Specifications *)

(** UTF-8, for the code points a text message may hold. *)
Definition scalar (cp : Z) : Prop := 0 <= cp <= 1114111 /\ ~ 55296 <= cp <= 57343.

Definition utf8 (cp : Z) : bytes :=
  if cp <? 128 then [cp]
  else if cp <? 2048 then [192 + cp / 64; 128 + cp mod 64]
  else if cp <? 65536 then [224 + cp / 4096; 128 + cp / 64 mod 64; 128 + cp mod 64]
  else [240 + cp / 262144; 128 + cp / 4096 mod 64; 128 + cp / 64 mod 64; 128 + cp mod 64].

Definition utf8_text (cps : list Z) : bytes := concat (map utf8 cps).

(** The text without the white space at its end. *)
Fixpoint rstrip (cps : list Z) : list Z :=
  match cps with
  | [] => []
  | cp :: cps =>
      match rstrip cps with
      | [] => if message_store_is_unicode_whitespace cp then [] else [cp]
      | r => cp :: r
      end
  end.

(** ** Theorems *)

(** *** Bytes of UTF-8 sequences *)

Lemma byte_forall (P : Z -> bool) :
  forallb P (map Z.of_nat (seq 0 256)) = true -> forall b, is_byte b -> P b = true.
Proof.
  rewrite forallb_forall. intros H b Hb. apply H. apply in_map_iff.
  exists (Z.to_nat b). unfold is_byte in Hb. split; [lia|]. apply in_seq. lia.
Qed.

(** What the masks of the decoder select, for a byte. *)
Lemma byte_masks b :
  is_byte b ->
  Z.land b 192 = b / 64 * 64 /\ Z.land b 224 = b / 32 * 32 /\ Z.land b 240 = b / 16 * 16 /\
  Z.land b 248 = b / 8 * 8 /\ Z.land b 128 = b / 128 * 128 /\ Z.land b 63 = b mod 64 /\
  Z.land b 31 = b mod 32 /\ Z.land b 15 = b mod 16 /\ Z.land b 7 = b mod 8.
Proof.
  intros Hb.
  pose proof (byte_forall (fun b =>
    (Z.land b 192 =? b / 64 * 64) && (Z.land b 224 =? b / 32 * 32) &&
    (Z.land b 240 =? b / 16 * 16) && (Z.land b 248 =? b / 8 * 8) &&
    (Z.land b 128 =? b / 128 * 128) && (Z.land b 63 =? b mod 64) && (Z.land b 31 =? b mod 32) &&
    (Z.land b 15 =? b mod 16) && (Z.land b 7 =? b mod 8)) ltac:(by vm_compute) b Hb) as H.
  simpl in H. bool_lia.
Qed.

Lemma utf8_continue_cons cp y rest :
  0 <= cp < 2 ^ 20 -> 0 <= y < 64 ->
  utf8_continue cp ((128 + y) :: rest) = utf8_continue (cp * 64 + y) rest.
Proof.
  intros Hcp Hy. cbn [utf8_continue].
  destruct (byte_masks (128 + y)) as (-> & _ & _ & _ & _ & -> & _); [unfold is_byte; lia|].
  destruct (Z.eqb_spec ((128 + y) / 64 * 64) 128); [|lia]. simpl negb. cbv iota.
  f_equal. unfold u32. rewrite Z.shiftl_mul_pow2, Z.mod_small by lia.
  rewrite <- Z.shiftl_mul_pow2, lor_shift_low by lia. change (2 ^ 6) with 64. lia.
Qed.

(** *** The last sequence of a text *)

Lemma char_at_app m rest i : 0 <= i < zlen m -> char_at (m ++ rest) i = char_at m i.
Proof. intros. unfold char_at. apply app_nth1. lia. Qed.

Lemma char_at_mid pre b rest : char_at (pre ++ b :: rest) (zlen pre) = b.
Proof. unfold char_at. rewrite Nat2Z.id, app_nth2, Nat.sub_diag by lia. done. Qed.

Lemma utf8_start_app m rest start :
  (start < length m)%nat -> utf8_start (m ++ rest) start = utf8_start m start.
Proof.
  induction start as [|k IH]; intros H; [done|]. cbn [utf8_start].
  rewrite app_nth1 by lia. rewrite IH by lia. done.
Qed.

Lemma utf8_start_le m start : (utf8_start m start <= start)%nat.
Proof. induction start as [|k IH]; cbn [utf8_start]; [lia|]. case_if; lia. Qed.

(** The walk back over continuation bytes stops at a byte that is not one. *)
Lemma utf8_start_walk pre b0 mid :
  Z.land b0 192 <> 128 -> Forall (fun b => Z.land b 192 = 128) mid ->
  forall rest, utf8_start (pre ++ b0 :: mid ++ rest) (length pre + length mid) = length pre.
Proof.
  intros Hb0. induction mid as [|b mid IH] using rev_ind; intros Hmid rest.
  - rewrite Nat.add_0_r. destruct (length pre) as [|k] eqn:E; [done|]. cbn [utf8_start].
    rewrite <- E, app_nth2, Nat.sub_diag by lia. cbn [app nth].
    destruct (Z.eqb_spec (Z.land b0 192) 128); done.
  - apply Forall_app in Hmid as [Hmid Hb]. rewrite Forall_singleton in Hb.
    rewrite length_app, Nat.add_assoc, Nat.add_1_r. cbn [utf8_start].
    rewrite app_nth2 by lia.
    replace (S (length pre + length mid) - length pre)%nat with (S (length mid)) by lia.
    cbn [nth]. rewrite <- app_assoc. rewrite app_nth2, Nat.sub_diag by lia. cbn [app nth].
    rewrite Hb, Z.eqb_refl. apply (IH Hmid).
Qed.

(** Only the first [len] bytes matter. *)
Lemma trailing_whitespace_app m rest :
  message_store_trailing_whitespace_bytes (m ++ rest) (zlen m) =
  message_store_trailing_whitespace_bytes m (zlen m).
Proof.
  unfold message_store_trailing_whitespace_bytes. destruct (Z.eqb_spec (zlen m) 0); [done|].
  rewrite char_at_app by lia. rewrite utf8_start_app by lia.
  pose proof (utf8_start_le m (Z.to_nat (zlen m - 1))) as Hle.
  set (start := Z.of_nat (utf8_start _ _)). rewrite char_at_app by lia.
  destruct (utf8_first _) as [[sl cp]|]; [|done].
  rewrite drop_app_le by lia. rewrite take_app_le by (rewrite length_drop; lia). done.
Qed.

Lemma utf8_first_len b n cp : utf8_first b = Some (n, cp) -> 2 <= n <= 4.
Proof. unfold utf8_first. repeat case_if; intros [= <- <-]; lia. Qed.

Lemma trailing_whitespace_range m len :
  0 <= len -> 0 <= message_store_trailing_whitespace_bytes m len <= len.
Proof.
  intros Hl. unfold message_store_trailing_whitespace_bytes.
  destruct (Z.eqb_spec len 0); [lia|]. case_if; [case_if; lia|].
  set (start := Z.of_nat _).
  destruct (utf8_first _) as [[n0 cp]|] eqn:E; [|lia]. apply utf8_first_len in E.
  destruct (Z.eqb_spec (start + n0) len); simpl negb; cbv iota; [|lia].
  destruct (utf8_continue _ _); [|lia]. repeat case_if; lia.
Qed.

Lemma utf8_len cp : 1 <= zlen (utf8 cp) <= 4.
Proof. unfold utf8. repeat case_if; simpl; lia. Qed.

(** A byte after the first of a sequence. *)
Lemma continuation_byte y : 0 <= y < 64 -> Z.land (128 + y) 192 = 128.
Proof.
  intros Hy. destruct (byte_masks (128 + y)) as (-> & _); [unfold is_byte; lia|]. lia.
Qed.

(** A sequence of several bytes: its first byte, its continuation, its length. *)
Definition multibyte (b0 : Z) (mid : bytes) (bits cp : Z) : Prop :=
  Z.land b0 192 <> 128 /\ mid <> [] /\ Forall (fun b => Z.land b 192 = 128) mid /\
  utf8_first b0 = Some (1 + zlen mid, bits) /\ utf8_continue bits mid = Some cp /\
  utf8_invalid (1 + zlen mid) cp = false.

Lemma utf8_multibyte cp :
  scalar cp -> 128 <= cp -> exists b0 mid bits, utf8 cp = b0 :: mid /\ multibyte b0 mid bits cp.
Proof.
  intros [Hr Hs] Hcp. unfold utf8, multibyte. destruct (Z.ltb_spec cp 128); [lia|].
  assert (Hcont : forall l, Forall (fun y => 0 <= y < 64) l ->
            Forall (fun b => Z.land b 192 = 128) (map (Z.add 128) l)).
  { intros l Hl. apply Forall_map. eapply Forall_impl; [done|]. intros y Hy.
    by apply continuation_byte. }
  assert (Hinv : forall n, (n = 2 \/ n = 3 \/ n = 4) -> (n = 2 -> 128 <= cp) ->
            (n = 3 -> 2048 <= cp) -> (n = 4 -> 65536 <= cp) -> utf8_invalid n cp = false).
  { intros n Hn H2 H3 H4. unfold utf8_invalid. lia. }
  destruct (Z.ltb_spec cp 2048); [|destruct (Z.ltb_spec cp 65536)].
  - destruct (byte_masks (192 + cp / 64)) as (E1 & E2 & E3 & E4 & _ & _ & E5 & E6 & E7);
      [unfold is_byte; lia|].
    eexists _, _, (cp / 64). split; [done|]. split_and!; try done.
    + rewrite E1. lia.
    + apply (Hcont [cp mod 64]). repeat constructor; lia.
    + unfold utf8_first. rewrite E2, E5. destruct (Z.eqb_spec ((192 + cp / 64) / 32 * 32) 192); [|lia].
      simpl. do 2 f_equal. lia.
    + rewrite utf8_continue_cons by lia. cbn [utf8_continue]. f_equal. lia.
    + apply Hinv; simpl; lia.
  - destruct (byte_masks (224 + cp / 4096)) as (E1 & E2 & E3 & E4 & _ & _ & E5 & E6 & E7);
      [unfold is_byte; lia|].
    eexists _, _, (cp / 4096). split; [done|]. split_and!; try done.
    + rewrite E1. lia.
    + apply (Hcont [cp / 64 mod 64; cp mod 64]). repeat constructor; lia.
    + unfold utf8_first. rewrite E2, E3, E6.
      destruct (Z.eqb_spec ((224 + cp / 4096) / 32 * 32) 192); [lia|].
      destruct (Z.eqb_spec ((224 + cp / 4096) / 16 * 16) 224); [|lia].
      simpl. do 2 f_equal. lia.
    + rewrite !utf8_continue_cons by lia. cbn [utf8_continue]. f_equal. lia.
    + apply Hinv; simpl; lia.
  - destruct (byte_masks (240 + cp / 262144)) as (E1 & E2 & E3 & E4 & _ & _ & E5 & E6 & E7);
      [unfold is_byte; lia|].
    eexists _, _, (cp / 262144). split; [done|]. split_and!; try done.
    + rewrite E1. lia.
    + apply (Hcont [cp / 4096 mod 64; cp / 64 mod 64; cp mod 64]). repeat constructor; lia.
    + unfold utf8_first. rewrite E2, E3, E4, E7.
      destruct (Z.eqb_spec ((240 + cp / 262144) / 32 * 32) 192); [lia|].
      destruct (Z.eqb_spec ((240 + cp / 262144) / 16 * 16) 224); [lia|].
      destruct (Z.eqb_spec ((240 + cp / 262144) / 8 * 8) 240); [|lia].
      simpl. do 2 f_equal. lia.
    + rewrite !utf8_continue_cons by lia. cbn [utf8_continue]. f_equal. lia.
    + apply Hinv; simpl; lia.
Qed.

(** The last code point of a text is what decides. *)
Lemma trailing_whitespace_utf8 pre cp :
  scalar cp ->
  message_store_trailing_whitespace_bytes (pre ++ utf8 cp) (zlen (pre ++ utf8 cp)) =
  if message_store_is_unicode_whitespace cp then zlen (utf8 cp) else 0.
Proof.
  intros Hsc. unfold message_store_trailing_whitespace_bytes.
  pose proof (utf8_len cp) as Hlen.
  destruct (Z.eqb_spec (zlen (pre ++ utf8 cp)) 0); [len_lia|].
  destruct (Z.ltb_spec cp 128).
  { unfold utf8. destruct (Z.ltb_spec cp 128); [|lia].
    replace (zlen (pre ++ [cp]) - 1) with (zlen pre) by len_lia. rewrite char_at_mid.
    destruct (byte_masks cp) as (_ & _ & _ & _ & -> & _); [unfold is_byte, scalar in *; lia|].
    destruct (Z.eqb_spec (cp / 128 * 128) 0); [|unfold scalar in *; lia]. done. }
  destruct (utf8_multibyte cp) as (b0 & mid & bits & E & Hb0 & Hne & Hmid & Hfirst & Hcont & Hinv);
    [done|lia|].
  rewrite E in *. assert (0 < zlen mid) by (destruct mid; [done|simpl; lia]).
  replace (Z.to_nat (zlen (pre ++ b0 :: mid) - 1)) with (length pre + length mid)%nat by len_lia.
  pose proof (utf8_start_walk pre b0 mid Hb0 Hmid []) as Hst. rewrite app_nil_r in Hst.
  rewrite Hst, char_at_mid, Hfirst.
  assert (Hlast : Z.land (char_at (pre ++ b0 :: mid) (zlen (pre ++ b0 :: mid) - 1)) 128 <> 0).
  { destruct mid as [|b mid _] using rev_ind; [done|]. rewrite (app_comm_cons mid), (app_assoc pre).
    replace (zlen ((pre ++ b0 :: mid) ++ [b]) - 1) with (zlen (pre ++ b0 :: mid)) by len_lia.
    rewrite char_at_mid. apply Forall_app in Hmid as [_ Hb]. rewrite Forall_singleton in Hb.
    intros E0. apply (f_equal (fun x => Z.land x 128)) in Hb. rewrite <- Z.land_assoc in Hb.
    change (Z.land 192 128) with 128 in Hb. rewrite E0 in Hb. done. }
  destruct (Z.eqb_spec (Z.land (char_at (pre ++ b0 :: mid) (zlen (pre ++ b0 :: mid) - 1)) 128) 0);
    [done|].
  destruct (Z.eqb_spec (zlen pre + (1 + zlen mid)) (zlen (pre ++ b0 :: mid))); [|len_lia].
  simpl negb. cbv iota.
  assert (ztake (zlen (pre ++ b0 :: mid) - (zlen pre + 1)) (zdrop (zlen pre + 1) (pre ++ b0 :: mid)) = mid)
    as ->.
  { rewrite (cons_middle b0), app_assoc, zdrop_app_exact by len_lia.
    rewrite ztake_ge; [done|len_lia]. }
  rewrite Hcont, Hinv. case_if; [|done]. len_lia.
Qed.

(** *** Trimming *)

Lemma trim_spec fuel m len :
  0 <= len <= zlen m -> (Z.to_nat len < fuel)%nat ->
  0 <= message_store_trim fuel m len <= len /\
  message_store_trailing_whitespace_bytes m (message_store_trim fuel m len) = 0.
Proof.
  revert len. induction fuel as [|fuel IH]; intros len Hl Hf; [lia|]. cbn [message_store_trim].
  destruct (Z.ltb_spec 0 len).
  - pose proof (trailing_whitespace_range m len ltac:(lia)) as Hr. cbv zeta.
    destruct (Z.eqb_spec (message_store_trailing_whitespace_bytes m len) 0); [split; [lia|done]|].
    destruct (IH (len - message_store_trailing_whitespace_bytes m len)); [lia|lia|]. split; [lia|done].
  - split; [lia|]. assert (len = 0) as -> by lia. done.
Qed.

Lemma rstrip_snoc cps cp :
  rstrip (cps ++ [cp]) =
  if message_store_is_unicode_whitespace cp then rstrip cps else cps ++ [cp].
Proof.
  induction cps as [|c cps IH]; simpl; [done|]. rewrite IH. case_if; [done|].
  by destruct cps.
Qed.

Lemma utf8_text_snoc cps cp : utf8_text (cps ++ [cp]) = utf8_text cps ++ utf8 cp.
Proof. unfold utf8_text. rewrite map_app, concat_app. simpl. by rewrite app_nil_r. Qed.

Lemma rstrip_text_length cps : zlen (utf8_text (rstrip cps)) <= zlen (utf8_text cps).
Proof.
  induction cps as [|cp cps IH] using rev_ind; [done|]. rewrite rstrip_snoc, utf8_text_snoc.
  destruct (message_store_is_unicode_whitespace cp); rewrite ?utf8_text_snoc, !length_app; lia.
Qed.

Lemma trim_utf8 cps rest fuel :
  Forall scalar cps -> (length (utf8_text cps) < fuel)%nat ->
  message_store_trim fuel (utf8_text cps ++ rest) (zlen (utf8_text cps)) =
  zlen (utf8_text (rstrip cps)).
Proof.
  revert fuel rest. induction cps as [|cp cps IH] using rev_ind; intros fuel rest Hs Hf.
  { by destruct fuel. }
  apply Forall_app in Hs as [Hs Hcp]. rewrite Forall_singleton in Hcp.
  destruct fuel as [|fuel]; [lia|]. cbn [message_store_trim].
  rewrite rstrip_snoc. pose proof (utf8_len cp) as Hlen.
  rewrite utf8_text_snoc in *. destruct (Z.ltb_spec 0 (zlen (utf8_text cps ++ utf8 cp))); [|len_lia].
  rewrite trailing_whitespace_app, trailing_whitespace_utf8 by done. cbv zeta.
  destruct (message_store_is_unicode_whitespace cp).
  - destruct (Z.eqb_spec (zlen (utf8 cp)) 0); [lia|].
    rewrite <- app_assoc. replace (zlen (utf8_text cps ++ utf8 cp) - zlen (utf8 cp))
      with (zlen (utf8_text cps)) by len_lia.
    apply IH; [done|len_lia].
  - simpl. by rewrite utf8_text_snoc.
Qed.

Lemma rstrip_prefix cps : exists tail, cps = rstrip cps ++ tail /\
  Forall (fun cp => message_store_is_unicode_whitespace cp = true) tail.
Proof.
  induction cps as [|cp cps (tail & IH & Ht)] using rev_ind; [by exists []|].
  rewrite rstrip_snoc. destruct (message_store_is_unicode_whitespace cp) eqn:E.
  - exists (tail ++ [cp]). split; [by rewrite app_assoc, <- IH|]. apply Forall_app. auto.
  - exists []. by rewrite app_nil_r.
Qed.

(** *** The state *)

Lemma store_utf8 cps :
  Forall scalar cps ->
  ztake (message_store_trim (S (length (utf8_text cps))) (utf8_text cps) (strlen (utf8_text cps)))
    (utf8_text cps) = utf8_text (rstrip cps).
Proof.
  intros Hs. unfold strlen. pose proof (trim_utf8 cps [] (S (length (utf8_text cps))) Hs) as H.
  rewrite app_nil_r in H. rewrite H by lia.
  destruct (rstrip_prefix cps) as (tail & E & _). rewrite E at 2.
  unfold utf8_text at 2. rewrite map_app, concat_app. by apply ztake_app_exact.
Qed.

(** Calls that change nothing but the store (and [errno]). *)
Definition only_store (w w' : world) : Prop :=
  w_env w' = w_env w /\ w_net w' = w_net w /\ w_files w' = w_files w /\
  p_shutdown (w_prog w') = p_shutdown (w_prog w) /\ (flen w' <= flen w)%nat.

#[export] Instance only_store_preorder : PreOrder only_store.
Proof.
  split; [intros w|intros w1 w2 w3 ??]; unfold only_store in *; destruct_and?; split_and!;
    done || congruence || lia.
Qed.

Lemma only_errno_store w w' :
  only_errno w w' -> only_store w w' /\ p_store (w_prog w') = p_store (w_prog w) /\
    w_waits w' = w_waits w.
Proof. unfold_frames. unfold only_store. intros. destruct_and!. split_and!; done || congruence. Qed.

Lemma wp_get_store Q w : Q (p_store (w_prog w)) w -> wp get_store Q w.
Proof. done. Qed.

Lemma wp_put_store s Q w :
  Q tt (set_prog (Prog s (p_shutdown (w_prog w))) w) -> wp (put_store s) Q w.
Proof. done. Qed.

Lemma only_store_put s w : only_store w (set_prog (Prog s (p_shutdown (w_prog w))) w).
Proof. done. Qed.

Lemma message_store_set_spec message w :
  ms_initialized (p_store (w_prog w)) = true ->
  wp (message_store_set (Some message)) (fun r w' =>
    only_store w w' /\ w_waits w' = w_waits w /\ (w_faults w = [] -> r = 0) /\
    (r = 0 /\ p_store (w_prog w') =
       store_set (ztake (message_store_trim (S (length message)) message (strlen message)) message)
         (p_store (w_prog w)) \/
     r = 1 /\ p_store (w_prog w') = p_store (w_prog w))) w.
Proof.
  intros Hi. unfold message_store_set. wp_step. apply wp_get_store. rewrite Hi. simpl negb. cbv iota.
  cbv zeta. set (len := message_store_trim _ _ _). wp_step. apply wp_sys_malloc.
  - intros w1 Hf1 Hlt. simpl negb. cbv iota. wp_step.
    destruct (only_errno_store _ _ Hf1) as (Ho & Hs & Hw). split_and!; try done.
    + rewrite no_faults_flen. lia.
    + by right.
  - intros w1 Hf1 _. simpl negb. cbv iota.
    destruct (only_errno_store _ _ Hf1) as (Ho & Hs & Hw). wp_step.
    apply wp_get_store. wp_step. apply wp_put_store. wp_step.
    split_and!; try done. left. split; [done|]. cbn [p_store w_prog set_prog]. by rewrite Hs.
Qed.

Lemma message_store_get_snapshot_spec w :
  ms_initialized (p_store (w_prog w)) = true ->
  wp message_store_get_snapshot (fun r w' =>
    only_errno w w' /\ (w_faults w = [] -> r <> None) /\
    match r with
    | Some (message, has_message, version) =>
        message = ms_message (p_store (w_prog w)) /\
        has_message = bool_decide (message <> None) /\
        version = ms_version (p_store (w_prog w))
    | None => ms_message (p_store (w_prog w)) <> None
    end) w.
Proof.
  intros Hi. unfold message_store_get_snapshot, copy_string. wp_step. apply wp_get_store. rewrite Hi.
  simpl negb. cbv iota zeta. wp_step.
  destruct (ms_message (p_store (w_prog w))) as [m|].
  - wp_step. apply wp_sys_malloc; intros w1 Hf1 H1; do 2 wp_step; (split; [done|]); split_and!; try done.
    rewrite no_faults_flen. lia.
  - by do 2 wp_step.
Qed.

(** *** Waiting *)

Lemma deadline_spec ts timeout_ms :
  0 <= snd ts < 1000000000 -> 0 <= timeout_ms ->
  let '(s, ns) := message_store_deadline ts timeout_ms in
  0 <= ns < 1000000000 /\
  s * 1000000000 + ns = fst ts * 1000000000 + snd ts + timeout_ms * 1000000.
Proof.
  intros Hts Ht. unfold message_store_deadline. cbv zeta. case_if; split; lia.
Qed.

Lemma run_requests_app a1 a2 s : run_requests (a1 ++ a2) s = run_requests a2 (run_requests a1 s).
Proof. apply fold_left_app. Qed.

Lemma run_acts_app a1 a2 s : run_acts (a1 ++ a2) s = run_acts a2 (run_acts a1 s).
Proof. apply fold_left_app. Qed.

Lemma run_acts_initialized acts s : ms_initialized (run_acts acts s) = ms_initialized s.
Proof.
  revert s. induction acts as [|a acts IH]; intros s; [done|].
  change (run_acts (a :: acts) s) with (run_acts acts (run_act a s)). rewrite IH. by destruct a.
Qed.

Definition acts_of (e : wait_event) : list store_act :=
  match e with WWake acts | WTimeout acts => acts | WErr _ => [] end.

(** What the other threads did in these waits. *)
Notation others used := (concat (map acts_of used)).

(** Nothing but the statics, the waits and [errno] changed. *)
Definition only_prog (w w' : world) : Prop :=
  w_env w' = w_env w /\ w_net w' = w_net w /\ w_files w' = w_files w /\ (flen w' <= flen w)%nat.

#[export] Instance only_prog_preorder : PreOrder only_prog.
Proof.
  split; [intros w|intros w1 w2 w3 ??]; unfold only_prog in *; destruct_and?; split_and!;
    done || congruence || lia.
Qed.

(** What other threads do while this one waits through [used]. *)
Definition waited (used : list wait_event) (w w' : world) : Prop :=
  only_prog w w' /\ w_waits w = used ++ w_waits w' /\
  p_store (w_prog w') = run_acts (concat (map acts_of used)) (p_store (w_prog w)) /\
  p_shutdown (w_prog w') = run_requests (concat (map acts_of used)) (p_shutdown (w_prog w)).

Lemma waited_refl w : waited [] w w.
Proof. by split_and!. Qed.

Lemma waited_trans u1 u2 w1 w2 w3 :
  waited u1 w1 w2 -> waited u2 w2 w3 -> waited (u1 ++ u2) w1 w3.
Proof.
  intros (H1 & H2 & H3 & H4) (H5 & H6 & H7 & H8). split_and!.
  - by etrans.
  - by rewrite H2, H6, app_assoc.
  - by rewrite H7, H3, map_app, concat_app, run_acts_app.
  - by rewrite H8, H4, map_app, concat_app, run_requests_app.
Qed.

Lemma waited_skip w w1 : only_errno w w1 -> waited [] w w1.
Proof.
  intros Hf. destruct (only_errno_store _ _ Hf) as ((?&?&?&?&?) & ? & ?). by split_and!.
Qed.

Lemma sys_cond_timedwait_spec deadline w :
  wp (sys_cond_timedwait deadline) (fun err w' =>
    exists used, waited used w w' /\
      (used = [] /\ w_waits w = [] /\ err = ETIMEDOUT \/
       exists e, used = [e] /\
         err = match e with WWake _ => 0 | WTimeout _ => ETIMEDOUT | WErr x => x end)) w.
Proof.
  unfold sys_cond_timedwait. do 2 wp_step. destruct (w_waits w) as [|e waits] eqn:E.
  - wp_step. exists []. split; [apply waited_refl|by left].
  - do 2 wp_step. destruct e as [acts|acts|x].
    1,2: wp_step; unfold run_others; wp_step; wp_step; eexists [_];
      split; [split_and!; [done|by rewrite E|simpl; by rewrite app_nil_r..]|right; eauto].
    wp_step. exists [WErr x]. split; [split_and!; [done|by rewrite E|done|done]|right; eauto].
Qed.

(** Why the waiting loop ended. *)
Lemma message_store_wait_loop_spec fuel known timeout w :
  (length (w_waits w) < fuel)%nat ->
  wp (message_store_wait_loop fuel known timeout) (fun ok w' =>
    exists used, waited used w w' /\
      (known < ms_version (p_store (w_prog w)) -> used = [] /\ w' = w /\ ok = true) /\
      (ok = true -> known < ms_version (p_store (w_prog w')) \/
         ms_shutting_down (p_store (w_prog w')) = true \/ w_waits w' = [] \/
         exists acts, last used = Some (WTimeout acts) \/ last used = Some (WErr ETIMEDOUT)) /\
      (ok = false -> w_faults w <> [] \/ exists e, last used = Some (WErr e))) w.
Proof.
  revert w. induction fuel as [|fuel IH]; intros w Hf; [lia|]. cbn [message_store_wait_loop].
  wp_step. apply wp_get_store. wp_step; cycle 1.
  { wp_step. exists []. split_and!; [apply waited_refl|done|intros _; left; lia|done]. }
  wp_step.
  { wp_step. exists []. split_and!; [apply waited_refl|lia|auto|done]. }
  wp_step. unfold sys_clock_gettime. apply (wp_transfer (fun e => fail_with e None)).
  { intros e w1 Hf1 Hlt. do 2 wp_step. exists []. split_and!; [by apply waited_skip|lia|done|].
    intros _. left. rewrite no_faults_flen. lia. }
  intros _ w1 Hf1 _. do 3 wp_step. set (ts := message_store_deadline _ _).
  pose proof (waited_skip _ _ Hf1) as Hw1.
  wp_step. wp_use sys_cond_timedwait_spec. intros err w2 (used & Hw2 & Herr).
  pose proof (waited_trans _ _ _ _ _ Hw1 Hw2) as Hw. rewrite app_nil_l in Hw.
  wp_step; [|wp_step].
  - wp_step. exists used. split_and!; [done|lia|done|]. intros _. right.
    destruct Herr as [(-> & _ & ->)|(e & -> & ->)]; [unfold ETIMEDOUT in *; lia|].
    destruct e; [lia|unfold ETIMEDOUT in *; lia|]. by eexists.
  - wp_step. exists used. split_and!; [done|lia| |done]. intros _. right. right.
    destruct Herr as [(-> & Hn & _)|(e & -> & ->)].
    + left. destruct Hw2 as (_ & E & _). by rewrite Hn in E.
    + right. destruct e; [unfold ETIMEDOUT in *; lia|eauto|].
      exists []. right. assert (e = ETIMEDOUT) as -> by lia. done.
  - assert (err = 0) as -> by lia.
    destruct Herr as [(_ & _ & E)|(e & -> & E)]; [done|].
    eapply wp_mono; [apply IH|].
    { destruct Hw as (_ & E2 & _). rewrite E2 in Hf. simpl in Hf. lia. }
    intros ok w3 (used & Hw3 & H1 & H2 & H3).
    exists ([e] ++ used). split_and!; [by eapply waited_trans|lia| |].
    + intros Hok. destruct (H2 Hok) as [?|[?|[?|(acts & Hl)]]]; [auto|auto|auto|].
      right. right. right. exists acts. rewrite last_app.
      destruct Hl as [-> | ->]; auto.
    + intros Hok. destruct (H3 Hok) as [Hn|(x & Hl)]; [left|right].
      * intros E0. apply Hn. apply no_faults_flen. apply no_faults_flen in E0.
        destruct Hw as ((_ & _ & _ & ?) & _). lia.
      * exists x. by rewrite last_app, Hl.
Qed.

Lemma copy_string_spec src w :
  wp (copy_string src) (fun r w' =>
    only_errno w w' /\ (r = Some src \/ r = None /\ w_faults w <> [] /\ src <> None)) w.
Proof.
  unfold copy_string. destruct src as [s|]; [|wp_step; split; [done|by left]].
  wp_step. apply wp_sys_malloc; intros w1 Hf1 H1; wp_step; (split; [done|]).
  - right. split_and!; try done. rewrite no_faults_flen. lia.
  - by left.
Qed.

Lemma message_store_wait_for_update_spec known timeout w :
  ms_initialized (p_store (w_prog w)) = true ->
  wp (message_store_wait_for_update known timeout) (fun r w' =>
    exists used, waited used w w' /\
      (known < ms_version (p_store (w_prog w)) -> used = []) /\
      match r with
      | None => w_faults w <> [] \/ exists e, last used = Some (WErr e)
      | Some (message, has_message, version) =>
          let s := p_store (w_prog w') in
          version = ms_version s /\
          message = (if known <? version then ms_message s else None) /\
          has_message = bool_decide (message <> None) /\
          (known < version \/ ms_shutting_down s = true \/ w_waits w' = [] \/
           exists acts, last used = Some (WTimeout acts) \/ last used = Some (WErr ETIMEDOUT))
      end) w.
Proof.
  intros Hi. unfold message_store_wait_for_update. wp_step. apply wp_get_store. rewrite Hi.
  simpl negb. cbv iota. wp_step.
  eapply wp_mono; [apply message_store_wait_loop_spec; lia|].
  intros ok w1 (used & Hw1 & H1 & H2 & H3). wp_step.
  { wp_step. exists used. split_and!; [done|by intros Hk; apply H1|]. apply H3. by destruct ok. }
  assert (ok = true) as -> by (by destruct ok). specialize (H2 eq_refl).
  wp_step. apply wp_get_store. cbv zeta. wp_step. wp_use copy_string_spec.
  intros copy w2 (Hf2 & Hcopy).
  pose proof (waited_trans _ _ _ _ _ Hw1 (waited_skip _ _ Hf2)) as Hw2. rewrite app_nil_r in Hw2.
  destruct (only_errno_store _ _ Hf2) as (Ho & Hs & Hwaits).
  destruct Hcopy as [->|(-> & Hno & _)]; wp_step; exists used;
    (split; [done|split; [by intros Hk; apply H1|]]).
  - rewrite Hs, Hwaits. by split_and!.
  - left. intros E0. apply Hno. apply no_faults_flen. apply no_faults_flen in E0.
    destruct Hw1 as ((_ & _ & _ & ?) & _). lia.
Qed.

(** ** Properties *)

(** A text message is stored without the white space at its end, by code
    point: for every sequence of Unicode scalar values, [message_store_set] of
    its UTF-8 encoding stores the encoding of the sequence without its trailing
    white space, increments the version and returns 0 -- or, when memory runs
    out, returns 1 and changes nothing. *)
Theorem message_store_set_trims cps w
    (Hscalar : Forall scalar cps) (Hinit : ms_initialized (p_store (w_prog w)) = true) :
  wp (message_store_set (Some (utf8_text cps))) (fun r w' =>
    (w_faults w = [] -> r = 0) /\
    (r = 0 /\ ms_message (p_store (w_prog w')) = Some (utf8_text (rstrip cps)) /\
       ms_version (p_store (w_prog w')) = u64 (ms_version (p_store (w_prog w)) + 1) \/
     r = 1 /\ p_store (w_prog w') = p_store (w_prog w))) w.
Proof.
  wp_use message_store_set_spec; [done|]. intros r w' (_ & _ & H0 & H). split; [done|].
  destruct H as [[-> ->]|H]; [left|by right]. rewrite store_utf8 by done. by split_and!.
Qed.

Lemma message_store_set_trims_witness :
  let w := demo_world [] [] (demo_files ∅) in
  wp (message_store_set (Some (utf8_text [32; 228; 8364; 32; 12288; 10]))) (fun r w' =>
    (w_faults w = [] -> r = 0) /\
    (r = 0 /\ ms_message (p_store (w_prog w')) =
       Some (utf8_text (rstrip [32; 228; 8364; 32; 12288; 10])) /\
       ms_version (p_store (w_prog w')) = u64 (ms_version (p_store (w_prog w)) + 1) \/
     r = 1 /\ p_store (w_prog w') = p_store (w_prog w))) w.
Proof.
  apply (message_store_set_trims [32; 228; 8364; 32; 12288; 10]);
    [repeat constructor; lia|reflexivity].
Defined.

(** On any bytes, valid UTF-8 or not, trimming is safe: what is cut off at
    each step is between nothing and what is left, so the length never
    underflows; the loop ends, at a length with no white space left to cut. *)
Theorem message_store_trim_bounds message len (Hlen : 0 <= len <= zlen message) :
  0 <= message_store_trailing_whitespace_bytes message len <= len /\
  let l := message_store_trim (S (length message)) message len in
  0 <= l <= len /\ message_store_trailing_whitespace_bytes message l = 0.
Proof.
  split; [apply trailing_whitespace_range; lia|]. apply trim_spec; lia.
Qed.

Lemma message_store_trim_bounds_witness :
  0 <= message_store_trailing_whitespace_bytes [65; 194; 160; 128; 32] 5 <= 5 /\
  let l := message_store_trim 6 [65; 194; 160; 128; 32] 5 in
  0 <= l <= 5 /\ message_store_trailing_whitespace_bytes [65; 194; 160; 128; 32] l = 0.
Proof. apply (message_store_trim_bounds [65; 194; 160; 128; 32] 5). simpl. lia. Defined.

(** What was set is what is read: after a [message_store_set] that returned
    0, [message_store_get_snapshot] -- when memory does not run out -- returns the
    stored message and the new version, and changes nothing. *)
Theorem message_store_set_get cps w
    (Hscalar : Forall scalar cps) (Hinit : ms_initialized (p_store (w_prog w)) = true) :
  wp (let! r := message_store_set (Some (utf8_text cps)) in
      let! snapshot := message_store_get_snapshot in
      ret (r, snapshot)) (fun '(r, snapshot) w' =>
    r = 0 -> snapshot = None \/
      snapshot = Some (Some (utf8_text (rstrip cps)), true,
                       u64 (ms_version (p_store (w_prog w)) + 1))) w.
Proof.
  wp_step. wp_use message_store_set_spec; [done|]. intros r w1 (_ & _ & _ & H). wp_step.
  assert (ms_initialized (p_store (w_prog w1)) = true) as Hi1.
  { destruct H as [[_ ->]|[_ ->]]; done. }
  wp_use message_store_get_snapshot_spec; [done|]. intros s w2 (_ & _ & Hs). wp_step.
  intros ->. destruct H as [[_ H]|[H _]]; [|done]. rewrite H in Hs.
  destruct s as [[[m has] v]|]; [right|by left]. destruct Hs as (-> & -> & ->).
  cbn [store_set ms_message ms_version]. by rewrite store_utf8.
Qed.

Lemma message_store_set_get_witness :
  let w := demo_world [] [] (demo_files ∅) in
  wp (let! r := message_store_set (Some (utf8_text [104; 105; 32])) in
      let! snapshot := message_store_get_snapshot in
      ret (r, snapshot)) (fun '(r, snapshot) w' =>
    r = 0 -> snapshot = None \/
      snapshot = Some (Some (utf8_text (rstrip [104; 105; 32])), true,
                       u64 (ms_version (p_store (w_prog w)) + 1))) w.
Proof.
  apply (message_store_set_get [104; 105; 32]); [repeat constructor; lia|reflexivity].
Defined.

(** Waiting for an update: whatever the other threads do meanwhile,
    [message_store_wait_for_update] returns once the wake-ups end; it does not
    wait at all when a newer version is there; the version it returns is the
    store's, the message is the store's current one exactly when that version is
    newer than the known one; and it returns without one only after a shutdown
    or a timeout. *)
Theorem message_store_wait_reports_latest known timeout_ms w
    (Hinit : ms_initialized (p_store (w_prog w)) = true) :
  wp (message_store_wait_for_update known timeout_ms) (fun r w' =>
    exists used, w_waits w = used ++ w_waits w' /\
      p_store (w_prog w') = run_acts (concat (map acts_of used)) (p_store (w_prog w)) /\
      (known < ms_version (p_store (w_prog w)) -> used = []) /\
      match r with
      | None => w_faults w <> [] \/ exists e, last used = Some (WErr e)
      | Some (message, has_message, version) =>
          let s := p_store (w_prog w') in
          version = ms_version s /\
          message = (if known <? version then ms_message s else None) /\
          has_message = bool_decide (message <> None) /\
          (known < version \/ ms_shutting_down s = true \/ w_waits w' = [] \/
           exists acts, last used = Some (WTimeout acts) \/ last used = Some (WErr ETIMEDOUT))
      end) w.
Proof.
  wp_use message_store_wait_for_update_spec; [done|].
  intros r w' (used & (_ & Hw & Hs & _) & H). by exists used.
Qed.

Lemma message_store_wait_reports_latest_witness :
  let w := set_waits [WWake []; WWake [ActSet [104; 105]; ActSet [104]]]
             (demo_world [] [] (demo_files ∅)) in
  wp (message_store_wait_for_update 0 15000) (fun r w' =>
    exists used, w_waits w = used ++ w_waits w' /\
      p_store (w_prog w') = run_acts (concat (map acts_of used)) (p_store (w_prog w)) /\
      (0 < ms_version (p_store (w_prog w)) -> used = []) /\
      match r with
      | None => w_faults w <> [] \/ exists e, last used = Some (WErr e)
      | Some (message, has_message, version) =>
          let s := p_store (w_prog w') in
          version = ms_version s /\
          message = (if 0 <? version then ms_message s else None) /\
          has_message = bool_decide (message <> None) /\
          (0 < version \/ ms_shutting_down s = true \/ w_waits w' = [] \/
           exists acts, last used = Some (WTimeout acts) \/ last used = Some (WErr ETIMEDOUT))
      end) w.
Proof.
  apply (message_store_wait_reports_latest 0 15000 (set_waits
    [WWake []; WWake [ActSet [104; 105]; ActSet [104]]] (demo_world [] [] (demo_files ∅)))).
  reflexivity.
Defined.

(** The deadline of a wait is [timeout_ms] after now, with nanoseconds in
    range for [pthread_cond_timedwait]. *)
Theorem message_store_deadline_exact ts timeout_ms
    (Hts : 0 <= snd ts < 1000000000) (Ht : 0 <= timeout_ms) :
  let '(s, ns) := message_store_deadline ts timeout_ms in
  0 <= ns < 1000000000 /\
  s * 1000000000 + ns = fst ts * 1000000000 + snd ts + timeout_ms * 1000000.
Proof. by apply deadline_spec. Qed.

Lemma message_store_deadline_exact_witness :
  let '(s, ns) := message_store_deadline (5, 600000000) 15900 in
  0 <= ns < 1000000000 /\ s * 1000000000 + ns = 5 * 1000000000 + 600000000 + 15900 * 1000000.
Proof. apply (message_store_deadline_exact (5, 600000000) 15900); simpl; lia. Defined.
