(* ===== verification/HttpBuf.v ===== *)
(** * The growing buffer of the HTTP server (src/http.c)

    [http_buf_t] and its operations: a heap block that doubles, with a NUL
    behind its contents. The record holds the contents, whose length is [len],
    and the capacity of the block. *)

From S2P Require Import Prelude CLib World Logic.

(** ** Definitions *)

Definition SIZE_MAX : Z := 2 ^ 64 - 1.

Record http_buf_t := HttpBuf { data : bytes; cap : Z }.

(** [{0}]. *)
Definition http_buf_zero : http_buf_t := HttpBuf [] 0.

(** The doubling loop of [http_buf_reserve]; [None] is its [return 1]. *)
Fixpoint http_buf_new_cap (fuel : nat) (new_cap need : Z) : M (option Z) :=
  match fuel with
  | O => out_of_fuel
  | S fuel =>
      if new_cap <? need then
        if SIZE_MAX / 2 <? new_cap then ret None
        else http_buf_new_cap fuel (u64 (new_cap * 2)) need
      else ret (Some new_cap)
  end.

(** The result and the buffer. A positive capacity doubles at most 64 times. *)
Definition http_buf_reserve (buf : http_buf_t) (need : Z) : M (Z * http_buf_t) :=
  if need <=? cap buf then ret (0, buf)
  else
    let! new_cap := http_buf_new_cap 65 (if cap buf =? 0 then 256 else cap buf) need in
    match new_cap with
    | None => ret (1, buf)
    | Some new_cap =>
        let! new_data := sys_malloc in
        if negb new_data then ret (1, buf) else ret (0, HttpBuf (data buf) new_cap)
    end.

Definition http_buf_append (d : bytes) (buf : http_buf_t) : M (Z * http_buf_t) :=
  let! (r, buf) := http_buf_reserve buf (u64 (zlen (data buf) + zlen d + 1)) in
  if negb (r =? 0) then ret (1, buf) else ret (0, HttpBuf (data buf ++ d) (cap buf)).

Definition http_buf_append_str (s : bytes) (buf : http_buf_t) : M (Z * http_buf_t) :=
  http_buf_append s buf.

Definition http_buf_append_ch (ch : Z) (buf : http_buf_t) : M (Z * http_buf_t) :=
  http_buf_append [ch] buf.

Definition http_buf_free (buf : http_buf_t) : http_buf_t := http_buf_zero.

(** [a(buf) != 0 || b(buf) != 0 || ...]: the first failure ends the sequence. *)
Fixpoint buf_seq (ops : list (http_buf_t -> M (Z * http_buf_t))) (buf : http_buf_t)
    : M (Z * http_buf_t) :=
  match ops with
  | [] => ret (0, buf)
  | op :: ops =>
      let! (r, buf) := op buf in
      if negb (r =? 0) then ret (1, buf) else buf_seq ops buf
  end.

(** *** Specifications *)

(** A capacity that doubling from 256 can reach. *)
Definition cap_ok (c : Z) : Prop := exists k, 8 <= k <= 63 /\ c = 2 ^ k.

(** The contents and their NUL fit the block. *)
Definition buf_ok (b : http_buf_t) : Prop :=
  data b = [] /\ cap b = 0 \/ zlen (data b) < cap b /\ cap_ok (cap b).

(** [op] appends [d] or fails for want of memory. *)
Definition appends (d : bytes) (op : http_buf_t -> M (Z * http_buf_t)) : Prop :=
  forall b w, buf_ok b ->
    wp (op b) (fun '(r, b') w' =>
      only_errno w w' /\ buf_ok b' /\ (r = 0 \/ r = 1) /\ (r = 0 -> data b' = data b ++ d) /\
      (w_faults w = [] -> zlen (data b) + zlen d < 2 ^ 62 -> r = 0)) w.

(** ** Theorems *)

Lemma cap_ok_range c : cap_ok c -> 256 <= c <= 2 ^ 63.
Proof.
  intros (k & Hk & ->). split; [change 256 with (2 ^ 8)|]; apply Z.pow_le_mono_r; lia.
Qed.

Lemma cap_ok_double c : cap_ok c -> c <= SIZE_MAX / 2 -> cap_ok (c * 2) /\ u64 (c * 2) = c * 2.
Proof.
  intros (k & Hk & ->) H.
  assert (k < 63).
  { destruct (decide (k = 63)) as [->|]; [by vm_compute in H|lia]. }
  assert (E : 2 ^ k * 2 = 2 ^ (k + 1)) by (rewrite Z.pow_add_r by lia; done).
  rewrite E. split; [exists (k + 1); lia|]. apply u64_small.
  split; [lia|]. apply Z.pow_lt_mono_r; lia.
Qed.

Lemma http_buf_new_cap_spec fuel c need w :
  cap_ok c -> 2 ^ 63 < c * 2 ^ Z.of_nat fuel ->
  wp (http_buf_new_cap fuel c need) (fun r w' =>
    w' = w /\ (need <= 2 ^ 63 -> r <> None) /\
    match r with
    | Some c' => need <= c' /\ c <= c' /\ cap_ok c' /\ (c' = c \/ c' < 2 * need)
    | None => 2 ^ 63 < need
    end) w.
Proof.
  revert c. induction fuel as [|fuel IH]; intros c Hc Hf; pose proof (cap_ok_range c Hc);
    cbn [http_buf_new_cap].
  { change (Z.of_nat 0) with 0 in Hf. lia. }
  wp_step; [wp_step|].
  - wp_step. unfold SIZE_MAX in *. split_and!; [done| |]; lia.
  - destruct (cap_ok_double c Hc) as [Hc2 ->]; [lia|]. eapply wp_mono; [apply IH; [done|]|].
    + rewrite Nat2Z.inj_succ, Z.pow_succ_r in Hf by lia. lia.
    + intros r w' (-> & H1 & H2). split_and!; [done|done|].
      destruct r as [c'|]; [|done]. destruct H2 as (? & ? & ? & [->|?]); split_and!; done || lia.
  - wp_step. split_and!; [done|done|lia|lia|done|auto].
Qed.

Lemma http_buf_reserve_spec b need w :
  buf_ok b -> 1 <= need ->
  wp (http_buf_reserve b need) (fun '(r, b') w' =>
    only_errno w w' /\ data b' = data b /\
    (r = 0 /\ need <= cap b' /\ (b' = b \/ cap_ok (cap b') /\ cap b <= cap b' /\
                                 cap b' <= Z.max 256 (2 * need)) \/
     r = 1 /\ b' = b) /\
    (w_faults w = [] -> need <= 2 ^ 63 -> r = 0)) w.
Proof.
  intros Hb Hn. unfold http_buf_reserve. wp_step.
  { wp_step. split_and!; [done|done|left|done]. split_and!; [done|lia|by left]. }
  wp_step. set (c0 := if cap b =? 0 then 256 else cap b).
  assert (Hc0 : cap_ok c0 /\ cap b <= c0 /\ (c0 = cap b \/ c0 = 256)).
  { subst c0. destruct Hb as [[_ ->]|[Hl Hc]]; [split_and!; [by exists 8|done|by right]|].
    pose proof (cap_ok_range _ Hc). destruct (Z.eqb_spec (cap b) 0); [lia|]. split_and!; [done|lia|by left]. }
  destruct Hc0 as (Hc0 & Hle & Heq). pose proof (cap_ok_range _ Hc0).
  eapply wp_mono; [apply http_buf_new_cap_spec; [done|lia]|].
  intros nc w1 (-> & Hnc & H1). wp_step.
  - destruct H1 as (H1 & H2 & H3 & H4).
    wp_step. apply wp_sys_malloc; intros w1 Hf1 Hm; cbn [negb]; wp_step.
    + split_and!; [done|done|by right|]. rewrite no_faults_flen. lia.
    + split_and!; [done|done|left|done]. split_and!; [done|simpl; lia|right]. simpl.
      split_and!; [done|lia|lia].
  - wp_step. split_and!; [done|done|by right|lia].
Qed.

Lemma http_buf_append_spec d b w :
  buf_ok b -> zlen d < 2 ^ 63 ->
  wp (http_buf_append d b) (fun '(r, b') w' =>
    only_errno w w' /\ buf_ok b' /\ 
    (r = 0 /\ data b' = data b ++ d /\ zlen (data b') < cap b' /\
       cap b' <= Z.max (cap b) (Z.max 256 (2 * (zlen (data b') + 1))) \/ r = 1 /\ b' = b) /\
    (w_faults w = [] -> zlen (data b) + zlen d < 2 ^ 63 -> r = 0)) w.
Proof.
  intros Hb Hd. unfold http_buf_append.
  assert (Hlen : zlen (data b) < 2 ^ 63).
  { destruct Hb as [[-> _]|[? ?%cap_ok_range]]; [done|lia]. }
  rewrite u64_small by lia. wp_step. wp_use http_buf_reserve_spec; [done|lia|].
  intros [r b1] w1 (Hf & Hdata & H & H0). wp_step; wp_step.
  - destruct H as [(-> & _)|[-> ->]]; [lia|]. split_and!; [done|done|by right|lia].
  - destruct H as [(-> & Hc & H)|[-> _]]; [|lia].
    split_and!; [done| | |done].
    + right. simpl. rewrite Hdata, length_app. split; [lia|]. destruct H as [->|H]; [|apply H].
      destruct Hb as [[_ E]|[_ ?]]; [lia|done].
    + left. simpl. rewrite Hdata, length_app. split_and!; [done|done|lia|].
      destruct H as [->|H]; lia.
Qed.

Lemma appends_append d : zlen d < 2 ^ 63 -> appends d (http_buf_append d).
Proof.
  intros Hd b w Hb. wp_use http_buf_append_spec; [done|done|].
  intros [r b'] w' (Hf & Hb' & H & H0). split_and!; [done|done| | |].
  - destruct H as [(-> & _)|(-> & _)]; auto.
  - intros ->. by destruct H as [(_ & ? & _)|[? _]].
  - intros E Hs. apply H0; [done|lia].
Qed.

Lemma appends_str s : zlen s < 2 ^ 63 -> appends s (http_buf_append_str s).
Proof. apply appends_append. Qed.

Lemma appends_ch ch : appends [ch] (http_buf_append_ch ch).
Proof. by apply appends_append. Qed.

Lemma appends_bind d1 d2 op1 op2 :
  appends d1 op1 -> appends d2 op2 ->
  appends (d1 ++ d2) (fun buf =>
    let! (r, buf) := op1 buf in if negb (r =? 0) then ret (1, buf) else op2 buf).
Proof.
  intros Hop1 Hop2 b w Hb. wp_step. wp_use Hop1; [done|].
  intros [r b1] w1 (Hf & Hb1 & Hr & Hd & H0). wp_step.
  - wp_step. split; [done|]. split_and!; [done|by right|lia|]. intros E Hs. rewrite length_app in Hs.
    specialize (H0 E ltac:(lia)). lia.
  - assert (r = 0) as -> by lia. specialize (Hd eq_refl). wp_use Hop2; [done|].
    intros [r2 b2] w2 (Hf2 & Hb2 & Hr2 & Hd2 & H02). split; [by etrans|]. split_and!; [done|done| |].
    + intros E. rewrite (Hd2 E), Hd, app_assoc. done.
    + intros E Hs. rewrite length_app in Hs. apply H02; [by eapply only_io_no_faults; [apply Hf|]|].
      rewrite Hd, length_app. lia.
Qed.

Lemma appends_nil : appends [] (fun buf => ret (0, buf)).
Proof. intros b w Hb. wp_step. split_and!; [done|done|by left|by rewrite app_nil_r|done]. Qed.

Lemma appends_seq ds ops : Forall2 appends ds ops -> appends (concat ds) (buf_seq ops).
Proof.
  induction 1 as [|d op ds ops Hop Hops IH]; [apply appends_nil|]. by apply appends_bind.
Qed.

(** A loop over the characters of a text. *)
Lemma appends_map (f : Z -> bytes) (loop : bytes -> http_buf_t -> M (Z * http_buf_t)) :
  (forall c, zlen (f c) < 2 ^ 63) ->
  (forall b, loop [] b = ret (0, b)) ->
  (forall c text b, loop (c :: text) b =
     let! (r, b) := http_buf_append (f c) b in if negb (r =? 0) then ret (1, b) else loop text b) ->
  forall text, appends (concat (map f text)) (loop text).
Proof.
  intros Hf H0 H1. induction text as [|c text IH]; intros b w Hb; cbn [map concat].
  - rewrite H0. by apply appends_nil.
  - rewrite H1. by apply (appends_bind (f c)); [apply appends_append| |].
Qed.

(** An operation appends one thing. *)
Lemma appends_fun d1 d2 op :
  zlen d1 < 2 ^ 62 -> zlen d2 < 2 ^ 62 -> appends d1 op -> appends d2 op -> d1 = d2.
Proof.
  intros L1 L2 H1 H2. set (w := demo_world [] [] (demo_files ∅)).
  pose proof (wp_conj _ _ _ w (H1 http_buf_zero w (or_introl (conj eq_refl eq_refl)))
                (H2 http_buf_zero w (or_introl (conj eq_refl eq_refl)))) as H.
  apply wp_run in H as ([r b] & w' & _ & (_ & _ & _ & E1 & Z1) & (_ & _ & _ & E2 & _)).
  specialize (Z1 eq_refl L1). specialize (E1 Z1). specialize (E2 Z1). simpl in E1, E2. congruence.
Qed.

Lemma buf_zero_ok : buf_ok http_buf_zero.
Proof. by left. Qed.

#[export] Hint Resolve buf_zero_ok appends_ch : core.

(** ** Properties *)

(** Appending never writes outside the block: [http_buf_append] always returns
    -- the doubling loop ends, without overflow -- and either the contents grew by
    exactly the bytes given, with room for their NUL, in a block at most twice as
    large as needed, or memory ran out and the buffer is as it was; below half of
    the address space it fails only when [realloc] does. *)
Theorem http_buf_append_safe d b w (Hok : buf_ok b) (Hobject : zlen d < 2 ^ 63) :
  wp (http_buf_append d b) (fun '(r, b') w' =>
    (r = 0 /\ data b' = data b ++ d /\ zlen (data b') < cap b' /\
       cap b' <= Z.max (cap b) (Z.max 256 (2 * (zlen (data b') + 1))) \/
     r = 1 /\ b' = b) /\
    buf_ok b' /\ w_files w' = w_files w /\ w_net w' = w_net w /\
    (w_faults w = [] -> zlen (data b) + zlen d < 2 ^ 63 -> r = 0)) w.
Proof.
  wp_use http_buf_append_spec; [done|done|]. intros [r b'] w' (Hf & Hb & H & H0).
  split_and!; [done|done|apply Hf|apply Hf|done].
Qed.

Lemma http_buf_append_safe_witness :
  let w := demo_world [FNone; FErr ENOMEM] [] (demo_files ∅) in
  wp (http_buf_append [1; 2; 3] http_buf_zero) (fun '(r, b') w' =>
    (r = 0 /\ data b' = data http_buf_zero ++ [1; 2; 3] /\ zlen (data b') < cap b' /\
       cap b' <= Z.max (cap http_buf_zero) (Z.max 256 (2 * (zlen (data b') + 1))) \/
     r = 1 /\ b' = http_buf_zero) /\
    buf_ok b' /\ w_files w' = w_files w /\ w_net w' = w_net w /\
    (w_faults w = [] -> zlen (data http_buf_zero) + 3 < 2 ^ 63 -> r = 0)) w.
Proof. apply (http_buf_append_safe [1; 2; 3]); [by left|done]. Defined.
