(* ===== verification/HttpJson.v ===== *)
(** * JSON of the HTTP server (src/http.c)

    Escaping a C string into a JSON string, and the parser of the body of
    [POST /api/messages]: an object with the one key "message". A [const char *]
    that walks over a C string is what is left of the string; reading at its end
    gives the NUL. *)

From S2P Require Import Prelude CLib World Logic MessageStore HttpBuf.

(** ** Definitions *)

(** *** Writing *)

(** A digit of ["%x"], and ["%04x"] of a number below [2^16]. *)
Definition hex_digit (d : Z) : Z := if d <? 10 then 48 + d else 87 + d.
Definition fmt_04x (n : Z) : bytes :=
  [hex_digit (n / 4096 mod 16); hex_digit (n / 256 mod 16); hex_digit (n / 16 mod 16);
   hex_digit (n mod 16)].

(** What the [switch] of [http_json_escape] appends for [*p]. *)
Definition json_escape_char (c : Z) : bytes :=
  if c =? 92 then [92; 92]
  else if c =? 34 then [92; 34]
  else if c =? 8 then [92; 98]
  else if c =? 12 then [92; 102]
  else if c =? 10 then [92; 110]
  else if c =? 13 then [92; 114]
  else if c =? 9 then [92; 116]
  else if c <? 32 then [92; 117] ++ fmt_04x c
  else [c].

Fixpoint http_json_escape (text : bytes) (buf : http_buf_t) : M (Z * http_buf_t) :=
  match text with
  | [] => ret (0, buf)
  | c :: text =>
      let! (r, buf) := http_buf_append (json_escape_char c) buf in
      if negb (r =? 0) then ret (1, buf) else http_json_escape text buf
  end.

(** The [switch] of [http_send_json_error], which knows fewer escapes. *)
Definition json_error_escape_char (c : Z) : bytes :=
  if c =? 92 then [92; 92]
  else if c =? 34 then [92; 34]
  else if c =? 10 then [92; 110]
  else if c =? 13 then [92; 114]
  else if c =? 9 then [92; 116]
  else if c <? 32 then [92; 117] ++ fmt_04x c
  else [c].

Fixpoint json_error_escape (text : bytes) (buf : http_buf_t) : M (Z * http_buf_t) :=
  match text with
  | [] => ret (0, buf)
  | c :: text =>
      let! (r, buf) := http_buf_append (json_error_escape_char c) buf in
      if negb (r =? 0) then ret (1, buf) else json_error_escape text buf
  end.

(** *** Reading *)

Fixpoint http_json_skip_ws (p : bytes) : bytes :=
  match p with
  | c :: p' => if isspace c then http_json_skip_ws p' else p
  | [] => []
  end.

(** The loop of [http_json_parse_hex4]. *)
Fixpoint hex4_loop (n : nat) (p : bytes) (value : Z) : option Z :=
  match n with
  | O => Some value
  | S n =>
      let ch := hd 0 p in
      if negb (isxdigit ch) then None
      else
        let digit := u16 (if isdigit ch then ch - 48 else 10 + tolower ch - 97) in
        hex4_loop n (tl p) (u16 (value * 16 + digit))
  end.

Definition http_json_parse_hex4 (p : bytes) : option Z := hex4_loop 4 p 0.

Definition http_buf_append_utf8 (cp : Z) (buf : http_buf_t) : M (Z * http_buf_t) :=
  if cp <=? 127 then http_buf_append [u8 cp] buf
  else if cp <=? 2047 then
    http_buf_append [u8 (Z.lor 192 (Z.shiftr cp 6)); u8 (Z.lor 128 (Z.land cp 63))] buf
  else if cp <=? 65535 then
    http_buf_append [u8 (Z.lor 224 (Z.shiftr cp 12)); u8 (Z.lor 128 (Z.land (Z.shiftr cp 6) 63));
                     u8 (Z.lor 128 (Z.land cp 63))] buf
  else if cp <=? 1114111 then
    http_buf_append [u8 (Z.lor 240 (Z.shiftr cp 18)); u8 (Z.lor 128 (Z.land (Z.shiftr cp 12) 63));
                     u8 (Z.lor 128 (Z.land (Z.shiftr cp 6) 63)); u8 (Z.lor 128 (Z.land cp 63))] buf
  else ret (1, buf).

(** [case 'u'] up to the append: the code point and the rest; [None] is
    [goto CLEANUP]. *)
Definition json_code_point (p : bytes) : option (Z * bytes) :=
  match http_json_parse_hex4 p with
  | None => None
  | Some code_unit =>
      let p := drop 4 p in
      if (55296 <=? code_unit) && (code_unit <=? 56319) then
        if negb (hd 0 p =? 92) || negb (nth 1 p 0 =? 117) then None
        else
          match http_json_parse_hex4 (drop 2 p) with
          | None => None
          | Some low_surrogate =>
              if (low_surrogate <? 56320) || (57343 <? low_surrogate) then None
              else
                Some (u32 (65536 + Z.lor (u32 (Z.shiftl (code_unit - 55296) 10))
                                         (low_surrogate - 56320)), drop 6 p)
          end
      else if (56320 <=? code_unit) && (code_unit <=? 57343) then None
      else Some (code_unit, p)
  end.

(** The [switch] behind a backslash: the append and the rest; [None] is
    [goto CLEANUP]. *)
Definition json_escape_step (p : bytes) : option ((http_buf_t -> M (Z * http_buf_t)) * bytes) :=
  let ch := hd 0 p in
  let p := tl p in
  if (ch =? 34) || (ch =? 92) || (ch =? 47) then Some (http_buf_append_ch ch, p)
  else if ch =? 98 then Some (http_buf_append_ch 8, p)
  else if ch =? 102 then Some (http_buf_append_ch 12, p)
  else if ch =? 110 then Some (http_buf_append_ch 10, p)
  else if ch =? 114 then Some (http_buf_append_ch 13, p)
  else if ch =? 116 then Some (http_buf_append_ch 9, p)
  else if ch =? 117 then
    match json_code_point p with
    | None => None
    | Some (code_point, p) => Some (http_buf_append_utf8 code_point, p)
    end
  else None.

(** One turn of the loop of [http_json_parse_string], behind [ch = *p++]. *)
Definition json_string_step (ch : Z) (p : bytes)
    : option ((http_buf_t -> M (Z * http_buf_t)) * bytes) :=
  if ch =? 92 then json_escape_step p else Some (http_buf_append_ch ch, p).

(** The loop: 1 is [goto CLEANUP]. *)
Fixpoint json_string_loop (fuel : nat) (p : bytes) (buf : http_buf_t)
    : M (Z * bytes * http_buf_t) :=
  match fuel with
  | O => out_of_fuel
  | S fuel =>
      match p with
      | [] => ret (0, p, buf)
      | ch :: p' =>
          if ch =? 34 then ret (0, p, buf)
          else
            match json_string_step ch p' with
            | None => ret (1, p, buf)
            | Some (op, p) =>
                let! (r, buf) := op buf in
                if negb (r =? 0) then ret (1, p, buf) else json_string_loop fuel p buf
            end
      end
  end.

(** [*out] and the new [*p_in]; [None] is a non-zero result. *)
Definition http_json_parse_string (p : bytes) : M (option (bytes * bytes)) :=
  if negb (hd 0 p =? 34) then ret None
  else
    let! (r, p, buf) := json_string_loop (S (length p)) (tl p) http_buf_zero in
    if negb (r =? 0) then ret None
    else if negb (hd 0 p =? 34) then ret None
    else
      let! (r, buf) := http_buf_append_ch 0 buf in
      if negb (r =? 0) then ret None else ret (Some (cstr (data buf), tl p)).

(** [*message_out] for the body of [len] bytes; [None] is a non-zero result. *)
Definition http_parse_message_json (body : bytes) : M (option bytes) :=
  let! copy := sys_malloc in
  if negb copy then ret None
  else
    let p := http_json_skip_ws (cstr (body ++ [0])) in
    if negb (hd 0 p =? 123) then ret None
    else
      let p := http_json_skip_ws (tl p) in
      let! key := http_json_parse_string p in
      match key with
      | None => ret None
      | Some (key, p) =>
          let p := http_json_skip_ws p in
          if negb (hd 0 p =? 58) then ret None
          else
            let p := http_json_skip_ws (tl p) in
            let! value := http_json_parse_string p in
            match value with
            | None => ret None
            | Some (value, p) =>
                let p := http_json_skip_ws p in
                if negb (hd 0 p =? 125) then ret None
                else
                  let p := http_json_skip_ws (tl p) in
                  if negb (hd 0 p =? 0) then ret None
                  else if negb (streq key (bs "message")) then ret None
                  else ret (Some value)
            end
      end.

(** *** Specifications *)

Definition json_escaped (text : bytes) : bytes := concat (map json_escape_char text).

(** Four hexadecimal digits and their value. *)
Definition hex_value (c : Z) : Z := if isdigit c then c - 48 else tolower c - 87.
Definition json_quad (h : bytes) (u : Z) : Prop :=
  exists a b c d, h = [a; b; c; d] /\ Forall (fun x => isxdigit x = true) h /\
    u = ((hex_value a * 16 + hex_value b) * 16 + hex_value c) * 16 + hex_value d.

(** The character behind a backslash and what it stands for. *)
Definition json_simple_escape (e : Z) : option Z :=
  if (e =? 34) || (e =? 92) || (e =? 47) then Some e
  else if e =? 98 then Some 8
  else if e =? 102 then Some 12
  else if e =? 110 then Some 10
  else if e =? 114 then Some 13
  else if e =? 116 then Some 9
  else None.

(** One character of a JSON string as it is written, and the bytes it stands for. *)
Inductive json_char : bytes -> bytes -> Prop :=
  | json_plain c : c <> 0 -> c <> 34 -> c <> 92 -> json_char [c] [c]
  | json_simple e v : json_simple_escape e = Some v -> json_char [92; e] [v]
  | json_unicode h u : json_quad h u -> ~ 55296 <= u <= 57343 ->
      json_char ([92; 117] ++ h) (utf8 u)
  | json_surrogates h1 h2 hi lo :
      json_quad h1 hi -> json_quad h2 lo -> 55296 <= hi <= 56319 -> 56320 <= lo <= 57343 ->
      json_char ([92; 117] ++ h1 ++ [92; 117] ++ h2)
                (utf8 (65536 + (hi - 55296) * 1024 + (lo - 56320))).

Inductive json_chars : bytes -> bytes -> Prop :=
  | json_nil : json_chars [] []
  | json_cons h v src val : json_char h v -> json_chars src val -> json_chars (h ++ src) (v ++ val).

Definition spaces (s : bytes) : Prop := Forall (fun c => isspace c = true) s.

Definition quoted (src : bytes) : bytes := [34] ++ src ++ [34].

(** The text is an object whose only key is "message", with the value [m]. C
    strings end at the first NUL, also one written as "\u0000". *)
Definition message_json (text m : bytes) : Prop :=
  exists w1 w2 w3 w4 w5 w6 ksrc key vsrc val,
    Forall spaces [w1; w2; w3; w4; w5; w6] /\
    json_chars ksrc key /\ json_chars vsrc val /\
    text = w1 ++ [123] ++ w2 ++ quoted ksrc ++ w3 ++ [58] ++ w4 ++ quoted vsrc ++ w5 ++ [125] ++ w6 /\
    cstr (key ++ [0]) = bs "message" /\ cstr (val ++ [0]) = m.

(** ** Theorems *)

(** *** Hexadecimal digits and UTF-8 *)

Lemma hex_value_range c : isxdigit c = true -> 0 <= hex_value c < 16.
Proof.
  unfold isxdigit, hex_value, isdigit, tolower. intros H.
  destruct ((48 <=? c) && (c <=? 57)) eqn:E; [lia|].
  destruct ((65 <=? c) && (c <=? 90)) eqn:E2; lia.
Qed.

Lemma hex4_loop_step n p v :
  0 <= v < 4096 -> isxdigit (hd 0 p) = true ->
  hex4_loop (S n) p v = hex4_loop n (tl p) (v * 16 + hex_value (hd 0 p)).
Proof.
  intros Hv Hx. cbn [hex4_loop]. rewrite Hx. cbn [negb]. cbv iota.
  pose proof (hex_value_range _ Hx) as Hr. unfold hex_value in *. f_equal. unfold u16.
  destruct (isdigit (hd 0 p)); rewrite !Z.mod_small; lia.
Qed.

Lemma parse_hex4_quad h u rest : json_quad h u -> http_json_parse_hex4 (h ++ rest) = Some u.
Proof.
  intros (a & b & c & d & -> & Hx & ->). unfold http_json_parse_hex4.
  inversion Hx as [|? ? Ha Hx1]; subst. inversion Hx1 as [|? ? Hb Hx2]; subst.
  inversion Hx2 as [|? ? Hc Hx3]; subst. inversion Hx3 as [|? ? Hd _]; subst.
  pose proof (hex_value_range _ Ha). pose proof (hex_value_range _ Hb).
  pose proof (hex_value_range _ Hc). pose proof (hex_value_range _ Hd).
  rewrite !hex4_loop_step by (simpl; done || lia). done.
Qed.

Lemma parse_hex4_inv p u :
  http_json_parse_hex4 p = Some u -> exists h rest, p = h ++ rest /\ json_quad h u.
Proof.
  intros H.
  assert (Hx : forall n q v, hex4_loop (S n) q v = Some u -> isxdigit (hd 0 q) = true).
  { intros n q v Hq. cbn [hex4_loop] in Hq. by destruct (isxdigit (hd 0 q)). }
  assert (Hs : forall q, isxdigit (hd 0 q) = true -> exists c q', q = c :: q') by
    (intros [|c q]; [done|eauto]).
  unfold http_json_parse_hex4 in H.
  pose proof (Hx _ _ _ H) as Ha. destruct (Hs _ Ha) as (a & p1 & ->). simpl in Ha.
  pose proof (hex_value_range _ Ha). rewrite hex4_loop_step in H by (simpl; done || lia).
  pose proof (Hx _ _ _ H) as Hb. simpl in Hb. destruct (Hs _ Hb) as (b & p2 & ->). simpl in Hb.
  pose proof (hex_value_range _ Hb). rewrite hex4_loop_step in H by (simpl; done || lia).
  pose proof (Hx _ _ _ H) as Hc. simpl in Hc. destruct (Hs _ Hc) as (c & p3 & ->). simpl in Hc.
  pose proof (hex_value_range _ Hc). rewrite hex4_loop_step in H by (simpl; done || lia).
  pose proof (Hx _ _ _ H) as Hd. simpl in Hd. destruct (Hs _ Hd) as (d & p4 & ->). simpl in Hd.
  pose proof (hex_value_range _ Hd). rewrite hex4_loop_step in H by (simpl; done || lia).
  exists [a; b; c; d], p4. split; [done|]. exists a, b, c, d. split_and!; [done| |].
  - by repeat constructor.
  - simpl in H. by injection H as <-.
Qed.

Lemma json_quad_range h u : json_quad h u -> 0 <= u < 65536 /\ length h = 4%nat.
Proof.
  intros (a & b & c & d & -> & Hx & ->).
  inversion Hx as [|? ? Ha Hx1]; subst. inversion Hx1 as [|? ? Hb Hx2]; subst.
  inversion Hx2 as [|? ? Hc Hx3]; subst. inversion Hx3 as [|? ? Hd _]; subst.
  pose proof (hex_value_range _ Ha). pose proof (hex_value_range _ Hb).
  pose proof (hex_value_range _ Hc). pose proof (hex_value_range _ Hd). split; [lia|done].
Qed.

Lemma utf8_continuation x : 0 <= x -> u8 (Z.lor 128 (Z.land x 63)) = 128 + x mod 64.
Proof.
  intros Hx. change 63 with (Z.ones 6). rewrite Z.land_ones by lia. change 128 with (2 * 2 ^ 6).
  pose proof (Z.mod_pos_bound x (2 ^ 6)). rewrite lor_high by lia. unfold u8.
  rewrite Z.mod_small; lia.
Qed.

Lemma utf8_length cp : 1 <= zlen (utf8 cp) <= 4.
Proof. unfold utf8. repeat case_if; simpl; lia. Qed.

Lemma appends_utf8 cp : 0 <= cp <= 1114111 -> appends (utf8 cp) (http_buf_append_utf8 cp).
Proof.
  intros Hcp b w Hb. unfold http_buf_append_utf8.
  assert (H : forall d, d = utf8 cp ->
    wp (http_buf_append d b) (fun '(r, b') w' =>
      only_errno w w' /\ buf_ok b' /\ (r = 0 \/ r = 1) /\ (r = 0 -> data b' = data b ++ utf8 cp) /\
      (w_faults w = [] -> zlen (data b) + zlen (utf8 cp) < 2 ^ 62 -> r = 0)) w).
  { intros d ->. apply appends_append; [|done]. pose proof (utf8_length cp). lia. }
  unfold utf8 in H |- *.
  destruct (Z.leb_spec cp 127).
  { apply H. destruct (Z.ltb_spec cp 128); [|lia]. unfold u8. rewrite Z.mod_small; [done|lia]. }
  destruct (Z.leb_spec cp 2047).
  { apply H. destruct (Z.ltb_spec cp 128); [lia|]. destruct (Z.ltb_spec cp 2048); [|lia].
    rewrite utf8_continuation by lia. rewrite Z.shiftr_div_pow2 by lia. do 2 f_equal.
    change 192 with (3 * 2 ^ 6). rewrite lor_high by lia. unfold u8. rewrite Z.mod_small; lia. }
  destruct (Z.leb_spec cp 65535).
  { apply H. destruct (Z.ltb_spec cp 128); [lia|]. destruct (Z.ltb_spec cp 2048); [lia|].
    destruct (Z.ltb_spec cp 65536); [|lia]. rewrite !Z.shiftr_div_pow2 by lia.
    rewrite !utf8_continuation by lia. do 2 f_equal.
    change 224 with (7 * 2 ^ 5). rewrite lor_high by lia. unfold u8. rewrite Z.mod_small; lia. }
  destruct (Z.leb_spec cp 1114111); [|lia].
  apply H. destruct (Z.ltb_spec cp 128); [lia|]. destruct (Z.ltb_spec cp 2048); [lia|].
  destruct (Z.ltb_spec cp 65536); [lia|]. rewrite !Z.shiftr_div_pow2 by lia.
  rewrite !utf8_continuation by lia. do 2 f_equal.
  change 240 with (15 * 2 ^ 4). rewrite lor_high by lia. unfold u8. rewrite Z.mod_small; lia.
Qed.

(** *** The string parser *)

Lemma json_code_point_inv p cp rest :
  json_code_point p = Some (cp, rest) ->
  exists h, p = h ++ rest /\ json_char ([92; 117] ++ h) (utf8 cp) /\ 0 <= cp <= 1114111.
Proof.
  unfold json_code_point. intros H.
  destruct (http_json_parse_hex4 p) as [u|] eqn:E1; [|done].
  apply parse_hex4_inv in E1 as (h & q & -> & Hq). destruct (json_quad_range _ _ Hq) as [Hu Hl].
  rewrite (drop_app_length' h q 4) in H by done.
  destruct ((55296 <=? u) && (u <=? 56319)) eqn:E2.
  - destruct q as [|c1 [|c2 q]]; [done|by cbn in H; rewrite orb_true_r in H|]. cbn [hd nth] in H.
    destruct (negb (c1 =? 92) || negb (c2 =? 117)) eqn:E3; [done|].
    assert (c1 = 92 /\ c2 = 117) as [-> ->] by bool_lia. cbn [drop] in H.
    rewrite drop_0 in H.
    destruct (http_json_parse_hex4 q) as [lo|] eqn:E4; [|done].
    apply parse_hex4_inv in E4 as (h2 & q2 & -> & Hq2).
    destruct (json_quad_range _ _ Hq2) as [Hlo Hl2].
    destruct ((lo <? 56320) || (57343 <? lo)) eqn:E5; [done|].
    rewrite (drop_app_length' h2 q2 4) in H by done. injection H as <- <-.
    assert (Hcp : u32 (65536 + Z.lor (u32 (Z.shiftl (u - 55296) 10)) (lo - 56320)) =
                  65536 + (u - 55296) * 1024 + (lo - 56320)).
    { rewrite Z.shiftl_mul_pow2 by lia. unfold u32 at 2.
      rewrite (Z.mod_small ((u - 55296) * 2 ^ 10)) by lia.
      rewrite lor_high by lia. unfold u32. rewrite Z.mod_small; lia. }
    rewrite Hcp. exists (h ++ [92; 117] ++ h2). split_and!; [by rewrite <- !app_assoc| |lia|lia].
    apply json_surrogates; done || lia.
  - destruct ((56320 <=? u) && (u <=? 57343)) eqn:E3; [done|]. injection H as <- <-.
    exists h. split_and!; [done| |lia|lia]. apply json_unicode; [done|lia].
Qed.

Lemma json_code_point_complete h cp rest :
  json_char ([92; 117] ++ h) cp -> exists u,
    json_code_point (h ++ rest) = Some (u, rest) /\ cp = utf8 u /\ 0 <= u <= 1114111.
Proof.
  inversion 1 as [| |? u Hq Hu|h1 h2 hi lo Hq1 Hq2 Hhi Hlo]; subst.
  - done.
  - exists u. destruct (json_quad_range _ _ Hq) as [Hr Hl]. split_and!; [|done|lia|lia].
    unfold json_code_point. rewrite (parse_hex4_quad _ _ _ Hq), (drop_app_length' h rest 4) by done.
    destruct ((55296 <=? u) && (u <=? 56319)) eqn:E1; [lia|].
    destruct ((56320 <=? u) && (u <=? 57343)) eqn:E2; [lia|done].
  - exists (65536 + (hi - 55296) * 1024 + (lo - 56320)).
    destruct (json_quad_range _ _ Hq1) as [Hr1 Hl1]. destruct (json_quad_range _ _ Hq2) as [Hr2 Hl2].
    split_and!; [|done|lia|lia]. unfold json_code_point.
    rewrite <- !app_assoc, (parse_hex4_quad _ _ _ Hq1).
    rewrite (drop_app_length' h1 _ 4) by done.
    destruct ((55296 <=? hi) && (hi <=? 56319)) eqn:E1; [|lia].
    cbn [hd nth app drop Z.eqb Pos.eqb negb orb]. rewrite drop_0, (parse_hex4_quad _ _ _ Hq2).
    destruct ((lo <? 56320) || (57343 <? lo)) eqn:E2; [lia|].
    rewrite (drop_app_length' h2 _ 4) by done. do 2 f_equal.
    rewrite Z.shiftl_mul_pow2 by lia. unfold u32 at 2.
    rewrite (Z.mod_small ((hi - 55296) * 2 ^ 10)) by lia.
    rewrite lor_high by lia. unfold u32. rewrite Z.mod_small; lia.
Qed.

(** The cases of [switch] that are not 'u'. *)
Lemma json_escape_step_simple e p :
  e <> 117 ->
  json_escape_step (e :: p) =
    match json_simple_escape e with Some v => Some (http_buf_append_ch v, p) | None => None end.
Proof.
  intros He. unfold json_escape_step, json_simple_escape. cbn [hd tl].
  repeat case_if; try done. lia.
Qed.

Lemma json_string_step_inv ch p op rest :
  ch <> 0 -> ch <> 34 -> json_string_step ch p = Some (op, rest) ->
  exists h v, ch :: p = h ++ rest /\ json_char h v /\ appends v op.
Proof.
  intros H0 H34. unfold json_string_step. destruct (Z.eqb_spec ch 92) as [->|Hch]; intros H; cycle 1.
  { injection H as <- <-. exists [ch], [ch]. split_and!; [done|by constructor|done]. }
  destruct p as [|e p]; [done|]. destruct (decide (e = 117)) as [->|He].
  - unfold json_escape_step in H. cbn in H.
    destruct (json_code_point p) as [[cp q]|] eqn:E; [|done]. injection H as <- <-.
    apply json_code_point_inv in E as (h & -> & Hc & Hcp).
    exists ([92; 117] ++ h), (utf8 cp). split_and!; [done|done|]. by apply appends_utf8.
  - rewrite json_escape_step_simple in H by done.
    destruct (json_simple_escape e) as [v|] eqn:E; [|done]. injection H as <- <-.
    exists [92; e], [v]. split_and!; [done|by constructor|done].
Qed.

Lemma json_string_step_complete h v rest :
  json_char h v -> exists ch p op, h ++ rest = ch :: p /\ ch <> 34 /\
    json_string_step ch p = Some (op, rest) /\ appends v op.
Proof.
  intros H. assert (Hu : forall h', h = [92; 117] ++ h' -> exists ch p op, h ++ rest = ch :: p /\
    ch <> 34 /\ json_string_step ch p = Some (op, rest) /\ appends v op).
  { intros h' ->. destruct (json_code_point_complete _ _ rest H) as (u & Hc & -> & Hr).
    exists 92, (117 :: h' ++ rest), (http_buf_append_utf8 u).
    split_and!; [done|done| |by apply appends_utf8].
    unfold json_string_step, json_escape_step. cbn. by rewrite Hc. }
  inversion H as [c H1 H2 H3|e v' He|h' u Hq Hu'|h1 h2 hi lo]; subst; eauto.
  - exists c, rest, (http_buf_append_ch c). split_and!; [done|done| |done].
    unfold json_string_step. by destruct (Z.eqb_spec c 92).
  - destruct (decide (e = 117)) as [->|Hne]; [done|].
    exists 92, (e :: rest), (http_buf_append_ch v'). split_and!; [done|done| |done].
    unfold json_string_step. change (92 =? 92) with true. cbv iota.
    by rewrite json_escape_step_simple, He.
Qed.

Lemma json_char_length h v : json_char h v -> 1 <= zlen v <= zlen h.
Proof.
  intros [c ???|e x ?|h' u Hq ?|h1 h2 hi lo Hq1 Hq2 ? ?]; try (simpl; lia).
  - destruct (json_quad_range _ _ Hq) as [_ Hl]. pose proof (utf8_length u). rewrite length_app. simpl. lia.
  - destruct (json_quad_range _ _ Hq1) as [_ Hl].
    match goal with |- context [utf8 ?x] => pose proof (utf8_length x) end.
    rewrite !length_app. simpl. lia.
Qed.

Lemma json_char_short h v : json_char h v -> zlen v <= 4.
Proof.
  intros [c ???|e x ?|h' u ? ?|h1 h2 hi lo ? ? ? ?]; try (simpl; lia);
    match goal with |- context [utf8 ?x] => pose proof (utf8_length x) end; lia.
Qed.

Lemma json_chars_length src val : json_chars src val -> zlen val <= zlen src.
Proof.
  induction 1 as [|h v src val Hc _ IH]; [done|]. apply json_char_length in Hc.
  rewrite !length_app. lia.
Qed.

(** The loop: what it took off the text, and that it takes all it can. *)
Lemma json_string_loop_spec fuel p buf w :
  (length p < fuel)%nat -> Forall (fun c => c <> 0) p -> buf_ok buf ->
  wp (json_string_loop fuel p buf) (fun '(r, p', buf') w' =>
    only_errno w w' /\ buf_ok buf' /\ (r = 0 \/ r = 1) /\
    (r = 0 -> (p' = [] \/ hd 0 p' = 34) /\
       exists src val, p = src ++ p' /\ json_chars src val /\ data buf' = data buf ++ val) /\
    (w_faults w = [] -> zlen (data buf) + zlen p < 2 ^ 62 ->
       forall src val rest, json_chars src val -> p = src ++ 34 :: rest ->
         r = 0 /\ p' = 34 :: rest /\ data buf' = data buf ++ val)) w.
Proof.
  revert p buf w. induction fuel as [|fuel IH]; intros p buf w Hf Hp Hb; [lia|].
  cbn [json_string_loop]. destruct p as [|ch p].
  { wp_step. split; [done|]. split_and!; [done|by left|intros _; split; [by left|]|].
    - exists [], []. split_and!; [done|constructor|by rewrite app_nil_r].
    - intros _ _ src val rest _ H. by destruct src. }
  inversion Hp as [|? ? Hch Hp']; subst. destruct (Z.eqb_spec ch 34) as [->|H34].
  { wp_step. split; [done|]. split_and!; [done|by left|intros _; split; [by right|]|].
    - exists [], []. split_and!; [done|constructor|by rewrite app_nil_r].
    - intros _ _ src val rest Hs H. destruct Hs as [|h v src val Hc Hs].
      + injection H as ->. by rewrite app_nil_r.
      + exfalso. destruct (json_string_step_complete h v (src ++ 34 :: rest) Hc)
          as (c & q & op & E & Hne & _). rewrite <- app_assoc, E in H. injection H as <- _. done. }
  destruct (json_string_step ch p) as [[op q]|] eqn:Hstep; cycle 1.
  { wp_step. split; [done|]. split_and!; [done|by right|done|].
    intros _ _ src val rest Hs H. exfalso. destruct Hs as [|h v src val Hc Hs]; [by injection H|].
    destruct (json_string_step_complete h v (src ++ 34 :: rest) Hc) as (c & q & op & E & _ & Hst & _).
    rewrite <- app_assoc, E in H. injection H as -> ->. by rewrite Hst in Hstep. }
  destruct (json_string_step_inv ch p op q Hch H34 Hstep) as (h & v & E & Hc & Hop).
  pose proof (json_char_length h v Hc) as Hlen.
  assert (Hlq : (length (ch :: p) = length h + length q)%nat) by (rewrite E; apply length_app).
  wp_step. wp_use Hop; [done|]. intros [r b1] w1 (Hf1 & Hb1 & Hr & Hd & H0). wp_step.
  { wp_step. split; [done|]. split_and!; [done|by right|lia|].
    intros Hn Hs. specialize (H0 Hn). simpl in Hlq, Hs. lia. }
  assert (r = 0) as -> by lia. specialize (Hd eq_refl).
  assert (Hq : Forall (fun c => c <> 0) q).
  { apply (Forall_app _ h q). by rewrite <- E. }
  eapply wp_mono; [apply (IH q b1); [simpl in *; lia|done|done]|].
  intros [[r p'] b2] w2 (Hf2 & Hb2 & Hr2 & Hok & Hlive). split; [by etrans|]. split_and!; [done|done| |].
  - intros Hr0. destruct (Hok Hr0) as (Hend & src & val & -> & Hcs & Hd2). split; [done|].
    exists (h ++ src), (v ++ val). split_and!; [by rewrite <- app_assoc|by constructor|].
    by rewrite Hd2, Hd, app_assoc.
  - intros Hn Hs src val rest Hcs Heq. destruct Hcs as [|h2 v2 src val Hc2 Hcs]; [by injection Heq|].
    destruct (json_string_step_complete h2 v2 (src ++ 34 :: rest) Hc2)
      as (c & q2 & op2 & E2 & _ & Hst & Hop2).
    rewrite <- app_assoc, E2 in Heq. injection Heq as -> ->.
    rewrite Hst in Hstep. injection Hstep as <- <-.
    pose proof (json_char_length h2 v2 Hc2) as Hl2.
    assert (zlen v < 2 ^ 62 /\ zlen v2 < 2 ^ 62) as [Hv Hv2] by (pose proof (json_char_short _ _ Hc);
      pose proof (json_char_short _ _ Hc2); lia).
    rewrite (appends_fun v2 v op2 Hv2 Hv Hop2 Hop).
    assert (Hn1 : w_faults w1 = []) by (eapply only_io_no_faults; [apply Hf1|done]).
    assert (Hs1 : zlen (data b1) + zlen (src ++ 34 :: rest) < 2 ^ 62).
    { rewrite Hd, length_app. simpl in Hlq, Hs. lia. }
    destruct (Hlive Hn1 Hs1 src val rest Hcs eq_refl) as (H1 & H2 & H3).
    split_and!; [done|done|]. by rewrite H3, Hd, app_assoc.
Qed.

Lemma http_json_parse_string_spec p w :
  Forall (fun c => c <> 0) p ->
  wp (http_json_parse_string p) (fun r w' =>
    only_errno w w' /\
    (forall out rest, r = Some (out, rest) ->
       exists src val, p = quoted src ++ rest /\ json_chars src val /\ out = cstr (val ++ [0])) /\
    (w_faults w = [] -> zlen p < 2 ^ 61 -> forall src val rest, json_chars src val ->
       p = quoted src ++ rest -> r = Some (cstr (val ++ [0]), rest))) w.
Proof.
  intros Hp. unfold http_json_parse_string. destruct p as [|c p].
  { cbn [hd Z.eqb negb]. wp_step. split; [done|]. split; [done|]. by intros _ _ src val rest _ H. }
  cbn [hd tl]. destruct (Z.eqb_spec c 34) as [->|Hc]; cbn [negb]; cbv iota; cycle 1.
  { wp_step. split; [done|]. split; [done|]. intros _ _ src val rest _ H. by injection H as ? _. }
  inversion Hp as [|? ? _ Hp']; subst. wp_step.
  eapply wp_mono; [apply (json_string_loop_spec _ p http_buf_zero); [simpl; lia|done|done]|].
  intros [[r q] b] w1 (Hf1 & Hb1 & Hr & Hok & Hlive).
  assert (Hlive' : w_faults w = [] -> zlen (34 :: p) < 2 ^ 61 -> forall src val rest,
            json_chars src val -> 34 :: p = quoted src ++ rest ->
            r = 0 /\ q = 34 :: rest /\ data b = val).
  { intros Hn Hs src val rest Hcs Heq. unfold quoted in Heq. rewrite <- !app_assoc in Heq.
    injection Heq as Heq. apply (Hlive Hn ltac:(simpl in *; lia) src val rest Hcs Heq). }
  wp_step.
  { wp_step. split; [done|]. split; [done|]. intros Hn Hs src val rest Hcs Heq.
    destruct (Hlive' Hn Hs src val rest Hcs Heq) as (-> & _). lia. }
  assert (r = 0) as -> by lia. destruct (Hok eq_refl) as (Hend & src & val & Hpq & Hcs & Hd).
  simpl in Hd. wp_step.
  { wp_step. split; [done|]. split; [done|]. intros Hn Hs src' val' rest Hcs' Heq.
    by destruct (Hlive' Hn Hs src' val' rest Hcs' Heq) as (_ & -> & _). }
  destruct Hend as [->|Hq]; [done|]. destruct q as [|c q]; [done|]. simpl in Hq. subst c.
  wp_step. wp_use appends_ch; [done|]. intros [r b2] w2 (Hf2 & Hb2 & Hr2 & Hd2 & H02).
  assert (Hf : only_errno w w2) by (by etrans). wp_step; wp_step.
  - split; [done|]. split; [done|]. intros Hn Hs src' val' rest Hcs' Heq. exfalso.
    destruct (Hlive' Hn Hs src' val' rest Hcs' Heq) as (_ & _ & Hdv).
    assert (r = 0) as ->; [|done]. apply H02.
    + eapply only_io_no_faults; [apply Hf1|done].
    + rewrite Hdv. pose proof (json_chars_length _ _ Hcs').
      assert (Hl : zlen (34 :: p) = zlen (quoted src' ++ rest)) by (by rewrite Heq).
      unfold quoted in Hl. rewrite !length_app in Hl. simpl in *. lia.
  - assert (r = 0) as -> by lia. specialize (Hd2 eq_refl). split; [done|]. split.
    + intros out rest [= <- <-]. exists src, val. split_and!; [|done|by rewrite Hd2, Hd].
      unfold quoted. rewrite <- !app_assoc. simpl. by rewrite Hpq.
    + intros Hn Hs src' val' rest Hcs' Heq.
      destruct (Hlive' Hn Hs src' val' rest Hcs' Heq) as (_ & [= <-] & Hdv).
      by rewrite Hd2, Hdv.
Qed.

(** *** White space *)

Lemma skip_ws_split p : exists s, p = s ++ http_json_skip_ws p /\ spaces s.
Proof.
  assert (Hn : spaces []) by constructor.
  induction p as [|c p (s & E & Hs)]; [by exists []|]. cbn [http_json_skip_ws].
  destruct (isspace c) eqn:Hc; [|by exists []]. exists (c :: s). split; [simpl; by rewrite <- E|].
  by constructor.
Qed.

Lemma skip_ws_stop s c q : spaces s -> isspace c = false -> http_json_skip_ws (s ++ c :: q) = c :: q.
Proof. induction 1 as [|x s Hx _ IH]; intros Hc; cbn; [by rewrite Hc|]. rewrite Hx. by apply IH. Qed.

Lemma skip_ws_all s : spaces s -> http_json_skip_ws s = [].
Proof. induction 1 as [|x s Hx _ IH]; cbn; [done|]. by rewrite Hx. Qed.

Lemma skip_ws_nonzero p : Forall (fun c => c <> 0) p -> Forall (fun c => c <> 0) (http_json_skip_ws p).
Proof.
  destruct (skip_ws_split p) as (s & E & _). rewrite E at 1. by intros [_ ?]%Forall_app.
Qed.

(** The tests of the parser: a character and what follows it. *)
Lemma hd_char p c : c <> 0 -> hd 0 p = c -> p = c :: tl p.
Proof. destruct p; simpl; intros; [lia|by f_equal]. Qed.

Lemma tl_nonzero p : Forall (fun c => c <> 0) p -> Forall (fun c => c <> 0) (tl p).
Proof. by destruct 1. Qed.

(** *** The message object *)

Lemma message_json_sound body w :
  wp (http_parse_message_json body) (fun r w' =>
    only_errno w w' /\ forall m, r = Some m -> message_json (cstr (body ++ [0])) m) w.
Proof.
  unfold http_parse_message_json. pose proof (cstr_nonzero (body ++ [0])) as H0.
  set (text := cstr (body ++ [0])) in *. clearbody text.
  wp_step. apply wp_sys_malloc; intros w1 Hf1 _; cbn [negb]; [by wp_step|].
  destruct (skip_ws_split text) as (s1 & E1 & Hs1). apply skip_ws_nonzero in H0.
  set (p1 := http_json_skip_ws text) in *. clearbody p1. wp_step; [by wp_step|].
  assert (Hp1 : p1 = 123 :: tl p1) by (apply hd_char; lia).
  destruct (skip_ws_split (tl p1)) as (s2 & E2 & Hs2). apply tl_nonzero, skip_ws_nonzero in H0.
  set (p2 := http_json_skip_ws (tl p1)) in *. clearbody p2. wp_step.
  wp_use http_json_parse_string_spec; [done|]. intros r w2 (Hf2 & Hr & _).
  assert (Hfa : only_errno w w2) by (by etrans).
  destruct r as [[key p3]|]; [|by wp_step].
  destruct (Hr _ _ eq_refl) as (ksrc & kval & E3 & Hk & ->).
  rewrite E3 in H0. apply Forall_app in H0 as [_ H0].
  destruct (skip_ws_split p3) as (s3 & E4 & Hs3). apply skip_ws_nonzero in H0.
  set (p4 := http_json_skip_ws p3) in *. clearbody p4. wp_step; [by wp_step|].
  assert (Hp4 : p4 = 58 :: tl p4) by (apply hd_char; lia).
  destruct (skip_ws_split (tl p4)) as (s4 & E5 & Hs4). apply tl_nonzero, skip_ws_nonzero in H0.
  set (p5 := http_json_skip_ws (tl p4)) in *. clearbody p5. wp_step.
  wp_use http_json_parse_string_spec; [done|]. intros r w3 (Hf3 & Hr2 & _).
  assert (Hfb : only_errno w w3) by (by etrans).
  destruct r as [[value p6]|]; [|by wp_step].
  destruct (Hr2 _ _ eq_refl) as (vsrc & vval & E6 & Hv & ->).
  rewrite E6 in H0. apply Forall_app in H0 as [_ H0].
  destruct (skip_ws_split p6) as (s5 & E7 & Hs5). apply skip_ws_nonzero in H0.
  set (p7 := http_json_skip_ws p6) in *. clearbody p7. wp_step; [by wp_step|].
  assert (Hp7 : p7 = 125 :: tl p7) by (apply hd_char; lia).
  destruct (skip_ws_split (tl p7)) as (s6 & E8 & Hs6). apply tl_nonzero, skip_ws_nonzero in H0.
  set (p8 := http_json_skip_ws (tl p7)) in *. clearbody p8.
  wp_step; [by wp_step|]. wp_step; [by wp_step|]. wp_step. split; [done|].
  intros m [= <-].
  assert (p8 = []) as ->.
  { destruct p8 as [|c p8]; [done|]. inversion H0; subst. simpl in *. lia. }
  exists s1, s2, s3, s4, s5, s6, ksrc, kval, vsrc, vval. split_and!; try done.
  - by repeat constructor.
  - rewrite app_nil_r in E8. rewrite E1, Hp1, E2, E3, E4, Hp4, E5, E6, E7, Hp7, E8. done.
  - apply streq_true. by destruct (streq _ _).
Qed.

Lemma quoted_head src q : quoted src ++ q = 34 :: src ++ 34 :: q.
Proof. unfold quoted. by rewrite <- !app_assoc. Qed.

Lemma message_json_complete body m w :
  w_faults w = [] -> zlen body < 2 ^ 60 -> message_json (cstr (body ++ [0])) m ->
  wp (http_parse_message_json body) (fun r _ => r = Some m) w.
Proof.
  intros Hn Hl (w1 & w2 & w3 & w4 & w5 & w6 & ksrc & key & vsrc & val & Hs & Hk & Hv & E & Ek & Em).
  unfold http_parse_message_json. pose proof (cstr_nonzero (body ++ [0])) as H0.
  pose proof (cstr_length (body ++ [0])) as Hc. rewrite length_app in Hc. simpl in Hc.
  rewrite E in *. repeat match goal with H : Forall spaces (_ :: _) |- _ =>
    inversion H; subst; clear H end.
  assert (Hsz : forall x : bytes, (length x <= length body + 1)%nat -> zlen x < 2 ^ 61) by (intros; lia).
  rewrite !length_app in Hc. apply Forall_app in H0 as [_ H0]. apply Forall_app in H0 as [_ H0].
  apply Forall_app in H0 as [_ H0].
  wp_step. apply wp_sys_malloc; intros wa Hfa Hlt; cbn [negb].
  { apply no_faults_flen in Hn. lia. }
  assert (Hna : w_faults wa = []) by (eapply only_io_no_faults; [apply Hfa|done]).
  cbn [app]. rewrite skip_ws_stop by done. cbn [hd tl app Z.eqb Pos.eqb negb].
  rewrite quoted_head, skip_ws_stop by done. rewrite <- quoted_head. wp_step.
  wp_use http_json_parse_string_spec; [done|]. intros r wb (Hfb & _ & Hr).
  erewrite Hr; [|exact Hna|cbn [app] in *; len_lia|exact Hk|reflexivity].
  assert (Hnb : w_faults wb = []) by (eapply only_io_no_faults; [apply Hfb|done]).
  apply Forall_app in H0 as [_ H0]. apply Forall_app in H0 as [_ H0].
  apply Forall_app in H0 as [_ H0]. apply Forall_app in H0 as [_ H0].
  cbn [app]. rewrite skip_ws_stop by done. cbn [hd tl app Z.eqb Pos.eqb negb].
  rewrite quoted_head, skip_ws_stop by done. rewrite <- quoted_head. wp_step.
  wp_use http_json_parse_string_spec; [done|]. intros r2 wc (Hfc & _ & Hr2).
  erewrite Hr2; [|exact Hnb|cbn [app] in *; len_lia|exact Hv|reflexivity].
  cbn [app]. rewrite skip_ws_stop by done. cbn [hd tl app Z.eqb Pos.eqb negb].
  rewrite skip_ws_all by done. cbn [hd tl app Z.eqb Pos.eqb negb].
  rewrite Ek. change (streq (bs "message") (bs "message")) with true. cbn [negb]. by wp_step.
Qed.

(** Both directions, for one run. *)
Lemma message_json_spec body w :
  zlen body < 2 ^ 60 ->
  wp (http_parse_message_json body) (fun r w' =>
    only_errno w w' /\ (forall m, r = Some m -> message_json (cstr (body ++ [0])) m) /\
    (w_faults w = [] -> forall m, message_json (cstr (body ++ [0])) m -> r = Some m)) w.
Proof.
  intros Hsize. pose proof (message_json_sound body w) as H. apply wp_run in H as (r & w' & E & Hf & Hs).
  apply wp_run. exists r, w'. split; [done|]. split; [done|]. split; [done|].
  intros Hn m Hm. exact (wp_result _ _ _ _ _ (message_json_complete body m w Hn Hsize Hm) E).
Qed.

(** *** Writing strings *)

Lemma http_json_escape_appends text : appends (json_escaped text) (http_json_escape text).
Proof.
  apply (appends_map json_escape_char); [|done|done].
  intros c. unfold json_escape_char. repeat case_if; done.
Qed.

Lemma hex_digit_ok d : 0 <= d < 16 -> isxdigit (hex_digit d) = true /\ hex_value (hex_digit d) = d.
Proof.
  unfold hex_digit, hex_value, isxdigit, isdigit, tolower. intros Hd.
  destruct (Z.ltb_spec d 10).
  - destruct ((48 <=? 48 + d) && (48 + d <=? 57)) eqn:E; [|lia]. split; [done|lia].
  - destruct ((48 <=? 87 + d) && (87 + d <=? 57)) eqn:E; [lia|].
    destruct ((65 <=? 87 + d) && (87 + d <=? 90)) eqn:E2; [lia|]. split; lia.
Qed.

Lemma fmt_04x_quad n : 0 <= n < 65536 -> json_quad (fmt_04x n) n.
Proof.
  intros Hn. unfold fmt_04x.
  pose proof (hex_digit_ok (n / 4096 mod 16) ltac:(lia)) as [Ha1 Ha2].
  pose proof (hex_digit_ok (n / 256 mod 16) ltac:(lia)) as [Hb1 Hb2].
  pose proof (hex_digit_ok (n / 16 mod 16) ltac:(lia)) as [Hc1 Hc2].
  pose proof (hex_digit_ok (n mod 16) ltac:(lia)) as [Hd1 Hd2].
  eexists _, _, _, _. split; [done|]. split; [by repeat constructor|].
  rewrite Ha2, Hb2, Hc2, Hd2. lia.
Qed.

Lemma json_escape_char_ok c : is_char c -> json_char (json_escape_char c) [c].
Proof.
  unfold is_char, json_escape_char. intros Hc.
  repeat match goal with
  | |- context [if ?x =? ?y then _ else _] => destruct (Z.eqb_spec x y) as [->|]; [by apply json_simple|]
  end.
  destruct (Z.ltb_spec c 32).
  - assert (E : [c] = utf8 c) by (unfold utf8; destruct (Z.ltb_spec c 128); [done|lia]). rewrite E.
    apply json_unicode; [apply fmt_04x_quad; lia|lia].
  - apply json_plain; lia.
Qed.

Lemma json_escaped_chars text : Forall is_char text -> json_chars (json_escaped text) text.
Proof.
  induction 1 as [|c text Hc _ IH]; [constructor|]. unfold json_escaped. cbn [map concat].
  change (c :: text) with ([c] ++ text). constructor; [by apply json_escape_char_ok|done].
Qed.

Lemma json_escape_char_length c : zlen (json_escape_char c) <= 6.
Proof. unfold json_escape_char. repeat case_if; simpl; lia. Qed.

Lemma json_escaped_length text : zlen (json_escaped text) <= 6 * zlen text.
Proof.
  unfold json_escaped. induction text as [|c text IH]; [done|]. cbn [map concat].
  pose proof (json_escape_char_length c). len_lia.
Qed.

Lemma json_escape_char_printable c : is_char c -> Forall (fun x => 32 <= x < 256) (json_escape_char c).
Proof.
  intros Hc.
  pose proof (byte_forall (fun b => forallb (fun x => (32 <=? x) && (x <? 256)) (json_escape_char b))
    ltac:(by vm_compute) c ltac:(unfold is_char, is_byte in *; lia)) as H.
  apply Forall_forall. intros x Hx%list_elem_of_In. rewrite forallb_forall in H.
  specialize (H x Hx). lia.
Qed.

Lemma json_escaped_printable text :
  Forall is_char text -> Forall (fun x => 32 <= x < 256) (json_escaped text).
Proof.
  unfold json_escaped. induction 1 as [|c text Hc _ IH]; [constructor|]. cbn [map concat].
  apply Forall_app. split; [by apply json_escape_char_printable|done].
Qed.

(** ** Properties *)



Lemma message_json_run :
  fst <$> http_parse_message_json
    (bs "{ " ++ quoted (bs "message") ++ bs ": " ++ quoted (bs "a\ud83d\ude00\n") ++ bs "}")
    (demo_world [] [] (demo_files ∅)) = Some (Some [97; 240; 159; 152; 128; 10]).
Proof. by vm_compute. Qed.

(** Every C string can be written as a JSON string and is read back as it
    was: [http_json_escape] appends printable bytes only, and
    [http_json_parse_string] of the result between quotes -- whatever follows --
    returns the string and the rest, when memory does not run out. *)
Theorem http_json_string_roundtrip text rest w
    (Htext : Forall is_char text) (Hrest : Forall is_char rest)
    (Hsize : zlen text + zlen rest < 2 ^ 57) (Hmem : w_faults w = []) :
  wp (let! (r, buf) := http_json_escape text http_buf_zero in
      let! parsed := http_json_parse_string (quoted (data buf) ++ rest) in
      ret (r, data buf, parsed)) (fun '(r, escaped, parsed) _ =>
    r = 0 /\ Forall (fun c => 32 <= c < 256) escaped /\ parsed = Some (text, rest)) w.
Proof.
  wp_step. wp_use http_json_escape_appends; [done|].
  intros [r b] w1 (Hf & _ & Hr & Hd & H0). pose proof (json_escaped_length text).
  assert (r = 0) as -> by (apply H0; [done|simpl; lia]). specialize (Hd eq_refl). simpl in Hd.
  rewrite Hd. pose proof (json_escaped_printable text Htext) as Hp. wp_step.
  wp_use http_json_parse_string_spec.
  { unfold quoted. rewrite !Forall_app. split_and!; try (by repeat constructor).
    - eapply Forall_impl; [done|]. simpl. lia.
    - eapply Forall_impl; [done|]. unfold is_char. lia. }
  intros parsed w2 (_ & _ & Hlive). wp_step. split_and!; [done|done|].
  rewrite <- (cstr_app_nul text []) by done. eapply Hlive.
  - eapply only_io_no_faults; [apply Hf|done].
  - unfold quoted. len_lia.
  - by apply json_escaped_chars.
  - done.
Qed.

Lemma http_json_string_roundtrip_witness :
  let w := demo_world [] [] (demo_files ∅) in
  wp (let! (r, buf) := http_json_escape [34; 92; 10; 7; 65; 228] http_buf_zero in
      let! parsed := http_json_parse_string (quoted (data buf) ++ [44]) in
      ret (r, data buf, parsed)) (fun '(r, escaped, parsed) _ =>
    r = 0 /\ Forall (fun c => 32 <= c < 256) escaped /\
    parsed = Some ([34; 92; 10; 7; 65; 228], [44])) w.
Proof.
  apply (http_json_string_roundtrip [34; 92; 10; 7; 65; 228] [44]);
    [repeat constructor; unfold is_char; lia..|done|done].
Defined.
