(* ===== verification/PicoHttp.v ===== *)
(** * The request parser the HTTP server calls (third_party/picohttpparser.c)

    [phr_parse_request] with [last_len = 0], as http.c calls it. A pointer into
    the buffer is what is left up to [buf_end]; a function returns the new pointer
    with its outputs, or the value it stores in [*ret] (-1: malformed, -2: the
    buffer ends too early). The SSE branches look for the same characters faster. *)

From S2P Require Import Prelude CLib.

(** ** Definitions *)

Record phr_header := PhrHeader { h_name : option bytes; h_value : bytes }.

(** What [phr_parse_request] stores when it succeeds. *)
Record phr_request := PhrRequest {
  r_method : bytes;
  r_path : bytes;
  r_minor_version : Z;
  r_headers : list phr_header
}.

(** The table, 32 characters a line, as digits. *)
Definition token_char_map : bytes :=
  bs "00000000000000000000000000000000" ++ bs "01011111001101101111111111000000" ++
  bs "01111111111111111111111111100011" ++ bs "11111111111111111111111111101010" ++
  replicate 128 48.

Definition token_char (c : Z) : bool := negb (nth (Z.to_nat c) token_char_map 48 =? 48).

(** [IS_PRINTABLE_ASCII] fails and the character is not one of the upper half. *)
Definition control_char (c : Z) : bool := (c <? 32) || (c =? 127).

(** The token and the position of [next_char]. *)
Fixpoint parse_token (buf : bytes) (next_char : Z) : Z + (bytes * bytes) :=
  match buf with
  | [] => inl (-2)
  | c :: buf' =>
      if c =? next_char then inr ([], buf)
      else if negb (token_char c) then inl (-1)
      else
        match parse_token buf' next_char with
        | inl e => inl e
        | inr (token, rest) => inr (c :: token, rest)
        end
  end.

(** [ADVANCE_TOKEN]: up to the next space. *)
Fixpoint advance_token (buf : bytes) : Z + (bytes * bytes) :=
  match buf with
  | [] => inl (-2)
  | c :: buf' =>
      if c =? 32 then inr ([], buf)
      else if control_char c then inl (-1)
      else
        match advance_token buf' with
        | inl e => inl e
        | inr (token, rest) => inr (c :: token, rest)
        end
  end.

(** [do { ++buf; CHECK_EOF(); } while ( *buf == ' ')], behind the [++buf]. *)
Fixpoint skip_spaces (buf : bytes) : Z + bytes :=
  match buf with
  | [] => inl (-2)
  | c :: buf' => if c =? 32 then skip_spaces buf' else inr buf
  end.

(** [for (;; ++buf)] over spaces and tabs before a header's value. *)
Fixpoint skip_blanks (buf : bytes) : Z + bytes :=
  match buf with
  | [] => inl (-2)
  | c :: buf' => if (c =? 32) || (c =? 9) then skip_blanks buf' else inr buf
  end.

(** The text up to the end of the line, and what follows the line. *)
Fixpoint get_token_to_eol (buf : bytes) : Z + (bytes * bytes) :=
  match buf with
  | [] => inl (-2)
  | c :: buf' =>
      if control_char c && negb (c =? 9) then
        if c =? 13 then
          match buf' with
          | [] => inl (-2)
          | c2 :: rest => if c2 =? 10 then inr ([], rest) else inl (-1)
          end
        else if c =? 10 then inr ([], buf')
        else inl (-1)
      else
        match get_token_to_eol buf' with
        | inl e => inl e
        | inr (token, rest) => inr (c :: token, rest)
        end
  end.

Definition parse_http_version (buf : bytes) : Z + (Z * bytes) :=
  if zlen buf <? 9 then inl (-2)
  else if negb (prefixb (bs "HTTP/1.") buf) then inl (-1)
  else
    let c := nth 7 buf 0 in
    if (c <? 48) || (57 <? c) then inl (-1) else inr (c - 48, drop 8 buf).

(** The value without the spaces and tabs at its end. *)
Fixpoint trim_blanks (value : bytes) : bytes :=
  match value with
  | [] => []
  | c :: value =>
      match trim_blanks value with
      | [] => if (c =? 32) || (c =? 9) then [] else [c]
      | v => c :: v
      end
  end.

(** One header line; [first]: is [*num_headers] 0? *)
Definition parse_header (first : bool) (buf : bytes) : Z + (phr_header * bytes) :=
  let name :=
    if first || negb ((hd 0 buf =? 32) || (hd 0 buf =? 9)) then
      match parse_token buf 58 with
      | inl e => inl e
      | inr (name, buf) =>
          if bool_decide (name = []) then inl (-1)
          else
            match skip_blanks (tl buf) with
            | inl e => inl e
            | inr buf => inr (Some name, buf)
            end
      end
    else inr (None, buf) in
  match name with
  | inl e => inl e
  | inr (name, buf) =>
      match get_token_to_eol buf with
      | inl e => inl e
      | inr (value, buf) => inr (PhrHeader name (trim_blanks value), buf)
      end
  end.

(** [room]: how many more headers fit, [max_headers - *num_headers]. *)
Fixpoint parse_headers (room : nat) (first : bool) (buf : bytes)
    : Z + (list phr_header * bytes) :=
  match buf with
  | [] => inl (-2)
  | c :: buf' =>
      if c =? 13 then
        match buf' with
        | [] => inl (-2)
        | c2 :: rest => if c2 =? 10 then inr ([], rest) else inl (-1)
        end
      else if c =? 10 then inr ([], buf')
      else
        match room with
        | O => inl (-1)
        | S room =>
            match parse_header first buf with
            | inl e => inl e
            | inr (h, buf) =>
                match parse_headers room false buf with
                | inl e => inl e
                | inr (hs, rest) => inr (h :: hs, rest)
                end
            end
        end
  end.

(** The empty line some clients send first. *)
Definition skip_first_empty_line (buf : bytes) : Z + bytes :=
  match buf with
  | [] => inl (-2)
  | c :: buf' =>
      if c =? 13 then
        match buf' with
        | [] => inl (-2)
        | c2 :: rest => if c2 =? 10 then inr rest else inl (-1)
        end
      else if c =? 10 then inr buf'
      else inr buf
  end.

(** The end of the request line. *)
Definition parse_request_eol (buf : bytes) : Z + bytes :=
  if hd 0 buf =? 13 then
    match tl buf with
    | [] => inl (-2)
    | c2 :: rest => if c2 =? 10 then inr rest else inl (-1)
    end
  else if hd 0 buf =? 10 then inr (tl buf)
  else inl (-1).

Definition parse_request (max_headers : nat) (buf : bytes) : Z + (phr_request * bytes) :=
  match skip_first_empty_line buf with
  | inl e => inl e
  | inr buf =>
  match parse_token buf 32 with
  | inl e => inl e
  | inr (method, buf) =>
  match skip_spaces (tl buf) with
  | inl e => inl e
  | inr buf =>
  match advance_token buf with
  | inl e => inl e
  | inr (path, buf) =>
  match skip_spaces (tl buf) with
  | inl e => inl e
  | inr buf =>
  if bool_decide (method = []) || bool_decide (path = []) then inl (-1)
  else
  match parse_http_version buf with
  | inl e => inl e
  | inr (minor_version, buf) =>
  match parse_request_eol buf with
  | inl e => inl e
  | inr buf =>
  match parse_headers max_headers true buf with
  | inl e => inl e
  | inr (headers, buf) => inr (PhrRequest method path minor_version headers, buf)
  end end end end end end end end.

(** The number of bytes consumed or the error, and the outputs. *)
Definition phr_parse_request (max_headers : nat) (buf : bytes) : Z * option phr_request :=
  match parse_request max_headers buf with
  | inl r => (r, None)
  | inr (req, rest) => (zlen buf - zlen rest, Some req)
  end.

(** *** Specifications *)

(** The text of a request. *)
Definition render_header (h : bytes * bytes) : bytes := fst h ++ bs ": " ++ snd h ++ [13; 10].
Definition render_request (method path : bytes) (headers : list (bytes * bytes)) : bytes :=
  method ++ [32] ++ path ++ bs " HTTP/1.1" ++ [13; 10] ++ concat (map render_header headers) ++
  [13; 10].

Definition token_ok (t : bytes) : Prop := t <> [] /\ Forall (fun c => token_char c = true) t.
Definition path_ok (p : bytes) : Prop :=
  p <> [] /\ Forall (fun c => c <> 32 /\ control_char c = false) p.

(** A value without control characters or blanks around it. *)
Definition value_ok (v : bytes) : Prop :=
  Forall (fun c => control_char c = false) v /\ trim_blanks v = v /\ hd 0 v <> 32.

Definition header_ok (h : bytes * bytes) : Prop := token_ok (fst h) /\ value_ok (snd h).

Definition parsed_header (h : bytes * bytes) : phr_header := PhrHeader (Some (fst h)) (snd h).

(** ** Theorems *)

Lemma token_chars c : token_char c = true -> c <> 32 /\ c <> 58 /\ c <> 13 /\ c <> 10 /\ c <> 9.
Proof. intros H. split_and!; intros ->; by vm_compute in H. Qed.

Lemma parse_token_ok t next rest :
  Forall (fun c => token_char c = true) t -> next = 32 \/ next = 58 ->
  parse_token (t ++ next :: rest) next = inr (t, next :: rest).
Proof.
  intros Ht Hn. induction Ht as [|c t Hc _ IH]; cbn [app parse_token].
  - by rewrite Z.eqb_refl.
  - destruct (token_chars c Hc) as (? & ? & _). destruct (Z.eqb_spec c next); [lia|].
    rewrite Hc. cbn [negb]. by rewrite IH.
Qed.

Lemma advance_token_ok p rest :
  Forall (fun c => c <> 32 /\ control_char c = false) p ->
  advance_token (p ++ 32 :: rest) = inr (p, 32 :: rest).
Proof.
  induction 1 as [|c p [Hc Hk] _ IH]; cbn [app advance_token]; [done|].
  destruct (Z.eqb_spec c 32); [done|]. rewrite Hk. by rewrite IH.
Qed.

Lemma skip_spaces_ok c rest : c <> 32 -> skip_spaces (c :: rest) = inr (c :: rest).
Proof. intros Hc. cbn [skip_spaces]. by destruct (Z.eqb_spec c 32). Qed.

Lemma get_token_to_eol_ok v rest :
  Forall (fun c => control_char c = false) v -> get_token_to_eol (v ++ 13 :: 10 :: rest) = inr (v, rest).
Proof.
  induction 1 as [|c v Hc _ IH]; cbn [app get_token_to_eol]; [done|]. rewrite Hc. cbn [andb].
  by rewrite IH.
Qed.

Lemma control_hd v : Forall (fun c => control_char c = false) v -> hd 0 v <> 9.
Proof. destruct 1 as [|c v Hc _]; simpl; [lia|]. by intros ->. Qed.

Lemma parse_header_ok first h rest :
  header_ok h -> parse_header first (render_header h ++ rest) = inr (parsed_header h, rest).
Proof.
  destruct h as [name value]. intros [[Hne Hn] (Hv & Ht & Hb)]. unfold parse_header, render_header.
  cbn [fst snd] in *. rewrite <- !app_assoc. cbn [app bs].
  assert (Hhd : (hd 0 (name ++ 58 :: 32 :: value ++ 13 :: 10 :: rest) =? 32) ||
                (hd 0 (name ++ 58 :: 32 :: value ++ 13 :: 10 :: rest) =? 9) = false).
  { destruct Hn as [|c name Hc _]; [done|]. simpl. apply token_chars in Hc. lia. }
  change (Z.of_N (N_of_ascii ":")) with 58. change (Z.of_N (N_of_ascii " ")) with 32.
  rewrite Hhd, orb_true_r, parse_token_ok by auto. rewrite bool_decide_eq_false_2 by done.
  cbn [tl skip_blanks Z.eqb Pos.eqb orb].
  assert (Hsk : skip_blanks (value ++ 13 :: 10 :: rest) = inr (value ++ 13 :: 10 :: rest)).
  { pose proof (control_hd value Hv) as H9. destruct value as [|c value]; [done|]. simpl in *.
    destruct (Z.eqb_spec c 32); [done|]. destruct (Z.eqb_spec c 9); [done|]. done. }
  rewrite Hsk, get_token_to_eol_ok by done. by rewrite Ht.
Qed.

Lemma parse_headers_ok room first hs rest :
  (length hs <= room)%nat -> Forall header_ok hs ->
  parse_headers room first (concat (map render_header hs) ++ 13 :: 10 :: rest) =
    inr (map parsed_header hs, rest).
Proof.
  intros Hl Hhs. revert room first Hl. induction Hhs as [|h hs Hh _ IH]; intros room first Hl.
  { by destruct room. }
  destruct room as [|room]; simpl in Hl; [lia|]. cbn [map concat]. rewrite <- app_assoc.
  assert (exists c q, render_header h ++ concat (map render_header hs) ++ 13 :: 10 :: rest = c :: q /\
            c <> 13 /\ c <> 10) as (c & q & E & H13 & H10).
  { destruct h as [[|c name] v], Hh as [[Hne Hn] _]; [done|]. inversion Hn; subst.
    eexists c, _. split; [done|]. by apply token_chars in H1 as (_ & _ & ? & ? & _). }
  pose proof (parse_header_ok first h (concat (map render_header hs) ++ 13 :: 10 :: rest) Hh) as Hp.
  rewrite E in *. cbn [parse_headers]. destruct (Z.eqb_spec c 13); [done|].
  destruct (Z.eqb_spec c 10); [done|]. rewrite Hp, IH by lia. done.
Qed.

Lemma parse_request_ok max method path headers rest :
  token_ok method -> path_ok path -> Forall header_ok headers -> (length headers <= max)%nat ->
  parse_request max (render_request method path headers ++ rest) =
    inr (PhrRequest method path 1 (map parsed_header headers), rest).
Proof.
  intros [Hm Hmc] [Hp Hpc] Hh Hl. unfold parse_request, render_request. rewrite <- !app_assoc.
  cbn [app].
  set (tail := path ++ bs " HTTP/1.1" ++ 13 :: 10 :: concat (map render_header headers) ++ 13 :: 10 :: rest).
  assert (Hs : skip_first_empty_line (method ++ 32 :: tail) = inr (method ++ 32 :: tail)).
  { destruct Hmc as [|c m Hc _]; [done|]. cbn [app skip_first_empty_line].
    apply token_chars in Hc as (_ & _ & ? & ? & _). destruct (Z.eqb_spec c 13); [done|].
    by destruct (Z.eqb_spec c 10). }
  rewrite Hs, parse_token_ok by auto. cbn [tl]. subst tail.
  change (bs " HTTP/1.1") with (32 :: bs "HTTP/1.1"). cbn [app].
  assert (Hsp : forall q, skip_spaces (path ++ q) = inr (path ++ q)).
  { intros q. destruct Hpc as [|c p [Hc _] _]; [done|]. by apply skip_spaces_ok. }
  rewrite Hsp, advance_token_ok by done. cbn [tl].
  rewrite !bool_decide_eq_false_2 by done. cbn [orb].
  change (bs "HTTP/1.1") with [72; 84; 84; 80; 47; 49; 46; 49]. cbn [app].
  rewrite skip_spaces_ok by done. unfold parse_http_version.
  set (q := concat (map render_header headers) ++ 13 :: 10 :: rest).
  destruct (Z.ltb_spec (zlen (72 :: 84 :: 84 :: 80 :: 47 :: 49 :: 46 :: 49 :: 13 :: 10 :: q)) 9) as [Hlt|_].
  { cbn [length] in Hlt. lia. }
  change (bs "HTTP/1.") with [72; 84; 84; 80; 47; 49; 46].
  cbn -[parse_headers]. subst q. by rewrite parse_headers_ok.
Qed.

(** Nothing is read beyond the buffer: what is left is a suffix of it. *)
Lemma parse_token_suffix buf next t rest : parse_token buf next = inr (t, rest) -> buf = t ++ rest.
Proof.
  revert t. induction buf as [|c buf IH]; intros t H; [done|]. cbn [parse_token] in H.
  repeat case_match; try done; simplify_eq; [done|]. simpl. f_equal. by apply IH.
Qed.
