(* ===== verification/HttpRequest.v ===== *)
(** * Requests of the HTTP server (src/http.c)

    Reading the header block byte by byte, turning it into an [http_request_t],
    and taking the target apart: percent-decoding and the query. Strings are C
    strings; output buffers are addresses of local variables, so the guards on
    them are left out. *)

From S2P Require Import Prelude CLib World Logic PicoHttp.

(** ** Definitions *)

Definition HF_HTTP_HEADER_MAX : Z := 16384.
Definition HF_HTTP_MAX_HEADERS : nat := 64.
Definition HF_HTTP_PATH_MAX : Z := 1024.
Definition HF_HTTP_CONTENT_TYPE_MAX : Z := 128.

Record http_request_t := HttpRequest {
  method : bytes;
  path : bytes;
  query : bytes;
  content_type : bytes;
  content_length : Z;
  has_content_length : bool;
  has_transfer_encoding : bool
}.

Fixpoint http_ascii_starts_with (s prefix : bytes) : bool :=
  match prefix with
  | [] => true
  | c :: prefix =>
      if negb (tolower (hd 0 s) =? tolower c) then false else http_ascii_starts_with (tl s) prefix
  end.

(** The loop of [http_parse_u64]; [None] is its [return 1]. *)
Fixpoint parse_u64_loop (s : bytes) (value : Z) : option Z :=
  match s with
  | [] => Some value
  | ch :: s =>
      if negb (isdigit ch) then None
      else if (UINT64_MAX - (ch - 48)) / 10 <? value then None
      else parse_u64_loop s (u64 (value * 10 + (ch - 48)))
  end.

Definition http_parse_u64 (s : bytes) : option Z :=
  match s with [] => None | _ => parse_u64_loop s 0 end.

(** Does the block end with an empty line? *)
Definition header_end (out : bytes) : bool :=
  (4 <=? zlen out) && bool_decide (drop (length out - 4) out = [13; 10; 13; 10]).

(** The loop of [http_read_header_block]: the result and the block. *)
Fixpoint read_header_loop (fuel : nat) (conn out_cap : Z) (out : bytes) : M (Z * bytes) :=
  match fuel with
  | O => out_of_fuel
  | S fuel =>
      if zlen out + 1 <? out_cap then
        let! (n, ch) := sys_recv conn 1 in
        if n <? 0 then ret (-1, out)
        else if n =? 0 then ret (1, out)
        else
          let out := out ++ ch in
          if header_end out then ret (0, out) else read_header_loop fuel conn out_cap out
      else ret (2, out)
  end.

(** Each turn adds a byte, and there is room for [out_cap - 1]. *)
Definition http_read_header_block (conn out_cap : Z) : M (Z * bytes) :=
  if out_cap <? 5 then ret (1, []) else read_header_loop (Z.to_nat out_cap) conn out_cap [].

Fixpoint http_header_name_equals (header name : bytes) : bool :=
  match name with
  | [] => bool_decide (header = [])
  | n :: name =>
      match header with
      | [] => false
      | c :: header =>
          if negb (tolower c =? tolower n) then false else http_header_name_equals header name
      end
  end.

(** What [dst] receives; [None] is a non-zero result. *)
Definition http_copy_header_value (dst_cap : Z) (src : bytes) : option bytes :=
  if (dst_cap =? 0) || (dst_cap <=? zlen src) then None else Some src.

(** One header; [None] is [return 1]. *)
Definition http_request_header (req : http_request_t) (header : phr_header)
    : option http_request_t :=
  match h_name header with
  | None => None
  | Some name =>
      if http_header_name_equals name (bs "Content-Length") then
        match http_copy_header_value HF_HTTP_CONTENT_TYPE_MAX (h_value header) with
        | None => None
        | Some header_value =>
            match http_parse_u64 header_value with
            | None => None
            | Some content_length =>
                Some (HttpRequest (method req) (path req) (query req) (content_type req)
                        content_length true (has_transfer_encoding req))
            end
        end
      else if http_header_name_equals name (bs "Content-Type") then
        match http_copy_header_value HF_HTTP_CONTENT_TYPE_MAX (h_value header) with
        | None => None
        | Some content_type =>
            Some (HttpRequest (method req) (path req) (query req) content_type
                    (content_length req) (has_content_length req) (has_transfer_encoding req))
        end
      else if http_header_name_equals name (bs "Transfer-Encoding") then
        Some (HttpRequest (method req) (path req) (query req) (content_type req)
                (content_length req) (has_content_length req) true)
      else Some req
  end.

Fixpoint http_request_headers (req : http_request_t) (headers : list phr_header)
    : option http_request_t :=
  match headers with
  | [] => Some req
  | header :: headers =>
      match http_request_header req header with
      | None => None
      | Some req => http_request_headers req headers
      end
  end.

(** The request, or the non-zero result. *)
Definition http_parse_request (header_block : bytes) : Z + http_request_t :=
  let '(parse_res, parsed) := phr_parse_request HF_HTTP_MAX_HEADERS (cstr header_block) in
  match parsed with
  | None => inl 1
  | Some parsed =>
      if parse_res <=? 0 then inl 1
      else if negb (r_minor_version parsed =? 1) then inl 2
      else if (8 <=? zlen (r_method parsed)) || (HF_HTTP_PATH_MAX <=? zlen (r_path parsed)) then
        inl 1
      else
        let req := HttpRequest (r_method parsed) (r_path parsed) [] [] 0 false false in
        match http_request_headers req (r_headers parsed) with
        | None => inl 1
        | Some req =>
            match strchr (path req) 63 with
            | None => inr req
            | Some i =>
                let query := drop (S i) (path req) in
                if HF_HTTP_PATH_MAX <=? strlen query then inl 1
                else
                  inr (HttpRequest (method req) (take i (path req)) query (content_type req)
                         (content_length req) (has_content_length req)
                         (has_transfer_encoding req))
            end
        end
  end.

(** The value of a hexadecimal digit. *)
Definition hex_nibble (c : Z) : Z := if isdigit c then c - 48 else 10 + tolower c - 97.

(** What [out] receives before its NUL, from position [oi] on; [None] is a
    non-zero result. *)
Fixpoint decode_name_loop (encoded : bytes) (oi out_cap : Z) : option bytes :=
  match encoded with
  | [] => Some []
  | ch :: encoded =>
      if out_cap <=? oi + 1 then None
      else if ch =? 37 then
        match encoded with
        | hi :: lo :: encoded =>
            if negb (isxdigit hi) || negb (isxdigit lo) then None
            else
              (fun out => u8 (Z.lor (Z.shiftl (hex_nibble hi) 4) (hex_nibble lo)) :: out) <$>
                decode_name_loop encoded (oi + 1) out_cap
        | _ => None
        end
      else (fun out => ch :: out) <$> decode_name_loop encoded (oi + 1) out_cap
  end.

Definition http_decode_name (encoded : bytes) (out_cap : Z) : option bytes :=
  if out_cap =? 0 then None else decode_name_loop encoded 0 out_cap.

(** One entry of the query: its name and its value. *)
Definition query_entry (entry : bytes) : bytes * bytes :=
  match strchr entry 61 with
  | Some eq => (take eq entry, drop (S eq) entry)
  | None => (entry, [])
  end.

(** The loop of [http_query_get_value]: the result and [out]; [None]: no fuel. *)
Fixpoint query_loop (fuel : nat) (query key : bytes) (out_cap : Z) : option (Z * bytes) :=
  match fuel with
  | O => None
  | S fuel =>
      match query with
      | [] => Some (1, [])
      | _ =>
          let amp := strchr query 38 in
          let '(name, value) :=
            query_entry (match amp with Some amp => take amp query | None => query end) in
          if bool_decide (name = key) then
            if out_cap <=? zlen value then Some (2, []) else Some (0, value)
          else
            match amp with
            | None => Some (1, [])
            | Some amp => query_loop fuel (drop (S amp) query) key out_cap
            end
      end
  end.

(** Each turn drops an entry and its '&'. *)
Definition http_query_get_value (query key : bytes) (out_cap : Z) : option (Z * bytes) :=
  if out_cap =? 0 then Some (1, []) else query_loop (S (length query)) query key out_cap.

(** *** Specifications *)

(** A header block: it ends with an empty line, and nothing shorter does. *)
Definition block_ok (hdr : bytes) : Prop :=
  header_end hdr = true /\ forall p q, hdr = p ++ q -> q <> [] -> header_end p = false.

(** The last value of a header, names compared without regard to case. *)
Definition last_value (name : bytes) (headers : list (bytes * bytes)) : option bytes :=
  last (map snd (filter (fun h => http_header_name_equals (fst h) name = true) headers)).

(** The entries of a query string. *)
Fixpoint query_entries (fuel : nat) (query : bytes) : list (bytes * bytes) :=
  match fuel, query with
  | S fuel, _ :: _ =>
      match strchr query 38 with
      | None => [query_entry query]
      | Some amp => query_entry (take amp query) :: query_entries fuel (drop (S amp) query)
      end
  | _, _ => []
  end.

(** Percent-encoding of one byte, and of every byte that is not a letter or digit. *)
Definition percent_encode_char (keep : Z -> bool) (c : Z) : bytes :=
  if keep c then [c] else [37; nth (Z.to_nat (c / 16)) (bs "0123456789ABCDEF") 0;
                           nth (Z.to_nat (c mod 16)) (bs "0123456789ABCDEF") 0].
Definition percent_encode (keep : Z -> bool) (s : bytes) : bytes :=
  concat (map (percent_encode_char keep) s).

(** ** Theorems *)

(** *** Reading the block *)

Lemma read_header_loop_spec fuel conn cap out w :
  cap <= zlen out + Z.of_nat fuel -> (1 <= fuel)%nat ->
  wp (read_header_loop fuel conn cap out) (fun '(r, out') w' =>
    only_net w w' /\ n_out (w_net w') = n_out (w_net w) /\
    exists d, n_in (w_net w) = d ++ n_in (w_net w') /\ out' = out ++ d /\
      (r = 0 \/ r = 1 \/ r = -1 \/ r = 2) /\
      (r = 0 -> header_end out' = true /\ d <> [] /\ zlen out' < cap /\
         forall p q, d = p ++ q -> p <> [] -> q <> [] -> header_end (out ++ p) = false) /\
      (w_faults w = [] -> forall e rest, n_in (w_net w) = e ++ rest -> e <> [] ->
         header_end (out ++ e) = true -> zlen (out ++ e) < cap ->
         (forall p q, e = p ++ q -> p <> [] -> q <> [] -> header_end (out ++ p) = false) ->
         r = 0 /\ d = e)) w.
Proof.
  revert out w. induction fuel as [|fuel IH]; intros out w Hf H1; [lia|]. cbn [read_header_loop].
  wp_step; cycle 1.
  { wp_step. split; [done|]. split; [done|]. exists []. split_and!; [done|by rewrite app_nil_r|auto|done|].
    intros _ e rest _ He _ Hl. rewrite length_app in Hl. destruct e; simpl in *; [done|lia]. }
  wp_step. apply wp_sys_recv; [lia| |].
  { intros e w1 Hf1 Hn1 _ Hlt. change (-1 <? 0) with true. cbv iota. wp_step.
    split; [done|]. split; [by rewrite Hn1|]. exists [].
    split_and!; [by rewrite Hn1|by rewrite app_nil_r|auto|done|].
    intros E. apply no_faults_flen in E. lia. }
  intros d rest w1 Hf1 Hin Hnet Hd H0. destruct d as [|c d].
  { cbn [length]. change (Z.of_nat 0 <? 0) with false. change (Z.of_nat 0 =? 0) with true. cbv iota.
    wp_step. split; [done|]. split; [by rewrite Hnet|]. exists [].
    split_and!; [by rewrite Hin, Hnet|by rewrite app_nil_r|auto|done|].
    intros E e r Hin' He. specialize (H0 E). rewrite Hin' in H0. destruct e; simpl in H0; [done|lia]. }
  destruct d as [|? d]; [|simpl in Hd; lia]. change (zlen [c] <? 0) with false.
  change (zlen [c] =? 0) with false. cbv iota zeta.
  destruct (header_end (out ++ [c])) eqn:Hend.
  { wp_step. split; [done|]. split; [by rewrite Hnet|]. exists [c].
    split_and!; [by rewrite Hin, Hnet|done|auto| |].
    - intros _. split_and!; [done|done|len_lia|]. intros p q E Hp Hq.
      destruct p as [|x [|y p]]; [done| |by destruct q]. by destruct q.
    - intros _ e r Hin' He _ _ Hmin. split; [done|]. rewrite Hin in Hin'.
      destruct e as [|x e]; [done|]. injection Hin' as -> _. destruct e as [|y e]; [done|].
      specialize (Hmin [x] (y :: e) eq_refl ltac:(done) ltac:(done)). congruence. }
  eapply wp_mono; [apply IH; [len_lia|]|].
  { destruct fuel; [|lia]. apply Z.ltb_lt in Heqb. simpl in Hf. lia. }
  intros [r out'] w2 (Hf2 & Ho2 & d & Hin2 & -> & Hr & Hok & Hlive).
  assert (Hf3 : only_net w w2) by (by etrans). split; [done|]. split; [by rewrite Ho2, Hnet|].
  rewrite Hnet in Hin2. simpl in Hin2. exists ([c] ++ d).
  split_and!; [by rewrite Hin, Hin2|by rewrite app_assoc|done| |].
  - intros Hr0. destruct (Hok Hr0) as (He & Hne & Hl & Hmin). split_and!; [done|done|done|].
    intros p q E Hp Hq. destruct p as [|x p]; [done|]. injection E as -> E.
    destruct p as [|y p]; [done|]. change (x :: y :: p) with ([x] ++ y :: p).
    rewrite app_assoc. by apply (Hmin _ q).
  - intros E e rest' Hin' He Hee Hl Hmin. rewrite Hin in Hin'. destruct e as [|x e]; [done|].
    injection Hin' as -> Hin'. assert (e <> []) as Hne by (intros ->; congruence).
    assert (E1 : w_faults w1 = []) by (eapply only_io_no_faults; [apply Hf1|done]).
    change (x :: e) with ([x] ++ e) in *. rewrite app_assoc in Hee, Hl.
    destruct (Hlive E1 e rest') as [-> ->]; try done; [by rewrite Hnet|].
    intros p q -> Hp Hq. rewrite <- app_assoc. by apply (Hmin ([x] ++ p) q).
Qed.

Lemma http_read_header_block_spec conn cap w :
  5 <= cap ->
  wp (http_read_header_block conn cap) (fun '(r, hdr) w' =>
    only_net w w' /\ n_out (w_net w') = n_out (w_net w) /\
    n_in (w_net w) = hdr ++ n_in (w_net w') /\
    (r = 0 \/ r = 1 \/ r = -1 \/ r = 2) /\
    (r = 0 -> block_ok hdr /\ zlen hdr < cap) /\
    (w_faults w = [] -> forall e rest, n_in (w_net w) = e ++ rest -> block_ok e -> zlen e < cap ->
       r = 0 /\ hdr = e /\ n_in (w_net w') = rest)) w.
Proof.
  intros Hcap. unfold http_read_header_block. destruct (Z.ltb_spec cap 5); [lia|].
  eapply wp_mono; [apply read_header_loop_spec; simpl; lia|].
  intros [r hdr] w' (Hf & Ho & d & Hin & -> & Hr & Hok & Hlive). cbn [app] in *.
  split_and!; try done.
  - intros Hr0. destruct (Hok Hr0) as (He & Hne & Hl & Hmin). split; [|done]. split; [done|].
    intros p q E Hq. destruct p as [|x p]; [done|]. by apply (Hmin (x :: p) q).
  - intros E e rest Hin' [He Hmin] Hl.
    destruct (Hlive E e rest) as [-> ->]; try done.
    + by intros ->.
    + intros p q Ep _ Hq. by apply (Hmin p q).
    + split_and!; [done|done|]. rewrite Hin in Hin'. by apply app_inv_head in Hin'.
Qed.

(** *** Blocks of lines *)

Definition line_ok (l : bytes) : Prop := l <> [] /\ Forall (fun c => c <> 13 /\ c <> 10) l.
Definition crlf : bytes := [13; 10].
Definition block_of (lines : list bytes) : bytes := concat (map (fun l => l ++ crlf) lines) ++ crlf.

(** The first place where two strings overlap. *)
Lemma app_split (a b c d : bytes) :
  a ++ b = c ++ d -> (exists e, c = a ++ e /\ b = e ++ d) \/ (exists x e, a = c ++ x :: e /\ d = x :: e ++ b).
Proof.
  revert c. induction a as [|x a IH]; intros c H.
  - left. by exists c.
  - destruct c as [|y c].
    + right. by exists x, a.
    + injection H as -> H. destruct (IH c H) as [(e & -> & ->)|(z & e & -> & ->)].
      * left. by exists e.
      * right. by exists z, e.
Qed.

Lemma block_of_end lines p q :
  Forall line_ok lines -> block_of lines = p ++ [13; 10; 13; 10] ++ q -> q = [].
Proof.
  intros Hl. revert p. induction Hl as [|l lines [Hne Hc] Hls IH]; intros p H.
  { apply (f_equal length) in H. unfold block_of in H. rewrite !length_app in H. simpl in H. lia. }
  assert (Hb : block_of (l :: lines) = l ++ 13 :: 10 :: block_of lines).
  { unfold block_of. cbn [map concat]. by rewrite <- !app_assoc. }
  rewrite Hb in H. apply app_split in H as [(e & -> & H)|(x & e & -> & H)].
  - destruct e as [|x [|y e]].
    + simpl in H. injection H as H. destruct Hls as [|l2 ls [Hne2 Hc2] _].
      * by injection H.
      * unfold block_of in H. cbn [map concat] in H. destruct l2 as [|z l2]; [done|].
        injection H as -> _. inversion Hc2 as [|? ? [? _] _]; subst. done.
    + done.
    + injection H as <- <- H. by apply (IH e).
  - injection H as <- _. apply Forall_app in Hc as [_ Hc]. inversion Hc as [|? ? [? _] _]; subst. done.
Qed.

Lemma header_end_app p : header_end (p ++ [13; 10; 13; 10]) = true.
Proof.
  unfold header_end. rewrite length_app. simpl length. rewrite Nat.add_sub, drop_app_length.
  rewrite bool_decide_eq_true_2 by done. rewrite andb_true_r. apply Z.leb_le. lia.
Qed.

Lemma header_end_inv p : header_end p = true -> exists p', p = p' ++ [13; 10; 13; 10].
Proof.
  unfold header_end. intros [_ H%bool_decide_eq_true]%andb_prop. exists (take (length p - 4) p).
  rewrite <- H. symmetry. apply take_drop.
Qed.

Lemma block_of_ok lines : lines <> [] -> Forall line_ok lines -> block_ok (block_of lines).
Proof.
  intros Hne Hl. split.
  - destruct (exists_last Hne) as (ls & l & ->).
    assert (E : block_of (ls ++ [l]) = (concat (map (fun l => l ++ crlf) ls) ++ l) ++ [13; 10; 13; 10]).
    { unfold block_of, crlf. rewrite map_app, concat_app. cbn [map concat].
      rewrite app_nil_r, <- !app_assoc. done. }
    rewrite E. apply header_end_app.
  - intros p q E Hq. apply not_true_is_false. intros (p' & ->)%header_end_inv.
    rewrite <- app_assoc in E. by apply block_of_end in E.
Qed.

(** The lines of a rendered request. *)
Lemma render_request_lines m p hs :
  render_request m p hs =
    block_of ((m ++ [32] ++ p ++ bs " HTTP/1.1") :: map (fun h => fst h ++ bs ": " ++ snd h) hs).
Proof.
  assert (E : map render_header hs =
              map (fun l => l ++ crlf) (map (fun h => fst h ++ bs ": " ++ snd h) hs)).
  { rewrite map_map. apply map_ext. intros [n v]. unfold render_header, crlf.
    by rewrite <- !app_assoc. }
  unfold render_request, block_of. rewrite E. unfold crlf. cbn [map concat].
  by rewrite <- !app_assoc.
Qed.

Lemma render_request_block m p hs :
  token_ok m -> path_ok p -> Forall header_ok hs -> block_ok (render_request m p hs).
Proof.
  intros [Hm Hmc] [Hp Hpc] Hh. rewrite render_request_lines. apply block_of_ok; [done|].
  assert (Htok : forall t, Forall (fun c => token_char c = true) t -> Forall (fun c => c <> 13 /\ c <> 10) t).
  { intros t Ht. eapply Forall_impl; [done|]. intros c Hc. apply token_chars in Hc. naive_solver. }
  assert (Hctl : forall c, control_char c = false -> c <> 13 /\ c <> 10).
  { unfold control_char. intros c Hc. lia. }
  constructor.
  - split; [by destruct m|]. rewrite !Forall_app. split_and!.
    + by apply Htok.
    + by repeat constructor.
    + eapply Forall_impl; [done|]. intros c [_ Hc]. by apply Hctl.
    + by repeat constructor.
  - apply Forall_fmap. eapply Forall_impl; [done|]. intros [n v] [[Hn Hnc] (Hv & _)]. cbn [fst snd] in *.
    split; [by destruct n|]. rewrite !Forall_app. split_and!.
    + by apply Htok.
    + by repeat constructor.
    + eapply Forall_impl; [done|]. intros c Hc. by apply Hctl.
Qed.

Lemma render_request_chars m p hs :
  token_ok m -> path_ok p -> Forall header_ok hs -> Forall is_byte (m ++ p) ->
  Forall (fun h => Forall is_byte (fst h ++ snd h)) hs -> Forall is_char (render_request m p hs).
Proof.
  intros [_ Hmc] [_ Hpc] Hh Hb Hhb. unfold render_request. apply Forall_app in Hb as [Hbm Hbp].
  assert (Htok : forall t, Forall is_byte t -> Forall (fun c => token_char c = true) t -> Forall is_char t).
  { intros t Hb Ht. apply Forall_and in Ht; [|exact Hb] || (apply Forall_forall; intros c Hc;
      rewrite Forall_forall in Hb, Ht; specialize (Hb c Hc); specialize (Ht c Hc);
      unfold is_byte, is_char in *; destruct (decide (c = 0)) as [->|]; [by vm_compute in Ht|lia]). }
  assert (Hctl : forall t, Forall is_byte t -> Forall (fun c => control_char c = false) t -> Forall is_char t).
  { intros t Hb Ht. apply Forall_forall; intros c Hc. rewrite Forall_forall in Hb, Ht.
    specialize (Hb c Hc). specialize (Ht c Hc). unfold is_byte, is_char, control_char in *. lia. }
  assert (Hlit : forall l, forallb (fun b => (0 <? b) && (b <? 256)) l = true -> Forall is_char l).
  { intros l Hl. apply Forall_forall. intros c Hc%list_elem_of_In. rewrite forallb_forall in Hl.
    specialize (Hl c Hc). unfold is_char. lia. }
  rewrite !Forall_app. split_and!; try (by apply Hlit); try (by apply Htok).
  - apply Hctl; [done|]. eapply Forall_impl; [exact Hpc|]. by intros c [_ ?].
  - apply Forall_concat, Forall_fmap. rewrite Forall_forall in Hh, Hhb. apply Forall_forall.
    intros [n v] Hin. specialize (Hh _ Hin). specialize (Hhb _ Hin).
    destruct Hh as [[_ Hn] (Hv & _)]. cbn [fst snd] in *. apply Forall_app in Hhb as [Hbn Hbv].
    unfold render_header, compose. cbn [fst snd]. rewrite !Forall_app.
    split_and!; [by apply Htok|by apply Hlit|by apply Hctl|by apply Hlit].
Qed.

(** *** Numbers *)

Lemma parse_u64_loop_spec s v :
  0 <= v < 2 ^ 64 ->
  parse_u64_loop s v =
    if forallb isdigit s && (fold_left (fun v c => v * 10 + (c - 48)) s v <? 2 ^ 64)
    then Some (fold_left (fun v c => v * 10 + (c - 48)) s v) else None.
Proof.
  revert v. induction s as [|c s IH]; intros v Hv; cbn [parse_u64_loop forallb fold_left].
  { destruct (Z.ltb_spec v (2 ^ 64)); [done|lia]. }
  destruct (isdigit c) eqn:Hc; [|done]. cbn [negb andb]. unfold isdigit in Hc.
  destruct (Z.ltb_spec ((UINT64_MAX - (c - 48)) / 10) v) as [Hlt|Hge].
  - assert (Hbig : 2 ^ 64 <= v * 10 + (c - 48)) by (unfold UINT64_MAX in *; lia).
    assert (Hmono : forall s x, 2 ^ 64 <= x -> forallb isdigit s = true ->
              2 ^ 64 <= fold_left (fun v c => v * 10 + (c - 48)) s x).
    { clear. induction s as [|c s IH]; intros x Hx Hs; [done|]. cbn [fold_left forallb] in *.
      apply andb_prop in Hs as [Hc Hs]. unfold isdigit in Hc. apply IH; [lia|done]. }
    destruct (forallb isdigit s) eqn:Hs; [|done]. specialize (Hmono s _ Hbig Hs). cbn [andb].
    destruct (Z.ltb_spec (fold_left (fun v c => v * 10 + (c - 48)) s (v * 10 + (c - 48))) (2 ^ 64));
      [lia|done].
  - rewrite u64_small by (unfold UINT64_MAX in *; lia). apply IH. unfold UINT64_MAX in *. lia.
Qed.

Lemma http_parse_u64_spec s :
  http_parse_u64 s =
    if negb (bool_decide (s = [])) && forallb isdigit s && (dec_value s <? 2 ^ 64)
    then Some (dec_value s) else None.
Proof.
  unfold http_parse_u64. destruct s as [|c s]; [done|]. rewrite bool_decide_eq_false_2 by done.
  cbn [negb andb]. by rewrite parse_u64_loop_spec.
Qed.

Lemma http_parse_u64_udec n : 0 <= n < 2 ^ 64 -> http_parse_u64 (udec n) = Some n.
Proof.
  intros Hn. destruct (udec_spec n ltac:(lia)) as (H1 & H2 & H3). rewrite http_parse_u64_spec.
  rewrite bool_decide_eq_false_2 by done.
  assert (forallb isdigit (udec n) = true) as ->.
  { apply forallb_forall. intros c Hc%list_elem_of_In. rewrite Forall_forall in H2. by apply H2. }
  rewrite H3. cbn [negb andb]. destruct (Z.ltb_spec n (2 ^ 64)); [done|lia].
Qed.

(** *** Headers *)

(** What a header stands for in the request. *)
Definition header_step (req : http_request_t) (h : bytes * bytes) : http_request_t :=
  if http_header_name_equals (fst h) (bs "Content-Length") then
    HttpRequest (method req) (path req) (query req) (content_type req)
      (dec_value (snd h)) true (has_transfer_encoding req)
  else if http_header_name_equals (fst h) (bs "Content-Type") then
    HttpRequest (method req) (path req) (query req) (snd h)
      (content_length req) (has_content_length req) (has_transfer_encoding req)
  else if http_header_name_equals (fst h) (bs "Transfer-Encoding") then
    HttpRequest (method req) (path req) (query req) (content_type req)
      (content_length req) (has_content_length req) true
  else req.

(** The values of the three headers the server reads are acceptable. *)
Definition header_value_ok (h : bytes * bytes) : Prop :=
  (http_header_name_equals (fst h) (bs "Content-Length") = true ->
     snd h <> [] /\ forallb isdigit (snd h) = true /\ dec_value (snd h) < 2 ^ 64 /\
     zlen (snd h) < HF_HTTP_CONTENT_TYPE_MAX) /\
  (http_header_name_equals (fst h) (bs "Content-Type") = true ->
     zlen (snd h) < HF_HTTP_CONTENT_TYPE_MAX).

Lemma http_copy_header_value_fits v :
  zlen v < HF_HTTP_CONTENT_TYPE_MAX -> http_copy_header_value HF_HTTP_CONTENT_TYPE_MAX v = Some v.
Proof.
  intros H. unfold http_copy_header_value. change (HF_HTTP_CONTENT_TYPE_MAX =? 0) with false.
  destruct (Z.leb_spec HF_HTTP_CONTENT_TYPE_MAX (zlen v)); [lia|done].
Qed.

Lemma header_names_differ n :
  http_header_name_equals n (bs "Content-Length") = true ->
  http_header_name_equals n (bs "Content-Type") = false.
Proof.
  assert (Hl : forall a b, http_header_name_equals a b = true -> length a = length b).
  { clear. induction a as [|c a IH]; intros [|x b] H; cbn [http_header_name_equals] in H; try done.
    destruct (negb (tolower c =? tolower x)); [done|]. simpl. by rewrite (IH b). }
  intros H1. apply not_true_is_false. intros H2. apply Hl in H1, H2. rewrite H1 in H2. done.
Qed.

Lemma http_request_header_ok req h :
  header_value_ok h -> http_request_header req (parsed_header h) = Some (header_step req h).
Proof.
  destruct h as [n v]. intros [H1 H2]. unfold http_request_header, parsed_header, header_step.
  cbn [fst snd h_name h_value] in *.
  destruct (http_header_name_equals n (bs "Content-Length")) eqn:E1.
  { destruct (H1 eq_refl) as (Hne & Hd & Hlt & Hl). rewrite http_copy_header_value_fits by done.
    rewrite http_parse_u64_spec, bool_decide_eq_false_2, Hd by done. cbn [negb andb].
    by destruct (Z.ltb_spec (dec_value v) (2 ^ 64)); [|lia]. }
  destruct (http_header_name_equals n (bs "Content-Type")) eqn:E2.
  { rewrite http_copy_header_value_fits by auto. done. }
  by destruct (http_header_name_equals n (bs "Transfer-Encoding")).
Qed.

Lemma http_request_headers_ok req hs :
  Forall header_value_ok hs ->
  http_request_headers req (map parsed_header hs) = Some (fold_left header_step hs req).
Proof.
  intros H. revert req. induction H as [|h hs Hh _ IH]; intros req; [done|].
  cbn [map http_request_headers fold_left]. rewrite http_request_header_ok by done. apply IH.
Qed.

Lemma last_value_snoc name hs h :
  last_value name (hs ++ [h]) =
    if http_header_name_equals (fst h) name then Some (snd h) else last_value name hs.
Proof.
  unfold last_value. rewrite filter_app, map_app.
  destruct (http_header_name_equals (fst h) name) eqn:E.
  - rewrite (filter_cons_True _ h []) by done. cbn [filter list_filter map]. by rewrite last_snoc.
  - rewrite (filter_cons_False _ h []) by (by rewrite E). cbn [filter list_filter map].
    by rewrite app_nil_r.
Qed.

(** All headers together: of each of the three the last one counts. *)
Lemma header_steps m p q hs :
  fold_left header_step hs (HttpRequest m p q [] 0 false false) =
    HttpRequest m p q (default [] (last_value (bs "Content-Type") hs))
      (from_option dec_value 0 (last_value (bs "Content-Length") hs))
      (bool_decide (last_value (bs "Content-Length") hs <> None))
      (bool_decide (last_value (bs "Transfer-Encoding") hs <> None)).
Proof.
  induction hs as [|h hs IH] using rev_ind; [done|]. rewrite fold_left_app, IH. cbn [fold_left].
  rewrite !last_value_snoc. unfold header_step.
  assert (Hdiff : forall n, http_header_name_equals n (bs "Transfer-Encoding") = true ->
            http_header_name_equals n (bs "Content-Length") = false /\
            http_header_name_equals n (bs "Content-Type") = false).
  { intros n H. assert (Hc : forall a b, http_header_name_equals a b = true ->
      tolower (hd 0 a) = tolower (hd 0 b)).
    { clear. intros [|c a] [|x b] H; cbn [http_header_name_equals] in H; try done.
      destruct (Z.eqb_spec (tolower c) (tolower x)); done. }
    apply Hc in H. split; apply not_true_is_false; intros H2; apply Hc in H2; rewrite H in H2; done. }
  destruct (http_header_name_equals (fst h) (bs "Content-Length")) eqn:E1.
  - rewrite (header_names_differ _ E1).
    destruct (http_header_name_equals (fst h) (bs "Transfer-Encoding")) eqn:E3; [|done].
    apply Hdiff in E3. naive_solver congruence.
  - destruct (http_header_name_equals (fst h) (bs "Content-Type")) eqn:E2.
    + destruct (http_header_name_equals (fst h) (bs "Transfer-Encoding")) eqn:E3; [|done].
      apply Hdiff in E3. naive_solver congruence.
    + by destruct (http_header_name_equals (fst h) (bs "Transfer-Encoding")).
Qed.

(** A request that fits its struct: each [char] array holds the text and its NUL,
    and the length of the body is a [uint64_t]. *)
Record request_typed (req : http_request_t) : Prop := {
  rt_method : zlen (method req) < 8;
  rt_path : zlen (path req) < HF_HTTP_PATH_MAX;
  rt_query : zlen (query req) < HF_HTTP_PATH_MAX;
  rt_content_type : zlen (content_type req) < HF_HTTP_CONTENT_TYPE_MAX;
  rt_content_length : 0 <= content_length req < 2 ^ 64
}.

(** The request that a rendered one is. *)
Definition request_of (m p q : bytes) (hs : list (bytes * bytes)) : http_request_t :=
  HttpRequest m p q (default [] (last_value (bs "Content-Type") hs))
    (from_option dec_value 0 (last_value (bs "Content-Length") hs))
    (bool_decide (last_value (bs "Content-Length") hs <> None))
    (bool_decide (last_value (bs "Transfer-Encoding") hs <> None)).

(** The target of a request: path and query. *)
Definition target_of (p q : bytes) : bytes :=
  match q with [] => p | _ => p ++ [63] ++ q end.

(** A request as a browser or curl writes it. *)
Record request_ok (m p q : bytes) (hs : list (bytes * bytes)) : Prop := {
  rq_method : token_ok m /\ zlen m < 8 /\ Forall is_byte m;
  rq_path : path_ok (target_of p q) /\ zlen (target_of p q) < HF_HTTP_PATH_MAX /\
            Forall is_byte (target_of p q) /\ 63 ∉ p;
  rq_headers : Forall header_ok hs /\ Forall header_value_ok hs /\
               (length hs <= HF_HTTP_MAX_HEADERS)%nat /\
               Forall (fun h => Forall is_byte (fst h ++ snd h)) hs
}.

Lemma render_request_cstr m p q hs rest :
  request_ok m p q hs ->
  cstr (render_request m (target_of p q) hs ++ 0 :: rest) = render_request m (target_of p q) hs.
Proof.
  intros [(Hm & _ & Hmb) (Hp & _ & Hpb & _) (Hh & _ & _ & Hhb)]. apply cstr_app_nul.
  apply render_request_chars; try done. by apply Forall_app.
Qed.

Lemma http_parse_request_ok m p q hs rest :
  request_ok m p q hs ->
  http_parse_request (render_request m (target_of p q) hs ++ 0 :: rest) = inr (request_of m p q hs).
Proof.
  intros Hok. pose proof (render_request_cstr m p q hs rest Hok) as Hc.
  destruct Hok as [(Hm & Hml & _) (Hp & Hpl & _ & Hq) (Hh & Hv & Hl & _)].
  unfold http_parse_request. rewrite Hc. unfold phr_parse_request.
  rewrite <- (app_nil_r (render_request m (target_of p q) hs)), parse_request_ok by done.
  cbn [length r_minor_version r_method r_path r_headers].
  assert (0 < zlen (render_request m (target_of p q) hs ++ []) - Z.of_nat 0).
  { unfold render_request. rewrite !length_app. simpl. lia. }
  destruct (Z.leb_spec (zlen (render_request m (target_of p q) hs ++ []) - Z.of_nat 0) 0); [lia|].
  change (negb (1 =? 1)) with false. cbv iota.
  destruct (Z.leb_spec 8 (zlen m)); [lia|].
  destruct (Z.leb_spec HF_HTTP_PATH_MAX (zlen (target_of p q))); [lia|]. cbn [orb].
  rewrite http_request_headers_ok, header_steps by done. cbn [path method content_type].
  unfold request_of. destruct q as [|c q].
  - cbn [target_of]. assert (strchr p 63 = None) as -> by (by apply strchr_None). done.
  - cbn [target_of] in *. change ([63] ++ c :: q) with (63 :: c :: q) in *.
    rewrite strchr_app by done.
    rewrite take_app_length, drop_app_ge by lia.
    replace (S (length p) - length p)%nat with 1%nat by lia. cbn [drop].
    unfold strlen. rewrite ?drop_0.
    destruct (Z.leb_spec HF_HTTP_PATH_MAX (zlen (c :: q))); [len_lia|]. done.
Qed.

Lemma http_parse_u64_range s n : http_parse_u64 s = Some n -> 0 <= n < 2 ^ 64.
Proof.
  rewrite http_parse_u64_spec. destruct (bool_decide (s = [])); [done|]. cbn [negb andb].
  destruct (forallb isdigit s) eqn:Hd; [|done]. cbn [andb].
  destruct (Z.ltb_spec (dec_value s) (2 ^ 64)); [|done]. intros [= <-]. split; [|done].
  apply dec_value_nonneg, Forall_forall. intros c Hc%list_elem_of_In. rewrite forallb_forall in Hd. auto.
Qed.

(** What the fields of a request can hold: a buffer of the struct keeps its text
    and the NUL, the body's length is a [uint64_t]. *)
Lemma http_request_header_typed r h r' :
  http_request_header r h = Some r' -> request_typed r -> request_typed r'.
Proof.
  unfold http_request_header. destruct (h_name h); [|done].
  assert (Hcopy : forall v, http_copy_header_value HF_HTTP_CONTENT_TYPE_MAX (h_value h) = Some v ->
            zlen v < HF_HTTP_CONTENT_TYPE_MAX).
  { intros v. unfold http_copy_header_value. change (HF_HTTP_CONTENT_TYPE_MAX =? 0) with false.
    cbn [orb]. destruct (Z.leb_spec HF_HTTP_CONTENT_TYPE_MAX (zlen (h_value h))); naive_solver. }
  destruct (http_header_name_equals l (bs "Content-Length")).
  { destruct (http_copy_header_value _ _); [|done].
    destruct (http_parse_u64 l0) eqn:E; [|done]. intros [= <-] [].
    apply http_parse_u64_range in E. by constructor. }
  destruct (http_header_name_equals l (bs "Content-Type")).
  { destruct (http_copy_header_value _ _); [|done]. intros [= <-] []. constructor; auto. }
  destruct (http_header_name_equals l (bs "Transfer-Encoding")); intros [= <-] []; by constructor.
Qed.

Lemma http_request_headers_typed hs r r' :
  http_request_headers r hs = Some r' -> request_typed r -> request_typed r'.
Proof.
  revert r. induction hs as [|h hs IH]; intros r H; [by injection H as <-|].
  cbn [http_request_headers] in H. destruct (http_request_header r h) as [r1|] eqn:E; [|done].
  intros H0. eauto using http_request_header_typed.
Qed.

Lemma http_parse_request_typed hdr req :
  http_parse_request hdr = inr req -> request_typed req /\ 63 ∉ path req.
Proof.
  unfold http_parse_request. destruct (phr_parse_request _ _) as [res [p|]]; [|done].
  destruct (res <=? 0); [done|]. destruct (negb (r_minor_version p =? 1)); [done|].
  destruct (Z.leb_spec 8 (zlen (r_method p))) as [|Hm]; [done|]. cbn [orb].
  destruct (Z.leb_spec HF_HTTP_PATH_MAX (zlen (r_path p))) as [|Hp]; [done|].
  destruct (http_request_headers _ _) as [r|] eqn:E; [|done].
  apply http_request_headers_typed in E as []; [|by constructor].
  destruct (strchr (path r) 63) as [i|] eqn:Eq.
  - apply strchr_Some in Eq as (_ & Hn & Hi). unfold strlen.
    destruct (Z.leb_spec HF_HTTP_PATH_MAX (zlen (drop (S i) (path r)))); [done|].
    intros [= <-]. split; [|done]. constructor; cbn [method path query content_type content_length]; try done.
    len_lia.
  - apply strchr_None in Eq. intros [= <-]. by split.
Qed.

(** The length of the body of any accepted request. *)
Lemma http_parse_request_length hdr req :
  http_parse_request hdr = inr req -> 0 <= content_length req.
Proof. intros [[_ _ _ _ ?] _]%http_parse_request_typed. lia. Qed.

(** *** Percent-decoding *)

Lemma decode_name_loop_length enc oi cap out :
  decode_name_loop enc oi cap = Some out -> oi < cap -> oi + zlen out < cap.
Proof.
  revert enc oi. induction out as [|x out IH]; intros enc oi H Ho; [simpl; lia|].
  destruct enc as [|c enc]; [done|]. cbn [decode_name_loop] in H.
  destruct (Z.leb_spec cap (oi + 1)); [done|]. destruct (c =? 37).
  - destruct enc as [|hi [|lo enc]]; try done. destruct (negb (isxdigit hi) || negb (isxdigit lo)); [done|].
    destruct (decode_name_loop enc (oi + 1) cap) as [o|] eqn:E; [|done]. injection H as _ <-.
    apply IH in E; len_lia.
  - destruct (decode_name_loop enc (oi + 1) cap) as [o|] eqn:E; [|done]. injection H as _ <-.
    apply IH in E; len_lia.
Qed.

Lemma percent_hex x :
  0 <= x < 16 ->
  let c := nth (Z.to_nat x) (bs "0123456789ABCDEF") 0 in isxdigit c = true /\ hex_nibble c = x.
Proof.
  intros Hx. assert (x ∈ map Z.of_nat (seq 0 16)) as H.
  { apply list_elem_of_In, in_map_iff. exists (Z.to_nat x). split; [lia|]. apply in_seq. lia. }
  revert H. cbn [map seq]. clear Hx. intros H.
  repeat (apply elem_of_cons in H as [->|H]; [by vm_compute|]). by apply not_elem_of_nil in H.
Qed.

Lemma decode_percent_encode keep s oi cap :
  Forall is_byte s -> keep 37 = false -> oi + zlen s < cap ->
  decode_name_loop (percent_encode keep s) oi cap = Some s.
Proof.
  intros Hs Hk. unfold percent_encode. revert oi.
  induction Hs as [|c s Hc _ IH]; intros oi Hl; cbn [map concat]; [done|].
  unfold percent_encode_char at 1. cbn [length] in Hl. destruct (keep c) eqn:E.
  - cbn [app decode_name_loop]. destruct (Z.leb_spec cap (oi + 1)); [lia|].
    destruct (Z.eqb_spec c 37) as [->|]; [congruence|]. by rewrite IH by lia.
  - cbn [app decode_name_loop]. destruct (Z.leb_spec cap (oi + 1)); [lia|].
    change (37 =? 37) with true. cbv iota. unfold is_byte in Hc.
    destruct (percent_hex (c / 16) ltac:(lia)) as [Hx1 Hv1].
    destruct (percent_hex (c mod 16) ltac:(lia)) as [Hx2 Hv2].
    rewrite Hx1, Hx2. cbn [negb orb]. rewrite IH by lia. cbn [fmap option_fmap option_map].
    rewrite Hv1, Hv2. do 2 f_equal. rewrite Z.shiftl_mul_pow2 by lia.
    pose proof (Z.mod_pos_bound c 16). rewrite lor_high by lia. unfold u8.
    rewrite Z.mod_small; lia.
Qed.

(** *** Queries *)

(** The first entry of that name, as the loop finds it. *)
Lemma query_loop_spec fuel q key cap :
  (length q < fuel)%nat ->
  query_loop fuel q key cap = Some
    match list_find (fun e => fst e = key) (query_entries fuel q) with
    | None => (1, [])
    | Some (_, e) => if cap <=? zlen (snd e) then (2, []) else (0, snd e)
    end.
Proof.
  revert q. induction fuel as [|fuel IH]; intros q Hf; [lia|]. cbn [query_loop query_entries].
  destruct q as [|c q]; [done|]. destruct (strchr (c :: q) 38) as [amp|] eqn:Ea.
  - apply strchr_Some in Ea as (E & _ & Hl).
    destruct (query_entry (take amp (c :: q))) as [n v] eqn:Ee. cbn [list_find].
    case_bool_decide as Hk.
    + rewrite decide_True by done. simpl. by destruct (cap <=? zlen v).
    + rewrite decide_False by done. rewrite IH by (rewrite length_drop; lia).
      by destruct (list_find (fun e => fst e = key) (query_entries fuel (drop (S amp) (c :: q)))) as [[]|].
  - destruct (query_entry (c :: q)) as [n v] eqn:Ee. cbn [list_find].
    case_bool_decide as Hk; [rewrite decide_True by done|rewrite decide_False by done]; [|done].
    simpl. by destruct (cap <=? zlen v).
Qed.

(** ** Properties *)



(** C30: requests as browsers and curl write them are understood: when nothing
    fails, reading the header block of a request -- a token as method, path and
    query, any headers with acceptable values -- leaves exactly its body on the
    connection, and [http_parse_request] returns the method, the path, the query,
    and of Content-Length, Content-Type and Transfer-Encoding the last value,
    whatever the case of their names. *)
Theorem http_parse_request_render conn m p q hs body w
    (Hok : request_ok m p q hs)
    (Hsize : zlen (render_request m (target_of p q) hs) < HF_HTTP_HEADER_MAX)
    (Hin : n_in (w_net w) = render_request m (target_of p q) hs ++ body)
    (Hcalls : w_faults w = []) :
  wp (let! (r, hdr) := http_read_header_block conn HF_HTTP_HEADER_MAX in
      ret (r, http_parse_request (hdr ++ [0]))) (fun '(r, req) w' =>
    r = 0 /\ req = inr (request_of m p q hs) /\ n_in (w_net w') = body) w.
Proof.
  wp_step. wp_use http_read_header_block_spec; [done|].
  intros [r hdr] w1 (_ & _ & _ & _ & _ & Hlive). wp_step.
  destruct (Hlive Hcalls _ _ Hin) as (-> & -> & Hrest); [|done|].
  - apply render_request_block; apply Hok.
  - split_and!; [done| |done]. by apply http_parse_request_ok.
Qed.

Definition demo_headers : list (bytes * bytes) :=
  [(bs "Host", bs "192.168.1.2"); (bs "content-length", bs "3");
   (bs "Content-Type", bs "application/octet-stream")].

#[export] Instance token_ok_dec t : Decision (token_ok t).
Proof. unfold token_ok. apply _. Defined.
#[export] Instance path_ok_dec p : Decision (path_ok p).
Proof. unfold path_ok. apply _. Defined.
#[export] Instance header_ok_dec h : Decision (header_ok h).
Proof. unfold header_ok, value_ok. apply _. Defined.
#[export] Instance header_value_ok_dec h : Decision (header_value_ok h).
Proof. unfold header_value_ok. apply _. Defined.
#[export] Instance is_byte_dec b : Decision (is_byte b).
Proof. unfold is_byte. apply _. Defined.

(** A concrete request is one that a client writes. *)
Ltac concrete_request := split; by_decision.

Lemma demo_request_ok : request_ok (bs "PUT") (bs "/api/files/f") (bs "a=b") demo_headers.
Proof. concrete_request. Qed.

Lemma http_parse_request_render_witness :
  let w := demo_world [] (render_request (bs "PUT") (target_of (bs "/api/files/f") (bs "a=b"))
                            demo_headers ++ [1; 2; 3]) (demo_files ∅) in
  wp (let! (r, hdr) := http_read_header_block 5 HF_HTTP_HEADER_MAX in
      ret (r, http_parse_request (hdr ++ [0]))) (fun '(r, req) w' =>
    r = 0 /\ req = inr (request_of (bs "PUT") (bs "/api/files/f") (bs "a=b") demo_headers) /\
    n_in (w_net w') = [1; 2; 3]) w.
Proof.
  apply (http_parse_request_render 5 (bs "PUT") (bs "/api/files/f") (bs "a=b") demo_headers [1; 2; 3]);
    [apply demo_request_ok|by vm_compute|reflexivity|reflexivity].
Defined.

(** C29: types: whatever bytes arrive as a header block, parsing it gives a request
    that fits its C struct -- method, path, query and content type with their NUL
    in their arrays, a body length of 64 bits, a path without the query -- or one
    of the two error results, 1 (a bad request) and 2 (another HTTP version). *)
Theorem http_request_typed header_block :
  match http_parse_request header_block with
  | inr req => request_typed req /\ 63 ∉ path req
  | inl e => e = 1 \/ e = 2
  end.
Proof.
  destruct (http_parse_request header_block) as [e|req] eqn:E; [|by apply http_parse_request_typed in E].
  revert E. unfold http_parse_request. destruct (phr_parse_request _ _) as [res [p|]]; [|naive_solver].
  repeat case_match; naive_solver.
Qed.

(** [http_parse_u64] accepts exactly the non-empty strings of decimal digits
    whose value fits 64 bits, and returns the value: the overflow check is exact. *)
Theorem http_parse_u64_exact s :
  http_parse_u64 s =
    if negb (bool_decide (s = [])) && forallb isdigit s && (dec_value s <? 2 ^ 64)
    then Some (dec_value s) else None.
Proof. apply http_parse_u64_spec. Qed.

(** Percent-encoding is undone: whatever bytes are encoded and whichever are
    kept (but '%'), [http_decode_name] returns the string if it fits the buffer
    with its NUL -- and what it returns for any input always fits. *)
Theorem http_decode_name_roundtrip keep s enc out cap
    (Hbytes : Forall is_byte s) (Hkeep : keep 37 = false) (Hfits : zlen s < cap)
    (Hout : http_decode_name enc cap = Some out) :
  http_decode_name (percent_encode keep s) cap = Some s /\ zlen out < cap.
Proof.
  unfold http_decode_name in *. destruct (Z.eqb_spec cap 0); [lia|].
  split; [by apply decode_percent_encode|]. apply (decode_name_loop_length enc 0); [done|lia].
Qed.

Lemma http_decode_name_roundtrip_witness :
  http_decode_name (percent_encode isdigit [37; 65; 49; 255]) 5 = Some [37; 65; 49; 255] /\
  zlen [97; 32] < 5.
Proof.
  apply (http_decode_name_roundtrip isdigit [37; 65; 49; 255] (bs "a%20") [97; 32] 5);
    [repeat constructor; unfold is_byte; lia|reflexivity|simpl; lia|reflexivity].
Defined.

(** [http_query_get_value] finds the first entry of the query with that name --
    entries are separated by '&', name and value by the first '=' -- and returns
    its value if the value fits, 2 if it does not, and 1 if there is no such entry;
    it always returns. *)
Theorem http_query_get_value_exact query key cap (Hcap : cap <> 0) :
  http_query_get_value query key cap = Some
    match list_find (fun e => fst e = key) (query_entries (S (length query)) query) with
    | None => (1, [])
    | Some (_, e) => if cap <=? zlen (snd e) then (2, []) else (0, snd e)
    end.
Proof.
  unfold http_query_get_value. destruct (Z.eqb_spec cap 0); [done|]. apply query_loop_spec. lia.
Qed.

Lemma http_query_get_value_exact_witness :
  http_query_get_value (bs "a=1&path=x%2Fy&path=z") (bs "path") 1024 = Some (0, bs "x%2Fy").
Proof. rewrite (http_query_get_value_exact _ _ 1024); [reflexivity|lia]. Defined.
