(* ===== verification/ConnTracker.v ===== *)
(** * The connection tracker (src/server_conn_tracker.c)

    The server's list of live connections: a singly linked list of entries in
    the heap, a counter, and a condition variable for the main thread that waits
    for the last connection at shutdown. Every operation is one critical section
    of the tracker's mutex; the threads that run them -- the listener, one thread
    per connection (server.c), and the main thread -- interleave as steps of a
    transition system. *)

From S2P Require Import Prelude.

(** ** Definitions *)

(** [server_conn_entry_t]; [next] is a pointer into the heap. *)
Record server_conn_entry_t := Entry { conn : Z; closing : bool; next : option Z }.

(** [server_conn_tracker_t], the heap of entries, and the sockets [shutdown] was
    called on. *)
Record server_conn_tracker_t := Tracker {
  initialized : bool;
  shutting_down : bool;
  active_count : Z;
  head : option Z;
  entries : gmap Z server_conn_entry_t;
  aborted : list Z
}.

Definition set_entries (v : gmap Z server_conn_entry_t) (t : server_conn_tracker_t) :=
  Tracker (initialized t) (shutting_down t) (active_count t) (head t) v (aborted t).
Definition set_head (v : option Z) (t : server_conn_tracker_t) :=
  Tracker (initialized t) (shutting_down t) (active_count t) v (entries t) (aborted t).
Definition set_count (v : Z) (t : server_conn_tracker_t) :=
  Tracker (initialized t) (shutting_down t) v (head t) (entries t) (aborted t).

(** [g_server_conn_tracker = {0}]. *)
Definition tracker_zero : server_conn_tracker_t := Tracker false false 0 None ∅ [].

(** [init_ok]: did the two [pthread_*_init] calls succeed? *)
Definition server_conn_tracker_init (init_ok : bool) (t : server_conn_tracker_t)
    : Z * server_conn_tracker_t :=
  if initialized t then (0, t)
  else if negb init_ok then (1, t)
  else (0, Tracker true false 0 None (entries t) (aborted t)).

(** [server_conn_tracker_abort_entry(p)]. *)
Definition server_conn_tracker_abort_entry (p : Z) (t : server_conn_tracker_t)
    : server_conn_tracker_t :=
  match entries t !! p with
  | None => t
  | Some e =>
      if closing e then t
      else Tracker (initialized t) (shutting_down t) (active_count t) (head t)
             (<[p := Entry (conn e) true (next e)]> (entries t)) (aborted t ++ [conn e])
  end.

(** [server_conn_tracker_begin(conn)] when [malloc] returns [block]. *)
Definition server_conn_tracker_begin (block : option Z) (sock : Z) (t : server_conn_tracker_t)
    : option Z * server_conn_tracker_t :=
  match block with
  | None => (None, t)
  | Some p =>
      let e := Entry sock false None in
      if shutting_down t then (None, t)
      else
        let e := Entry (conn e) (closing e) (head t) in
        let t := set_head (Some p) (set_entries (<[p := e]> (entries t)) t) in
        (Some p, set_count (u32 (active_count t + 1)) t)
  end.

(** What [*link] is, where [link] is [&head] ([None]) or [&q->next]. *)
Definition get_link (link : option Z) (t : server_conn_tracker_t) : option Z :=
  match link with
  | None => head t
  | Some q => match entries t !! q with Some e => next e | None => None end
  end.

Definition set_link (link v : option Z) (t : server_conn_tracker_t) : server_conn_tracker_t :=
  match link with
  | None => set_head v t
  | Some q =>
      match entries t !! q with
      | Some e => set_entries (<[q := Entry (conn e) (closing e) v]> (entries t)) t
      | None => t
      end
  end.

(** The loop of [server_conn_tracker_end]. *)
Fixpoint tracker_unlink (fuel : nat) (link : option Z) (entry : Z) (t : server_conn_tracker_t)
    : option server_conn_tracker_t :=
  match fuel with
  | O => None
  | S fuel =>
      match get_link link t with
      | None => Some t
      | Some p =>
          if p =? entry then
            Some (set_link link (match entries t !! entry with Some e => next e | None => None end) t)
          else tracker_unlink fuel (Some p) entry t
      end
  end.

(** [server_conn_tracker_end(entry)]: the new state and whether the waiters were
    woken; [None] is a walk that does not end. *)
Definition server_conn_tracker_end (entry : option Z) (t : server_conn_tracker_t)
    : option (bool * server_conn_tracker_t) :=
  match entry with
  | None => Some (false, t)
  | Some p =>
      match tracker_unlink (S (size (entries t))) None p t with
      | None => None
      | Some t =>
          let t := if 0 <? active_count t then set_count (active_count t - 1) t else t in
          let broadcast := shutting_down t && (active_count t =? 0) in
          Some (broadcast, set_entries (delete p (entries t)) t)
      end
  end.

(** The loop of [server_conn_tracker_shutdown_all]. *)
Fixpoint tracker_abort_all (fuel : nat) (entry : option Z) (t : server_conn_tracker_t)
    : option server_conn_tracker_t :=
  match fuel with
  | O => None
  | S fuel =>
      match entry with
      | None => Some t
      | Some p =>
          let t := server_conn_tracker_abort_entry p t in
          tracker_abort_all fuel (get_link (Some p) t) t
      end
  end.

Definition server_conn_tracker_shutdown_all (t : server_conn_tracker_t)
    : option (bool * server_conn_tracker_t) :=
  if negb (initialized t) then Some (false, t)
  else
    let t := Tracker (initialized t) true (active_count t) (head t) (entries t) (aborted t) in
    match tracker_abort_all (S (size (entries t))) (head t) t with
    | None => None
    | Some t => Some (active_count t =? 0, t)
    end.

(** The test of the loop of [server_conn_tracker_wait_idle]: does it return? *)
Definition server_conn_tracker_wait_idle (t : server_conn_tracker_t) : bool :=
  negb (initialized t) || negb (0 <? active_count t).

Definition server_conn_tracker_cleanup (t : server_conn_tracker_t) : server_conn_tracker_t :=
  if negb (initialized t) then t
  else Tracker false false 0 None (entries t) (aborted t).

(** *** The threads of the server *)

(** A connection between [server_conn_tracker_begin] and [.._end]: its thread is
    not created yet, serves it, or has closed the socket. *)
Inductive conn_phase := Starting | Running | Closed.

(** The main thread: in [server_run_listener]; after it; past
    [.._shutdown_all]; blocked in [.._wait_idle]; past it; past [.._cleanup]. *)
Inductive main_phase := Accepting | Stopped | ShutDown | Waiting | Idle | CleanedUp.

Record system := System {
  tracker : server_conn_tracker_t;
  threads : gmap Z conn_phase;      (* by the entry each owns *)
  open_socks : gset Z;
  main : main_phase
}.

Definition system_start : system :=
  System (snd (server_conn_tracker_init true tracker_zero)) ∅ ∅ Accepting.

(** A broadcast wakes the main thread. *)
Definition wake (broadcast : bool) (m : main_phase) : main_phase :=
  match m with Waiting => if broadcast then ShutDown else Waiting | m => m end.

(** One critical section, system call or thread operation of one thread. *)
Inductive step : system -> system -> Prop :=
  (* the listener: accept, then server_start_connection_thread *)
  | step_begin t ths socks sock p t' :
      sock ∉ socks -> entries t !! p = None -> Z.of_nat (size (entries t)) + 1 < 2 ^ 32 ->
      server_conn_tracker_begin (Some p) sock t = (Some p, t') ->
      step (System t ths socks Accepting)
           (System t' (<[p := Starting]> ths) ({[sock]} ∪ socks) Accepting)
  | step_refused t ths socks sock block t' :
      sock ∉ socks -> server_conn_tracker_begin block sock t = (None, t') ->
      step (System t ths socks Accepting) (System t' ths socks Accepting)
  | step_spawn t ths socks m p :
      ths !! p = Some Starting ->
      step (System t ths socks m) (System t (<[p := Running]> ths) socks m)
  | step_spawn_fails t ths socks m p e b t' :
      ths !! p = Some Starting -> entries t !! p = Some e ->
      server_conn_tracker_end (Some p) t = Some (b, t') ->
      step (System t ths socks m) (System t' (delete p ths) (socks ∖ {[conn e]}) (wake b m))
  (* server_connection_thread_main: socket_close, then tracker_end *)
  | step_close t ths socks m p e :
      ths !! p = Some Running -> entries t !! p = Some e ->
      step (System t ths socks m) (System t (<[p := Closed]> ths) (socks ∖ {[conn e]}) m)
  | step_end t ths socks m p b t' :
      ths !! p = Some Closed -> server_conn_tracker_end (Some p) t = Some (b, t') ->
      step (System t ths socks m) (System t' (delete p ths) socks (wake b m))
  (* the main thread: server_run_process from the end of the listener on *)
  | step_stop t ths socks :
      (forall p, ths !! p <> Some Starting) ->
      step (System t ths socks Accepting) (System t ths socks Stopped)
  | step_shutdown t ths socks b t' :
      server_conn_tracker_shutdown_all t = Some (b, t') ->
      step (System t ths socks Stopped) (System t' ths socks ShutDown)
  | step_wait t ths socks :
      server_conn_tracker_wait_idle t = false ->
      step (System t ths socks ShutDown) (System t ths socks Waiting)
  | step_spurious t ths socks :
      step (System t ths socks Waiting) (System t ths socks ShutDown)
  | step_idle t ths socks :
      server_conn_tracker_wait_idle t = true ->
      step (System t ths socks ShutDown) (System t ths socks Idle)
  | step_cleanup t ths socks :
      step (System t ths socks Idle)
           (System (server_conn_tracker_cleanup t) ths socks CleanedUp).

Inductive steps : system -> system -> Prop :=
  | steps_refl s : steps s s
  | steps_step s1 s2 s3 : steps s1 s2 -> step s2 s3 -> steps s1 s3.

Definition reachable (s : system) : Prop := steps system_start s.

(** *** Specifications *)

(** [l] are the entries on the list that starts at [h]. *)
Fixpoint chain (h : option Z) (es : gmap Z server_conn_entry_t) (l : list Z) : Prop :=
  match l with
  | [] => h = None
  | p :: l' => h = Some p /\ exists e, es !! p = Some e /\ chain (next e) es l'
  end.

(** The list holds every entry of the heap once, the counter counts them, and
    the socket of an entry marked closing was shut down. *)
Definition tracker_ok (t : server_conn_tracker_t) (l : list Z) : Prop :=
  chain (head t) (entries t) l /\ NoDup l /\ dom (entries t) = list_to_set l /\
  active_count t = zlen l /\
  forall p e, entries t !! p = Some e -> closing e = true -> conn e ∈ aborted t.

(** After [.._shutdown_all]: no new entries, and [shutdown] was called on the
    socket of every entry. *)
Definition tracker_down (t : server_conn_tracker_t) : Prop :=
  shutting_down t = true /\
  forall p e, entries t !! p = Some e -> closing e = true /\ conn e ∈ aborted t.

(** The invariant of the system. *)
Definition system_ok (s : system) : Prop :=
  dom (entries (tracker s)) = dom (threads s) /\
  (exists l, tracker_ok (tracker s) l) /\
  match main s with
  | Accepting => initialized (tracker s) = true /\ shutting_down (tracker s) = false
  | Stopped => initialized (tracker s) = true /\ shutting_down (tracker s) = false /\
      forall p, threads s !! p <> Some Starting
  | ShutDown => initialized (tracker s) = true /\ tracker_down (tracker s) /\
      forall p, threads s !! p <> Some Starting
  | Waiting => initialized (tracker s) = true /\ tracker_down (tracker s) /\
      (forall p, threads s !! p <> Some Starting) /\ 0 < active_count (tracker s)
  | Idle => initialized (tracker s) = true /\ threads s = ∅
  | CleanedUp => initialized (tracker s) = false /\ threads s = ∅
  end.

(** ** Theorems *)

(** *** The linked list *)

Lemma chain_ne h es l q v :
  q ∉ l -> chain h es l -> chain h (<[q := v]> es) l.
Proof.
  revert h. induction l as [|p l IH]; intros h Hq Hc; [done|].
  destruct Hc as (-> & e & He & Hc). split; [done|]. exists e.
  rewrite lookup_insert_ne by set_solver. split; [done|]. apply IH; [set_solver|done].
Qed.

Lemma chain_delete h es l q : q ∉ l -> chain h es l -> chain h (delete q es) l.
Proof.
  revert h. induction l as [|p l IH]; intros h Hq Hc; [done|].
  destruct Hc as (-> & e & He & Hc). split; [done|]. exists e.
  rewrite lookup_delete_ne by set_solver. split; [done|]. apply IH; [set_solver|done].
Qed.

Lemma chain_set_closing h es l q e b :
  es !! q = Some e -> chain h es l -> chain h (<[q := Entry (conn e) b (next e)]> es) l.
Proof.
  intros Hq. revert h. induction l as [|p l IH]; intros h Hc; [done|].
  destruct Hc as (-> & e' & He & Hc). split; [done|]. destruct (decide (q = p)) as [->|Hne].
  - rewrite lookup_insert_eq. eexists. split; [done|]. simpl. apply IH. by simplify_eq.
  - rewrite lookup_insert_ne by done. eauto.
Qed.

Lemma chain_split h es l1 p l2 :
  chain h es (l1 ++ p :: l2) ->
  exists e, es !! p = Some e /\ chain (next e) es l2.
Proof.
  revert h. induction l1 as [|q l1 IH]; intros h Hc.
  - destruct Hc as (_ & e & ? & ?). eauto.
  - destruct Hc as (_ & e & _ & Hc). eauto.
Qed.

(** The walk stops at the link that points to [p]. *)
Lemma tracker_unlink_walk fuel link t l1 p l2 e :
  chain (get_link link t) (entries t) (l1 ++ p :: l2) -> p ∉ l1 -> (length l1 < fuel)%nat ->
  entries t !! p = Some e ->
  tracker_unlink fuel link p t =
    Some (set_link (match last l1 with Some q => Some q | None => link end) (next e) t).
Proof.
  revert link fuel. induction l1 as [|q l1 IH]; intros link fuel Hc Hp Hf He;
    (destruct fuel as [|fuel]; [simpl in Hf; lia|]); cbn [tracker_unlink].
  - destruct Hc as (-> & _). by rewrite Z.eqb_refl, He.
  - destruct Hc as (-> & e' & He' & Hc). destruct (Z.eqb_spec q p); [set_solver|].
    rewrite (IH (Some q)); [|by simpl; rewrite He'|set_solver|simpl in Hf; lia|done].
    rewrite last_cons. by destruct (last l1).
Qed.

Lemma chain_bypass h es l1 q eq p e l2 :
  chain h es (l1 ++ q :: p :: l2) -> NoDup (l1 ++ q :: p :: l2) ->
  es !! q = Some eq -> es !! p = Some e ->
  chain h (<[q := Entry (conn eq) (closing eq) (next e)]> es) (l1 ++ q :: l2).
Proof.
  intros Hc Hnd Hq Hp. revert h Hc Hnd. induction l1 as [|x l1 IH]; intros h Hc Hnd; simpl in *.
  - destruct Hc as (-> & e1 & H1 & _ & e2 & H2 & Hc). simplify_eq.
    split; [done|]. rewrite lookup_insert_eq. eexists. split; [done|]. simpl.
    apply chain_ne; [|done]. apply NoDup_cons in Hnd as [Hnd _]. set_solver.
  - destruct Hc as (-> & e1 & H1 & Hc). apply NoDup_cons in Hnd as [Hx Hnd].
    split; [done|]. exists e1. rewrite lookup_insert_ne by set_solver. auto.
Qed.

(** Taking [p] out at that link. *)
Lemma chain_unlink t l1 p l2 e :
  chain (head t) (entries t) (l1 ++ p :: l2) -> NoDup (l1 ++ p :: l2) -> entries t !! p = Some e ->
  let t' := set_link (last l1) (next e) t in
  chain (head t') (entries t') (l1 ++ l2) /\ dom (entries t') = dom (entries t) /\
  active_count t' = active_count t /\ shutting_down t' = shutting_down t /\
  initialized t' = initialized t /\ aborted t' = aborted t /\
  (forall q e', entries t' !! q = Some e' -> exists e0, entries t !! q = Some e0 /\
     conn e' = conn e0 /\ closing e' = closing e0).
Proof.
  intros Hc Hnd He. destruct l1 as [|q l1 _] using rev_ind.
  { cbn [last set_link]. destruct Hc as (Hh & e' & He' & Hc). simplify_eq. simpl.
    split_and!; try done. eauto. }
  rewrite last_snoc. rewrite <- !app_assoc in *. simpl in *.
  assert (exists eq, entries t !! q = Some eq) as [eq Heq].
  { apply chain_split in Hc as (? & ? & _). eauto. }
  rewrite Heq. simpl. split_and!; try done.
  - by eapply chain_bypass.
  - rewrite dom_insert_L. apply elem_of_dom_2 in Heq. set_solver.
  - intros x e' Hx. destruct (decide (x = q)) as [->|].
    + rewrite lookup_insert_eq in Hx. simplify_eq. eauto.
    + rewrite lookup_insert_ne in Hx by done. eauto.
Qed.

(** *** The operations keep the tracker in order *)

Lemma tracker_ok_init : tracker_ok (snd (server_conn_tracker_init true tracker_zero)) [].
Proof. by split_and!; [|constructor|set_solver| |]. Qed.

Lemma size_list t l : tracker_ok t l -> size (entries t) = length l.
Proof.
  intros (_ & Hnd & Hd & _). rewrite <- size_dom, Hd, size_list_to_set; done.
Qed.

Lemma begin_ok p sock t t' l :
  tracker_ok t l -> entries t !! p = None -> Z.of_nat (size (entries t)) + 1 < 2 ^ 32 ->
  server_conn_tracker_begin (Some p) sock t = (Some p, t') ->
  tracker_ok t' (p :: l) /\ shutting_down t = false /\ shutting_down t' = false /\
  initialized t' = initialized t /\ dom (entries t') = {[p]} ∪ dom (entries t).
Proof.
  intros Hok Hp Hsz. pose proof (size_list _ _ Hok) as Hl. destruct Hok as (Hc & Hnd & Hd & Hn & Hcl).
  unfold server_conn_tracker_begin. destruct (shutting_down t) eqn:Es; [done|]. intros [= <-].
  assert (p ∉ l) as Hpl.
  { intros Hin. apply not_elem_of_dom in Hp. set_solver. }
  split; [|simpl; by rewrite dom_insert_L].
  split_and!; simpl.
  - split; [done|]. rewrite lookup_insert_eq. eexists. split; [done|]. simpl. by apply chain_ne.
  - by constructor.
  - rewrite dom_insert_L, Hd. set_solver.
  - unfold u32. rewrite Z.mod_small by lia. lia.
  - intros q e Hq. destruct (decide (q = p)) as [->|].
    + rewrite lookup_insert_eq in Hq. by simplify_eq.
    + rewrite lookup_insert_ne in Hq by done. eauto.
Qed.

Lemma end_ok p t l :
  tracker_ok t l -> p ∈ l ->
  exists b t' l', server_conn_tracker_end (Some p) t = Some (b, t') /\
    tracker_ok t' l' /\ dom (entries t') = dom (entries t) ∖ {[p]} /\
    shutting_down t' = shutting_down t /\ initialized t' = initialized t /\
    (b = shutting_down t && (active_count t' =? 0)) /\
    (tracker_down t -> tracker_down t').
Proof.
  intros Hok Hin. pose proof (size_list _ _ Hok) as Hsz. destruct Hok as (Hc & Hnd & Hd & Hn & Hab).
  apply list_elem_of_split in Hin as (l1 & l2 & ->).
  destruct (chain_split _ _ _ _ _ Hc) as (e & He & _).
  pose proof (chain_unlink t l1 p l2 e Hc Hnd He) as (H1 & H2 & H3 & H4 & H5 & H6 & H7).
  apply NoDup_app in Hnd as Hnd'. destruct Hnd' as (Hnd1 & Hdis & Hnd2).
  apply NoDup_cons in Hnd2 as [Hp2 Hnd2].
  assert (p ∉ l1) as Hp1 by (intros ?; eapply Hdis; [done|set_solver]).
  unfold server_conn_tracker_end.
  rewrite (tracker_unlink_walk _ None t l1 p l2 e); [|done|done|rewrite Hsz; len_lia|done].
  replace (match last l1 with Some q => Some q | None => None end) with (last l1) by by destruct (last l1).
  set (t1 := set_link (last l1) (next e) t) in *.
  assert (0 < active_count t) by (rewrite Hn; len_lia).
  destruct (Z.ltb_spec 0 (active_count t1)); [|lia].
  assert (Hdel : forall q e', delete p (entries t1) !! q = Some e' -> exists e0,
            entries t !! q = Some e0 /\ conn e' = conn e0 /\ closing e' = closing e0).
  { intros q e' Hq. apply lookup_delete_Some in Hq as [_ Hq]. auto. }
  eexists _, _, (l1 ++ l2). split; [done|]. split; [|simpl; rewrite H4; split_and!; try done].
  - split_and!; simpl.
    + apply chain_delete; [set_solver|done].
    + apply NoDup_app. split_and!; [done| |done]. intros x Hx Hx2. eapply Hdis; [done|set_solver].
    + rewrite dom_delete_L, H2, Hd. rewrite !list_to_set_app_L. simpl. set_solver.
    + rewrite H3, Hn. len_lia.
    + intros q e' Hq. destruct (Hdel _ _ Hq) as (e0 & He0 & -> & ->). rewrite H6. eauto.
  - by rewrite dom_delete_L, H2.
  - intros [Hsd Hcl]. split; simpl; [congruence|]. intros q e' Hq.
    destruct (Hdel _ _ Hq) as (e0 & He0 & -> & ->). rewrite H6. by eapply Hcl.
Qed.

Lemma abort_entry_ok p t l :
  tracker_ok t l -> p ∈ l ->
  let t' := server_conn_tracker_abort_entry p t in
  tracker_ok t' l /\ head t' = head t /\ shutting_down t' = shutting_down t /\
  initialized t' = initialized t /\ dom (entries t') = dom (entries t) /\
  (forall h k, chain h (entries t) k -> chain h (entries t') k) /\
  (forall q e', entries t' !! q = Some e' ->
     closing e' = true \/ q <> p /\ entries t !! q = Some e').
Proof.
  intros (Hc & Hnd & Hd & Hn & Hab) Hin. unfold server_conn_tracker_abort_entry.
  assert (exists e, entries t !! p = Some e) as [e He].
  { apply elem_of_dom. rewrite Hd. set_solver. }
  rewrite He. destruct (closing e) eqn:Ec.
  { split_and!; try done. intros q e' Hq. destruct (decide (q = p)) as [->|]; [left|by right].
    by simplify_eq. }
  assert (Hdom : dom (<[p := Entry (conn e) true (next e)]> (entries t)) = dom (entries t)).
  { rewrite dom_insert_L. apply elem_of_dom_2 in He. set_solver. }
  split; [|simpl; split_and!; try done].
  - split_and!; simpl; try done.
    + by apply chain_set_closing.
    + by rewrite Hdom.
    + intros q e' Hq Hcl. destruct (decide (q = p)) as [->|].
      * rewrite lookup_insert_eq in Hq. simplify_eq. simpl. set_solver.
      * rewrite lookup_insert_ne in Hq by done. apply elem_of_app. left. eauto.
  - intros h k Hk. by apply chain_set_closing.
  - intros q e' Hq. destruct (decide (q = p)) as [->|].
    + rewrite lookup_insert_eq in Hq. simplify_eq. by left.
    + rewrite lookup_insert_ne in Hq by done. by right.
Qed.

(** The loop over the rest [l2] of the list [l]. *)
Lemma abort_all_ok fuel h l2 t l :
  tracker_ok t l -> (forall p, p ∈ l2 -> p ∈ l) -> chain h (entries t) l2 ->
  (length l2 < fuel)%nat ->
  exists t', tracker_abort_all fuel h t = Some t' /\ tracker_ok t' l /\
    shutting_down t' = shutting_down t /\ initialized t' = initialized t /\
    dom (entries t') = dom (entries t) /\
    (forall q e', entries t' !! q = Some e' ->
       closing e' = true \/ q ∉ l2 /\ entries t !! q = Some e').
Proof.
  revert h l2 t. induction fuel as [|fuel IH]; intros h l2 t Hok Hsub Hc Hf; [lia|].
  cbn [tracker_abort_all]. destruct l2 as [|p l2].
  - rewrite Hc. exists t. split_and!; try done. intros q e' Hq. right. split; [set_solver|done].
  - destruct Hc as (-> & e & He & Hc).
    destruct (abort_entry_ok p t l Hok) as (H1 & H2 & H3 & H4 & H5 & H6 & H7); [set_solver|].
    set (t1 := server_conn_tracker_abort_entry p t) in *.
    assert (Hl : chain (get_link (Some p) t1) (entries t1) l2).
    { assert (chain (Some p) (entries t1) (p :: l2)) as (_ & e1 & He1 & Hc1) by (apply H6; split; eauto).
      simpl. by rewrite He1. }
    destruct (IH (get_link (Some p) t1) l2 t1 H1) as (t' & E & G1 & G2 & G3 & G4 & G5);
      [set_solver|done|simpl in Hf; lia|].
    exists t'. split_and!; [done|done|congruence|congruence|congruence|].
    intros q e' Hq. destruct (G5 _ _ Hq) as [?|[Hq2 Hq1]]; [by left|].
    destruct (H7 _ _ Hq1) as [?|[? ?]]; [by left|]. right. split; [set_solver|done].
Qed.

Lemma shutdown_all_ok t l :
  tracker_ok t l -> initialized t = true ->
  exists t', server_conn_tracker_shutdown_all t = Some (active_count t' =? 0, t') /\
    tracker_ok t' l /\ tracker_down t' /\ initialized t' = true /\
    dom (entries t') = dom (entries t).
Proof.
  intros Hok Hi. pose proof (size_list _ _ Hok) as Hsz. unfold server_conn_tracker_shutdown_all.
  rewrite Hi. simpl negb. cbv iota.
  set (t1 := Tracker true true (active_count t) (head t) (entries t) (aborted t)).
  assert (tracker_ok t1 l) as Hok1 by done.
  destruct (abort_all_ok (S (size (entries t1))) (head t1) l t1 l Hok1)
    as (t' & E & G1 & G2 & G3 & G4 & G5); [done|apply Hok1|simpl; lia|].
  rewrite E. exists t'. split; [done|]. split; [done|]. split; [split; [done|]|done].
  - intros p e He. assert (closing e = true) as Hcl.
    { destruct (G5 _ _ He) as [?|[Hn _]]; [done|]. exfalso. apply Hn.
      destruct G1 as (_ & _ & Hd & _). apply elem_of_dom_2 in He. rewrite Hd in He. set_solver. }
    split; [done|]. destruct G1 as (_ & _ & _ & _ & Hab). eauto.
Qed.

(** *** The system *)

Lemma threads_entries s p ph : system_ok s -> threads s !! p = Some ph ->
  exists l, tracker_ok (tracker s) l /\ p ∈ l.
Proof.
  intros (Hd & (l & Hok) & _) Hp. exists l. split; [done|].
  apply elem_of_dom_2 in Hp. rewrite <- Hd in Hp. destruct Hok as (_ & _ & E & _).
  rewrite E in Hp. set_solver.
Qed.

Lemma count_zero t l : tracker_ok t l -> active_count t = 0 -> dom (entries t) = ∅.
Proof.
  intros (_ & _ & Hd & Hn & _) E. rewrite Hd. destruct l; [done|]. simpl in Hn. lia.
Qed.

(** A thread gives up its entry. *)
Lemma step_end_ok t ths socks socks' m p ph b t' :
  system_ok (System t ths socks m) -> ths !! p = Some ph ->
  server_conn_tracker_end (Some p) t = Some (b, t') ->
  system_ok (System t' (delete p ths) socks' (wake b m)).
Proof.
  intros Hok Hp He. destruct (threads_entries _ _ _ Hok Hp) as (l & Hl & Hin). simpl in Hl.
  destruct (end_ok p t l Hl Hin) as (b2 & t2 & l' & E & G1 & G2 & G3 & G4 & Hb & G6).
  rewrite He in E. injection E as <- <-.
  destruct Hok as (Hd & _ & Hm). simpl in *.
  assert (Hst : (forall q, ths !! q <> Some Starting) -> forall q, delete p ths !! q <> Some Starting).
  { intros H q Hq. apply lookup_delete_Some in Hq as [_ Hq]. by apply (H q). }
  split_and!; simpl.
  - by rewrite G2, Hd, dom_delete_L.
  - by exists l'.
  - assert (Hi : initialized t = true -> initialized t' = true) by congruence.
    destruct m; simpl in *.
    + destruct Hm. split; [auto|congruence].
    + destruct Hm as (? & ? & ?). split; [auto|]. split; [congruence|auto].
    + destruct Hm as (? & ? & ?). auto.
    + destruct Hm as (? & Hdown & ? & ?). destruct b; [auto|].
      split; [auto|]. split; [auto|]. split; [auto|].
      assert (active_count t' <> 0).
      { intros E0. rewrite E0 in Hb. destruct Hdown as [Hsd _]. by rewrite Hsd in Hb. }
      destruct G1 as (_ & _ & _ & E0 & _). lia.
    + destruct Hm as [_ ->]. by rewrite lookup_empty in Hp.
    + destruct Hm as [_ ->]. by rewrite lookup_empty in Hp.
Qed.

(** A thread moves on. *)
Lemma step_phase_ok t ths socks socks' m p ph ph' :
  system_ok (System t ths socks m) -> ths !! p = Some ph -> ph' <> Starting ->
  system_ok (System t (<[p := ph']> ths) socks' m).
Proof.
  intros (Hd & Hl & Hm) Hp Hne. simpl in *.
  assert (Hdom : dom (<[p := ph']> ths) = dom ths).
  { rewrite dom_insert_L. apply elem_of_dom_2 in Hp. set_solver. }
  assert (Hst : (forall q, ths !! q <> Some Starting) ->
            forall q, <[p := ph']> ths !! q <> Some Starting).
  { intros H q Hq. destruct (decide (q = p)) as [->|].
    - rewrite lookup_insert_eq in Hq. congruence.
    - rewrite lookup_insert_ne in Hq by done. by apply (H q). }
  split_and!; simpl; rewrite ?Hdom; try done.
  destruct m; destruct_and?; split_and?; try done; auto; subst; by rewrite lookup_empty in Hp.
Qed.

Lemma step_ok s s' : system_ok s -> step s s' -> system_ok s'.
Proof.
  intros Hok Hs. destruct Hs as [t ths socks sock p t' Hsock Hp Hsz Hb|t ths socks sock block t' Hsock Hb
    |t ths socks m p Hp|t ths socks m p e b t' Hp He Hb|t ths socks m p e Hp He
    |t ths socks m p b t' Hp Hb|t ths socks Hno|t ths socks b t' Hb|t ths socks Hw|t ths socks
    |t ths socks Hw|t ths socks].
  - destruct Hok as (Hd & (l & Hl) & Hi & Hs). simpl in *.
    destruct (begin_ok p sock t t' l Hl Hp Hsz Hb) as (G1 & _ & G2 & G3 & G4).
    split_and!; simpl.
    + by rewrite G4, Hd, dom_insert_L.
    + by exists (p :: l).
    + split; congruence.
  - assert (t' = t) as ->; [|done].
    unfold server_conn_tracker_begin in Hb. destruct block; [|by injection Hb].
    destruct (shutting_down t); [by injection Hb|done].
  - by eapply step_phase_ok.
  - by eapply step_end_ok.
  - by eapply step_phase_ok.
  - by eapply step_end_ok.
  - destruct Hok as (Hd & Hl & Hi & Hs). by split_and!.
  - destruct Hok as (Hd & (l & Hl) & Hi & Hs & Hno). simpl in *.
    destruct (shutdown_all_ok t l Hl Hi) as (t2 & E & G1 & G2 & G3 & G4).
    rewrite Hb in E. injection E as -> <-. split_and!; simpl; try done; [congruence|by exists l].
  - destruct Hok as (Hd & Hl & Hi & Hs & Hno). simpl in *.
    unfold server_conn_tracker_wait_idle in Hw. rewrite Hi in Hw. cbn [negb orb] in Hw.
    split; [done|]. split; [done|]. simpl. split; [done|]. split; [done|]. split; [done|]. lia.
  - destruct Hok as (Hd & Hl & Hi & Hs & Hno & _). split; [done|]. by split.
  - destruct Hok as (Hd & (l & Hl) & Hi & Hs & Hno). simpl in *.
    split; [done|]. split; [by exists l|]. simpl. split; [done|].
    unfold server_conn_tracker_wait_idle in Hw. rewrite Hi in Hw. cbn [negb orb] in Hw.
    assert (active_count t = 0) as E0.
    { destruct Hl as (_ & _ & _ & E & _). rewrite E in *. lia. }
    assert (dom ths = ∅) as E1 by (rewrite <- Hd; by eapply count_zero).
    by apply dom_empty_inv_L in E1.
  - destruct Hok as (Hd & (l & Hl) & Hi & Hths). simpl in *. subst ths.
    unfold server_conn_tracker_cleanup. rewrite Hi. simpl negb. cbv iota.
    rewrite dom_empty_L in Hd. split; [simpl; by rewrite dom_empty_L|]. split; [|done].
    exists []. apply dom_empty_inv_L in Hd. simpl. unfold tracker_ok. simpl. rewrite Hd.
    split_and!; try done. constructor.
Qed.

Lemma start_ok : system_ok system_start.
Proof. split_and!; try done. exists []. apply tracker_ok_init. Qed.

Lemma reachable_ok s : reachable s -> system_ok s.
Proof.
  unfold reachable. intros H. remember system_start as s0 eqn:E. induction H; subst.
  - apply start_ok.
  - eapply step_ok; [|done]. auto.
Qed.

Lemma steps_trans s1 s2 s3 : steps s1 s2 -> steps s2 s3 -> steps s1 s3.
Proof. intros H1 H2. induction H2; [done|]. eapply steps_step; [by apply IHsteps|done]. Qed.

Lemma steps_one s1 s2 s3 : step s1 s2 -> steps s2 s3 -> steps s1 s3.
Proof. intros H1 H2. eapply steps_trans; [|done]. by eapply steps_step; [apply steps_refl|]. Qed.

(** The last thread out lets the main thread go on. *)
Lemma drain n s :
  system_ok s -> size (threads s) = n -> main s = ShutDown \/ main s = Waiting ->
  exists s', steps s s' /\ main s' = Idle.
Proof.
  revert s. induction n as [|n IH]; intros [t ths socks m] Hok Hn Hm; simpl in *.
  - apply map_size_empty_inv in Hn as ->. destruct Hok as (Hd & (l & Hl) & Hmain). simpl in *.
    assert (active_count t = 0) as E0.
    { rewrite dom_empty_L in Hd. destruct Hl as (_ & _ & Hl & Hc & _). rewrite Hc.
      rewrite Hl in Hd. destruct l; [done|]. set_solver. }
    destruct Hm as [->| ->]; [|lia]. destruct Hmain as (Hi & _).
    exists (System t ∅ socks Idle). split; [eapply steps_one; [|apply steps_refl]|done]. apply step_idle.
    unfold server_conn_tracker_wait_idle. rewrite E0. apply orb_true_r.
  - assert (exists p ph, ths !! p = Some ph) as (p & ph & Hp).
    { destruct (map_choose ths) as (p & ph & ?); [|eauto]. intros ->. by rewrite map_size_empty in Hn. }
    assert (Hend : forall ths' socks', system_ok (System t ths' socks' m) -> ths' !! p = Some Closed ->
              size ths' = S n -> exists s', steps (System t ths' socks' m) s' /\ main s' = Idle).
    { intros ths' socks' Hok' Hp' Hn'.
      destruct (threads_entries _ _ _ Hok' Hp') as (l & Hl & Hin).
      destruct (end_ok p t l Hl Hin) as (b & t' & _ & E & _).
      destruct (IH (System t' (delete p ths') socks' (wake b m))) as (s' & Hs' & Hi).
      - by eapply step_end_ok.
      - simpl. rewrite map_size_delete_Some by eauto. lia.
      - destruct Hm as [->| ->]; [by left|]. destruct b; auto.
      - exists s'. split; [|done]. eapply steps_one; [|done]. by eapply step_end. }
    destruct ph.
    + destruct Hok as (_ & _ & Hmain). exfalso. simpl in Hmain.
      destruct Hm as [->| ->]; destruct Hmain as (_ & _ & H); by first [apply (H p)|destruct H as [H _]; apply (H p)].
    + destruct (threads_entries _ _ _ Hok Hp) as (l & (_ & _ & Hdl & _) & Hin). simpl in Hdl.
      assert (is_Some (entries t !! p)) as [e He] by (apply elem_of_dom; rewrite Hdl; set_solver).
      assert (Hst : step (System t ths socks m)
                      (System t (<[p := Closed]> ths) (socks ∖ {[conn e]}) m)) by by eapply step_close.
      destruct (Hend (<[p := Closed]> ths) (socks ∖ {[conn e]})) as (s' & Hs' & Hi).
      * by eapply step_ok.
      * by rewrite lookup_insert_eq.
      * rewrite map_size_insert_Some by eauto. done.
      * exists s'. split; [|done]. by eapply steps_one.
    + by apply (Hend ths socks).
Qed.

Lemma idle_stays s s' :
  system_ok s -> main s = Idle \/ main s = CleanedUp -> steps s s' ->
  system_ok s' /\ (main s' = Idle \/ main s' = CleanedUp).
Proof.
  intros Hok Hm Hs. induction Hs as [|s1 s2 s3 H12 IH H23]; [done|].
  destruct (IH Hok Hm) as [Hok2 Hm2]. split; [by eapply step_ok|].
  destruct H23; simpl in *; auto; try (destruct Hm2; discriminate);
    destruct Hm2 as [-> | ->]; auto.
Qed.

Lemma idle_no_threads s : system_ok s -> main s = Idle \/ main s = CleanedUp -> threads s = ∅.
Proof. intros (_ & _ & H) [E|E]; rewrite E in H; apply H. Qed.

(** ** Properties *)

(** C34: in every state the server's threads can reach, the tracker's linked list
    runs through the entry of each live connection exactly once, the counter is
    their number, and no entry belongs to a connection that ended. *)
Theorem tracker_lists_live_connections s (Hr : reachable s) :
  exists l, chain (head (tracker s)) (entries (tracker s)) l /\ NoDup l /\
    active_count (tracker s) = zlen l /\
    (forall p, p ∈ l <-> is_Some (threads s !! p)) /\
    (forall p, is_Some (entries (tracker s) !! p) <-> p ∈ l).
Proof.
  destruct (reachable_ok s Hr) as (Hd & (l & Hc & Hnd & Hl & Hn & _) & _).
  exists l. split_and!; try done.
  - intros p. rewrite <- elem_of_dom, <- Hd, Hl. set_solver.
  - intros p. rewrite <- elem_of_dom, Hl. set_solver.
Qed.

(** The start, a connection accepted with its entry at 1 and its thread running. *)
Definition demo_entry : server_conn_tracker_t :=
  Tracker true false 1 (Some 1) {[1 := Entry 5 false None]} [].

Lemma demo_reachable :
  reachable (System demo_entry {[1 := Running]} {[5]} Accepting).
Proof.
  eapply steps_step; [eapply steps_step; [apply steps_refl|]|].
  - apply (step_begin _ _ _ 5 1); [set_solver|done|vm_compute; done|reflexivity].
  - assert (E : (<[1 := Running]> (<[1 := Starting]> (∅ : gmap Z conn_phase))) = {[1 := Running]})
      by (by rewrite insert_insert_eq).
    rewrite <- E. rewrite union_empty_r_L. apply step_spawn. by rewrite lookup_insert_eq.
Qed.

Lemma tracker_lists_live_connections_witness :
  let s := System demo_entry {[1 := Running]} {[5]} Accepting in
  exists l, chain (head (tracker s)) (entries (tracker s)) l /\ NoDup l /\
    active_count (tracker s) = zlen l /\
    (forall p, p ∈ l <-> is_Some (threads s !! p)) /\
    (forall p, is_Some (entries (tracker s) !! p) <-> p ∈ l).
Proof. apply tracker_lists_live_connections. apply demo_reachable. Defined.

(** C35: once [server_conn_tracker_shutdown_all] has run, no connection can be
    added any more, and [shutdown] was called on the socket of every connection
    that is still alive. *)
Theorem tracker_shutdown_reaches_all s
    (Hr : reachable s) (Hm : main s = ShutDown \/ main s = Waiting) :
  (forall block sock, fst (server_conn_tracker_begin block sock (tracker s)) = None) /\
  (forall p e, entries (tracker s) !! p = Some e -> closing e = true /\ conn e ∈ aborted (tracker s)).
Proof.
  assert (tracker_down (tracker s)) as [Hsd Hcl].
  { destruct (reachable_ok s Hr) as (_ & _ & H). destruct Hm as [E|E]; rewrite E in H; apply H. }
  split; [|done]. intros block sock. unfold server_conn_tracker_begin.
  destruct block; [|done]. by rewrite Hsd.
Qed.

(** C36: [server_conn_tracker_wait_idle] waits for the last connection and does
    not miss it: when it has returned no connection thread is left and none ever
    starts again, so [server_conn_tracker_cleanup] destroys nothing in use; while
    the main thread is blocked a connection is alive whose end will wake it; and
    from every state after the shutdown the threads can run to the point where
    it returns. *)
Theorem tracker_wait_idle_exact s (Hr : reachable s) :
  (main s = Idle \/ main s = CleanedUp ->
     threads s = ∅ /\ forall s', steps s s' -> threads s' = ∅) /\
  (main s = Waiting -> threads s <> ∅) /\
  (main s = ShutDown \/ main s = Waiting -> exists s', steps s s' /\ main s' = Idle).
Proof.
  pose proof (reachable_ok s Hr) as Hok. split_and!.
  - intros Hm. split; [by apply idle_no_threads|]. intros s' Hs'.
    destruct (idle_stays s s' Hok Hm Hs'). by apply idle_no_threads.
  - intros Hm E. destruct Hok as (Hd & (l & _ & _ & Hl & Hn & _) & H). rewrite Hm in H.
    destruct H as (_ & _ & _ & H). rewrite E, dom_empty_L, Hl in Hd. rewrite Hn in H.
    destruct l; [done|]. set_solver.
  - intros Hm. by eapply drain.
Qed.

(** The main thread after the listener, with the connection still alive. *)
Definition demo_down : server_conn_tracker_t :=
  Tracker true true 1 (Some 1) {[1 := Entry 5 true None]} [5].

Lemma demo_down_reachable :
  reachable (System demo_down {[1 := Closed]} ∅ ShutDown).
Proof.
  unfold reachable. eapply steps_step; [eapply steps_step; [eapply steps_step; [apply demo_reachable|]|]|].
  - apply (step_close _ _ _ _ 1 (Entry 5 false None)); reflexivity.
  - apply step_stop. intros p. destruct (decide (p = 1)) as [->|].
    + by rewrite lookup_insert_eq.
    + by rewrite lookup_insert_ne, lookup_singleton_ne by done.
  - assert (E : (<[1 := Closed]> ({[1 := Running]} : gmap Z conn_phase)) = {[1 := Closed]})
      by apply insert_insert_eq.
    rewrite E. assert ({[5]} ∖ {[conn (Entry 5 false None)]} = (∅ : gset Z)) as -> by set_solver.
    apply (step_shutdown _ _ _ false). vm_compute. reflexivity.
Qed.

Lemma tracker_shutdown_reaches_all_witness :
  (forall block sock, fst (server_conn_tracker_begin block sock demo_down) = None) /\
  (forall p e, entries demo_down !! p = Some e -> closing e = true /\ conn e ∈ aborted demo_down).
Proof.
  apply (tracker_shutdown_reaches_all (System demo_down {[1 := Closed]} ∅ ShutDown));
    [apply demo_down_reachable|by left].
Defined.

Lemma tracker_wait_idle_exact_witness :
  let s := System demo_down {[1 := Closed]} ∅ ShutDown in
  (main s = Idle \/ main s = CleanedUp ->
     threads s = ∅ /\ forall s', steps s s' -> threads s' = ∅) /\
  (main s = Waiting -> threads s <> ∅) /\
  (main s = ShutDown \/ main s = Waiting -> exists s', steps s s' /\ main s' = Idle).
Proof. apply tracker_wait_idle_exact. apply demo_down_reachable. Defined.

(** A connection's thread closes the socket before it leaves the tracker: in
    between, [server_conn_tracker_shutdown_all] calls [shutdown] on a descriptor
    that is no longer open. *)
Lemma tracker_aborts_closed_socket :
  exists s, reachable s /\ main s = ShutDown /\ 5 ∈ aborted (tracker s) /\
    open_socks s = ∅ /\ threads s = {[1 := Closed]}.
Proof.
  exists (System demo_down {[1 := Closed]} ∅ ShutDown).
  split; [apply demo_down_reachable|]. split_and!; try done. simpl. set_solver.
Qed.
