(* ===== verification/Cli.v ===== *)
(** * The command line (src/cli.c, src/cli.h, and the option records of hfile.c)

    [argv] is a list of C strings, none of them [NULL]; the cursor [i] of the
    parsing loop is the list of the arguments that are left. *)

From S2P Require Import Prelude CLib World Protocol.

(** ** Definitions *)

Inductive parse_result_t := PARSE_OK | PARSE_HELP | PARSE_ERR.

Inductive Mode := server_mode | client_mode | status_mode | stop_mode.

#[export] Instance Mode_eq_dec : EqDecision Mode.
Proof. solve_decision. Defined.

Record Opt := MkOpt {
  mode : Mode;
  path : option bytes;
  remote_path : option bytes;
  output_path : option bytes;
  message : option bytes;
  ip : bytes;
  port : Z;
  msg_type : Z
}.

Record client_opt_t := ClientOpt {
  c_path : option bytes;
  c_remote_path : option bytes;
  c_output_path : option bytes;
  c_message : option bytes;
  c_ip : bytes;
  c_port : Z;
  c_msg_type : Z
}.

Record server_opt_t := ServerOpt { s_path : option bytes; s_port : Z; s_pid : Z }.

(** [None] is a non-zero result. *)
Definition parse_port (s : option bytes) : option Z :=
  match s with
  | None | Some [] => None
  | Some s =>
      let '(v, rest, erange) := strtoul s in
      if erange || bool_decide (rest = s) || negb (bool_decide (rest = [])) then None
      else if (v =? 0) || (65535 <? v) then None
      else Some (u16 v)
  end.

(** The value of an option and the arguments after it. *)
Definition need_value (rest : list bytes) : option (bytes * list bytes) :=
  match rest with [] => None | v :: rest => Some (v, rest) end.

Definition take_value := need_value.

(** The locals of [parse_args]. *)
Record parse_state := ParseState {
  opt : Opt;
  server_selected : bool;
  client_actions : Z;
  client_action : Z;
  output_seen : bool;
  ip_seen : bool;
  control_mode_selected : bool
}.

(** What one option letter does with its value. *)
Definition opt_d (v : bytes) (st : parse_state) : parse_state :=
  let o := opt st in
  ParseState (MkOpt server_mode (Some v) (remote_path o) (output_path o) (message o) (ip o)
                (port o) (msg_type o))
    true (client_actions st) (client_action st) (output_seen st) (ip_seen st)
    (control_mode_selected st).

Definition opt_c (v : bytes) (st : parse_state) : parse_state :=
  let o := opt st in
  ParseState (MkOpt client_mode (Some v) (remote_path o) (output_path o) None (ip o)
                (port o) HF_MSG_TYPE_SEND_FILE)
    (server_selected st) (client_actions st + 1) 99 (output_seen st) (ip_seen st)
    (control_mode_selected st).

Definition opt_g (v : bytes) (st : parse_state) : parse_state :=
  let o := opt st in
  ParseState (MkOpt client_mode (path o) (Some v) (output_path o) (message o) (ip o)
                (port o) HF_MSG_TYPE_GET_FILE)
    (server_selected st) (client_actions st + 1) 103 (output_seen st) (ip_seen st)
    (control_mode_selected st).

Definition opt_m (v : bytes) (st : parse_state) : parse_state :=
  let o := opt st in
  ParseState (MkOpt client_mode None (remote_path o) (output_path o) (Some v) (ip o)
                (port o) HF_MSG_TYPE_TEXT_MESSAGE)
    (server_selected st) (client_actions st + 1) 109 (output_seen st) (ip_seen st)
    (control_mode_selected st).

Definition opt_o (v : bytes) (st : parse_state) : parse_state :=
  let o := opt st in
  ParseState (MkOpt (mode o) (path o) (remote_path o) (Some v) (message o) (ip o)
                (port o) (msg_type o))
    (server_selected st) (client_actions st) (client_action st) true (ip_seen st)
    (control_mode_selected st).

Definition opt_i (v : bytes) (st : parse_state) : parse_state :=
  let o := opt st in
  ParseState (MkOpt (mode o) (path o) (remote_path o) (output_path o) (message o) v
                (port o) (msg_type o))
    (server_selected st) (client_actions st) (client_action st) (output_seen st) true
    (control_mode_selected st).

Definition opt_p (v : Z) (st : parse_state) : parse_state :=
  let o := opt st in
  ParseState (MkOpt (mode o) (path o) (remote_path o) (output_path o) (message o) (ip o)
                v (msg_type o))
    (server_selected st) (client_actions st) (client_action st) (output_seen st) (ip_seen st)
    (control_mode_selected st).

(** The [switch]: the guard of a letter, and what it does with a value. [None]
    is an error; [-h] is handled by the loop. *)
Definition option_step (letter : Z) (st : parse_state) : option (bytes -> option parse_state) :=
  let refuse (b : bool) f := if b then None else Some f in
  let control := control_mode_selected st in
  if letter =? 100 then refuse (control || server_selected st) (fun v => Some (opt_d v st))
  else if letter =? 99 then refuse (control || (client_action st =? 99)) (fun v => Some (opt_c v st))
  else if letter =? 103 then refuse (control || (client_action st =? 103)) (fun v => Some (opt_g v st))
  else if letter =? 109 then refuse (control || (client_action st =? 109)) (fun v => Some (opt_m v st))
  else if letter =? 111 then refuse (control || output_seen st) (fun v => Some (opt_o v st))
  else if letter =? 105 then Some (fun v => Some (opt_i v st))
  else if letter =? 112 then
    refuse control (fun v => match parse_port (Some v) with
                             | None => None | Some p => Some (opt_p p st) end)
  else None.

(** The loop over the arguments from [arg_start] on. *)
Fixpoint parse_loop (args : list bytes) (st : parse_state) : parse_result_t * parse_state :=
  match args with
  | [] => (PARSE_OK, st)
  | a :: rest =>
      match a with
      | [45; letter] => (* '-' and one letter *)
          if letter =? 45 then (PARSE_ERR, st)
          else if letter =? 104 then (PARSE_HELP, st)
          else
            match option_step letter st with
            | None => (PARSE_ERR, st)
            | Some f =>
                match rest with
                | [] => (PARSE_ERR, st)
                | v :: rest =>
                    match f v with
                    | None => (PARSE_ERR, st)
                    | Some st => parse_loop rest st
                    end
                end
            end
      | _ => (PARSE_ERR, st)
      end
  end.

(** The checks after the loop. *)
Definition parse_finish (st : parse_state) : parse_result_t * Opt :=
  let o := opt st in
  let is_none (v : option bytes) := bool_decide (v = None) in
  if output_seen st && negb (client_action st =? 103) then (PARSE_ERR, o)
  else if negb (server_selected st) && (client_actions st =? 0) && negb (control_mode_selected st)
  then (PARSE_ERR, o)
  else if server_selected st && (0 <? client_actions st) then (PARSE_ERR, o)
  else if 1 <? client_actions st then (PARSE_ERR, o)
  else
    let o :=
      if negb (control_mode_selected st) then
        MkOpt (if server_selected st then server_mode else client_mode) (path o) (remote_path o)
          (output_path o) (message o) (ip o) (port o) (msg_type o)
      else o in
    let is_mode m := bool_decide (mode o = m) in
    if is_mode server_mode && is_none (path o) then (PARSE_ERR, o)
    else if is_mode client_mode && (client_action st =? 99) && is_none (path o) then (PARSE_ERR, o)
    else if is_mode client_mode && (client_action st =? 103) && is_none (remote_path o)
    then (PARSE_ERR, o)
    else if is_mode client_mode && (client_action st =? 109) && is_none (message o)
    then (PARSE_ERR, o)
    else if ip_seen st && negb (is_mode client_mode) then (PARSE_ERR, o)
    else (PARSE_OK, o).

Definition default_opt (mode0 : Mode) : Opt :=
  MkOpt mode0 None None None None (bs "127.0.0.1") 8888 0.

(** [parse_args(argc, argv, opt)] when [opt->mode] was [mode0]. *)
Definition parse_args (argv : list bytes) (mode0 : Mode) : parse_result_t * Opt :=
  let start o control args :=
    let '(r, st) := parse_loop args (ParseState o false 0 0 false false control) in
    match r with PARSE_OK => parse_finish st | _ => (r, opt st) end in
  match argv with
  | _ :: a1 :: rest =>
      if streq a1 (bs "status") then start (default_opt status_mode) true rest
      else if streq a1 (bs "stop") then start (default_opt stop_mode) true rest
      else start (default_opt mode0) false (a1 :: rest)
  | _ => start (default_opt mode0) false []
  end.

(** hfile.c *)
Definition init_server_opt (o : Opt) (s : server_opt_t) : server_opt_t :=
  ServerOpt (path o) (port o) (s_pid s).

Definition init_client_opt (o : Opt) : client_opt_t :=
  ClientOpt (path o) (remote_path o) (output_path o) (message o) (ip o) (port o) (msg_type o).

(** *** Specifications *)

(** The options the program acts on. *)
Definition opt_ok (o : Opt) : Prop :=
  1 <= port o <= 65535 /\
  match mode o with
  | server_mode =>
      is_Some (path o) /\ remote_path o = None /\ output_path o = None /\ message o = None /\
      msg_type o = 0 /\ ip o = bs "127.0.0.1"
  | client_mode =>
      (msg_type o = HF_MSG_TYPE_SEND_FILE /\ is_Some (path o) /\ remote_path o = None /\
         output_path o = None /\ message o = None) \/
      (msg_type o = HF_MSG_TYPE_GET_FILE /\ is_Some (remote_path o) /\ path o = None /\
         message o = None) \/
      (msg_type o = HF_MSG_TYPE_TEXT_MESSAGE /\ is_Some (message o) /\ path o = None /\
         remote_path o = None /\ output_path o = None)
  | status_mode | stop_mode => o = default_opt (mode o)
  end.

(** A command line for them. *)
Definition opt_args (letter : string) (v : option bytes) : list bytes :=
  match v with Some v => [bs letter; v] | None => [] end.

Definition render (o : Opt) : list bytes :=
  let net := opt_args "-i" (Some (ip o)) ++ opt_args "-p" (Some (udec (port o))) in
  match mode o with
  | status_mode => [bs "status"]
  | stop_mode => [bs "stop"]
  | server_mode => opt_args "-d" (path o) ++ opt_args "-p" (Some (udec (port o)))
  | client_mode =>
      opt_args "-c" (path o) ++ opt_args "-g" (remote_path o) ++ opt_args "-o" (output_path o) ++
      opt_args "-m" (message o) ++ net
  end.

(** What holds of the locals of [parse_args] whenever the loop looks at them. *)
Record parse_inv (st : parse_state) : Prop := {
  inv_port : 1 <= port (opt st) <= 65535;
  inv_ip : ip_seen st = false -> ip (opt st) = bs "127.0.0.1";
  inv_output : output_seen st = false -> output_path (opt st) = None;
  inv_actions : 0 <= client_actions st;
  inv_none : client_actions st = 0 ->
    client_action st = 0 /\ remote_path (opt st) = None /\ message (opt st) = None /\
    msg_type (opt st) = 0 /\ (is_Some (path (opt st)) <-> server_selected st = true);
  inv_one : client_actions st = 1 -> server_selected st = false ->
    (client_action st = 99 /\ msg_type (opt st) = HF_MSG_TYPE_SEND_FILE /\
       is_Some (path (opt st)) /\ remote_path (opt st) = None /\ message (opt st) = None) \/
    (client_action st = 103 /\ msg_type (opt st) = HF_MSG_TYPE_GET_FILE /\
       is_Some (remote_path (opt st)) /\ path (opt st) = None /\ message (opt st) = None) \/
    (client_action st = 109 /\ msg_type (opt st) = HF_MSG_TYPE_TEXT_MESSAGE /\
       is_Some (message (opt st)) /\ path (opt st) = None /\ remote_path (opt st) = None);
  inv_control : control_mode_selected st = true ->
    server_selected st = false /\ client_actions st = 0 /\ port (opt st) = 8888 /\
    output_seen st = false /\ (mode (opt st) = status_mode \/ mode (opt st) = stop_mode)
}.

(** ** Theorems *)

Lemma parse_port_range s v : parse_port s = Some v -> 1 <= v <= 65535.
Proof.
  unfold parse_port. destruct s as [[|c s]|]; try done.
  pose proof (strtoul_range (c :: s)) as Hr.
  destruct (strtoul (c :: s)) as [[n rest] erange]. cbn [fst] in Hr. case_if; [done|].
  destruct ((n =? 0) || (65535 <? n)) eqn:Hn; [done|]. intros [= <-].
  unfold u16. rewrite Z.mod_small; lia.
Qed.

Lemma parse_port_udec v : 1 <= v <= 65535 -> parse_port (Some (udec v)) = Some v.
Proof.
  intros Hv. unfold parse_port. pose proof (strtoul_udec v ltac:(unfold ULONG_MAX; lia)) as E.
  destruct (udec v) as [|c s] eqn:Eu.
  { exfalso. injection E as E. lia. }
  rewrite E. rewrite bool_decide_eq_false_2, bool_decide_eq_true_2 by done. cbn [orb negb].
  destruct ((v =? 0) || (65535 <? v)) eqn:Hn; [lia|]. unfold u16. by rewrite Z.mod_small by lia.
Qed.

(** *** The loop keeps the invariant *)

Lemma start_inv m control :
  (control = true -> m = status_mode \/ m = stop_mode) ->
  parse_inv (ParseState (default_opt m) false 0 0 false false control).
Proof.
  intros Hc. split; simpl; try done; try lia. intros Hcc. split_and!; auto.
Qed.

#[local] Opaque parse_port.

Lemma option_step_inv letter st f v st' :
  parse_inv st -> option_step letter st = Some f -> f v = Some st' -> parse_inv st'.
Proof.
  intros [H1 H2 H3 H4 H5 H6 H7]. unfold option_step.
  assert (Hnone : client_actions st + 1 = 1 -> server_selected st = false ->
    client_actions st = 0 /\ path (opt st) = None /\ remote_path (opt st) = None /\
    message (opt st) = None).
  { intros Ha Hs. destruct H5 as (_ & ? & ? & _ & Hp); [lia|]. split_and!; try done; [lia|].
    apply eq_None_not_Some. rewrite Hp. congruence. }
  repeat (case_if; try done); intros [= <-]; cbv beta; intros E;
    try (injection E as <-); repeat match goal with
      H : (_ || _)%bool = false |- _ => apply orb_false_elim in H as [? ?] end.
  - split; simpl; try done; try lia; try congruence. intros Ha. destruct (H5 Ha) as (? & ? & ? & ? & _).
    by split_and!.
  - split; simpl; try done; try lia; try congruence. intros Ha Hs.
    destruct (Hnone Ha Hs) as (_ & _ & ? & _). left. by split_and!.
  - split; simpl; try done; try lia; try congruence. intros Ha Hs.
    destruct (Hnone Ha Hs) as (_ & ? & _ & ?). right. left. by split_and!.
  - split; simpl; try done; try lia; try congruence. intros Ha Hs.
    destruct (Hnone Ha Hs) as (_ & ? & ? & _). right. right. by split_and!.
  - split; simpl; try done; congruence.
  - split; simpl; done || lia.
  - destruct (parse_port (Some v)) as [n|] eqn:Ep; [|done]. apply parse_port_range in Ep.
    injection E as <-. split; simpl; try done; congruence.
Qed.

Lemma parse_loop_inv n args st r st' :
  (length args < n)%nat -> parse_inv st -> parse_loop args st = (r, st') -> parse_inv st'.
Proof.
  revert args st. induction n as [|n IH]; intros args st Hn Hinv; [lia|].
  destruct args as [|a rest]; cbn [parse_loop]; [by intros [= _ <-]|].
  assert (Hret : forall r0, (r0, st) = (r, st') -> parse_inv st') by (by intros r0 [= _ <-]).
  destruct a as [|c0 [|letter [|]]]; try (by repeat case_match; apply Hret).
  destruct (decide (c0 = 45)) as [->|]; [|by repeat case_match; try apply Hret].
  case_if; [by apply Hret|]. case_if; [by apply Hret|].
  destruct (option_step letter st) as [f|] eqn:Ef; [|by apply Hret].
  destruct rest as [|v rest]; [by apply Hret|]. destruct (f v) as [st1|] eqn:Ev; [|by apply Hret].
  apply IH; [simpl in Hn; lia|]. by eapply option_step_inv.
Qed.

Lemma parse_finish_ok st o :
  parse_inv st -> parse_finish st = (PARSE_OK, o) -> opt_ok o.
Proof.
  intros [H1 H2 H3 H4 H5 H6 H7]. unfold parse_finish. cbv zeta.
  destruct (output_seen st && _) eqn:Ho; [done|].
  destruct (negb (server_selected st) && _ && _) eqn:Hsel; [done|].
  destruct (server_selected st && _) eqn:Hboth; [done|].
  destruct (1 <? client_actions st) eqn:Hmany; [done|].
  set (o1 := if negb (control_mode_selected st) then _ else _).
  repeat (case_if; [done|]). intros [= <-].
  destruct (control_mode_selected st) eqn:Hc; simpl in o1.
  - destruct (H7 eq_refl) as (Hs & Ha & Hp & Hos & Hm). destruct (H5 Ha) as (_ & Hr & Hms & Ht & Hpath).
    assert (path (opt st) = None) as Hpn.
    { apply eq_None_not_Some. rewrite Hpath. congruence. }
    assert (ip (opt st) = bs "127.0.0.1") as Hip.
    { apply H2. destruct (ip_seen st); [|done]. subst o1. simpl in *.
      rewrite bool_decide_eq_false_2 in Heqb3; [done|]. destruct Hm as [-> | ->]; done. }
    assert (o1 = default_opt (mode (opt st))) as E.
    { subst o1. destruct (opt st). simpl in *. rewrite Hp, Hr, Hms, Ht, Hpn, Hip, (H3 Hos). done. }
    unfold opt_ok. subst o1. rewrite E. destruct Hm as [-> | ->]; simpl; split; done || lia.
  - subst o1. unfold opt_ok. simpl. split; [done|].
    destruct (server_selected st) eqn:Hs.
    + assert (client_actions st = 0) as Ha by lia.
      destruct (H5 Ha) as (Hca & Hr & Hms & Ht & Hpath).
      assert (output_seen st = false) as Hos by (destruct (output_seen st); [simpl in *; lia|done]).
      split_and!; try done; [by apply Hpath|by apply H3|].
      apply H2. destruct (ip_seen st); [|done]. simpl in *. done.
    + assert (client_actions st = 1) as Ha by (simpl in Hsel; lia).
      assert (Hos : client_action st <> 103 -> output_path (opt st) = None).
      { intros Hne. apply H3. destruct (output_seen st); [simpl in *; lia|done]. }
      destruct (H6 Ha eq_refl) as [(E & ? & ? & ? & ?)|[(E & ? & ? & ? & ?)|(E & ? & ? & ? & ?)]].
      * left. split_and!; try done. apply Hos. lia.
      * right. left. by split_and!.
      * right. right. split_and!; try done. apply Hos. lia.
Qed.

Lemma parse_args_inv argv m0 o :
  parse_args argv m0 = (PARSE_OK, o) -> opt_ok o.
Proof.
  assert (Hstart : forall m control args,
    (control = true -> m = status_mode \/ m = stop_mode) ->
    (let '(r, st) := parse_loop args (ParseState (default_opt m) false 0 0 false false control) in
     match r with PARSE_OK => parse_finish st | _ => (r, opt st) end) = (PARSE_OK, o) -> opt_ok o).
  { intros m control args Hc.
    destruct (parse_loop args _) as [r st] eqn:E. intros H.
    assert (r = PARSE_OK) as -> by (by destruct r).
    eapply parse_finish_ok; [|done]. eapply (parse_loop_inv (S (length args))); [|by apply start_inv|done]. lia. }
  unfold parse_args. destruct argv as [|a0 [|a1 rest]].
  - by apply Hstart.
  - by apply Hstart.
  - case_if; [apply Hstart; auto|]. case_if; [apply Hstart; auto|]. by apply Hstart.
Qed.

(** ** Properties *)

(** Every command line that is accepted is acted on as one complete command:
    a server with a directory; or exactly one client action, with its argument
    and the matching message type, [-o] only with [-g]; or [status] or [stop]
    with nothing else; the port is between 1 and 65535. *)
Theorem parse_args_ok argv m0 o (H : parse_args argv m0 = (PARSE_OK, o)) : opt_ok o.
Proof. by eapply parse_args_inv. Qed.

Lemma parse_args_ok_witness :
  opt_ok (MkOpt client_mode None (Some (bs "f")) (Some (bs "o")) None (bs "10.0.0.2") 99
            HF_MSG_TYPE_GET_FILE).
Proof.
  apply (parse_args_ok [bs "hf"; bs "-g"; bs "f"; bs "-p"; bs "99"; bs "-i"; bs "10.0.0.2";
                        bs "-o"; bs "o"] server_mode).
  vm_compute. reflexivity.
Defined.

(** Every complete command has a command line: the options printed one after
    the other parse back to the same record, whatever the argument strings are
    (with a 16-bit port in decimal). *)
Theorem parse_args_render argv0 o m0 (Hok : opt_ok o) :
  parse_args (argv0 :: render o) m0 = (PARSE_OK, o).
Proof.
  destruct o as [m p r out msg i pt ty]. destruct Hok as [Hport Hok]. simpl in Hport, Hok.
  assert (Hp : parse_port (Some (udec pt)) = Some pt) by by apply parse_port_udec.
  destruct m; simpl in Hok.
  - destruct Hok as ([d ->] & -> & -> & -> & -> & ->).
    lazy -[parse_port udec]. by rewrite Hp.
  - destruct Hok as [(-> & [v ->] & -> & -> & ->)|[(-> & [v ->] & -> & ->)|(-> & [v ->] & -> & -> & ->)]];
      [|destruct out as [out|]|]; lazy -[parse_port udec]; by rewrite Hp.
  - rewrite Hok. reflexivity.
  - rewrite Hok. reflexivity.
Qed.

Lemma parse_args_render_witness :
  parse_args [bs "hf"; bs "-m"; bs "-d"; bs "-i"; bs "::1"; bs "-p"; bs "65535"] server_mode =
    (PARSE_OK, MkOpt client_mode None None None (Some (bs "-d")) (bs "::1") 65535
                 HF_MSG_TYPE_TEXT_MESSAGE).
Proof.
  apply (parse_args_render (bs "hf") (MkOpt client_mode None None None (Some (bs "-d")) (bs "::1") 65535
                 HF_MSG_TYPE_TEXT_MESSAGE) server_mode).
  split; [simpl; lia|]. right. right. repeat split. by eexists.
Defined.

(** [strtoul] skips blanks and takes signs: a port may be written as the
    negation of a 64-bit number. *)
Lemma parse_port_lenient :
  parse_port (Some (bs " +80")) = Some 80 /\
  parse_port (Some (bs "-18446744073709551615")) = Some 1.
Proof. split; vm_compute; reflexivity. Qed.
