(* ===== verification/AppService.v ===== *)
(** * The application service (src/app_service.c)

    What the protocol and the HTTP handlers share: storing a message, receiving
    an upload, opening a file for download. *)

From S2P Require Import Prelude CLib World Logic Fs Net Protocol TransferIo MessageStore.

(** ** Definitions *)

Inductive app_upload_kind_t := APP_UPLOAD_PROTOCOL | APP_UPLOAD_HTTP.

(** [None] is the all-zero [info] of [{.fd = -1}], whose kind is no enumerator. *)
Record app_download_t := AppDownload { fd : Z; info : option fs_path_info_t }.

Definition download_none : app_download_t := AppDownload (-1) None.

(** [download.info.size]. *)
Definition download_size (d : app_download_t) : Z := from_option size 0 (info d).

Definition app_submit_message (message : option bytes) : M protocol_result_t :=
  match message with
  | None => ret PROTOCOL_ERR_INVALID_ARGUMENT
  | Some m =>
      if HF_PROTOCOL_MAX_TEXT_MESSAGE_SIZE <? strlen m then ret PROTOCOL_ERR_MSG_TOO_LARGE
      else
        let! r := message_store_set message in
        if negb (r =? 0) then ret PROTOCOL_ERR_IO else ret PROTOCOL_OK
  end.

(** The result and what [saved_path_out] received. *)
Definition app_receive_file (conn : Z) (base_dir target_path : option bytes) (content_size : Z)
    (upload_kind : app_upload_kind_t) (saved_path_cap : Z)
    : M (protocol_result_t * option bytes) :=
  if bool_decide (base_dir = None) || bool_decide (target_path = None) || (saved_path_cap =? 0)
  then ret (PROTOCOL_ERR_INVALID_ARGUMENT, None)
  else
    match upload_kind with
    | APP_UPLOAD_PROTOCOL =>
        transfer_recv_socket_file conn base_dir target_path content_size saved_path_cap
    | APP_UPLOAD_HTTP =>
        transfer_recv_socket_http_file conn base_dir target_path content_size saved_path_cap
    end.

(** The result and [*download_out], which held [download] before. *)
Definition app_prepare_download (base_dir target_path : option bytes) (download : app_download_t)
    : M (protocol_result_t * app_download_t) :=
  if bool_decide (base_dir = None) || bool_decide (target_path = None) then
    ret (PROTOCOL_ERR_INVALID_ARGUMENT, download)
  else
    let '(r, full_path) := fs_join_relative_path PATH_CAP base_dir target_path in
    if negb (r =? 0) then ret (PROTOCOL_ERR_INVALID_ARGUMENT, download)
    else
      let! fd := fs_open full_path (Z.lor O_RDONLY O_NOFOLLOW) 0 in
      if fd =? -1 then ret (PROTOCOL_ERR_IO, download)
      else
        let! st := sys_fstat fd in
        match st with
        | None => let! _ := fs_close fd in ret (PROTOCOL_ERR_IO, download)
        | Some st =>
            match st_kind st with
            | S_IFREG =>
                if st_size st <? 0 then
                  let! _ := fs_close fd in ret (PROTOCOL_ERR_INVALID_ARGUMENT, download)
                else
                  ret (PROTOCOL_OK,
                       AppDownload fd (Some (PathInfo FS_PATH_KIND_FILE (u64 (st_size st))
                                                      (u64 (st_mtime st)))))
            | _ => let! _ := fs_close fd in ret (PROTOCOL_ERR_INVALID_ARGUMENT, download)
            end
        end.

Definition app_download_cleanup (download : app_download_t) : M app_download_t :=
  if negb (fd download =? -1) then
    let! _ := fs_close (fd download) in ret (AppDownload (-1) (info download))
  else ret download.

(** ** Theorems *)

Lemma app_submit_message_spec m w :
  ms_initialized (p_store (w_prog w)) = true ->
  wp (app_submit_message (Some m)) (fun r w' =>
    only_store w w' /\ w_waits w' = w_waits w /\
    (r = PROTOCOL_OK /\ zlen m <= HF_PROTOCOL_MAX_TEXT_MESSAGE_SIZE /\
       p_store (w_prog w') =
         store_set (ztake (message_store_trim (S (length m)) m (strlen m)) m) (p_store (w_prog w)) \/
     r <> PROTOCOL_OK /\ p_store (w_prog w') = p_store (w_prog w)) /\
    (w_faults w = [] -> zlen m <= HF_PROTOCOL_MAX_TEXT_MESSAGE_SIZE -> r = PROTOCOL_OK)) w.
Proof.
  intros Hi. unfold app_submit_message, strlen at 1.
  destruct (Z.ltb_spec HF_PROTOCOL_MAX_TEXT_MESSAGE_SIZE (zlen m)).
  { wp_step. split; [done|]. split; [done|]. split; [by right|lia]. }
  wp_step. wp_use message_store_set_spec; [done|].
  intros r w' (Ho & Hw & H0 & [[-> H1]|[-> H1]]).
  - simpl negb. cbv iota. wp_step. split; [done|]. split; [done|]. split; [by left|done].
  - simpl negb. cbv iota. wp_step. split; [done|]. split; [done|]. split; [by right|].
    intros E. by specialize (H0 E).
Qed.

(** The text the store keeps of [message]. *)
Definition stored_text (message : bytes) : bytes :=
  ztake (message_store_trim (S (length message)) message (strlen message)) message.

(** Everything but the connection, the store and [errno] is as it was. *)
Definition only_message (w w' : world) : Prop :=
  w_env w' = w_env w /\ w_files w' = w_files w /\
  p_shutdown (w_prog w') = p_shutdown (w_prog w) /\ (flen w' <= flen w)%nat.

Lemma only_message_net w w' : only_net w w' -> only_message w w'.
Proof. unfold_frames. unfold only_message. intros. destruct_and!. split_and!; done || congruence. Qed.
Lemma only_message_store w w' : only_store w w' -> only_message w w'.
Proof. unfold only_store, only_message. intros. destruct_and!. by split_and!. Qed.
Lemma only_message_trans w1 w2 w3 : only_message w1 w2 -> only_message w2 w3 -> only_message w1 w3.
Proof. unfold only_message. intros. destruct_and!. split_and!; congruence || lia. Qed.

(** A file opened for download: [fd] is new, at the start of the regular file at
    [full], whose size is reported. *)
Definition download_opened (full : bytes) (d : app_download_t) (f f' : files_t) : Prop :=
  fd d = f_next f /\ f' = opened full false f /\
  exists c m, f_fs f !! full = Some (NFile c m) /\ download_size d = u64 (zlen c).

(** The files of the world fit the 64-bit sizes of the system calls. *)
Definition sizes_fit (fs : gmap bytes node) : Prop :=
  forall p c m, fs !! p = Some (NFile c m) -> zlen c < 2 ^ 63.

(** The descriptor is released again. *)
Definition files_released (f f' : files_t) : Prop :=
  f_fs f' = f_fs f /\ f_fds f' = f_fds f /\ f_next f <= f_next f'.

Lemma opened_close full f f' :
  fds_ok f -> f' = set_fds (delete (f_next f) (f_fds (opened full false f))) (opened full false f) ->
  files_released f f'.
Proof.
  intros [_ Hok] ->. split_and!; simpl; [done| |lia].
  rewrite delete_insert_eq, delete_id; [done|]. apply Hok. lia.
Qed.

Lemma released_ok f f' : fds_ok f -> files_released f f' -> fds_ok f'.
Proof. intros Hok (H1 & H2 & H3). by eapply fds_ok_same. Qed.

Lemma app_prepare_download_spec base target d0 w :
  fds_ok (w_files w) ->
  wp (app_prepare_download (Some base) (Some target) d0) (fun '(r, d) w' =>
    only_files w w' /\
    (r = PROTOCOL_OK -> (target = [] \/ relative_path_ok target) /\
       download_opened (target_path base target) d (w_files w) (w_files w')) /\
    (r <> PROTOCOL_OK -> d = d0 /\ files_released (w_files w) (w_files w')) /\
    (w_faults w = [] -> relative_path_ok target ->
       zlen (target_path base target) < PATH_CAP ->
       (exists c m, f_fs (w_files w) !! target_path base target = Some (NFile c m)) ->
       r = PROTOCOL_OK)) w.
Proof.
  intros Hok. unfold app_prepare_download. rewrite !bool_decide_eq_false_2 by done. cbn [orb].
  destruct (fs_join_relative_path PATH_CAP (Some base) (Some target)) as [r full] eqn:Ej.
  destruct (Z.eqb_spec r 0) as [->|Hr]; simpl negb; cbv iota; cycle 1.
  { wp_step. split_and!; try done. intros _ Hrel Hlen _. destruct Hr.
    assert (target <> []) as Hne.
    { intros ->. apply fs_validate_relative_path_iff in Hrel. done. }
    rewrite fs_join_relative_path_fits in Ej; [by injection Ej as <- _|by vm_compute|done|].
    by destruct target. }
  apply fs_join_target in Ej as (Htarget & -> & Hlen).
  wp_step. unfold fs_open. apply wp_sys_open_nofollow.
  { intros w1 Hf1 Hw1 H1. change (-1 =? -1) with true. cbv iota. wp_step. rewrite Hw1.
    split_and!; try done.
    intros E _ _ (c & m & Hc). destruct (H1 E) as [?|(t & m' & ?)]; congruence. }
  intros n w1 Hf1 Hn Hw1.
  assert (f_next (w_files w) =? -1 = false) as -> by (destruct Hok; lia).
  wp_step. apply (wp_sys_fstat _ (target_path base target) n).
  { exists 0, false. rewrite Hw1. simpl. by rewrite lookup_insert_eq. }
  { by rewrite Hw1. }
  intros st w2 Hf2 Hst.
  assert (Hw2 : w_files w2 = opened (target_path base target) false (w_files w)).
  { rewrite <- Hw1. frame. }
  assert (Hf : only_files w w2) by (etrans; [done|by apply only_errno_files]).
  assert (Hfail : forall r, r <> PROTOCOL_OK ->
    (w_faults w = [] -> forall c m, n <> NFile c m) ->
    wp (let! _ := fs_close (f_next (w_files w)) in ret (r, d0)) (fun '(r, d) w' =>
      only_files w w' /\
      (r = PROTOCOL_OK -> (target = [] \/ relative_path_ok target) /\
         download_opened (target_path base target) d (w_files w) (w_files w')) /\
      (r <> PROTOCOL_OK -> d = d0 /\ files_released (w_files w) (w_files w')) /\
      (w_faults w = [] -> relative_path_ok target ->
         zlen (target_path base target) < PATH_CAP ->
         (exists c m, f_fs (w_files w) !! target_path base target = Some (NFile c m)) ->
         r = PROTOCOL_OK)) w2).
  { intros r Hr Hlive. wp_step. unfold fs_close. apply wp_sys_close.
    intros rc w3 Hf3 _ _ Hw3. wp_step. rewrite Hw2 in Hw3.
    split_and!; [by etrans|done| |].
    - intros _. split; [done|]. by eapply opened_close.
    - intros E _ _ (c & m & Hc). exfalso. apply (Hlive E c m). congruence. }
  destruct st as [st|].
  - subst st. destruct n as [c m|m|t m|m]; try (by apply Hfail). simpl.
    destruct (Z.ltb_spec (zlen c) 0); [lia|]. wp_step. split_and!; try done.
    intros _. split; [done|]. split_and!; [done|done|]. exists c, m. by split.
  - apply Hfail; [done|]. intros E. destruct Hst. by eapply only_io_no_faults; [apply only_files_io|].
Qed.

Lemma app_download_cleanup_spec full d f w :
  fds_ok f -> download_opened full d f (w_files w) ->
  wp (app_download_cleanup d) (fun _ w' =>
    only_files w w' /\ files_released f (w_files w')) w.
Proof.
  intros Hok (Hfd & Hf & _). unfold app_download_cleanup.
  destruct (Z.eqb_spec (fd d) (-1)); [destruct Hok; lia|]. simpl negb. cbv iota.
  wp_step. unfold fs_close. apply wp_sys_close. intros rc w1 Hf1 _ _ Hw1. wp_step.
  split; [done|]. rewrite Hfd, Hf in Hw1. by eapply opened_close.
Qed.

(** ... also when the file has been read meanwhile. *)
Lemma app_download_cleanup_moved full pos d f w :
  fds_ok f -> fd d = f_next f ->
  w_files w = set_fds (<[fd d := FdFile full pos false]> (f_fds (opened full false f)))
                (opened full false f) ->
  wp (app_download_cleanup d) (fun _ w' =>
    only_files w w' /\ files_released f (w_files w')) w.
Proof.
  intros Hok Hfd Hf. unfold app_download_cleanup.
  destruct (Z.eqb_spec (fd d) (-1)); [destruct Hok; lia|]. simpl negb. cbv iota.
  wp_step. unfold fs_close. apply wp_sys_close. intros rc w1 Hf1 _ _ Hw1. wp_step.
  split; [done|]. rewrite Hw1, Hf, Hfd. destruct Hok as [_ Hok]. split_and!; simpl; [done| |lia].
  rewrite insert_insert_eq, delete_insert_eq, delete_id; [done|]. apply Hok. lia.
Qed.

Lemma app_download_cleanup_closed d w :
  wp (app_download_cleanup d) (fun d' _ => fd d' = -1) w.
Proof.
  unfold app_download_cleanup. destruct (Z.eqb_spec (fd d) (-1)); simpl negb; cbv iota.
  - by wp_step.
  - wp_step. unfold fs_close. apply wp_sys_close. intros. by wp_step.
Qed.

Lemma app_download_cleanup_done d : fd d = -1 -> app_download_cleanup d = ret d.
Proof. unfold app_download_cleanup. by intros ->. Qed.

(** ** Properties *)

(** [app_prepare_download] opens what it should and nothing else: on success
    the target is empty or a valid relative path, the descriptor is a new one at
    the start of a regular file below the base directory -- not of a symbolic
    link -- and the size is that file's; on an error the caller's download is
    untouched and no descriptor stays open; no file ever changes; and a regular
    file with a valid name is refused only when a call fails. *)
Theorem app_prepare_download_exact base target d0 w (Hfds : fds_ok (w_files w)) :
  wp (app_prepare_download (Some base) (Some target) d0) (fun '(r, d) w' =>
    f_fs (w_files w') = f_fs (w_files w) /\
    (r = PROTOCOL_OK -> (target = [] \/ relative_path_ok target) /\
       download_opened (target_path base target) d (w_files w) (w_files w')) /\
    (r <> PROTOCOL_OK -> d = d0 /\ f_fds (w_files w') = f_fds (w_files w)) /\
    (w_faults w = [] -> relative_path_ok target ->
       zlen (target_path base target) < PATH_CAP ->
       (exists c m, f_fs (w_files w) !! target_path base target = Some (NFile c m)) ->
       r = PROTOCOL_OK)) w.
Proof.
  wp_use app_prepare_download_spec; [done|]. intros [r d] w' (_ & Hok & Hbad & Hlive).
  split; [|split; [done|split; [|done]]].
  - destruct (decide (r = PROTOCOL_OK)) as [E|E].
    + destruct (Hok E) as (_ & _ & -> & _). done.
    + apply (Hbad E).
  - intros E. destruct (Hbad E) as (-> & _ & ? & _). done.
Qed.

Lemma app_prepare_download_exact_witness :
  let w := demo_world [FNone; FErr EIO] []
             (demo_files (<[bs "d/f" := NFile [1; 2] 9]> {[bs "d" := NDir 0]})) in
  wp (app_prepare_download (Some (bs "d")) (Some (bs "f")) download_none)
    (fun '(r, d) w' =>
    f_fs (w_files w') = f_fs (w_files w) /\
    (r = PROTOCOL_OK -> (bs "f" = [] \/ relative_path_ok (bs "f")) /\
       download_opened (target_path (bs "d") (bs "f")) d (w_files w) (w_files w')) /\
    (r <> PROTOCOL_OK -> d = download_none /\
       f_fds (w_files w') = f_fds (w_files w)) /\
    (w_faults w = [] -> relative_path_ok (bs "f") ->
       zlen (target_path (bs "d") (bs "f")) < PATH_CAP ->
       (exists c m, f_fs (w_files w) !! target_path (bs "d") (bs "f") = Some (NFile c m)) ->
       r = PROTOCOL_OK)) w.
Proof. apply app_prepare_download_exact, demo_files_ok. Defined.

(** A download that was prepared and cleaned up leaves the descriptor table
    as it was, whatever fails, and cleaning up again does nothing. *)
Theorem app_download_closes base target w (Hfds : fds_ok (w_files w)) :
  wp (let! (_, d) := app_prepare_download (Some base) (Some target)
                       download_none in
      app_download_cleanup d) (fun d w' =>
    f_fds (w_files w') = f_fds (w_files w) /\ f_fs (w_files w') = f_fs (w_files w) /\
    app_download_cleanup d w' = ret d w') w.
Proof.
  wp_step. wp_use app_prepare_download_spec; [done|]. intros [r d] w1 (_ & Hok & Hbad & _).
  destruct (decide (r = PROTOCOL_OK)) as [E|E].
  - destruct (Hok E) as (_ & Ho). eapply wp_mono.
    { eapply wp_conj; [by eapply app_download_cleanup_spec|apply app_download_cleanup_closed]. }
    intros d' w2 [(_ & H1 & H2 & _) Hd]. split; [done|]. split; [done|].
    by rewrite app_download_cleanup_done.
  - destruct (Hbad E) as (-> & H1 & H2 & _). rewrite app_download_cleanup_done by done.
    apply wp_ret. split_and!; [done|done|]. by rewrite app_download_cleanup_done.
Qed.

Lemma app_download_closes_witness :
  let w := demo_world [] [] (demo_files (<[bs "d/f" := NFile [1; 2] 9]> {[bs "d" := NDir 0]})) in
  wp (let! (_, d) := app_prepare_download (Some (bs "d")) (Some (bs "f"))
                       download_none in
      app_download_cleanup d) (fun d w' =>
    f_fds (w_files w') = f_fds (w_files w) /\ f_fs (w_files w') = f_fs (w_files w) /\
    app_download_cleanup d w' = ret d w') w.
Proof. apply app_download_closes, demo_files_ok. Defined.
