(* ===== verification/HttpResponse.v ===== *)
(** * Responses of the HTTP server (src/http.c)

    Status line, headers and body; JSON errors; the event stream of
    [GET /api/messages/stream]; and reading a body only to drop it. *)

From S2P Require Import Prelude CLib World Logic Net HttpBuf HttpJson HttpRequest.

(** ** Definitions *)

(** [char header[1024]]. *)
Definition HEADER_CAP : Z := 1024.

(** The text [http_send_response] formats. *)
Definition http_response_header (status : Z) (reason content_type : bytes) (body_len : Z)
    (extra_headers : option bytes) : bytes :=
  bs "HTTP/1.1 " ++ sdec status ++ [32] ++ reason ++ crlf ++
  bs "Content-Type: " ++ content_type ++ crlf ++
  bs "Content-Length: " ++ udec body_len ++ crlf ++
  bs "Connection: close" ++ crlf ++
  default [] extra_headers ++ crlf.

Definition http_send_response (conn status : Z) (reason content_type body : bytes)
    (extra_headers : option bytes) : M Z :=
  let '(n, header) :=
    snprintf HEADER_CAP
      (http_response_header status reason content_type (zlen body) extra_headers) in
  if snprintf_failed n HEADER_CAP then ret 1
  else
    let! sent := send_all conn (ztake n header) in
    if negb (sent =? n) then ret 1
    else if 0 <? zlen body then
      let! sent := send_all conn body in
      ret (if negb (sent =? zlen body) then 1 else 0)
    else ret 0.

(** [send_all(...) == len ? 0 : 1] of a constant text. *)
Definition http_send_text (conn : Z) (text : bytes) : M Z :=
  let! n := send_all conn text in ret (if n =? zlen text then 0 else 1).

Definition sse_headers : bytes :=
  bs "HTTP/1.1 200 OK" ++ crlf ++
  bs "Content-Type: text/event-stream; charset=utf-8" ++ crlf ++
  bs "Cache-Control: no-cache" ++ crlf ++
  bs "Connection: close" ++ crlf ++
  bs "X-Accel-Buffering: no" ++ crlf ++ crlf.

Definition http_send_sse_headers (conn : Z) : M Z := http_send_text conn sse_headers.

(** The loop over the lines of the message. *)
Fixpoint sse_lines (fuel : nat) (line : bytes) (event : http_buf_t) : M (Z * http_buf_t) :=
  match fuel with
  | O => out_of_fuel
  | S fuel =>
      match strchr line 10 with
      | None => http_buf_append line event
      | Some next =>
          let! (r, event) :=
            buf_seq [http_buf_append (take next line); http_buf_append_str ([10] ++ bs "data: ")]
              event in
          if negb (r =? 0) then ret (1, event) else sse_lines fuel (drop (S next) line) event
      end
  end.

Definition http_send_sse_message_event (conn : Z) (message : option bytes) : M Z :=
  let! (r, event) :=
    buf_seq
      [http_buf_append_str (bs "event: message" ++ [10]); http_buf_append_str (bs "data: ");
       (fun event => match message with
                     | None => ret (0, event)
                     | Some message => sse_lines (S (length message)) message event
                     end);
       http_buf_append_str [10; 10]] http_buf_zero in
  if negb (r =? 0) then ret 1 else http_send_text conn (data event).

Definition http_send_sse_keepalive (conn : Z) : M Z :=
  http_send_text conn (bs ": keep-alive" ++ [10; 10]).

Definition content_type_json : bytes := bs "application/json; charset=utf-8".

Definition http_send_json_error (conn status : Z) (reason message : bytes) : M Z :=
  let! (r, body) :=
    buf_seq
      [http_buf_append_str ([123; 34] ++ bs "error" ++ [34; 58; 34]); json_error_escape message;
       http_buf_append_str [34; 125]] http_buf_zero in
  if negb (r =? 0) then ret 1
  else
    let! r := http_send_response conn status reason content_type_json (data body) None in
    ret (if negb (r =? 0) then 1 else 0).

Definition http_set_connection_recv_timeout (conn timeout_ms : Z) : M Z :=
  let! r := sys_sockcall in ret (if r <? 0 then 1 else 0).

Fixpoint http_discard_body_loop (fuel : nat) (conn remaining : Z) : M Z :=
  match fuel with
  | O => out_of_fuel
  | S fuel =>
      if 0 <? remaining then
        let want := if remaining <? 4096 then remaining else 4096 in
        let! (n, buf) := sys_recv conn want in
        if n <? 0 then ret 1
        else if n =? 0 then ret 1
        else http_discard_body_loop fuel conn (remaining - n)
      else ret 0
  end.

(** Each turn but the last takes a byte from the connection. *)
Definition http_discard_body (conn content_length : Z) : M Z := fun w =>
  http_discard_body_loop (S (length (n_in (w_net w)))) conn content_length w.

(** *** Specifications *)

(** A complete response. *)
Definition http_response (status : Z) (reason content_type body : bytes) : bytes :=
  http_response_header status reason content_type (zlen body) None ++ body.

Definition json_error_body (message : bytes) : bytes :=
  [123; 34] ++ bs "error" ++ [34; 58; 34] ++ concat (map json_error_escape_char message) ++ [34; 125].

Definition json_error (status : Z) (reason message : bytes) : bytes :=
  http_response status reason content_type_json (json_error_body message).

(** A status, its reason and a content type that leave room in the header. *)
Definition status_ok (status : Z) (reason content_type : bytes) : Prop :=
  0 <= status < 1000 /\ zlen reason <= 100 /\ zlen content_type <= 100.

#[export] Instance status_ok_dec status reason content_type :
  Decision (status_ok status reason content_type).
Proof. unfold status_ok. apply _. Defined.

(** An error of the client or of the server. *)
Definition error_reply (text : bytes) : Prop :=
  exists status reason message, 400 <= status < 600 /\ text = json_error status reason message.

(** [Content-Length] cannot be longer. *)
Definition object_size (b : bytes) : Prop := zlen b < 2 ^ 63.

(** The message as the value of "data:" fields. *)
Definition sse_data (message : bytes) : bytes :=
  concat (map (fun c => if c =? 10 then [10] ++ bs "data: " else [c]) message).
Definition sse_event (message : bytes) : bytes :=
  (bs "event: message" ++ [10]) ++ bs "data: " ++ sse_data message ++ [10; 10].
Definition sse_keepalive : bytes := bs ": keep-alive" ++ [10; 10].

(** A client of an event stream, as the HTML standard defines it: lines end with
    CR LF, LF or CR; "data" and "event" fields fill two buffers; an empty line
    dispatches them unless there is no data; a line starting with a colon is a
    comment. *)
Fixpoint sse_split (fuel : nat) (s line : bytes) : list bytes :=
  match fuel, s with
  | S fuel, c :: s =>
      if c =? 10 then line :: sse_split fuel s []
      else if c =? 13 then
        line :: sse_split fuel (match s with 10 :: s' => s' | _ => s end) []
      else sse_split fuel s (line ++ [c])
  | _, _ => []
  end.

Definition sse_field (line : bytes) : bytes * bytes :=
  match strchr line 58 with
  | None => (line, [])
  | Some i =>
      (take i line, match drop (S i) line with 32 :: v => v | v => v end)
  end.

(** The events of the lines: type and data. *)
Fixpoint sse_events (lines : list bytes) (type buf : bytes) : list (bytes * bytes) :=
  match lines with
  | [] => []
  | line :: lines =>
      match line with
      | [] =>
          match buf with
          | [] => sse_events lines [] []
          | _ => (type, take (length buf - 1) buf) :: sse_events lines [] []
          end
      | _ =>
          let '(name, value) := sse_field line in
          if bool_decide (name = bs "data") then sse_events lines type (buf ++ value ++ [10])
          else if bool_decide (name = bs "event") then sse_events lines value buf
          else sse_events lines type buf
      end
  end.

Definition sse_decode (s : bytes) : list (bytes * bytes) :=
  sse_events (sse_split (length s) s []) [] [].

(** ** Theorems *)

(** *** Responses *)

Lemma response_header_length status reason ctype body_len :
  status_ok status reason ctype -> 0 <= body_len < 2 ^ 63 ->
  zlen (http_response_header status reason ctype body_len None) < 500.
Proof.
  intros (Hs & Hr & Hc) Hb. unfold http_response_header, crlf.
  assert (Hst : zlen (sdec status) <= 11).
  { unfold sdec. destruct (Z.ltb_spec status 0); [lia|]. apply (udec_length _ 10). lia. }
  pose proof (udec_length body_len 63 Hb) as Hl.
  rewrite !length_app. change (length (bs "HTTP/1.1 ")) with 9%nat.
  change (length (bs "Content-Type: ")) with 14%nat.
  change (length (bs "Content-Length: ")) with 16%nat.
  change (length (bs "Connection: close")) with 17%nat. cbn [default length]. lia.
Qed.

(** A text is sent, or a part of it: what the senders promise. *)
Definition replies (text : bytes) (r : Z) (w w' : world) : Prop :=
  only_net w w' /\ n_in (w_net w') = n_in (w_net w) /\ (r = 0 \/ r = 1) /\ said text w w' /\
  (r = 0 -> said_all text w w') /\ (w_faults w = [] -> r = 0).

Lemma send_all_replies conn text w :
  wp (send_all conn text) (fun n w' => replies text (if n =? zlen text then 0 else 1) w w') w.
Proof.
  wp_use send_all_spec. intros n w' (Hf & H0 & d & rest & -> & Hn & Hnet).
  assert (Hs : said_all d w w') by (unfold said_all; by rewrite Hnet).
  split; [done|]. split_and!.
  - by rewrite Hnet.
  - case_if; auto.
  - exists d. split; [by exists rest|done].
  - destruct (Z.eqb_spec n (zlen (d ++ rest))) as [E|]; [intros _|done].
    destruct rest as [|x rest]; [by rewrite app_nil_r|].
    rewrite length_app in E. cbn [length] in E. lia.
  - intros E. rewrite (H0 E), Z.eqb_refl. done.
Qed.

Lemma http_send_text_spec conn text w :
  wp (http_send_text conn text) (fun r w' => replies text r w w') w.
Proof. unfold http_send_text. wp_step. wp_use send_all_replies. done. Qed.

Lemma replies_weaken t1 t2 r w w' :
  replies t1 r w w' -> (r = 0 -> t1 = t2) -> (exists u, t2 = t1 ++ u) -> replies t2 r w w'.
Proof.
  intros (H1 & H2 & H3 & H4 & H5 & H6) He [u ->]. split; [done|]. split_and!; try done.
  - by apply said_more.
  - intros E. rewrite <- (He E). by apply H5.
Qed.

(** Nothing sent at all, for want of memory. *)
Lemma replies_nothing text w w' : only_errno w w' -> w_faults w <> [] -> replies text 1 w w'.
Proof.
  intros Hf H0. split; [by apply only_errno_net|]. destruct Hf as [_ Hn].
  split_and!; [by rewrite Hn|by right|by apply said_net|done|done].
Qed.

(** After a step that sends nothing. *)
Lemma replies_after text r w w1 w' : only_errno w w1 -> replies text r w1 w' -> replies text r w w'.
Proof.
  intros Hf (H1 & H2 & H3 & H4 & H5 & H6). assert (Hn : w_net w1 = w_net w) by apply Hf.
  split; [etrans; [by apply only_errno_net|done]|]. split_and!; [congruence|done| | |].
  - eapply said_after; [|done]. by rewrite Hn.
  - intros E. eapply said_all_after; [|by apply H5]. by rewrite Hn.
  - intros E. apply H6. eapply only_io_no_faults; [apply Hf|done].
Qed.

Lemma replies_said text r w w1 w' :
  n_out (w_net w1) = n_out (w_net w) -> replies text r w1 w' ->
  said text w w' /\ (r = 0 -> said_all text w w').
Proof.
  intros Hn (_ & _ & _ & H1 & H2 & _). split; [by eapply said_after|].
  intros E. eapply said_all_after; [done|by apply H2].
Qed.

Lemma replies_01 text r w w' : replies text r w w' -> replies text (if negb (r =? 0) then 1 else 0) w w'.
Proof. intros H. pose proof H as (_ & _ & [->| ->] & _); exact H. Qed.

Lemma http_send_response_spec conn status reason ctype body w :
  status_ok status reason ctype -> object_size body ->
  wp (http_send_response conn status reason ctype body None) (fun r w' =>
    replies (http_response status reason ctype body) r w w') w.
Proof.
  intros Hok Hb. unfold http_send_response, object_size in *.
  pose proof (response_header_length status reason ctype (zlen body) Hok ltac:(lia)) as Hl.
  destruct (snprintf_ok HEADER_CAP
    (http_response_header status reason ctype (zlen body) None)) as [-> ->];
    [unfold HEADER_CAP; lia|unfold INT_MAX; lia|].
  unfold http_response. set (header := http_response_header _ _ _ _ _) in *.
  cbv zeta iota. rewrite ztake_ge by lia.
  wp_step. wp_use send_all_replies. intros n w1 H1. cbv beta in H1.
  destruct (Z.eqb_spec n (zlen header)) as [E|E]; simpl negb; cbv iota; cycle 1.
  { wp_step. eapply replies_weaken; [done|done|by eexists]. }
  destruct (Z.ltb_spec 0 (zlen body)) as [Hp|Hp]; cycle 1.
  { wp_step. assert (body = []) as -> by (destruct body; [done|simpl in Hp; lia]).
    by rewrite app_nil_r. }
  wp_step. wp_use send_all_replies. intros m w2 H2. cbv beta in H2. wp_step.
  assert (H2' : replies body (if negb (m =? zlen body) then 1 else 0) w1 w2) by
    (destruct (m =? zlen body); done).
  destruct H1 as (Hf1 & Hi1 & _ & _ & Ha1 & _). destruct H2' as (Hf2 & Hi2 & Hr & Hs2 & Ha2 & H02).
  split; [by etrans|]. split_and!.
  - congruence.
  - done.
  - eapply said_trans; [by apply Ha1|done].
  - intros Er. eapply said_all_trans; [by apply Ha1|by apply Ha2].
  - intros E0. apply H02. eapply only_io_no_faults; [apply Hf1|done].
Qed.

Lemma json_error_escape_char_length c : 1 <= zlen (json_error_escape_char c) <= 6.
Proof. unfold json_error_escape_char, fmt_04x. repeat case_if; simpl; lia. Qed.

Lemma json_error_escape_appends message :
  appends (concat (map json_error_escape_char message)) (json_error_escape message).
Proof.
  apply (appends_map json_error_escape_char); [|done|done].
  intros c. pose proof (json_error_escape_char_length c). lia.
Qed.

(** A buffer filled and then sent. *)
Lemma buf_then_send ds ops (send : bytes -> M Z) text w :
  Forall2 appends ds ops -> zlen (concat ds) < 2 ^ 62 ->
  (forall b w1, data b = concat ds -> wp (send (data b)) (fun r w' => replies text r w1 w') w1) ->
  wp (let! (r, b) := buf_seq ops http_buf_zero in
      if negb (r =? 0) then ret 1 else send (data b)) (fun r w' => replies text r w w') w.
Proof.
  intros Hops Hs Hsend. wp_step.
  wp_use (appends_seq ds ops Hops); [done|]. intros [r b] w1 (Hf & _ & Hr & Hd & H0).
  destruct Hr as [->| ->]; simpl negb; cbv iota.
  - eapply wp_mono; [apply Hsend; by rewrite Hd|]. intros r' w'. by apply replies_after.
  - wp_step. apply replies_nothing; [done|]. intros E. cbn [data http_buf_zero] in H0.
    specialize (H0 E ltac:(simpl; lia)). lia.
Qed.

Lemma json_error_text message :
  concat [[123; 34] ++ bs "error" ++ [34; 58; 34]; concat (map json_error_escape_char message);
          [34; 125]] = json_error_body message.
Proof. unfold json_error_body. cbn [concat]. by rewrite <- !app_assoc. Qed.

Lemma http_send_json_error_spec conn status reason message w :
  status_ok status reason content_type_json -> zlen message < 2 ^ 50 ->
  wp (http_send_json_error conn status reason message) (fun r w' =>
    replies (json_error status reason message) r w w') w.
Proof.
  intros Hok Hm. unfold http_send_json_error.
  assert (Hsize : zlen (json_error_body message) < 2 ^ 62).
  { unfold json_error_body. rewrite !length_app.
    assert (zlen (concat (map json_error_escape_char message)) <= 6 * zlen message).
    { clear. induction message as [|c m IH]; [done|]. cbn [map concat].
      pose proof (json_error_escape_char_length c). rewrite length_app, length_cons. lia. }
    simpl length. lia. }
  apply (buf_then_send [[123; 34] ++ bs "error" ++ [34; 58; 34];
    concat (map json_error_escape_char message); [34; 125]] _
    (fun body => let! r := http_send_response conn status reason content_type_json body None in
                 ret (if negb (r =? 0) then 1 else 0))).
  - repeat constructor; [by apply appends_str|apply json_error_escape_appends|by apply appends_str].
  - by rewrite json_error_text.
  - intros b w1 ->. rewrite json_error_text. wp_step.
    wp_use http_send_response_spec; [done|unfold object_size; lia|].
    intros r w' Hr. wp_step. by apply replies_01.
Qed.

(** The same, forgetting which error. *)
Lemma http_send_error_spec conn status reason message Q w :
  status_ok status reason content_type_json -> zlen message < 2 ^ 50 -> 400 <= status < 600 ->
  (forall text r w', error_reply text -> replies text r w w' -> Q r w') ->
  wp (http_send_json_error conn status reason message) Q w.
Proof.
  intros Hok Hm Hs HQ. wp_use http_send_json_error_spec; [done|done|]. intros r w'.
  apply HQ. by exists status, reason, message.
Qed.

(** An error reply, at the end of a handler. *)
Ltac send_error := apply http_send_error_spec; [by_decision|by vm_compute|lia|].

(** *** The event stream *)

Lemma sse_data_app a b : sse_data (a ++ b) = sse_data a ++ sse_data b.
Proof. unfold sse_data. by rewrite map_app, concat_app. Qed.

Lemma sse_data_line l : 10 ∉ l -> sse_data l = l.
Proof.
  unfold sse_data. induction l as [|c l IH]; [done|]. intros H. cbn [map concat].
  destruct (Z.eqb_spec c 10); [set_solver|]. rewrite IH by set_solver. done.
Qed.

Lemma sse_data_lines l m : 10 ∉ l -> sse_data (l ++ 10 :: m) = l ++ [10] ++ bs "data: " ++ sse_data m.
Proof. intros H. by rewrite sse_data_app, sse_data_line. Qed.

Lemma sse_data_length m : zlen (sse_data m) <= 7 * zlen m.
Proof.
  unfold sse_data. induction m as [|c m IH]; [done|]. cbn [map concat].
  rewrite length_app. assert (zlen (if c =? 10 then [10] ++ bs "data: " else [c]) <= 7) by
    (destruct (c =? 10); by vm_compute).
  rewrite (length_cons c m). lia.
Qed.

Lemma sse_lines_appends fuel line :
  (length line < fuel)%nat -> zlen line < 2 ^ 60 -> appends (sse_data line) (sse_lines fuel line).
Proof.
  revert line. induction fuel as [|fuel IH]; intros line Hf Hl b w Hb; [lia|]. cbn [sse_lines].
  destruct (strchr line 10) as [next|] eqn:E.
  - apply strchr_Some in E as (E & Hn & Hlt).
    assert (sse_data line = take next line ++ [10] ++ bs "data: " ++ sse_data (drop (S next) line)) as ->
      by (rewrite E at 1; by apply sse_data_lines).
    assert (Hseq : appends (concat [take next line; [10] ++ bs "data: "])
      (buf_seq [http_buf_append (take next line); http_buf_append_str ([10] ++ bs "data: ")])).
    { apply appends_seq. repeat constructor; [apply appends_append; len_lia|by apply appends_str]. }
    assert (Hrest : appends (sse_data (drop (S next) line)) (sse_lines fuel (drop (S next) line)))
      by (apply IH; len_lia).
    pose proof (appends_bind _ _ _ _ Hseq Hrest) as H. cbn [concat] in H.
    rewrite app_nil_r, <- !app_assoc in H. by apply H.
  - apply strchr_None in E. rewrite sse_data_line by done. apply appends_append; [lia|done].
Qed.

Lemma sse_event_text message :
  concat [bs "event: message" ++ [10]; bs "data: "; sse_data message; [10; 10]] = sse_event message.
Proof. unfold sse_event. cbn [concat]. by rewrite app_nil_r. Qed.

Lemma http_send_sse_message_event_spec conn message w :
  zlen (default [] message) < 2 ^ 50 ->
  wp (http_send_sse_message_event conn message) (fun r w' =>
    replies (sse_event (default [] message)) r w w') w.
Proof.
  intros Hm. unfold http_send_sse_message_event. rewrite <- sse_event_text.
  apply (buf_then_send [bs "event: message" ++ [10]; bs "data: ";
    sse_data (default [] message); [10; 10]] _ (http_send_text conn)).
  - repeat constructor; try by apply appends_str.
    destruct message as [m|]; [|apply appends_nil]. apply sse_lines_appends; simpl in Hm; lia.
  - rewrite sse_event_text. unfold sse_event. rewrite !length_app.
    pose proof (sse_data_length (default [] message)). cbn [length bs]. lia.
  - intros b w1 ->. apply http_send_text_spec.
Qed.

(** *** The client of the stream *)

Lemma sse_split_fuel f1 f2 s line :
  (length s <= f1)%nat -> (length s <= f2)%nat -> sse_split f1 s line = sse_split f2 s line.
Proof.
  revert f2 s line. induction f1 as [|f1 IH]; intros f2 s line H1 H2.
  { destruct s; [by destruct f2|simpl in H1; lia]. }
  destruct f2 as [|f2]; [destruct s; [done|simpl in H2; lia]|].
  destruct s as [|c s]; [done|]. cbn [sse_split]. cbn [length] in *.
  destruct (c =? 10); [f_equal; apply IH; lia|]. destruct (c =? 13); [|apply IH; lia].
  f_equal. apply IH; repeat case_match; simpl in *; lia.
Qed.

Lemma sse_split_line l s acc :
  10 ∉ l -> 13 ∉ l ->
  sse_split (length (l ++ 10 :: s)) (l ++ 10 :: s) acc = (acc ++ l) :: sse_split (length s) s [].
Proof.
  revert acc. induction l as [|c l IH]; intros acc H1 H2; cbn [app length sse_split].
  - change (10 =? 10) with true. cbv iota. by rewrite app_nil_r.
  - destruct (Z.eqb_spec c 10); [set_solver|]. destruct (Z.eqb_spec c 13); [set_solver|].
    rewrite IH by set_solver. by rewrite <- app_assoc.
Qed.

(** The events of a text whose fields so far are [type] and [buf]. *)
Notation sse_run s type buf := (sse_events (sse_split (length s) s []) type buf).

Lemma sse_run_data l s type buf :
  10 ∉ l -> 13 ∉ l ->
  sse_run (bs "data: " ++ l ++ 10 :: s) type buf = sse_run s type (buf ++ l ++ [10]).
Proof.
  intros H1 H2. rewrite app_assoc, sse_split_line; [done| |]; intros [H|H]%elem_of_app; try done;
    revert H; by_decision.
Qed.

Lemma sse_run_blank s type buf :
  sse_run (10 :: s) type (buf ++ [10]) = (type, buf) :: sse_run s [] [].
Proof.
  pose proof (sse_split_line [] s [] ltac:(set_solver) ltac:(set_solver)) as E. cbn [app] in E.
  rewrite E. cbn [sse_events]. destruct (buf ++ [10]) as [|x b] eqn:Eb; [by destruct buf|].
  rewrite <- Eb, length_app, Nat.add_sub, take_app_length. done.
Qed.

Lemma sse_run_message n m rest type buf :
  (length m <= n)%nat -> 13 ∉ m ->
  sse_run (bs "data: " ++ sse_data m ++ [10; 10] ++ rest) type buf =
    (type, buf ++ m) :: sse_decode rest.
Proof.
  revert m buf. induction n as [|n IH]; intros m buf Hn Hm; destruct (strchr m 10) as [i|] eqn:E.
  1,3: apply strchr_Some in E as (E & Hi & Hlt).
  1: lia.
  - assert (sse_data m = take i m ++ [10] ++ bs "data: " ++ sse_data (drop (S i) m)) as ->
      by (rewrite E at 1; by apply sse_data_lines).
    rewrite E in Hm. rewrite <- !app_assoc. cbn [app].
    rewrite (sse_run_data (take i m)) by set_solver.
    rewrite (IH (drop (S i) m)); [|len_lia|set_solver].
    rewrite <- !app_assoc. cbn [app]. by rewrite <- E.
  - apply strchr_None in E. rewrite sse_data_line by done. cbn [app].
    by rewrite sse_run_data, app_assoc, sse_run_blank by done.
  - apply strchr_None in E. rewrite sse_data_line by done. cbn [app].
    by rewrite sse_run_data, app_assoc, sse_run_blank by done.
Qed.

Lemma sse_decode_event m rest :
  13 ∉ m -> sse_decode (sse_event m ++ rest) = (bs "message", m) :: sse_decode rest.
Proof.
  intros Hm. unfold sse_decode at 1, sse_event. rewrite <- !app_assoc. cbn [app].
  rewrite (sse_split_line (bs "event: message")) by by_decision.
  change (sse_events (([] ++ bs "event: message") :: ?ls) [] []) with (sse_events ls (bs "message") []).
  by apply (sse_run_message (length m)).
Qed.

Lemma sse_decode_keepalive rest : sse_decode (sse_keepalive ++ rest) = sse_decode rest.
Proof.
  unfold sse_decode at 1, sse_keepalive. rewrite <- app_assoc. cbn [app].
  rewrite (sse_split_line (bs ": keep-alive")) by by_decision.
  pose proof (sse_split_line [] rest [] ltac:(set_solver) ltac:(set_solver)) as E. cbn [app] in E.
  by rewrite E.
Qed.

(** *** Dropping a body *)

Lemma http_discard_body_loop_spec fuel conn remaining w :
  (length (n_in (w_net w)) < fuel)%nat ->
  wp (http_discard_body_loop fuel conn remaining) (fun r w' =>
    only_net w w' /\ n_out (w_net w') = n_out (w_net w) /\ (r = 0 \/ r = 1) /\
    exists d, n_in (w_net w) = d ++ n_in (w_net w') /\ zlen d <= Z.max 0 remaining /\
      (r = 0 -> zlen d = Z.max 0 remaining)) w.
Proof.
  revert remaining w. induction fuel as [|fuel IH]; intros remaining w Hf; [lia|].
  cbn [http_discard_body_loop]. wp_step; cycle 1.
  { wp_step. split; [done|]. split_and!; [done|by left|]. exists []. simpl. split_and!; [done|lia|lia]. }
  wp_step. assert (Hstop : forall w1, only_net w w1 -> w_net w1 = w_net w ->
    only_net w w1 /\ n_out (w_net w1) = n_out (w_net w) /\ (1 = 0 \/ 1 = 1) /\
    exists d, n_in (w_net w) = d ++ n_in (w_net w1) /\ zlen d <= Z.max 0 remaining /\
      (1 = 0 -> zlen d = Z.max 0 remaining)).
  { intros w1 H1 ->. split; [done|]. split_and!; [done|by right|]. exists []. simpl. split_and!; [done|lia|lia]. }
  apply wp_sys_recv; [case_if; lia| |].
  { intros e w1 Hf1 Hn1 _ _. change (-1 <? 0) with true. cbv iota. wp_step. by apply Hstop. }
  intros d rest w1 Hf1 Hin Hnet Hd _. destruct (Z.ltb_spec (zlen d) 0); [lia|].
  destruct (Z.eqb_spec (zlen d) 0) as [E|E].
  { wp_step. apply Hstop; [done|]. destruct d; [|simpl in E; lia].
    rewrite Hnet. cbn [app] in Hin. rewrite <- Hin. by destruct (w_net w). }
  eapply wp_mono; [apply IH; rewrite Hnet, Hin in *; cbn [n_in]; len_lia|].
  intros r w2 (Hf2 & Ho2 & Hr & d2 & Hin2 & Hl2 & Hr2). split; [by etrans|].
  split_and!; [by rewrite Ho2, Hnet|done|]. exists (d ++ d2). rewrite Hnet in Hin2. cbn [n_in] in Hin2.
  assert (zlen d <= remaining) by (destruct (remaining <? 4096) eqn:E4; lia).
  split_and!; [by rewrite Hin, Hin2, app_assoc|len_lia|]. intros Hr0. specialize (Hr2 Hr0). len_lia.
Qed.

Lemma http_discard_body_spec conn len w :
  0 <= len ->
  wp (http_discard_body conn len) (fun r w' =>
    only_net w w' /\ n_out (w_net w') = n_out (w_net w) /\ (r = 0 \/ r = 1) /\
    exists d, n_in (w_net w) = d ++ n_in (w_net w') /\ zlen d <= len /\ (r = 0 -> zlen d = len)) w.
Proof.
  intros Hl. eapply wp_mono; [apply http_discard_body_loop_spec; lia|].
  intros r w' (? & ? & ? & d & ? & ? & ?). split; [done|]. split_and!; [done|done|].
  exists d. split_and!; [done|lia|lia].
Qed.

Lemma http_set_connection_recv_timeout_spec conn ms w :
  wp (http_set_connection_recv_timeout conn ms) (fun _ w' => only_errno w w') w.
Proof. unfold http_set_connection_recv_timeout. wp_step. by apply wp_sys_sockcall; intros; wp_step. Qed.

(** A carriage return ends a line for the client, although it did not for the
    server: what follows it in the message is lost. *)
Example sse_carriage_return_lost :
  sse_decode (sse_event [97; 13; 98]) = [(bs "message", [97])].
Proof. by vm_compute. Qed.

(** ** Properties *)

(** Messages cross the event stream: whatever was sent before, when
    [http_send_sse_message_event] succeeds -- it fails only when memory or the
    connection does -- a client that follows the HTML standard decodes, from what
    was sent and whatever is sent later, one event "message" with exactly that
    message, with all its lines, empty ones included; keep-alives in between are
    no events. The message must not contain a carriage return. *)
Theorem sse_message_roundtrip conn message w
    (Hcr : 13 ∉ message) (Hsize : zlen message < 2 ^ 50) :
  wp (http_send_sse_message_event conn (Some message)) (fun r w' =>
    (r = 0 \/ r = 1) /\ (w_faults w = [] -> r = 0) /\ w_files w' = w_files w /\
    (r = 0 -> exists text, said_all text w w' /\
       forall rest, sse_decode (text ++ rest) = (bs "message", message) :: sse_decode rest /\
                    sse_decode (sse_keepalive ++ text ++ rest) =
                      (bs "message", message) :: sse_decode rest)) w.
Proof.
  wp_use (http_send_sse_message_event_spec conn (Some message)); [done|].
  intros r w' (Hf & _ & Hr & _ & Hall & H0). split_and!; [done|done|apply Hf|].
  intros E. exists (sse_event message). split; [by apply Hall|]. intros rest.
  by rewrite sse_decode_keepalive, sse_decode_event.
Qed.

Lemma sse_message_roundtrip_witness :
  let m := [97; 10; 10; 98] in
  let w := demo_world [FNone; FShort 3; FErr EINTR] [] (demo_files ∅) in
  wp (http_send_sse_message_event 4 (Some m)) (fun r w' =>
    (r = 0 \/ r = 1) /\ (w_faults w = [] -> r = 0) /\ w_files w' = w_files w /\
    (r = 0 -> exists text, said_all text w w' /\
       forall rest, sse_decode (text ++ rest) = (bs "message", m) :: sse_decode rest /\
                    sse_decode (sse_keepalive ++ text ++ rest) =
                      (bs "message", m) :: sse_decode rest)) w.
Proof. apply sse_message_roundtrip; [by_decision|done]. Defined.
