(* ===== verification/WebUi.v ===== *)
(** * The embedded web page (src/webui.c)

    The four texts the server hands out, as written in the source: a line of the
    C literal is a line here, and a double quote is written ["^"], which the texts
    do not contain. *)

From S2P Require Import Prelude CLib.

(** ** Definitions *)

(** The bytes of a text in which ["^"] stands for a double quote. *)
Definition webui_text (s : string) : bytes := map (fun c => if c =? 94 then 34 else c) (bs s).

Definition webui_index_html : bytes := webui_text
"<!doctype html>
<html lang=^en^>
<head>
  <meta charset=^utf-8^>
  <meta name=^viewport^ content=^width=device-width, initial-scale=1^>
  <title>HFile</title>
  <link rel=^icon^ href=^/favicon.svg^ type=^image/svg+xml^>
  <link rel=^stylesheet^ href=^/styles.css^>
</head>
<body>
  <main class=^shell^>
    <section class=^hero^>
      <h1>HFile</h1>
      <p class=^lede^>Bytes with intent.</p>
    </section>
    <section class=^card stack upload-card^>
      <h2>Upload</h2>
      <p id=^upload-status^ class=^status^></p>
      <div class=^upload-actions^>
        <label for=^file-input^ class=^button choose-btn^>Choose File</label>
        <button id=^upload-btn^ type=^button^ class=^send-btn^>Send File</button>
      </div>
      <input id=^file-input^ type=^file^ class=^sr-only^>
    </section>
    <section class=^card stack^>
      <div class=^section-head^>
        <h2>Latest Message</h2>
        <button id=^copy-latest-message^ type=^button^ class=^quiet^ disabled>Copy</button>
      </div>
      <div id=^latest-message^ class=^message-card empty^>No messages yet.</div>
      <p id=^latest-message-status^ class=^inline-status^></p>
    </section>
    <section class=^card stack^>
      <h2>Message</h2>
      <textarea id=^message-input^ rows=^4^ maxlength=^262144^ placeholder=^Leave a short note^></textarea>
      <button id=^message-btn^ type=^button^>Post Message</button>
      <p id=^message-status^ class=^status^></p>
    </section>
    <section class=^card stack^>
      <div class=^section-head^>
        <h2>Files</h2>
        <div class=^section-actions^>
          <button id=^up-dir^ type=^button^ class=^quiet^ disabled>Up</button>
          <button id=^refresh-files^ type=^button^ class=^quiet^>Refresh</button>
        </div>
      </div>
      <p id=^current-dir^ class=^inline-status^>Current Folder: /</p>
      <div id=^files^ class=^list empty^>No files yet.</div>
    </section>
  </main>
  <script src=^/app.js^></script>
</body>
</html>
".

Definition webui_styles_css : bytes := webui_text
":root {
  --bg: #f6efe2;
  --bg-alt: #efe3cf;
  --ink: #1c1712;
  --muted: #6d6156;
  --panel: rgba(255, 251, 245, 0.88);
  --line: rgba(47, 35, 23, 0.12);
  --accent: #bf5a2a;
  --accent-2: #1d7c69;
  --shadow: 0 16px 40px rgba(43, 31, 20, 0.1);
}
* { box-sizing: border-box; }
body {
  margin: 0;
  min-height: 100vh;
  color: var(--ink);
  background: var(--bg);
  font-family: ^Iowan Old Style^, ^Palatino Linotype^, ^Book Antiqua^, Georgia, serif;
}
.shell {
  width: min(880px, calc(100vw - 28px));
  margin: 0 auto;
  padding: 24px 0 40px;
}
.hero {
  padding: 8px 4px 24px;
  text-align: center;
}
h1, h2, p { margin: 0; }
h1 {
  font-size: clamp(2.6rem, 8vw, 4.8rem);
  line-height: 0.96;
  letter-spacing: -0.05em;
}
.lede {
  max-width: 36rem;
  margin: 12px auto 0;
  color: var(--muted);
  font-size: 1rem;
}
.card {
  margin-top: 16px;
  padding: 18px;
  border: 1px solid var(--line);
  border-radius: 22px;
  background: var(--panel);
  box-shadow: var(--shadow);
  -webkit-backdrop-filter: blur(12px);
  backdrop-filter: blur(12px);
}
.stack {
  display: grid;
  gap: 12px;
}
.upload-card {
  min-height: 168px;
  align-content: start;
}
.section-head {
  display: flex;
  align-items: center;
  justify-content: space-between;
  gap: 12px;
}
.section-actions {
  display: inline-flex;
  align-items: center;
  gap: 10px;
}
textarea {
  width: 100%;
  border: 1px solid var(--line);
  border-radius: 16px;
  background: rgba(255, 255, 255, 0.6);
  padding: 14px;
  color: var(--ink);
  font: inherit;
}
textarea { resize: vertical; min-height: 110px; }
.button,
button {
  appearance: none;
  border: 0;
  border-radius: 999px;
  padding: 12px 18px;
  display: inline-flex;
  align-items: center;
  justify-content: center;
  color: #fff9f0;
  background: linear-gradient(135deg, var(--accent), #d97a35);
  font: 700 14px/1 ui-monospace, SFMono-Regular, Menlo, monospace;
  letter-spacing: 0.04em;
  text-decoration: none;
  text-align: center;
  cursor: pointer;
}
.upload-actions {
  width: 100%;
  display: grid;
  grid-template-columns: repeat(2, minmax(0, 1fr));
  gap: 12px;
  margin-top: auto;
}
.choose-btn {
  color: #17362f;
  background: linear-gradient(135deg, #bfe6dc, #8fceb8);
}
.choose-btn:hover {
  background: linear-gradient(135deg, #b1dfd1, #7fc2aa);
  box-shadow: 0 10px 22px rgba(29, 124, 105, 0.18);
}
.send-btn {
  background: linear-gradient(135deg, var(--accent), #d97a35);
}
.send-btn:hover {
  background: linear-gradient(135deg, #c96434, #e28a45);
  box-shadow: 0 10px 22px rgba(191, 90, 42, 0.22);
}
button.quiet {
  color: #17362f;
  background: linear-gradient(135deg, #d9efe7, #b8dccf);
  box-shadow: 0 8px 20px rgba(29, 124, 105, 0.16);
}
button.quiet:hover {
  background: linear-gradient(135deg, #cde8de, #a6d1c2);
  box-shadow: 0 12px 26px rgba(29, 124, 105, 0.22);
}
.sr-only {
  position: absolute;
  width: 1px;
  height: 1px;
  padding: 0;
  margin: -1px;
  overflow: hidden;
  clip: rect(0, 0, 0, 0);
  white-space: nowrap;
  border: 0;
}
.status {
  min-height: 3.2em;
  color: var(--muted);
  font: 500 13px/1.5 ui-monospace, SFMono-Regular, Menlo, monospace;
}
.inline-status {
  min-height: 1.6em;
  color: var(--muted);
  font: 500 13px/1.5 ui-monospace, SFMono-Regular, Menlo, monospace;
}
.list {
  display: grid;
  gap: 10px;
}
.list.empty {
  color: var(--muted);
  font-style: italic;
}
.row {
  display: flex;
  align-items: center;
  justify-content: space-between;
  gap: 12px;
  padding: 14px 16px;
  border-radius: 18px;
  background: rgba(255, 255, 255, 0.6);
  border: 1px solid rgba(28, 23, 18, 0.08);
}
.meta {
  display: grid;
  gap: 4px;
}
.meta strong {
  word-break: break-word;
}
.meta span {
  color: var(--muted);
  font: 500 12px/1.4 ui-monospace, SFMono-Regular, Menlo, monospace;
}
.row-actions {
  display: inline-flex;
  align-items: center;
  gap: 10px;
}
.download {
  display: inline-flex;
  align-items: center;
  justify-content: center;
  width: 112px;
  padding: 10px 16px;
  border-radius: 999px;
  border: 0;
  color: #f4fff9;
  text-decoration: none;
  font: 700 13px/1 ui-monospace, SFMono-Regular, Menlo, monospace;
}
.download {
  background: #2da44e;
  box-shadow: 0 10px 24px rgba(45, 164, 78, 0.24);
}
.download:hover {
  background: #2c974b;
  box-shadow: 0 14px 28px rgba(45, 164, 78, 0.3);
}
.message {
  white-space: pre-wrap;
  word-break: break-word;
}
.message-card {
  min-height: 96px;
  padding: 14px;
  border-radius: 16px;
  border: 1px solid rgba(28, 23, 18, 0.08);
  background: rgba(255, 255, 255, 0.6);
  color: var(--ink);
  white-space: pre-wrap;
  word-break: break-word;
  font-size: 16px;
  line-height: 1.6;
}
.message-card.empty {
  color: var(--muted);
}
@media (hover: hover) and (pointer: fine) {
  .button,
  button,
  .download {
    transition: transform 140ms ease, box-shadow 140ms ease, filter 140ms ease, background 140ms ease;
  }
  .button:hover,
  button:hover,
  .download:hover {
    transform: translateY(-1px);
    filter: brightness(1.03);
  }
}
@media (max-width: 640px) {
  .shell { width: min(100vw - 18px, 720px); padding-top: 18px; }
  .card {
    padding: 16px;
    border-radius: 20px;
    background: rgba(255, 251, 245, 0.96);
    box-shadow: 0 10px 24px rgba(43, 31, 20, 0.08);
    -webkit-backdrop-filter: none;
    backdrop-filter: none;
  }
  .upload-actions { width: 100%; }
  .row { align-items: flex-start; flex-direction: column; }
  .row-actions { width: 100%; flex-direction: column; align-items: stretch; }
  .download { width: 100%; }
}
".

Definition webui_favicon_svg : bytes := webui_text
"<svg width=^128^ height=^128^ viewBox=^0 0 128 128^ fill=^none^ xmlns=^http://www.w3.org/2000/svg^><path d=^M18 14H78L110 46V100C110 108.837 102.837 116 94 116H34C25.163 116 18 108.837 18 100V14Z^ fill=^#F6EFE2^ stroke=^#1C1712^ stroke-width=^6^ stroke-linejoin=^round^/><path d=^M78 14V46H110^ stroke=^#1C1712^ stroke-width=^6^ stroke-linejoin=^round^/><path d=^M34 34V96^ stroke=^#1C1712^ stroke-width=^14^ stroke-linecap=^round^/><path d=^M34 66H62^ stroke=^#1C1712^ stroke-width=^14^ stroke-linecap=^round^/><path d=^M62 34V96^ stroke=^#1C1712^ stroke-width=^14^ stroke-linecap=^round^/><path d=^M78 96V34C78 28.477 82.477 24 88 24^ stroke=^#1C1712^ stroke-width=^14^ stroke-linecap=^round^ stroke-linejoin=^round^/><path d=^M72 58H94^ stroke=^#1C1712^ stroke-width=^14^ stroke-linecap=^round^/></svg>".

Definition webui_app_js : bytes := webui_text
"const filesNode = document.getElementById('files');
const uploadStatus = document.getElementById('upload-status');
const messageStatus = document.getElementById('message-status');
const fileInput = document.getElementById('file-input');
const messageInput = document.getElementById('message-input');
const latestMessageNode = document.getElementById('latest-message');
const latestMessageStatus = document.getElementById('latest-message-status');
const copyLatestMessageBtn = document.getElementById('copy-latest-message');
const currentDirNode = document.getElementById('current-dir');
const upDirBtn = document.getElementById('up-dir');
const fileRows = new Map();
let latestMessageStream = null;
let latestMessageValue = '';
let currentDir = '';

function fmtSize(bytes) {
  const units = ['B', 'KiB', 'MiB', 'GiB'];
  let idx = 0;
  let value = Number(bytes);
  while (value >= 1024 && idx < units.length - 1) {
    value /= 1024;
    idx += 1;
  }
  return `${value.toFixed(idx === 0 ? 0 : 1)} ${units[idx]}`;
}

function fmtTime(ts) {
  const d = new Date(Number(ts) * 1000);
  return d.toLocaleString();
}

function renderFileMeta(file) {
  if (file.kind && file.kind !== 'file') {
    return `${file.kind} · ${fmtTime(file.mtime)}`;
  }
  return `${fmtSize(file.size)} · ${fmtTime(file.mtime)}`;
}

function parentDir(path) {
  if (!path) {
    return '';
  }
  const idx = path.lastIndexOf('/');
  return idx === -1 ? '' : path.slice(0, idx);
}

function renderCurrentDir() {
  currentDirNode.textContent = currentDir ? `Current Folder: /${currentDir}` : 'Current Folder: /';
  upDirBtn.disabled = currentDir === '';
}

function createFileRow(file) {
  const row = document.createElement('div');
  row.className = 'row';
  row.dataset.filePath = file.path;
  row.dataset.fileKind = file.kind || '';
  row.innerHTML = `
    <div class=^meta^>
      <strong></strong>
      <span></span>
    </div>
    <div class=^row-actions^>
      <a class=^download^ href=^#^></a>
    </div>`;
  row.querySelector('strong').textContent = file.name;
  row.querySelector('span').textContent = renderFileMeta(file);
  row.querySelector('.download').addEventListener('click', async (event) => {
    if (row.dataset.fileKind !== 'dir') {
      return;
    }
    event.preventDefault();
    await loadFiles(row.dataset.filePath || '');
  });
  updateFileRow(row, file);
  return row;
}

function updateFileRow(row, file) {
  row.dataset.filePath = file.path;
  row.dataset.fileKind = file.kind || '';
  row.querySelector('strong').textContent = file.name;
  row.querySelector('span').textContent = renderFileMeta(file);
  const link = row.querySelector('.download');
  link.href = `/api/files/${encodeURIComponent(file.path)}`;
  if (file.kind === 'file') {
    link.hidden = false;
    link.textContent = 'Download';
    link.setAttribute('download', '');
  } else if (file.kind === 'dir') {
    link.hidden = false;
    link.textContent = 'Open';
    link.removeAttribute('download');
    link.href = `/api/files?path=${encodeURIComponent(file.path)}`;
  } else {
    link.hidden = true;
    link.removeAttribute('download');
  }
}

function syncFileList(files) {
  if (!files.length) {
    fileRows.clear();
    filesNode.className = 'list empty';
    filesNode.textContent = 'No files yet.';
    return;
  }

  const nextPaths = new Set();
  const fragment = document.createDocumentFragment();
  files.forEach((file) => {
    nextPaths.add(file.path);
    let row = fileRows.get(file.path);
    if (!row) {
      row = createFileRow(file);
      fileRows.set(file.path, row);
    } else {
      updateFileRow(row, file);
    }
    fragment.appendChild(row);
  });

  for (const path of fileRows.keys()) {
    if (!nextPaths.has(path)) {
      fileRows.delete(path);
    }
  }

  filesNode.className = 'list';
  filesNode.replaceChildren(fragment);
}

async function loadFiles(path = currentDir) {
  const targetDir = path || '';
  const url = targetDir ? `/api/files?path=${encodeURIComponent(targetDir)}` : '/api/files';
  const res = await fetch(url, { cache: 'no-store' });
  if (!res.ok) throw new Error('failed to load files');
  const files = await res.json();
  currentDir = targetDir;
  renderCurrentDir();
  syncFileList(files);
}

async function uploadFile() {
  const file = fileInput.files && fileInput.files[0];
  if (!file) {
    uploadStatus.textContent = 'Pick a file first.';
    return;
  }
  const targetPath = currentDir ? `${currentDir}/${file.name}` : file.name;
  uploadStatus.textContent = `Uploading ${targetPath}...`;
  const res = await fetch(`/api/files/${encodeURIComponent(targetPath)}`, {
    method: 'PUT',
    headers: { 'Content-Type': 'application/octet-stream' },
    body: file,
  });
  const payload = await res.json().catch(() => ({}));
  if (!res.ok) {
    uploadStatus.textContent = payload.error || 'Upload failed.';
    return;
  }
  uploadStatus.textContent = `Saved ${targetPath}.`;
  fileInput.value = '';
  await loadFiles(currentDir);
}

async function postMessage() {
  const message = messageInput.value;
  messageStatus.textContent = 'Posting message...';
  const res = await fetch('/api/messages', {
    method: 'POST',
    headers: { 'Content-Type': 'application/json' },
    body: JSON.stringify({ message }),
  });
  const payload = await res.json().catch(() => ({}));
  if (!res.ok) {
    messageStatus.textContent = payload.error || 'Message failed.';
    return;
  }
  messageStatus.textContent = 'Message saved.';
  messageInput.value = '';
  await loadLatestMessage();
}

function renderLatestMessage(payload) {
  if (!payload || !payload.has_message) {
    latestMessageValue = '';
    latestMessageNode.className = 'message-card empty';
    latestMessageNode.textContent = 'No messages yet.';
    latestMessageStatus.textContent = '';
    copyLatestMessageBtn.disabled = true;
    return;
  }
  latestMessageValue = String(payload.message || '');
  latestMessageNode.className = 'message-card';
  latestMessageNode.textContent = latestMessageValue;
  latestMessageStatus.textContent = '';
  copyLatestMessageBtn.disabled = false;
}

async function loadLatestMessage() {
  const res = await fetch('/api/messages/latest', { cache: 'no-store' });
  if (!res.ok) throw new Error('failed to load latest message');
  const payload = await res.json();
  renderLatestMessage(payload);
}

function connectLatestMessageStream() {
  if (latestMessageStream) {
    latestMessageStream.close();
  }
  latestMessageStream = new EventSource('/api/messages/stream');
  latestMessageStream.addEventListener('message', (event) => {
    renderLatestMessage({ has_message: true, message: event.data });
  });
  latestMessageStream.onerror = () => {
    latestMessageStatus.textContent = 'Live message stream reconnecting...';
  };
  latestMessageStream.onopen = () => {
    latestMessageStatus.textContent = '';
  };
}

async function copyText(text) {
  if (navigator.clipboard && window.isSecureContext) {
    await navigator.clipboard.writeText(text);
    return;
  }

  const input = document.createElement('textarea');
  input.value = text;
  input.setAttribute('readonly', '');
  input.style.position = 'fixed';
  input.style.top = '-1000px';
  input.style.opacity = '0';
  document.body.appendChild(input);
  input.focus();
  input.select();
  input.setSelectionRange(0, input.value.length);
  const ok = document.execCommand('copy');
  document.body.removeChild(input);
  if (!ok) {
    throw new Error('copy failed');
  }
}

fileInput.addEventListener('change', () => {
  const file = fileInput.files && fileInput.files[0];
  uploadStatus.textContent = file ? `Ready: ${file.name}` : '';
});
document.getElementById('upload-btn').addEventListener('click', () => {
  uploadFile().catch((err) => { uploadStatus.textContent = err.message; });
});
document.getElementById('message-btn').addEventListener('click', () => {
  postMessage().catch((err) => { messageStatus.textContent = err.message; });
});
document.getElementById('refresh-files').addEventListener('click', () => {
  loadFiles(currentDir).catch((err) => { uploadStatus.textContent = err.message; });
});
upDirBtn.addEventListener('click', () => {
  loadFiles(parentDir(currentDir)).catch((err) => { uploadStatus.textContent = err.message; });
});
copyLatestMessageBtn.addEventListener('click', async () => {
  if (!latestMessageValue) {
    return;
  }
  try {
    await copyText(latestMessageValue);
    latestMessageStatus.textContent = 'Copied.';
  } catch (err) {
    latestMessageStatus.textContent = 'Copy failed.';
  }
});
renderCurrentDir();
loadFiles().catch((err) => { uploadStatus.textContent = err.message; });
loadLatestMessage().catch((err) => { messageStatus.textContent = err.message; });
connectLatestMessageStream();
".

Record webui_asset_t := WebuiAsset {
  wa_path : bytes;
  wa_content_type : bytes;
  wa_body : bytes
}.

(** [body_len] is the length of the body. *)
Definition webui_assets : list webui_asset_t :=
  [WebuiAsset (bs "/") (bs "text/html; charset=utf-8") webui_index_html;
   WebuiAsset (bs "/app.js") (bs "application/javascript; charset=utf-8") webui_app_js;
   WebuiAsset (bs "/styles.css") (bs "text/css; charset=utf-8") webui_styles_css;
   WebuiAsset (bs "/favicon.svg") (bs "image/svg+xml") webui_favicon_svg].

Definition webui_find_asset (path : bytes) : option webui_asset_t :=
  find (fun a => streq path (wa_path a)) webui_assets.

(** ** Theorems *)

(** Nothing but computation looks into the texts. *)
#[global] Opaque webui_index_html webui_app_js webui_styles_css webui_favicon_svg.

Lemma webui_body_sizes :
  map (fun a => zlen (wa_body a)) webui_assets = [1986; 8739; 5505; 805].
Proof. vm_compute. reflexivity. Qed.

(** The texts are C strings. *)
Lemma webui_bodies_ok :
  forallb (fun a => forallb (fun b => (0 <? b) && (b <? 256)) (wa_body a)) webui_assets = true.
Proof. vm_compute. reflexivity. Qed.

Lemma webui_find_asset_in path a :
  webui_find_asset path = Some a -> a ∈ webui_assets /\ wa_path a = path.
Proof.
  intros [Hin H]%find_some. apply bool_decide_eq_true in H.
  split; [by apply list_elem_of_In|by symmetry].
Qed.

(** A body is served with its own type, and fits a response. *)
Lemma webui_asset_small a :
  a ∈ webui_assets -> zlen (wa_body a) < 10000 /\ zlen (wa_content_type a) <= 100.
Proof.
  intros Hin. assert (Forall (fun a => zlen (wa_body a) < 10000 /\ zlen (wa_content_type a) <= 100)
    webui_assets) as H; [|by rewrite Forall_forall in H; apply H].
  by_decision.
Qed.
