(* ===== verification/HttpFiles.v ===== *)
(** * Files over HTTP (src/http.c)

    Listing a directory as JSON, sending a file and storing one. The arrays
    [relative_path], [route_name] and [relative_dir] are local variables: they
    are never NULL. *)

From stdpp Require Import sorting.
From S2P Require Import Prelude CLib World Logic Fs Net Protocol TransferIo MessageStore.
From S2P Require Import HttpBuf HttpJson PicoHttp HttpRequest Cli AppService HttpResponse.

(** ** Definitions *)

Definition HF_HTTP_UPLOAD_MAX : Z := 16 * 1024 * 1024 * 1024.
Definition HF_HTTP_UPLOAD_BODY_TIMEOUT_MS : Z := 120000.

Record http_file_entry_t := HttpFileEntry {
  en_name : bytes;
  en_path : bytes;
  en_kind : fs_path_kind_t;
  en_size : Z;
  en_mtime : Z
}.

#[export] Instance http_file_entry_eq_dec : EqDecision http_file_entry_t.
Proof. solve_decision. Defined.

Definition http_build_relative_child_path (out_cap : Z) (base name : bytes) : Z * bytes :=
  if out_cap =? 0 then (1, [])
  else
    let '(n, out) :=
      snprintf out_cap (match base with [] => name | _ => base ++ [47] ++ name end) in
    (if snprintf_failed n out_cap then 1 else 0, out).

Definition http_path_kind_name (kind : fs_path_kind_t) : bytes :=
  match kind with
  | FS_PATH_KIND_FILE => bs "file"
  | FS_PATH_KIND_DIR => bs "dir"
  | FS_PATH_KIND_SYMLINK => bs "symlink"
  | FS_PATH_KIND_OTHER => bs "other"
  end.

Definition http_relative_basename (path : bytes) : bytes :=
  match strrchr path 47 with Some i => drop (S i) path | None => path end.

Definition http_file_entry_cmp (a b : http_file_entry_t) : Z :=
  if en_mtime a <? en_mtime b then 1
  else if en_mtime b <? en_mtime a then -1
  else strcmp (en_name a) (en_name b).

(** [qsort] with this comparison: see [qsort_unique]. *)
Definition entry_le (a b : http_file_entry_t) : Prop := http_file_entry_cmp a b <= 0.

#[export] Instance entry_le_dec a b : Decision (entry_le a b).
Proof. unfold entry_le. apply _. Defined.

(** The growth of the array when [count == cap]: does [realloc] succeed? *)
Definition http_grow_entries (count cap : Z) : M (bool * Z) :=
  if count =? cap then
    let! new_entries := sys_malloc in ret (new_entries, if cap =? 0 then 8 else cap * 2)
  else ret (true, cap).

(** The loop over [readdir]; [None] is [goto CLEANUP] with a failure. The loop
    ends when [readdir] returns NULL, at the end of the directory or on an error. *)
Fixpoint http_list_loop (dir relative_dir : bytes) (names : list bytes)
    (entries : list http_file_entry_t) (cap : Z) : M (option (list http_file_entry_t)) :=
  let! de := sys_readdir names in
  match de, names with
  | Some name, _ :: names =>
      if streq name [46] || streq name [46; 46] then
        http_list_loop dir relative_dir names entries cap
      else
        let '(r, full_path) := fs_join_path 4096 (Some dir) (Some name) in
        if negb (r =? 0) then ret None
        else
          let '(r, relative_path) :=
            http_build_relative_child_path HF_HTTP_PATH_MAX relative_dir name in
          if negb (r =? 0) then ret None
          else
            let! info := fs_stat_path (Some full_path) in
            match info with
            | None => http_list_loop dir relative_dir names entries cap
            | Some info =>
                let! (grown, cap) := http_grow_entries (zlen entries) cap in
                if negb grown then ret None
                else
                  let! name_copy := sys_malloc in
                  if negb name_copy then ret None
                  else
                    let! path_copy := sys_malloc in
                    if negb path_copy then ret None
                    else
                      let size :=
                        if bool_decide (kind info = FS_PATH_KIND_FILE) then size info else 0 in
                      http_list_loop dir relative_dir names
                        (entries ++ [HttpFileEntry name relative_path (kind info) size (mtime info)])
                        cap
            end
  | _, _ => ret (Some entries)
  end.

(** [*entries_out]; [None] is a non-zero result. *)
Definition http_list_files (dir relative_dir : bytes) : M (option (list http_file_entry_t)) :=
  let! dp := sys_opendir dir in
  match dp with
  | None => ret None
  | Some names =>
      let! entries := http_list_loop dir relative_dir names [] 0 in
      let entries :=
        match entries with
        | Some entries =>
            Some (if 1 <? zlen entries then merge_sort entry_le entries else entries)
        | None => None
        end in
      let! _ := sys_closedir in
      ret entries
  end.

(** [snprintf(numbuf, sizeof(numbuf), "%" PRIu64, value)] and the append. *)
Definition http_buf_append_u64 (value : Z) (out : http_buf_t) : M (Z * http_buf_t) :=
  let '(n, numbuf) := snprintf 64 (udec value) in
  if n <? 0 then ret (1, out) else http_buf_append (ztake n numbuf) out.

Definition http_entry_ops (e : http_file_entry_t) : list (http_buf_t -> M (Z * http_buf_t)) :=
  [http_buf_append_str ([123] ++ quoted (bs "name") ++ [58; 34]);
   http_json_escape (en_name e);
   http_buf_append_str ([34; 44] ++ quoted (bs "path") ++ [58; 34]);
   http_json_escape (en_path e);
   http_buf_append_str ([34; 44] ++ quoted (bs "kind") ++ [58; 34]);
   http_json_escape (http_path_kind_name (en_kind e));
   http_buf_append_str ([34; 44] ++ quoted (bs "size") ++ [58]);
   http_buf_append_u64 (en_size e);
   http_buf_append_str ([44] ++ quoted (bs "mtime") ++ [58]);
   http_buf_append_u64 (en_mtime e);
   http_buf_append_ch 125].

Fixpoint http_files_json_loop (i : Z) (entries : list http_file_entry_t) (out : http_buf_t)
    : M (Z * http_buf_t) :=
  match entries with
  | [] => ret (0, out)
  | e :: entries =>
      let! (r, out) :=
        buf_seq ((if 0 <? i then [http_buf_append_ch 44] else []) ++ http_entry_ops e) out in
      if negb (r =? 0) then ret (1, out) else http_files_json_loop (i + 1) entries out
  end.

Definition http_build_files_json (dir relative_dir : bytes) (out : http_buf_t)
    : M (Z * http_buf_t) :=
  let! entries := http_list_files dir relative_dir in
  match entries with
  | None => ret (1, out)
  | Some entries =>
      buf_seq [http_buf_append_ch 91; http_files_json_loop 0 entries; http_buf_append_ch 93] out
  end.

(** The loop that fills [safe_name] from position [safe_len] on. *)
Fixpoint http_safe_name (p : bytes) (safe_len : Z) : bytes :=
  match p with
  | [] => []
  | c :: p =>
      if safe_len + 1 <? 512 then
        (if (c =? 34) || (c =? 92) || (c =? 13) || (c =? 10) then 95 else c)
          :: http_safe_name p (safe_len + 1)
      else []
  end.

Definition http_file_header (size : Z) (safe_name : bytes) : bytes :=
  bs "HTTP/1.1 200 OK" ++ crlf ++
  bs "Content-Type: application/octet-stream" ++ crlf ++
  bs "Content-Length: " ++ udec size ++ crlf ++
  bs "Content-Disposition: attachment; filename=" ++ [34] ++ safe_name ++ [34] ++ crlf ++
  bs "Connection: close" ++ crlf ++ crlf.

(** From the open file on. *)
Definition http_send_download (conn : Z) (download : app_download_t) (relative_path : bytes)
    : M Z :=
  let safe_name := http_safe_name (http_relative_basename relative_path) 0 in
  let '(n, header) := snprintf 1024 (http_file_header (download_size download) safe_name) in
  if snprintf_failed n 1024 then ret 1
  else
    let! sent := send_all conn (ztake n header) in
    if negb (sent =? n) then ret 1
    else
      let! send_file_res :=
        net_send_file_best_effort conn (fd download) (download_size download) in
      ret (if bool_decide (send_file_res = NET_SEND_FILE_OK) then 0 else 1).

Definition http_send_file (conn : Z) (ser_opt : server_opt_t) (relative_path : bytes) : M Z :=
  if negb (fs_validate_relative_path (Some relative_path) =? 0) then
    http_send_json_error conn 400 (bs "Bad Request") (bs "invalid file path")
  else
    let! (r, download) :=
      app_prepare_download (s_path ser_opt) (Some relative_path) download_none in
    if negb (result_ok r) then
      http_send_json_error conn 404 (bs "Not Found") (bs "file not found")
    else
      let! exit_code := http_send_download conn download relative_path in
      let! _ := app_download_cleanup download in
      ret exit_code.

Definition http_bad_path (conn : Z) : M Z :=
  http_send_json_error conn 400 (bs "Bad Request") (bs "invalid path").

(** [relative_dir]: what the query's "path" names; [None] is the reply 400. *)
Definition http_list_dir (req : http_request_t) : M (option bytes) :=
  match http_query_get_value (query req) (bs "path") HF_HTTP_PATH_MAX with
  | None => out_of_fuel
  | Some (r, encoded_path) =>
      if r =? 0 then
        match http_decode_name encoded_path HF_HTTP_PATH_MAX with
        | None => ret None
        | Some out =>
            let relative_dir := cstr (out ++ [0]) in
            if negb (bool_decide (relative_dir = [])) &&
               negb (fs_validate_relative_path (Some relative_dir) =? 0) then ret None
            else ret (Some relative_dir)
        end
      else ret (Some [])
  end.

(** From the call of [http_build_files_json] on. *)
Definition http_send_listing (conn : Z) (dir_path relative_dir : bytes) : M Z :=
  let! (r, body) := http_build_files_json dir_path relative_dir http_buf_zero in
  if negb (r =? 0) then
    http_send_json_error conn 500 (bs "Internal Server Error") (bs "failed to list files")
  else
    let! r := http_send_response conn 200 (bs "OK") content_type_json (data body) None in
    ret (if negb (r =? 0) then 1 else 0).

Definition http_not_directory (conn : Z) : M Z :=
  http_send_json_error conn 400 (bs "Bad Request") (bs "path is not a directory").

Definition http_handle_files_list (conn : Z) (ser_opt : server_opt_t) (req : http_request_t)
    : M Z :=
  let! relative_dir := http_list_dir req in
  match relative_dir with
  | None => http_bad_path conn
  | Some relative_dir =>
      let '(r, dir_path) := fs_join_relative_path 4096 (s_path ser_opt) (Some relative_dir) in
      if negb (r =? 0) then http_bad_path conn
      else
        let! info := fs_stat_path (Some dir_path) in
        match info with
        | None => http_send_json_error conn 404 (bs "Not Found") (bs "path not found")
        | Some info =>
            if negb (bool_decide (kind info = FS_PATH_KIND_DIR)) then
              if bool_decide (relative_dir = []) &&
                 bool_decide (kind info = FS_PATH_KIND_SYMLINK) then
                let! dp := sys_opendir dir_path in
                match dp with
                | None => http_not_directory conn
                | Some _ =>
                    let! _ := sys_closedir in http_send_listing conn dir_path relative_dir
                end
              else http_not_directory conn
            else http_send_listing conn dir_path relative_dir
        end
  end.

(** The reply to a stored upload. *)
Definition http_send_stored (conn : Z) (relative_path : bytes) (info : fs_path_info_t) : M Z :=
  let! (r, response) :=
    buf_seq
      [http_buf_append_str ([123] ++ quoted (bs "name") ++ [58; 34]);
       http_json_escape (http_relative_basename relative_path);
       http_buf_append_str ([34; 44] ++ quoted (bs "path") ++ [58; 34]);
       http_json_escape relative_path;
       http_buf_append_str ([34; 44] ++ quoted (bs "kind") ++ [58] ++ quoted (bs "file") ++ [44] ++ quoted (bs "size") ++ [58]);
       http_buf_append_u64 (size info);
       http_buf_append_str ([44] ++ quoted (bs "mtime") ++ [58]);
       http_buf_append_u64 (mtime info);
       http_buf_append_ch 125] http_buf_zero in
  if negb (r =? 0) then ret 1
  else
    let! r := http_send_response conn 201 (bs "Created") content_type_json (data response) None in
    ret (if negb (r =? 0) then 1 else 0).

Definition http_internal_error (conn : Z) (message : bytes) : M Z :=
  http_send_json_error conn 500 (bs "Internal Server Error") message.

(** From the call of [app_receive_file] on. *)
Definition http_store_upload (conn : Z) (ser_opt : server_opt_t) (req : http_request_t)
    (relative_path : bytes) : M Z :=
  let! (recv_result, saved_path) :=
    app_receive_file conn (s_path ser_opt) (Some relative_path) (content_length req)
      APP_UPLOAD_HTTP PATH_CAP in
  if bool_decide (recv_result = PROTOCOL_ERR_MSG_TOO_LARGE) then
    http_send_json_error conn 413 (bs "Payload Too Large") (bs "upload too large")
  else if bool_decide (recv_result = PROTOCOL_ERR_INVALID_ARGUMENT) then
    http_send_json_error conn 400 (bs "Bad Request") (bs "invalid file path")
  else if negb (result_ok recv_result) then http_internal_error conn (bs "failed to save file")
  else
    let! info := fs_stat_path saved_path in
    match info with
    | None => http_internal_error conn (bs "saved file missing")
    | Some info =>
        if negb (bool_decide (kind info = FS_PATH_KIND_FILE)) then
          http_internal_error conn (bs "saved file missing")
        else http_send_stored conn relative_path info
    end.

Definition http_handle_file_put (conn : Z) (ser_opt : server_opt_t) (req : http_request_t)
    (relative_path : bytes) : M Z :=
  if has_transfer_encoding req then
    http_send_json_error conn 501 (bs "Not Implemented") (bs "transfer-encoding not supported")
  else if negb (has_content_length req) then
    http_send_json_error conn 411 (bs "Length Required") (bs "content-length required")
  else if HF_HTTP_UPLOAD_MAX <? content_length req then
    http_send_json_error conn 413 (bs "Payload Too Large") (bs "upload too large")
  else if negb (http_ascii_starts_with (content_type req) (bs "application/octet-stream")) then
    let! _ := (if has_content_length req then http_discard_body conn (content_length req)
               else ret 0) in
    http_send_json_error conn 415 (bs "Unsupported Media Type")
      (bs "content-type must be application/octet-stream")
  else if negb (fs_validate_relative_path (Some relative_path) =? 0) then
    let! _ := (if has_content_length req then http_discard_body conn (content_length req)
               else ret 0) in
    http_send_json_error conn 400 (bs "Bad Request") (bs "invalid file path")
  else
    let! _ := http_set_connection_recv_timeout conn HF_HTTP_UPLOAD_BODY_TIMEOUT_MS in
    http_store_upload conn ser_opt req relative_path.

(** *** Specifications *)

Definition child_path (relative_dir name : bytes) : bytes :=
  match relative_dir with [] => name | _ => relative_dir ++ [47] ++ name end.

(** What [fs_stat_path] reports of a file system object. *)
Definition info_of (n : node) : fs_path_info_t :=
  match n with
  | NFile c m => PathInfo FS_PATH_KIND_FILE (zlen c) (u64 m)
  | NDir m => PathInfo FS_PATH_KIND_DIR 0 (u64 m)
  | NLink _ m => PathInfo FS_PATH_KIND_SYMLINK 0 (u64 m)
  | NOther m => PathInfo FS_PATH_KIND_OTHER 0 (u64 m)
  end.

Definition dot_name (name : bytes) : bool := streq name [46] || streq name [46; 46].

(** The entry for [name] in the directory [dir]. *)
Definition entry_of (fs : gmap bytes node) (dir relative_dir name : bytes)
    : option http_file_entry_t :=
  if dot_name name then None
  else
    (fun n => HttpFileEntry name (child_path relative_dir name) (kind (info_of n)) (size (info_of n))
                (mtime (info_of n))) <$> fs !! entry_path dir name.

Definition entries_of (fs : gmap bytes node) (dir relative_dir : bytes) (names : list bytes)
    : list http_file_entry_t := omap (entry_of fs dir relative_dir) names.

(** The listing of a directory: newest first, then by name. *)
Definition directory_listing (fs : gmap bytes node) (dir relative_dir : bytes)
    : list http_file_entry_t :=
  merge_sort entry_le (entries_of fs dir relative_dir (dir_entries fs dir)).

(** The paths of an entry fit the buffers. *)
Definition child_fits (dir relative_dir name : bytes) : Prop :=
  dot_name name = true \/
  zlen (entry_path dir name) < 4096 /\ zlen (child_path relative_dir name) < HF_HTTP_PATH_MAX.

Definition entry_json (e : http_file_entry_t) : bytes :=
  ([123] ++ quoted (bs "name") ++ [58]) ++ quoted (json_escaped (en_name e)) ++
  ([44] ++ quoted (bs "path") ++ [58]) ++ quoted (json_escaped (en_path e)) ++
  ([44] ++ quoted (bs "kind") ++ [58]) ++ quoted (http_path_kind_name (en_kind e)) ++
  ([44] ++ quoted (bs "size") ++ [58]) ++ udec (en_size e) ++
  ([44] ++ quoted (bs "mtime") ++ [58]) ++ udec (en_mtime e) ++ [125].

(** Entries from number [i] on, separated by commas. *)
Fixpoint entries_json (i : Z) (entries : list http_file_entry_t) : bytes :=
  match entries with
  | [] => []
  | e :: entries => (if 0 <? i then [44] else []) ++ entry_json e ++ entries_json (i + 1) entries
  end.

Definition files_json (entries : list http_file_entry_t) : bytes :=
  [91] ++ entries_json 0 entries ++ [93].

(** A 64-bit number. *)
Definition word64 (n : Z) : Prop := 0 <= n < 2 ^ 64.
Definition entry_ok (e : http_file_entry_t) : Prop := 0 <= en_size e < 2 ^ 64 /\ word64 (en_mtime e).

(** ** Theorems *)

(** *** The order of a listing *)

Lemma cmp_opp a b : http_file_entry_cmp b a = - http_file_entry_cmp a b.
Proof.
  unfold http_file_entry_cmp. rewrite (strcmp_opp (en_name a)).
  destruct (Z.ltb_spec (en_mtime a) (en_mtime b)), (Z.ltb_spec (en_mtime b) (en_mtime a)); lia.
Qed.

#[export] Instance entry_le_total : Total entry_le.
Proof. intros a b. unfold entry_le. rewrite (cmp_opp a b). lia. Qed.

#[export] Instance entry_le_trans : Transitive entry_le.
Proof.
  intros a b c. unfold entry_le, http_file_entry_cmp.
  destruct (Z.ltb_spec (en_mtime a) (en_mtime b)), (Z.ltb_spec (en_mtime b) (en_mtime a)),
    (Z.ltb_spec (en_mtime b) (en_mtime c)), (Z.ltb_spec (en_mtime c) (en_mtime b)),
    (Z.ltb_spec (en_mtime a) (en_mtime c)), (Z.ltb_spec (en_mtime c) (en_mtime a)); try lia.
  apply strcmp_trans.
Qed.

Lemma entry_le_name a b : entry_le a b -> entry_le b a -> en_name a = en_name b.
Proof.
  unfold entry_le. intros H1 H2. rewrite (cmp_opp a b) in H2.
  assert (E : http_file_entry_cmp a b = 0) by lia. unfold http_file_entry_cmp in E.
  destruct (en_mtime a <? en_mtime b); [done|]. destruct (en_mtime b <? en_mtime a); [done|].
  by apply strcmp_eq.
Qed.

(** Entries with different names have one order, so any [qsort] finds it. *)
Lemma qsort_unique l l1 l2 :
  NoDup (map en_name l) -> l1 ≡ₚ l -> l2 ≡ₚ l -> Sorted entry_le l1 -> Sorted entry_le l2 -> l1 = l2.
Proof.
  intros Hn H1 H2 Hs1 Hs2. apply (Sorted_unique_strong entry_le); [|done|done|by rewrite H1, H2].
  intros a b Ha Hb Hab Hba. rewrite H1 in Ha. rewrite H2 in Hb.
  pose proof (entry_le_name a b Hab Hba) as E.
  clear - Hn Ha Hb E. induction l as [|x l IH]; [by apply not_elem_of_nil in Ha|].
  cbn [map] in Hn. apply NoDup_cons in Hn as [Hx Hn].
  apply elem_of_cons in Ha as [->|Ha], Hb as [->|Hb]; try done; [| |by apply IH].
  - destruct Hx. rewrite E. by apply list_elem_of_fmap_2.
  - destruct Hx. rewrite <- E. by apply list_elem_of_fmap_2.
Qed.

Lemma entry_name_inj dir p1 p2 name :
  entry_name dir p1 = Some name -> entry_name dir p2 = Some name -> p1 = p2.
Proof.
  unfold entry_name. destruct (prefixb (entry_path dir []) p1) eqn:E1; [|done].
  destruct (prefixb (entry_path dir []) p2) eqn:E2; [|done].
  apply prefixb_spec in E1 as [r1 ->]. apply prefixb_spec in E2 as [r2 ->].
  rewrite !drop_app_length.
  intros H1 H2. f_equal. destruct r1, r2; try done. by repeat case_match; simplify_eq.
Qed.

Lemma dir_entries_nodup fs dir : NoDup (dir_entries fs dir).
Proof.
  unfold dir_entries. pose proof (NoDup_fst_map_to_list fs) as Hn.
  induction (map_to_list fs) as [|[p n] l IH]; [constructor|].
  cbn [omap list_omap]. cbn [map fst fmap list_fmap] in Hn. apply NoDup_cons in Hn as [Hp Hn].
  destruct (entry_name dir p) as [name|] eqn:E; [|by apply IH]. apply NoDup_cons.
  split; [|by apply IH]. intros ([p' n'] & Hin & E')%list_elem_of_omap.
  rewrite (entry_name_inj dir p p' name) in Hp by done. destruct Hp.
  apply list_elem_of_fmap. by exists (p', n').
Qed.

Lemma entries_of_nodup fs dir rel names :
  NoDup names -> NoDup (map en_name (entries_of fs dir rel names)).
Proof.
  unfold entries_of. induction 1 as [|name names Hn Hns IH]; [constructor|].
  cbn [omap list_omap]. destruct (entry_of fs dir rel name) as [e|] eqn:E; [|done].
  assert (Hname : forall x y, entry_of fs dir rel x = Some y -> en_name y = x).
  { unfold entry_of. intros x y. destruct (dot_name x); [done|].
    destruct (fs !! entry_path dir x); simpl; [|done]. by intros [= <-]. }
  cbn [map]. apply NoDup_cons. split; [|done]. rewrite (Hname _ _ E).
  intros (e' & He & Hin)%list_elem_of_fmap. apply list_elem_of_omap in Hin as (x & Hin & Ex).
  apply Hname in Ex. congruence.
Qed.

(** *** Listing *)

Lemma fs_stat_path_spec path w :
  wp (fs_stat_path (Some path)) (fun r w' =>
    only_errno w w' /\
    match r with
    | None => w_faults w = [] -> f_fs (w_files w) !! path = None
    | Some info => exists n, f_fs (w_files w) !! path = Some n /\ info = info_of n
    end) w.
Proof.
  unfold fs_stat_path. wp_step. apply wp_sys_lstat. intros [st|] w1 Hf1 H1; [|by wp_step].
  destruct H1 as (n & Hn & ->). destruct n as [c m|m|t m|m]; cbn [stat_of st_kind st_size st_mtime];
    try by (wp_step; split; [done|]; eexists; split; [done|]).
  destruct (Z.ltb_spec (zlen c) 0); [lia|]. wp_step. split; [done|]. by eexists.
Qed.

Lemma wp_sys_readdir names Q w :
  (forall w', only_errno w w' -> (w_faults w = [] -> names = []) -> Q None w') ->
  (forall name rest w', only_errno w w' -> names = name :: rest -> Q (Some name) w') ->
  wp (sys_readdir names) Q w.
Proof.
  intros He Hok. unfold sys_readdir. apply (wp_transfer (fun e => fail_with e None)).
  - intros e w' Hf Hlt. apply wp_fail_with, He; [frame|]. rewrite no_faults_flen. lia.
  - intros f w' Hf _. wp_step. destruct names; [by apply He|by eapply Hok].
Qed.

Lemma http_grow_entries_spec count cap w :
  wp (http_grow_entries count cap) (fun '(ok, _) w' =>
    only_errno w w' /\ (w_faults w = [] -> ok = true)) w.
Proof.
  unfold http_grow_entries. wp_step; [|by wp_step]. wp_step.
  apply wp_sys_malloc; intros w1 Hf1 H1; wp_step; split; try done. rewrite no_faults_flen. lia.
Qed.

Lemma build_relative_child_path_spec cap base name :
  0 < cap <= INT_MAX ->
  let '(r, out) := http_build_relative_child_path cap base name in
  (r = 0 <-> zlen (child_path base name) < cap) /\ (r = 0 -> out = child_path base name).
Proof.
  intros Hc. unfold http_build_relative_child_path. destruct (Z.eqb_spec cap 0); [lia|].
  fold (child_path base name). unfold snprintf, snprintf_failed.
  destruct (Z.leb_spec (zlen (child_path base name)) INT_MAX); cycle 1.
  { change ((-1 <? 0) || (cap <=? -1)) with true. cbv iota. split; lia. }
  destruct (Z.ltb_spec (zlen (child_path base name)) 0); [lia|]. cbn [orb].
  destruct (Z.leb_spec cap (zlen (child_path base name))); (split; [lia|]); [done|].
  intros _. rewrite ztake_ge; [done|lia].
Qed.

Lemma wp_copies {A} (fail ok : M A) Q w :
  (forall w', only_errno w w' -> w_faults w <> [] -> wp fail Q w') ->
  (forall w', only_errno w w' -> wp ok Q w') ->
  wp (let! copy := sys_malloc in if negb copy then fail else ok) Q w.
Proof.
  intros Hf Hok. wp_step. apply wp_sys_malloc; intros w1 H1 H2; simpl negb; cbv iota; [|by apply Hok].
  apply Hf; [done|]. rewrite no_faults_flen. lia.
Qed.

Lemma entry_of_some fs dir rel name n :
  dot_name name = false -> fs !! entry_path dir name = Some n ->
  entry_of fs dir rel name =
    Some (HttpFileEntry name (child_path rel name) (kind (info_of n))
            (if bool_decide (kind (info_of n) = FS_PATH_KIND_FILE) then size (info_of n) else 0)
            (mtime (info_of n))).
Proof. intros Hd Hn. unfold entry_of. rewrite Hd, Hn. by destruct n. Qed.

Lemma entry_of_none fs dir rel name :
  dot_name name = true \/ fs !! entry_path dir name = None -> entry_of fs dir rel name = None.
Proof. unfold entry_of. intros [->| ->]; [done|]. by destruct (dot_name name). Qed.

(** What reading the names comes to, [entries] being listed already: entries of
    some of the names, of all of them when no call fails. *)
Definition listed (fs : gmap bytes node) (dir rel : bytes) (entries : list http_file_entry_t)
    (names : list bytes) (calm : Prop) (r : option (list http_file_entry_t)) : Prop :=
  (forall es, r = Some es -> exists sub, sub `sublist_of` names /\
     es = entries ++ entries_of fs dir rel sub) /\
  (calm -> Forall (child_fits dir rel) names -> r = Some (entries ++ entries_of fs dir rel names)).

Lemma listed_stop fs dir rel entries names (calm : Prop) :
  (calm -> names = []) -> listed fs dir rel entries names calm (Some entries).
Proof.
  intros H. split.
  - intros es [= <-]. exists []. split; [apply sublist_nil_l|by rewrite app_nil_r].
  - intros E _. rewrite (H E). by rewrite app_nil_r.
Qed.

Lemma listed_fail fs dir rel entries name names (calm : Prop) :
  (calm -> ~ child_fits dir rel name) -> listed fs dir rel entries (name :: names) calm None.
Proof. intros H. split; [done|]. intros E [Hf _]%Forall_cons. by destruct (H E). Qed.

Lemma listed_next fs dir rel entries e name names (calm calm' : Prop) r :
  (forall x, e = Some x -> entry_of fs dir rel name = Some x) ->
  (e = None -> calm -> entry_of fs dir rel name = None) -> (calm -> calm') ->
  listed fs dir rel (entries ++ option_list e) names calm' r ->
  listed fs dir rel entries (name :: names) calm r.
Proof.
  intros Hs Hn Hc [Hsub Hall]. split.
  - intros es Hes. destruct (Hsub es Hes) as (sub & Hsl & ->). destruct e as [x|].
    + exists (name :: sub). split; [by apply sublist_skip|]. unfold entries_of. cbn [omap list_omap].
      rewrite (Hs x eq_refl), <- app_assoc. done.
    + exists sub. split; [by apply sublist_cons|]. by rewrite app_nil_r.
  - intros E [_ Hfit]%Forall_cons. rewrite Hall by auto. f_equal. unfold entries_of.
    cbn [omap list_omap]. destruct e as [x|].
    + rewrite (Hs x eq_refl), <- app_assoc. done.
    + rewrite (Hn eq_refl E), app_nil_r. done.
Qed.

(** What the loop comes to, [entries] being listed already. *)
Definition listing_done (dir rel : bytes) (names : list bytes) (entries : list http_file_entry_t)
    (w : world) (r : option (list http_file_entry_t)) (w' : world) : Prop :=
  only_errno w w' /\ listed (f_fs (w_files w)) dir rel entries names (w_faults w = []) r.

Lemma calm_errno w w' : only_errno w w' -> w_faults w = [] -> w_faults w' = [].
Proof. intros H E. eapply only_io_no_faults; [apply H|done]. Qed.

(** The turn of the loop for [name]: the names that follow are listed by the
    remaining turns. *)
Section list_turn.
Context (dir rel name : bytes) (names : list bytes).
Hypothesis (Hloop : forall entries cap w,
  wp (http_list_loop dir rel names entries cap) (listing_done dir rel names entries w) w).

Lemma http_list_next entries e cap w w1 :
  only_errno w w1 ->
  (forall x, e = Some x -> entry_of (f_fs (w_files w)) dir rel name = Some x) ->
  (e = None -> w_faults w = [] -> entry_of (f_fs (w_files w)) dir rel name = None) ->
  wp (http_list_loop dir rel names (entries ++ option_list e) cap)
    (listing_done dir rel (name :: names) entries w) w1.
Proof using Hloop.
  intros Hf Hs Hn. assert (Ew : w_files w1 = w_files w) by frame.
  eapply wp_mono; [apply Hloop|]. unfold listing_done. rewrite Ew.
  intros r w2 (Hf2 & Hl). split; [by etrans|].
  eapply listed_next; [exact Hs|exact Hn|by apply calm_errno|exact Hl].
Qed.

Lemma http_list_skip entries cap w w1 :
  only_errno w w1 ->
  (w_faults w = [] -> entry_of (f_fs (w_files w)) dir rel name = None) ->
  wp (http_list_loop dir rel names entries cap)
    (listing_done dir rel (name :: names) entries w) w1.
Proof using Hloop.
  intros Hf Hn. pose proof (http_list_next entries None cap w w1 Hf) as H. cbn [option_list] in H.
  rewrite app_nil_r in H. by apply H.
Qed.

Lemma http_list_fail entries w w1 :
  only_errno w w1 -> (w_faults w = [] -> ~ child_fits dir rel name) ->
  wp (ret None) (listing_done dir rel (name :: names) entries w) w1.
Proof using Type. intros Hf Hn. wp_step. split; [done|]. by apply listed_fail. Qed.

(** An entry is added. *)
Lemma http_list_add entries e cap w w1 :
  only_errno w w1 -> entry_of (f_fs (w_files w)) dir rel name = Some e ->
  wp (let! (grown, cap) := http_grow_entries (zlen entries) cap in
      if negb grown then ret None
      else
        let! name_copy := sys_malloc in
        if negb name_copy then ret None
        else
          let! path_copy := sys_malloc in
          if negb path_copy then ret None
          else http_list_loop dir rel names (entries ++ [e]) cap)
    (listing_done dir rel (name :: names) entries w) w1.
Proof using Hloop.
  intros Hf1 He. wp_step. wp_use http_grow_entries_spec.
  intros [grown cap2] w3 (Hf3 & H3). assert (Hf03 : only_errno w w3) by (by etrans).
  destruct grown; simpl negb; cbv iota; cycle 1.
  { apply http_list_fail; [done|]. intros E. by specialize (H3 (calm_errno _ _ Hf1 E)). }
  apply wp_copies; [intros w4 Hf4 H4; apply http_list_fail; [by etrans|];
                    intros E; by pose proof (calm_errno _ _ Hf03 E)|].
  intros w4 Hf4. assert (Hf04 : only_errno w w4) by (by etrans).
  apply wp_copies; [intros w5 Hf5 H5; apply http_list_fail; [by etrans|];
                    intros E; by pose proof (calm_errno _ _ Hf04 E)|].
  intros w5 Hf5. apply (http_list_next _ (Some _)); [by etrans| |done].
  by intros x [= <-].
Qed.
End list_turn.

Lemma http_list_loop_spec dir rel names entries cap w :
  wp (http_list_loop dir rel names entries cap) (listing_done dir rel names entries w) w.
Proof.
  revert entries cap w. induction names as [|name0 names IH]; intros entries cap w;
    cbn [http_list_loop]; wp_step; apply wp_sys_readdir.
  - intros w1 Hf1 _. wp_step. split; [done|]. by apply listed_stop.
  - done.
  - intros w1 Hf1 H1. wp_step. split; [done|]. by apply listed_stop.
  - intros name rest w1 Hf1 [= <- <-].
    fold (dot_name name0). destruct (dot_name name0) eqn:Hdot.
    { apply http_list_skip; [done|done|]. intros _. apply entry_of_none. by left. }
    destruct (fs_join_path 4096 (Some dir) (Some name0)) as [r full] eqn:Ej.
    destruct (Z.eqb_spec r 0) as [->|Hr]; simpl negb; cbv iota; cycle 1.
    { apply http_list_fail; [done|]. intros _ [?|[Hfit _]]; [congruence|].
      rewrite fs_join_path_fits in Ej by done. by injection Ej as <-. }
    apply fs_join_path_0 in Ej as [-> _].
    pose proof (build_relative_child_path_spec HF_HTTP_PATH_MAX rel name0) as Hb.
    destruct (http_build_relative_child_path HF_HTTP_PATH_MAX rel name0) as [r rpath].
    destruct Hb as [Hb1 Hb2]; [by vm_compute|].
    destruct (Z.eqb_spec r 0) as [->|Hr]; simpl negb; cbv iota; cycle 1.
    { apply http_list_fail; [done|]. intros _ [?|[_ Hfit]]; [congruence|]. by apply Hr, Hb1. }
    rewrite (Hb2 eq_refl). wp_step. wp_use fs_stat_path_spec.
    assert (Ew1 : w_files w1 = w_files w) by frame. rewrite Ew1.
    intros info w2 (Hf2 & Hinfo). assert (Hf02 : only_errno w w2) by (by etrans).
    destruct info as [info|]; cycle 1.
    { apply http_list_skip; [done|done|]. intros E. apply entry_of_none. right.
      eauto using calm_errno. }
    destruct Hinfo as (n & Hn & ->). apply http_list_add; [done|done|]. by apply entry_of_some.
Qed.

(** [opendir] of [dir], or of the directory it links to. *)
Lemma wp_sys_opendir dir Q w :
  (forall w', only_errno w w' ->
     (w_faults w = [] -> forall m, f_fs (w_files w) !! dir <> Some (NDir m)) -> Q None w') ->
  (forall w', only_errno w w' -> let d := resolved (f_fs (w_files w)) dir in
     (exists m, f_fs (w_files w) !! d = Some (NDir m)) ->
     Q (Some ([46] :: [46; 46] :: dir_entries (f_fs (w_files w)) d)) w') ->
  wp (sys_opendir dir) Q w.
Proof.
  intros He Hok. unfold sys_opendir. apply (wp_transfer (fun e => fail_with e None)).
  - intros e w' Hf Hlt. apply wp_fail_with, He; [frame|]. rewrite no_faults_flen. lia.
  - intros f w' Hf _. do 2 wp_step. assert (w_files w' = w_files w) as -> by frame.
    specialize (Hok w' Hf). unfold resolved in Hok. cbv zeta in Hok |- *.
    assert (Hno : forall e, (forall m, f_fs (w_files w) !! dir <> Some (NDir m)) ->
      wp (fail_with e None) Q w') by (intros e H; wp_step; apply He; [frame|done]).
    destruct (f_fs (w_files w) !! dir) as [[c m|m|t m|m]|] eqn:E; try by apply Hno.
    + wp_step. apply Hok; eauto.
    + destruct (f_fs (w_files w) !! t) as [[]|] eqn:Et; try by apply Hno.
      wp_step. apply Hok; eauto.
Qed.

Lemma entries_of_dots fs dir rel sub l :
  sub `sublist_of` ([46] :: [46; 46] :: l) ->
  exists sub', sub' `sublist_of` l /\ entries_of fs dir rel sub = entries_of fs dir rel sub'.
Proof.
  assert (Hdot : forall x s, dot_name x = true ->
    entries_of fs dir rel (x :: s) = entries_of fs dir rel s).
  { intros x s Hx. unfold entries_of. cbn [omap list_omap]. by rewrite entry_of_none by (by left). }
  intros [H|(s & -> & H)]%sublist_cons_r.
  - apply sublist_cons_r in H as [H|(s & -> & H)]; [by exists sub|].
    exists s. split; [done|by apply Hdot].
  - apply sublist_cons_r in H as [H|(s' & -> & H)].
    + exists s. split; [done|by apply Hdot].
    + exists s'. split; [done|]. by rewrite !Hdot.
Qed.

(** A list of entries a reply may hold: in order, and of names in the directory. *)
Definition listing_of (fs : gmap bytes node) (dir rel : bytes) (es : list http_file_entry_t) : Prop :=
  Sorted entry_le es /\ exists names, names `sublist_of` dir_entries fs (resolved fs dir) /\
    es ≡ₚ entries_of fs dir rel names.

Lemma sort_short l : (if 1 <? zlen l then merge_sort entry_le l else l) = merge_sort entry_le l.
Proof.
  destruct (Z.ltb_spec 1 (zlen l)); [done|]. destruct l as [|x [|y l]]; [done|done|].
  cbn [length] in *. lia.
Qed.

Lemma http_list_files_spec dir rel w :
  let fs := f_fs (w_files w) in
  wp (http_list_files dir rel) (fun r w' =>
    only_errno w w' /\ (forall es, r = Some es -> listing_of fs dir rel es) /\
    (w_faults w = [] -> (exists m, fs !! dir = Some (NDir m)) ->
     Forall (child_fits dir rel) (dir_entries fs dir) -> r = Some (directory_listing fs dir rel))) w.
Proof.
  intros fs. unfold http_list_files. wp_step. apply wp_sys_opendir.
  { intros w1 Hf1 H1. wp_step. split; [done|]. split; [done|].
    intros E [m Hm]. by destruct (H1 E m). }
  intros w1 Hf1 d Hd. fold fs in d, Hd |- *. wp_step. wp_use http_list_loop_spec.
  assert (Ew : w_files w1 = w_files w) by frame. unfold listing_done. rewrite Ew. fold fs.
  intros r w2 (Hf2 & Hsub & Hall). wp_step.
  assert (Hgo : forall w3, only_errno w2 w3 ->
    only_errno w w3 /\
    (forall es, match r with Some es => Some (if 1 <? zlen es then merge_sort entry_le es else es)
                           | None => None end = Some es -> listing_of fs dir rel es) /\
    (w_faults w = [] -> (exists m, fs !! dir = Some (NDir m)) ->
     Forall (child_fits dir rel) (dir_entries fs dir) ->
     match r with Some es => Some (if 1 <? zlen es then merge_sort entry_le es else es)
                | None => None end = Some (directory_listing fs dir rel))).
  { intros w3 Hf3. split; [etrans; [done|]; by etrans|]. split.
    - destruct r as [es0|]; [|done]. intros es [= <-]. rewrite sort_short.
      destruct (Hsub es0 eq_refl) as (sub & Hsl & ->). cbn [app].
      apply (entries_of_dots fs dir rel) in Hsl as (sub' & Hsl & ->).
      split; [apply (Sorted_merge_sort _)|]. exists sub'. split; [done|apply merge_sort_Permutation].
    - intros E [m Hm] Hfit. assert (d = dir) as Hd' by (unfold d, resolved; by rewrite Hm).
      rewrite Hall.
      + rewrite sort_short, Hd'. done.
      + eapply only_io_no_faults; [apply Hf1|done].
      + rewrite Hd'. rewrite !Forall_cons. split_and!; [by left|by left|done]. }
  by apply wp_sys_closedir; intros w3 Hf3 _; wp_step; apply Hgo.
Qed.

(** *** The JSON text *)

Lemma word64_u64 m : word64 (u64 m).
Proof. apply Z.mod_pos_bound. lia. Qed.

Lemma info_words fs p n :
  sizes_fit fs -> fs !! p = Some n -> word64 (size (info_of n)) /\ word64 (mtime (info_of n)).
Proof.
  intros Hs Hp. destruct n; simpl; (split; [|apply word64_u64]); unfold word64; [|lia..].
  apply Hs in Hp. lia.
Qed.

Lemma listing_entries_ok fs dir rel es :
  sizes_fit fs -> listing_of fs dir rel es -> Forall entry_ok es.
Proof.
  intros Hs (_ & names & _ & ->). apply Forall_forall. intros e (name & _ & He)%list_elem_of_omap.
  unfold entry_of in He. destruct (dot_name name); [done|].
  destruct (fs !! entry_path dir name) as [n|] eqn:E; [|done]. injection He as <-.
  exact (info_words _ _ _ Hs E).
Qed.

Lemma appends_u64 v : word64 v -> appends (udec v) (http_buf_append_u64 v).
Proof.
  intros Hv b w Hb. unfold http_buf_append_u64, word64 in *.
  assert (Hl : zlen (udec v) <= 20) by (apply udec_digits; lia).
  destruct (snprintf_ok 64 (udec v)) as [-> _]; [lia|unfold INT_MAX; lia|].
  destruct (Z.ltb_spec (zlen (udec v)) 0); [lia|]. rewrite ztake_ge by lia.
  by apply appends_append; [lia|].
Qed.

Lemma kind_name_escaped k : json_escaped (http_path_kind_name k) = http_path_kind_name k.
Proof. by destruct k. Qed.

Lemma entry_json_appends e :
  entry_ok e -> exists ds, Forall2 appends ds (http_entry_ops e) /\ concat ds = entry_json e.
Proof.
  intros [Hs Hm]. eexists. split.
  - unfold http_entry_ops. repeat first
      [apply Forall2_nil_2 | apply Forall2_cons_2 | apply http_json_escape_appends
      | by apply appends_u64 | apply appends_ch | by apply appends_str].
  - rewrite kind_name_escaped. unfold entry_json, quoted. cbn [concat].
    rewrite <- !app_assoc, ?app_nil_r. done.
Qed.

Lemma files_json_loop_appends i es :
  Forall entry_ok es -> appends (entries_json i es) (http_files_json_loop i es).
Proof.
  intros Hes. revert i. induction Hes as [|e es He Hes IH]; intros i; [apply appends_nil|].
  cbn [entries_json http_files_json_loop]. destruct (entry_json_appends e He) as (ds & Hds & <-).
  rewrite app_assoc. apply (appends_bind _ _ (buf_seq ((if 0 <? i then _ else _) ++ http_entry_ops e)));
    [|apply IH].
  destruct (0 <? i); cbn [app]; [|by apply appends_seq].
  apply (appends_seq ([44] :: ds) (http_buf_append_ch 44 :: http_entry_ops e)).
  constructor; [apply appends_ch|done].
Qed.

Lemma files_json_appends es :
  Forall entry_ok es ->
  appends (files_json es)
    (buf_seq [http_buf_append_ch 91; http_files_json_loop 0 es; http_buf_append_ch 93]).
Proof.
  intros Hes. change (files_json es) with (concat [[91]; entries_json 0 es; [93]]).
  apply appends_seq. repeat constructor; [apply appends_ch|by apply files_json_loop_appends|apply appends_ch].
Qed.

Lemma http_build_files_json_spec dir rel w :
  let fs := f_fs (w_files w) in
  sizes_fit fs ->
  wp (http_build_files_json dir rel http_buf_zero) (fun '(r, b) w' =>
    only_errno w w' /\ object_size (data b) /\
    (r = 0 -> exists es, listing_of fs dir rel es /\ data b = files_json es) /\
    (w_faults w = [] -> (exists m, fs !! dir = Some (NDir m)) ->
     Forall (child_fits dir rel) (dir_entries fs dir) ->
     zlen (files_json (directory_listing fs dir rel)) < 2 ^ 62 ->
     r = 0 /\ data b = files_json (directory_listing fs dir rel))) w.
Proof.
  intros fs Hs. unfold http_build_files_json. wp_step. wp_use http_list_files_spec. fold fs.
  intros r w1 (Hf1 & H1 & H2). destruct r as [es|]; cycle 1.
  { wp_step. split; [done|]. split_and!; [done|done|]. intros E Hd Hfit _. by specialize (H2 E Hd Hfit). }
  specialize (H1 es eq_refl). pose proof (listing_entries_ok _ _ _ _ Hs H1) as Hok.
  wp_use (files_json_appends es Hok); [done|]. intros [r b] w2 (Hf2 & Hb & Hr & Hd & H0).
  split; [by etrans|]. split_and!.
  - destruct Hb as [[-> _]|[Hl Hc]]; [done|]. apply cap_ok_range in Hc. unfold object_size. lia.
  - intros E. exists es. split; [done|]. by rewrite (Hd E).
  - intros E Hdir Hfit Hl. specialize (H2 E Hdir Hfit). injection H2 as ->.
    assert (r = 0) as ->; [|split; [done|by rewrite (Hd eq_refl)]].
    apply H0; [by eapply only_io_no_faults; [apply Hf1|]|]. done.
Qed.

(** *** The listing as a response *)

Definition files_response (es : list http_file_entry_t) : bytes :=
  http_response 200 (bs "OK") content_type_json (files_json es).

(** What a request for a listing may be answered. *)
Definition listing_reply (fs : gmap bytes node) (dir rel text : bytes) : Prop :=
  error_reply text \/ exists es, listing_of fs dir rel es /\ text = files_response es.

(** Nothing keeps the server from listing [dir]. *)
Definition listable (fs : gmap bytes node) (dir rel : bytes) : Prop :=
  (exists m, fs !! dir = Some (NDir m)) /\ Forall (child_fits dir rel) (dir_entries fs dir) /\
  zlen (files_json (directory_listing fs dir rel)) < 2 ^ 62.

Lemma http_send_listing_spec conn dir rel w :
  let fs := f_fs (w_files w) in
  sizes_fit fs ->
  wp (http_send_listing conn dir rel) (fun r w' =>
    exists text, replies text r w w' /\ listing_reply fs dir rel text /\
      (w_faults w = [] -> listable fs dir rel -> text = files_response (directory_listing fs dir rel))) w.
Proof.
  intros fs Hs. unfold http_send_listing. wp_step. wp_use http_build_files_json_spec; [done|]. fold fs.
  intros [r b] w1 (Hf1 & Hsize & H1 & H2).
  destruct (Z.eqb_spec r 0) as [->|Hr]; simpl negb; cbv iota; cycle 1.
  { send_error. intros text r' w' Ht Hrep. exists text. split; [by eapply replies_after|].
    split; [by left|]. intros E (Hd & Hfit & Hl). by destruct (H2 E Hd Hfit Hl). }
  destruct (H1 eq_refl) as (es & Hes & Hb). wp_step.
  wp_use http_send_response_spec; [by_decision|done|]. intros r w2 Hr. wp_step.
  exists (files_response es). rewrite Hb in Hr. split; [eapply replies_after, replies_01; done|].
  split; [right; by exists es|]. intros E (Hd & Hfit & Hl). unfold files_response.
  destruct (H2 E Hd Hfit Hl) as [_ <-]. by rewrite Hb.
Qed.

(** The directory a request asks for; [None]: its path is refused. *)
Definition listed_path (query : bytes) : option bytes :=
  match list_find (fun e => fst e = bs "path") (query_entries (S (length query)) query) with
  | None => Some []
  | Some (_, e) =>
      if HF_HTTP_PATH_MAX <=? zlen (snd e) then Some []
      else
        match http_decode_name (snd e) HF_HTTP_PATH_MAX with
        | None => None
        | Some out =>
            let relative_dir := cstr (out ++ [0]) in
            if negb (bool_decide (relative_dir = [])) &&
               negb (fs_validate_relative_path (Some relative_dir) =? 0) then None
            else Some relative_dir
        end
  end.

Lemma http_list_dir_spec req : http_list_dir req = ret (listed_path (query req)).
Proof.
  unfold http_list_dir, http_query_get_value, listed_path.
  change (HF_HTTP_PATH_MAX =? 0) with false. cbv iota. rewrite query_loop_spec by lia.
  destruct (list_find _ _) as [[i e]|]; [|done].
  destruct (HF_HTTP_PATH_MAX <=? zlen (snd e)); [done|]. change (0 =? 0) with true. cbv iota.
  destruct (http_decode_name (snd e) HF_HTTP_PATH_MAX) as [out|]; [|done]. by case_match.
Qed.

Lemma listed_path_ok q rel : listed_path q = Some rel -> rel = [] \/ relative_path_ok rel.
Proof.
  unfold listed_path. destruct (list_find _ _) as [[i e]|]; [|by intros [= <-]; left].
  destruct (HF_HTTP_PATH_MAX <=? zlen (snd e)); [by intros [= <-]; left|].
  destruct (http_decode_name (snd e) HF_HTTP_PATH_MAX) as [out|]; [|done].
  case_bool_decide as He; cbn [negb andb]; [intros [= <-]; by left|].
  destruct (Z.eqb_spec (fs_validate_relative_path (Some (cstr (out ++ [0])))) 0) as [E|E];
    cbn [negb]; [|done].
  intros [= <-]. right. by apply fs_validate_relative_path_iff.
Qed.

Lemma fs_join_target_fits base rel :
  rel = [] \/ relative_path_ok rel -> zlen (target_path base rel) < PATH_CAP ->
  fs_join_relative_path PATH_CAP (Some base) (Some rel) = (0, target_path base rel).
Proof.
  intros [->|H] Hl.
  - unfold fs_join_relative_path. change (PATH_CAP =? 0) with false. cbv iota.
    destruct (snprintf_ok PATH_CAP base) as [-> ->]; [done| |done].
    cbn [target_path] in Hl. unfold PATH_CAP, INT_MAX in *. lia.
  - assert (rel <> []) by (intros ->; by apply fs_validate_relative_path_iff in H).
    assert (target_path base rel = entry_path base rel) as E by (by destruct rel). rewrite E in *.
    by apply fs_join_relative_path_fits; [vm_compute| |].
Qed.

(** What [http_handle_files_list] may answer, for the query [q]. *)
Definition listing_outcome (fs : gmap bytes node) (base q text : bytes) (calm : Prop) : Prop :=
  (error_reply text \/ exists rel, listed_path q = Some rel /\
     listing_reply fs (target_path base rel) rel text) /\
  (calm -> forall rel, listed_path q = Some rel -> listable fs (target_path base rel) rel ->
     zlen (target_path base rel) < PATH_CAP ->
     text = files_response (directory_listing fs (target_path base rel) rel)).

(** The listing was answered, one way or the other. *)
Definition listing_answered (base q : bytes) (w : world) (r : Z) (w' : world) : Prop :=
  exists text, replies text r w w' /\
    listing_outcome (f_fs (w_files w)) base q text (w_faults w = []).

(** [rel] is a directory that can be listed. *)
Definition list_target (fs : gmap bytes node) (base q rel : bytes) : Prop :=
  listed_path q = Some rel /\ listable fs (target_path base rel) rel /\
  zlen (target_path base rel) < PATH_CAP.

Lemma listing_refused conn base q status reason message w w1 :
  only_errno w w1 -> status_ok status reason content_type_json -> zlen message < 2 ^ 50 ->
  400 <= status < 600 ->
  (forall rel, w_faults w = [] -> ~ list_target (f_fs (w_files w)) base q rel) ->
  wp (http_send_json_error conn status reason message) (listing_answered base q w) w1.
Proof.
  intros Hf1 Hok Hm Hst Hno. apply http_send_error_spec; [done|done|done|].
  intros text r w' Ht Hr. exists text. split; [by eapply replies_after|]. split; [by left|].
  intros E rel H1 H2 H3. by destruct (Hno rel E).
Qed.

Lemma listing_sent conn base q rel w w1 :
  sizes_fit (f_fs (w_files w)) -> listed_path q = Some rel -> only_errno w w1 ->
  wp (http_send_listing conn (target_path base rel) rel) (listing_answered base q w) w1.
Proof.
  intros Hs El Hf1. assert (Ew : w_files w1 = w_files w) by frame.
  eapply wp_mono; [apply http_send_listing_spec; by rewrite Ew|]. rewrite Ew.
  intros r w' (text & Hrep & Ht & Hlive). exists text. split; [by eapply replies_after|]. split.
  - right. by exists rel.
  - rewrite El. intros E rel' [= <-] Hl _. apply Hlive; [|done]. by eapply calm_errno.
Qed.

Lemma http_handle_files_list_spec conn opt base req w :
  s_path opt = Some base -> sizes_fit (f_fs (w_files w)) ->
  wp (http_handle_files_list conn opt req) (listing_answered base (query req) w) w.
Proof.
  intros Hbase Hs. unfold http_handle_files_list. rewrite http_list_dir_spec, Hbase. do 2 wp_step.
  destruct (listed_path (query req)) as [rel|] eqn:El; cycle 1.
  { apply listing_refused; [done|by_decision|by vm_compute|lia|].
    intros rel _ (E & _). congruence. }
  pose proof (listed_path_ok _ _ El) as Hrel.
  destruct (fs_join_relative_path 4096 (Some base) (Some rel)) as [r full] eqn:Ej.
  destruct (Z.eqb_spec r 0) as [->|Hr]; simpl negb; cbv iota; cycle 1.
  { apply listing_refused; [done|by_decision|by vm_compute|lia|].
    intros rel' _ (E & _ & Hl). rewrite El in E. injection E as <-.
    pose proof (fs_join_target_fits base rel Hrel Hl) as E. unfold PATH_CAP in E. congruence. }
  apply fs_join_target in Ej as (_ & -> & _). wp_step. wp_use fs_stat_path_spec.
  intros [info|] w1 (Hf1 & H1); cycle 1.
  { apply listing_refused; [done|by_decision|by vm_compute|lia|].
    intros rel' E (E' & [[m Hm] _] & _). rewrite El in E'. injection E' as <-.
    specialize (H1 E). congruence. }
  destruct H1 as (n & Hn & ->).
  case_bool_decide as Hk; simpl negb; cbv iota; [by apply listing_sent|].
  assert (Hnot : forall w2, only_errno w w2 ->
    wp (http_not_directory conn) (listing_answered base (query req) w) w2).
  { intros w2 Hf2. apply listing_refused; [done|by_decision|by vm_compute|lia|].
    intros rel' _ (E & [[m Hm] _] & _). rewrite El in E. injection E as <-.
    destruct Hk. rewrite Hm in Hn. by injection Hn as <-. }
  wp_step; [|by apply Hnot]. wp_step. apply wp_sys_opendir.
  { intros w2 Hf2 _. apply Hnot. by etrans. }
  intros w2 Hf2 d _. wp_step.
  apply wp_sys_closedir; intros w3 Hf3 _; (apply listing_sent; [done|done|]); by repeat (etrans; [done|]).
Qed.

(** *** Sending a file *)

(** A text was sent, or a part of it, and the descriptors are as before: what a
    handler that opens a file promises. *)
Definition answered (text : bytes) (r : Z) (w w' : world) : Prop :=
  only_io w w' /\ files_released (w_files w) (w_files w') /\ n_in (w_net w') = n_in (w_net w) /\
  (r = 0 \/ r = 1) /\ said text w w' /\ (r = 0 -> said_all text w w').

Lemma replies_answered text r w w1 w' :
  only_files w w1 -> files_released (w_files w) (w_files w1) -> replies text r w1 w' ->
  answered text r w w'.
Proof.
  intros Hf Hrel (H1 & H2 & H3 & H4 & H5 & _). assert (Hn : w_net w1 = w_net w) by apply Hf.
  split; [etrans; [by apply only_files_io|by apply only_net_io]|].
  destruct H1 as [_ Hw]. rewrite Hw. split; [done|]. split_and!; [congruence|done| |].
  - eapply said_after; [|done]. by rewrite Hn.
  - intros E. eapply said_all_after; [|by apply H5]. by rewrite Hn.
Qed.

Lemma safe_name_length p n : 0 <= n < 512 -> n + zlen (http_safe_name p n) < 512.
Proof.
  revert n. induction p as [|c p IH]; intros n Hn; cbn [http_safe_name]; [simpl; lia|].
  destruct (Z.ltb_spec (n + 1) 512); [|simpl; lia]. specialize (IH (n + 1) ltac:(lia)).
  rewrite length_cons. lia.
Qed.

Lemma safe_name_safe p n :
  Forall (fun c => c <> 34 /\ c <> 92 /\ c <> 13 /\ c <> 10) (http_safe_name p n).
Proof.
  revert n. induction p as [|c p IH]; intros n; cbn [http_safe_name]; [constructor|].
  destruct (n + 1 <? 512); [|constructor]. constructor; [|apply IH].
  destruct ((c =? 34) || (c =? 92) || (c =? 13) || (c =? 10)) eqn:E; lia.
Qed.

Definition safe_name_of (rel : bytes) : bytes := http_safe_name (http_relative_basename rel) 0.

Lemma file_header_length size rel :
  0 <= size < 2 ^ 64 -> zlen (http_file_header size (safe_name_of rel)) < 1024.
Proof.
  intros Hs. pose proof (safe_name_length (http_relative_basename rel) 0 ltac:(lia)) as Hn.
  assert (Hu : zlen (udec size) <= 20) by (apply udec_digits; lia).
  unfold http_file_header, safe_name_of, crlf in *. rewrite !length_app. cbn [length bs]. lia.
Qed.

(** The header is a block: the client finds its end before the contents,
    whatever the name of the file. *)
Lemma file_header_block size rel :
  0 <= size -> block_ok (http_file_header size (safe_name_of rel)).
Proof.
  intros Hs.
  assert (E : http_file_header size (safe_name_of rel) =
    block_of [bs "HTTP/1.1 200 OK"; bs "Content-Type: application/octet-stream";
              bs "Content-Length: " ++ udec size;
              bs "Content-Disposition: attachment; filename=" ++ [34] ++ safe_name_of rel ++ [34];
              bs "Connection: close"]).
  { unfold http_file_header, block_of. cbn [map concat]. rewrite <- !app_assoc. done. }
  rewrite E. apply block_of_ok; [done|].
  apply Forall_cons_2; [by split; [|by_decision]|]. apply Forall_cons_2; [by split; [|by_decision]|].
  apply Forall_cons_2; [split; [done|]|apply Forall_cons_2; [split; [done|]|]]; cycle 2.
  - apply Forall_cons_2; [by split; [|by_decision]|apply Forall_nil_2].
  - rewrite Forall_app. split; [by_decision|]. destruct (udec_spec size Hs) as (_ & Hd & _).
    eapply Forall_impl; [exact Hd|]. unfold isdigit. intros. lia.
  - rewrite !Forall_app. split_and!; [by_decision|by_decision| |by_decision].
    eapply Forall_impl; [apply safe_name_safe|]. naive_solver.
Qed.

Lemma http_send_download_spec conn rel full d c m w :
  0 <= conn -> 0 <= fd d -> zlen c < 2 ^ 64 -> download_size d = zlen c ->
  f_fds (w_files w) !! fd d = Some (FdFile full 0 false) ->
  f_fs (w_files w) !! full = Some (NFile c m) ->
  let text := http_file_header (zlen c) (safe_name_of rel) ++ c in
  wp (http_send_download conn d rel) (fun r w' =>
    only_io w w' /\ moved_fd (fd d) full false w w' /\ n_in (w_net w') = n_in (w_net w) /\
    (r = 0 \/ r = 1) /\ said text w w' /\ (r = 0 -> said_all text w w') /\
    (w_faults w = [] -> r = 0)) w.
Proof.
  intros Hc Hfd Hbig Hsize Hopen Hfile text. unfold http_send_download. rewrite Hsize.
  fold (safe_name_of rel). pose proof (file_header_length (zlen c) rel ltac:(lia)) as Hl.
  set (header := http_file_header (zlen c) (safe_name_of rel)) in *.
  destruct (snprintf_ok 1024 header) as [-> ->]; [done|unfold INT_MAX; lia|]. cbv zeta iota.
  rewrite ztake_ge by lia. wp_step. wp_use send_all_replies. intros n w1 H1. cbv beta in H1.
  destruct (Z.eqb_spec n (zlen header)) as [E|E]; simpl negb; cbv iota;
    destruct H1 as (Hf1 & Hi1 & _ & Hs1 & Ha1 & H01); cycle 1.
  { wp_step. split; [frame|]. split; [eapply moved_fd_refl; [done|frame]|].
    split_and!; [done|by right|by apply said_more|done|]. intros E0. by specialize (H01 E0). }
  assert (Hw1 : w_files w1 = w_files w) by frame.
  wp_step. wp_use (net_send_file_best_effort_spec conn (fd d) (zlen c) full false c m); try done.
  { split; [lia|done]. } { by rewrite Hw1. } { by rewrite Hw1. }
  intros r w2 (Hio2 & [pos Hpos] & (e & rest & He & _ & Hn2 & Hok2 & _ & H2) & _). wp_step.
  rewrite drop_0 in *. specialize (Ha1 eq_refl).
  assert (Hs2 : said_all e w1 w2) by (unfold said_all; by rewrite Hn2).
  assert (Hfull : r = NET_SEND_FILE_OK -> e = c).
  { intros Er. specialize (Hok2 Er). assert (rest = []) as ->; [|by rewrite app_nil_r in He].
    apply (f_equal length) in He. rewrite length_app in He. destruct rest; [done|simpl in He; lia]. }
  split; [etrans; [|done]; frame|]. split; [exists pos; by rewrite Hpos, Hw1|].
  split; [by rewrite Hn2|]. split; [case_bool_decide; auto|]. split_and!.
  - eapply said_trans; [done|]. exists e. split; [by exists rest|done].
  - case_bool_decide as Er; [|done]. intros _. rewrite (Hfull Er) in Hs2.
    by eapply said_all_trans.
  - intros E0. rewrite bool_decide_eq_true_2; [done|]. apply H2; [|lia].
    eapply only_io_no_faults; [apply Hf1|done].
Qed.

(** What a request for the file [rel] may come to: an error reply, or the header
    and the contents of the regular file of that name. *)
Definition file_outcome (base rel : bytes) (r : Z) (w w' : world) : Prop :=
  (exists text, error_reply text /\ answered text r w w') \/
  relative_path_ok rel /\ exists c m,
    f_fs (w_files w) !! entry_path base rel = Some (NFile c m) /\
    answered (http_file_header (zlen c) (safe_name_of rel) ++ c) r w w'.

Lemma http_send_file_spec conn opt base rel w :
  0 <= conn -> s_path opt = Some base -> fds_ok (w_files w) -> sizes_fit (f_fs (w_files w)) ->
  wp (http_send_file conn opt rel) (fun r w' =>
    file_outcome base rel r w w' /\
    (w_faults w = [] -> relative_path_ok rel -> zlen (entry_path base rel) < PATH_CAP ->
     forall c m, f_fs (w_files w) !! entry_path base rel = Some (NFile c m) ->
       r = 0 /\ said_all (http_file_header (zlen c) (safe_name_of rel) ++ c) w w')) w.
Proof.
  intros Hc Hbase Hfds Hs. unfold http_send_file. rewrite Hbase.
  destruct (Z.eqb_spec (fs_validate_relative_path (Some rel)) 0) as [Hv|Hv]; simpl negb; cbv iota; cycle 1.
  { send_error. intros text r w' Ht Hrep. split.
    - left. exists text. split; [done|]. by eapply replies_answered.
    - intros _ Hrel. by apply fs_validate_relative_path_iff in Hrel. }
  apply fs_validate_relative_path_iff in Hv as Hrel.
  assert (Hne : rel <> []) by (by intros ->).
  assert (Ht : target_path base rel = entry_path base rel) by (by destruct rel).
  wp_step. wp_use app_prepare_download_spec; [done|]. rewrite Ht.
  intros [r d] w1 (Hf1 & Hok & Hbad & Hlive). unfold result_ok.
  case_bool_decide as Hr; simpl negb; cbv iota; cycle 1.
  { destruct (Hbad Hr) as (-> & Hrel1).
    send_error. intros text r' w' Htx Hrep. split.
    - left. exists text. split; [done|]. by eapply replies_answered.
    - intros E Hok' Hl c m Hfile. destruct Hr. apply Hlive; eauto. }
  destruct (Hok Hr) as (_ & Hfd & Hw1 & c & m & Hfile & Hsize).
  assert (Hbig : zlen c < 2 ^ 63) by (by eapply Hs).
  rewrite u64_small in Hsize by lia.
  assert (Hn1 : w_net w1 = w_net w) by apply Hf1.
  wp_step. wp_use (http_send_download_spec conn rel (entry_path base rel) d c m); try done.
  { rewrite Hfd. apply Hfds. } { lia. }
  { rewrite Hw1, Hfd. simpl. by rewrite lookup_insert_eq. } { by rewrite Hw1. }
  intros r2 w2 (Hio2 & [pos Hmv] & Hin2 & Hr2 & Hs2 & Ha2 & H02). wp_step.
  wp_use (app_download_cleanup_moved (entry_path base rel) pos d (w_files w)); [done|done| |].
  { by rewrite Hmv, Hw1. }
  intros d' w3 (Hf3 & Hrel3). wp_step. assert (Hn3 : w_net w3 = w_net w2) by apply Hf3.
  assert (Hall : forall t, said_all t w1 w2 -> said_all t w w3).
  { unfold said_all. intros t E. by rewrite Hn3, E, Hn1. }
  split.
  - right. split; [done|]. exists c, m. split; [done|].
    split; [etrans; [by apply only_files_io|]; etrans; [done|by apply only_files_io]|].
    split; [done|]. split_and!; [by rewrite Hn3, Hin2, Hn1|done| |auto].
    destruct Hs2 as (t & Hp & Hsaid). exists t. split; [done|]. by apply Hall.
  - intros E _ _ c' m' Hfile'. assert (c' = c) as -> by congruence.
    assert (r2 = 0) as -> by (apply H02; by eapply only_io_no_faults; [apply only_files_io, Hf1|]).
    split; [done|]. by apply Hall, Ha2.
Qed.

(** *** Storing a file *)

(** The JSON object of the reply 201. *)
Definition stored_json (rel : bytes) (info : fs_path_info_t) : bytes :=
  ([123] ++ quoted (bs "name") ++ [58]) ++ quoted (json_escaped (http_relative_basename rel)) ++
  ([44] ++ quoted (bs "path") ++ [58]) ++ quoted (json_escaped rel) ++
  ([44] ++ quoted (bs "kind") ++ [58]) ++ quoted (bs "file") ++
  ([44] ++ quoted (bs "size") ++ [58]) ++ udec (size info) ++
  ([44] ++ quoted (bs "mtime") ++ [58]) ++ udec (mtime info) ++ [125].

Definition stored_response (rel : bytes) (info : fs_path_info_t) : bytes :=
  http_response 201 (bs "Created") content_type_json (stored_json rel info).

Lemma relative_basename_length p : zlen (http_relative_basename p) <= zlen p.
Proof. unfold http_relative_basename. destruct (strrchr p 47); len_lia. Qed.

Lemma stored_json_length rel info :
  word64 (size info) -> word64 (mtime info) -> zlen rel < 2 ^ 50 -> zlen (stored_json rel info) < 2 ^ 62.
Proof.
  intros Hs Hm Hl. unfold stored_json, quoted, word64 in *.
  assert (zlen (udec (size info)) <= 20) by (apply udec_digits; lia).
  assert (zlen (udec (mtime info)) <= 20) by (apply udec_digits; lia).
  pose proof (json_escaped_length rel). pose proof (json_escaped_length (http_relative_basename rel)).
  pose proof (relative_basename_length rel). rewrite !length_app. cbn [length bs]. lia.
Qed.

Lemma http_send_stored_spec conn rel info w :
  word64 (size info) -> word64 (mtime info) -> zlen rel < 2 ^ 50 ->
  wp (http_send_stored conn rel info) (fun r w' => replies (stored_response rel info) r w w') w.
Proof.
  intros Hs Hm Hl. pose proof (stored_json_length rel info Hs Hm Hl) as Hj.
  assert (E : concat [[123] ++ quoted (bs "name") ++ [58; 34];
    json_escaped (http_relative_basename rel); [34; 44] ++ quoted (bs "path") ++ [58; 34];
    json_escaped rel;
    [34; 44] ++ quoted (bs "kind") ++ [58] ++ quoted (bs "file") ++ [44] ++ quoted (bs "size") ++ [58];
    udec (size info); [44] ++ quoted (bs "mtime") ++ [58]; udec (mtime info); [125]] =
    stored_json rel info).
  { unfold stored_json, quoted. cbn [concat]. rewrite <- !app_assoc, ?app_nil_r. done. }
  unfold http_send_stored. eapply (buf_then_send _ _ (fun response =>
    let! r := http_send_response conn 201 (bs "Created") content_type_json response None in
    ret (if negb (r =? 0) then 1 else 0))).
  - repeat first
      [apply Forall2_nil_2 | apply Forall2_cons_2 | apply http_json_escape_appends
      | by apply appends_u64 | apply appends_ch | by apply appends_str].
  - by rewrite E.
  - intros b w1 ->. rewrite E. wp_step. wp_use http_send_response_spec; [by_decision| |].
    { unfold object_size. lia. }
    intros r w' Hr. wp_step. by apply replies_01.
Qed.

(** What a PUT may come to, whatever fails: an error reply, no file changed, at
    worst a temporary file left; or the body stored under the name, and then the
    reply 201, as far as the connection lasts -- an error only if the system
    fails afterwards. *)
Inductive put_outcome (base rel : bytes) (len r : Z) (w w' : world) : Prop :=
  | put_refused text d : error_reply text -> said text w w' -> (r = 0 -> said_all text w w') ->
      n_in (w_net w) = d ++ n_in (w_net w') ->
      (f_fs (w_files w') = f_fs (w_files w) \/
       w_faults w <> [] /\ relative_path_ok rel /\ exists k c m, 0 <= k < 3 /\
         f_fs (w_files w) !! upload_temp w base rel k = None /\
         f_fs (w_files w') = <[upload_temp w base rel k := NFile c m]> (f_fs (w_files w))) ->
      put_outcome base rel len r w w'
  | put_stored text d m : relative_path_ok rel -> zlen d = len ->
      n_in (w_net w) = d ++ n_in (w_net w') ->
      f_fs (w_files w') = <[entry_path base rel := NFile d m]> (f_fs (w_files w)) ->
      (text = stored_response rel (info_of (NFile d m)) \/ error_reply text /\ w_faults w <> []) ->
      said text w w' -> (r = 0 -> said_all text w w') ->
      put_outcome base rel len r w w'.

(** Nothing keeps the server from storing the body and saying so. *)
Definition put_done (base rel : bytes) (len r : Z) (w w' : world) : Prop :=
  r = 0 /\ n_in (w_net w') = zdrop len (n_in (w_net w)) /\ exists m,
    f_fs (w_files w') = <[entry_path base rel := NFile (ztake len (n_in (w_net w))) m]> (f_fs (w_files w)) /\
    said_all (stored_response rel (info_of (NFile (ztake len (n_in (w_net w))) m))) w w'.

(** What storing the body comes to: the descriptors are as before, the outcome is
    one of [put_outcome], and a whole body for which nothing fails is stored. *)
Definition put_answered (base rel : bytes) (len : Z) (w : world) (r : Z) (w' : world) : Prop :=
  only_io w w' /\ f_fds (w_files w') = f_fds (w_files w) /\ fds_ok (w_files w') /\
  (r = 0 \/ r = 1) /\ put_outcome base rel len r w w' /\
  (w_faults w = [] -> upload_ready base rel PATH_CAP w ->
   len <= zlen (n_in (w_net w)) -> put_done base rel len r w w').

(** An answer was sent after the upload ended in [w1]. *)
Lemma put_replied base rel len text r w w1 w' :
  only_io w w1 -> f_fds (w_files w1) = f_fds (w_files w) -> fds_ok (w_files w1) ->
  replies text r w1 w' -> put_outcome base rel len r w w' ->
  (w_faults w = [] -> upload_ready base rel PATH_CAP w ->
   len <= zlen (n_in (w_net w)) -> put_done base rel len r w w') ->
  put_answered base rel len w r w'.
Proof.
  intros Hio Hfd Hok Hrep Hout Hdone. pose proof Hrep as ([Hio1 Hw'] & _ & Hr & _).
  unfold put_answered. rewrite Hw'. split; [by etrans|done].
Qed.

(** The upload failed with [rc]; an error is sent. *)
Lemma put_failed base rel len rc saved text r w w1 w' :
  rel <> [] -> relative_path_ok rel -> rc <> PROTOCOL_OK ->
  only_io w w1 -> upload_outcome base rel len rc saved w w1 ->
  (w_faults w = [] -> upload_ready base rel PATH_CAP w -> len <= zlen (n_in (w_net w)) ->
   rc = PROTOCOL_OK) ->
  error_reply text -> replies text r w1 w' -> put_answered base rel len w r w'.
Proof.
  intros Hne Hrel Hrc Hio (d & lost & Hin & Hout & Hfd & Hok1 & Hcase) Hlive Htx Hrep.
  rewrite decide_False in Hcase by done. destruct Hcase as (_ & _ & Hfs).
  pose proof (replies_said _ _ w _ _ Hout Hrep) as [Hs Ha].
  pose proof Hrep as ([_ Hw'] & Hi' & _).
  eapply put_replied; [done..| |intros E Hrdy Hle; by destruct Hrc; apply Hlive].
  apply (put_refused _ _ _ _ _ _ text (d ++ lost)); [done|done|done| |].
  - by rewrite Hi', <- app_assoc.
  - rewrite Hw'. destruct Hfs as [?|(? & k & m & ? & ? & ?)]; [by left|right; split; [done|]; eauto 10].
Qed.

(** The upload was stored, with the contents [d]. *)
Lemma put_stored_spec conn base rel d m w w1 :
  relative_path_ok rel -> zlen rel < 2 ^ 50 -> 0 <= zlen d < 2 ^ 63 ->
  only_io w w1 -> f_fds (w_files w1) = f_fds (w_files w) -> fds_ok (w_files w1) ->
  n_out (w_net w1) = n_out (w_net w) -> n_in (w_net w) = d ++ n_in (w_net w1) ->
  f_fs (w_files w1) = <[entry_path base rel := NFile d m]> (f_fs (w_files w)) ->
  wp (let! info := fs_stat_path (Some (entry_path base rel)) in
      match info with
      | None => http_internal_error conn (bs "saved file missing")
      | Some info =>
          if negb (bool_decide (kind info = FS_PATH_KIND_FILE)) then
            http_internal_error conn (bs "saved file missing")
          else http_send_stored conn rel info
      end) (put_answered base rel (zlen d) w) w1.
Proof.
  intros Hrel Hl Hlen Hio Hfd Hok1 Hout Hin Hfs.
  assert (Hstored : forall text r w', replies text r w1 w' ->
    (text = stored_response rel (info_of (NFile d m)) \/ error_reply text /\ w_faults w <> []) ->
    put_outcome base rel (zlen d) r w w').
  { intros text r w' Hrep Htx. pose proof (replies_said _ _ w _ _ Hout Hrep) as [Hs Ha].
    pose proof Hrep as ([_ Hw'] & Hi' & _).
    apply (put_stored _ _ _ _ _ _ text d m); try done; [by rewrite Hi'|by rewrite Hw']. }
  assert (Hcalm : w_faults w = [] -> w_faults w1 = []) by (by apply only_io_no_faults).
  wp_step. wp_use fs_stat_path_spec. rewrite Hfs, lookup_insert_eq.
  intros [info|] w2 (Hf2 & H2); cycle 1.
  { unfold http_internal_error. send_error. intros text r w' Htx Hrep%(replies_after _ _ w1); [|done].
    assert (w_faults w <> []) by (intros E; by specialize (H2 (Hcalm E))).
    eapply put_replied; [done..| |done]. apply (Hstored text); auto. }
  destruct H2 as (n & [= <-] & ->). rewrite bool_decide_eq_true_2 by done. simpl negb. cbv iota.
  wp_use http_send_stored_spec; [split; cbn [size info_of]; lia|apply word64_u64|done|].
  intros r w' Hrep%(replies_after _ _ w1); [|done].
  eapply put_replied; [done..|apply (Hstored _ _ _ Hrep); auto|].
  intros E Hrdy Hle. pose proof (replies_said _ _ w _ _ Hout Hrep) as [Hs Ha].
  pose proof Hrep as ([_ Hw'] & Hi' & _ & _ & _ & H0). specialize (H0 (Hcalm E)).
  split; [done|]. rewrite Hi', Hin, zdrop_app_exact, ztake_app_exact by done.
  split; [done|]. exists m. rewrite Hw'. split; [done|by apply Ha].
Qed.

Lemma http_store_upload_spec conn opt base req rel w :
  0 <= conn -> s_path opt = Some base -> 0 <= content_length req < 2 ^ 63 ->
  relative_path_ok rel -> zlen rel < 2 ^ 50 ->
  e_splice_direct (w_env w) = false -> fds_ok (w_files w) ->
  wp (http_store_upload conn opt req rel) (put_answered base rel (content_length req) w) w.
Proof.
  intros Hc Hbase Hlen Hrel Hl Hk Hfds. unfold http_store_upload. rewrite Hbase. wp_step.
  assert (Hne : rel <> []) by (intros ->; by apply fs_validate_relative_path_iff in Hrel).
  assert (Ht : target_path base rel = entry_path base rel) by (by destruct rel).
  unfold app_receive_file. rewrite !bool_decide_eq_false_2 by done.
  change (PATH_CAP =? 0) with false. cbn [orb].
  wp_use (transfer_recv_with_spec transfer_recv_socket_http_file_buffered); [done|lia|done|done|done|].
  intros [rc saved] w1 (Hio & Hout & Hlive).
  destruct (decide (rc = PROTOCOL_OK)) as [->|Hrc]; cycle 1.
  { assert (Herr : forall text r w', error_reply text -> replies text r w1 w' ->
      put_answered base rel (content_length req) w r w') by (intros; by eapply put_failed).
    case_bool_decide as H1; [send_error; exact Herr|].
    case_bool_decide as H2; [send_error; exact Herr|]. unfold result_ok.
    rewrite bool_decide_eq_false_2 by done. simpl negb. cbv iota.
    unfold http_internal_error. send_error. exact Herr. }
  destruct Hout as (d & lost & Hin & Hout & Hfd & Hok1 & Hcase). rewrite Ht in Hcase.
  destruct Hcase as (Hd & -> & -> & _ & m & Hfs). cbn [app] in Hin. rewrite <- Hd in *.
  rewrite !bool_decide_eq_false_2 by done. change (negb (result_ok PROTOCOL_OK)) with false. cbv iota.
  by eapply put_stored_spec.
Qed.

(** A request to store a file that the headers allow. *)
Definition put_allowed (req : http_request_t) : Prop :=
  has_transfer_encoding req = false /\ has_content_length req = true /\
  content_length req <= HF_HTTP_UPLOAD_MAX /\
  http_ascii_starts_with (content_type req) (bs "application/octet-stream") = true.

(** What [http_handle_file_put] promises. *)
Definition put_promise (base rel : bytes) (req : http_request_t) (r : Z) (w w' : world) : Prop :=
  only_io w w' /\ f_fds (w_files w') = f_fds (w_files w) /\ fds_ok (w_files w') /\
  (r = 0 \/ r = 1) /\ put_outcome base rel (content_length req) r w w' /\
  (w_faults w = [] -> put_allowed req -> upload_ready base rel PATH_CAP w ->
   content_length req <= zlen (n_in (w_net w)) -> put_done base rel (content_length req) r w w').

Lemma put_refusal base rel req text d r w w1 w' :
  fds_ok (w_files w) -> only_net w w1 -> n_out (w_net w1) = n_out (w_net w) ->
  n_in (w_net w) = d ++ n_in (w_net w1) -> (put_allowed req -> ~ relative_path_ok rel) ->
  error_reply text -> replies text r w1 w' -> put_promise base rel req r w w'.
Proof.
  intros Hok [Hio Hw1] Hout Hin Hno Htx Hrep.
  pose proof (replies_said _ _ w _ _ Hout Hrep) as [Hs Ha].
  destruct Hrep as ([Hio' Hw'] & Hi' & Hr & _). unfold put_promise. rewrite Hw', Hw1.
  split; [by etrans|]. split_and!; [done|done|done| |].
  - apply (put_refused _ _ _ _ _ _ text d); try done; [by rewrite Hi'|left; by rewrite Hw', Hw1].
  - intros _ Hal [Hrel _]. by destruct (Hno Hal).
Qed.

Lemma put_promise_after base rel req r w w1 w' :
  only_errno w w1 -> put_promise base rel req r w1 w' -> put_promise base rel req r w w'.
Proof.
  intros Hf (Hio & Hfd & Hok & Hr & Ho & Hd).
  assert (Hw : w_files w1 = w_files w) by frame. assert (Hn : w_net w1 = w_net w) by apply Hf.
  assert (He : w_env w1 = w_env w) by (by destruct Hf as [[(? & _) _] _]).
  assert (Hcalm : w_faults w = [] -> w_faults w1 = []) by (apply only_io_no_faults, Hf).
  assert (Hsaid : forall t, said t w1 w' -> said t w w') by (intros t; apply said_after; by rewrite Hn).
  assert (Hall : forall t, said_all t w1 w' -> said_all t w w')
    by (intros t; apply said_all_after; by rewrite Hn).
  assert (Htemp : forall k, upload_temp w1 base rel k = upload_temp w base rel k)
    by (intros k; unfold upload_temp; by rewrite He).
  rewrite Hw in *. split; [etrans; [apply only_net_io, only_errno_net, Hf|done]|].
  split_and!; [done|done|done| |].
  - destruct Ho as [text d H1 H2 H3 H4 H5|text d m H1 H2 H3 H4 H5 H6 H7]; rewrite ?Hn, ?Hw in *.
    + apply (put_refused _ _ _ _ _ _ text d); auto.
      destruct H5 as [?|(Hf0 & Hrel & k & c & m & ? & H8 & H9)]; [by left|right].
      split; [tauto|]. split; [done|]. exists k, c, m. by rewrite <- Htemp.
    + apply (put_stored _ _ _ _ _ _ text d m); auto. destruct H5 as [?|[??]]; [by left|right; tauto].
  - intros E Hal Hrdy Hle. destruct (Hd (Hcalm E) Hal) as (H1 & H2 & m & H3 & H4).
    + destruct Hrdy as (? & ? & ? & ? & ? & k & ? & ?). unfold upload_ready.
      rewrite Hw, Htemp. split_and!; try done. exists k. by rewrite Htemp.
    + by rewrite Hn.
    + rewrite Hn, Hw in *. split; [done|]. split; [done|]. exists m. auto.
Qed.

Lemma http_handle_file_put_spec conn opt base req rel w :
  0 <= conn -> s_path opt = Some base -> 0 <= content_length req -> zlen rel < 2 ^ 50 ->
  e_splice_direct (w_env w) = false -> fds_ok (w_files w) ->
  wp (http_handle_file_put conn opt req rel) (fun r w' => put_promise base rel req r w w') w.
Proof.
  intros Hc Hbase Hlen Hl Hk Hfds. unfold http_handle_file_put.
  assert (Hdiscard : forall status reason message,
    status_ok status reason content_type_json -> zlen message < 2 ^ 50 -> 400 <= status < 600 ->
    (put_allowed req -> ~ relative_path_ok rel) ->
    wp (let! _ := (if has_content_length req then http_discard_body conn (content_length req)
                   else ret 0) in
        http_send_json_error conn status reason message)
       (fun r w' => put_promise base rel req r w w') w).
  { intros status reason message Hok Hm Hst Hno. wp_step.
    assert (Hgo : forall w1 d, only_net w w1 -> n_out (w_net w1) = n_out (w_net w) ->
      n_in (w_net w) = d ++ n_in (w_net w1) ->
      wp (http_send_json_error conn status reason message)
         (fun r w' => put_promise base rel req r w w') w1).
    { intros w1 d Hf1 Ho Hi. apply http_send_error_spec; [done|done|done|].
      intros text r w' Htx Hrep. by eapply put_refusal. }
    wp_step; [|wp_step; by apply (Hgo w [])].
    wp_use http_discard_body_spec; [done|]. intros _ w1 (Hf1 & Ho & _ & d & Hd & _). by eapply Hgo. }
  assert (Hplain : forall text r w', (put_allowed req -> ~ relative_path_ok rel) ->
    error_reply text -> replies text r w w' -> put_promise base rel req r w w').
  { intros text r w' Hno. by apply (put_refusal _ _ _ _ []). }
  destruct (has_transfer_encoding req) eqn:Hte.
  { send_error. intros text r w'. apply Hplain. intros (? & _). congruence. }
  destruct (has_content_length req) eqn:Hcl; rewrite ?Hcl in Hdiscard; cbn [negb]; cbv iota; cycle 1.
  { send_error. intros text r w'. apply Hplain. intros (_ & ? & _). congruence. }
  destruct (Z.ltb_spec HF_HTTP_UPLOAD_MAX (content_length req)).
  { send_error. intros text r w'. apply Hplain. intros (_ & _ & ? & _). lia. }
  destruct (http_ascii_starts_with (content_type req) (bs "application/octet-stream")) eqn:Hct;
    cbn [negb]; cbv iota; cycle 1.
  { apply Hdiscard; [by_decision|by vm_compute|lia|]. intros (_ & _ & _ & ?). congruence. }
  destruct (Z.eqb_spec (fs_validate_relative_path (Some rel)) 0) as [Hv|Hv]; cbn [negb]; cbv iota; cycle 1.
  { apply Hdiscard; [by_decision|by vm_compute|lia|]. by rewrite <- fs_validate_relative_path_iff. }
  apply fs_validate_relative_path_iff in Hv. wp_step. wp_use http_set_connection_recv_timeout_spec.
  intros rt w1 Hf1. assert (Hw : w_files w1 = w_files w) by frame.
  assert (He : w_env w1 = w_env w) by (by destruct Hf1 as [[(? & _) _] _]).
  eapply wp_mono; [apply (http_store_upload_spec conn opt base req rel); rewrite ?Hw, ?He; try done|].
  { unfold HF_HTTP_UPLOAD_MAX in *. lia. }
  intros r w' (H1 & H2 & H3 & H4 & H5 & H6). apply (put_promise_after _ _ _ _ w w1); [done|].
  split; [done|]. split_and!; [done|done|done|done|]. intros E _. by apply H6.
Qed.

(** ** Properties *)


(** Sizes of a concrete file system. *)
Lemma sizes_fit_intro fs :
  forallb (fun '(_, n) => match n with NFile c _ => zlen c <? 2 ^ 63 | _ => true end)
    (map_to_list fs) = true -> sizes_fit fs.
Proof.
  intros H p c m Hp. apply elem_of_map_to_list, list_elem_of_In in Hp.
  rewrite forallb_forall in H. specialize (H _ Hp). simpl in H. lia.
Qed.

Definition demo_http_fs : gmap bytes node :=
  <[bs "d/a" := NFile [1; 2] 5]> (<[bs "d/b" := NDir 9]> (<[bs "d/c" := NLink (bs "d/a") 5]>
    {[bs "d" := NDir 0]})).

Definition demo_get (target query : bytes) : http_request_t :=
  HttpRequest (bs "GET") target query [] 0 false false.


(** The listing of the example: the newer directory first, then by name. *)
Example demo_listing :
  map en_name (directory_listing demo_http_fs (bs "d") []) = [bs "b"; bs "a"; bs "c"].
Proof. vm_compute. reflexivity. Qed.

(** A download over HTTP is the file: whatever fails, [http_send_file] answers
    with an error or sends -- as far as the connection lasts, all of it when it
    returns 0 -- a header with the file's size and then the contents of the regular
    file below the served directory, unchanged. Whatever
    characters the name has, the header ends at its own empty line, so a name
    cannot add headers or contents. No file changes and no descriptor leaks, and
    without failures a file with a valid name is sent. *)
Theorem http_send_file_exact conn opt base rel w
    (Hconn : 0 <= conn) (Hbase : s_path opt = Some base) (Hfds : fds_ok (w_files w))
    (Hsizes : sizes_fit (f_fs (w_files w))) :
  let fs := f_fs (w_files w) in
  wp (http_send_file conn opt rel) (fun r w' =>
    f_fs (w_files w') = fs /\ f_fds (w_files w') = f_fds (w_files w) /\
    (exists text, said text w w' /\ (r = 0 -> said_all text w w') /\
      (error_reply text \/ relative_path_ok rel /\ exists c m,
         let header := http_file_header (zlen c) (safe_name_of rel) in
         block_ok header /\ text = header ++ c /\
         fs !! entry_path base rel = Some (NFile c m))) /\
    (w_faults w = [] -> relative_path_ok rel -> zlen (entry_path base rel) < PATH_CAP ->
     forall c m, fs !! entry_path base rel = Some (NFile c m) ->
       r = 0 /\ said_all (http_file_header (zlen c) (safe_name_of rel) ++ c) w w')) w.
Proof.
  intros fs. wp_use http_send_file_spec; [done|done|done|done|]. fold fs.
  intros r w' [Hout Hlive].
  assert (Hrel : f_fs (w_files w') = fs /\ f_fds (w_files w') = f_fds (w_files w)).
  { destruct Hout as [(text & _ & _ & (? & ? & _) & _)|(_ & c & m & _ & _ & (? & ? & _) & _)]; done. }
  destruct Hrel as [-> ->]. split_and!; [done|done| |].
  - destruct Hout as [(text & He & _ & _ & _ & _ & Hs & Ha)|(Hok & c & m & Hf & _ & _ & _ & _ & Hs & Ha)].
    + exists text. split_and!; [done|done|by left].
    + eexists. split_and!; [done|done|]. right. split; [done|]. exists c, m.
      split_and!; [|done|done]. apply file_header_block. lia.
  - done.
Qed.

Lemma http_send_file_exact_witness :
  let w := demo_world [FNone; FShort 3; FErr EINTR] [] (demo_files demo_http_fs) in
  let opt := ServerOpt (Some (bs "d")) 9000 0 in
  let fs := f_fs (w_files w) in
  wp (http_send_file 4 opt (bs "a")) (fun r w' =>
    f_fs (w_files w') = fs /\ f_fds (w_files w') = f_fds (w_files w) /\
    (exists text, said text w w' /\ (r = 0 -> said_all text w w') /\
      (error_reply text \/ relative_path_ok (bs "a") /\ exists c m,
         let header := http_file_header (zlen c) (safe_name_of (bs "a")) in
         block_ok header /\ text = header ++ c /\
         fs !! entry_path (bs "d") (bs "a") = Some (NFile c m))) /\
    (w_faults w = [] -> relative_path_ok (bs "a") -> zlen (entry_path (bs "d") (bs "a")) < PATH_CAP ->
     forall c m, fs !! entry_path (bs "d") (bs "a") = Some (NFile c m) ->
       r = 0 /\ said_all (http_file_header (zlen c) (safe_name_of (bs "a")) ++ c) w w')) w.
Proof.
  apply http_send_file_exact; [lia|reflexivity|apply demo_files_ok|].
  apply sizes_fit_intro. vm_compute. reflexivity.
Defined.


Definition demo_put (len : Z) : http_request_t :=
  HttpRequest (bs "PUT") (bs "/api/files/f") [] (bs "application/octet-stream") len true false.

