(* ===== verification/HttpMessages.v ===== *)
(** * Messages over HTTP (src/http.c)

    Storing a message, reading the latest one, and the event stream that reports
    every new one. *)

From S2P Require Import Prelude CLib World Logic Signals Fs Net Protocol MessageStore.
From S2P Require Import HttpBuf HttpJson PicoHttp HttpRequest Cli AppService HttpResponse.

(** ** Definitions *)

Definition HF_HTTP_MESSAGE_BODY_TIMEOUT_MS : Z := 30000.

(** From the stored message on. *)
Definition http_send_message_stored (conn : Z) : M Z :=
  let! (r, response) :=
    http_buf_append_str ([123] ++ quoted (bs "ok") ++ bs ":true}") http_buf_zero in
  if negb (r =? 0) then ret 1
  else
    let! r := http_send_response conn 201 (bs "Created") content_type_json (data response) None in
    ret (if negb (r =? 0) then 1 else 0).

(** From the received body on. *)
Definition http_store_message (conn : Z) (body : bytes) : M Z :=
  let! message := http_parse_message_json body in
  match message with
  | None =>
      let! _ := http_send_json_error conn 400 (bs "Bad Request") (bs "invalid message payload") in
      ret 1
  | Some message =>
      let! r := app_submit_message (Some message) in
      if negb (result_ok r) then
        let! _ := http_send_json_error conn 500 (bs "Internal Server Error")
                    (bs "failed to store message") in
        ret 1
      else http_send_message_stored conn
  end.

Definition http_handle_messages_post (conn : Z) (ser_opt : server_opt_t) (req : http_request_t)
    : M Z :=
  if has_transfer_encoding req then
    http_send_json_error conn 501 (bs "Not Implemented") (bs "transfer-encoding not supported")
  else if negb (has_content_length req) then
    http_send_json_error conn 411 (bs "Length Required") (bs "content-length required")
  else if HF_PROTOCOL_MAX_TEXT_MESSAGE_SIZE <? content_length req then
    http_send_json_error conn 413 (bs "Payload Too Large") (bs "message too large")
  else if negb (http_ascii_starts_with (content_type req) (bs "application/json")) then
    http_send_json_error conn 415 (bs "Unsupported Media Type")
      (bs "content-type must be application/json")
  else
    let! _ := http_set_connection_recv_timeout conn HF_HTTP_MESSAGE_BODY_TIMEOUT_MS in
    let body_len := content_length req in
    let! allocated := sys_malloc in
    if negb allocated then
      http_send_json_error conn 500 (bs "Internal Server Error") (bs "allocation failed")
    else
      let! (n, body) := recv_all conn body_len in
      if n <? 0 then ret 1
      else if negb (n =? body_len) then ret 1
      else http_store_message conn body.

Definition http_handle_messages_latest_get (conn : Z) : M Z :=
  let! r := message_store_get_copy in
  match r with
  | None =>
      http_send_json_error conn 500 (bs "Internal Server Error") (bs "failed to load message")
  | Some (message, has_message) =>
      let! (r, response) :=
        buf_seq
          [http_buf_append_str ([123] ++ quoted (bs "has_message") ++ [58]);
           http_buf_append_str (if has_message then bs "true" else bs "false");
           http_buf_append_str ([44] ++ quoted (bs "message") ++ [58; 34]);
           (fun response =>
              if has_message then http_json_escape (default [] message) response
              else ret (0, response));
           http_buf_append_str [34; 125]] http_buf_zero in
      if negb (r =? 0) then ret 1
      else
        let! r := http_send_response conn 200 (bs "OK") content_type_json (data response) None in
        ret (if negb (r =? 0) then 1 else 0)
  end.

(** The loop of the stream, for a number of rounds; [None]: it goes on. *)
Fixpoint http_messages_stream_loop (rounds : nat) (conn version : Z) : M (option Z) :=
  match rounds with
  | O => ret None
  | S rounds =>
      let! r := message_store_wait_for_update version 15000 in
      match r with
      | None => ret (Some 1)
      | Some (message, has_message, version) =>
          let! stop := shutdown_requested in
          if negb (stop =? 0) then ret (Some 0)
          else if bool_decide (message = None) && negb has_message then
            let! r := http_send_sse_keepalive conn in
            if negb (r =? 0) then ret (Some 1) else http_messages_stream_loop rounds conn version
          else
            let! r := http_send_sse_message_event conn message in
            if negb (r =? 0) then ret (Some 1) else http_messages_stream_loop rounds conn version
      end
  end.

Definition http_handle_messages_stream (rounds : nat) (conn : Z) : M (option Z) :=
  let! r := http_send_sse_headers conn in
  if negb (r =? 0) then ret (Some 1)
  else
    let! r := message_store_get_snapshot in
    match r with
    | None => ret (Some 1)
    | Some (message, has_message, version) =>
        let! r := (if has_message then http_send_sse_message_event conn message else ret 0) in
        if negb (r =? 0) then ret (Some 1) else http_messages_stream_loop rounds conn version
    end.

(** *** Specifications *)

Definition message_stored_response : bytes :=
  http_response 201 (bs "Created") content_type_json ([123] ++ quoted (bs "ok") ++ bs ":true}").

Definition latest_json (message : option bytes) : bytes :=
  ([123] ++ quoted (bs "has_message") ++ [58]) ++
  (match message with Some _ => bs "true" | None => bs "false" end) ++
  ([44] ++ quoted (bs "message") ++ [58]) ++ quoted (json_escaped (default [] message)) ++ [125].

Definition latest_response (message : option bytes) : bytes :=
  http_response 200 (bs "OK") content_type_json (latest_json message).

(** A request to store a message that the headers allow. *)
Definition post_allowed (req : http_request_t) : Prop :=
  has_transfer_encoding req = false /\ has_content_length req = true /\
  content_length req <= HF_PROTOCOL_MAX_TEXT_MESSAGE_SIZE /\
  http_ascii_starts_with (content_type req) (bs "application/json") = true.

(** The messages other threads store, in order. *)
Definition sets (acts : list store_act) : list bytes :=
  omap (fun a => match a with ActSet copy => Some copy | _ => None end) acts.

(** What the stream sends for one round: a message or a keep-alive. *)
Definition sse_text (e : option bytes) : bytes :=
  match e with Some m => sse_event m | None => sse_keepalive end.
Definition sse_stream (events : list (option bytes)) : bytes := concat (map sse_text events).

(** ** Theorems *)

(** *** Storing a message *)

(** What a POST may come to: an error, nothing stored; the connection lost or
    the memory exhausted, nothing stored and nothing said; or the message of a
    JSON body of the announced length stored, and said so as far as memory and
    the connection last. *)
Inductive post_outcome (req : http_request_t) (r : Z) (w w' : world) : Prop :=
  | post_refused text d : error_reply text -> said text w w' ->
      p_store (w_prog w') = p_store (w_prog w) -> n_in (w_net w) = d ++ n_in (w_net w') ->
      post_outcome req r w w'
  | post_stored body m : post_allowed req -> zlen body = content_length req ->
      n_in (w_net w) = body ++ n_in (w_net w') -> message_json (cstr (body ++ [0])) m ->
      p_store (w_prog w') = store_set (stored_text m) (p_store (w_prog w)) ->
      said message_stored_response w w' -> (r = 0 -> said_all message_stored_response w w') ->
      post_outcome req r w w'.

Lemma http_send_message_stored_spec conn w :
  wp (http_send_message_stored conn) (fun r w' => replies message_stored_response r w w') w.
Proof.
  unfold http_send_message_stored. set (text := [123] ++ quoted (bs "ok") ++ bs ":true}").
  wp_step. wp_use (appends_str text); [done|done|]. intros [r b] w1 (Hf & _ & Hr & Hd & H0).
  destruct Hr as [->| ->]; simpl negb; cbv iota.
  - rewrite (Hd eq_refl). cbn [data http_buf_zero app]. wp_step.
    wp_use http_send_response_spec; [by_decision|done|]. intros r w2 Hrep. wp_step.
    eapply replies_after; [done|]. by apply replies_01.
  - wp_step. apply replies_nothing; [done|]. intros E. by specialize (H0 E eq_refl).
Qed.

Lemma http_store_message_spec conn body w :
  ms_initialized (p_store (w_prog w)) = true -> zlen body < 2 ^ 60 ->
  wp (http_store_message conn body) (fun r w' =>
    only_message w w' /\ n_in (w_net w') = n_in (w_net w) /\ (r = 0 \/ r = 1) /\
    ((exists text, error_reply text /\ said text w w' /\ r = 1 /\
        p_store (w_prog w') = p_store (w_prog w)) \/
     (exists m, message_json (cstr (body ++ [0])) m /\
        p_store (w_prog w') = store_set (stored_text m) (p_store (w_prog w)) /\
        said message_stored_response w w' /\ (r = 0 -> said_all message_stored_response w w'))) /\
    (w_faults w = [] -> forall m, message_json (cstr (body ++ [0])) m ->
       zlen m <= HF_PROTOCOL_MAX_TEXT_MESSAGE_SIZE ->
       r = 0 /\ p_store (w_prog w') = store_set (stored_text m) (p_store (w_prog w)))) w.
Proof.
  intros Hi Hsize. unfold http_store_message. wp_step. wp_use message_json_spec; [done|].
  intros r w1 (Hf1 & Hsound & Hcomp). destruct (only_errno_store _ _ Hf1) as (Ho1 & Hs1 & _).
  destruct r as [m|]; cycle 1.
  { wp_step. send_error. intros text r w2 Htx Hrep%(replies_after _ _ w); [|done]. wp_step.
    pose proof Hrep as (Hf2 & Hi2 & _ & Hs & _). split; [by apply only_message_net|].
    split_and!; [done|by right| |].
    - left. exists text. split_and!; [done|done|done|]. by destruct Hf2 as [(_ & -> & _) _].
    - intros E m Hm. by specialize (Hcomp E m Hm). }
  specialize (Hsound m eq_refl). wp_step. wp_use app_submit_message_spec; [by rewrite Hs1|].
  intros rc w2 (Ho2 & _ & Hcase & Hlive).
  assert (Ho : only_store w w2) by (by etrans). pose proof (only_message_store _ _ Ho) as Hm2.
  destruct Ho as (_ & Hn2 & _).
  assert (Hcalm : w_faults w = [] -> w_faults w1 = []) by (apply only_io_no_faults, Hf1).
  unfold result_ok. case_bool_decide as Hrc; simpl negb; cbv iota; cycle 1.
  { destruct Hcase as [[? _]|[_ Hst]]; [done|].
    wp_step. send_error. intros text r w3 Htx Hrep. wp_step.
    pose proof (replies_said text r w w2 w3 ltac:(by rewrite Hn2) Hrep) as [Hs _].
    pose proof Hrep as (Hf3 & Hi3 & _). split; [eapply only_message_trans; [done|by apply only_message_net]|].
    split_and!; [by rewrite Hi3, Hn2|by right| |].
    - left. exists text. split_and!; [done|done|done|]. destruct Hf3 as [(_ & -> & _) _]. congruence.
    - intros E m' Hm' Hl. specialize (Hcomp E m' Hm'). injection Hcomp as <-.
      destruct Hrc. by apply Hlive; [apply Hcalm|]. }
  destruct Hcase as [(_ & Hl & Hst)|[? _]]; [|done].
  wp_use http_send_message_stored_spec. intros r w3 Hrep.
  pose proof (replies_said _ r w w2 w3 ltac:(by rewrite Hn2) Hrep) as [Hs Ha].
  pose proof Hrep as (Hf3 & Hi3 & Hr & _ & _ & H0).
  assert (Hst3 : p_store (w_prog w3) = store_set (stored_text m) (p_store (w_prog w))).
  { destruct Hf3 as [(_ & -> & _) _]. rewrite Hst, Hs1. done. }
  split; [eapply only_message_trans; [done|by apply only_message_net]|].
  split_and!; [by rewrite Hi3, Hn2|done| |].
  - right. exists m. by split_and!.
  - intros E m' Hm' Hl'. specialize (Hcomp E m' Hm'). injection Hcomp as <-. split; [|done].
    apply H0. destruct Ho2 as (_ & _ & _ & _ & Hfl).
    apply no_faults_flen. pose proof (proj1 (no_faults_flen w1) (Hcalm E)). lia.
Qed.

(** What [http_handle_messages_post] promises. *)
Definition post_promise (req : http_request_t) (r : Z) (w w' : world) : Prop :=
  only_message w w' /\ (r = 0 \/ r = 1) /\ post_outcome req r w w' /\
  (w_faults w = [] -> post_allowed req -> forall body rest m,
     n_in (w_net w) = body ++ rest -> zlen body = content_length req ->
     message_json (cstr (body ++ [0])) m -> zlen m <= HF_PROTOCOL_MAX_TEXT_MESSAGE_SIZE ->
     r = 0 /\ n_in (w_net w') = rest /\ said_all message_stored_response w w' /\
     p_store (w_prog w') = store_set (stored_text m) (p_store (w_prog w))).

(** An error reply, or none, before the body was accepted. *)
Lemma post_refusal req text d r w w1 w' :
  only_net w w1 -> n_out (w_net w1) = n_out (w_net w) -> n_in (w_net w) = d ++ n_in (w_net w1) ->
  error_reply text -> only_net w1 w' -> n_in (w_net w') = n_in (w_net w1) -> (r = 0 \/ r = 1) ->
  said text w1 w' ->
  (w_faults w = [] -> post_allowed req -> zlen (n_in (w_net w)) < content_length req) ->
  post_promise req r w w'.
Proof.
  intros Hf1 Hout Hin Htx Hf2 Hi2 Hr Hs Hno. assert (Hf : only_net w w') by (by etrans).
  split; [by apply only_message_net|]. split; [done|]. split.
  - apply (post_refused _ _ _ _ text d); [done|by eapply said_after| |by rewrite Hi2].
    by destruct Hf as [(_ & -> & _) _].
  - intros E Hal body rest m Hb Hl _ _. specialize (Hno E Hal). rewrite Hb in Hno. len_lia.
Qed.

Lemma error_reply_any : exists text, error_reply text.
Proof. exists (json_error 400 [] []), 400, [], []. split; [lia|done]. Qed.

(** An error reply before anything was read. *)
Lemma post_rejected req text r w w1 w' :
  ~ (w_faults w = [] /\ post_allowed req) -> only_errno w w1 ->
  error_reply text -> replies text r w1 w' -> post_promise req r w w'.
Proof.
  intros Hno Hf Htx (Hf1 & Hi1 & Hr & Hs & _). assert (Hn : w_net w1 = w_net w) by apply Hf.
  apply (post_refusal req text [] r w w1 w'); try done; [by apply only_errno_net|by rewrite Hn..|].
  intros E Hal. by destruct Hno.
Qed.

(** The body did not arrive whole. *)
Lemma post_lost req body w w3 :
  only_net w w3 -> n_out (w_net w3) = n_out (w_net w) -> n_in (w_net w) = body ++ n_in (w_net w3) ->
  (w_faults w = [] -> zlen (n_in (w_net w)) < content_length req) ->
  wp (ret 1) (fun r w' => post_promise req r w w') w3.
Proof.
  intros Hf Hout Hin Hno. wp_step. destruct error_reply_any as (text & Htx).
  by apply (post_refusal req text body 1 w w3 w3); auto using said_net.
Qed.

(** The whole body is there. *)
Lemma post_received conn req body w w3 :
  ms_initialized (p_store (w_prog w)) = true -> zlen body = content_length req ->
  post_allowed req ->
  only_net w w3 -> n_out (w_net w3) = n_out (w_net w) -> n_in (w_net w) = body ++ n_in (w_net w3) ->
  wp (http_store_message conn body) (fun r w' => post_promise req r w w') w3.
Proof.
  intros Hi Hbody Hal Hf03 Ho3 Hin. pose proof Hal as (_ & _ & Hmax & _).
  assert (Hprog : w_prog w3 = w_prog w) by (by destruct Hf03 as [(_ & ? & _) _]).
  wp_use http_store_message_spec; [by rewrite Hprog|unfold HF_PROTOCOL_MAX_TEXT_MESSAGE_SIZE in *; lia|].
  rewrite Hprog. intros r w4 (Hm & Hi4 & Hr & Hout & Hdone).
  assert (Hin4 : n_in (w_net w) = body ++ n_in (w_net w4)) by (by rewrite Hi4).
  split; [eapply only_message_trans; [by apply only_message_net|done]|]. split; [done|]. split.
  - destruct Hout as [(text & Htx & Hs & _ & Hsame)|(m & Hj & Hst' & Hs & Ha)].
    + apply (post_refused _ _ _ _ text body); [done|by eapply said_after|done|done].
    + apply (post_stored _ _ _ _ body m); try done; [by eapply said_after|].
      intros Er. eapply said_all_after; [done|by apply Ha].
  - intros Ef _ body' rest' m Hb Hl Hj Hml. rewrite Hb in Hin4.
    apply app_eq_len in Hin4 as [-> Hrest]; [|lia].
    destruct (Hdone ltac:(eapply only_io_no_faults; [apply Hf03|done]) m Hj Hml) as [-> Hst].
    destruct Hout as [(text & Htx & Hs & ? & Hsame)|(m' & Hj' & Hst' & Hs & Ha)]; [done|].
    split_and!; [done|done| |done]. eapply said_all_after; [done|by apply Ha].
Qed.

Lemma http_handle_messages_post_spec conn opt req w :
  ms_initialized (p_store (w_prog w)) = true -> 0 <= content_length req ->
  wp (http_handle_messages_post conn opt req) (fun r w' => post_promise req r w w') w.
Proof.
  intros Hi Hlen. unfold http_handle_messages_post.
  destruct (has_transfer_encoding req) eqn:Hte.
  { send_error. intros text r w'. apply (post_rejected req text r w w); [|done]. intros [_ (? & _)]. congruence. }
  destruct (has_content_length req) eqn:Hcl; cbn [negb]; cycle 1.
  { send_error. intros text r w'. apply (post_rejected req text r w w); [|done]. intros [_ (_ & ? & _)]. congruence. }
  destruct (Z.ltb_spec HF_PROTOCOL_MAX_TEXT_MESSAGE_SIZE (content_length req)).
  { send_error. intros text r w'. apply (post_rejected req text r w w); [|done]. intros [_ (_ & _ & ? & _)]. lia. }
  destruct (http_ascii_starts_with (content_type req) (bs "application/json")) eqn:Hct; cbn [negb]; cycle 1.
  { send_error. intros text r w'. apply (post_rejected req text r w w); [|done]. intros [_ (_ & _ & _ & ?)]. congruence. }
  assert (Hal : post_allowed req) by (by repeat split).
  wp_step. wp_use http_set_connection_recv_timeout_spec. intros rt w1 Hf1. cbv beta in Hf1. cbv zeta.
  wp_step. apply wp_sys_malloc; intros w2 Hf2 H2; cbn [negb].
  { send_error. intros text r w'. apply (post_rejected req text r w w2); [|by etrans]. intros [E _].
    apply no_faults_flen in E. assert (flen w1 <= flen w)%nat by apply Hf1. lia. }
  assert (Hf02 : only_errno w w2) by (by etrans). clear H2.
  assert (Hn2 : w_net w2 = w_net w) by apply Hf02.
  wp_step. wp_use recv_all_spec; [done|].
  intros [n body] w3 (Hf3 & rest & Hin & Hnet & Hn & Hle & Hlive). rewrite Hn2 in *.
  assert (Hcalm : w_faults w = [] -> w_faults w2 = []) by (apply only_io_no_faults, Hf02).
  assert (Hf03 : only_net w w3) by (etrans; [by apply only_errno_net|done]).
  assert (Ho3 : n_out (w_net w3) = n_out (w_net w)) by (by rewrite Hnet).
  assert (Hin3 : n_in (w_net w) = body ++ n_in (w_net w3)) by (by rewrite Hnet).
  assert (Hno : n <> content_length req -> w_faults w = [] -> zlen (n_in (w_net w)) < content_length req).
  { intros Hne E. specialize (Hlive (Hcalm E)). lia. }
  destruct (Z.ltb_spec n 0); [by eapply post_lost; eauto; apply Hno; lia|].
  destruct (Z.eqb_spec n (content_length req)) as [E|E]; cbn [negb]; [|by eapply post_lost; eauto].
  apply post_received; try done. destruct Hn as [[? _]|?]; lia.
Qed.

(** *** The latest message *)

(** Messages are C strings of the heap. *)
Definition message_small (m : bytes) : Prop := zlen m < 2 ^ 50.

Lemma latest_json_text message :
  concat [[123] ++ quoted (bs "has_message") ++ [58];
          if bool_decide (message <> None) then bs "true" else bs "false";
          [44] ++ quoted (bs "message") ++ [58; 34];
          json_escaped (default [] message); [34; 125]] = latest_json message.
Proof.
  unfold latest_json, quoted. cbn [concat]. rewrite <- !app_assoc. by destruct message.
Qed.

Lemma http_handle_messages_latest_get_spec conn w :
  ms_initialized (p_store (w_prog w)) = true ->
  message_small (default [] (ms_message (p_store (w_prog w)))) ->
  wp (http_handle_messages_latest_get conn) (fun r w' =>
    exists text, replies text r w w' /\
      (text = latest_response (ms_message (p_store (w_prog w))) \/
       error_reply text /\ w_faults w <> [])) w.
Proof.
  intros Hi Hsmall. unfold message_small in *. unfold http_handle_messages_latest_get, message_store_get_copy.
  do 2 wp_step. wp_use message_store_get_snapshot_spec; [done|]. intros snap w1 (Hf1 & H0 & Hsnap). wp_step.
  destruct snap as [[[message has] version]|]; cbn [fmap option_fmap option_map fst]; cycle 1.
  { send_error. intros text r w' Htx Hrep. exists text. split; [by eapply replies_after|].
    right. split; [done|]. intros E. by specialize (H0 E). }
  destruct Hsnap as (-> & -> & _). set (m := ms_message (p_store (w_prog w))) in *.
  assert (Hlen : zlen (latest_json m) < 2 ^ 62).
  { unfold latest_json, quoted. pose proof (json_escaped_length (default [] m)).
    rewrite !length_app. destruct m; cbn [length bs]; lia. }
  eapply wp_mono.
  - apply (buf_then_send [[123] ++ quoted (bs "has_message") ++ [58];
          if bool_decide (m <> None) then bs "true" else bs "false";
          [44] ++ quoted (bs "message") ++ [58; 34];
          json_escaped (default [] m); [34; 125]] _ (fun response =>
      let! r := http_send_response conn 200 (bs "OK") content_type_json response None in
      ret (if negb (r =? 0) then 1 else 0)) (latest_response m)).
    + apply Forall2_cons_2; [by apply appends_str|].
      apply Forall2_cons_2; [apply appends_str; by case_bool_decide|].
      apply Forall2_cons_2; [by apply appends_str|].
      apply Forall2_cons_2; [|by apply Forall2_cons_2; [apply appends_str|apply Forall2_nil_2]].
      case_bool_decide as Hm; [apply http_json_escape_appends|rewrite Hm; apply appends_nil].
    + by rewrite latest_json_text.
    + intros b w2 ->. rewrite latest_json_text. wp_step.
      wp_use http_send_response_spec; [by_decision|unfold object_size; lia|].
      intros r w3 Hrep. wp_step. by apply replies_01.
  - intros r w' Hrep. exists (latest_response m). split; [by eapply replies_after|by left].
Qed.

(** *** The stream *)

Lemma http_send_sse_keepalive_spec conn w :
  wp (http_send_sse_keepalive conn) (fun r w' => replies sse_keepalive r w w') w.
Proof. apply http_send_text_spec. Qed.

Lemma sets_app a b : sets (a ++ b) = sets a ++ sets b.
Proof. apply omap_app. Qed.

(** The store after other threads' critical sections, while the version does not
    wrap around. *)
Lemma run_acts_sets acts s :
  0 <= ms_version s -> ms_version s + zlen (sets acts) < 2 ^ 64 ->
  ms_version (run_acts acts s) = ms_version s + zlen (sets acts) /\
  ms_message (run_acts acts s) =
    match last (sets acts) with Some m => Some m | None => ms_message s end.
Proof.
  revert s. induction acts as [|a acts IH]; intros s H0 Hv; [simpl; split; [lia|done]|].
  change (run_acts (a :: acts) s) with (run_acts acts (run_act a s)).
  destruct a as [copy| |sig]; [|by apply (IH (store_shutdown s))|by apply IH].
  assert (Es : sets (ActSet copy :: acts) = copy :: sets acts) by done. rewrite Es in *.
  cbn [length] in Hv. assert (Eu : u64 (ms_version s + 1) = ms_version s + 1) by (apply u64_small; lia).
  destruct (IH (store_set copy s)) as [E1 E2]; cbn [store_set ms_version ms_message] in *;
    [rewrite Eu; lia|rewrite Eu; lia|].
  cbn [run_act]. rewrite E1, E2. cbn [store_set ms_version ms_message length]. rewrite Eu.
  split; [lia|]. rewrite last_cons. by destruct (last (sets acts)).
Qed.

(** What the rounds of the stream send: [events] in order, taken from the
    messages that other threads stored in order; after every round the last of
    them is the latest. *)
Definition stream_events (events : list (option bytes)) (stored : list bytes) (latest : bool) : Prop :=
  omap id events `sublist_of` stored /\ (latest = true -> last (omap id events) = last stored).

Lemma stream_events_nil : stream_events [] [] true.
Proof. by split. Qed.

Lemma omap_id_none (e : list (option bytes)) : omap id (None :: e) = omap id e.
Proof. done. Qed.

Lemma stream_events_next stored1 stored2 events latest :
  stream_events events stored2 latest ->
  stream_events (last stored1 :: events) (stored1 ++ stored2) latest.
Proof.
  intros [Hsub Hlast]. destruct (last stored1) as [m|] eqn:E.
  - apply last_Some in E as [pre ->]. split.
    + change (omap id (Some m :: events)) with ([m] ++ omap id events).
      apply sublist_app; [by apply sublist_inserts_l|done].
    + intros Hl. change (omap id (Some m :: events)) with ([m] ++ omap id events).
      rewrite !last_app, (Hlast Hl). by destruct (last stored2).
  - apply last_None in E as ->. by split.
Qed.

Lemma stream_events_stop stored : stream_events [] stored false.
Proof. split; [apply sublist_nil_l|done]. Qed.

(** Asking for a shutdown is never taken back. *)
Lemma run_requests_requested acts s : g_requested s <> 0 -> g_requested (run_requests acts s) <> 0.
Proof.
  revert s. induction acts as [|a acts IH]; intros s Hs; [done|].
  change (run_requests (a :: acts) s) with
    (run_requests acts (match a with ActRequest sig => shutdown_set_requested sig s | _ => s end)).
  apply IH. by destruct a.
Qed.

(** The stream may start: the store is initialised, its version cannot wrap
    around in what other threads do, and messages are of this world. *)
Definition stream_ready (w : world) : Prop :=
  ms_initialized (p_store (w_prog w)) = true /\ 0 <= ms_version (p_store (w_prog w)) /\
  ms_version (p_store (w_prog w)) + zlen (sets (others (w_waits w))) < 2 ^ 64 /\
  Forall message_small (sets (others (w_waits w))).

(** Nothing changed but the statics and what was sent. *)
Definition only_talk (w w' : world) : Prop :=
  w_env w' = w_env w /\ w_files w' = w_files w /\ n_in (w_net w') = n_in (w_net w) /\
  (flen w' <= flen w)%nat.

(** What [rounds] rounds of the loop come to. *)
Definition stream_result (rounds : nat) (r : option Z) (w w' : world) : Prop :=
  exists used events, w_waits w = used ++ w_waits w' /\
    p_store (w_prog w') = run_acts (others used) (p_store (w_prog w)) /\
    p_shutdown (w_prog w') = run_requests (others used) (p_shutdown (w_prog w)) /\
    only_talk w w' /\ stream_events events (sets (others used)) (bool_decide (r = None)) /\
    said (sse_stream events) w w' /\ (r <> Some 1 -> said_all (sse_stream events) w w') /\
    (r = Some 0 -> g_requested (p_shutdown (w_prog w')) <> 0) /\
    (r = None -> length events = rounds /\
       (rounds <> 0%nat \/ g_requested (p_shutdown (w_prog w)) = 0 ->
        g_requested (p_shutdown (w_prog w')) = 0)) /\
    (r = None \/ r = Some 0 \/ r = Some 1) /\
    (r = Some 1 -> w_faults w <> [] \/ exists e, WErr e ∈ used).

Lemma others_app u1 u2 : others (u1 ++ u2) = others u1 ++ others u2.
Proof. by rewrite map_app, concat_app. Qed.

Lemma only_talk_trans w1 w2 w3 : only_talk w1 w2 -> only_talk w2 w3 -> only_talk w1 w3.
Proof. unfold only_talk. intros. destruct_and!. split_and!; congruence || lia. Qed.

Lemma waited_talk used w w' : waited used w w' -> only_talk w w' /\ n_out (w_net w') = n_out (w_net w).
Proof. intros ((H1 & H2 & H3 & H4) & _). by rewrite H2; split; [split_and!; congruence|]. Qed.

Lemma net_talk w w' : only_net w w' -> n_in (w_net w') = n_in (w_net w) -> only_talk w w'.
Proof. intros [(H1 & H2 & H3 & H4) H5] H6. by split_and!. Qed.

Lemma talk_faults w w' : only_talk w w' -> w_faults w' <> [] -> w_faults w <> [].
Proof. intros (_ & _ & _ & H) H1 E. apply H1. apply no_faults_flen. apply no_faults_flen in E. lia. Qed.

Lemma stream_ready_waited used w w1 :
  stream_ready w -> waited used w w1 ->
  ms_version (p_store (w_prog w1)) = ms_version (p_store (w_prog w)) + zlen (sets (others used)) /\
  ms_message (p_store (w_prog w1)) =
    match last (sets (others used)) with Some m => Some m | None => ms_message (p_store (w_prog w)) end /\
  Forall message_small (sets (others used)) /\ stream_ready w1.
Proof.
  intros (Hi & H0 & Hv & Hs) (_ & Hw & Hst & _). rewrite Hw, others_app, sets_app in *.
  rewrite length_app in Hv. apply Forall_app in Hs as [Hs1 Hs2].
  destruct (run_acts_sets (others used) (p_store (w_prog w))) as [E1 E2]; [done|lia|].
  rewrite <- Hst in E1, E2. split_and!; [done|done|done|].
  unfold stream_ready. rewrite Hst at 1. rewrite run_acts_initialized, E1. split_and!; [done|lia|lia|done].
Qed.

(** The end of the loop, after waiting. *)
Lemma stream_result_stop rounds r used w w1 :
  (r = Some 0 \/ r = Some 1) -> waited used w w1 ->
  (r = Some 0 -> g_requested (p_shutdown (w_prog w1)) <> 0) ->
  (r = Some 1 -> w_faults w <> [] \/ exists e, WErr e ∈ used) ->
  stream_result rounds r w w1.
Proof.
  intros Hr Hw H0 H1. destruct (waited_talk _ _ _ Hw) as [Ht Ho]. destruct Hw as (_ & Hw & Hst & Hsd).
  exists used, []. assert (bool_decide (r = None) = false) as -> by (by destruct Hr as [->| ->]).
  do 3 (split; [done|]). split; [done|]. split; [apply stream_events_stop|].
  split; [by apply said_all_said, said_nil|]. split; [intros _; by apply said_nil|].
  destruct Hr as [->| ->]; split_and!; auto; done.
Qed.

(** One round that sends, and the rounds after it. *)
Lemma stream_result_round rounds r used w w1 w2 w' :
  waited used w w1 -> g_requested (p_shutdown (w_prog w1)) = 0 ->
  only_net w1 w2 -> n_in (w_net w2) = n_in (w_net w1) ->
  said_all (sse_text (last (sets (others used)))) w1 w2 ->
  stream_result rounds r w2 w' -> stream_result (S rounds) r w w'.
Proof.
  intros Hw Hg Hf Hi Hs (u2 & events & Hw2 & Hst2 & Hsd2 & Ht2 & He & Hsaid & Hall & H0 & Hn & Hr & H1).
  pose proof (net_talk _ _ Hf Hi) as Htn. destruct (waited_talk _ _ _ Hw) as [Ht Ho].
  destruct Hw as (_ & Hw & Hst & Hsd). pose proof Hf as [(_ & Hp & Hww & _) _].
  assert (Hs' : said_all (sse_text (last (sets (others used)))) w w2) by (by eapply said_all_after).
  exists (used ++ u2), (last (sets (others used)) :: events).
  rewrite others_app, sets_app.
  split; [by rewrite Hw, <- Hww, Hw2, app_assoc|]. split; [by rewrite Hst2, Hp, Hst, run_acts_app|].
  split; [by rewrite Hsd2, Hp, Hsd, run_requests_app|].
  split; [eapply only_talk_trans; [done|]; by eapply only_talk_trans|].
  split; [by apply stream_events_next|]. split; [by eapply said_trans|].
  split; [intros Hne; eapply said_all_trans; [done|by apply Hall]|]. split; [done|]. split.
  { intros E. destruct (Hn E) as [Hl Hg2]. split; [simpl; by rewrite Hl|]. intros _.
    apply Hg2. right. by rewrite Hp. }
  split; [done|]. intros E. destruct (H1 E) as [Hf0|(e & He')].
  - left. eapply talk_faults; [|done]. by eapply only_talk_trans.
  - right. exists e. apply elem_of_app. by right.
Qed.

(** One round that could not send all. *)
Lemma stream_result_cut rounds used w w1 w2 :
  waited used w w1 -> replies (sse_text (last (sets (others used)))) 1 w1 w2 ->
  stream_result rounds (Some 1) w w2.
Proof.
  intros Hw (Hf & Hi & _ & Hs & _ & H0). pose proof (net_talk _ _ Hf Hi) as Htn.
  destruct (waited_talk _ _ _ Hw) as [Ht Ho]. destruct Hw as (_ & Hw & Hst & Hsd).
  pose proof Hf as [(_ & Hp & Hww & _) _].
  exists used, [last (sets (others used))]. rewrite Hp, Hww. do 3 (split; [done|]).
  split; [by eapply only_talk_trans|]. split.
  { pose proof (stream_events_next (sets (others used)) [] [] true stream_events_nil) as H.
    rewrite app_nil_r in H. by destruct H. }
  unfold sse_stream. cbn [map concat]. rewrite app_nil_r. split; [by eapply said_after|].
  split_and!; try done; [auto|]. intros _. left. eapply talk_faults; [done|]. intros E. by specialize (H0 E).
Qed.

(** What a snapshot hands out is the last message stored meanwhile. *)
Lemma last_of_update (known : Z) (l : list bytes) (m : option bytes) :
  (if known <? known + zlen l then match last l with Some x => Some x | None => m end else None) =
  last l.
Proof.
  destruct l as [|x l]; [by destruct (Z.ltb_spec known (known + zlen (@nil bytes))); [simpl in *; lia|]|].
  destruct (Z.ltb_spec known (known + zlen (x :: l))); [|simpl in *; lia].
  by destruct (last (x :: l)) eqn:E; [|apply last_None in E].
Qed.

Lemma http_messages_stream_loop_spec rounds conn known w :
  stream_ready w -> known = ms_version (p_store (w_prog w)) ->
  wp (http_messages_stream_loop rounds conn known) (fun r w' => stream_result rounds r w w') w.
Proof.
  revert known w. induction rounds as [|rounds IH]; intros known w Hready Hk;
    cbn [http_messages_stream_loop].
  { wp_step. exists [], []. do 3 (split; [done|]). split; [by split_and!|].
    split; [apply stream_events_nil|]. split; [by apply said_all_said, said_nil|].
    split; [intros _; by apply said_nil|]. split_and!; try done; [|by left].
    intros _. split; [done|]. by intros [?|?]. }
  wp_step. wp_use message_store_wait_for_update_spec; [by apply Hready|].
  intros r w1 (used & Hw & _ & Hr).
  destruct (stream_ready_waited _ _ _ Hready Hw) as (Hv1 & Hm1 & Hs1 & Hready1).
  destruct r as [[[message has] version]|]; cycle 1.
  { wp_step. apply (stream_result_stop _ _ used); [by right|done|done|]. intros _.
    destruct Hr as [?|(e & Hl)]; [by left|]. right. exists e.
    apply last_Some in Hl as [l ->]. apply elem_of_app. right. by apply list_elem_of_singleton. }
  destruct Hr as (-> & Hmsg & -> & _). rewrite Hv1, <- Hk in Hmsg.
  wp_step. apply shutdown_requested_spec.
  destruct (Z.eqb_spec (g_requested (p_shutdown (w_prog w1))) 0) as [Hg|Hg]; cbn [negb]; cycle 1.
  { change (negb (1 =? 0)) with true. cbv iota. wp_step.
    by apply (stream_result_stop _ _ used); [left| | |]. }
  change (negb (0 =? 0)) with false. cbv iota.
  rewrite Hm1, last_of_update in Hmsg.
  subst message.
  assert (Hgo : forall sent w2, replies (sse_text (last (sets (others used)))) sent w1 w2 ->
    wp (if negb (sent =? 0) then ret (Some 1)
        else http_messages_stream_loop rounds conn (ms_version (p_store (w_prog w1))))
       (fun r w' => stream_result (S rounds) r w w') w2).
  { intros sent w2 Hrep. pose proof Hrep as (Hf2 & Hi2 & Hr2 & _ & Ha & _).
    pose proof Hf2 as [(_ & Hp & Hww & _) _]. destruct Hr2 as [->| ->].
    - change (negb (0 =? 0)) with false. cbv iota. eapply wp_mono.
      + apply IH; [|by rewrite Hp]. unfold stream_ready. by rewrite Hp, Hww.
      + intros r w' Hres. eapply (stream_result_round _ _ used w w1 w2); try done. by apply Ha.
    - change (negb (1 =? 0)) with true. cbv iota. wp_step. by eapply stream_result_cut. }
  destruct (last (sets (others used))) as [m|] eqn:El; cbn [negb andb sse_text] in *.
  - change (bool_decide (Some m = None)) with false. cbn [andb]. wp_step.
    wp_use (http_send_sse_message_event_spec conn (Some m)); [|intros sent w2; apply Hgo].
    apply last_Some in El as [l El]. rewrite El in Hs1. apply Forall_app in Hs1 as [_ Hs1].
    apply Forall_cons in Hs1 as [Hs1 _]. exact Hs1.
  - change (bool_decide (None = None)) with true.
    change (negb (bool_decide (@None bytes <> None))) with true. cbn [andb]. wp_step.
    wp_use http_send_sse_keepalive_spec. intros sent w2. apply Hgo.
Qed.

(** What a run of the stream comes to: the event stream so far. Its messages are
    the latest one at the start and some of those stored meanwhile, in order. *)
Definition stream_outcome (r : option Z) (w w' : world) : Prop :=
  exists used events, w_waits w = used ++ w_waits w' /\
    p_store (w_prog w') = run_acts (others used) (p_store (w_prog w)) /\
    only_talk w w' /\
    stream_events events (option_list (ms_message (p_store (w_prog w))) ++ sets (others used))
      (bool_decide (r = None)) /\
    said (sse_headers ++ sse_stream events) w w' /\
    (r <> Some 1 -> said_all (sse_headers ++ sse_stream events) w w') /\
    (r = Some 0 -> g_requested (p_shutdown (w_prog w')) <> 0) /\
    (r = Some 1 -> w_faults w <> [] \/ exists e, WErr e ∈ used).

(** The stream ended before its loop. *)
Lemma stream_cut_early text w w' :
  only_net w w' -> n_in (w_net w') = n_in (w_net w) ->
  said text w w' -> w_faults w <> [] ->
  (exists events, text = sse_headers ++ sse_stream events /\
     stream_events events (option_list (ms_message (p_store (w_prog w)))) false) ->
  stream_outcome (Some 1) w w'.
Proof.
  intros Hf Hi Hs H0 (events & -> & He). pose proof Hf as [(_ & Hp & Hww & _) _].
  exists [], events. rewrite Hp, Hww. do 2 (split; [done|]). split; [by apply net_talk|].
  change (others []) with (@nil store_act). change (sets []) with (@nil bytes). rewrite app_nil_r.
  split; [exact He|]. split; [exact Hs|]. do 2 (split; [done|]). intros _. by left.
Qed.

(** What the handler comes to: it does not run on when a shutdown is requested. *)
Definition stream_done (rounds : nat) (w : world) (r : option Z) (w' : world) : Prop :=
  stream_outcome r w w' /\ (r = None \/ r = Some 0 \/ r = Some 1) /\
  (rounds <> 0%nat -> g_requested (p_shutdown (w_prog w)) <> 0 -> r <> None).

Lemma stream_done_early rounds text w w' :
  only_net w w' -> n_in (w_net w') = n_in (w_net w) -> said text w w' -> w_faults w <> [] ->
  (exists events, text = sse_headers ++ sse_stream events /\
     stream_events events (option_list (ms_message (p_store (w_prog w)))) false) ->
  wp (ret (Some 1)) (stream_done rounds w) w'.
Proof. intros. wp_step. split; [by eapply stream_cut_early|auto]. Qed.

(** The event for the message that is there at the start. *)
Lemma stream_first_spec conn m w :
  message_small (default [] m) ->
  wp (if bool_decide (m <> None) then http_send_sse_message_event conn m else ret 0)
    (fun r w' => replies (sse_stream (option_list (Some <$> m))) r w w') w.
Proof.
  intros Hsmall. destruct m as [m|]; cycle 1.
  - change (bool_decide (@None bytes <> None)) with false. cbv iota. wp_step.
    split; [done|]. split_and!; [done|by left|by apply said_all_said, said_nil|intros _; by apply said_nil|done].
  - change (bool_decide (Some m <> None)) with true. cbv iota.
    change (sse_stream _) with (sse_text (Some m) ++ []). rewrite app_nil_r.
    by apply (http_send_sse_message_event_spec conn (Some m)).
Qed.

(** The headers and the first event were sent; the loop follows. *)
Lemma stream_loop_done rounds conn w w3 :
  let m := ms_message (p_store (w_prog w)) in
  stream_ready w -> only_net w w3 -> n_in (w_net w3) = n_in (w_net w) ->
  said_all (sse_headers ++ sse_stream (option_list (Some <$> m))) w w3 ->
  wp (http_messages_stream_loop rounds conn (ms_version (p_store (w_prog w))))
    (stream_done rounds w) w3.
Proof.
  intros m Hready Hf13 Hi Hs03. pose proof Hf13 as [(_ & Hp & Hw & _) _].
  assert (He0 : omap id (option_list (Some <$> m)) = option_list m) by (by destruct m).
  assert (Hready3 : stream_ready w3) by (unfold stream_ready; by rewrite Hp, Hw).
  eapply wp_mono; [apply http_messages_stream_loop_spec; [done|by rewrite Hp]|].
  intros r w' (used & events & Hw' & Hst & Hsd & Ht & [He Hl] & Hsaid & Hall & H0 & Hn & Hr & H1).
  rewrite Hp in *. rewrite Hw in Hw'.
  split; [|split; [done|]].
  - exists used, (option_list (Some <$> m) ++ events). do 2 (split; [done|]).
    split; [eapply only_talk_trans; [|done]; by apply net_talk|].
    split; [split|].
    + rewrite omap_app, He0. by apply sublist_app.
    + intros E. rewrite omap_app, He0, !last_app, (Hl E). done.
    + unfold sse_stream. rewrite map_app, concat_app, app_assoc.
      split; [by eapply said_trans|]. split; [intros E; eapply said_all_trans; [done|by apply Hall]|].
      split; [done|]. intros E. destruct (H1 E) as [Hf0|?]; [left|by right].
      eapply talk_faults; [|exact Hf0]. by apply net_talk.
  - intros Hrounds Hg ->. destruct (Hn eq_refl) as [_ Hz]. specialize (Hz (or_introl Hrounds)).
    rewrite Hsd in Hz. by apply (run_requests_requested (others used) _ Hg).
Qed.

Lemma http_handle_messages_stream_spec rounds conn w :
  stream_ready w -> message_small (default [] (ms_message (p_store (w_prog w)))) ->
  wp (http_handle_messages_stream rounds conn) (stream_done rounds w) w.
Proof.
  intros Hready Hsmall. unfold http_handle_messages_stream. wp_step.
  unfold http_send_sse_headers. wp_use http_send_text_spec.
  intros r1 w1 (Hf1 & Hi1 & Hr1 & Hs1 & Ha1 & H01). pose proof Hf1 as [(_ & Hp1 & _) _].
  assert (Hcalm1 : w_faults w = [] -> w_faults w1 = []) by (apply only_io_no_faults, Hf1).
  destruct (Z.eqb_spec r1 0) as [->|Hne]; cbn [negb]; cycle 1.
  { apply (stream_done_early _ sse_headers); [done|done|done| |].
    - intros E. specialize (H01 E). lia.
    - exists []. split; [by rewrite app_nil_r|apply stream_events_stop]. }
  specialize (Ha1 eq_refl).
  wp_step. wp_use message_store_get_snapshot_spec; [rewrite Hp1; apply Hready|].
  rewrite Hp1. intros snap w2 (Hf2 & H02 & Hsnap). assert (Hn2 : w_net w2 = w_net w1) by apply Hf2.
  assert (Hf12 : only_net w w2) by (etrans; [done|by apply only_errno_net]).
  assert (Ha2 : said_all sse_headers w w2) by (unfold said_all in *; by rewrite Hn2).
  destruct snap as [[[message has] version]|]; cycle 1.
  { apply (stream_done_early _ sse_headers); [done|congruence|by apply said_all_said| |].
    - intros E. by specialize (H02 (Hcalm1 E)).
    - exists []. split; [by rewrite app_nil_r|apply stream_events_stop]. }
  destruct Hsnap as (-> & -> & ->). wp_step.
  eapply wp_mono; [by apply stream_first_spec|]. intros r3 w3 (Hf3 & Hi3 & Hr3 & Hs3 & Ha3 & H03).
  assert (Hf13 : only_net w w3) by (by etrans).
  destruct (Z.eqb_spec r3 0) as [->|Hne]; cbn [negb]; cycle 1.
  { eapply stream_done_early; [done|congruence|by eapply said_trans| |].
    - intros E. assert (w_faults w2 = []) as E2 by (eapply only_io_no_faults; [apply Hf2|auto]).
      specialize (H03 E2). lia.
    - eexists. split; [done|]. by destruct (ms_message (p_store (w_prog w))). }
  apply stream_loop_done; [done|done|congruence|]. eapply said_all_trans; [done|auto].
Qed.

Lemma sse_decode_stream events rest :
  Forall (fun e => 13 ∉ default [] e) events ->
  sse_decode (sse_stream events ++ rest) =
    map (pair (bs "message")) (omap id events) ++ sse_decode rest.
Proof.
  unfold sse_stream. induction 1 as [|[m|] events He _ IH]; [done|..];
    cbn [map concat sse_text]; rewrite <- app_assoc.
  - rewrite sse_decode_event, IH by exact He. done.
  - rewrite sse_decode_keepalive. apply IH.
Qed.

(** ** Properties *)

(** A POST of a message is truthful: whatever fails, the reply 201 is only
    sent when the body had exactly the announced length, was a JSON object with
    the one key "message", and its text -- without the white space at its end --
    is the store's message under the next version; otherwise the store is
    unchanged and the reply is an error or missing. When nothing fails an allowed
    request with such a body of at most the size limit is stored and answered. *)
Theorem http_messages_post_truthful conn opt req w
    (Hinit : ms_initialized (p_store (w_prog w)) = true) (Hlen : 0 <= content_length req) :
  wp (http_handle_messages_post conn opt req) (fun r w' =>
    w_files w' = w_files w /\ post_outcome req r w w' /\
    (w_faults w = [] -> post_allowed req -> forall body rest m,
       n_in (w_net w) = body ++ rest -> zlen body = content_length req ->
       message_json (cstr (body ++ [0])) m -> zlen m <= HF_PROTOCOL_MAX_TEXT_MESSAGE_SIZE ->
       r = 0 /\ n_in (w_net w') = rest /\ said_all message_stored_response w w' /\
       p_store (w_prog w') = store_set (stored_text m) (p_store (w_prog w)))) w.
Proof.
  wp_use http_handle_messages_post_spec; [done|done|]. intros r w' (Hm & _ & H1 & H2).
  split; [apply Hm|done].
Qed.

Definition demo_message_body : bytes := bs "{" ++ quoted (bs "message") ++ bs ": " ++ quoted (bs "hi \n") ++ bs "}".

Definition demo_post : http_request_t :=
  HttpRequest (bs "POST") (bs "/api/messages") [] (bs "application/json") (zlen demo_message_body) true false.

Lemma http_messages_post_truthful_witness :
  let w := demo_world [FNone; FNone; FShort 4; FErr EINTR] demo_message_body (demo_files ∅) in
  let opt := ServerOpt (Some (bs "d")) 9000 0 in
  wp (http_handle_messages_post 4 opt demo_post) (fun r w' =>
    w_files w' = w_files w /\ post_outcome demo_post r w w' /\
    (w_faults w = [] -> post_allowed demo_post -> forall body rest m,
       n_in (w_net w) = body ++ rest -> zlen body = content_length demo_post ->
       message_json (cstr (body ++ [0])) m -> zlen m <= HF_PROTOCOL_MAX_TEXT_MESSAGE_SIZE ->
       r = 0 /\ n_in (w_net w') = rest /\ said_all message_stored_response w w' /\
       p_store (w_prog w') = store_set (stored_text m) (p_store (w_prog w)))) w.
Proof. apply http_messages_post_truthful; [reflexivity|vm_compute; discriminate]. Defined.

(** The example's message is stored without its space and newline. *)
Example demo_post_stored :
  (fun '(r, w) => (r, ms_message (p_store (w_prog w)))) <$>
    http_handle_messages_post 4 (ServerOpt None 9000 0) demo_post
      (demo_world [FNone; FNone; FShort 4; FErr EINTR] demo_message_body (demo_files ∅)) =
  Some (0, Some (bs "hi")).
Proof. vm_compute. reflexivity. Qed.


(** Another thread stores two messages before the first wake-up and asks for the
    end before the third. *)
Definition demo_stream_world : world :=
  set_waits [WWake [ActSet [97]; ActSet [98]]; WTimeout []; WWake [ActRequest 15; ActShutdown]]
    (demo_world [] [] (demo_files ∅)).


Example demo_stream_run :
  (fun '(r, w) => (r, drop (length sse_headers) (n_out (w_net w)))) <$>
    http_handle_messages_stream 9 4 demo_stream_world =
  Some (Some 0, sse_stream [Some [98]; None]).
Proof. vm_compute. reflexivity. Qed.


