(* ===== verification/Http.v ===== *)
(** * The HTTP server (src/http.c)

    Routing, and one connection from its header block to its last reply. The
    event stream has no end of its own: a connection is run for a number of its
    rounds, and [None] is a connection that still streams after them. *)

From S2P Require Import Prelude CLib World Logic Signals Fs Net Protocol TransferIo MessageStore.
From S2P Require Import HttpBuf HttpJson Cli AppService PicoHttp HttpRequest HttpResponse WebUi.
From S2P Require Import HttpFiles HttpMessages.

(** ** Definitions *)

Definition http_handle_webui_asset (conn : Z) (asset : webui_asset_t) : M Z :=
  http_send_response conn 200 (bs "OK") (wa_content_type asset) (wa_body asset) None.

(** The results of the handlers that end by themselves. *)
Definition finished (m : M Z) : M (option Z) := let! r := m in ret (Some r).

Definition http_route_files_list (conn : Z) (ser_opt : server_opt_t) (req : http_request_t)
    : M (option Z) := finished (http_handle_files_list conn ser_opt req).
Definition http_route_messages_post (conn : Z) (ser_opt : server_opt_t) (req : http_request_t)
    : M (option Z) := finished (http_handle_messages_post conn ser_opt req).
Definition http_route_messages_latest_get (conn : Z) (ser_opt : server_opt_t)
    (req : http_request_t) : M (option Z) := finished (http_handle_messages_latest_get conn).
Definition http_route_messages_stream (rounds : nat) (conn : Z) (ser_opt : server_opt_t)
    (req : http_request_t) : M (option Z) := http_handle_messages_stream rounds conn.

Record http_exact_route_t := HttpExactRoute {
  rt_path : bytes;
  rt_method : bytes;
  rt_handler : Z -> server_opt_t -> http_request_t -> M (option Z)
}.

Definition http_exact_routes (rounds : nat) : list http_exact_route_t :=
  [HttpExactRoute (bs "/api/files") (bs "GET") http_route_files_list;
   HttpExactRoute (bs "/api/messages") (bs "POST") http_route_messages_post;
   HttpExactRoute (bs "/api/messages/latest") (bs "GET") http_route_messages_latest_get;
   HttpExactRoute (bs "/api/messages/stream") (bs "GET") (http_route_messages_stream rounds)].

Definition http_method_not_allowed (conn : Z) : M (option Z) :=
  finished (http_send_json_error conn 405 (bs "Method Not Allowed") (bs "method not allowed")).

(** The loop over the routes; -1: no route. *)
Fixpoint http_dispatch_routes (routes : list http_exact_route_t) (conn : Z)
    (ser_opt : server_opt_t) (req : http_request_t) : M (option Z) :=
  match routes with
  | [] => ret (Some (-1))
  | route :: routes =>
      if negb (streq (path req) (rt_path route)) then
        http_dispatch_routes routes conn ser_opt req
      else if negb (streq (method req) (rt_method route)) then http_method_not_allowed conn
      else rt_handler route conn ser_opt req
  end.

Definition http_dispatch_exact_route (rounds : nat) (conn : Z) (ser_opt : server_opt_t)
    (req : http_request_t) : M (option Z) :=
  http_dispatch_routes (http_exact_routes rounds) conn ser_opt req.

(** The name behind "/api/files/"; [None]: it cannot be decoded. *)
Definition http_route_name (req : http_request_t) : option bytes :=
  (fun out => cstr (out ++ [0])) <$> http_decode_name (drop 11 (path req)) HF_HTTP_PATH_MAX.

Definition http_dispatch_file_route (conn : Z) (ser_opt : server_opt_t) (req : http_request_t)
    : M (option Z) :=
  if negb (prefixb (bs "/api/files/") (path req)) then ret (Some (-1))
  else
    match http_route_name req with
    | None =>
        finished (http_send_json_error conn 400 (bs "Bad Request") (bs "invalid file name"))
    | Some route_name =>
        if streq (method req) (bs "GET") then finished (http_send_file conn ser_opt route_name)
        else if streq (method req) (bs "PUT") then
          finished (http_handle_file_put conn ser_opt req route_name)
        else http_method_not_allowed conn
    end.

(** The two dispatchers and the last resort. *)
Definition http_dispatch (rounds : nat) (conn : Z) (ser_opt : server_opt_t) (req : http_request_t)
    : M (option Z) :=
  let! route_res := http_dispatch_exact_route rounds conn ser_opt req in
  if negb (bool_decide (route_res = Some (-1))) then ret route_res
  else
    let! route_res := http_dispatch_file_route conn ser_opt req in
    if negb (bool_decide (route_res = Some (-1))) then ret route_res
    else finished (http_send_json_error conn 404 (bs "Not Found") (bs "route not found")).

(** What follows the parsed request. *)
Definition http_handle_request (rounds : nat) (conn : Z) (ser_opt : server_opt_t)
    (req : http_request_t) : M (option Z) :=
  match (if streq (method req) (bs "GET") then webui_find_asset (path req) else None) with
  | Some asset => finished (http_handle_webui_asset conn asset)
  | None => http_dispatch rounds conn ser_opt req
  end.

Definition handle_http_connection (rounds : nat) (conn : Z) (ser_opt : server_opt_t)
    : M (option Z) :=
  let! (read_res, header_block) := http_read_header_block conn HF_HTTP_HEADER_MAX in
  if read_res =? -1 then ret (Some 1)
  else if read_res =? 1 then ret (Some 1)
  else if read_res =? 2 then
    finished (http_send_json_error conn 431 (bs "Request Header Fields Too Large")
                (bs "header too large"))
  else
    match http_parse_request (header_block ++ [0]) with
    | inl parse_res =>
        if parse_res =? 1 then
          finished (http_send_json_error conn 400 (bs "Bad Request") (bs "invalid request"))
        else
          finished (http_send_json_error conn 505 (bs "HTTP Version Not Supported")
                      (bs "only HTTP/1.1 is supported"))
    | inr req => http_handle_request rounds conn ser_opt req
    end.

(** *** Specifications *)

(** The state in which a connection is accepted. *)
Record http_ready (conn : Z) (opt : server_opt_t) (base : bytes) (w : world) : Prop := {
  hr_conn : 0 <= conn;
  hr_base : s_path opt = Some base;
  hr_fds : fds_ok (w_files w);
  hr_sizes : sizes_fit (f_fs (w_files w));
  hr_kernel : e_splice_direct (w_env w) = false;
  hr_stream : stream_ready w;
  hr_latest : message_small (default [] (ms_message (p_store (w_prog w))))
}.

(** All that a connection may change besides the connection itself: nothing; one
    file at a valid relative path below the served directory, whose contents came
    from the connection; when a call failed, one new temporary file next to such
    a path; the latest message; or, while it streams, what other threads store. *)
Inductive http_effect (base : bytes) (w w' : world) : Prop :=
  | he_none : f_fs (w_files w') = f_fs (w_files w) -> p_store (w_prog w') = p_store (w_prog w) ->
      http_effect base w w'
  | he_file rel pre d m : relative_path_ok rel -> n_in (w_net w) = pre ++ d ++ n_in (w_net w') ->
      f_fs (w_files w') = <[entry_path base rel := NFile d m]> (f_fs (w_files w)) ->
      p_store (w_prog w') = p_store (w_prog w) -> http_effect base w w'
  | he_temp rel k c m : w_faults w <> [] -> relative_path_ok rel -> 0 <= k < 3 ->
      f_fs (w_files w) !! upload_temp w base rel k = None ->
      f_fs (w_files w') = <[upload_temp w base rel k := NFile c m]> (f_fs (w_files w)) ->
      p_store (w_prog w') = p_store (w_prog w) -> http_effect base w w'
  | he_message m : f_fs (w_files w') = f_fs (w_files w) ->
      p_store (w_prog w') = store_set (stored_text m) (p_store (w_prog w)) -> http_effect base w w'
  | he_stream used : f_fs (w_files w') = f_fs (w_files w) -> w_waits w = used ++ w_waits w' ->
      p_store (w_prog w') = run_acts (others used) (p_store (w_prog w)) -> http_effect base w w'.

(** What every connection promises. *)
Definition http_promise (base : bytes) (r : option Z) (w w' : world) : Prop :=
  f_fds (w_files w') = f_fds (w_files w) /\ fds_ok (w_files w') /\
  (r = None \/ r = Some 0 \/ r = Some 1) /\ http_effect base w w'.

(** Where a request goes: by its method and its path alone. *)
Inductive http_route :=
  | RouteAsset (asset : webui_asset_t)
  | RouteList | RoutePost | RouteLatest | RouteStream
  | RouteGet (name : bytes) | RoutePut (name : bytes)
  | RouteRefused (status : Z) (reason message : bytes).

Definition route_not_allowed : http_route :=
  RouteRefused 405 (bs "Method Not Allowed") (bs "method not allowed").

Definition route_of (m p : bytes) : http_route :=
  let get := streq m (bs "GET") in
  let only (allowed : bool) (r : http_route) := if allowed then r else route_not_allowed in
  match (if get then webui_find_asset p else None) with
  | Some asset => RouteAsset asset
  | None =>
      if streq p (bs "/api/files") then only get RouteList
      else if streq p (bs "/api/messages") then only (streq m (bs "POST")) RoutePost
      else if streq p (bs "/api/messages/latest") then only get RouteLatest
      else if streq p (bs "/api/messages/stream") then only get RouteStream
      else if prefixb (bs "/api/files/") p then
        match http_decode_name (drop 11 p) HF_HTTP_PATH_MAX with
        | None => RouteRefused 400 (bs "Bad Request") (bs "invalid file name")
        | Some out =>
            if get then RouteGet (cstr (out ++ [0]))
            else only (streq m (bs "PUT")) (RoutePut (cstr (out ++ [0])))
        end
      else RouteRefused 404 (bs "Not Found") (bs "route not found")
  end.

Definition run_route (rounds : nat) (conn : Z) (opt : server_opt_t) (req : http_request_t)
    (route : http_route) : M (option Z) :=
  match route with
  | RouteAsset asset =>
      finished (http_send_response conn 200 (bs "OK") (wa_content_type asset) (wa_body asset) None)
  | RouteList => finished (http_handle_files_list conn opt req)
  | RoutePost => finished (http_handle_messages_post conn opt req)
  | RouteLatest => finished (http_handle_messages_latest_get conn)
  | RouteStream => http_handle_messages_stream rounds conn
  | RouteGet name => finished (http_send_file conn opt name)
  | RoutePut name => finished (http_handle_file_put conn opt req name)
  | RouteRefused status reason message => finished (http_send_json_error conn status reason message)
  end.

(** A request the client has sent, with what follows it. *)
Record request_sent (m p q : bytes) (hs : list (bytes * bytes)) (body : bytes) (w : world) : Prop := {
  rs_ok : request_ok m p q hs;
  rs_size : zlen (render_request m (target_of p q) hs) < HF_HTTP_HEADER_MAX;
  rs_in : n_in (w_net w) = render_request m (target_of p q) hs ++ body
}.

(** The next connection: its own streams, the rest of the process as it was; no
    other thread does anything before it ends. *)
Definition next_connection (w1 w2 : world) : Prop :=
  w_files w2 = w_files w1 /\ w_prog w2 = w_prog w1 /\ w_env w2 = w_env w1 /\ w_waits w2 = [] /\
  w_faults w2 = [].

(** ** Theorems *)

Lemma wp_finished m Q w : wp m (fun r w' => Q (Some r) w') w -> wp (finished m) Q w.
Proof. intros H. unfold finished. wp_step. eapply wp_mono; [exact H|]. intros r w' Hr. by wp_step. Qed.

Lemma http_ready_net conn opt base w w1 :
  http_ready conn opt base w -> only_net w w1 -> http_ready conn opt base w1.
Proof.
  intros [H1 H2 H3 H4 H5 H6 H7] Hf. pose proof Hf as [(He & Hp & Hww & _) Hw].
  split; [done|done|by rewrite Hw|by rewrite Hw|by rewrite He|unfold stream_ready; by rewrite Hp, Hww|by rewrite Hp].
Qed.

(** *** Confinement *)

Lemma http_effect_after base pre w w1 w' :
  only_net w w1 -> n_in (w_net w) = pre ++ n_in (w_net w1) ->
  http_effect base w1 w' -> http_effect base w w'.
Proof.
  intros Hf Hin H4. pose proof Hf as [(He & Hp & Hww & Hfl) Hw].
  destruct H4 as [H4 H5|rel p d m H4 H5 H6 H7|rel k c m H4 H5 H6 H7 H8 H9|m H4 H5|used H4 H5 H6];
    rewrite ?Hw, ?Hp, ?Hww in *.
  - by apply he_none.
  - apply (he_file _ _ _ rel (pre ++ p) d m); try done. by rewrite Hin, H5, <- app_assoc.
  - assert (Ht : upload_temp w1 base rel k = upload_temp w base rel k) by (unfold upload_temp; by rewrite He).
    rewrite Ht in *. apply (he_temp _ _ _ rel k c m); try done.
    intros E. apply H4. eapply only_io_no_faults; [apply Hf|done].
  - by apply (he_message _ _ _ m).
  - by apply (he_stream _ _ _ used).
Qed.

Lemma http_promise_after base r pre w w1 w' :
  only_net w w1 -> n_in (w_net w) = pre ++ n_in (w_net w1) ->
  http_promise base r w1 w' -> http_promise base r w w'.
Proof.
  intros Hf Hin (H1 & H2 & H3 & H4). pose proof Hf as [_ Hw].
  unfold http_promise. rewrite Hw in H1. split_and!; [done|done|done|]. by eapply http_effect_after.
Qed.

Lemma http_promise_net base r w w' :
  fds_ok (w_files w) -> only_net w w' -> (r = 0 \/ r = 1) -> http_promise base (Some r) w w'.
Proof.
  intros Hok [(_ & Hp & _) Hw] Hr. unfold http_promise. rewrite Hw. split_and!; [done|done| |].
  - right. destruct Hr as [->| ->]; auto.
  - apply he_none; [by rewrite Hw|by rewrite Hp].
Qed.

Lemma http_error_promise base conn status reason message w :
  fds_ok (w_files w) -> status_ok status reason content_type_json -> zlen message < 2 ^ 50 ->
  400 <= status < 600 ->
  wp (finished (http_send_json_error conn status reason message))
    (fun r w' => http_promise base r w w') w.
Proof.
  intros Hok H1 H2 H3. apply wp_finished, http_send_error_spec; [done|done|done|].
  intros text r w' _ (Hf & _ & Hr & _). by apply http_promise_net.
Qed.

Lemma http_method_not_allowed_promise base conn w :
  fds_ok (w_files w) -> wp (http_method_not_allowed conn) (fun r w' => http_promise base r w w') w.
Proof. intros Hok. by apply http_error_promise; [|by_decision|by vm_compute|lia]. Qed.

(** A handler that was found, next to the case of none. *)
Lemma promise_right (P : option Z -> world -> Prop) base m w :
  wp m (fun r w' => http_promise base r w w') w ->
  wp m (fun r w' => P r w' \/ http_promise base r w w') w.
Proof. intros H. eapply wp_mono; [exact H|]. intros r w' Hp. by right. Qed.

Lemma released_promise base r w w' :
  fds_ok (w_files w) -> only_io w w' -> files_released (w_files w) (w_files w') ->
  (r = 0 \/ r = 1) -> http_promise base (Some r) w w'.
Proof.
  intros Hok (_ & Hp & _) Hrel Hr. pose proof Hrel as (H1 & H2 & _).
  split; [done|]. split; [by eapply released_ok|]. split.
  - right. destruct Hr as [->| ->]; auto.
  - apply he_none; [done|by rewrite Hp].
Qed.

Lemma put_confined base rel len r w w' :
  only_io w w' -> put_outcome base rel len r w w' -> http_effect base w w'.
Proof.
  intros (_ & Hp & _) [text d _ _ _ Hin [Hfs|(Hf & Hrel & k & c & m & Hk & Hno & Hfs)]|
                       text d m Hrel Hd Hin Hfs _ _ _].
  - apply he_none; [done|by rewrite Hp].
  - by apply (he_temp _ _ _ rel k c m); [..|rewrite Hp].
  - apply (he_file _ _ _ rel [] d m); [done|done|done|by rewrite Hp].
Qed.

Lemma route_name_small req name : http_route_name req = Some name -> zlen name < 2 ^ 50.
Proof.
  unfold http_route_name, http_decode_name. change (HF_HTTP_PATH_MAX =? 0) with false. cbv iota.
  destruct (decode_name_loop (drop 11 (path req)) 0 HF_HTTP_PATH_MAX) as [out|] eqn:E; [|done].
  intros [= <-]. apply decode_name_loop_length in E; [|by vm_compute].
  pose proof (cstr_length (out ++ [0])) as H. rewrite length_app in H. unfold HF_HTTP_PATH_MAX in E.
  simpl length in H. lia.
Qed.

(** The handlers of the exact routes. *)
Lemma http_exact_routes_promise rounds conn opt base req w :
  http_ready conn opt base w -> 0 <= content_length req ->
  Forall (fun route => wp (rt_handler route conn opt req) (fun r w' => http_promise base r w w') w)
    (http_exact_routes rounds).
Proof.
  intros [Hc Hb Hfds Hs Hk Hst Hl] Hlen. unfold http_exact_routes.
  repeat apply Forall_cons_2; [..|apply Forall_nil_2]; cbn [rt_handler].
  - apply wp_finished. wp_use http_handle_files_list_spec; [done|done|].
    intros r w' (text & (Hf & _ & Hr & _) & _). by apply http_promise_net.
  - apply wp_finished. wp_use http_handle_messages_post_spec; [apply Hst|done|].
    intros r w' ((_ & Hw & _) & Hr & Hout & _). unfold http_promise. rewrite Hw.
    split_and!; [done|done|right; destruct Hr as [->| ->]; auto|].
    destruct Hout as [text d _ _ Hp _|body m _ _ _ _ Hp _ _].
    + apply he_none; [by rewrite Hw|done].
    + apply (he_message _ _ _ m); [by rewrite Hw|done].
  - apply wp_finished. wp_use http_handle_messages_latest_get_spec; [apply Hst|done|].
    intros r w' (text & (Hf & _ & Hr & _) & _). by apply http_promise_net.
  - wp_use http_handle_messages_stream_spec; [done|done|].
    intros r w' ((used & events & Hw & Hp & (_ & Hfs & _) & _) & Hr & _).
    unfold http_promise. rewrite Hfs. split_and!; [done|done|done|].
    apply (he_stream _ _ _ used); [by rewrite Hfs|done|done].
Qed.

Lemma http_dispatch_routes_promise routes conn opt base req w :
  http_ready conn opt base w ->
  Forall (fun route => wp (rt_handler route conn opt req) (fun r w' => http_promise base r w w') w) routes ->
  wp (http_dispatch_routes routes conn opt req) (fun r w' =>
    r = Some (-1) /\ w' = w \/ http_promise base r w w') w.
Proof.
  intros Hready. induction 1 as [|route routes Hr _ IH]; cbn [http_dispatch_routes].
  - wp_step. by left.
  - destruct (negb (streq (path req) (rt_path route))); [done|].
    apply (promise_right (fun r w' => r = Some (-1) /\ w' = w)).
    destruct (negb (streq (method req) (rt_method route))); [|done].
    by apply http_method_not_allowed_promise, Hready.
Qed.

Lemma http_dispatch_file_route_promise conn opt base req w :
  http_ready conn opt base w -> 0 <= content_length req ->
  wp (http_dispatch_file_route conn opt req) (fun r w' =>
    (r = Some (-1) /\ w' = w /\ prefixb (bs "/api/files/") (path req) = false) \/
    http_promise base r w w') w.
Proof.
  intros Hready Hlen. pose proof Hready as [Hc Hb Hfds Hs Hk _ _]. unfold http_dispatch_file_route.
  destruct (prefixb (bs "/api/files/") (path req)); cbn [negb]; [|wp_step; by left].
  destruct (http_route_name req) as [name|] eqn:En;
    apply (promise_right (fun r w' => r = Some (-1) /\ w' = w /\ _ = false)); cycle 1.
  { by apply http_error_promise; [|by_decision|by vm_compute|lia]. }
  wp_step.
  { apply wp_finished. wp_use http_send_file_spec; [done|done|done|done|].
    intros r w' [[(text & _ & Hio & Hrel & _ & Hr & _)|(_ & c & m & _ & Hio & Hrel & _ & Hr & _)] _];
      by apply released_promise. }
  wp_step.
  { apply wp_finished. wp_use http_handle_file_put_spec; [done|done|done|by eapply route_name_small|done|done|].
    intros r w' (Hio & H1 & H2 & Hr & Hout & _). split_and!; [done|done| |by eapply put_confined].
    right. destruct Hr as [->| ->]; auto. }
  by apply http_method_not_allowed_promise.
Qed.

Lemma promise_not_minus_one base r w w' : http_promise base r w w' -> bool_decide (r = Some (-1)) = false.
Proof. intros (_ & _ & Hr & _). apply bool_decide_eq_false_2. destruct Hr as [->|[->| ->]]; done. Qed.

Lemma if_some {A} (b : bool) (o : option A) x :
  (if b then o else None) = Some x -> b = true /\ o = Some x.
Proof. by destruct b. Qed.

Lemma http_handle_request_promise rounds conn opt base req w :
  http_ready conn opt base w -> 0 <= content_length req ->
  wp (http_handle_request rounds conn opt req) (fun r w' => http_promise base r w w') w.
Proof.
  intros Hready Hlen. unfold http_handle_request.
  destruct (if streq (method req) (bs "GET") then webui_find_asset (path req) else None)
    as [asset|] eqn:Ea.
  { apply if_some in Ea as [_ Ea]. apply webui_find_asset_in in Ea as [[Hbody Htype]%webui_asset_small _].
    apply wp_finished. unfold http_handle_webui_asset. wp_use http_send_response_spec.
    - unfold status_ok. split_and!; [lia|lia|by vm_compute|done].
    - unfold object_size. lia.
    - intros r w' (Hf & _ & Hr & _). apply http_promise_net; [apply Hready|done|done]. }
  unfold http_dispatch, http_dispatch_exact_route. wp_step.
  wp_use http_dispatch_routes_promise; [done|by apply http_exact_routes_promise|].
  intros r w1 [[-> ->]|Hp]; cycle 1.
  { rewrite (promise_not_minus_one _ _ _ _ Hp). cbn [negb]. by wp_step. }
  change (negb (bool_decide (Some (-1) = Some (-1)))) with false. cbv iota. wp_step.
  wp_use http_dispatch_file_route_promise; [done|done|].
  intros r w2 [(-> & -> & _)|Hp]; cycle 1.
  { rewrite (promise_not_minus_one _ _ _ _ Hp). cbn [negb]. by wp_step. }
  change (negb (bool_decide (Some (-1) = Some (-1)))) with false. cbv iota.
  by apply http_error_promise; [apply Hready|by_decision|by vm_compute|lia].
Qed.

Lemma handle_http_connection_promise rounds conn opt base w :
  http_ready conn opt base w ->
  wp (handle_http_connection rounds conn opt) (fun r w' => http_promise base r w w') w.
Proof.
  intros Hready. unfold handle_http_connection. wp_step. wp_use http_read_header_block_spec; [done|].
  intros [r hdr] w1 (Hf & _ & Hin & Hr & _). pose proof (http_ready_net _ _ _ _ _ Hready Hf) as Hready1.
  assert (Hafter : forall m, wp m (fun r w' => http_promise base r w1 w') w1 ->
    wp m (fun r w' => http_promise base r w w') w1).
  { intros m H. eapply wp_mono; [exact H|]. intros x w'. by apply (http_promise_after base x hdr). }
  apply Hafter. clear Hafter.
  assert (Hstop : wp (ret (Some 1)) (fun r w' => http_promise base r w1 w') w1).
  { wp_step. apply http_promise_net; [apply Hready1|done|by right]. }
  wp_step; [done|]. wp_step; [done|]. wp_step.
  { by apply http_error_promise; [apply Hready1|by_decision|by vm_compute|lia]. }
  destruct (http_parse_request (hdr ++ [0])) as [e|req] eqn:Ep.
  - wp_step; by apply http_error_promise; [apply Hready1|by_decision|by vm_compute|lia].
  - apply http_handle_request_promise; [done|]. by eapply http_parse_request_length.
Qed.

(** *** Routing *)

Lemma http_handle_request_route rounds conn opt base req w :
  http_ready conn opt base w -> 0 <= content_length req ->
  http_handle_request rounds conn opt req w =
    run_route rounds conn opt req (route_of (method req) (path req)) w.
Proof.
  intros Hready Hlen. unfold http_handle_request, route_of.
  destruct (if streq (method req) (bs "GET") then webui_find_asset (path req) else None)
    as [asset|] eqn:Ea; [done|].
  unfold http_dispatch.
  assert (Hkeep : forall (m : M (option Z)) (f : option Z -> M (option Z)),
    wp m (fun r w' => http_promise base r w w') w ->
    (let! r := m in if negb (bool_decide (r = Some (-1))) then ret r else f r) w = m w).
  { intros m f H. unfold wp in H. unfold bind. destruct (m w) as [[r w']|] eqn:E; [|done].
    by rewrite (promise_not_minus_one base r w w'). }
  pose proof (http_exact_routes_promise rounds conn opt base req w Hready Hlen) as Hex.
  pose proof (fun b => http_method_not_allowed_promise b conn w (hr_fds _ _ _ _ Hready)) as H405.
  unfold http_dispatch_exact_route, http_exact_routes in *.
  rewrite !Forall_cons in Hex. destruct Hex as (H1 & H2 & H3 & H4 & _).
  cbn [http_dispatch_routes rt_path rt_method rt_handler] in *.
  destruct (streq (path req) (bs "/api/files")); cbn [negb].
  { destruct (streq (method req) (bs "GET")); cbn [negb]; by rewrite Hkeep. }
  destruct (streq (path req) (bs "/api/messages")); cbn [negb].
  { destruct (streq (method req) (bs "POST")); cbn [negb]; by rewrite Hkeep. }
  destruct (streq (path req) (bs "/api/messages/latest")); cbn [negb].
  { destruct (streq (method req) (bs "GET")); cbn [negb]; by rewrite Hkeep. }
  destruct (streq (path req) (bs "/api/messages/stream")); cbn [negb].
  { destruct (streq (method req) (bs "GET")); cbn [negb]; by rewrite Hkeep. }
  change ((let! route_res := http_dispatch_file_route conn opt req in
    if negb (bool_decide (route_res = Some (-1))) then ret route_res
    else finished (http_send_json_error conn 404 (bs "Not Found") (bs "route not found"))) w =
    run_route rounds conn opt req
      (if prefixb (bs "/api/files/") (path req) then
        match http_decode_name (drop 11 (path req)) HF_HTTP_PATH_MAX with
        | None => RouteRefused 400 (bs "Bad Request") (bs "invalid file name")
        | Some out =>
            if streq (method req) (bs "GET") then RouteGet (cstr (out ++ [0]))
            else if streq (method req) (bs "PUT") then RoutePut (cstr (out ++ [0])) else route_not_allowed
        end
      else RouteRefused 404 (bs "Not Found") (bs "route not found")) w).
  pose proof (http_dispatch_file_route_promise conn opt base req w Hready Hlen) as Hfile.
  destruct (prefixb (bs "/api/files/") (path req)) eqn:Hp; cycle 1.
  { unfold http_dispatch_file_route. by rewrite Hp. }
  rewrite Hkeep; cycle 1.
  { eapply wp_mono; [exact Hfile|]. intros r w' [(_ & _ & H)|H]; [congruence|done]. }
  unfold http_dispatch_file_route. rewrite Hp. cbn [negb]. unfold http_route_name.
  destruct (http_decode_name (drop 11 (path req)) HF_HTTP_PATH_MAX) as [out|]; cbn [fmap option_fmap option_map];
    [|done].
  by repeat case_match.
Qed.

(** *** A connection on which nothing fails *)

Lemma http_connection_calm rounds conn opt base m p q hs body w Q :
  http_ready conn opt base w -> request_sent m p q hs body w -> w_faults w = [] ->
  (forall w1, http_ready conn opt base w1 -> only_net w w1 -> n_in (w_net w1) = body ->
     n_out (w_net w1) = n_out (w_net w) -> w_faults w1 = [] ->
     wp (run_route rounds conn opt (request_of m p q hs) (route_of m p)) Q w1) ->
  wp (handle_http_connection rounds conn opt) Q w.
Proof.
  intros Hready [Hok Hsize Hin] Hcalm HQ. unfold handle_http_connection. wp_step.
  wp_use http_read_header_block_spec; [done|].
  intros [r hdr] w1 (Hf & Ho & _ & _ & _ & Hlive).
  destruct (Hlive Hcalm _ _ Hin) as (-> & -> & Hrest); [|done|].
  { apply render_request_block; apply Hok. }
  cbv iota beta. change (0 =? -1) with false. change (0 =? 1) with false. change (0 =? 2) with false.
  cbv iota. pose proof (http_parse_request_ok m p q hs [] Hok) as Hp. rewrite Hp.
  pose proof (http_ready_net _ _ _ _ _ Hready Hf) as Hready1.
  unfold wp. erewrite http_handle_request_route; [|done|by eapply http_parse_request_length].
  apply HQ; try done. apply (only_io_no_faults w); [apply Hf|done].
Qed.

(** The routes of the files. *)
Lemma route_of_file m keep name :
  keep 37 = false -> Forall is_char name -> zlen name < HF_HTTP_PATH_MAX ->
  route_of m (bs "/api/files/" ++ percent_encode keep name) =
    if streq m (bs "GET") then RouteGet name
    else if streq m (bs "PUT") then RoutePut name else route_not_allowed.
Proof.
  intros Hk Hb Hl. set (p := bs "/api/files/" ++ percent_encode keep name).
  assert (Hasset : (if streq m (bs "GET") then webui_find_asset p else None) = None).
  { destruct (if streq m (bs "GET") then webui_find_asset p else None) as [a|] eqn:E; [|done].
    apply if_some in E as [_ E]. apply webui_find_asset_in in E as [Ha Hp].
    assert (Forall (fun a => prefixb (bs "/api") (wa_path a) = false) webui_assets) as H by by_decision.
    rewrite Forall_forall in H. specialize (H _ Ha). by rewrite Hp in H. }
  unfold route_of. rewrite Hasset.
  assert (Hd : http_decode_name (drop 11 p) HF_HTTP_PATH_MAX = Some name).
  { unfold http_decode_name. change (HF_HTTP_PATH_MAX =? 0) with false. cbv iota.
    change (drop 11 p) with (percent_encode keep name). apply decode_percent_encode; [|done|done].
    eapply Forall_impl; [exact Hb|]. unfold is_char, is_byte. lia. }
  rewrite Hd, cstr_app_nul by done.
  assert (Hs : forall x, prefixb (bs "/api/files/") x = false -> streq p x = false).
  { intros x Hx. apply bool_decide_eq_false_2. intros <-. done. }
  rewrite !Hs by done. change (prefixb (bs "/api/files/") p) with true. cbv iota.
  by repeat case_match.
Qed.

(** The routes of the messages. *)
Lemma route_of_post : route_of (bs "POST") (bs "/api/messages") = RoutePost.
Proof. reflexivity. Qed.
Lemma route_of_latest : route_of (bs "GET") (bs "/api/messages/latest") = RouteLatest.
Proof. reflexivity. Qed.

(** A download on a connection on which nothing fails. *)
Lemma http_get_calm rounds conn opt base keep name hs rest c m w :
  http_ready conn opt base w -> w_faults w = [] -> keep 37 = false -> Forall is_char name ->
  zlen name < HF_HTTP_PATH_MAX -> relative_path_ok name -> zlen (entry_path base name) < PATH_CAP ->
  f_fs (w_files w) !! entry_path base name = Some (NFile c m) ->
  request_sent (bs "GET") (bs "/api/files/" ++ percent_encode keep name) [] hs rest w ->
  wp (handle_http_connection rounds conn opt) (fun r w' =>
    r = Some 0 /\ said_all (http_file_header (zlen c) (safe_name_of name) ++ c) w w') w.
Proof.
  intros Hready Hcalm Hkeep Hname Hshort Hrel Hcap Hfile Hsent.
  eapply http_connection_calm; [done|done|done|]. intros w4 Hready4 Hf4 Hin4 Hout4 Hcalm4.
  rewrite route_of_file by done. change (streq (bs "GET") (bs "GET")) with true. cbv iota.
  cbn [run_route]. apply wp_finished. destruct Hready4 as [Hc Hb Hfds4 Hsz4 _ _ _].
  wp_use http_send_file_spec; [done|done|done|done|]. intros r w5 (_ & Hget).
  assert (Hfile4 : f_fs (w_files w4) !! entry_path base name = Some (NFile c m)).
  { by destruct Hf4 as [_ ->]. }
  destruct (Hget Hcalm4 Hrel Hcap _ _ Hfile4) as [-> Hall]. split; [done|by eapply said_all_after].
Qed.

(** And a read of the latest message. *)
Lemma http_latest_calm rounds conn opt base hs rest w :
  http_ready conn opt base w -> w_faults w = [] ->
  request_sent (bs "GET") (bs "/api/messages/latest") [] hs rest w ->
  wp (handle_http_connection rounds conn opt) (fun r w' =>
    r = Some 0 /\ said_all (latest_response (ms_message (p_store (w_prog w)))) w w') w.
Proof.
  intros Hready Hcalm Hsent.
  eapply http_connection_calm; [done|done|done|]. intros w4 Hready4 Hf4 Hin4 Hout4 Hcalm4.
  rewrite route_of_latest. cbn [run_route]. apply wp_finished.
  destruct Hready4 as [_ _ _ _ _ Hst4 Hl4]. wp_use http_handle_messages_latest_get_spec; [apply Hst4|done|].
  intros r w5 (text & Hrep & Htext). destruct Htext as [->|[_ ?]]; [|done].
  assert (Hp4 : w_prog w4 = w_prog w) by apply Hf4. rewrite Hp4 in Hrep.
  destruct (replies_said _ _ w _ _ Hout4 Hrep) as [_ Hall].
  destruct Hrep as (_ & _ & _ & _ & _ & H0). rewrite (H0 Hcalm4) in *. split; [done|by apply Hall].
Qed.

Lemma next_connection_ready conn conn' opt base w w1 w2 :
  http_ready conn opt base w -> 0 <= conn' -> next_connection w1 w2 -> w_env w1 = w_env w ->
  fds_ok (w_files w1) -> sizes_fit (f_fs (w_files w1)) ->
  ms_initialized (p_store (w_prog w1)) = true -> 0 <= ms_version (p_store (w_prog w1)) < 2 ^ 64 ->
  message_small (default [] (ms_message (p_store (w_prog w1)))) ->
  http_ready conn' opt base w2.
Proof.
  intros [H1 H2 H3 H4 H5 H6 H7] Hc (E1 & E2 & E3 & E4 & _) Ee Hfd Hs Hi Hv Hl.
  split; rewrite ?E1, ?E2, ?E3, ?Ee; try done. unfold stream_ready. rewrite E2, E4.
  change (sets (others [])) with (@nil bytes). split_and!; [done|lia|simpl; lia|constructor].
Qed.

Lemma stream_ready_version w : stream_ready w ->
  ms_initialized (p_store (w_prog w)) = true /\ 0 <= ms_version (p_store (w_prog w)) < 2 ^ 64.
Proof. intros (H1 & H2 & H3 & _). split; [done|lia]. Qed.

(** *** Routes that change nothing *)

Definition safe_route (route : http_route) : Prop :=
  match route with
  | RouteAsset asset => asset ∈ webui_assets
  | RoutePost | RoutePut _ => False
  | RouteRefused status reason message =>
      status_ok status reason content_type_json /\ zlen message < 2 ^ 50 /\ 400 <= status < 600
  | _ => True
  end.

Lemma refused_safe status reason message :
  status_ok status reason content_type_json /\ zlen message < 2 ^ 50 /\ 400 <= status < 600 ->
  safe_route (RouteRefused status reason message).
Proof. done. Qed.

Ltac refused := apply refused_safe; split; [by_decision|split; [by vm_compute|lia]].

Lemma route_of_safe m p :
  streq m (bs "PUT") = false -> streq m (bs "POST") = false -> safe_route (route_of m p).
Proof.
  intros Hput Hpost. unfold route_of. rewrite Hput, Hpost.
  destruct (if streq m (bs "GET") then webui_find_asset p else None) as [a|] eqn:Ea.
  { apply if_some in Ea as [_ Ea]. by apply webui_find_asset_in in Ea as [Ha _]. }
  assert (Hna : safe_route route_not_allowed) by refused.
  repeat case_match; first [exact I|exact Hna|refused].
Qed.

Lemma safe_route_spec rounds conn opt base req route w :
  http_ready conn opt base w -> safe_route route ->
  wp (run_route rounds conn opt req route) (fun r w' => exists used,
    f_fs (w_files w') = f_fs (w_files w) /\ f_fds (w_files w') = f_fds (w_files w) /\
    w_waits w = used ++ w_waits w' /\
    p_store (w_prog w') = run_acts (others used) (p_store (w_prog w))) w.
Proof.
  intros Hready Hsafe. pose proof Hready as [Hc Hb Hfds Hs _ Hst Hl].
  assert (Hnet : forall w', only_net w w' -> exists used,
    f_fs (w_files w') = f_fs (w_files w) /\ f_fds (w_files w') = f_fds (w_files w) /\
    w_waits w = used ++ w_waits w' /\
    p_store (w_prog w') = run_acts (others used) (p_store (w_prog w))).
  { intros w' [(_ & Hp & Hw & _) Hf]. exists []. by rewrite Hp, Hw, Hf. }
  destruct route as [a| | | | |name|name|status reason message]; cbn [run_route];
    [| |destruct Hsafe| | | |destruct Hsafe|].
  - destruct (webui_asset_small _ Hsafe) as [Hbody Htype].
    apply wp_finished. wp_use http_send_response_spec.
    + unfold status_ok. split_and!; [lia|lia|by vm_compute|done].
    + unfold object_size. lia.
    + intros r w' (Hf & _). by apply Hnet.
  - apply wp_finished. wp_use http_handle_files_list_spec; [done|done|].
    intros r w' (text & (Hf & _) & _). by apply Hnet.
  - apply wp_finished. wp_use http_handle_messages_latest_get_spec; [apply Hst|done|].
    intros r w' (text & (Hf & _) & _). by apply Hnet.
  - wp_use http_handle_messages_stream_spec; [done|done|].
    intros r w' ((used & events & Hw & Hp & (_ & Hfs & _) & _) & _). exists used. by rewrite Hfs.
  - apply wp_finished. wp_use http_send_file_spec; [done|done|done|done|].
    intros r w' [[(text & _ & (_ & Hp & Hw & _) & (H1 & H2 & _) & _)|
                  (_ & c & m & _ & (_ & Hp & Hw & _) & (H1 & H2 & _) & _)] _];
      exists []; by rewrite Hp, Hw.
  - destruct Hsafe as (H1 & H2 & H3). apply wp_finished, http_send_error_spec; [done|done|done|].
    intros text r w' _ (Hf & _). by apply Hnet.
Qed.

(** ** Properties *)


Definition demo_http_opt : server_opt_t := ServerOpt (Some (bs "d")) 9000 0.

Definition demo_request (body : bytes) : bytes :=
  render_request (bs "PUT") (bs "/api/files/a%2fb") demo_headers ++ body.

Lemma demo_http_ready faults input :
  http_ready 4 demo_http_opt (bs "d") (demo_world faults input (demo_files demo_http_fs)).
Proof.
  split; [lia|done|apply demo_files_ok| |done| |by vm_compute].
  - apply sizes_fit_intro. vm_compute. reflexivity.
  - split_and!; [done|simpl; lia|by vm_compute|constructor].
Qed.


(** C21: routing is by method and path: handling a parsed request is what the table
    [route_of] says -- the page's files, the four exact routes, a name under
    "/api/files/" that can be decoded, and otherwise the errors 405, 400 and 404
    -- in every state a connection is accepted in; the dispatchers' "no route"
    value never is a handler's result. *)
Theorem http_routing_exact rounds conn opt base req w
    (Hready : http_ready conn opt base w) (Hlen : 0 <= content_length req) :
  http_handle_request rounds conn opt req w =
    run_route rounds conn opt req (route_of (method req) (path req)) w.
Proof. by eapply http_handle_request_route. Qed.

Lemma http_routing_exact_witness :
  let w := demo_world [] [] (demo_files demo_http_fs) in
  let req := demo_get (bs "/api/files/%61") [] in
  http_handle_request 1 4 demo_http_opt req w =
    run_route 1 4 demo_http_opt req (RouteGet (bs "a")) w.
Proof. apply (http_routing_exact 1 4 demo_http_opt (bs "d")); [apply demo_http_ready|simpl; lia]. Defined.

(** Only PUT and POST change anything: a request with any other method changes
    no file, leaks no descriptor, and leaves the message as it is but for what
    other threads store while the request waits for updates. *)
Theorem http_safe_methods rounds conn opt base req w
    (Hready : http_ready conn opt base w) (Hlen : 0 <= content_length req)
    (Hput : method req <> bs "PUT") (Hpost : method req <> bs "POST") :
  wp (http_handle_request rounds conn opt req) (fun r w' => exists used,
    f_fs (w_files w') = f_fs (w_files w) /\ f_fds (w_files w') = f_fds (w_files w) /\
    w_waits w = used ++ w_waits w' /\
    p_store (w_prog w') = run_acts (others used) (p_store (w_prog w))) w.
Proof.
  unfold wp. erewrite http_handle_request_route by done. eapply safe_route_spec; [done|].
  apply route_of_safe; by apply bool_decide_eq_false_2.
Qed.

Lemma http_safe_methods_witness :
  let w := demo_world [FShort 3] [] (demo_files demo_http_fs) in
  wp (http_handle_request 2 4 demo_http_opt (demo_get (bs "/api/files/a") [])) (fun r w' => exists used,
    f_fs (w_files w') = f_fs (w_files w) /\ f_fds (w_files w') = f_fds (w_files w) /\
    w_waits w = used ++ w_waits w' /\
    p_store (w_prog w') = run_acts (others used) (p_store (w_prog w))) w.
Proof.
  apply (http_safe_methods 2 4 demo_http_opt (bs "d"));
    [apply demo_http_ready|simpl; lia|discriminate|discriminate].
Defined.

(** C3: what is put is what is got: when nothing fails, a client that sends PUT
    for a percent-encoded name with a body of the announced length receives a
    201 with the stored file's description, and the next connection's GET for
    that name -- however its client encodes it -- receives a header with the
    size and then exactly those bytes. *)
Theorem http_put_then_get rounds rounds' conn conn' opt base keep keep' name hs hs' data rest rest' w
    (Hready : http_ready conn opt base w) (Hconn : 0 <= conn') (Hcalls : w_faults w = [])
    (Hkeep : keep 37 = false) (Hkeep' : keep' 37 = false)
    (Hname : Forall is_char name) (Hshort : zlen name < HF_HTTP_PATH_MAX)
    (Hroom : upload_ready base name PATH_CAP w)
    (Hsent : request_sent (bs "PUT") (bs "/api/files/" ++ percent_encode keep name) [] hs (data ++ rest) w)
    (Hallowed : put_allowed (request_of (bs "PUT") (bs "/api/files/" ++ percent_encode keep name) [] hs))
    (Hlen : content_length (request_of (bs "PUT") (bs "/api/files/" ++ percent_encode keep name) [] hs) =
      zlen data) :
  wp (handle_http_connection rounds conn opt) (fun r w1 =>
    r = Some 0 /\ n_in (w_net w1) = rest /\
    (exists m, said_all (stored_response name (info_of (NFile data m))) w w1) /\
    forall w2, next_connection w1 w2 ->
      request_sent (bs "GET") (bs "/api/files/" ++ percent_encode keep' name) [] hs' rest' w2 ->
      wp (handle_http_connection rounds' conn' opt) (fun r w3 =>
        r = Some 0 /\ said_all (http_file_header (zlen data) (safe_name_of name) ++ data) w2 w3) w2) w.
Proof.
  eapply http_connection_calm; [done|done|done|]. intros w1 Hready1 Hf1 Hin1 Hout1 Hcalm1.
  rewrite route_of_file by done. change (streq (bs "PUT") (bs "GET")) with false.
  change (streq (bs "PUT") (bs "PUT")) with true. cbv iota. cbn [run_route]. apply wp_finished.
  destruct Hready1 as [_ Hb Hfds Hsz Hk Hst Hl].
  assert (Hroom1 : upload_ready base name PATH_CAP w1).
  { destruct Hf1 as [(He & _) Hw]. revert Hroom. unfold upload_ready, upload_temp. by rewrite He, Hw. }
  wp_use http_handle_file_put_spec; [apply Hready|done|rewrite Hlen; lia|
    unfold HF_HTTP_PATH_MAX in Hshort; lia|done|done|].
  intros r w2 (Hio & Hfd & Hok & _ & _ & Hdone). rewrite Hlen, Hin1 in Hdone.
  destruct (Hdone Hcalm1 Hallowed Hroom1 ltac:(len_lia)) as (-> & Hin2 & m & Hfs & Hsaid).
  rewrite Hin1 in Hin2, Hfs, Hsaid. rewrite ztake_app_exact in Hfs, Hsaid by done.
  rewrite zdrop_app_exact in Hin2 by done.
  split_and!; [done|done|exists m; by eapply said_all_after|].
  intros w3 Hnext Hsent3. pose proof Hnext as (E1 & E2 & E3 & E4 & E5).
  assert (Hsizes : sizes_fit (f_fs (w_files w2))).
  { intros p c k. rewrite Hfs. destruct (decide (p = entry_path base name)) as [->|Hne].
    - rewrite lookup_insert_eq. intros [= -> ->]. destruct Hallowed as (_ & _ & Hmax & _).
      rewrite Hlen in Hmax. unfold HF_HTTP_UPLOAD_MAX in Hmax. lia.
    - rewrite lookup_insert_ne by done. apply Hsz. }
  assert (Hready3 : http_ready conn' opt base w3).
  { eapply (next_connection_ready conn conn' opt base w w2); try done.
    - destruct Hio as (He2 & _), Hf1 as [(He1 & _) _]. by rewrite He2.
    - destruct Hio as (_ & Hp & _). rewrite Hp. by apply stream_ready_version.
    - destruct Hio as (_ & Hp & _). rewrite Hp. by apply stream_ready_version.
    - destruct Hio as (_ & Hp & _). by rewrite Hp. }
  destruct Hroom as (Hrel & _ & Hcap & _).
  assert (Hne : name <> []) by (intros ->; by apply fs_validate_relative_path_iff in Hrel).
  wp_use (http_get_calm rounds' conn' opt base keep' name hs' rest' data m); try done.
  - by destruct name.
  - by rewrite E1, Hfs, lookup_insert_eq.
Qed.

Definition demo_name_path : bytes := bs "/api/files/" ++ percent_encode isdigit (bs "f").

Lemma demo_put_ok : request_ok (bs "PUT") demo_name_path [] demo_headers.
Proof. concrete_request. Qed.

Lemma demo_get_ok : request_ok (bs "GET") demo_name_path [] [].
Proof. concrete_request. Qed.

Lemma demo_put_ready input :
  upload_ready (bs "d") (bs "f") PATH_CAP (demo_world [] input (demo_files demo_http_fs)).
Proof.
  unfold upload_ready. split; [apply fs_validate_relative_path_iff; reflexivity|].
  split; [by vm_compute|]. split; [by vm_compute|]. split; [by vm_compute|].
  split; [intros m; by vm_compute|]. exists 0. split; [lia|by vm_compute].
Qed.

Lemma http_put_then_get_witness :
  let w := demo_world [] (render_request (bs "PUT") demo_name_path demo_headers ++ [1; 2; 3] ++ [])
             (demo_files demo_http_fs) in
  wp (handle_http_connection 1 4 demo_http_opt) (fun r w1 =>
    r = Some 0 /\ n_in (w_net w1) = [] /\
    (exists m, said_all (stored_response (bs "f") (info_of (NFile [1; 2; 3] m))) w w1) /\
    forall w2, next_connection w1 w2 ->
      request_sent (bs "GET") demo_name_path [] [] [] w2 ->
      wp (handle_http_connection 1 5 demo_http_opt) (fun r w3 =>
        r = Some 0 /\ said_all (http_file_header 3 (safe_name_of (bs "f")) ++ [1; 2; 3]) w2 w3) w2) w.
Proof.
  apply (http_put_then_get 1 1 4 5 demo_http_opt (bs "d") isdigit isdigit (bs "f") demo_headers []
    [1; 2; 3] [] []); [apply demo_http_ready|lia|reflexivity|reflexivity|reflexivity|
    by_decision|by vm_compute| | | |reflexivity].
  - apply demo_put_ready.
  - split; [apply demo_put_ok|by vm_compute|reflexivity].
  - unfold put_allowed. split; [by vm_compute|]. split; [by vm_compute|]. split; [by vm_compute|by vm_compute].
Defined.


Definition demo_post_headers : list (bytes * bytes) :=
  [(bs "Content-Length", udec (zlen demo_message_body)); (bs "CONTENT-TYPE", bs "application/json")].

