(* ===== verification/Server.v ===== *)
(** * The protocol side of the server (src/server.c)

    What one connection thread does: telling the protocol from HTTP by the first
    bytes, reading the header, and the three handlers -- storing a text message,
    receiving a file, sending a file -- with the response frames they send. The
    pointers to the header and to the options are addresses of the thread's own
    variables, so the guards on them are left out. *)

From S2P Require Import Prelude CLib World Logic Fs Net Protocol TransferIo MessageStore Cli.
From S2P Require Import AppService.

(** ** Definitions *)

Inductive server_conn_kind_t :=
  | SERVER_CONN_KIND_INVALID
  | SERVER_CONN_KIND_PROTOCOL
  | SERVER_CONN_KIND_HTTP.

Definition server_detect_connection_kind (conn : Z) : M server_conn_kind_t :=
  let! (n, buf) := sys_recv_peek conn 8 in
  if n <? 0 then ret SERVER_CONN_KIND_INVALID
  else if n <? 2 then ret SERVER_CONN_KIND_INVALID
  else if (nth 0 buf 0 =? u8 (Z.shiftr HF_PROTOCOL_MAGIC 8)) &&
          (nth 1 buf 0 =? u8 (Z.land HF_PROTOCOL_MAGIC 255)) then ret SERVER_CONN_KIND_PROTOCOL
  else if (65 <=? nth 0 buf 0) && (nth 0 buf 0 <=? 90) then ret SERVER_CONN_KIND_HTTP
  else ret SERVER_CONN_KIND_PROTOCOL.

Definition server_send_response (conn phase status : Z) (error_code : protocol_result_t)
    : M protocol_result_t :=
  send_res_frame conn (Some (ResFrame phase status (u16 (result_code error_code)))).

(** What follows the label [SEND_RESPONSE]. *)
Definition text_message_response (conn status : Z) (result : protocol_result_t) : M Z :=
  let! _ := server_send_response conn PROTO_PHASE_FINAL status result in
  ret (if result_ok result then 0 else 1).

Definition server_handle_text_message (conn : Z) (proto_header : protocol_header_t) : M Z :=
  if HF_PROTOCOL_MAX_TEXT_MESSAGE_SIZE <? payload_size proto_header then
    text_message_response conn PROTO_STATUS_FAILED PROTOCOL_ERR_MSG_TOO_LARGE
  else
    let message_len := payload_size proto_header in
    let! allocated := sys_malloc in
    if negb allocated then text_message_response conn PROTO_STATUS_FAILED PROTOCOL_ERR_ALLOC
    else
      let! (n, message) := (if 0 <? message_len then recv_all conn message_len else ret (0, [])) in
      if negb (n =? message_len) then
        text_message_response conn PROTO_STATUS_FAILED
          (if n <? 0 then PROTOCOL_ERR_IO else PROTOCOL_ERR_EOF)
      else
        let! result := app_submit_message (Some (cstr (message ++ [0]))) in
        if negb (result_ok result) then text_message_response conn PROTO_STATUS_FAILED result
        else text_message_response conn PROTO_STATUS_OK PROTOCOL_OK.

(** What follows the label [SEND_READY_REJECT]. *)
Definition send_ready_reject (conn : Z) (result : protocol_result_t) : M protocol_result_t :=
  let! _ := server_send_response conn PROTO_PHASE_READY PROTO_STATUS_REJECTED result in
  ret result.

Definition server_handle_file_transfer (conn : Z) (ser_opt : server_opt_t)
    (proto_header : protocol_header_t) : M protocol_result_t :=
  if payload_size proto_header <? proto_file_transfer_prefix_size 1 then
    send_ready_reject conn PROTOCOL_ERR_INVALID_ARGUMENT
  else
    let! (result, file_name, content_size) := proto_recv_file_transfer_prefix conn in
    if negb (result_ok result) then ret result
    else if negb (fs_validate_file_name file_name =? 0) then
      send_ready_reject conn PROTOCOL_ERR_INVALID_FILE_NAME
    else
      let prefix_size :=
        proto_file_transfer_prefix_size (u16 (strlen (default [] file_name))) in
      if negb (payload_size proto_header =? u64 (prefix_size + content_size)) then
        send_ready_reject conn PROTOCOL_ERR_PAYLOAD_SIZE_MISMATCH
      else
        let! result := server_send_response conn PROTO_PHASE_READY PROTO_STATUS_OK PROTOCOL_OK in
        if negb (result_ok result) then ret result
        else
          let! (result, saved_path) :=
            app_receive_file conn (s_path ser_opt) file_name content_size APP_UPLOAD_PROTOCOL
              PATH_CAP in
          if negb (result_ok result) then
            let! _ := server_send_response conn PROTO_PHASE_FINAL PROTO_STATUS_FAILED result in
            ret result
          else server_send_response conn PROTO_PHASE_FINAL PROTO_STATUS_OK PROTOCOL_OK.

(** What follows the label [SEND_FINAL_FAILED]. *)
Definition send_final_failed (conn : Z) (result : protocol_result_t) : M protocol_result_t :=
  let! _ := server_send_response conn PROTO_PHASE_FINAL PROTO_STATUS_FAILED result in
  ret result.

(** From the open file on: the ready frame with the prefix, the contents, the
    final frame. *)
Definition send_download (conn : Z) (file_name : bytes) (download : app_download_t)
    : M protocol_result_t :=
  let prefix_size := proto_file_transfer_prefix_size (u16 (strlen file_name)) in
  let '(result, ready_prefix_buf) :=
    encode_res_frame (Some (ResFrame PROTO_PHASE_READY PROTO_STATUS_OK (result_code PROTOCOL_OK))) in
  if negb (result_ok result) then ret result
  else
    let '(result, prefix_buf) := encode_file_prefix (Some file_name) (download_size download) in
    if negb (result_ok result) then send_final_failed conn result
    else
      let ready_prefix_buf := ready_prefix_buf ++ ztake prefix_size prefix_buf in
      let! result :=
        proto_send_payload conn
          (Some (ztake (HF_PROTOCOL_RES_FRAME_SIZE + prefix_size) ready_prefix_buf)) in
      if negb (result_ok result) then ret result
      else
        let! send_res := net_send_file_best_effort conn (fd download) (download_size download) in
        if negb (bool_decide (send_res = NET_SEND_FILE_OK)) then
          send_final_failed conn PROTOCOL_ERR_IO
        else server_send_response conn PROTO_PHASE_FINAL PROTO_STATUS_OK PROTOCOL_OK.

Definition server_handle_get_file (conn : Z) (ser_opt : server_opt_t)
    (proto_header : protocol_header_t) : M protocol_result_t :=
  if payload_size proto_header <? proto_file_name_only_size 1 then
    send_ready_reject conn PROTOCOL_ERR_INVALID_ARGUMENT
  else
    let! (result, file_name) := proto_recv_file_name_only conn in
    let! (result, download) :=
      (if negb (result_ok result) then
         let! r := send_ready_reject conn result in ret (r, download_none)
       else if negb (fs_validate_file_name file_name =? 0) then
         let! r := send_ready_reject conn PROTOCOL_ERR_INVALID_FILE_NAME in ret (r, download_none)
       else if negb (payload_size proto_header =?
                     proto_file_name_only_size (u16 (strlen (default [] file_name)))) then
         let! r := send_ready_reject conn PROTOCOL_ERR_PAYLOAD_SIZE_MISMATCH in
         ret (r, download_none)
       else
         let! (result, download) := app_prepare_download (s_path ser_opt) file_name download_none in
         if negb (result_ok result) then
           let! r := send_ready_reject conn
             (if bool_decide (result = PROTOCOL_ERR_IO) then PROTOCOL_ERR_INVALID_ARGUMENT
              else result) in
           ret (r, download)
         else
           let! r := send_download conn (default [] file_name) download in ret (r, download)) in
    let! _ := app_download_cleanup download in
    ret result.

(** The [switch] over the message type. *)
Definition handle_message (conn : Z) (ser_opt : server_opt_t) (proto_header : protocol_header_t)
    : M Z :=
  if Protocol.msg_type proto_header =? HF_MSG_TYPE_TEXT_MESSAGE then
    server_handle_text_message conn proto_header
  else if Protocol.msg_type proto_header =? HF_MSG_TYPE_SEND_FILE then
    let! r := server_handle_file_transfer conn ser_opt proto_header in
    ret (if result_ok r then 0 else 1)
  else if Protocol.msg_type proto_header =? HF_MSG_TYPE_GET_FILE then
    let! r := server_handle_get_file conn ser_opt proto_header in
    ret (if result_ok r then 0 else 1)
  else ret 1.

(** The exit code of the connection: 0 or 1. *)
Definition handle_protocol_connection (conn : Z) (ser_opt : server_opt_t) : M Z :=
  let! (prefix_res, header_buf) := recv_header conn in
  if negb (result_ok prefix_res) then ret 1
  else
    let '(prefix_res, proto_header) := decode_header (Header 0 0 0 0 0) header_buf in
    if negb (result_ok prefix_res) then ret 1
    else handle_message conn ser_opt proto_header.

(** *** Specifications *)

(** The four response frames the handlers send. *)
Definition reply_ready_ok : bytes := [0; 0; 0; 0].
Definition reply_final_ok : bytes := [1; 0; 0; 0].
Definition reply_rejected (e : protocol_result_t) : bytes := [0; 1; 0; result_code e].
Definition reply_failed (e : protocol_result_t) : bytes := [1; 2; 0; result_code e].

(** What receiving a file may come to, whatever the network and the file system
    do: nothing was read, the request was refused, the peer could not be told to
    go on, the upload failed -- no file changed, at worst a temporary file stays
    -- or the file is stored. The final OK frame is only sent in the last case. *)
Inductive file_transfer_outcome (base : bytes) (h : protocol_header_t) (w w' : world)
    : protocol_result_t -> Prop :=
  | ft_unread r : r <> PROTOCOL_OK -> f_fs (w_files w') = f_fs (w_files w) ->
      said_all [] w w' -> file_transfer_outcome base h w w' r
  | ft_rejected e : e <> PROTOCOL_OK -> f_fs (w_files w') = f_fs (w_files w) ->
      said (reply_rejected e) w w' -> file_transfer_outcome base h w w' e
  | ft_not_ready r : r <> PROTOCOL_OK -> f_fs (w_files w') = f_fs (w_files w) ->
      said reply_ready_ok w w' -> file_transfer_outcome base h w w' r
  | ft_failed e name d : e <> PROTOCOL_OK -> file_name_ok name ->
      (f_fs (w_files w') = f_fs (w_files w) \/
       w_faults w <> [] /\ exists k m, 0 <= k < 3 /\
         f_fs (w_files w) !! upload_temp w base name k = None /\
         f_fs (w_files w') = <[upload_temp w base name k := NFile d m]> (f_fs (w_files w))) ->
      (exists s, s `prefix_of` reply_failed e /\ said_all (reply_ready_ok ++ s) w w') ->
      file_transfer_outcome base h w w' e
  | ft_stored r raw d m : name_length_ok raw -> file_name_ok (cstr raw) ->
      n_in (w_net w) = prefix_wire raw (zlen d) ++ d ++ n_in (w_net w') ->
      payload_size h = u64 (proto_file_transfer_prefix_size (strlen (cstr raw)) + zlen d) ->
      f_fs (w_files w') = <[entry_path base (cstr raw) := NFile d m]> (f_fs (w_files w)) ->
      (exists s, s `prefix_of` reply_final_ok /\ said_all (reply_ready_ok ++ s) w w' /\
         (r = PROTOCOL_OK -> s = reply_final_ok)) ->
      file_transfer_outcome base h w w' r.

(** What may have been sent of the file [c] named [name]: the ready frame and the
    prefix, contents, and the final frame, as far as the connection lasted. *)
Definition download_said (name c : bytes) (r : protocol_result_t) (w w' : world) : Prop :=
  exists d last, d `prefix_of` c /\
    said ((reply_ready_ok ++ prefix_wire name (zlen c)) ++ d ++ last) w w' /\
    (r = PROTOCOL_OK /\ d = c /\ last = reply_final_ok /\
       said_all ((reply_ready_ok ++ prefix_wire name (zlen c)) ++ c ++ reply_final_ok) w w' \/
     r <> PROTOCOL_OK /\ (last = [] \/ d = c /\ last = reply_final_ok \/
                          r = PROTOCOL_ERR_IO /\ last = reply_failed r)).

(** What sending a file may come to: the request is refused, or the regular file
    below the base directory is sent, in the order of [download_said]. *)
Inductive get_file_outcome (base : bytes) (h : protocol_header_t) (w w' : world)
    : protocol_result_t -> Prop :=
  | gf_rejected e : e <> PROTOCOL_OK -> said (reply_rejected e) w w' ->
      get_file_outcome base h w w' e
  | gf_sent raw c m r :
      name_length_ok raw -> file_name_ok (cstr raw) ->
      n_in (w_net w) = name_wire raw ++ n_in (w_net w') ->
      payload_size h = proto_file_name_only_size (strlen (cstr raw)) ->
      f_fs (w_files w) !! entry_path base (cstr raw) = Some (NFile c m) ->
      download_said (cstr raw) c r w w' ->
      get_file_outcome base h w w' r.

(** ** Theorems *)

(** *** Responses *)

(** The bytes of a response. *)
Definition reply_bytes (phase status : Z) (r : protocol_result_t) : bytes :=
  [phase; status; 0; result_code r].

Lemma result_code_range r : 0 <= result_code r <= 13.
Proof. destruct r; simpl; lia. Qed.

Lemma server_send_response_spec conn phase status e w :
  0 <= conn -> res_frame_ok (ResFrame phase status (result_code e)) ->
  wp (server_send_response conn phase status e) (fun r w' =>
    only_net w w' /\ n_in (w_net w') = n_in (w_net w) /\
    (w_faults w = [] -> r = PROTOCOL_OK) /\
    said (reply_bytes phase status e) w w' /\
    (r = PROTOCOL_OK -> said_all (reply_bytes phase status e) w w')) w.
Proof.
  intros Hc Hok. unfold server_send_response.
  assert (Hu : u16 (result_code e) = result_code e) by (by destruct e). rewrite Hu.
  wp_use send_res_frame_spec; [done|done|].
  intros r w' (Hf & Hin & H0 & d & rest & Hd & Hout & Hr).
  rewrite (encode_res_frame_ok _ Hok) in Hd. cbn [snd Protocol.phase Protocol.status error_code] in Hd.
  assert (Hd' : reply_bytes phase status e = d ++ rest) by (rewrite <- Hd; by destruct e).
  split_and!; try done.
  - exists d. split; [by exists rest|done].
  - intros E. rewrite Hd', (Hr E), app_nil_r. done.
Qed.

Lemma error_code_positive e : e <> PROTOCOL_OK -> 1 <= result_code e <= 13.
Proof. destruct e; try done; simpl; lia. Qed.

Lemma rejected_ok e :
  e <> PROTOCOL_OK -> res_frame_ok (ResFrame PROTO_PHASE_READY PROTO_STATUS_REJECTED (result_code e)).
Proof. intros H%error_code_positive. split; [by left|by right]. Qed.

Lemma failed_ok e :
  e <> PROTOCOL_OK -> res_frame_ok (ResFrame PROTO_PHASE_FINAL PROTO_STATUS_FAILED (result_code e)).
Proof. intros H%error_code_positive. split; [by right|by right]. Qed.

Lemma ready_ok : res_frame_ok (ResFrame PROTO_PHASE_READY PROTO_STATUS_OK (result_code PROTOCOL_OK)).
Proof. split; [by left|by left]. Qed.

Lemma final_ok : res_frame_ok (ResFrame PROTO_PHASE_FINAL PROTO_STATUS_OK (result_code PROTOCOL_OK)).
Proof. split; [by right|by left]. Qed.

#[local] Hint Resolve rejected_ok failed_ok ready_ok final_ok : core.

Lemma send_ready_reject_spec conn e w :
  0 <= conn -> e <> PROTOCOL_OK ->
  wp (send_ready_reject conn e) (fun r w' =>
    r = e /\ only_net w w' /\ n_in (w_net w') = n_in (w_net w) /\
    said (reply_rejected e) w w') w.
Proof.
  intros Hc He. unfold send_ready_reject. wp_step. wp_use server_send_response_spec; [done|auto|].
  intros r w' (Hf & Hin & _ & Hs & _). wp_step. by split_and!.
Qed.

Lemma send_final_failed_spec conn e w :
  0 <= conn -> e <> PROTOCOL_OK ->
  wp (send_final_failed conn e) (fun r w' =>
    r = e /\ only_net w w' /\ n_in (w_net w') = n_in (w_net w) /\
    said (reply_failed e) w w') w.
Proof.
  intros Hc He. unfold send_final_failed. wp_step. wp_use server_send_response_spec; [done|auto|].
  intros r w' (Hf & Hin & _ & Hs & _). wp_step. by split_and!.
Qed.

(** *** Text messages *)

Definition text_reply (e : protocol_result_t) : bytes :=
  if result_ok e then reply_final_ok else reply_failed e.

Lemma text_message_response_spec conn e w :
  0 <= conn ->
  wp (text_message_response conn (if result_ok e then PROTO_STATUS_OK else PROTO_STATUS_FAILED) e)
    (fun rc w' => only_net w w' /\ n_in (w_net w') = n_in (w_net w) /\
       rc = (if result_ok e then 0 else 1) /\ said (text_reply e) w w' /\
       (w_faults w = [] -> said_all (text_reply e) w w')) w.
Proof.
  intros Hc. unfold text_message_response. wp_step. unfold text_reply, result_ok.
  case_bool_decide as He.
  - subst e. wp_use server_send_response_spec; [done|auto|].
    intros r w' (Hf & Hin & H0 & Hs & Hr). wp_step. split_and!; auto.
  - wp_use server_send_response_spec; [done|auto|].
    intros r w' (Hf & Hin & H0 & Hs & Hr). wp_step. split_and!; auto.
Qed.

(** Enough of the message is there, and nothing fails. *)
Definition text_ready (h : protocol_header_t) (w : world) : Prop :=
  w_faults w = [] /\ payload_size h <= HF_PROTOCOL_MAX_TEXT_MESSAGE_SIZE /\
  payload_size h <= zlen (n_in (w_net w)).

(** The message was answered with the result [e]: it is the latest message when
    [e] is [PROTOCOL_OK], and no message is touched otherwise. *)
Definition text_answered_with (h : protocol_header_t) (e : protocol_result_t)
    (w : world) (rc : Z) (w' : world) : Prop :=
  only_message w w' /\ rc = (if result_ok e then 0 else 1) /\
  said (text_reply e) w w' /\ (w_faults w = [] -> said_all (text_reply e) w w') /\
  (e = PROTOCOL_OK -> exists raw, n_in (w_net w) = raw ++ n_in (w_net w') /\
     zlen raw = payload_size h /\ payload_size h <= HF_PROTOCOL_MAX_TEXT_MESSAGE_SIZE /\
     p_store (w_prog w') = store_set (stored_text (cstr raw)) (p_store (w_prog w))) /\
  (e <> PROTOCOL_OK -> p_store (w_prog w') = p_store (w_prog w)) /\
  (text_ready h w -> e = PROTOCOL_OK).

Definition text_answered (h : protocol_header_t) (w : world) (rc : Z) (w' : world) : Prop :=
  exists e, text_answered_with h e w rc w'.

(** Nothing was sent or stored yet. *)
Definition text_unanswered (w w1 : world) : Prop :=
  only_message w w1 /\ n_out (w_net w1) = n_out (w_net w) /\
  (w_faults w = [] -> w_faults w1 = []).

Lemma text_refused_spec conn h e w w1 :
  0 <= conn -> e <> PROTOCOL_OK -> text_unanswered w w1 ->
  p_store (w_prog w1) = p_store (w_prog w) -> ~ text_ready h w ->
  wp (text_message_response conn PROTO_STATUS_FAILED e) (text_answered h w) w1.
Proof.
  intros Hc He (Ho & Hout & Hfl) Hst Hno. pose proof (text_message_response_spec conn e w1 Hc) as H.
  unfold result_ok at 1 in H. rewrite bool_decide_eq_false_2 in H by done.
  eapply wp_mono; [exact H|]. intros rc w' (Hf & _ & Hrc & Hs & Hs0). exists e. split_and!; try done.
  - eapply only_message_trans; [done|by apply only_message_net].
  - by eapply said_after.
  - intros E. eapply said_all_after; [done|auto].
  - intros _. destruct Hf as [(_ & Hpr & _) _]. by rewrite Hpr.
Qed.

(** The whole message was received as [raw]. *)
Lemma text_received_spec conn h raw w w2 :
  0 <= conn -> text_unanswered w w2 -> ms_initialized (p_store (w_prog w)) = true ->
  p_store (w_prog w2) = p_store (w_prog w) -> n_in (w_net w) = raw ++ n_in (w_net w2) ->
  zlen raw = payload_size h -> payload_size h <= HF_PROTOCOL_MAX_TEXT_MESSAGE_SIZE ->
  wp (let! result := app_submit_message (Some (cstr raw)) in
      if negb (result_ok result) then text_message_response conn PROTO_STATUS_FAILED result
      else text_message_response conn PROTO_STATUS_OK PROTOCOL_OK) (text_answered h w) w2.
Proof.
  intros Hc Hun Hi Hst2 Hin Hlen Hle. pose proof Hun as (Ho2 & Hout2 & Hfl2).
  pose proof (cstr_length raw) as Hcl.
  wp_step. wp_use app_submit_message_spec; [by rewrite Hst2|].
  intros e w3 (Ho3 & _ & Hcase & H03). assert (Hn3 : w_net w3 = w_net w2) by apply Ho3.
  assert (Hun3 : text_unanswered w w3).
  { split_and!; [eapply only_message_trans; [done|by apply only_message_store]|by rewrite Hn3|].
    intros E%Hfl2. rewrite no_faults_flen in *. destruct Ho3 as (_ & _ & _ & _ & ?). lia. }
  rewrite Hst2 in Hcase. destruct Hcase as [(-> & _ & Hst3)|[He Hst3]]; cycle 1.
  { unfold result_ok. rewrite bool_decide_eq_false_2 by done. simpl negb. cbv iota.
    apply text_refused_spec; try done. intros (E & ? & ?). apply He, H03; [auto|lia]. }
  change (negb (result_ok PROTOCOL_OK)) with false. cbv iota. destruct Hun3 as (Ho & Hout & Hfl).
  pose proof (text_message_response_spec conn PROTOCOL_OK w3 Hc) as H.
  eapply wp_mono; [exact H|]. intros rc w4 (Hf4 & Hin4 & Hrc & Hs & Hs0).
  exists PROTOCOL_OK. split_and!; try done.
  - eapply only_message_trans; [done|by apply only_message_net].
  - by eapply said_after.
  - intros E. eapply said_all_after; [done|auto].
  - intros _. exists raw. split_and!; [by rewrite Hin4, Hn3|done|done|].
    assert (w_prog w4 = w_prog w3) as -> by frame. done.
Qed.

(** Receiving the bytes of the message, none when it is empty. *)
Lemma text_recv_spec conn len w :
  0 <= conn -> 0 <= len ->
  wp (if 0 <? len then recv_all conn len else ret (0, [])) (fun '(n, b) w2 =>
    only_net w w2 /\ n_in (w_net w) = b ++ n_in (w_net w2) /\ n_out (w_net w2) = n_out (w_net w) /\
    (n = len -> zlen b = len) /\
    (w_faults w = [] -> len <= zlen (n_in (w_net w)) -> n = len)) w.
Proof.
  intros Hc Hl. destruct (Z.ltb_spec 0 len).
  - wp_use recv_exact_spec; [done|]. intros [n b] w2 H2. destruct_and!. by split_and!.
  - wp_step. split_and!; try done; simpl; lia.
Qed.

Lemma server_handle_text_message_spec conn h w :
  0 <= conn -> 0 <= payload_size h -> ms_initialized (p_store (w_prog w)) = true ->
  wp (server_handle_text_message conn h) (text_answered h w) w.
Proof.
  intros Hc Hp Hi. unfold server_handle_text_message.
  destruct (Z.ltb_spec HF_PROTOCOL_MAX_TEXT_MESSAGE_SIZE (payload_size h)) as [Hbig|Hle].
  { apply text_refused_spec; try done. unfold text_ready. lia. }
  wp_step. apply wp_sys_malloc; intros w1 Hf1 H1.
  { simpl negb. cbv iota. assert (w_faults w <> []) as Hne by (rewrite no_faults_flen; lia).
    apply text_refused_spec; try done; [|frame|by intros (? & _)].
    split_and!; [by apply only_message_net, only_errno_net|frame|done]. }
  simpl negb. cbv iota. assert (Hn1 : w_net w1 = w_net w) by apply Hf1.
  assert (Hfl1 : w_faults w = [] -> w_faults w1 = []) by (apply only_io_no_faults; frame).
  wp_step. eapply wp_mono; [by apply text_recv_spec|].
  intros [n b] w2 (Hf2 & Hin & Hout & Hlen & Hn). rewrite Hn1 in *.
  assert (Hun : text_unanswered w w2).
  { split_and!; [apply only_message_net; etrans; [by apply only_errno_net|done]|done|].
    intros E. eapply only_io_no_faults; [apply Hf2|auto]. }
  assert (Hst2 : p_store (w_prog w2) = p_store (w_prog w)).
  { assert (w_prog w2 = w_prog w) as -> by frame. done. }
  destruct (Z.eqb_spec n (payload_size h)) as [->|Hne]; simpl negb; cbv iota; cycle 1.
  { apply text_refused_spec; try done; [by case_match|]. intros (E & _ & Hl). apply Hne, Hn; auto. }
  rewrite cstr_snoc_nul. by apply text_received_spec; auto.
Qed.

(** *** Receiving a file *)

Lemma upload_ready_same base name cap w w' :
  w_env w' = w_env w -> w_files w' = w_files w ->
  upload_ready base name cap w -> upload_ready base name cap w'.
Proof. unfold upload_ready, upload_temp. by intros -> ->. Qed.

Lemma file_name_target base name : file_name_ok name -> target_path base name = entry_path base name.
Proof. intros H%fs_validate_file_name_iff. by destruct name. Qed.

Lemma prefix_size_ok raw :
  name_length_ok raw ->
  proto_file_transfer_prefix_size (u16 (strlen (cstr raw))) =
  proto_file_transfer_prefix_size (strlen (cstr raw)).
Proof.
  intros Hl. unfold strlen, u16. rewrite Z.mod_small; [done|].
  pose proof (cstr_length raw). unfold name_length_ok in Hl. proto_lia.
Qed.

(** The request announces the file [name] with contents [body] and all of it is
    there. *)
Definition upload_request (h : protocol_header_t) (w : world) (name body rest : bytes) : Prop :=
  n_in (w_net w) = prefix_wire name (zlen body) ++ body ++ rest /\
  payload_size h = proto_file_transfer_prefix_size (zlen name) + zlen body /\
  payload_size h < 2 ^ 64 /\
  Forall is_char name /\ file_name_ok name /\ name_length_ok name.

(** What [server_handle_file_transfer] comes to: no descriptor is left open, the
    outcome is one of [file_transfer_outcome], and a whole request for which
    nothing fails is stored. *)
Definition file_transfer_done (base : bytes) (h : protocol_header_t) (w : world)
    (r : protocol_result_t) (w' : world) : Prop :=
  only_io w w' /\ f_fds (w_files w') = f_fds (w_files w) /\ fds_ok (w_files w') /\
  file_transfer_outcome base h w w' r /\
  (w_faults w = [] -> forall name body rest, upload_request h w name body rest ->
     upload_ready base name PATH_CAP w ->
     r = PROTOCOL_OK /\ n_in (w_net w') = rest /\
     said_all (reply_ready_ok ++ reply_final_ok) w w' /\
     exists m, f_fs (w_files w') =
       <[entry_path base name := NFile body m]> (f_fs (w_files w))).

(** The same from the ready frame on, [raw] and [size] read before: the outcome
    is seen from the world [w0] the request started in. *)
Definition upload_body_done (base raw : bytes) (size : Z) (h : protocol_header_t) (w : world)
    (r : protocol_result_t) (w' : world) : Prop :=
  only_io w w' /\ f_fds (w_files w') = f_fds (w_files w) /\ fds_ok (w_files w') /\
  (forall w0, w_files w0 = w_files w -> w_env w0 = w_env w ->
     (w_faults w <> [] -> w_faults w0 <> []) ->
     n_out (w_net w) = n_out (w_net w0) ->
     n_in (w_net w0) = prefix_wire raw size ++ n_in (w_net w) ->
     file_transfer_outcome base h w0 w' r) /\
  (w_faults w = [] -> upload_ready base (cstr raw) PATH_CAP w ->
     size <= zlen (n_in (w_net w)) -> r = PROTOCOL_OK /\
     exists m, n_in (w_net w') = zdrop size (n_in (w_net w)) /\
       said_all (reply_ready_ok ++ reply_final_ok) w w' /\
       f_fs (w_files w') = <[entry_path base (cstr raw) :=
         NFile (ztake size (n_in (w_net w))) m]> (f_fs (w_files w))).

(** The ready frame was sent, [app_receive_file] stored the contents [d]. *)
Lemma upload_stored_spec conn base raw d m h w w2 :
  0 <= conn -> name_length_ok raw -> file_name_ok (cstr raw) ->
  payload_size h = u64 (proto_file_transfer_prefix_size (strlen (cstr raw)) + zlen d) ->
  only_io w w2 -> said_all reply_ready_ok w w2 -> n_in (w_net w) = d ++ n_in (w_net w2) ->
  f_fds (w_files w2) = f_fds (w_files w) -> fds_ok (w_files w2) ->
  f_fs (w_files w2) = <[entry_path base (cstr raw) := NFile d m]> (f_fs (w_files w)) ->
  wp (server_send_response conn PROTO_PHASE_FINAL PROTO_STATUS_OK PROTOCOL_OK)
    (upload_body_done base raw (zlen d) h w) w2.
Proof.
  intros Hc Hraw Hname Hp Hio Hrdy Hin Hfds Hok Hm.
  wp_use server_send_response_spec; [done|auto|].
  intros r w3 (Hf3 & Hin3 & H3 & (s & Hs & Hs3) & Ha3).
  assert (Hw3 : w_files w3 = w_files w2) by frame. unfold upload_body_done. rewrite Hw3.
  split_and!; [etrans; [done|frame]|done|done| |].
  - intros w0 E1 _ _ E2 E3. eapply (ft_stored _ _ _ _ _ raw d m); try done.
    + by rewrite E3, Hin3, Hin.
    + by rewrite Hw3, Hm, E1.
    + destruct (decide (r = PROTOCOL_OK)) as [->|Hr].
      * exists reply_final_ok. split_and!; [done| |done].
        eapply said_all_after; [done|]. eapply said_all_trans; [done|auto].
      * exists s. split_and!; [done| |done]. eapply said_all_after; [done|]. by eapply said_all_trans.
  - intros E _ Hl. assert (r = PROTOCOL_OK) as -> by (apply H3; by eapply only_io_no_faults).
    split; [done|]. exists m. rewrite Hin3, Hin, zdrop_app_exact, ztake_app_exact by done.
    split_and!; [done| |done]. eapply said_all_trans; [done|auto].
Qed.

(** The ready frame was sent, [app_receive_file] failed. *)
Lemma upload_failed_spec conn base raw size h e d w w2 :
  0 <= conn -> e <> PROTOCOL_OK -> file_name_ok (cstr raw) ->
  only_io w w2 -> said_all reply_ready_ok w w2 ->
  f_fds (w_files w2) = f_fds (w_files w) -> fds_ok (w_files w2) ->
  (f_fs (w_files w2) = f_fs (w_files w) \/
   w_faults w <> [] /\ exists k m, 0 <= k < 3 /\
     f_fs (w_files w) !! upload_temp w base (cstr raw) k = None /\
     f_fs (w_files w2) =
       <[upload_temp w base (cstr raw) k := NFile d m]> (f_fs (w_files w))) ->
  ~ (w_faults w = [] /\ upload_ready base (cstr raw) PATH_CAP w /\ size <= zlen (n_in (w_net w))) ->
  wp (let! _ := server_send_response conn PROTO_PHASE_FINAL PROTO_STATUS_FAILED e in ret e)
    (upload_body_done base raw size h w) w2.
Proof.
  intros Hc He Hname Hio Hrdy Hfds Hok Hcase Hno.
  wp_step. wp_use server_send_response_spec; [done|auto|].
  intros r3 w3 (Hf3 & Hin3 & H3 & (s & Hs & Hs3) & Ha3). wp_step.
  assert (Hw3 : w_files w3 = w_files w2) by frame. unfold upload_body_done. rewrite Hw3.
  split_and!; [etrans; [done|frame]|done|done| |].
  - intros w0 E1 E4 E5 E2 E3. eapply (ft_failed _ _ _ _ _ (cstr raw) d); try done.
    + rewrite Hw3, E1. destruct Hcase as [?|(Hne & k & m & Hk)]; [by left|right].
      unfold upload_temp in *. rewrite E4. split; [auto|by exists k, m].
    + exists s. split; [done|]. eapply said_all_after; [done|]. by eapply said_all_trans.
  - intros E Hr Hl. by destruct Hno.
Qed.

(** From the ready frame on. *)
Lemma file_transfer_body_spec conn base raw size h w :
  0 <= conn -> 0 <= size < 2 ^ 64 -> e_splice_direct (w_env w) = false -> fds_ok (w_files w) ->
  name_length_ok raw -> file_name_ok (cstr raw) ->
  payload_size h = u64 (proto_file_transfer_prefix_size (strlen (cstr raw)) + size) ->
  wp (let! result := server_send_response conn PROTO_PHASE_READY PROTO_STATUS_OK PROTOCOL_OK in
      if negb (result_ok result) then ret result
      else
        let! (result, saved_path) :=
          app_receive_file conn (Some base) (Some (cstr raw)) size APP_UPLOAD_PROTOCOL PATH_CAP in
        if negb (result_ok result) then
          let! _ := server_send_response conn PROTO_PHASE_FINAL PROTO_STATUS_FAILED result in
          ret result
        else server_send_response conn PROTO_PHASE_FINAL PROTO_STATUS_OK PROTOCOL_OK)
    (upload_body_done base raw size h w) w.
Proof.
  intros Hc Hsize He Hfds Hraw Hname Hp. wp_step.
  wp_use server_send_response_spec; [done|auto|].
  intros r w1 (Hf1 & Hin1 & H1 & Hs1 & Ha1).
  assert (Hw1 : w_files w1 = w_files w) by frame.
  unfold result_ok at 1. case_bool_decide as Hr; simpl negb; cbv iota; cycle 1.
  { wp_step. unfold upload_body_done. rewrite Hw1. split; [frame|]. split_and!; try done.
    - intros w0 E1 _ _ E2 _. apply ft_not_ready; [done|by rewrite Hw1, E1|by eapply said_after].
    - intros E. by destruct Hr, H1. }
  subst r. wp_step. unfold app_receive_file. rewrite !bool_decide_eq_false_2 by done.
  change (PATH_CAP =? 0) with false. cbn [orb].
  assert (Hio1 : only_io w w1) by frame. pose proof Hio1 as (He1 & _).
  wp_use (transfer_recv_with_spec transfer_recv_net_body); try done;
    [by rewrite He1|by rewrite Hw1|].
  intros [r saved] w2 (Hio2 & (d & lost & Hin & Hout & Hfds2 & Hok2 & Hcase) & H2).
  rewrite Hw1, Hin1 in *. specialize (Ha1 eq_refl). rewrite file_name_target in * by done.
  assert (Hio : only_io w w2) by (by etrans).
  assert (Hrdy : said_all reply_ready_ok w w2) by (unfold said_all; by rewrite Hout).
  unfold result_ok. destruct (decide (r = PROTOCOL_OK)) as [->|Hr];
    [rewrite bool_decide_eq_true_2 by done|rewrite bool_decide_eq_false_2 by done];
    simpl negb; cbv iota.
  - destruct Hcase as (<- & -> & _ & _ & m & Hm). by eapply upload_stored_spec.
  - destruct Hcase as (_ & _ & Hcase). eapply (upload_failed_spec _ _ _ _ _ _ d); try done.
    + destruct Hcase as [?|(Hne & k & m & Hk)]; [by left|right].
      unfold upload_temp in *. rewrite He1 in Hk. split; [|by exists k, m].
      intros E. apply Hne. by eapply only_io_no_faults.
    + intros (E & Hr' & Hl). apply Hr, H2; try done; [by eapply only_io_no_faults|].
      by eapply upload_ready_same.
Qed.

Lemma upload_rejected_spec conn base h e w w1 :
  0 <= conn -> e <> PROTOCOL_OK -> only_net w w1 -> fds_ok (w_files w) ->
  n_out (w_net w1) = n_out (w_net w) ->
  (forall name body rest, w_faults w = [] -> ~ upload_request h w name body rest) ->
  wp (send_ready_reject conn e) (file_transfer_done base h w) w1.
Proof.
  intros Hc Hne Hf1 Hfds Hout Hno. wp_use send_ready_reject_spec; [done|done|].
  intros r w' (-> & Hf & _ & Hs). assert (w_files w' = w_files w) as Hw by frame.
  unfold file_transfer_done. rewrite Hw. split; [frame|]. split_and!; try done.
  - apply ft_rejected; [done|by rewrite Hw|by eapply said_after].
  - intros E name body rest Hq _. by destruct (Hno name body rest).
Qed.

Lemma upload_request_read h w w1 raw size name body rest :
  n_in (w_net w) = prefix_wire raw size ++ n_in (w_net w1) -> name_length_ok raw ->
  0 <= size < 2 ^ 64 -> upload_request h w name body rest ->
  name = cstr raw /\ size = zlen body /\ n_in (w_net w1) = body ++ rest.
Proof.
  intros Hd Hraw Hsize (Hin & Hp & Hp2 & Hch & Hok & Hl). rewrite Hd in Hin.
  apply prefix_wire_inj in Hin as (-> & -> & ->); try done; [by rewrite cstr_no_nul|].
  unfold proto_file_transfer_prefix_size, proto_file_name_only_size in Hp. lia.
Qed.

(** The body, seen from the start of the request. *)
Lemma upload_body_whole base raw size h w w1 r w2 :
  only_net w w1 -> n_out (w_net w1) = n_out (w_net w) ->
  n_in (w_net w) = prefix_wire raw size ++ n_in (w_net w1) -> name_length_ok raw ->
  0 <= size < 2 ^ 64 ->
  upload_body_done base raw size h w1 r w2 -> file_transfer_done base h w r w2.
Proof.
  intros Hf1 Hout1 Hd Hraw Hsize (Hio2 & Hfds2 & Hok2 & Hft & Hlive).
  assert (Hio1 : only_io w w1) by frame. pose proof Hio1 as (He1 & _).
  assert (Hw1 : w_files w1 = w_files w) by frame. rewrite Hw1 in *.
  split_and!; [by etrans|done|done| |].
  - apply Hft; try done. intros E1 E2. by eapply E1, only_io_no_faults.
  - intros E name body rest Hq Hrdy.
    destruct (upload_request_read _ _ _ _ _ _ _ _ Hd Hraw Hsize Hq) as (-> & -> & Hin1).
    destruct Hlive as (-> & m & Hin2 & Hs & Hfs).
    { by eapply only_io_no_faults. } { by eapply upload_ready_same. } { rewrite Hin1. len_lia. }
    rewrite Hin1, zdrop_app_exact in Hin2 by done. rewrite Hin1, ztake_app_exact in Hfs by done.
    split_and!; [done|done| |by exists m]. by eapply said_all_after.
Qed.

Lemma server_handle_file_transfer_spec conn opt base h w :
  0 <= conn -> s_path opt = Some base -> e_splice_direct (w_env w) = false ->
  fds_ok (w_files w) -> Forall is_byte (n_in (w_net w)) ->
  wp (server_handle_file_transfer conn opt h) (file_transfer_done base h w) w.
Proof.
  intros Hc Hbase He Hfds Hbytes. unfold server_handle_file_transfer. rewrite Hbase.
  destruct (Z.ltb_spec (payload_size h) (proto_file_transfer_prefix_size 1)) as [Hsmall|_].
  { apply upload_rejected_spec; try done. intros name body rest _ (_ & Hp & _ & _ & _ & Hl).
    unfold name_length_ok, proto_file_transfer_prefix_size, proto_file_name_only_size in *. lia. }
  wp_step. wp_use proto_recv_file_transfer_prefix_spec; [done|].
  intros [[r name] size] w1 (Hf1 & Hout1 & (d & Hd & Hname) & H0).
  assert (Hw1 : w_files w1 = w_files w) by frame.
  destruct name as [s|]; cycle 1.
  { destruct Hname as [Hr _]. unfold result_ok. rewrite bool_decide_eq_false_2 by done.
    simpl negb. cbv iota. wp_step. unfold file_transfer_done. rewrite Hw1. split; [frame|].
    split_and!; try done.
    - apply ft_unread; [done|by rewrite Hw1|by apply said_nil].
    - intros E name body rest (Hin & _ & _ & _ & _ & Hl) _. by destruct Hr; eapply H0. }
  destruct Hname as (-> & raw & Hraw & -> & -> & Hsize).
  change (negb (result_ok PROTOCOL_OK)) with false. cbv iota. cbn [default from_option].
  pose proof (fun name body rest => upload_request_read h w w1 raw size name body rest Hd Hraw Hsize)
    as Hsame.
  destruct (Z.eqb_spec (fs_validate_file_name (Some (cstr raw))) 0) as [Hv|Hv];
    simpl negb; cbv iota; cycle 1.
  { apply upload_rejected_spec; try done. intros name body rest _ Hq.
    destruct (Hsame _ _ _ Hq) as (-> & _). by apply Hv, fs_validate_file_name_iff, Hq. }
  apply fs_validate_file_name_iff in Hv. rewrite prefix_size_ok by done.
  destruct (Z.eqb_spec (payload_size h)
    (u64 (proto_file_transfer_prefix_size (strlen (cstr raw)) + size))) as [Hp|Hp];
    simpl negb; cbv iota; cycle 1.
  { apply upload_rejected_spec; try done. intros name body rest _ Hq.
    destruct (Hsame _ _ _ Hq) as (-> & -> & _). destruct Hq as (_ & Hp' & Hp2 & _). apply Hp.
    rewrite Hp' in *. unfold u64. symmetry. apply Z.mod_small.
    unfold proto_file_transfer_prefix_size, proto_file_name_only_size in *. lia. }
  assert (Hio1 : only_io w w1) by frame. pose proof Hio1 as (He1 & _).
  wp_use (file_transfer_body_spec conn base raw size h); try done;
    [by rewrite He1|by rewrite Hw1|].
  intros r w2. by apply upload_body_whole.
Qed.

(** *** Sending a file *)

(** What [send_download] comes to. *)
Definition download_sent (name full c : bytes) (d : Z) (w : world) (r : protocol_result_t)
    (w' : world) : Prop :=
  only_io w w' /\ moved_fd d full false w w' /\ n_in (w_net w') = n_in (w_net w) /\
  download_said name c r w w' /\ (w_faults w = [] -> r = PROTOCOL_OK).

(** What is sent before the contents. *)
Definition download_head (name c : bytes) : bytes := reply_ready_ok ++ prefix_wire name (zlen c).

Lemma download_head_sent name c :
  name_length_ok name ->
  ztake (HF_PROTOCOL_RES_FRAME_SIZE + proto_file_transfer_prefix_size (u16 (strlen name)))
    (reply_ready_ok ++
     ztake (proto_file_transfer_prefix_size (u16 (strlen name))) (prefix_wire name (zlen c))) =
  download_head name c.
Proof.
  intros Hname.
  assert (proto_file_transfer_prefix_size (u16 (strlen name)) = zlen (prefix_wire name (zlen c))) as ->.
  { rewrite prefix_wire_length. unfold strlen, u16. rewrite Z.mod_small; [done|].
    unfold name_length_ok in Hname. proto_lia. }
  rewrite (ztake_ge _ (prefix_wire _ _)) by lia.
  rewrite ztake_ge by (unfold HF_PROTOCOL_RES_FRAME_SIZE, reply_ready_ok; len_lia). done.
Qed.

(** The file could not be sent to its end [e]. *)
Lemma download_broken_spec conn name full c e d w w2 :
  0 <= conn -> only_io w w2 -> moved_fd d full false w w2 -> n_in (w_net w2) = n_in (w_net w) ->
  e `prefix_of` c -> said_all (download_head name c ++ e) w w2 -> w_faults w <> [] ->
  wp (send_final_failed conn PROTOCOL_ERR_IO) (download_sent name full c d w) w2.
Proof.
  intros Hc Hio [pos Hpos] Hin He Hs Hno.
  wp_use send_final_failed_spec; [done|done|]. intros r3 w3 (-> & Hf3 & Hin3 & Hs3).
  assert (Hw3 : w_files w3 = w_files w2) by frame.
  split_and!; [etrans; [done|frame]|exists pos; by rewrite Hw3|by rewrite Hin3| |done].
  exists e, (reply_failed PROTOCOL_ERR_IO). split; [done|].
  split; [rewrite app_assoc; by eapply said_trans|]. right. split; [done|]. by right; right.
Qed.

(** The whole file was sent. *)
Lemma download_complete_spec conn name full c d w w2 :
  0 <= conn -> only_io w w2 -> moved_fd d full false w w2 -> n_in (w_net w2) = n_in (w_net w) ->
  said_all (download_head name c ++ c) w w2 ->
  wp (server_send_response conn PROTO_PHASE_FINAL PROTO_STATUS_OK PROTOCOL_OK)
    (download_sent name full c d w) w2.
Proof.
  intros Hc Hio [pos Hpos] Hin Hs. wp_use server_send_response_spec; [done|auto|].
  intros r3 w3 (Hf3 & Hin3 & H3 & Hs3 & Ha3).
  assert (Hw3 : w_files w3 = w_files w2) by frame.
  split_and!; [etrans; [done|frame]|exists pos; by rewrite Hw3|by rewrite Hin3| |];
    [|intros E; apply H3; by eapply only_io_no_faults].
  exists c, reply_final_ok. split; [done|].
  split; [rewrite app_assoc; by eapply said_trans|].
  destruct (decide (r3 = PROTOCOL_OK)) as [->|Hr3]; [left|right].
  - split_and!; try done. rewrite app_assoc. eapply said_all_trans; [done|by apply Ha3].
  - split; [done|]. right. by left.
Qed.

Lemma send_download_spec conn name full d c m w :
  0 <= conn -> 0 <= fd d -> name_length_ok name -> zlen c < 2 ^ 64 -> download_size d = zlen c ->
  f_fds (w_files w) !! fd d = Some (FdFile full 0 false) ->
  f_fs (w_files w) !! full = Some (NFile c m) ->
  wp (send_download conn name d) (download_sent name full c (fd d) w) w.
Proof.
  intros Hc Hfd Hname Hbig Hsize Hopen Hfile. unfold send_download.
  rewrite (encode_res_frame_ok _ ready_ok), Hsize. cbn [Protocol.phase Protocol.status error_code].
  change (negb (result_ok PROTOCOL_OK)) with false. cbv iota.
  rewrite encode_file_prefix_ok by done. change (negb (result_ok PROTOCOL_OK)) with false. cbv iota.
  change (PROTO_PHASE_READY :: _) with reply_ready_ok. rewrite download_head_sent by done.
  wp_step. wp_use proto_send_payload_spec; [done|].
  intros r w1 (Hf1 & Hin1 & H1 & s & rest & Hs & Hout1 & Hr1).
  assert (Hw1 : w_files w1 = w_files w) by frame. assert (Hio1 : only_io w w1) by frame.
  unfold result_ok at 1. case_bool_decide as Hr; simpl negb; cbv iota; cycle 1.
  { wp_step. split_and!; [done|by eapply moved_fd_refl|done| |by intros E; destruct Hr; auto].
    exists [], []. split; [apply prefix_nil|]. split; [|right; auto].
    rewrite app_nil_r. exists s. split; [by exists rest|done]. }
  rewrite (Hr1 Hr), app_nil_r in Hs. subst s r.
  assert (Hs1 : said_all (download_head name c) w w1) by done.
  wp_step. wp_use (net_send_file_best_effort_spec conn (fd d) (zlen c) full false c m); try done.
  { split; [lia|done]. } { by rewrite Hw1. } { by rewrite Hw1. }
  intros r w2 (Hio2 & [pos Hpos] & (e & rest2 & He & Hle & Hn2 & Hok2 & _ & H2) & _).
  rewrite drop_0 in *. assert (Hio : only_io w w2) by (by etrans).
  assert (Hs2 : said_all e w1 w2) by (unfold said_all; by rewrite Hn2).
  pose proof (said_all_trans _ _ _ _ _ Hs1 Hs2) as Hs12.
  assert (Hmv : moved_fd (fd d) full false w w2) by (exists pos; by rewrite Hpos, Hw1).
  assert (Hin2 : n_in (w_net w2) = n_in (w_net w)) by (by rewrite Hn2).
  case_bool_decide as Hr; simpl negb; cbv iota.
  - assert (e = c) as ->; [|by apply download_complete_spec].
    specialize (Hok2 Hr). assert (rest2 = []) as ->; [|by rewrite app_nil_r in He].
    apply (f_equal length) in He. rewrite length_app in He. destruct rest2; [done|simpl in He; lia].
  - apply (download_broken_spec _ _ _ _ e); try done; [by exists rest2|].
    intros E. destruct Hr. apply H2; [by eapply only_io_no_faults|lia].
Qed.

Lemma download_said_after name c r w1 w2 w3 :
  n_out (w_net w2) = n_out (w_net w1) -> download_said name c r w2 w3 -> download_said name c r w1 w3.
Proof.
  intros E (d & last & Hd & Hs & H). exists d, last. split; [done|].
  split; [by eapply said_after|]. destruct H as [(? & ? & ? & H)|H]; [left|by right].
  split_and!; try done. by eapply said_all_after.
Qed.

Lemma download_said_before name c r w1 w2 w3 :
  w_net w3 = w_net w2 -> download_said name c r w1 w2 -> download_said name c r w1 w3.
Proof. unfold download_said, said, said_all. by intros ->. Qed.

(** The request asks for the file [name] and all of it is there. *)
Definition get_request (h : protocol_header_t) (w : world) (name rest : bytes) : Prop :=
  n_in (w_net w) = name_wire name ++ rest /\
  payload_size h = proto_file_name_only_size (zlen name) /\
  Forall is_char name /\ file_name_ok name /\ name_length_ok name.

(** [name] is a regular file that can be served. *)
Definition servable (base name : bytes) (w : world) : Prop :=
  relative_path_ok name /\ zlen (entry_path base name) < PATH_CAP /\
  exists c m, f_fs (w_files w) !! entry_path base name = Some (NFile c m).

(** What [server_handle_get_file] comes to: no file changes and no descriptor is
    left open, the outcome is one of [get_file_outcome], and a whole request for
    a file that can be served succeeds when nothing fails. *)
Definition get_file_served (base : bytes) (h : protocol_header_t) (w : world)
    (r : protocol_result_t) (w' : world) : Prop :=
  only_io w w' /\ files_released (w_files w) (w_files w') /\ get_file_outcome base h w w' r /\
  (w_faults w = [] -> forall name rest, get_request h w name rest -> servable base name w ->
     r = PROTOCOL_OK /\ n_in (w_net w') = rest).

(** Before [app_download_cleanup], after a valid request for [name]. *)
Definition get_file_answered (base name : bytes) (w : world)
    (rd : protocol_result_t * app_download_t) (w' : world) : Prop :=
  only_io w w' /\ n_in (w_net w') = n_in (w_net w) /\ f_fs (w_files w') = f_fs (w_files w) /\
  wp (app_download_cleanup rd.2) (fun _ w2 => only_files w' w2 /\
    files_released (w_files w) (w_files w2)) w' /\
  (rd.1 <> PROTOCOL_OK /\ said (reply_rejected rd.1) w w' \/
   exists c m, f_fs (w_files w) !! entry_path base name = Some (NFile c m) /\
     download_said name c rd.1 w w') /\
  (w_faults w = [] -> servable base name w -> rd.1 = PROTOCOL_OK).

(** [app_prepare_download] refused the file. *)
Lemma get_file_refused_spec conn base name e d w w1 :
  0 <= conn -> e <> PROTOCOL_OK -> fd d = -1 -> only_files w w1 ->
  files_released (w_files w) (w_files w1) -> ~ (w_faults w = [] /\ servable base name w) ->
  wp (let! r := send_ready_reject conn e in ret (r, d)) (get_file_answered base name w) w1.
Proof.
  intros Hc He Hd Hf1 Hrel Hno. wp_step. wp_use send_ready_reject_spec; [done|done|].
  intros r w2 (-> & Hf2 & Hin2 & Hs2). wp_step.
  assert (Hw2 : w_files w2 = w_files w1) by frame. assert (Hn1 : w_net w1 = w_net w) by apply Hf1.
  split_and!; [etrans; frame|by rewrite Hin2, Hn1|rewrite Hw2; apply Hrel| | |].
  - simpl. rewrite app_download_cleanup_done by done. apply wp_ret. rewrite Hw2. split; [frame|done].
  - left. split; [done|]. eapply said_after; [|done]. by rewrite Hn1.
  - intros E Hs. by destruct Hno.
Qed.

(** [app_prepare_download] opened the file. *)
Lemma get_file_opened_spec conn base raw d w w1 :
  0 <= conn -> fds_ok (w_files w) -> name_length_ok raw -> file_name_ok (cstr raw) ->
  sizes_fit (f_fs (w_files w)) -> only_files w w1 ->
  download_opened (entry_path base (cstr raw)) d (w_files w) (w_files w1) ->
  wp (let! r := send_download conn (cstr raw) d in ret (r, d))
    (get_file_answered base (cstr raw) w) w1.
Proof.
  intros Hc Hfds Hraw Hname Hbig Hf1 (Hfd & Hw1 & c & m & Hcm & Hsz).
  assert (Hn1 : w_net w1 = w_net w) by apply Hf1.
  pose proof (Hbig _ _ _ Hcm). unfold u64 in Hsz. rewrite Z.mod_small in Hsz by lia.
  assert (Hat : f_fds (w_files w1) !! fd d = Some (FdFile (entry_path base (cstr raw)) 0 false)).
  { rewrite Hw1, Hfd. simpl. by rewrite lookup_insert_eq. }
  wp_step. wp_use (send_download_spec conn (cstr raw) (entry_path base (cstr raw)) d c m); try done.
  { rewrite Hfd. apply Hfds. }
  { pose proof (cstr_length raw). apply fs_validate_file_name_iff in Hname.
    unfold name_length_ok in *. destruct (cstr raw); [done|]. simpl in *. lia. }
  { lia. } { by rewrite Hw1. }
  intros r w2 (Hio2 & [pos Hmv] & Hin2 & Hs2 & H2). wp_step.
  split_and!; [etrans; [|done]; frame|by rewrite Hin2, Hn1|by rewrite Hmv, Hw1| | |].
  - eapply app_download_cleanup_moved; [done|done|]. by rewrite Hmv, Hw1.
  - right. exists c, m. split; [done|]. eapply download_said_after; [|done]. by rewrite Hn1.
  - intros E _. apply H2. eapply only_io_no_faults; [|done]. frame.
Qed.

(** After a valid request. *)
Lemma get_file_body_spec conn base raw w :
  0 <= conn -> fds_ok (w_files w) -> name_length_ok raw -> file_name_ok (cstr raw) ->
  sizes_fit (f_fs (w_files w)) ->
  wp (let! (result, download) :=
        app_prepare_download (Some base) (Some (cstr raw)) download_none in
      if negb (result_ok result) then
        let! r := send_ready_reject conn
          (if bool_decide (result = PROTOCOL_ERR_IO) then PROTOCOL_ERR_INVALID_ARGUMENT
           else result) in
        ret (r, download)
      else
        let! r := send_download conn (cstr raw) download in ret (r, download))
    (get_file_answered base (cstr raw) w) w.
Proof.
  intros Hc Hfds Hraw Hname Hbig. wp_step. wp_use app_prepare_download_spec; [done|].
  rewrite file_name_target by done. intros [r d] w1 (Hf1 & Hok & Hbad & Hlive).
  unfold result_ok. case_bool_decide as Hr; simpl negb; cbv iota.
  - destruct (Hok Hr) as [_ Hopen]. by apply get_file_opened_spec.
  - destruct (Hbad Hr) as [-> Hrel]. apply get_file_refused_spec; try done; [by case_bool_decide|].
    intros (E & Hrp & Hl & Hc'). by destruct Hr; apply Hlive.
Qed.

Lemma file_name_only_size_ok raw :
  name_length_ok raw ->
  proto_file_name_only_size (u16 (strlen (cstr raw))) =
  proto_file_name_only_size (strlen (cstr raw)).
Proof.
  intros H%prefix_size_ok. unfold proto_file_transfer_prefix_size in H. lia.
Qed.

(** The request is refused before the file is looked for. *)
Lemma get_rejected_spec conn base h e w w1 :
  0 <= conn -> e <> PROTOCOL_OK -> fds_ok (w_files w) -> only_net w w1 ->
  n_out (w_net w1) = n_out (w_net w) ->
  (forall name rest, w_faults w = [] -> ~ get_request h w name rest) ->
  wp (let! (result, download) :=
        (let! r := send_ready_reject conn e in ret (r, download_none)) in
      let! _ := app_download_cleanup download in ret result) (get_file_served base h w) w1.
Proof.
  intros Hc He Hfds Hf1 Hout Hno. do 2 wp_step. wp_use send_ready_reject_spec; [done|done|].
  intros r' w2 (-> & Hf2 & _ & Hs). do 2 wp_step. rewrite app_download_cleanup_done by done.
  do 2 wp_step. assert (w_files w2 = w_files w) as Hw by frame. unfold get_file_served. rewrite Hw.
  split_and!; try done; [frame|by apply gf_rejected; [done|by eapply said_after]|].
  intros E name rest Hq _. by destruct (Hno name rest).
Qed.

Lemma get_request_read h w w1 raw name rest :
  n_in (w_net w) = name_wire raw ++ n_in (w_net w1) -> name_length_ok raw ->
  get_request h w name rest -> name = cstr raw /\ n_in (w_net w1) = rest.
Proof.
  intros Hb Hraw (Hin & _ & Hch & _ & Hl). rewrite Hb in Hin.
  apply name_wire_inj in Hin as (-> & ->); try done. by rewrite cstr_no_nul.
Qed.

(** The answer, seen from the start of the request. *)
Lemma get_file_whole base h raw w w1 r d w2 w3 :
  only_net w w1 -> n_out (w_net w1) = n_out (w_net w) ->
  n_in (w_net w) = name_wire raw ++ n_in (w_net w1) -> name_length_ok raw ->
  file_name_ok (cstr raw) -> payload_size h = proto_file_name_only_size (strlen (cstr raw)) ->
  get_file_answered base (cstr raw) w1 (r, d) w2 ->
  only_files w2 w3 -> files_released (w_files w1) (w_files w3) ->
  get_file_served base h w r w3.
Proof.
  intros Hf1 Hout1 Hb Hraw Hname Hp (Hio2 & Hin2 & Hfs2 & _ & Hcase & Hlive) Hf3 Hrel.
  assert (Hw1 : w_files w1 = w_files w) by frame. assert (Hio1 : only_io w w1) by frame.
  assert (Hn3 : w_net w3 = w_net w2) by apply Hf3. unfold servable in Hlive. rewrite Hw1 in *.
  split; [etrans; [exact Hio1|]; etrans; [exact Hio2|]; frame|]. split; [done|]. split.
  - destruct Hcase as [[Hr Hs]|(c & m & Hcm & Hs)].
    + apply gf_rejected; [done|]. eapply said_after; [done|]. destruct Hs as (x & Hx & Hs).
      exists x. split; [done|]. unfold said_all. by rewrite Hn3.
    + eapply gf_sent; try done; [by rewrite Hn3, Hin2|].
      eapply download_said_after; [done|]. by eapply download_said_before.
  - intros E name rest Hq Hs. destruct (get_request_read _ _ _ _ _ _ Hb Hraw Hq) as (-> & Hin1).
    split; [|by rewrite Hn3, Hin2]. apply Hlive; [by eapply only_io_no_faults|done].
Qed.

Lemma server_handle_get_file_spec conn opt base h w :
  0 <= conn -> s_path opt = Some base -> fds_ok (w_files w) ->
  Forall is_byte (n_in (w_net w)) -> sizes_fit (f_fs (w_files w)) ->
  wp (server_handle_get_file conn opt h) (get_file_served base h w) w.
Proof.
  intros Hc Hbase Hfds Hbytes Hbig. unfold server_handle_get_file. rewrite Hbase.
  destruct (Z.ltb_spec (payload_size h) (proto_file_name_only_size 1)) as [Hsmall|_].
  { wp_use send_ready_reject_spec; [done|done|]. intros r w1 (-> & Hf1 & _ & Hs).
    assert (w_files w1 = w_files w) as Hw by frame. unfold get_file_served. rewrite Hw.
    split; [frame|]. split; [by split_and!|]. split; [by apply gf_rejected|].
    intros _ name rest (_ & Hp & _ & _ & Hl).
    unfold name_length_ok, proto_file_name_only_size in *. lia. }
  wp_step. wp_use proto_recv_file_name_only_spec; [done|].
  intros [r name] w1 (Hf1 & Hout1 & (b & Hb & Hname) & H0).
  assert (Hw1 : w_files w1 = w_files w) by frame.
  destruct name as [s|]; cycle 1.
  { destruct Hname as [Hr _]. unfold result_ok at 1. rewrite bool_decide_eq_false_2 by done.
    simpl negb. cbv iota. apply get_rejected_spec; try done.
    intros name rest E (Hin & _ & _ & _ & Hl). apply Hr.
    unfold name_wire in Hin. rewrite <- app_assoc in Hin. unfold name_length_ok in Hl.
    eapply (H0 E _ _); [|done|lia|len_lia]. proto_lia. }
  destruct Hname as (-> & raw & Hraw & -> & ->).
  change (negb (result_ok PROTOCOL_OK)) with false. cbv iota. cbn [default from_option].
  destruct (Z.eqb_spec (fs_validate_file_name (Some (cstr raw))) 0) as [Hv|Hv];
    simpl negb; cbv iota; cycle 1.
  { apply get_rejected_spec; try done. intros name rest _ Hq.
    destruct (get_request_read _ _ _ _ _ _ Hb Hraw Hq) as (-> & _).
    by apply Hv, fs_validate_file_name_iff, Hq. }
  apply fs_validate_file_name_iff in Hv. rewrite file_name_only_size_ok by done.
  destruct (Z.eqb_spec (payload_size h) (proto_file_name_only_size (strlen (cstr raw)))) as [Hp|Hp];
    simpl negb; cbv iota; cycle 1.
  { apply get_rejected_spec; try done. intros name rest _ Hq.
    destruct (get_request_read _ _ _ _ _ _ Hb Hraw Hq) as (-> & _). by apply Hp, Hq. }
  wp_step. wp_use (get_file_body_spec conn base raw); try done; [by rewrite Hw1|by rewrite Hw1|].
  intros [r d] w2 Hans. pose proof Hans as (_ & _ & _ & Hclean & _). wp_step.
  eapply wp_mono; [exact Hclean|]. intros d' w3 [Hf3 Hrel]. wp_step.
  by eapply get_file_whole.
Qed.

(** Whatever it comes to, receiving a file changes one entry of [base] at most. *)
Lemma transfer_confined base h w w' r :
  file_transfer_outcome base h w w' r ->
  f_fs (w_files w') = f_fs (w_files w) \/
  exists p name d m, entry_name base p = Some name /\
    f_fs (w_files w') = <[p := NFile d m]> (f_fs (w_files w)).
Proof.
  intros [r' _ H _|e _ H _|r' _ H _|e name d _ Hname [H|(_ & k & m & _ & _ & H)] _|
          r' raw d m _ Hname _ _ H _]; [by left..| |].
  - right. rewrite H. unfold upload_temp. rewrite file_name_target by done.
    eexists _, _, d, m. split; [by apply temp_path_entry|done].
  - right. rewrite H. eexists _, _, d, m. split; [by apply file_name_entry|done].
Qed.

(** *** Connections *)

(** What a connection may come to: no valid header arrived, or the handler for
    its message type ran on what follows the header. *)
Inductive connection_outcome (base : bytes) (w w' : world) : Z -> Prop :=
  | co_no_header : w_files w' = w_files w -> w_prog w' = w_prog w -> said_all [] w w' ->
      connection_outcome base w w' 1
  | co_text h b e : header_ok h -> Protocol.msg_type h = HF_MSG_TYPE_TEXT_MESSAGE ->
      encode_header (Some h) = (PROTOCOL_OK, b) -> w_files w' = w_files w ->
      said (text_reply e) w w' ->
      (e = PROTOCOL_OK -> exists raw, n_in (w_net w) = b ++ raw ++ n_in (w_net w') /\
         zlen raw = payload_size h /\ payload_size h <= HF_PROTOCOL_MAX_TEXT_MESSAGE_SIZE /\
         p_store (w_prog w') = store_set (stored_text (cstr raw)) (p_store (w_prog w))) ->
      (e <> PROTOCOL_OK -> p_store (w_prog w') = p_store (w_prog w)) ->
      connection_outcome base w w' (if result_ok e then 0 else 1)
  | co_file h b w1 r : header_ok h -> Protocol.msg_type h = HF_MSG_TYPE_SEND_FILE ->
      encode_header (Some h) = (PROTOCOL_OK, b) -> n_in (w_net w) = b ++ n_in (w_net w1) ->
      only_net w w1 -> n_out (w_net w1) = n_out (w_net w) -> w_prog w' = w_prog w ->
      file_transfer_outcome base h w1 w' r ->
      connection_outcome base w w' (if result_ok r then 0 else 1)
  | co_get h b w1 r : header_ok h -> Protocol.msg_type h = HF_MSG_TYPE_GET_FILE ->
      encode_header (Some h) = (PROTOCOL_OK, b) -> n_in (w_net w) = b ++ n_in (w_net w1) ->
      only_net w w1 -> n_out (w_net w1) = n_out (w_net w) -> w_prog w' = w_prog w ->
      f_fs (w_files w') = f_fs (w_files w) ->
      get_file_outcome base h w1 w' r ->
      connection_outcome base w w' (if result_ok r then 0 else 1).

(** A world a connection thread may start in. *)
Record conn_ready (conn : Z) (opt : server_opt_t) (base : bytes) (w : world) : Prop := {
  cr_conn : 0 <= conn;
  cr_base : s_path opt = Some base;
  cr_kernel : e_splice_direct (w_env w) = false;
  cr_fds : fds_ok (w_files w);
  cr_bytes : Forall is_byte (n_in (w_net w));
  cr_sizes : sizes_fit (f_fs (w_files w));
  cr_store : ms_initialized (p_store (w_prog w)) = true
}.

Lemma demo_conn_ready base input files :
  forallb (fun b => (0 <=? b) && (b <? 256)) input = true -> sizes_fit files ->
  forall faults, conn_ready 5 (ServerOpt (Some base) 9000 7) base
    (demo_world faults input (demo_files files)).
Proof.
  intros Hin Hs faults. split; try done.
  apply Is_true_true in Hin. rewrite forallb_True in Hin. eapply Forall_impl; [exact Hin|].
  intros b Hb%Is_true_true. unfold is_byte. lia.
Qed.

(** The header [recv_header] and [decode_header] accept. *)
Lemma header_taken w w1 hdr h :
  Forall is_byte (n_in (w_net w)) -> n_in (w_net w) = hdr ++ n_in (w_net w1) ->
  zlen hdr = HF_PROTOCOL_HEADER_SIZE -> decode_header (Header 0 0 0 0 0) hdr = (PROTOCOL_OK, h) ->
  header_ok h /\ encode_header (Some h) = (PROTOCOL_OK, hdr) /\ Forall is_byte (n_in (w_net w1)).
Proof.
  intros Hb Hin Hl Hd. rewrite Hin, Forall_app in Hb. destruct Hb as [Hb1 Hb2].
  apply decode_header_ok in Hd as [Hok He]; [by split_and!|done|].
  unfold HF_PROTOCOL_HEADER_SIZE in Hl. lia.
Qed.

Lemma handle_protocol_connection_spec conn opt base w :
  conn_ready conn opt base w ->
  wp (handle_protocol_connection conn opt) (fun rc w' =>
    f_fds (w_files w') = f_fds (w_files w) /\ fds_ok (w_files w') /\
    connection_outcome base w w' rc) w.
Proof.
  intros [Hc Hbase He Hfds Hbytes Hsz Hst]. unfold handle_protocol_connection. wp_step.
  wp_use recv_header_spec; [done|]. intros [r hdr] w1 (Hf1 & Hin & Hout & Hlen & _).
  assert (Hw1 : w_files w1 = w_files w) by frame.
  assert (Hp1 : w_prog w1 = w_prog w) by frame.
  assert (He1 : w_env w1 = w_env w) by frame.
  assert (Hno : connection_outcome base w w1 1) by (apply co_no_header; [done..|by apply said_nil]).
  unfold result_ok at 1. case_bool_decide as Hr; simpl negb; cbv iota; cycle 1.
  { wp_step. by rewrite Hw1. }
  specialize (Hlen Hr). destruct (decode_header (Header 0 0 0 0 0) hdr) as [r2 h] eqn:Hd.
  unfold result_ok at 1. case_bool_decide as Hr2; simpl negb; cbv iota; cycle 1.
  { wp_step. by rewrite Hw1. }
  subst r r2. destruct (header_taken w w1 hdr h Hbytes Hin Hlen Hd) as (Hok & Henc & Hb1).
  assert (Hps : 0 <= payload_size h < 2 ^ 64) by apply Hok. unfold handle_message.
  destruct (Z.eqb_spec (Protocol.msg_type h) HF_MSG_TYPE_TEXT_MESSAGE) as [Ht|_].
  { wp_use server_handle_text_message_spec; [done|lia|by rewrite Hp1|].
    intros rc w2 (e & (_ & Hw2 & _) & -> & Hs & _ & Hyes & Hnot & _). rewrite Hw2, Hw1.
    split; [done|]. split; [done|]. apply (co_text base w w2 h hdr); try done.
    - by rewrite Hw2, Hw1.
    - by eapply said_after.
    - intros E. destruct (Hyes E) as (raw & Hin2 & ? & ? & Hst2). exists raw.
      rewrite Hin, Hin2, Hst2, Hp1. by split_and!.
    - intros E. by rewrite Hnot, Hp1. }
  destruct (Z.eqb_spec (Protocol.msg_type h) HF_MSG_TYPE_SEND_FILE) as [Ht|_].
  { wp_step. wp_use server_handle_file_transfer_spec; [done|done|by rewrite He1|by rewrite Hw1|done|].
    intros r w2 (Hio & Hfd2 & Hok2 & Hft & _). wp_step. rewrite Hfd2, Hw1.
    split; [done|]. split; [done|]. apply (co_file base w w2 h hdr w1); try done.
    destruct Hio as (_ & -> & _). done. }
  destruct (Z.eqb_spec (Protocol.msg_type h) HF_MSG_TYPE_GET_FILE) as [Ht|_].
  { wp_step. wp_use server_handle_get_file_spec; [done|done|by rewrite Hw1|done|by rewrite Hw1|].
    intros r w2 (Hio & Hrel & Hgf & _). wp_step. pose proof Hrel as (Hfs2 & Hfd2 & _).
    rewrite Hfd2, Hw1. split; [done|]. split; [eapply released_ok; [|done]; by rewrite Hw1|].
    apply (co_get base w w2 h hdr w1); try done; [|by rewrite Hfs2, Hw1].
    destruct Hio as (_ & -> & _). done. }
  wp_step. by rewrite Hw1.
Qed.

(** A header that arrives whole is acted on. *)
Lemma connection_dispatch conn opt h rest Q w :
  0 <= conn -> header_ok h -> w_faults w = [] ->
  n_in (w_net w) = snd (encode_header (Some h)) ++ rest ->
  (forall w1, only_net w w1 -> w_faults w1 = [] -> w_net w1 = Net rest (n_out (w_net w)) ->
     wp (handle_message conn opt h) Q w1) ->
  wp (handle_protocol_connection conn opt) Q w.
Proof.
  intros Hc Hok E Hin Hgo. unfold handle_protocol_connection. wp_step.
  destruct (encode_header (Some h)) as [r0 hdr] eqn:Henc. simpl in Hin.
  assert (r0 = PROTOCOL_OK) as ->. { unfold encode_header in Henc. by injection Henc. }
  pose proof (encode_header_length h hdr Henc) as Hlen.
  wp_use recv_header_spec; [done|]. intros [r b] w1 (Hf1 & Hin1 & Hout1 & Hb & Hr).
  assert (r = PROTOCOL_OK) as -> by (apply Hr; [done|rewrite Hin; len_lia]). specialize (Hb eq_refl).
  rewrite Hin in Hin1. apply app_eq_len in Hin1 as [<- ->]; [|lia].
  change (negb (result_ok PROTOCOL_OK)) with false. cbv iota.
  rewrite (decode_encode_header _ h hdr) by done.
  change (negb (result_ok PROTOCOL_OK)) with false. cbv iota.
  apply Hgo; [done|eapply only_io_no_faults; [|done]; frame|].
  rewrite <- Hout1. by destruct (w_net w1).
Qed.

(** A download that reports success was sent whole. *)
Lemma get_file_complete base h w w' name c m :
  get_file_outcome base h w w' PROTOCOL_OK -> Forall is_char name -> name_length_ok name ->
  n_in (w_net w) = name_wire name ++ n_in (w_net w') ->
  f_fs (w_files w) !! entry_path base name = Some (NFile c m) ->
  said_all ((reply_ready_ok ++ prefix_wire name (zlen c)) ++ c ++ reply_final_ok) w w'.
Proof.
  intros Hgf Hch Hl Hin Hc. remember PROTOCOL_OK as r eqn:Er.
  destruct Hgf as [e He _|raw c' m' r Hraw _ Hin' _ Hc' Hs]; [done|].
  rewrite Hin in Hin'. apply name_wire_inj in Hin' as [<- _]; [|done..].
  rewrite cstr_no_nul in * by done.
  destruct Hs as (d & last & _ & _ & [(_ & _ & _ & Hs)|[[] _]]); [|done].
  rewrite Hc in Hc'. by injection Hc' as <- <-.
Qed.

Definition demo_dir : gmap bytes node := {[bs "d" := NDir 0]}.
Definition demo_shared : gmap bytes node := <[bs "d/f" := NFile [1; 2] 9]> demo_dir.

Lemma demo_sizes_fit : sizes_fit demo_shared.
Proof.
  intros p c m H. unfold demo_shared, demo_dir in H. rewrite lookup_insert in H. case_decide.
  - injection H as <- _. simpl. lia.
  - by apply lookup_singleton_Some in H as [_ ?].
Qed.

Lemma demo_dir_sizes_fit : sizes_fit demo_dir.
Proof. intros p c m H. unfold demo_dir in H. by apply lookup_singleton_Some in H as [_ ?]. Qed.

Lemma demo_server_upload_ready input :
  upload_ready (bs "d") (bs "f") PATH_CAP (demo_world [] input (demo_files demo_dir)).
Proof.
  split_and!.
  - by apply fs_validate_relative_path_iff.
  - by vm_compute.
  - by vm_compute.
  - done.
  - intros m. vm_compute. done.
  - exists 0. split; [lia|by vm_compute].
Qed.

(** Text without the character NUL is a C string. *)
Lemma utf8_chars cps : Forall scalar cps -> Forall (fun c => c <> 0) cps -> Forall is_char (utf8_text cps).
Proof.
  intros Hs Hn. unfold utf8_text. induction cps as [|cp cps IH]; [constructor|].
  apply Forall_cons in Hs as [[Hr _] Hs]. apply Forall_cons in Hn as [Hn0 Hn]. cbn [map concat].
  apply Forall_app. split; [|by apply IH]. unfold utf8, is_char.
  repeat case_match; repeat constructor; lia.
Qed.

(** *** Requests served *)

(** A request to store a file does what it says: when nothing fails, the
    name is valid and the directory can take the file, the encodings of the
    header, of the prefix and of the contents make [handle_protocol_connection]
    store exactly those contents under that name, answer ready and final, and
    leave what follows on the connection. *)
Lemma connection_stores_file conn opt base name body rest w
    (Hready : conn_ready conn opt base w) (Hnofail : w_faults w = [])
    (Hname : Forall is_char name) (Hok : file_name_ok name) (Hlen : name_length_ok name)
    (Hupload : upload_ready base name PATH_CAP w) (Hsize : zlen body < 2 ^ 63)
    (Hin : n_in (w_net w) =
       snd (encode_header (Some (Header HF_PROTOCOL_MAGIC HF_PROTOCOL_VERSION HF_MSG_TYPE_SEND_FILE
              HF_MSG_FLAG_NONE (proto_file_transfer_prefix_size (zlen name) + zlen body)))) ++
       snd (encode_file_prefix (Some name) (zlen body)) ++ body ++ rest) :
  wp (handle_protocol_connection conn opt) (fun rc w' =>
    rc = 0 /\ n_in (w_net w') = rest /\
    n_out (w_net w') = n_out (w_net w) ++ reply_ready_ok ++ reply_final_ok /\
    only_io w w' /\ fds_ok (w_files w') /\
    exists m, f_fs (w_files w') = <[entry_path base name := NFile body m]> (f_fs (w_files w))) w.
Proof.
  destruct Hready as [Hc Hbase He Hfds Hbytes Hsz Hst].
  rewrite encode_file_prefix_ok in Hin by done. cbn [snd] in Hin.
  assert (Hpay : 0 <= proto_file_transfer_prefix_size (zlen name) + zlen body < 2 ^ 64).
  { unfold name_length_ok, proto_file_transfer_prefix_size, proto_file_name_only_size in *. proto_lia. }
  eapply connection_dispatch; [done| |done|exact Hin|]; [split_and!; auto; apply Hpay|].
  intros w1 Hf1 E1 Hn1. unfold handle_message.
  change (_ =? HF_MSG_TYPE_TEXT_MESSAGE) with false. change (_ =? HF_MSG_TYPE_SEND_FILE) with true.
  cbv iota. assert (Hw1 : w_files w1 = w_files w) by frame.
  assert (He1 : w_env w1 = w_env w) by frame.
  wp_step. wp_use (server_handle_file_transfer_spec conn opt base); [done|done|by rewrite He1|
    by rewrite Hw1| |].
  { rewrite Hn1. cbn [n_in]. rewrite Hin in Hbytes. by apply Forall_app in Hbytes as [_ ?]. }
  intros r w2 (Hio & _ & Hfd2 & _ & H). wp_step.
  destruct (H E1 name body rest) as (-> & Hin2 & Hs & m & Hm).
  { unfold upload_request. rewrite Hn1. split_and!; try done. apply Hpay. }
  { by eapply upload_ready_same. }
  unfold said_all in Hs. rewrite Hn1 in Hs. rewrite Hw1 in Hm. split; [done|]. split; [done|].
  split; [done|]. split; [etrans; [apply Hf1|done]|]. split; [done|]. by exists m.
Qed.

(** A request for a file does what it says: when nothing fails and the name
    is that of a regular file in the served directory, the peer receives the
    ready frame, the prefix with the file's name and size, its contents and the
    final frame, and no file changes. *)
Lemma connection_serves_file conn opt base name rest c m w
    (Hready : conn_ready conn opt base w) (Hnofail : w_faults w = [])
    (Hname : Forall is_char name) (Hok : file_name_ok name) (Hlen : name_length_ok name)
    (Hpath : relative_path_ok name) (Hcap : zlen (entry_path base name) < PATH_CAP)
    (Hfile : f_fs (w_files w) !! entry_path base name = Some (NFile c m))
    (Hin : n_in (w_net w) =
       snd (encode_header (Some (Header HF_PROTOCOL_MAGIC HF_PROTOCOL_VERSION HF_MSG_TYPE_GET_FILE
              HF_MSG_FLAG_NONE (proto_file_name_only_size (zlen name))))) ++
       snd (encode_file_name_only (Some name)) ++ rest) :
  wp (handle_protocol_connection conn opt) (fun rc w' =>
    rc = 0 /\ n_in (w_net w') = rest /\ f_fs (w_files w') = f_fs (w_files w) /\
    n_out (w_net w') = n_out (w_net w) ++
      (reply_ready_ok ++ snd (encode_file_prefix (Some name) (zlen c))) ++ c ++ reply_final_ok) w.
Proof.
  destruct Hready as [Hc Hbase He Hfds Hbytes Hsz Hst].
  rewrite encode_file_name_only_ok in Hin by done. rewrite encode_file_prefix_ok by done.
  cbn [snd] in *.
  assert (Hpay : 0 <= proto_file_name_only_size (zlen name) < 2 ^ 64).
  { unfold name_length_ok, proto_file_name_only_size in *. proto_lia. }
  eapply connection_dispatch; [done| |done|exact Hin|]; [split_and!; auto; apply Hpay|].
  intros w1 Hf1 E1 Hn1. unfold handle_message.
  change (_ =? HF_MSG_TYPE_TEXT_MESSAGE) with false. change (_ =? HF_MSG_TYPE_SEND_FILE) with false.
  change (_ =? HF_MSG_TYPE_GET_FILE) with true. cbv iota.
  assert (Hw1 : w_files w1 = w_files w) by frame.
  wp_step. wp_use (server_handle_get_file_spec conn opt base);
    [done|done|by rewrite Hw1| |by rewrite Hw1|].
  { rewrite Hn1. cbn [n_in]. rewrite Hin in Hbytes. by apply Forall_app in Hbytes as [_ ?]. }
  intros r w2 (_ & (Hfs & _) & Hgf & H). wp_step.
  destruct (H E1 name rest) as (-> & Hin2).
  { unfold get_request. rewrite Hn1. by split_and!. }
  { unfold servable. rewrite Hw1. eauto. }
  rewrite Hw1 in Hfs. split_and!; [done|done|done|].
  apply (get_file_complete base _ w1 w2 name c m) in Hgf; try done.
  - unfold said_all in Hgf. by rewrite Hn1 in Hgf.
  - by rewrite Hn1, Hin2.
  - by rewrite Hw1.
Qed.

(** A text message over the protocol: when nothing fails, the header and the
    UTF-8 encoding of the code points [cps] make [handle_protocol_connection]
    store the text without its trailing white space as the next version and
    answer with the final OK frame. *)
Lemma connection_stores_message conn opt base cps rest w
    (Hready : conn_ready conn opt base w) (Hnofail : w_faults w = [])
    (Hscalar : Forall scalar cps) (Hnul : Forall (fun c => c <> 0) cps)
    (Hlen : zlen (utf8_text cps) <= HF_PROTOCOL_MAX_TEXT_MESSAGE_SIZE)
    (Hin : n_in (w_net w) =
       snd (encode_header (Some (Header HF_PROTOCOL_MAGIC HF_PROTOCOL_VERSION
              HF_MSG_TYPE_TEXT_MESSAGE HF_MSG_FLAG_NONE (zlen (utf8_text cps))))) ++
       utf8_text cps ++ rest) :
  wp (handle_protocol_connection conn opt) (fun rc w' =>
    rc = 0 /\ n_in (w_net w') = rest /\ n_out (w_net w') = n_out (w_net w) ++ reply_final_ok /\
    only_message w w' /\
    p_store (w_prog w') = store_set (utf8_text (rstrip cps)) (p_store (w_prog w))) w.
Proof.
  destruct Hready as [Hc Hbase He Hfds Hbytes Hsz Hst].
  eapply connection_dispatch; [done| |done|exact Hin|]; [split_and!; auto; cbn [payload_size]; proto_lia|].
  intros w1 Hf1 E1 Hn1. unfold handle_message.
  change (_ =? HF_MSG_TYPE_TEXT_MESSAGE) with true. cbv iota.
  assert (Hp1 : w_prog w1 = w_prog w) by frame.
  wp_use server_handle_text_message_spec; [done|simpl; lia|by rewrite Hp1|].
  intros rc w2 (e & Hm2 & -> & _ & Hs & Hyes & _ & Hlive). rewrite Hn1 in Hyes.
  assert (e = PROTOCOL_OK) as -> by (apply Hlive; split_and!; rewrite ?Hn1; [done|done|simpl; len_lia]).
  destruct (Hyes eq_refl) as (raw & Hraw & Hl & _ & Hst2). cbn [n_in payload_size] in Hraw, Hl.
  apply app_eq_len in Hraw as [<- <-]; [|lia]. specialize (Hs E1). unfold said_all in Hs.
  rewrite Hn1 in Hs. rewrite Hp1, cstr_no_nul in Hst2 by by apply utf8_chars.
  unfold stored_text in Hst2. rewrite store_utf8 in Hst2 by done.
  split; [done|]. split; [done|]. split; [done|]. split; [|done].
  eapply only_message_trans; [by apply only_message_net|done].
Qed.

(** *** Example *)

(** The size check is made modulo [2 ^ 64]: a payload of 11 bytes is accepted for
    a name of 255 bytes and contents of [2 ^ 64 - 254]. *)
Lemma server_accepts_wrapped_size :
  let name := replicate 255 65 in
  let w := demo_world [] (prefix_wire name (2 ^ 64 - 254)) (demo_files demo_dir) in
  exists r w', server_handle_file_transfer 5 (ServerOpt (Some (bs "d")) 9000 7)
                 (Header 1065 3 1 0 11) w = Some (r, w') /\
    exists rest, n_out (w_net w') = reply_ready_ok ++ rest.
Proof.
  eexists _, _. split; [vm_compute; reflexivity|]. eexists [_; _; _; _]. reflexivity.
Qed.

(** ** Properties *)

(** A connection cannot do harm, whatever bytes the peer sends and whatever
    fails: [handle_protocol_connection] always returns; no descriptor leaks; at
    most one object of the file system changed, an entry directly inside the
    served directory -- the file received, or its temporary file, which did not
    exist before; and then the text message did not. *)
Theorem connection_confined conn opt base w (Hready : conn_ready conn opt base w) :
  wp (handle_protocol_connection conn opt) (fun rc w' =>
    (rc = 0 \/ rc = 1) /\ f_fds (w_files w') = f_fds (w_files w) /\ fds_ok (w_files w') /\
    (w_files w' = w_files w \/ w_prog w' = w_prog w) /\
    (f_fs (w_files w') = f_fs (w_files w) \/
     exists p name d m, entry_name base p = Some name /\
       f_fs (w_files w') = <[p := NFile d m]> (f_fs (w_files w)))) w.
Proof.
  wp_use handle_protocol_connection_spec; [done|]. intros rc w' (Hfd & Hok & Ho).
  destruct Ho as [Hw Hp _|h b e _ _ _ Hw _ _ _|h b w1 r _ _ _ _ Hf1 _ Hp Hft|h b w1 r _ _ _ _ _ _ Hp Hfs _].
  - split_and!; auto. left. by rewrite Hw.
  - split_and!; [destruct (result_ok e); auto|done|done|by left|left; by rewrite Hw].
  - assert (Hw1 : w_files w1 = w_files w) by frame.
    split_and!; [destruct (result_ok r); auto|done|done|by right|].
    rewrite <- Hw1. by apply transfer_confined with h r.
  - split_and!; [destruct (result_ok r); auto|done|done|by right|by left].
Qed.

Lemma connection_confined_witness :
  let w := demo_world [FShort 5; FNone; FErr EIO]
             [4; 41; 3; 1; 0; 0; 0; 0; 0; 0; 0; 0; 13; 0; 1; 102; 0; 0; 0; 0; 0; 0; 0; 2; 65; 66]
             (demo_files demo_dir) in
  wp (handle_protocol_connection 5 (ServerOpt (Some (bs "d")) 9000 7)) (fun rc w' =>
    (rc = 0 \/ rc = 1) /\ f_fds (w_files w') = f_fds (w_files w) /\ fds_ok (w_files w') /\
    (w_files w' = w_files w \/ w_prog w' = w_prog w) /\
    (f_fs (w_files w') = f_fs (w_files w) \/
     exists p name d m, entry_name (bs "d") p = Some name /\
       f_fs (w_files w') = <[p := NFile d m]> (f_fs (w_files w)))) w.
Proof.
  apply connection_confined, demo_conn_ready; [reflexivity|apply demo_dir_sizes_fit].
Defined.



(** C26: a download is exact: whatever fails, [server_handle_get_file] sends the
    peer a rejection or -- in this order, without gaps, as far as the connection
    lasts -- the ready frame, the prefix with the name and the file's size, the
    contents, and a final frame that is OK only after all of the contents; it
    releases its descriptor and changes no file. *)
Theorem server_handle_get_file_exact conn opt base h w (Hready : conn_ready conn opt base w) :
  wp (server_handle_get_file conn opt h) (fun r w' =>
    get_file_outcome base h w w' r /\ f_fs (w_files w') = f_fs (w_files w) /\
    f_fds (w_files w') = f_fds (w_files w)) w.
Proof.
  destruct Hready as [Hc Hbase He Hfds Hbytes Hsz _].
  wp_use server_handle_get_file_spec; try done.
  by intros r w' (_ & (Hfs & Hfd & _) & Ho & _).
Qed.

Lemma server_handle_get_file_exact_witness :
  let w := demo_world [FNone; FNone; FShort 1; FErr EIO] [0; 1; 102] (demo_files demo_shared) in
  wp (server_handle_get_file 5 (ServerOpt (Some (bs "d")) 9000 7) (Header 1065 3 3 0 3))
    (fun r w' => get_file_outcome (bs "d") (Header 1065 3 3 0 3) w w' r /\
       f_fs (w_files w') = f_fs (w_files w) /\ f_fds (w_files w') = f_fds (w_files w)) w.
Proof.
  apply server_handle_get_file_exact, demo_conn_ready; [reflexivity|apply demo_sizes_fit].
Defined.

(** Protocol and HTTP connections are told apart without consuming anything:
    bytes that start with the magic number are never taken for HTTP, a first
    byte that is a capital letter is never taken for the protocol, and when the
    peek does not fail and two bytes are there the kind is always decided. *)
Theorem server_detect_connection_kind_exact conn w :
  wp (server_detect_connection_kind conn) (fun k w' =>
    w_net w' = w_net w /\ w_files w' = w_files w /\
    (forall h rest, magic h = HF_PROTOCOL_MAGIC ->
       n_in (w_net w) = snd (encode_header (Some h)) ++ rest -> k <> SERVER_CONN_KIND_HTTP) /\
    (forall c rest, n_in (w_net w) = c :: rest -> 65 <= c <= 90 -> k <> SERVER_CONN_KIND_PROTOCOL) /\
    (w_faults w = [] -> 2 <= zlen (n_in (w_net w)) -> k <> SERVER_CONN_KIND_INVALID)) w.
Proof.
  unfold server_detect_connection_kind. wp_step. apply wp_sys_recv_peek; [lia| |].
  - intros w' Hf Hlt. simpl. wp_step.
    assert (w_faults w <> []) by (rewrite no_faults_flen; lia). split_and!; try done; frame.
  - intros d rest w' Hf Hin Hle H0. assert (w_net w' = w_net w) by apply Hf.
    assert (w_files w' = w_files w) by frame.
    change (u8 (Z.shiftr HF_PROTOCOL_MAGIC 8)) with 4.
    change (u8 (Z.land HF_PROTOCOL_MAGIC 255)) with 41.
    destruct (Z.ltb_spec (zlen d) 0); [lia|]. destruct (Z.ltb_spec (zlen d) 2) as [Hs|Hs].
    { wp_step. split_and!; try done. intros E Hl. specialize (H0 E). lia. }
    destruct d as [|b0 [|b1 d]]; [simpl in Hs; lia..|]. cbn [nth]. rewrite Hin.
    assert (Hmagic : forall h rest', magic h = HF_PROTOCOL_MAGIC ->
      (b0 :: b1 :: d) ++ rest = snd (encode_header (Some h)) ++ rest' -> b0 = 4 /\ b1 = 41).
    { intros h rest' Hm E. simpl in E. rewrite Hm in E. injection E as -> -> _. done. }
    destruct ((b0 =? 4) && (b1 =? 41)) eqn:Em.
    { wp_step. split_and!; try done. intros c r' [= <- _] Hc. lia. }
    destruct ((65 <=? b0) && (b0 <=? 90)) eqn:Eh.
    { wp_step. split_and!; try done. intros h r' Hm E.
      destruct (Hmagic h r' Hm E) as [-> ->]. done. }
    wp_step. split_and!; try done. intros c r' [= <- _] Hc. lia.
Qed.
