(* ===== verification/Client.v ===== *)
(** * The client (src/client.c)

    One command per run: send a file, send a text message, get a file. Each
    connects, sends its request, and checks the response frames of the server;
    [goto CLEAN_UP] is the code after the nested calls that return what it needs.
    The bytes the server will send are [n_in] of the world. Frames and outputs
    are addresses of local variables, so the guards on them are left out. *)

From S2P Require Import Prelude CLib World Logic Fs Net Protocol TransferIo MessageStore Cli.
From S2P Require Import AppService Server.

(** ** Definitions *)

(** The exit code and the frame. *)
Definition client_recv_response (sock expected_phase : Z) : M (Z * res_frame_t) :=
  let! (res, frame) := recv_res_frame sock (ResFrame 0 0 0) in
  if negb (result_ok res) then ret (1, frame)
  else if negb (phase frame =? expected_phase) then ret (1, frame)
  else if status frame =? PROTO_STATUS_OK then
    if negb (error_code frame =? result_code PROTOCOL_OK) then ret (1, frame) else ret (0, frame)
  else if error_code frame =? result_code PROTOCOL_OK then ret (1, frame)
  else ret (0, frame).

Definition client_check_response (frame : option res_frame_t) (expected_phase : Z) : Z :=
  match frame with
  | None => 1
  | Some frame =>
      if status frame =? PROTO_STATUS_OK then 0
      else if expected_phase =? PROTO_PHASE_READY then
        if status frame =? PROTO_STATUS_REJECTED then 1 else 1
      else if expected_phase =? PROTO_PHASE_FINAL then
        if status frame =? PROTO_STATUS_FAILED then 1 else 1
      else 1
  end.

Definition client_recv_checked_response (sock expected_phase : Z) : M Z :=
  let! (r, frame) := client_recv_response sock expected_phase in
  if negb (r =? 0) then ret 1
  else if negb (client_check_response (Some frame) expected_phase =? 0) then ret 1
  else ret 0.

Definition client_shutdown_write (sock : Z) : M unit :=
  let! _ := sys_sockcall in ret tt.

Definition client_set_socket_timeouts (sock : Z) : M Z :=
  let! r := sys_sockcall in
  if r <? 0 then ret 1
  else
    let! r := sys_sockcall in
    if r <? 0 then ret 1 else ret 0.

(** [sizeof(preamble_buf) - sizeof(header_buf)]. *)
Definition PREAMBLE_PAYLOAD_CAP : Z := 2 + HF_PROTOCOL_MAX_FILE_NAME_LEN + 8.

Definition client_send_header_payload (sock msg_type payload_size : Z) (payload : bytes) : M Z :=
  let header := Header (magic init_header) (version init_header) msg_type HF_MSG_FLAG_NONE
                       payload_size in
  let '(proto_res, header_buf) := encode_header (Some header) in
  if negb (result_ok proto_res) then ret 1
  else if zlen payload <=? PREAMBLE_PAYLOAD_CAP then
    let! proto_res := proto_send_payload sock (Some (header_buf ++ payload)) in
    if negb (result_ok proto_res) then ret 1 else ret 0
  else
    let! proto_res := proto_send_payload sock (Some header_buf) in
    if negb (result_ok proto_res) then ret 1
    else if 0 <? zlen payload then
      let! proto_res := proto_send_payload sock (Some payload) in
      if negb (result_ok proto_res) then ret 1 else ret 0
    else ret 0.

(** The exit code and [*sock_out]; -1 is what [socket_init] stores. *)
Definition client_connect (ip : bytes) (port : Z) : M (Z * Z) :=
  let! sock := sys_socket in
  if is_socket_invalid sock then ret (1, -1)
  else if negb (inet_pton ip) then
    let! _ := socket_close sock in ret (1, -1)
  else
    let! r := sys_sockcall in
    if r <? 0 then let! _ := socket_close sock in ret (1, -1)
    else
      let! r := client_set_socket_timeouts sock in
      if negb (r =? 0) then let! _ := socket_close sock in ret (1, -1)
      else ret (0, sock).

(** [None] is a non-zero result. *)
Definition client_get_file_size (in_fd : Z) : M (option Z) :=
  let! st := sys_fstat in_fd in
  match st with
  | None => ret None
  | Some st =>
      match st_kind st with
      | S_IFREG => if st_size st <? 0 then ret None else ret (Some (u64 (st_size st)))
      | _ => ret None
      end
  end.

Definition client_send_file_body (in_fd sock content_size : Z) : M Z :=
  let! send_file_res := net_send_file_best_effort sock in_fd content_size in
  ret (if bool_decide (send_file_res = NET_SEND_FILE_OK) then 0 else 1).

(** The attempts: the exit code, [tmp_path], [*fd_out]. *)
Fixpoint client_open_temp_attempts (pid : Z) (final_path : bytes) (tmp_path_cap : Z)
    (attempts : list Z) (tmp_path : bytes) : M (Z * bytes * Z) :=
  match attempts with
  | [] => ret (1, tmp_path, -1)
  | attempt :: attempts =>
      let '(r, tmp_path) := fs_build_temp_path tmp_path_cap (Some final_path) pid attempt in
      if negb (r =? 0) then ret (1, tmp_path, -1)
      else
        let! out := fs_open_temp_file (Some tmp_path) in
        if negb (out =? -1) then ret (0, tmp_path, out)
        else
          let! errno := get_errno in
          if negb (errno =? EEXIST) then ret (1, tmp_path, -1)
          else client_open_temp_attempts pid final_path tmp_path_cap attempts tmp_path
  end.

Definition client_open_temp_download (final_path : bytes) (tmp_path_cap : Z) : M (Z * bytes * Z) :=
  let! w := get in
  client_open_temp_attempts (e_pid (w_env w)) final_path tmp_path_cap [0; 1; 2] [].

Definition client_recv_file_body (sock out_fd content_size : Z) : M Z :=
  let! recv_res := net_recv_file_best_effort sock out_fd content_size in
  ret (if bool_decide (recv_res = NET_RECV_FILE_OK) then 0 else 1).

(** The contents and the reply to them. *)
Definition client_send_file_contents (sock in_fd content_size : Z) : M Z :=
  let! r := client_send_file_body in_fd sock content_size in
  if negb (r =? 0) then ret 1
  else
    client_shutdown_write sock ;;!
    let! r := client_recv_checked_response sock PROTO_PHASE_FINAL in
    if negb (r =? 0) then ret 1 else ret 0.

(** Sending a file, over an open connection: the exit code. *)
Definition client_send_file_exchange (sock in_fd msg_type : Z) (file_name : bytes)
    (file_name_len content_size : Z) : M Z :=
  let payload_size := u64 (proto_file_transfer_prefix_size file_name_len + content_size) in
  let '(proto_res, file_prefix_buf) := encode_file_prefix (Some file_name) content_size in
  if negb (result_ok proto_res) then ret 1
  else
    let file_prefix_size := proto_file_transfer_prefix_size file_name_len in
    let! r := client_send_header_payload sock msg_type payload_size
                (ztake file_prefix_size file_prefix_buf) in
    if negb (r =? 0) then ret 1
    else
      let! r := client_recv_checked_response sock PROTO_PHASE_READY in
      if negb (r =? 0) then ret 1 else client_send_file_contents sock in_fd content_size.

(** From the connection on: the exit code, [sock] and [in] at [CLEAN_UP]. *)
Definition client_send_file_connect (opt : client_opt_t) (in_fd : Z) (file_name : option bytes)
    (file_name_len content_size : Z) : M (Z * Z * Z) :=
  let! (r, sock) := client_connect (c_ip opt) (c_port opt) in
  if negb (r =? 0) then ret (1, -1, in_fd)
  else
    let! exit_code :=
      client_send_file_exchange sock in_fd (c_msg_type opt) (default [] file_name)
        file_name_len content_size in
    ret (exit_code, sock, in_fd).

(** Up to the label [CLEAN_UP]: the exit code, [sock] and [in]. *)
Definition client_send_file_steps (opt : client_opt_t) : M (Z * Z * Z) :=
  let '(r, file_name) := fs_basename_from_path (c_path opt) in
  if negb (r =? 0) then ret (1, -1, -1)
  else
    match proto_get_file_name_len file_name with
    | None => ret (1, -1, -1)
    | Some file_name_len =>
        let! in_fd := fs_open (default [] (c_path opt)) O_RDONLY 0 in
        if in_fd =? -1 then ret (1, -1, -1)
        else if CHUNK_SIZE <? proto_file_transfer_prefix_size file_name_len then
          ret (1, -1, in_fd)
        else
          let! content_size := client_get_file_size in_fd in
          match content_size with
          | None => ret (1, -1, in_fd)
          | Some content_size =>
              if HF_MAX_FILE_SIZE <? content_size then ret (1, -1, in_fd)
              else client_send_file_connect opt in_fd file_name file_name_len content_size
          end
    end.

Definition client_send_file_raw (opt : client_opt_t) : M Z :=
  let! (exit_code, sock, in_fd) := client_send_file_steps opt in
  let! _ := socket_close sock in
  (if negb (in_fd =? -1) then let! _ := fs_close in_fd in ret tt else ret tt) ;;!
  ret exit_code.

(** Sending a message, over an open connection: the exit code. *)
Definition client_send_message_exchange (sock : Z) (message : bytes) : M Z :=
  let! r := client_send_header_payload sock HF_MSG_TYPE_TEXT_MESSAGE (strlen message) message in
  if negb (r =? 0) then ret 1
  else
    client_shutdown_write sock ;;!
    let! r := client_recv_checked_response sock PROTO_PHASE_FINAL in
    if negb (r =? 0) then ret 1 else ret 0.

(** [message] is never [NULL] here: [parse_args] sets it for this command. *)
Definition client_send_message (opt : client_opt_t) : M Z :=
  let message := default [] (c_message opt) in
  let message_len := strlen message in
  let! (exit_code, sock) :=
    (if HF_PROTOCOL_MAX_TEXT_MESSAGE_SIZE <? message_len then ret (1, -1)
     else
       let! (r, sock) := client_connect (c_ip opt) (c_port opt) in
       if negb (r =? 0) then ret (1, -1)
       else
         let! exit_code := client_send_message_exchange sock message in
         ret (exit_code, sock)) in
  let! _ := socket_close sock in
  ret exit_code.

(** After the last byte: the exit code, [out] and [tmp_path] at [CLEAN_UP]. *)
Definition client_get_file_finish (sock : Z) (output_path tmp_path : bytes) (out : Z)
    : M (Z * Z * bytes) :=
  let! r := fs_close out in
  if negb (r =? 0) then ret (1, -1, tmp_path)
  else
    let! r := client_recv_checked_response sock PROTO_PHASE_FINAL in
    if negb (r =? 0) then ret (1, -1, tmp_path)
    else
      let! r := fs_commit_temp_file (Some tmp_path) (Some output_path) in
      if negb (r =? 0) then ret (1, -1, tmp_path) else ret (0, -1, []).

(** Receiving the offered file, from the temporary file on: the exit code,
    [out] and [tmp_path] at the label [CLEAN_UP]. *)
Definition client_get_file_store (sock content_size : Z) (output_path : bytes)
    : M (Z * Z * bytes) :=
  let! (r, tmp_path, out) := client_open_temp_download output_path PATH_CAP in
  if negb (r =? 0) then ret (1, -1, tmp_path)
  else
    let! r := client_recv_file_body sock out content_size in
    if negb (r =? 0) then ret (1, out, tmp_path)
    else client_get_file_finish sock output_path tmp_path out.

(** From the server's offer on. *)
Definition client_get_file_offered (sock : Z) (output_path : option bytes) : M (Z * Z * bytes) :=
  let! (proto_res, offered_name, content_size) := proto_recv_file_transfer_prefix sock in
  if negb (result_ok proto_res) then ret (1, -1, [])
  else if HF_MAX_FILE_SIZE <? content_size then ret (1, -1, [])
  else
    match output_path with
    | Some output_path => client_get_file_store sock content_size output_path
    | None =>
        if negb (fs_validate_file_name offered_name =? 0) then ret (1, -1, [])
        else client_get_file_store sock content_size (default [] offered_name)
    end.

(** The exchange, over an open connection. *)
Definition client_get_file_exchange (sock : Z) (remote_path : bytes) (output_path : option bytes)
    (remote_name_len : Z) : M (Z * Z * bytes) :=
  let request_size := proto_file_name_only_size remote_name_len in
  let '(proto_res, request_buf) := encode_file_name_only (Some remote_path) in
  if negb (result_ok proto_res) then ret (1, -1, [])
  else
    let! r := client_send_header_payload sock HF_MSG_TYPE_GET_FILE request_size
                (ztake request_size request_buf) in
    if negb (r =? 0) then ret (1, -1, [])
    else
      let! r := client_recv_checked_response sock PROTO_PHASE_READY in
      if negb (r =? 0) then ret (1, -1, []) else client_get_file_offered sock output_path.

(** The start of [CLEAN_UP] in [client_get_file]. *)
Definition get_file_cleanup (out : Z) (tmp_path : bytes) : M unit :=
  (if negb (out =? -1) then let! _ := fs_close out in ret tt else ret tt) ;;!
  if negb (bool_decide (tmp_path = [])) then fs_remove_ignore_error (Some tmp_path) else ret tt.

Definition client_get_file (opt : client_opt_t) : M Z :=
  match c_remote_path opt with
  | None => ret 1
  | Some remote_path =>
      if negb (fs_validate_file_name (Some remote_path) =? 0) then ret 1
      else
        match proto_get_file_name_len (Some remote_path) with
        | None => ret 1
        | Some remote_name_len =>
            let! (r, sock) := client_connect (c_ip opt) (c_port opt) in
            if negb (r =? 0) then ret 1
            else
              let! (exit_code, out, tmp_path) :=
                client_get_file_exchange sock remote_path (c_output_path opt) remote_name_len in
              get_file_cleanup out tmp_path ;;!
              let! _ := socket_close sock in
              ret exit_code
        end
  end.

Definition client (cli_opt : option client_opt_t) : M Z :=
  match cli_opt with
  | None => ret 1
  | Some opt =>
      if c_msg_type opt =? HF_MSG_TYPE_SEND_FILE then client_send_file_raw opt
      else if c_msg_type opt =? HF_MSG_TYPE_TEXT_MESSAGE then client_send_message opt
      else if c_msg_type opt =? HF_MSG_TYPE_GET_FILE then client_get_file opt
      else ret 1
  end.

(** *** Specifications *)

(** The success frame of a phase. *)
Definition reply_ok (ph : Z) : bytes := [ph; 0; 0; 0].

(** The header of a request, and the request to store [size] bytes as [name]. *)
Definition request_header (msg_type payload_size : Z) : bytes :=
  snd (encode_header (Some (Header HF_PROTOCOL_MAGIC HF_PROTOCOL_VERSION msg_type HF_MSG_FLAG_NONE
                                   payload_size))).
Definition file_request (msg_type : Z) (name : bytes) (size : Z) : bytes :=
  request_header msg_type (proto_file_transfer_prefix_size (zlen name) + size) ++
  prefix_wire name size.

(** An exchange that succeeds on 0: all of [request] was sent and [reply] received,
    and nothing but a failure or another reply stands in the way. On 1 the first
    bytes of [request] were sent. [R] says what became of the rest of the world. *)
Definition exchanged (R : world -> world -> Prop) (request reply : bytes) (w : world) (r : Z) (w' : world)
    : Prop :=
  only_io w w' /\ R w w' /\ (r = 0 \/ r = 1) /\ said request w w' /\
  (r = 0 -> said_all request w w' /\ n_in (w_net w) = reply ++ n_in (w_net w')) /\
  (w_faults w = [] -> forall rest, n_in (w_net w) = reply ++ rest -> r = 0 /\ n_in (w_net w') = rest).

Definition same_files (w w' : world) : Prop := w_files w' = w_files w.

(** ** Theorems *)

Lemma client_recv_checked_response_spec sock ph w :
  0 <= sock -> Forall is_byte (n_in (w_net w)) ->
  wp (client_recv_checked_response sock ph) (fun r w' =>
    only_net w w' /\ n_out (w_net w') = n_out (w_net w) /\ (r = 0 \/ r = 1) /\
    (exists b, n_in (w_net w) = b ++ n_in (w_net w') /\ (r = 0 -> b = reply_ok ph)) /\
    (w_faults w = [] -> forall rest, ph = PROTO_PHASE_READY \/ ph = PROTO_PHASE_FINAL ->
       n_in (w_net w) = reply_ok ph ++ rest -> r = 0 /\ n_in (w_net w') = rest)) w.
Proof.
  intros Hs Hb. unfold client_recv_checked_response, client_recv_response. do 2 wp_step.
  wp_use recv_res_frame_spec; [done|done|].
  intros [r f] w1 (Hf & Hout & (b & Hin & Hr) & Hlive).
  assert (Hlive' : w_faults w = [] -> forall rest,
            ph = PROTO_PHASE_READY \/ ph = PROTO_PHASE_FINAL ->
            n_in (w_net w) = reply_ok ph ++ rest ->
            r = PROTOCOL_OK /\ f = ResFrame ph PROTO_STATUS_OK 0 /\ n_in (w_net w1) = rest).
  { intros E rest Hph Hin'. assert (Hok : res_frame_ok (ResFrame ph PROTO_STATUS_OK 0)).
    { split; [done|by left]. }
    apply (Hlive E _ rest Hok). by rewrite (encode_res_frame_ok _ Hok). }
  unfold result_ok. case_bool_decide as Hres; cbn [negb]; cycle 1.
  { wp_step. cbn [negb Z.eqb]. wp_step. split_and!; auto; [by exists b|].
    intros E rest Hph Hin'. by destruct (Hlive' E rest Hph Hin') as [-> _]. }
  subst r. destruct (Hr eq_refl) as [Henc Hok].
  destruct (Z.eqb_spec (phase f) ph) as [Hph|Hph]; cbn [negb]; cycle 1.
  { wp_step. cbn [negb Z.eqb]. wp_step. split_and!; auto; [by exists b|].
    intros E rest Hph' Hin'. by destruct (Hlive' E rest Hph' Hin') as (_ & -> & _). }
  destruct (Z.eqb_spec (status f) PROTO_STATUS_OK) as [Hst|Hst].
  - change (result_code PROTOCOL_OK) with 0. destruct (Z.eqb_spec (error_code f) 0) as [He|He];
      cbn [negb]; cbv iota.
    + wp_step. cbn [negb Z.eqb]. unfold client_check_response. rewrite Hst. simpl. wp_step.
      split_and!; auto.
      * exists b. split; [done|]. intros _. rewrite (encode_res_frame_ok f Hok) in Henc.
        injection Henc as <-. by rewrite Hph, Hst, He.
      * intros E rest Hph' Hin'. by destruct (Hlive' E rest Hph' Hin') as (_ & _ & ?).
    + wp_step. cbn [negb Z.eqb]. wp_step. split_and!; auto; [by exists b|].
      intros E rest Hph' Hin'. by destruct (Hlive' E rest Hph' Hin') as (_ & -> & _).
  - assert (Hbad : forall r, r <> 0 -> client_check_response (Some f) ph = 1 /\
      (w_faults w = [] -> forall rest, ph = PROTO_PHASE_READY \/ ph = PROTO_PHASE_FINAL ->
       n_in (w_net w) = reply_ok ph ++ rest -> r = 0 /\ n_in (w_net w1) = rest)).
    { intros r _. split.
      - unfold client_check_response. destruct (Z.eqb_spec (status f) PROTO_STATUS_OK); [done|].
        by repeat case_if.
      - intros E rest Hph' Hin'. by destruct (Hlive' E rest Hph' Hin') as (_ & -> & _). }
    destruct (Hbad 1 ltac:(done)) as [Hc Hl].
    destruct (error_code f =? result_code PROTOCOL_OK); wp_step; cbn [negb Z.eqb].
    + wp_step. split_and!; auto. by exists b.
    + rewrite Hc. cbn [negb Z.eqb]. wp_step. split_and!; auto. by exists b.
Qed.

Lemma client_send_header_payload_spec sock msg_type payload_size payload w :
  0 <= sock ->
  wp (client_send_header_payload sock msg_type payload_size payload) (fun r w' =>
    only_net w w' /\ n_in (w_net w') = n_in (w_net w) /\ (r = 0 \/ r = 1) /\
    (w_faults w = [] -> r = 0) /\
    said (request_header msg_type payload_size ++ payload) w w' /\
    (r = 0 -> said_all (request_header msg_type payload_size ++ payload) w w')) w.
Proof.
  intros Hs. unfold client_send_header_payload, request_header. cbn [magic version init_header].
  destruct (encode_header _) as [r0 hdr] eqn:Henc. cbn [snd].
  assert (r0 = PROTOCOL_OK) as -> by (unfold encode_header in Henc; by injection Henc).
  change (negb (result_ok PROTOCOL_OK)) with false. cbv iota.
  assert (Hsaid : forall d rest data w1 w2, data = d ++ rest ->
    n_out (w_net w2) = n_out (w_net w1) ++ d -> said data w1 w2).
  { intros d rest data w1 w2 -> H. exists d. split; [by exists rest|done]. }
  destruct (zlen payload <=? PREAMBLE_PAYLOAD_CAP).
  - wp_step. wp_use proto_send_payload_spec; [done|].
    intros r w1 (Hf & Hin & H0 & d & rest & Hd & Hout & Hr). unfold result_ok.
    case_bool_decide as Hres; cbn [negb]; wp_step; split_and!; auto; try done.
    + by eapply Hsaid.
    + intros _. by rewrite Hd, Hr, app_nil_r.
    + intros E. by destruct Hres, H0.
    + by eapply Hsaid.
  - wp_step. wp_use proto_send_payload_spec; [done|].
    intros r w1 (Hf & Hin & H0 & d & rest & Hd & Hout & Hr). unfold result_ok at 1.
    case_bool_decide as Hres; cbn [negb]; cycle 1.
    { wp_step. split_and!; auto; try done; [intros E; by destruct Hres, H0|].
      apply said_more. by eapply Hsaid. }
    assert (Hall : said_all hdr w w1) by (by rewrite Hd, Hr, app_nil_r).
    destruct (Z.ltb_spec 0 (zlen payload)) as [Hl|Hl]; cycle 1.
    { destruct payload; [|simpl in Hl; lia]. wp_step. rewrite app_nil_r.
      split_and!; auto; by apply said_all_said. }
    wp_step. wp_use proto_send_payload_spec; [done|].
    intros r2 w2 (Hf2 & Hin2 & H02 & d2 & rest2 & Hd2 & Hout2 & Hr2). unfold result_ok.
    assert (Hfl : w_faults w = [] -> r2 = PROTOCOL_OK).
    { intros E. apply H02. eapply only_io_no_faults; [|done]. frame. }
    case_bool_decide as Hres2; cbn [negb]; wp_step; (split; [by etrans|]); split_and!; auto; try congruence.
    + eapply said_trans; [done|by eapply Hsaid].
    + intros _. eapply said_all_trans; [done|]. by rewrite Hd2, Hr2, app_nil_r.
    + intros E. by destruct Hres2, Hfl.
    + eapply said_trans; [done|by eapply Hsaid].
Qed.

Lemma said_all_net s w1 w2 w3 : n_out (w_net w3) = n_out (w_net w2) -> said_all s w1 w2 -> said_all s w1 w3.
Proof. unfold said_all. by intros ->. Qed.

Lemma said_before s w1 w2 w3 : n_out (w_net w3) = n_out (w_net w2) -> said s w1 w2 -> said s w1 w3.
Proof. intros E (d & Hd & H). exists d. split; [done|by eapply said_all_net]. Qed.

(** *** Exchanges *)

Lemma exchanged_mono R R' q p w r w' :
  (R w w' -> R' w w') -> exchanged R q p w r w' -> exchanged R' q p w r w'.
Proof. intros H (H1 & H2 & H3). split; [done|]. split; [by apply H|done]. Qed.

Lemma exchanged_none R w w' :
  only_io w w' -> R w w' -> w_net w' = w_net w -> exchanged R [] [] w 0 w'.
Proof.
  intros H1 H2 E. split_and!; try done; [by left|by apply said_net| |by rewrite E].
  intros _. rewrite E. split; [by apply said_nil; rewrite E|done].
Qed.

Lemma exchanged_fail R q1 p1 q2 p2 w r w' :
  exchanged R q1 p1 w r w' -> r <> 0 -> exchanged R (q1 ++ q2) (p1 ++ p2) w 1 w'.
Proof.
  intros (H1 & H2 & _ & H4 & _ & H6) Hr. split_and!; try done; [by right|by apply said_more|].
  intros E rest Hin. rewrite <- app_assoc in Hin. by destruct Hr; apply (H6 E _ Hin).
Qed.

Lemma exchanged_seq (R1 R2 R : world -> world -> Prop) q1 p1 q2 p2 w w1 r w' :
  (R1 w w1 -> R2 w1 w' -> R w w') ->
  exchanged R1 q1 p1 w 0 w1 -> exchanged R2 q2 p2 w1 r w' -> exchanged R (q1 ++ q2) (p1 ++ p2) w r w'.
Proof.
  intros HR (H1 & H2 & _ & _ & H5 & H6) (H1' & H2' & H3' & H4' & H5' & H6').
  destruct (H5 eq_refl) as [Hall Hin]. split; [by etrans|]. split; [by apply HR|]. split_and!; [done| | |].
  - by eapply said_trans.
  - intros Er. destruct (H5' Er) as [Hall' Hin']. split; [by eapply said_all_trans|].
    by rewrite Hin, Hin', app_assoc.
  - intros E rest Hr. rewrite <- app_assoc in Hr. destruct (H6 E _ Hr) as [_ Hr'].
    apply H6'; [by eapply only_io_no_faults|done].
Qed.

(** One part of an exchange after the other, as the client has it. *)
Lemma wp_exchange (R1 R2 R : world -> world -> Prop) q1 p1 q2 p2 (m k : M Z) w :
  (forall w1, R1 w w1 -> R w w1) -> (forall w1 w2, R1 w w1 -> R2 w1 w2 -> R w w2) ->
  wp m (exchanged R1 q1 p1 w) w ->
  (forall w1, exchanged R1 q1 p1 w 0 w1 -> wp k (exchanged R2 q2 p2 w1) w1) ->
  wp (let! r := m in if negb (r =? 0) then ret 1 else k) (exchanged R (q1 ++ q2) (p1 ++ p2) w) w.
Proof.
  intros H1 H2 Hm Hk. wp_step. eapply wp_mono; [exact Hm|]. intros r w1 H.
  destruct (Z.eqb_spec r 0) as [->|Hr]; cbn [negb].
  - eapply wp_mono; [by apply Hk|]. intros r w2 H'. eapply exchanged_seq; [apply H2|done|done].
  - wp_step. eapply exchanged_mono; [apply H1|by eapply exchanged_fail].
Qed.

Lemma exchanged_bytes R q p w w' :
  exchanged R q p w 0 w' -> Forall is_byte (n_in (w_net w)) -> Forall is_byte (n_in (w_net w')).
Proof. intros (_ & _ & _ & _ & H & _). destruct (H eq_refl) as [_ ->]. by intros [_ ?]%Forall_app. Qed.

Lemma send_header_exchanged sock msg_type payload_size payload w :
  0 <= sock ->
  wp (client_send_header_payload sock msg_type payload_size payload)
    (exchanged same_files (request_header msg_type payload_size ++ payload) [] w) w.
Proof.
  intros Hs. wp_use client_send_header_payload_spec; [done|]. intros r w' (Hf & Hin & Hr & H0 & Hs' & Ha).
  split; [frame|]. split; [unfold same_files; frame|]. split_and!; try done.
  - intros Er. split; [by apply Ha|by rewrite Hin].
  - intros E rest Hrest. split; [by apply H0|by rewrite Hin].
Qed.

Lemma recv_response_exchanged sock ph w :
  0 <= sock -> Forall is_byte (n_in (w_net w)) -> ph = PROTO_PHASE_READY \/ ph = PROTO_PHASE_FINAL ->
  wp (client_recv_checked_response sock ph) (exchanged same_files [] (reply_ok ph) w) w.
Proof.
  intros Hs Hb Hph. wp_use client_recv_checked_response_spec; [done..|].
  intros r w' (Hf & Hout & Hr & (b & Hin & Hb') & Hlive). split; [frame|]. split; [unfold same_files; frame|].
  split_and!; try done.
  - by apply said_all_said, said_nil.
  - intros Er. split; [by apply said_nil|]. by rewrite Hin, (Hb' Er).
  - intros E rest Hrest. by apply Hlive.
Qed.

Lemma next_fd_refl f : next_fd f f.
Proof. split_and!; done || lia. Qed.

Lemma next_fd_trans f1 f2 f3 : next_fd f1 f2 -> next_fd f2 f3 -> next_fd f1 f3.
Proof. unfold next_fd. intros. destruct_and!. split_and!; congruence || lia. Qed.

Lemma next_fd_ok f f' : fds_ok f -> next_fd f f' -> fds_ok f'.
Proof. intros Hok (H1 & H2 & H3 & H4). by eapply fds_ok_same. Qed.

Lemma socket_close_spec s w :
  wp (socket_close s) (fun _ w' => only_errno w w') w.
Proof.
  unfold socket_close. destruct (is_socket_invalid s); [by wp_step|].
  apply wp_sys_sockcall; done.
Qed.

Lemma client_set_socket_timeouts_spec sock w :
  wp (client_set_socket_timeouts sock) (fun r w' => only_errno w w' /\
    (w_faults w = [] -> r = 0)) w.
Proof.
  unfold client_set_socket_timeouts. wp_step. apply wp_sys_sockcall.
  - intros w1 Hf1 Hlt. cbn [Z.ltb Z.compare]. wp_step. split; [done|]. rewrite no_faults_flen. lia.
  - intros w1 Hf1 H1. cbn [Z.ltb Z.compare]. wp_step. apply wp_sys_sockcall.
    + intros w2 Hf2 Hlt. cbn [Z.ltb Z.compare]. wp_step. split; [by etrans|]. rewrite no_faults_flen.
      assert ((flen w1 <= flen w)%nat) by frame. lia.
    + intros w2 Hf2 H2. cbn [Z.ltb Z.compare]. wp_step. split; [by etrans|done].
Qed.

Lemma client_connect_spec ip port w :
  0 <= f_next (w_files w) ->
  wp (client_connect ip port) (fun '(r, sock) w' =>
    only_files w w' /\ next_fd (w_files w) (w_files w') /\
    (r = 0 /\ 0 <= sock \/ r = 1) /\
    (w_faults w = [] -> inet_pton ip = true -> r = 0)) w.
Proof.
  intros Hn. unfold client_connect. wp_step. apply wp_sys_socket.
  { intros w1 Hf1 Hlt. change (is_socket_invalid (-1)) with true. cbv iota. wp_step. assert (w_files w1 = w_files w) as -> by frame.
    split_and!; auto using next_fd_refl; [frame|]. rewrite no_faults_flen. lia. }
  intros w1 Hf1 Hfd1. assert (is_socket_invalid (f_next (w_files w)) = false) as ->
    by (unfold is_socket_invalid; lia).
  assert (Hfl : w_faults w = [] -> w_faults w1 = []) by (apply only_io_no_faults; frame).
  assert (Hclose : forall w2, only_errno w1 w2 ->
    (w_faults w = [] -> inet_pton ip = true -> False) ->
    wp (let! _ := socket_close (f_next (w_files w)) in ret (1, -1)) (fun '(r, sock) w' =>
      only_files w w' /\ next_fd (w_files w) (w_files w') /\
      (r = 0 /\ 0 <= sock \/ r = 1) /\
      (w_faults w = [] -> inet_pton ip = true -> r = 0)) w2).
  { intros w2 Hf2 Hlive. wp_step. wp_use socket_close_spec. intros r w3 Hf3. wp_step.
    assert (w_files w3 = w_files w1) as -> by frame.
    split_and!; auto; [frame|]. intros E Hip. by destruct (Hlive E Hip). }
  destruct (inet_pton ip) eqn:Hip; cbn [negb]; [|by apply Hclose].
  wp_step. apply wp_sys_sockcall.
  { intros w2 Hf2 Hlt. cbn [Z.ltb Z.compare]. apply Hclose; [done|]. intros E%Hfl. rewrite no_faults_flen in E. lia. }
  intros w2 Hf2 _. cbn [Z.ltb Z.compare]. wp_step. wp_use client_set_socket_timeouts_spec. intros r w3 [Hf3 H3].
  destruct (Z.eqb_spec r 0) as [->|Hr]; cbn [negb]; cycle 1.
  { apply Hclose; [by etrans|]. intros E%Hfl _. apply Hr, H3. eapply only_io_no_faults; [|done]. frame. }
  wp_step. assert (w_files w3 = w_files w1) as -> by frame. split_and!; auto. frame.
Qed.

(** The size of the regular file behind a descriptor. *)
Lemma client_get_file_size_spec fd p pos wr n w :
  f_fds (w_files w) !! fd = Some (FdFile p pos wr) -> f_fs (w_files w) !! p = Some n ->
  wp (client_get_file_size fd) (fun r w' => only_errno w w' /\
    (forall v, r = Some v -> exists c m, n = NFile c m /\ v = u64 (zlen c)) /\
    (w_faults w = [] -> forall c m, n = NFile c m -> is_Some r)) w.
Proof.
  intros Hfd Hp. unfold client_get_file_size. wp_step. apply (wp_sys_fstat _ p n).
  { by exists pos, wr. } { done. }
  intros [st|] w1 Hf1 Hst.
  - subst st. destruct n as [c m|m|t m|m]; simpl; try (wp_step; by split_and!).
    destruct (Z.ltb_spec (zlen c) 0); [lia|]. wp_step. split_and!; eauto.
    intros v [= <-]. by exists c, m.
  - wp_step. split_and!; [done|done|]. intros E. destruct Hst.
    eapply only_io_no_faults; [|done]. frame.
Qed.

(** *** Sending a file *)

Lemma client_shutdown_write_spec sock w : wp (client_shutdown_write sock) (fun _ w' => only_errno w w') w.
Proof. unfold client_shutdown_write. wp_step. apply wp_sys_sockcall; intros w' H _; by wp_step. Qed.

(** The end of an exchange: the final response. *)
Lemma final_exchanged sock w :
  0 <= sock -> Forall is_byte (n_in (w_net w)) ->
  wp (client_shutdown_write sock ;;!
      let! r := client_recv_checked_response sock PROTO_PHASE_FINAL in
      if negb (r =? 0) then ret 1 else ret 0) (exchanged same_files [] reply_final_ok w) w.
Proof.
  intros Hs Hb. wp_step. wp_use client_shutdown_write_spec. intros [] w1 Hf1.
  assert (Hn1 : w_net w1 = w_net w) by apply Hf1. assert (Hw1 : w_files w1 = w_files w) by apply Hf1.
  eapply wp_mono; [apply (wp_exchange same_files same_files same_files [] reply_final_ok [] []);
    [done|unfold same_files; congruence|apply recv_response_exchanged; [done|by rewrite Hn1|by right]|]|].
  - intros w2 _. wp_step. by apply exchanged_none.
  - intros r w2 H. apply (exchanged_seq same_files same_files same_files [] [] [] reply_final_ok w w1).
    + unfold same_files. congruence.
    + apply exchanged_none; [frame|done|done].
    + exact H.
Qed.

Lemma send_body_exchanged sock fd p c m w :
  0 <= sock -> 0 <= fd -> zlen c <= HF_MAX_FILE_SIZE ->
  f_fds (w_files w) !! fd = Some (FdFile p 0 false) -> f_fs (w_files w) !! p = Some (NFile c m) ->
  wp (client_send_file_body fd sock (zlen c)) (exchanged (moved_fd fd p false) c [] w) w.
Proof.
  intros Hs Hfd Hmax Hopen Hfile. unfold client_send_file_body. wp_step.
  wp_use (net_send_file_best_effort_spec sock fd (zlen c) p false c m);
    [done|done|split; [lia|proto_lia]|done|done|].
  intros r w' (Hio & Hmv & (d & rest & Hd & Hle & Hn & Hok & _ & H0) & _). rewrite drop_0 in *. wp_step.
  assert (Hsaid : said_all d w w') by (unfold said_all; by rewrite Hn).
  split; [done|]. split; [done|]. rewrite Hn. split_and!.
  - case_bool_decide; auto.
  - rewrite Hd. by apply said_more, said_all_said.
  - case_bool_decide as Hr; [|done]. intros _. split; [|done]. specialize (Hok Hr).
    assert (rest = []) as ->; [|by rewrite Hd, app_nil_r].
    apply (f_equal length) in Hd. rewrite length_app in Hd. destruct rest; [done|simpl in Hd; lia].
  - intros E rest' Hin. rewrite bool_decide_eq_true_2; [done|]. by apply H0; [|lia].
Qed.

Lemma client_send_file_contents_spec sock fd p c m w :
  0 <= sock -> 0 <= fd -> zlen c <= HF_MAX_FILE_SIZE ->
  f_fds (w_files w) !! fd = Some (FdFile p 0 false) -> f_fs (w_files w) !! p = Some (NFile c m) ->
  Forall is_byte (n_in (w_net w)) ->
  wp (client_send_file_contents sock fd (zlen c)) (exchanged (moved_fd fd p false) c reply_final_ok w) w.
Proof.
  intros Hs Hfd Hmax Hopen Hfile Hbytes. unfold client_send_file_contents.
  eapply wp_mono; [apply (wp_exchange (moved_fd fd p false) same_files (moved_fd fd p false) c [] [] reply_final_ok)|].
  - done.
  - intros w1 w2 [pos H1] E. exists pos. by rewrite <- H1.
  - by eapply send_body_exchanged.
  - intros w1 H1. apply final_exchanged; [done|]. by eapply exchanged_bytes.
  - intros r w1. by rewrite app_nil_r.
Qed.

Lemma client_send_file_exchange_spec sock fd msg_type name p c m w :
  0 <= sock -> 0 <= fd -> name_length_ok name -> zlen c <= HF_MAX_FILE_SIZE ->
  f_fds (w_files w) !! fd = Some (FdFile p 0 false) -> f_fs (w_files w) !! p = Some (NFile c m) ->
  Forall is_byte (n_in (w_net w)) ->
  wp (client_send_file_exchange sock fd msg_type name (zlen name) (zlen c))
    (exchanged (moved_fd fd p false) (file_request msg_type name (zlen c) ++ c)
       (reply_ready_ok ++ reply_final_ok) w) w.
Proof.
  intros Hs Hfd Hname Hmax Hopen Hfile Hbytes. unfold client_send_file_exchange.
  rewrite encode_file_prefix_ok by done. change (negb (result_ok PROTOCOL_OK)) with false. cbv iota.
  rewrite ztake_ge by (rewrite prefix_wire_length; lia).
  assert (u64 (proto_file_transfer_prefix_size (zlen name) + zlen c) =
               proto_file_transfer_prefix_size (zlen name) + zlen c) as ->.
  { unfold u64. apply Z.mod_small.
    unfold name_length_ok, proto_file_transfer_prefix_size, proto_file_name_only_size in *. proto_lia. }
  assert (Hmv : forall w', same_files w w' -> moved_fd fd p false w w') by (intros; by eapply moved_fd_refl).
  assert (Hmv2 : forall w1 w2, same_files w w1 -> moved_fd fd p false w1 w2 -> moved_fd fd p false w w2)
    by (unfold same_files, moved_fd; intros ? ? ->; done).
  apply (wp_exchange same_files (moved_fd fd p false) _ (file_request msg_type name (zlen c)) []);
    [exact Hmv|exact Hmv2|by apply send_header_exchanged|].
  intros w1 H1. pose proof (exchanged_bytes _ _ _ _ _ H1 Hbytes) as Hb1. destruct H1 as (_ & Hw1 & _).
  apply (wp_exchange same_files (moved_fd fd p false) _ [] reply_ready_ok c reply_final_ok);
    [intros w2 E; eapply moved_fd_refl; [by rewrite Hw1|done]|
     unfold same_files, moved_fd; by intros ? ? ->|by apply recv_response_exchanged; [..|left]|].
  intros w2 H2. pose proof (exchanged_bytes _ _ _ _ _ H2 Hb1) as Hb2. destruct H2 as (_ & Hw2 & _).
  unfold same_files in Hw1, Hw2. by apply (client_send_file_contents_spec sock fd p c m); rewrite ?Hw2, ?Hw1.
Qed.

(** The descriptors while a file may be open as [fd] (-1: none). *)
Definition one_open (fd : Z) (f f' : files_t) : Prop :=
  f_fs f' = f_fs f /\ f_next f <= f_next f' /\
  if fd =? -1 then f_fds f' = f_fds f
  else f_fds f !! fd = None /\ exists x, f_fds f' = <[fd := x]> (f_fds f).

Lemma one_open_none f f' : next_fd f f' -> one_open (-1) f f'.
Proof. intros (H1 & H2 & _ & H4). by split_and!. Qed.

Lemma one_open_next fd f f' f'' : one_open fd f f' -> next_fd f' f'' -> one_open fd f f''.
Proof.
  intros (H1 & H2 & H3) (E1 & E2 & _ & E4). split_and!; [congruence|lia|]. by rewrite E2.
Qed.

Lemma one_open_opened p f : fds_ok f -> one_open (f_next f) f (opened p false f).
Proof.
  intros [H0 H]. split_and!; simpl; [done|lia|]. destruct (Z.eqb_spec (f_next f) (-1)); [lia|].
  split; [apply H; lia|eauto].
Qed.

Lemma one_open_moved fd p wr f w w' :
  fd <> -1 -> one_open fd f (w_files w) -> moved_fd fd p wr w w' -> one_open fd f (w_files w').
Proof.
  intros Hne (H1 & H2 & H3) [pos ->]. split_and!; [done|done|].
  destruct (Z.eqb_spec fd (-1)); [done|]. destruct H3 as (H3 & x & Hx). split; [done|].
  eexists. simpl. by rewrite Hx, insert_insert_eq.
Qed.

(** What [CLEAN_UP] does with [in]. *)
Lemma close_input_spec fd f w :
  one_open fd f (w_files w) ->
  wp (if negb (fd =? -1) then let! _ := fs_close fd in ret tt else ret tt) (fun _ w' =>
    only_files w w' /\ f_fs (w_files w') = f_fs f /\ f_fds (w_files w') = f_fds f) w.
Proof.
  intros (H1 & H2 & H3). destruct (Z.eqb_spec fd (-1)); cbn [negb]; [by wp_step|].
  destruct H3 as (H3 & x & Hx). wp_step. unfold fs_close. apply wp_sys_close.
  intros r w' Hf _ _ Hw. wp_step. rewrite Hw. split_and!; [done|done|]. simpl.
  by rewrite Hx, delete_insert_id.
Qed.

Definition basename (p : bytes) : bytes := default [] (snd (fs_basename_from_path (Some p))).

Lemma proto_get_file_name_len_ok s v :
  proto_get_file_name_len (Some s) = Some v -> name_length_ok s /\ v = zlen s.
Proof.
  unfold proto_get_file_name_len, strlen, name_length_ok. destruct (_ || _) eqn:E; [done|].
  intros [= <-]. unfold u16. rewrite Z.mod_small by proto_lia. split; [proto_lia|done].
Qed.

Lemma proto_get_file_name_len_fits s :
  name_length_ok s -> proto_get_file_name_len (Some s) = Some (zlen s).
Proof.
  intros H. destruct (proto_get_file_name_len (Some s)) as [v|] eqn:E.
  - by apply proto_get_file_name_len_ok in E as [_ ->].
  - unfold proto_get_file_name_len, strlen, name_length_ok in *.
    destruct (_ || _) eqn:E'; [|done]. proto_lia.
Qed.

(** What sending the file at [p] may come to. *)
Definition send_file_outcome (p : bytes) (msg_type r : Z) (w w' : world) : Prop :=
  let file := f_fs (w_files w) !! resolved (f_fs (w_files w)) p in
  let request c := file_request msg_type (basename p) (zlen c) ++ c in
  (r = 0 /\ exists c m, file = Some (NFile c m) /\ zlen c <= HF_MAX_FILE_SIZE /\
     said_all (request c) w w' /\
     n_in (w_net w) = (reply_ready_ok ++ reply_final_ok) ++ n_in (w_net w')) \/
  (r = 1 /\ (said_all [] w w' \/
             exists c m, file = Some (NFile c m) /\ said (request c) w w')).

(** When nothing fails the file is sent. *)
Definition send_file_live (opt : client_opt_t) (p : bytes) (w : world) (r : Z) (w' : world) : Prop :=
  w_faults w = [] -> forall c m rest,
    f_fs (w_files w) !! p = Some (NFile c m) -> zlen c <= HF_MAX_FILE_SIZE ->
    name_length_ok (basename p) -> inet_pton (c_ip opt) = true ->
    n_in (w_net w) = reply_ready_ok ++ reply_final_ok ++ rest ->
    r = 0 /\ n_in (w_net w') = rest.

Definition send_file_stepped (opt : client_opt_t) (p : bytes) (w : world) (x : Z * Z * Z) (w' : world)
    : Prop :=
  let '(r, sock, fd) := x in
  only_io w w' /\ one_open fd (w_files w) (w_files w') /\
  send_file_outcome p (c_msg_type opt) r w w' /\ send_file_live opt p w r w'.

Lemma send_file_fails opt p w w1 fd :
  only_io w w1 -> n_out (w_net w1) = n_out (w_net w) -> one_open fd (w_files w) (w_files w1) ->
  (w_faults w = [] -> forall c m, f_fs (w_files w) !! p = Some (NFile c m) ->
     zlen c <= HF_MAX_FILE_SIZE -> name_length_ok (basename p) -> inet_pton (c_ip opt) = true -> False) ->
  wp (ret (1, -1, fd)) (send_file_stepped opt p w) w1.
Proof.
  intros Hio Hout Hone Hlive. wp_step. split_and!; auto.
  - right. split; [done|]. left. by apply said_nil.
  - intros E c m rest H1 H2 H3 H4 _. by destruct (Hlive E c m H1 H2 H3 H4).
Qed.

(** From the connection on, with the file open. *)
Lemma client_send_file_connect_spec opt p fd c m w w1 :
  let rp := resolved (f_fs (w_files w)) p in
  only_io w w1 -> w_net w1 = w_net w -> 0 <= fd -> 0 <= f_next (w_files w1) ->
  one_open fd (w_files w) (w_files w1) ->
  f_fds (w_files w1) !! fd = Some (FdFile rp 0 false) -> f_fs (w_files w) !! rp = Some (NFile c m) ->
  name_length_ok (basename p) -> zlen c <= HF_MAX_FILE_SIZE -> Forall is_byte (n_in (w_net w)) ->
  wp (client_send_file_connect opt fd (Some (basename p)) (zlen (basename p)) (zlen c))
    (send_file_stepped opt p w) w1.
Proof.
  intros rp Hio1 Hn1 Hfd Hnext Hone Hopen Hfile Hname Hmax Hbytes. unfold client_send_file_connect.
  wp_step. wp_use client_connect_spec; [done|]. intros [r sock] w2 (Hf2 & Hnx2 & Hr2 & H2).
  assert (Hn2 : w_net w2 = w_net w) by (rewrite <- Hn1; apply Hf2).
  assert (Hone2 : one_open fd (w_files w) (w_files w2)) by (by eapply one_open_next).
  assert (Hio2 : only_io w w2) by (etrans; [exact Hio1|frame]).
  destruct Hr2 as [[-> Hsock]| ->]; cbn [negb Z.eqb]; cycle 1.
  { apply send_file_fails; [done|by rewrite Hn2|done|]. intros E c' m' _ _ _ Hip.
    by specialize (H2 (only_io_no_faults _ _ Hio1 E) Hip). }
  destruct Hnx2 as (E1 & E2 & _ & _). pose proof Hone as (Hfs1 & _).
  wp_step. change (default [] (Some (basename p))) with (basename p).
  wp_use (client_send_file_exchange_spec sock fd (c_msg_type opt) (basename p) rp c m);
    [done..|by rewrite E2|by rewrite E1, Hfs1|by rewrite Hn2|].
  intros r w3 (Hio3 & Hmv & Hr & Hs & Ha & Hl). wp_step. rewrite Hn2 in Ha, Hl.
  assert (Ho2 : n_out (w_net w2) = n_out (w_net w)) by (by rewrite Hn2).
  split; [by etrans|]. split; [eapply one_open_moved; [lia|done|done]|]. split.
  - destruct Hr as [-> | ->]; [left|right]; (split; [done|]).
    + destruct (Ha eq_refl) as [Hall Hin]. exists c, m. split_and!; try done. by eapply said_all_after.
    + right. exists c, m. split; [done|]. by eapply said_after.
  - intros E c' m' rest _ _ _ _ Hin. apply Hl; [|done]. by eapply only_io_no_faults.
Qed.

(** The file is open: its size, then the connection. *)
Lemma client_send_file_sized_spec opt p n w w1 :
  let rp := resolved (f_fs (w_files w)) p in
  fds_ok (w_files w) -> sizes_fit (f_fs (w_files w)) -> Forall is_byte (n_in (w_net w)) ->
  only_files w w1 -> w_files w1 = opened rp false (w_files w) -> f_fs (w_files w) !! rp = Some n ->
  name_length_ok (basename p) ->
  wp (let! content_size := client_get_file_size (f_next (w_files w)) in
      match content_size with
      | None => ret (1, -1, f_next (w_files w))
      | Some content_size =>
          if HF_MAX_FILE_SIZE <? content_size then ret (1, -1, f_next (w_files w))
          else client_send_file_connect opt (f_next (w_files w)) (Some (basename p))
                 (zlen (basename p)) content_size
      end) (send_file_stepped opt p w) w1.
Proof.
  intros rp Hok Hsz Hbytes Hf1 Hw1 Hn Hname.
  pose proof (one_open_opened rp _ Hok) as Hone. rewrite <- Hw1 in Hone.
  assert (Hopen : f_fds (w_files w1) !! f_next (w_files w) = Some (FdFile rp 0 false)).
  { rewrite Hw1. simpl. by rewrite lookup_insert_eq. }
  wp_step. wp_use (client_get_file_size_spec (f_next (w_files w)) rp 0 false n); [done|by rewrite Hw1|].
  intros size w2 (Hf2 & Hsize & H2).
  assert (Hw2 : w_files w2 = w_files w1) by frame. assert (Hio2 : only_io w w2) by frame.
  assert (Hn2 : w_net w2 = w_net w) by (transitivity (w_net w1); [apply Hf2|apply Hf1]).
  assert (Hreg : forall c m, f_fs (w_files w) !! p = Some (NFile c m) -> n = NFile c m).
  { intros c m Hc. assert (rp = p) as Hrp by (unfold rp, resolved; by rewrite Hc). rewrite Hrp in Hn. congruence. }
  rewrite <- Hw2 in Hone, Hopen. destruct size as [size|]; cycle 1.
  { apply send_file_fails; [done|by rewrite Hn2|done|]. intros E c m Hc _ _ _.
    destruct (H2 (only_io_no_faults _ _ (only_files_io _ _ Hf1) E) c m (Hreg c m Hc)). done. }
  destruct (Hsize size eq_refl) as (c & m & -> & ->). pose proof (Hsz _ _ _ Hn) as Hc63.
  assert (u64 (zlen c) = zlen c) as -> by (unfold u64; apply Z.mod_small; lia).
  destruct (Z.ltb_spec HF_MAX_FILE_SIZE (zlen c)) as [Hbig|Hmax].
  { apply send_file_fails; [done|by rewrite Hn2|done|]. intros E c' m' Hc' Hl _ _.
    apply Hreg in Hc' as [= <- _]. lia. }
  destruct Hok as [Hnx _].
  apply (client_send_file_connect_spec opt p _ c m); try done. rewrite Hw2, Hw1. simpl. lia.
Qed.

Lemma client_send_file_steps_spec opt p w :
  c_path opt = Some p -> fds_ok (w_files w) -> sizes_fit (f_fs (w_files w)) ->
  Forall is_byte (n_in (w_net w)) ->
  wp (client_send_file_steps opt) (send_file_stepped opt p w) w.
Proof.
  intros Hp Hok Hsz Hbytes. unfold client_send_file_steps. rewrite Hp.
  assert (fs_basename_from_path (Some p) = (0, Some (basename p))) as ->.
  { unfold basename, fs_basename_from_path. by destruct (strrchr p 47). }
  cbn [negb Z.eqb]. change (default [] (Some p)) with p.
  destruct (proto_get_file_name_len (Some (basename p))) as [len|] eqn:Hlen; cycle 1.
  { apply send_file_fails; [done|done|apply one_open_none, next_fd_refl|].
    intros _ c m _ _ Hn _. by rewrite proto_get_file_name_len_fits in Hlen. }
  apply proto_get_file_name_len_ok in Hlen as [Hname ->].
  wp_step. unfold fs_open. apply wp_sys_open_rdonly.
  { intros w1 Hf1 Hw1 H1. change (-1 =? -1) with true. cbv iota.
    apply send_file_fails; [frame|by rewrite (proj2 Hf1)|rewrite Hw1; apply one_open_none, next_fd_refl|].
    intros E c m Hc _ _ _. by apply (H1 E c m). }
  intros n w1 Hf1 Hn Hw1. destruct (Z.eqb_spec (f_next (w_files w)) (-1)); [destruct Hok; lia|]. cbv iota.
  destruct (Z.ltb_spec CHUNK_SIZE (proto_file_transfer_prefix_size (zlen (basename p)))) as [Hbig|_].
  { unfold CHUNK_SIZE, proto_file_transfer_prefix_size, proto_file_name_only_size, name_length_ok in *.
    proto_lia. }
  by apply (client_send_file_sized_spec opt p n).
Qed.

Lemma client_send_file_raw_spec opt p w :
  c_path opt = Some p -> fds_ok (w_files w) -> sizes_fit (f_fs (w_files w)) ->
  Forall is_byte (n_in (w_net w)) ->
  wp (client_send_file_raw opt) (fun r w' =>
    only_io w w' /\ f_fs (w_files w') = f_fs (w_files w) /\ f_fds (w_files w') = f_fds (w_files w) /\
    send_file_outcome p (c_msg_type opt) r w w' /\
    (w_faults w = [] -> forall c m rest,
       f_fs (w_files w) !! p = Some (NFile c m) -> zlen c <= HF_MAX_FILE_SIZE ->
       name_length_ok (basename p) -> inet_pton (c_ip opt) = true ->
       n_in (w_net w) = reply_ready_ok ++ reply_final_ok ++ rest ->
       r = 0 /\ n_in (w_net w') = rest)) w.
Proof.
  intros Hp Hok Hsz Hbytes. unfold client_send_file_raw. wp_step.
  wp_use client_send_file_steps_spec; try done.
  intros [[r sock] fd] w1 (Hio1 & Hone & Ho & Hl). wp_step. wp_use socket_close_spec.
  intros x w2 Hf2. wp_step. eapply wp_mono; [eapply close_input_spec|].
  { assert (w_files w2 = w_files w1) as -> by frame. done. }
  intros [] w3 (Hf3 & Hfs & Hfds). wp_step.
  assert (Hn3 : w_net w3 = w_net w1) by (transitivity (w_net w2); [apply Hf3|apply Hf2]).
  split; [etrans; [exact Hio1|]; etrans; [|apply Hf3]; frame|]. split; [done|]. split; [done|].
  split; [|by rewrite Hn3].
  destruct Ho as [(-> & c & m & Hc & Hmax & Hs & Hin)|[-> Hs]]; [left|right]; (split; [done|]).
  - exists c, m. rewrite Hn3. split_and!; try done. by eapply said_all_net; [rewrite Hn3|].
  - destruct Hs as [Hs|(c & m & Hc & Hs)]; [left|right].
    + by eapply said_all_net; [rewrite Hn3|].
    + exists c, m. split; [done|]. by eapply said_before; [rewrite Hn3|].
Qed.

(** *** Getting a file *)

(** The client tries temporary names as the server does. *)
Lemma client_open_temp_server pid final attempts tmp w :
  client_open_temp_attempts pid final PATH_CAP attempts tmp w =
  (let! (r, tmp, fd) := transfer_open_temp pid final attempts tmp in
   ret (if result_ok r then 0 else 1, tmp, fd)) w.
Proof.
  revert tmp w. induction attempts as [|k attempts IH]; intros tmp w; [done|].
  cbn [client_open_temp_attempts transfer_open_temp].
  destruct (fs_build_temp_path PATH_CAP (Some final) pid k) as [r t]. destruct (negb (r =? 0)); [done|].
  unfold bind. destruct (fs_open_temp_file (Some t) w) as [[fd w1]|]; [|done].
  destruct (negb (fd =? -1)); [done|]. cbn.
  destruct (w_errno w1 =? EEXIST); cbn [negb]; [|done]. rewrite IH. done.
Qed.

(** Which name is left in [tmp_path]. *)
Lemma transfer_open_temp_name pid final attempts tmp0 w :
  wp (transfer_open_temp pid final attempts tmp0) (fun '(r, tmp, fd) w' =>
    (r <> PROTOCOL_OK -> fd = -1) /\
    (tmp = tmp0 \/ exists k, k ∈ attempts /\
       tmp = snd (fs_build_temp_path PATH_CAP (Some final) pid k))) w.
Proof.
  revert tmp0 w. induction attempts as [|k attempts IH]; intros tmp0 w; cbn [transfer_open_temp].
  { wp_step. split; [done|by left]. }
  destruct (fs_build_temp_path PATH_CAP (Some final) pid k) as [r t] eqn:Et.
  assert (Hk : t = tmp0 \/ exists k0, k0 ∈ k :: attempts /\
            t = snd (fs_build_temp_path PATH_CAP (Some final) pid k0)).
  { right. exists k. split; [set_solver|by rewrite Et]. }
  destruct (negb (r =? 0)); [by wp_step|]. wp_step. wp_use fs_open_temp_file_spec.
  intros fd w1 _. destruct (negb (fd =? -1)); [by wp_step|]. do 2 wp_step.
  destruct (w_errno w1 =? EEXIST); [|by wp_step]. wp_use IH. intros [[r2 t2] fd2] w2 [H1 H2].
  split; [done|]. destruct H2 as [->|(k0 & H2 & ->)]; [done|]. right. exists k0. split; [set_solver|done].
Qed.

Lemma client_open_temp_download_spec final w :
  fds_ok (w_files w) ->
  wp (client_open_temp_download final PATH_CAP) (fun '(r, tmp, fd) w' =>
    only_files w w' /\
    (r = 0 /\ fd = f_next (w_files w) /\
       (exists k, 0 <= k < 3 /\ tmp = temp_path_text final (e_pid (w_env w)) k) /\
       temp_opened tmp (e_now (w_env w)) (w_files w) (w_files w') \/
     r = 1 /\ fd = -1 /\ w_files w' = w_files w /\
       (tmp = [] \/ exists k, 0 <= k < 3 /\
          tmp = snd (fs_build_temp_path PATH_CAP (Some final) (e_pid (w_env w)) k))) /\
    (w_faults w = [] -> zlen (temp_path_text final (e_pid (w_env w)) 0) < PATH_CAP ->
       parent_ok (f_fs (w_files w)) final = true ->
       (exists k, 0 <= k < 3 /\
          f_fs (w_files w) !! temp_path_text final (e_pid (w_env w)) k = None) -> r = 0)) w.
Proof.
  intros [H0 _]. unfold client_open_temp_download. do 2 wp_step.
  unfold wp. rewrite client_open_temp_server. apply wp_bind.
  assert (Hk : forall k, k ∈ [0; 1; 2] <-> 0 <= k < 3).
  { intros k. rewrite !elem_of_cons, elem_of_nil. lia. }
  eapply wp_mono.
  { apply wp_conj; [apply transfer_open_temp_spec; [by intros k ?%Hk|done]|apply transfer_open_temp_name]. }
  intros [[r tmp] fd] w1 [(Hf1 & H1 & H2 & H3) [H4 H5]]. wp_step. unfold result_ok.
  split; [done|]. case_bool_decide as Hr; split.
  - left. destruct (H1 Hr) as (k & Hk3 & -> & -> & Ho). split_and!; eauto.
  - done.
  - right. split_and!; auto. destruct H5 as [?|(k & ?%Hk & ?)]; eauto.
  - intros E Hl Hp (k & Hk3 & Hno). destruct Hr. apply H3; try done. exists k. by rewrite Hk.
Qed.

Lemma get_file_cleanup_server out tmp w :
  get_file_cleanup out tmp w = transfer_cleanup PROTOCOL_ERR_IO out tmp w.
Proof. done. Qed.

(** Where the files stand at [CLEAN_UP] when the command failed: the name in
    [tmp_path] is a candidate that was not created, or the file created under it
    holds [d]. *)
Definition get_unfinished (output : bytes) (w : world) (out : Z) (tmp : bytes) (w' : world) : Prop :=
  (out = -1 /\ f_fs (w_files w') = f_fs (w_files w) /\ f_fds (w_files w') = f_fds (w_files w) /\
     (tmp = [] \/ exists k, 0 <= k < 3 /\
        tmp = snd (fs_build_temp_path PATH_CAP (Some output) (e_pid (w_env w)) k))) \/
  (exists d k, 0 <= k < 3 /\ tmp = temp_path_text output (e_pid (w_env w)) k /\
     f_fs (w_files w) !! tmp = None /\ stored (w_files w) tmp d out (w_files w')).

(** The directory can take the file. *)
Definition output_ready (output : bytes) (w : world) : Prop :=
  zlen (temp_path_text output (e_pid (w_env w)) 0) < PATH_CAP /\
  parent_ok (f_fs (w_files w)) output = true /\
  (forall m, f_fs (w_files w) !! output <> Some (NDir m)) /\
  exists k, 0 <= k < 3 /\ f_fs (w_files w) !! temp_path_text output (e_pid (w_env w)) k = None.

(** From the last byte on: the file [tmp], new in [f0], holds [d]. *)
Definition get_finished (f0 : files_t) (output tmp d : bytes) (w : world) (x : Z * Z * bytes) (w' : world)
    : Prop :=
  let '(r, out, tmp') := x in
  only_io w w' /\ n_out (w_net w') = n_out (w_net w) /\ out = -1 /\
  (r = 0 /\ tmp' = [] /\ f_fds (w_files w') = f_fds f0 /\
     (exists m, f_fs (w_files w') = <[output := NFile d m]> (f_fs f0)) /\
     n_in (w_net w) = reply_final_ok ++ n_in (w_net w') \/
   r = 1 /\ tmp' = tmp /\ stored f0 tmp d (-1) (w_files w')) /\
  (w_faults w = [] -> forall rest, parent_ok (f_fs f0) output = true ->
     (forall m, f_fs f0 !! output <> Some (NDir m)) -> n_in (w_net w) = reply_final_ok ++ rest ->
     r = 0 /\ n_in (w_net w') = rest).

Lemma get_not_finished f0 output tmp d w w' :
  only_io w w' -> n_out (w_net w') = n_out (w_net w) -> stored f0 tmp d (-1) (w_files w') ->
  (w_faults w = [] -> forall rest, parent_ok (f_fs f0) output = true ->
     (forall m, f_fs f0 !! output <> Some (NDir m)) -> n_in (w_net w) = reply_final_ok ++ rest -> False) ->
  wp (ret (1, -1, tmp)) (get_finished f0 output tmp d w) w'.
Proof.
  intros H1 H2 H3 Hlive. wp_step. split_and!; auto.
  intros E rest Hp Hdir Hin. by destruct (Hlive E rest Hp Hdir Hin).
Qed.

Lemma client_get_file_finish_spec sock f0 output tmp d out w :
  0 <= sock -> out <> -1 -> f_fs f0 !! tmp = None -> tmp <> output -> Forall is_byte (n_in (w_net w)) ->
  stored f0 tmp d out (w_files w) ->
  wp (client_get_file_finish sock output tmp out) (get_finished f0 output tmp d w) w.
Proof.
  intros Hs Hout Hno Hne Hb Hst. unfold client_get_file_finish.
  wp_step. wp_use stored_close; [done|done|]. intros rc w1 (Hf1 & H1 & Hst1).
  assert (Hn1 : w_net w1 = w_net w) by apply Hf1. assert (Hio1 : only_io w w1) by frame.
  destruct (Z.eqb_spec rc 0) as [->|Hrc]; cbn [negb]; cycle 1.
  { apply get_not_finished; [done|by rewrite Hn1|done|]. intros E. by destruct Hrc; auto. }
  wp_step. wp_use recv_response_exchanged; [done|by rewrite Hn1|by right|].
  intros r w2 (Hio2 & Hw2 & Hr2 & Hs2 & Ha2 & H2). rewrite Hn1 in Ha2, H2.
  assert (Hout2 : n_out (w_net w2) = n_out (w_net w)).
  { destruct Hs2 as (x & [y Hy] & Hx). symmetry in Hy. apply app_nil in Hy as [-> _].
    unfold said_all in Hx. by rewrite Hx, app_nil_r, Hn1. }
  assert (Hio : only_io w w2) by (by etrans). unfold same_files in Hw2. rewrite <- Hw2 in Hst1.
  assert (Hfl : w_faults w = [] -> w_faults w1 = []) by (by apply only_io_no_faults).
  destruct (Z.eqb_spec r 0) as [->|Hr]; cbn [negb]; cycle 1.
  { apply get_not_finished; try done. intros E rest _ _ Hin. by destruct (H2 (Hfl E) rest Hin). }
  pose proof Hst1 as ([m Hm] & _ & Hfds). change (-1 =? -1) with true in Hfds. cbv iota in Hfds.
  wp_step. unfold fs_commit_temp_file. wp_step.
  apply (wp_sys_rename _ _ d m); [by rewrite Hm, lookup_insert_eq| |].
  - intros e w3 Hf3 Hw3 _ H3. wp_step. cbn [negb Z.eqb]. assert (Hn3 : w_net w3 = w_net w2) by apply Hf3.
    apply get_not_finished; [etrans; [exact Hio|frame]|by rewrite Hn3|by rewrite Hw3|].
    intros E rest Hp Hdir _. destruct H3 as [H3|[m' H3]]; [by eapply only_io_no_faults| |].
    + rewrite Hm, parent_ok_insert in H3; done.
    + rewrite Hm, lookup_insert_ne in H3 by done. by apply Hdir in H3.
  - intros w3 Hf3 Hw3. wp_step. cbn [negb Z.eqb]. wp_step.
    assert (Hn3 : w_net w3 = w_net w2) by apply Hf3. destruct (Ha2 eq_refl) as [_ Hin].
    split; [etrans; [exact Hio|frame]|]. rewrite Hn3, Hw3. split_and!; try done.
    + left. split_and!; try done. exists m. simpl. by rewrite Hm, delete_insert_id.
    + intros E rest _ _ Hin'. by apply H2; [apply Hfl|].
Qed.

(** What storing the offered file may come to. *)
Definition get_stored (size : Z) (output : bytes) (w : world) (x : Z * Z * bytes) (w' : world) : Prop :=
  let '(r, out, tmp) := x in
  only_io w w' /\ n_out (w_net w') = n_out (w_net w) /\
  (r = 0 /\ out = -1 /\ tmp = [] /\ f_fds (w_files w') = f_fds (w_files w) /\
     (exists d m, zlen d = size /\ n_in (w_net w) = d ++ reply_final_ok ++ n_in (w_net w') /\
        f_fs (w_files w') = <[output := NFile d m]> (f_fs (w_files w))) \/
   r = 1 /\ get_unfinished output w out tmp w') /\
  (w_faults w = [] -> forall d rest, output_ready output w -> zlen d = size ->
     n_in (w_net w) = d ++ reply_final_ok ++ rest -> r = 0 /\ n_in (w_net w') = rest).

Lemma get_not_stored size output w w' out tmp :
  only_io w w' -> n_out (w_net w') = n_out (w_net w) -> get_unfinished output w out tmp w' ->
  (w_faults w = [] -> forall d rest, output_ready output w -> zlen d = size ->
     n_in (w_net w) = d ++ reply_final_ok ++ rest -> False) ->
  wp (ret (1, out, tmp)) (get_stored size output w) w'.
Proof.
  intros H1 H2 H3 Hlive. wp_step. split_and!; auto.
  intros E d rest Hr Hl Hin. by destruct (Hlive E d rest Hr Hl Hin).
Qed.

Lemma client_get_file_store_spec sock size output w :
  0 <= sock -> 0 <= size < 2 ^ 64 -> e_splice_direct (w_env w) = false -> fds_ok (w_files w) ->
  Forall is_byte (n_in (w_net w)) ->
  wp (client_get_file_store sock size output) (get_stored size output w) w.
Proof.
  intros Hs Hsize He Hok Hbytes. unfold client_get_file_store. wp_step.
  wp_use client_open_temp_download_spec; [done|].
  intros [[r tmp] fd] w1 (Hf1 & Hcase & H1). assert (Hn1 : w_net w1 = w_net w) by apply Hf1.
  assert (Hio1 : only_io w w1) by frame.
  destruct Hcase as [(-> & -> & (k & Hk & Htmp) & Ho)|(-> & -> & Hw1 & Htmp)]; cbn [negb Z.eqb]; cycle 1.
  { apply get_not_stored; [done|by rewrite Hn1|left; by rewrite Hw1|].
    intros E d rest (Hr1 & Hr2 & _ & Hr3) _ _. by specialize (H1 E Hr1 Hr2 Hr3). }
  pose proof (temp_opened_at _ _ _ _ Hok Ho) as [Hat Hok1].
  assert (Hno : f_fs (w_files w) !! tmp = None) by apply Ho.
  wp_step. unfold client_recv_file_body. wp_step.
  eapply wp_mono; [apply (net_recv_file_best_effort_spec sock (f_next (w_files w)) tmp [] size); try done|].
  { apply Hok. } { destruct Hio1 as (-> & _). done. }
  intros r2 w2 (Hio2 & (d & lost & Hin & Hout & Hg & Hle & Hk2 & H2) & _). wp_step.
  rewrite app_nil_l, Hn1 in *. pose proof (opened_stored _ _ _ _ _ _ _ Hok Ho eq_refl Hg) as Hst.
  assert (Hio : only_io w w2) by (by etrans).
  case_bool_decide as Hres; cbn [negb Z.eqb]; cycle 1.
  { apply get_not_stored; [done|done|right; by exists d, k|]. intros E d' rest _ Hl Hin'.
    apply Hres, H2; [by eapply only_io_no_faults|]. rewrite Hin'. len_lia. }
  destruct (Hk2 Hres) as [Hd ->]. rewrite app_nil_l in Hin.
  wp_use (client_get_file_finish_spec sock (w_files w) output tmp d);
    [done|destruct Hok; lia|done|rewrite Htmp; apply temp_path_neq| |done|].
  { rewrite Hin in Hbytes. by apply Forall_app in Hbytes as [_ ?]. }
  intros [[r3 out] tmp'] w3 (Hio3 & Hout3 & -> & Hcase & H3).
  split; [by etrans|]. split; [by rewrite Hout3|]. split.
  - destruct Hcase as [(-> & -> & Hfd & [m Hm] & Hin3)|(-> & -> & Hst3)]; [left|right].
    + split_and!; try done. exists d, m. split_and!; [done|by rewrite Hin, Hin3|done].
    + split; [done|]. right. by exists d, k.
  - intros E d' rest (_ & Hp & Hdir & _) Hl Hin'. apply H3; [by eapply only_io_no_faults|done|done|].
    rewrite Hin in Hin'. apply app_eq_len in Hin' as [_ ->]; [done|lia].
Qed.

(** The request for the file [name]. *)
Definition get_request (name : bytes) : bytes :=
  request_header HF_MSG_TYPE_GET_FILE (proto_file_name_only_size (zlen name)) ++ name_wire name.

(** The file asked for arrived whole, after [reply], and is stored under the name
    given, or else under the valid name the server offered. *)
Definition file_got_after (reply : bytes) (output_path : option bytes) (w w' : world) : Prop :=
  exists raw d m, name_length_ok raw /\ zlen d <= HF_MAX_FILE_SIZE /\
    (output_path = None -> file_name_ok (cstr raw)) /\
    n_in (w_net w) =
      (reply ++ prefix_wire raw (zlen d)) ++ d ++ reply_final_ok ++ n_in (w_net w') /\
    f_fs (w_files w') = <[default (cstr raw) output_path := NFile d m]> (f_fs (w_files w)).

Definition file_got : option bytes -> world -> world -> Prop := file_got_after reply_ready_ok.

(** Nothing stands in the way of a file offered as [name]. *)
Definition get_ready (output_path : option bytes) (name : bytes) (w : world) : Prop :=
  output_ready (default name output_path) w /\ (output_path = None -> file_name_ok name).

Lemma get_unfinished_same output w w1 out tmp w' :
  w_files w1 = w_files w -> w_env w1 = w_env w ->
  get_unfinished output w1 out tmp w' -> get_unfinished output w out tmp w'.
Proof. unfold get_unfinished. by intros -> ->. Qed.

(** What an exchange may come to, whose request is [request] and in which [reply]
    comes before the offer. *)
Definition get_exchanged (request reply : bytes) (output : option bytes) (w : world) (x : Z * Z * bytes)
    (w' : world) : Prop :=
  let '(r, out, tmp) := x in
  only_io w w' /\ said request w w' /\
  (r = 0 /\ out = -1 /\ tmp = [] /\ f_fds (w_files w') = f_fds (w_files w) /\
     said_all request w w' /\ file_got_after reply output w w' \/
   r = 1 /\ exists path, get_unfinished path w out tmp w') /\
  (w_faults w = [] -> forall name d rest, Forall is_char name -> name_length_ok name ->
     zlen d <= HF_MAX_FILE_SIZE -> get_ready output name w ->
     n_in (w_net w) = (reply ++ prefix_wire name (zlen d)) ++ d ++ reply_final_ok ++ rest ->
     r = 0 /\ n_in (w_net w') = rest).

Lemma get_not_exchanged request reply output w w' :
  only_io w w' -> w_files w' = w_files w -> said request w w' ->
  (w_faults w = [] -> forall name d rest, Forall is_char name -> name_length_ok name ->
     zlen d <= HF_MAX_FILE_SIZE -> get_ready output name w ->
     n_in (w_net w) = (reply ++ prefix_wire name (zlen d)) ++ d ++ reply_final_ok ++ rest -> False) ->
  wp (ret (1, -1, [])) (get_exchanged request reply output w) w'.
Proof.
  intros Hio Hw Hs Hlive. wp_step. split; [done|]. split; [done|]. split.
  - right. split; [done|]. exists []. left. rewrite Hw. split_and!; auto.
  - intros E name d rest H1 H2 H3 H4 H5. by destruct (Hlive E name d rest H1 H2 H3 H4 H5).
Qed.

(** One step of the exchange before the offer. *)
Lemma wp_get_exchange q1 p1 q2 p2 output (m : M Z) (k : M (Z * Z * bytes)) w :
  wp m (exchanged same_files q1 p1 w) w ->
  (forall w1, exchanged same_files q1 p1 w 0 w1 -> wp k (get_exchanged q2 p2 output w1) w1) ->
  wp (let! r := m in if negb (r =? 0) then ret (1, -1, []) else k)
    (get_exchanged (q1 ++ q2) (p1 ++ p2) output w) w.
Proof.
  intros Hm Hk. wp_step. eapply wp_mono; [exact Hm|]. intros r w1 H.
  pose proof H as (Hio & Hw & _ & Hs & Ha & Hlive). unfold same_files in Hw.
  destruct (Z.eqb_spec r 0) as [->|Hr]; cbn [negb]; cycle 1.
  { apply get_not_exchanged; [done|done|by apply said_more|]. intros E name d rest _ _ _ _ Hin.
    rewrite <- !app_assoc in Hin. by destruct (Hlive E _ Hin). }
  eapply wp_mono; [by apply Hk|]. destruct (Ha eq_refl) as [Hall Hin].
  assert (He : w_env w1 = w_env w) by (by destruct Hio). clear Hk Hm.
  intros [[r out] tmp] w2 (Hio2 & Hs2 & Hcase & Hlive2).
  split; [by etrans|]. split; [by eapply said_trans|]. split.
  - destruct Hcase as [(-> & -> & -> & Hfd & Hall2 & raw & d & m' & H1 & H2 & H3 & H4 & H5)|[-> [path Hu]]];
      [left|right].
    + split_and!; [done|done|done|by rewrite Hfd, Hw|by eapply said_all_trans|]. exists raw, d, m'.
      rewrite <- Hw. split_and!; try done. by rewrite Hin, H4, <- !app_assoc.
    + split; [done|]. exists path. by eapply get_unfinished_same.
  - intros E name d rest Hch Hl Hm Hrdy Hin'. destruct (Hlive E (p2 ++ prefix_wire name (zlen d) ++ d ++ reply_final_ok ++ rest)) as [_ Hin2].
    { by rewrite Hin', <- !app_assoc. }
    eapply Hlive2; [by eapply only_io_no_faults|done|done|done| |by rewrite Hin2, <- !app_assoc].
    unfold get_ready, output_ready in *. by rewrite Hw, He.
Qed.

(** The file behind an offer. *)
Lemma get_stored_exchanged output raw size w w1 x w' :
  only_net w w1 -> n_out (w_net w1) = n_out (w_net w) -> name_length_ok raw -> size <= HF_MAX_FILE_SIZE ->
  n_in (w_net w) = prefix_wire raw size ++ n_in (w_net w1) ->
  (output = None -> file_name_ok (cstr raw)) ->
  (forall name d rest, Forall is_char name -> name_length_ok name -> zlen d <= HF_MAX_FILE_SIZE ->
     n_in (w_net w) = ([] ++ prefix_wire name (zlen d)) ++ d ++ reply_final_ok ++ rest ->
     name = cstr raw /\ size = zlen d /\ n_in (w_net w1) = d ++ reply_final_ok ++ rest) ->
  get_stored size (default (cstr raw) output) w1 x w' -> get_exchanged [] [] output w x w'.
Proof.
  intros Hf1 Hout1 Hraw Hmax Hd1 Hnm Hsame. destruct x as [[r out] tmp]. intros (Hio2 & Hout2 & Hcase & Hlive).
  assert (Hio1 : only_io w w1) by frame. assert (Hw1 : w_files w1 = w_files w) by apply Hf1.
  assert (He1 : w_env w1 = w_env w) by apply Hf1. rewrite Hw1 in Hcase.
  assert (Hs2 : said_all [] w w') by (apply said_nil; congruence).
  split; [by etrans|]. split; [by apply said_all_said|]. split.
  - destruct Hcase as [(-> & -> & -> & Hfd & d & m & Hd & Hin2 & Hfs)|[-> Hu]]; [left|right].
    + split_and!; try done. exists raw, d, m. rewrite Hd. split_and!; try done. by rewrite Hd1, Hin2.
    + split; [done|]. eexists. by eapply get_unfinished_same.
  - intros E name d rest Hch Hl Hm [Hrdy _] Hin.
    destruct (Hsame name d rest Hch Hl Hm Hin) as (-> & Hsz & Hin1).
    eapply Hlive; [by eapply only_io_no_faults| |done|done].
    unfold output_ready in *. by rewrite He1, Hw1.
Qed.

Lemma client_get_file_offered_spec sock output w :
  0 <= sock -> e_splice_direct (w_env w) = false -> fds_ok (w_files w) -> Forall is_byte (n_in (w_net w)) ->
  wp (client_get_file_offered sock output) (get_exchanged [] [] output w) w.
Proof.
  intros Hs He Hok Hbytes. unfold client_get_file_offered.
  wp_step. wp_use proto_recv_file_transfer_prefix_spec; [done|].
  intros [[r offered] size] w1 (Hf1 & Hout1 & (d1 & Hd1 & Hoff) & H1).
  assert (Hio1 : only_io w w1) by frame. assert (Hw1 : w_files w1 = w_files w) by apply Hf1.
  assert (Hs1 : said_all [] w w1) by (by apply said_nil).
  destruct offered as [s|]; cycle 1.
  { destruct Hoff as [Hr _]. unfold result_ok. rewrite bool_decide_eq_false_2 by done. cbn [negb].
    apply get_not_exchanged; [done|done|by apply said_all_said|]. intros E name d rest _ Hl _ _ Hin.
    by destruct Hr; eapply H1; auto. }
  destruct Hoff as (-> & raw & Hraw & -> & -> & Hsize).
  change (negb (result_ok PROTOCOL_OK)) with false. cbv iota.
  assert (Hsame : forall name d rest, Forall is_char name -> name_length_ok name ->
    zlen d <= HF_MAX_FILE_SIZE ->
    n_in (w_net w) = ([] ++ prefix_wire name (zlen d)) ++ d ++ reply_final_ok ++ rest ->
    name = cstr raw /\ size = zlen d /\ n_in (w_net w1) = d ++ reply_final_ok ++ rest).
  { intros name d rest Hch Hl Hmax Hin. rewrite Hd1 in Hin.
    apply prefix_wire_inj in Hin as (-> & -> & ->); try done; [by rewrite cstr_no_nul|proto_lia]. }
  destruct (Z.ltb_spec HF_MAX_FILE_SIZE size) as [Hbig|Hmax].
  { apply get_not_exchanged; [done|done|by apply said_all_said|]. intros E name d rest Hch Hl Hm _ Hin.
    destruct (Hsame name d rest Hch Hl Hm Hin) as (_ & -> & _). lia. }
  assert (Hstore : (output = None -> file_name_ok (cstr raw)) ->
    wp (client_get_file_store sock size (default (cstr raw) output)) (get_exchanged [] [] output w) w1).
  { intros Hnm. assert (He1 : w_env w1 = w_env w) by apply Hf1.
    wp_use client_get_file_store_spec; [done|done|by rewrite He1|by rewrite Hw1| |].
    { rewrite Hd1 in Hbytes. by apply Forall_app in Hbytes as [_ ?]. }
    intros x w2 H2. by eapply get_stored_exchanged. }
  destruct output as [path|]; [by apply Hstore|].
  destruct (Z.eqb_spec (fs_validate_file_name (Some (cstr raw))) 0) as [Hv|Hv]; cbn [negb].
  - apply Hstore. intros _. by apply fs_validate_file_name_iff.
  - apply get_not_exchanged; [done|done|by apply said_all_said|]. intros E name d rest Hch Hl Hm [_ Hnm] Hin.
    destruct (Hsame name d rest Hch Hl Hm Hin) as (-> & _). by apply Hv, fs_validate_file_name_iff, Hnm.
Qed.

Lemma client_get_file_exchange_spec sock remote output w :
  0 <= sock -> name_length_ok remote -> e_splice_direct (w_env w) = false -> fds_ok (w_files w) ->
  Forall is_byte (n_in (w_net w)) ->
  wp (client_get_file_exchange sock remote output (zlen remote))
    (get_exchanged (get_request remote) reply_ready_ok output w) w.
Proof.
  intros Hs Hname He Hok Hbytes. unfold client_get_file_exchange.
  rewrite encode_file_name_only_ok by done. change (negb (result_ok PROTOCOL_OK)) with false. cbv iota.
  rewrite ztake_ge by (rewrite name_wire_length; unfold proto_file_name_only_size; lia).
  rewrite <- (app_nil_r (get_request remote)), <- (app_nil_l reply_ready_ok).
  apply wp_get_exchange; [by apply send_header_exchanged|].
  intros w1 H1. pose proof (exchanged_bytes _ _ _ _ _ H1 Hbytes) as Hb1. destruct H1 as ((He1 & _) & Hw1 & _).
  apply (wp_get_exchange [] reply_ready_ok [] []); [by apply recv_response_exchanged; [..|left]|].
  intros w2 H2. pose proof (exchanged_bytes _ _ _ _ _ H2 Hb1) as Hb2. destruct H2 as ((He2 & _) & Hw2 & _).
  unfold same_files in Hw1, Hw2. apply client_get_file_offered_spec; congruence.
Qed.

(** What a failed [client_get_file] leaves: the files as they were, or -- when
    the removal failed -- its temporary file, or -- when none of the temporary
    names could be created -- one candidate name less: [CLEAN_UP] removes
    [tmp_path] whether or not this run created it. *)
Definition get_failed (w w' : world) : Prop :=
  f_fs (w_files w') = f_fs (w_files w) \/
  (w_faults w <> [] /\ exists path d k m, 0 <= k < 3 /\
     f_fs (w_files w) !! temp_path_text path (e_pid (w_env w)) k = None /\
     f_fs (w_files w') =
       <[temp_path_text path (e_pid (w_env w)) k := NFile d m]> (f_fs (w_files w))) \/
  (exists path k, 0 <= k < 3 /\
     let tmp := snd (fs_build_temp_path PATH_CAP (Some path) (e_pid (w_env w)) k) in
     is_Some (f_fs (w_files w) !! tmp) /\
     f_fs (w_files w') = delete tmp (f_fs (w_files w))).

Lemma get_file_cleanup_spec path w0 out tmp w :
  only_io w0 w -> get_unfinished path w0 out tmp w ->
  wp (get_file_cleanup out tmp) (fun _ w' =>
    only_files w w' /\ f_fds (w_files w') = f_fds (w_files w0) /\ get_failed w0 w') w.
Proof.
  intros Hio [(-> & Hfs & Hfds & Htmp)|(d & k & Hk & Htmp & Hno & Hst)].
  - unfold get_file_cleanup. change (negb (-1 =? -1)) with false. cbv iota. do 2 wp_step.
    case_bool_decide as Hne; cbn [negb].
    { wp_step. split; [done|]. split; [done|]. by left. }
    destruct Htmp as [?|(k & Hk & Htmp)]; [done|]. unfold fs_remove_ignore_error. wp_step.
    apply wp_sys_remove_any.
    + intros r w1 Hf1 Hw1. wp_step. split; [done|]. rewrite Hw1. split; [done|]. left. by rewrite Hw1.
    + intros w1 Hf1 Hw1. wp_step. split; [done|]. rewrite Hw1. split; [done|].
      destruct (f_fs (w_files w0) !! tmp) as [n|] eqn:E.
      * right; right. exists path, k. split; [done|]. cbv zeta. rewrite <- Htmp.
        split; [by rewrite E|]. rewrite Hw1. simpl. by rewrite Hfs.
      * left. rewrite Hw1. simpl. rewrite Hfs. by apply delete_id.
  - unfold wp. rewrite get_file_cleanup_server.
    eapply wp_mono; [apply (transfer_cleanup_spec (w_files w0) tmp d out PROTOCOL_ERR_IO); try done|].
    { rewrite Htmp. apply temp_path_nonempty. }
    intros [] w1 (Hf1 & Hfds & _ & Hfs). split; [done|]. split; [done|].
    destruct Hfs as [?|(Hne & m & Hm)]; [by left|]. right; left. split.
    + intros E. apply Hne. by eapply only_io_no_faults.
    + exists path, d, k, m. rewrite <- Htmp. split; [done|by split].
Qed.

(** What getting a file may come to. *)
Definition get_file_done (opt : client_opt_t) (remote : bytes) (w : world) (r : Z) (w' : world) : Prop :=
  only_io w w' /\ f_fds (w_files w') = f_fds (w_files w) /\ said (get_request remote) w w' /\
  (r = 0 /\ said_all (get_request remote) w w' /\ file_got (c_output_path opt) w w' \/
   r = 1 /\ get_failed w w') /\
  (w_faults w = [] -> forall name d rest, file_name_ok remote -> name_length_ok remote ->
     inet_pton (c_ip opt) = true -> Forall is_char name -> name_length_ok name ->
     zlen d <= HF_MAX_FILE_SIZE -> get_ready (c_output_path opt) name w ->
     n_in (w_net w) = (reply_ready_ok ++ prefix_wire name (zlen d)) ++ d ++ reply_final_ok ++ rest ->
     r = 0 /\ n_in (w_net w') = rest).

Lemma get_file_refused opt remote w w1 :
  only_files w w1 -> next_fd (w_files w) (w_files w1) ->
  (w_faults w = [] -> file_name_ok remote -> name_length_ok remote -> inet_pton (c_ip opt) = true -> False) ->
  wp (ret 1) (get_file_done opt remote w) w1.
Proof.
  intros Hf1 (E1 & E2 & _) Hlive. wp_step. split; [frame|]. split; [done|].
  split; [apply said_net, Hf1|]. split; [right; split; [done|by left]|].
  intros E name d rest H1 H2 H3. by destruct (Hlive E H1 H2 H3).
Qed.

(** The connection takes a descriptor number and nothing else. *)
Lemma get_exchanged_connected q p output w w1 x w' :
  only_files w w1 -> next_fd (w_files w) (w_files w1) ->
  get_exchanged q p output w1 x w' -> get_exchanged q p output w x w'.
Proof.
  intros Hf1 (E1 & E2 & _ & E4). destruct x as [[r out] tmp]. intros (Hio & Hs & Hcase & Hlive).
  assert (Hn1 : w_net w1 = w_net w) by apply Hf1. assert (He1 : w_env w1 = w_env w) by apply Hf1.
  assert (Ho1 : n_out (w_net w1) = n_out (w_net w)) by (by rewrite Hn1).
  assert (Hio1 : only_io w w1) by frame.
  split; [by etrans|]. split; [by eapply said_after|]. split.
  - destruct Hcase as [(-> & -> & -> & Hfd & Hall & raw & d & m & Hgot)|[-> [path Hu]]]; [left|right].
    + rewrite Hn1, E1 in Hgot. split_and!; [done|done|done|by rewrite Hfd|by eapply said_all_after|].
      by exists raw, d, m.
    + split; [done|]. exists path. unfold get_unfinished, stored in *. rewrite E1, E2, He1 in Hu.
      destruct Hu as [Hu|(d & k & Hk & Htmp & Hno & Hm & Hnx & Hst)]; [by left|right].
      exists d, k. do 4 (split; [done|]). split; [lia|done].
  - intros E name d rest Hch Hl Hm Hrdy Hin. rewrite Hn1 in Hlive.
    eapply Hlive; [by eapply only_io_no_faults|done..| |done].
    unfold get_ready, output_ready in *. by rewrite E1, He1.
Qed.

(** The label [CLEAN_UP]. *)
Lemma get_file_end opt remote sock r out tmp w w2 :
  get_exchanged (get_request remote) reply_ready_ok (c_output_path opt) w (r, out, tmp) w2 ->
  wp (get_file_cleanup out tmp ;;! let! _ := socket_close sock in ret r) (get_file_done opt remote w) w2.
Proof.
  intros (Hio & Hs & Hcase & Hlive). wp_step.
  apply (wp_mono _ (fun _ w' => only_files w2 w' /\ f_fds (w_files w') = f_fds (w_files w) /\
    (r = 0 /\ said_all (get_request remote) w w' /\ file_got (c_output_path opt) w w' \/
     r = 1 /\ get_failed w w'))).
  - destruct Hcase as [(-> & -> & -> & Hfd & Hall & Hgot)|(-> & path & Hu)].
    + unfold get_file_cleanup. change (negb (-1 =? -1)) with false. cbv iota. do 2 wp_step.
      rewrite bool_decide_eq_true_2 by done. cbn [negb]. wp_step. split; [done|]. split; [done|by left].
    + wp_use get_file_cleanup_spec; [exact Hio|done|]. intros [] w3 (Hf3 & Hfd3 & Hfail3).
      split; [done|]. split; [done|by right].
  - intros [] w3 (Hf3 & Hfd & Hres). wp_step. wp_use socket_close_spec. intros x w4 Hf4. wp_step.
    assert (Hw4 : w_files w4 = w_files w3) by frame.
    assert (Hn4 : w_net w4 = w_net w3) by apply Hf4. assert (Hn3 : w_net w3 = w_net w2) by apply Hf3.
    split; [etrans; [exact Hio|]; frame|]. rewrite Hw4. split; [done|].
    split; [eapply said_before; [by rewrite Hn4, Hn3|done]|]. split.
    + unfold get_failed, file_got, file_got_after, said_all in *. by rewrite Hw4, Hn4.
    + rewrite Hn4, Hn3. intros E name d rest _ _ _. by apply Hlive.
Qed.

Lemma client_get_file_spec opt remote w :
  c_remote_path opt = Some remote -> e_splice_direct (w_env w) = false -> fds_ok (w_files w) ->
  Forall is_byte (n_in (w_net w)) ->
  wp (client_get_file opt) (get_file_done opt remote w) w.
Proof.
  intros Hr He Hok Hbytes. unfold client_get_file. rewrite Hr.
  destruct (Z.eqb_spec (fs_validate_file_name (Some remote)) 0) as [Hv|Hv]; cbn [negb]; cycle 1.
  { apply get_file_refused; [done|apply next_fd_refl|]. intros _ Hn%fs_validate_file_name_iff. done. }
  destruct (proto_get_file_name_len (Some remote)) as [len|] eqn:Hlen; cycle 1.
  { apply get_file_refused; [done|apply next_fd_refl|].
    intros _ _ Hn _. by rewrite proto_get_file_name_len_fits in Hlen. }
  apply proto_get_file_name_len_ok in Hlen as [Hname ->].
  wp_step. wp_use client_connect_spec; [apply Hok|].
  intros [r sock] w1 (Hf1 & Hnx & Hcase & Hlive1).
  destruct Hcase as [[-> Hsock]| ->]; cbn [negb Z.eqb]; cycle 1.
  { apply get_file_refused; [done|done|]. intros E _ _ Hip. by specialize (Hlive1 E Hip). }
  assert (Hn1 : w_net w1 = w_net w) by apply Hf1. assert (He1 : w_env w1 = w_env w) by apply Hf1.
  wp_step. wp_use client_get_file_exchange_spec;
    [done|done|by rewrite He1|by eapply next_fd_ok|by rewrite Hn1|].
  intros [[r out] tmp] w2 H2. apply get_file_end. by eapply get_exchanged_connected.
Qed.

(** *** Sending a text message *)

Definition message_request (message : bytes) : bytes :=
  request_header HF_MSG_TYPE_TEXT_MESSAGE (zlen message) ++ message.

Lemma client_send_message_exchange_spec sock message w :
  0 <= sock -> Forall is_byte (n_in (w_net w)) ->
  wp (client_send_message_exchange sock message)
    (exchanged same_files (message_request message) reply_final_ok w) w.
Proof.
  intros Hs Hb. unfold client_send_message_exchange.
  eapply wp_mono; [apply (wp_exchange same_files same_files same_files (message_request message) [] [] reply_final_ok)|].
  - done.
  - unfold same_files. congruence.
  - by apply send_header_exchanged.
  - intros w1 H1. apply final_exchanged; [done|]. by eapply exchanged_bytes.
  - intros r w1. by rewrite app_nil_r.
Qed.

(** What sending [message] may come to. *)
Definition message_sent (opt : client_opt_t) (message : bytes) (w : world) (r : Z) (w' : world) : Prop :=
  only_io w w' /\ next_fd (w_files w) (w_files w') /\ (r = 0 \/ r = 1) /\
  said (message_request message) w w' /\
  (r = 0 -> zlen message <= HF_PROTOCOL_MAX_TEXT_MESSAGE_SIZE /\
     said_all (message_request message) w w' /\
     n_in (w_net w) = reply_final_ok ++ n_in (w_net w')) /\
  (w_faults w = [] -> forall rest, zlen message <= HF_PROTOCOL_MAX_TEXT_MESSAGE_SIZE ->
     inet_pton (c_ip opt) = true -> n_in (w_net w) = reply_final_ok ++ rest ->
     r = 0 /\ n_in (w_net w') = rest).

Lemma message_sent_errno opt message w r w1 w2 :
  message_sent opt message w r w1 -> only_errno w1 w2 -> message_sent opt message w r w2.
Proof.
  intros (H1 & H2 & H3 & H4 & H5 & H6) Hf. assert (Hw : w_files w2 = w_files w1) by frame.
  assert (Hn : w_net w2 = w_net w1) by apply Hf. unfold message_sent. rewrite Hw, Hn.
  split; [etrans; [exact H1|frame]|]. split_and!; try done.
  - eapply said_before; [by rewrite Hn|done].
  - intros E. destruct (H5 E) as (? & ? & ?). split_and!; try done. by eapply said_all_net; [rewrite Hn|].
Qed.

(** Nothing was sent. *)
Lemma message_not_sent opt message w w' :
  only_io w w' -> next_fd (w_files w) (w_files w') -> w_net w' = w_net w ->
  (w_faults w = [] -> zlen message <= HF_PROTOCOL_MAX_TEXT_MESSAGE_SIZE -> inet_pton (c_ip opt) = true -> False) ->
  message_sent opt message w 1 w'.
Proof.
  intros H1 H2 Hn Hlive. split_and!; try done; [by right|by apply said_net|].
  intros E rest Hm Hip. by destruct (Hlive E Hm Hip).
Qed.

Lemma client_send_message_spec opt message w :
  c_message opt = Some message -> 0 <= f_next (w_files w) -> Forall is_byte (n_in (w_net w)) ->
  wp (client_send_message opt) (message_sent opt message w) w.
Proof.
  intros Hm Hn Hbytes. unfold client_send_message. rewrite Hm.
  change (default [] (Some message)) with message. unfold strlen. wp_step.
  apply (wp_mono _ (fun '(r, _) w' => message_sent opt message w r w')); cycle 1.
  { intros [r sock] w1 H. wp_step. wp_use socket_close_spec. intros x w2 Hf2. wp_step.
    by eapply message_sent_errno. }
  destruct (Z.ltb_spec HF_PROTOCOL_MAX_TEXT_MESSAGE_SIZE (zlen message)) as [Hbig|Hmax].
  { wp_step. apply message_not_sent; [done|apply next_fd_refl|done|lia]. }
  wp_step. wp_use client_connect_spec; [done|]. intros [r sock] w1 (Hf1 & Hnx & Hcase & H1).
  assert (Hn1 : w_net w1 = w_net w) by apply Hf1. assert (Hio1 : only_io w w1) by frame.
  destruct Hcase as [[-> Hsock]| ->]; cbn [negb Z.eqb]; cycle 1.
  { wp_step. apply message_not_sent; try done. intros E _ Hip. by specialize (H1 E Hip). }
  wp_step. wp_use client_send_message_exchange_spec; [done|by rewrite Hn1|].
  intros r w2 (Hio2 & Hw2 & Hr2 & Hs2 & Ha2 & H2). wp_step. rewrite Hn1 in Ha2, H2.
  assert (Ho1 : n_out (w_net w1) = n_out (w_net w)) by (by rewrite Hn1).
  split; [by etrans|]. unfold same_files in Hw2. rewrite Hw2. split; [done|]. split_and!; [done|by eapply said_after| |].
  - intros E. destruct (Ha2 E) as [Hall Hin]. split_and!; [done|by eapply said_all_after|done].
  - intros E rest _ _ Hin. apply H2; [by eapply only_io_no_faults|done].
Qed.

(** *** Examples *)

Definition demo_get : client_opt_t :=
  ClientOpt None (Some (bs "f")) (Some (bs "out")) None (bs "127.0.0.1") 9000 HF_MSG_TYPE_GET_FILE.

Lemma demo_bytes l : forallb (fun b => (0 <=? b) && (b <? 256)) l = true -> Forall is_byte l.
Proof.
  intros Hin. apply Is_true_true in Hin. rewrite forallb_True in Hin. eapply Forall_impl; [exact Hin|].
  intros b Hb%Is_true_true. unfold is_byte. lia.
Qed.

(** [CLEAN_UP] of [client_get_file] removes a file this run did not create: with
    all three temporary names taken the command fails, and the third of those
    files is gone. *)
Lemma client_get_file_removes_foreign :
  let tmp k := temp_path_text (bs "out") 7 k in
  let foreign := NFile [42] 0 in
  let fs := <[tmp 0 := foreign]> (<[tmp 1 := foreign]> {[tmp 2 := foreign]}) in
  let w := demo_world [] [0; 0; 0; 0; 0; 1; 102; 0; 0; 0; 0; 0; 0; 0; 0; 1; 0; 0; 0] (demo_files fs) in
  exists w', client_get_file demo_get w = Some (1, w') /\
    f_fs (w_files w) !! tmp 2 = Some foreign /\ f_fs (w_files w') !! tmp 2 = None.
Proof. eexists. split_and!; [vm_compute; reflexivity|vm_compute; reflexivity..]. Qed.

(** ** Properties *)




(** Sending a file: whatever the server sends and whatever fails,
    [client_send_file_raw] always returns, changes no file, leaves no descriptor
    open and sends nothing, or in order the header, the prefix with the base
    name and the true size, and the contents, as far as the connection lasts;
    exit code 0 means that all of it was sent and both OK frames of the server
    arrived. *)
Theorem client_send_file_raw_exact opt p w (Hpath : c_path opt = Some p)
    (Hfds : fds_ok (w_files w)) (Hsizes : sizes_fit (f_fs (w_files w)))
    (Hbytes : Forall is_byte (n_in (w_net w))) :
  wp (client_send_file_raw opt) (fun r w' =>
    f_fs (w_files w') = f_fs (w_files w) /\ f_fds (w_files w') = f_fds (w_files w) /\
    send_file_outcome p (c_msg_type opt) r w w') w.
Proof.
  wp_use client_send_file_raw_spec; try done. by intros r w' (_ & Hfs & Hfd & H & _).
Qed.

Lemma client_send_file_raw_exact_witness :
  let opt := ClientOpt (Some (bs "d/f")) None None None (bs "127.0.0.1") 9000 HF_MSG_TYPE_SEND_FILE in
  let w := demo_world [FNone; FNone; FNone; FNone; FNone; FNone; FShort 7] [0; 0; 0; 0; 1; 2; 0; 9]
             (demo_files demo_shared) in
  wp (client_send_file_raw opt) (fun r w' =>
    f_fs (w_files w') = f_fs (w_files w) /\ f_fds (w_files w') = f_fds (w_files w) /\
    send_file_outcome (bs "d/f") (c_msg_type opt) r w w') w.
Proof.
  apply client_send_file_raw_exact;
    [reflexivity|apply demo_files_ok|apply demo_sizes_fit|apply demo_bytes; reflexivity].
Defined.
