(* ===== verification/DaemonState.v ===== *)
(** * The daemon's state file (src/daemon_state.c)

    A running daemon leaves a small text file of [key=value] lines in the
    temporary directory; the commands read it back. The file is written to a
    temporary name and renamed, and read line by line with [fgets] into a buffer
    of 4608 bytes. Output parameters are never [NULL], so their guards are left
    out; the [char] arrays of the state are the C strings they hold. *)

From S2P Require Import Prelude CLib World Logic Fs Net Protocol TransferIo.

(** ** Definitions *)

Record daemon_state_t := DaemonState {
  pid : Z;
  receive_dir : bytes;
  web_url : bytes;
  log_path : bytes;
  port : Z;
  daemon_mode : Z
}.

(** [sizeof(state->web_url)], [sizeof(text)], [sizeof(line)]; the other buffers
    have [PATH_CAP] bytes. *)
Definition WEB_URL_CAP : Z := 256.
Definition TEXT_CAP : Z := 12288.
Definition LINE_CAP : Z := 4608.

(** The result and what [out] holds, which a value that does not fit leaves cut
    off. *)
Definition daemon_state_copy_str (out_cap : Z) (value : bytes) : Z * bytes :=
  let '(n, out) := snprintf out_cap value in
  ((if snprintf_failed n out_cap then 1 else 0), out).

(** The loop that opens a temporary file: [None] is the early [return 1];
    otherwise [tmp_path] and [fd]. *)
Fixpoint daemon_state_open_temp (pid : Z) (path : bytes) (attempts : list Z) (tmp_path : bytes)
    : M (option (bytes * Z)) :=
  match attempts with
  | [] => ret (Some (tmp_path, -1))
  | attempt :: attempts =>
      let '(r, tmp_path) := fs_build_temp_path PATH_CAP (Some path) pid attempt in
      if negb (r =? 0) then ret None
      else
        let! fd := fs_open_temp_file (Some tmp_path) in
        if negb (fd =? -1) then ret (Some (tmp_path, fd))
        else
          let! errno := get_errno in
          if negb (errno =? EEXIST) then ret None
          else daemon_state_open_temp pid path attempts tmp_path
  end.

Definition daemon_state_write_text_file (path text : bytes) : M Z :=
  let! w := get in
  let! opened := daemon_state_open_temp (e_pid (w_env w)) path [0; 1; 2] [] in
  match opened with
  | None => ret 1
  | Some (tmp_path, fd) =>
      if fd =? -1 then ret 1
      else
        let len := strlen text in
        let! n := fs_write_all fd text in
        if negb (n =? len) then
          let! _ := fs_close fd in
          fs_remove_ignore_error (Some tmp_path) ;;! ret 1
        else
          let! r := fs_close fd in
          if negb (r =? 0) then fs_remove_ignore_error (Some tmp_path) ;;! ret 1
          else
            let! r := fs_commit_temp_file (Some tmp_path) (Some path) in
            if negb (r =? 0) then fs_remove_ignore_error (Some tmp_path) ;;! ret 1
            else ret 0
  end.

Definition daemon_state_tmp_dir (out_cap : Z) (tmpdir : option bytes) : Z * bytes :=
  let tmp := match tmpdir with None | Some [] => bs "/tmp" | Some tmp => tmp end in
  daemon_state_copy_str out_cap tmp.

Definition daemon_state_global_path (tmpdir : option bytes) (name : bytes) (out_cap : Z)
    : Z * bytes :=
  let '(r, tmp_dir) := daemon_state_tmp_dir PATH_CAP tmpdir in
  if negb (r =? 0) then (1, []) else fs_join_path out_cap (Some tmp_dir) (Some name).

Definition daemon_state_parse_u16 (value : bytes) : option Z :=
  match value with
  | [] => None
  | _ =>
      let '(n, rest, erange) := strtoul value in
      if erange || bool_decide (rest = value) || negb (bool_decide (rest = [])) || (65535 <? n)
      then None
      else Some (u16 n)
  end.

Definition daemon_state_parse_long (value : bytes) : option Z :=
  match value with
  | [] => None
  | _ =>
      let '(n, rest, erange) := strtol value in
      if erange || bool_decide (rest = value) || negb (bool_decide (rest = [])) then None
      else Some n
  end.

Definition daemon_state_default_log_path (tmpdir : option bytes) (out_cap : Z) : Z * bytes :=
  daemon_state_global_path tmpdir (bs "hf-daemon.log") out_cap.

Definition daemon_state_default_state_path (tmpdir : option bytes) (out_cap : Z) : Z * bytes :=
  daemon_state_global_path tmpdir (bs "hf-daemon.state") out_cap.

(** The text of the format string. *)
Definition daemon_state_text (state : daemon_state_t) : bytes :=
  bs "pid=" ++ sdec (pid state) ++ [10] ++
  bs "receive_dir=" ++ receive_dir state ++ [10] ++
  bs "port=" ++ udec (port state) ++ [10] ++
  bs "web_url=" ++ web_url state ++ [10] ++
  bs "log_path=" ++ log_path state ++ [10] ++
  bs "daemon_mode=" ++ sdec (daemon_mode state) ++ [10].

Definition daemon_state_write (state : option daemon_state_t) : M Z :=
  let! w := get in
  match state with
  | None => ret 1
  | Some state =>
      let '(r, state_path) := daemon_state_default_state_path (e_tmpdir (w_env w)) PATH_CAP in
      if (pid state <=? 0) || bool_decide (receive_dir state = []) || (port state =? 0)
         || negb (r =? 0) then ret 1
      else
        let '(n, text) := snprintf TEXT_CAP (daemon_state_text state) in
        if snprintf_failed n TEXT_CAP then ret 1
        else daemon_state_write_text_file state_path text
  end.

(** One [fgets] with room for [n] bytes: the line, and what is left. *)
Fixpoint fgets (n : nat) (s : bytes) : bytes * bytes :=
  match n, s with
  | O, _ | _, [] => ([], s)
  | S n, c :: s =>
      if c =? 10 then ([c], s) else let '(line, rest) := fgets n s in (c :: line, rest)
  end.

(** What the loop over the lines maintains. *)
Record read_state := ReadState {
  rs_state : daemon_state_t;
  have_pid : bool;
  have_receive_dir : bool;
  have_port : bool
}.

Definition with_pid (v : Z) (s : daemon_state_t) : daemon_state_t :=
  DaemonState v (receive_dir s) (web_url s) (log_path s) (port s) (daemon_mode s).
Definition with_receive_dir (v : bytes) (s : daemon_state_t) : daemon_state_t :=
  DaemonState (pid s) v (web_url s) (log_path s) (port s) (daemon_mode s).
Definition with_web_url (v : bytes) (s : daemon_state_t) : daemon_state_t :=
  DaemonState (pid s) (receive_dir s) v (log_path s) (port s) (daemon_mode s).
Definition with_log_path (v : bytes) (s : daemon_state_t) : daemon_state_t :=
  DaemonState (pid s) (receive_dir s) (web_url s) v (port s) (daemon_mode s).
Definition with_port (v : Z) (s : daemon_state_t) : daemon_state_t :=
  DaemonState (pid s) (receive_dir s) (web_url s) (log_path s) v (daemon_mode s).
Definition with_daemon_mode (v : Z) (s : daemon_state_t) : daemon_state_t :=
  DaemonState (pid s) (receive_dir s) (web_url s) (log_path s) (port s) v.

(** The assignment of [value] to the field [key] names. *)
Definition daemon_state_assign (key value : bytes) (a : read_state) : read_state :=
  let s := rs_state a in
  if streq key (bs "pid") then
    match daemon_state_parse_long value with
    | Some v => ReadState (with_pid v s) (0 <? v) (have_receive_dir a) (have_port a)
    | None => ReadState s false (have_receive_dir a) (have_port a)
    end
  else if streq key (bs "receive_dir") then
    if bool_decide (value = []) then ReadState s (have_pid a) false (have_port a)
    else
      let '(r, v) := daemon_state_copy_str PATH_CAP value in
      ReadState (with_receive_dir v s) (have_pid a) (r =? 0) (have_port a)
  else if streq key (bs "port") then
    match daemon_state_parse_u16 value with
    | Some v => ReadState (with_port v s) (have_pid a) (have_receive_dir a) (negb (v =? 0))
    | None => ReadState s (have_pid a) (have_receive_dir a) false
    end
  else if streq key (bs "web_url") then
    ReadState (with_web_url (snd (daemon_state_copy_str WEB_URL_CAP value)) s)
              (have_pid a) (have_receive_dir a) (have_port a)
  else if streq key (bs "log_path") then
    ReadState (with_log_path (snd (daemon_state_copy_str PATH_CAP value)) s)
              (have_pid a) (have_receive_dir a) (have_port a)
  else if streq key (bs "daemon_mode") then
    match daemon_state_parse_long value with
    | Some v => ReadState (with_daemon_mode (if negb (v =? 0) then 1 else 0) s)
                          (have_pid a) (have_receive_dir a) (have_port a)
    | None => a
    end
  else a.

(** The body of the loop, for what [fgets] put into [line]. *)
Definition daemon_state_line (line : bytes) (a : read_state) : read_state :=
  let line := cstr (line ++ [0]) in
  match strchr line 61 with
  | None => a
  | Some eq =>
      let value := drop (S eq) line in
      daemon_state_assign (take eq line) (take (strcspn value [13; 10]) value) a
  end.

(** The loop over the contents of the stream. *)
Fixpoint daemon_state_lines (fuel : nat) (content : bytes) (a : read_state) : read_state :=
  match fuel, content with
  | O, _ | _, [] => a
  | S fuel, _ =>
      let '(line, rest) := fgets (Z.to_nat (LINE_CAP - 1)) content in
      daemon_state_lines fuel rest (daemon_state_line line a)
  end.

Definition daemon_state_zero : daemon_state_t := DaemonState 0 [] [] [] 0 0.

(** From the contents to the result and the state. *)
Definition daemon_state_parse (content : bytes) : Z * daemon_state_t :=
  let a := daemon_state_lines (length content) content
             (ReadState daemon_state_zero false false false) in
  ((if have_pid a && have_receive_dir a && have_port a then 0 else 1), rs_state a).

(** What a stream delivers of a file until the end or a read error. *)
Definition stream_contents (fd : Z) : M bytes :=
  let! f := pop_fault in
  let! w := get in
  match f, f_fds (w_files w) !! fd with
  | FErr e, _ => fail_with e []
  | _, Some (FdFile path _ _) =>
      match f_fs (w_files w) !! path with
      | Some (NFile c _) => ret (ztake (limit f (zlen c)) c)
      | _ => ret []
      end
  | _, _ => ret []
  end.

(** The result and [*state]; [None] is a state that was not written to. *)
Definition daemon_state_read : M (Z * option daemon_state_t) :=
  let! w := get in
  let '(r, state_path) := daemon_state_default_state_path (e_tmpdir (w_env w)) PATH_CAP in
  if negb (r =? 0) then ret (1, None)
  else
    let! fp := sys_open state_path O_RDONLY in
    if fp =? -1 then ret (1, None)
    else
      let! content := stream_contents fp in
      let! _ := sys_close fp in
      let '(r, state) := daemon_state_parse content in
      ret (r, Some state).

Definition daemon_state_cleanup_files : M unit :=
  let! w := get in
  let '(r, state_path) := daemon_state_default_state_path (e_tmpdir (w_env w)) PATH_CAP in
  if r =? 0 then fs_remove_ignore_error (Some state_path) else ret tt.

(** *** Specifications *)

(** What a line of the file can hold. *)
Definition line_char (c : Z) : Prop := is_char c /\ c <> 10 /\ c <> 13.

(** A state that fits its buffers, in strings of one line. *)
Definition state_ok (s : daemon_state_t) : Prop :=
  0 < pid s <= LONG_MAX /\ 0 < port s <= 65535 /\
  (daemon_mode s = 0 \/ daemon_mode s = 1) /\
  receive_dir s <> [] /\ zlen (receive_dir s) < PATH_CAP /\ zlen (web_url s) < WEB_URL_CAP /\
  zlen (log_path s) < PATH_CAP /\
  Forall line_char (receive_dir s) /\ Forall line_char (web_url s) /\ Forall line_char (log_path s).

(** The path of the state file. *)
Definition state_path (tmpdir : option bytes) : bytes :=
  entry_path (match tmpdir with None | Some [] => bs "/tmp" | Some tmp => tmp end)
             (bs "hf-daemon.state").

(** ** Theorems *)

(** *** Lines *)

Lemma fgets_line n l rest :
  10 ∉ l -> (length l < n)%nat -> fgets n (l ++ 10 :: rest) = (l ++ [10], rest).
Proof.
  revert n. induction l as [|c l IH]; intros n Hl Hn; destruct n as [|n]; simpl in Hn; try lia.
  - done.
  - apply not_elem_of_cons in Hl as [Hc Hl]. cbn [app fgets].
    destruct (Z.eqb_spec c 10); [lia|]. by rewrite IH by (done || lia).
Qed.

Lemma strchr_app_here key c rest : c ∉ key -> strchr (key ++ c :: rest) c = Some (length key).
Proof.
  induction key as [|k key IH]; intros Hc; simpl; [by rewrite Z.eqb_refl|].
  apply not_elem_of_cons in Hc as [Hk Hc]. destruct (Z.eqb_spec k c); [lia|]. by rewrite IH.
Qed.

Lemma strcspn_stop s c rest reject :
  Forall (fun b => b ∉ reject) s -> c ∈ reject -> strcspn (s ++ c :: rest) reject = length s.
Proof.
  intros Hs Hc. induction Hs as [|b s Hb Hs IH]; simpl.
  - by rewrite bool_decide_eq_true_2.
  - rewrite bool_decide_eq_false_2 by done. by rewrite IH.
Qed.

(** A line [key=value]. *)
Definition kv (key value : bytes) : bytes := key ++ 61 :: value ++ [10].

Lemma line_kv key value a :
  Forall line_char key -> 61 ∉ key -> Forall line_char value ->
  daemon_state_line (kv key value) a = daemon_state_assign key value a.
Proof.
  intros Hk Heq Hv. unfold daemon_state_line, kv.
  assert (Hch : Forall is_char (key ++ 61 :: value ++ [10])).
  { rewrite Forall_app, Forall_cons, Forall_app. split_and!.
    - eapply Forall_impl; [exact Hk|]. by intros c [? _].
    - unfold is_char. lia.
    - eapply Forall_impl; [exact Hv|]. by intros c [? _].
    - repeat constructor; unfold is_char; lia. }
  rewrite cstr_app_nul by done. cbv zeta. rewrite strchr_app_here by done.
  rewrite take_app_length. replace (S (length key)) with (length (key ++ [61])) by len_lia.
  replace (key ++ 61 :: value ++ [10]) with ((key ++ [61]) ++ value ++ [10]) by (by rewrite <- app_assoc).
  rewrite drop_app_length, strcspn_stop; [by rewrite take_app_length| |set_solver].
  eapply Forall_impl; [exact Hv|]. intros c (_ & ? & ?). set_solver.
Qed.

(** One turn of the loop. *)
Lemma lines_kv fuel key value rest a :
  Forall line_char key -> 61 ∉ key -> Forall line_char value ->
  zlen key + zlen value + 2 < LINE_CAP ->
  daemon_state_lines (S fuel) (kv key value ++ rest) a =
  daemon_state_lines fuel rest (daemon_state_assign key value a).
Proof.
  intros Hk Heq Hv Hl. cbn [daemon_state_lines].
  destruct (kv key value ++ rest) eqn:E; [by destruct key|]. rewrite <- E. clear E.
  replace (kv key value ++ rest) with ((key ++ 61 :: value) ++ 10 :: rest)
    by (unfold kv; rewrite <- !app_assoc; simpl; by rewrite <- app_assoc).
  assert (H10 : forall s, Forall line_char s -> 10 ∉ s).
  { intros s Hs Hin. rewrite Forall_forall in Hs. by destruct (Hs _ Hin) as (_ & ? & _). }
  rewrite fgets_line.
  - replace ((key ++ 61 :: value) ++ [10]) with (kv key value) by (unfold kv; by rewrite <- app_assoc).
    by rewrite line_kv.
  - rewrite not_elem_of_app, not_elem_of_cons. split_and!; auto.
  - unfold LINE_CAP in *. len_lia.
Qed.

Lemma digits_line s : Forall (fun c => isdigit c = true) s -> Forall line_char s.
Proof.
  intros H. eapply Forall_impl; [exact H|]. intros c Hc. unfold isdigit, line_char, is_char in *. lia.
Qed.

Lemma udec_line n : 0 <= n -> Forall line_char (udec n).
Proof. intros Hn. destruct (udec_spec n Hn) as (_ & H & _). by apply digits_line. Qed.

Lemma copy_str_fits cap v :
  zlen v < cap -> cap <= INT_MAX -> daemon_state_copy_str cap v = (0, v).
Proof.
  intros Hv Hc. unfold daemon_state_copy_str.
  destruct (snprintf_ok cap v) as [-> E]; [done|lia|]. by rewrite E.
Qed.

Lemma parse_long_udec n : 0 <= n <= LONG_MAX -> daemon_state_parse_long (udec n) = Some n.
Proof.
  intros Hn. destruct (udec_spec n) as (Hne & _); [lia|]. unfold daemon_state_parse_long.
  rewrite strtol_udec by done. destruct (udec n); [done|]. by rewrite bool_decide_eq_false_2.
Qed.

Lemma parse_u16_udec n : 0 <= n <= 65535 -> daemon_state_parse_u16 (udec n) = Some n.
Proof.
  intros Hn. destruct (udec_spec n) as (Hne & _); [lia|]. unfold daemon_state_parse_u16.
  rewrite strtoul_udec by (unfold ULONG_MAX; lia). destruct (udec n); [done|].
  rewrite bool_decide_eq_false_2 by done. cbn [orb]. rewrite bool_decide_eq_true_2 by done.
  cbn [negb orb]. destruct (Z.ltb_spec 65535 n); [lia|]. unfold u16. by rewrite Z.mod_small by lia.
Qed.

Lemma sdec_pos n : 0 <= n -> sdec n = udec n.
Proof. intros H. unfold sdec. destruct (Z.ltb_spec n 0); [lia|done]. Qed.

Lemma udec_short n : 0 <= n <= LONG_MAX -> zlen (udec n) <= 64.
Proof. intros H. apply (udec_length n 63). unfold LONG_MAX in *. lia. Qed.

(** The text as lines. *)
Lemma daemon_state_text_kv s :
  daemon_state_text s =
  kv (bs "pid") (sdec (pid s)) ++ kv (bs "receive_dir") (receive_dir s) ++
  kv (bs "port") (udec (port s)) ++ kv (bs "web_url") (web_url s) ++
  kv (bs "log_path") (log_path s) ++ kv (bs "daemon_mode") (sdec (daemon_mode s)) ++ [].
Proof.
  unfold daemon_state_text, kv. rewrite app_nil_r. repeat (rewrite <- app_assoc; cbn [app]).
  reflexivity.
Qed.

#[export] Instance line_char_dec c : Decision (line_char c).
Proof. unfold line_char, is_char. apply _. Defined.

Definition key_ok (key : bytes) : Prop := Forall line_char key /\ 61 ∉ key /\ zlen key <= 11.

Lemma lines_step fuel key value rest a :
  key_ok key -> Forall line_char value -> zlen value < PATH_CAP ->
  daemon_state_lines (S fuel) (kv key value ++ rest) a =
  daemon_state_lines fuel rest (daemon_state_assign key value a).
Proof.
  intros (H1 & H2 & H3) Hv Hl. apply lines_kv; try done. unfold LINE_CAP, PATH_CAP in *. lia.
Qed.

(** The assignments to the fields of a state that fits. *)
Section Assign.
Context (s : daemon_state_t) (Hs : state_ok s).
Implicit Types (a : read_state).

Lemma assign_pid a :
  daemon_state_assign (bs "pid") (sdec (pid s)) a =
  ReadState (with_pid (pid s) (rs_state a)) true (have_receive_dir a) (have_port a).
Proof.
  destruct Hs as (Hpid & _). rewrite sdec_pos by lia. unfold daemon_state_assign.
  change (streq (bs "pid") (bs "pid")) with true. cbv iota zeta.
  rewrite parse_long_udec by lia. destruct (Z.ltb_spec 0 (pid s)); [done|lia].
Qed.

Lemma assign_receive_dir a :
  daemon_state_assign (bs "receive_dir") (receive_dir s) a =
  ReadState (with_receive_dir (receive_dir s) (rs_state a)) (have_pid a) true (have_port a).
Proof.
  destruct Hs as (_ & _ & _ & Hne & Hl & _). unfold daemon_state_assign.
  change (streq (bs "receive_dir") (bs "pid")) with false.
  change (streq (bs "receive_dir") (bs "receive_dir")) with true. cbv iota zeta.
  rewrite bool_decide_eq_false_2 by done. by rewrite copy_str_fits by done.
Qed.

Lemma assign_port a :
  daemon_state_assign (bs "port") (udec (port s)) a =
  ReadState (with_port (port s) (rs_state a)) (have_pid a) (have_receive_dir a) true.
Proof.
  destruct Hs as (_ & Hp & _). unfold daemon_state_assign.
  change (streq (bs "port") (bs "pid")) with false.
  change (streq (bs "port") (bs "receive_dir")) with false.
  change (streq (bs "port") (bs "port")) with true. cbv iota zeta.
  rewrite parse_u16_udec by lia. destruct (Z.eqb_spec (port s) 0); [lia|done].
Qed.

Lemma assign_web_url a :
  daemon_state_assign (bs "web_url") (web_url s) a =
  ReadState (with_web_url (web_url s) (rs_state a)) (have_pid a) (have_receive_dir a) (have_port a).
Proof.
  destruct Hs as (_ & _ & _ & _ & _ & Hl & _). unfold daemon_state_assign.
  change (streq (bs "web_url") (bs "pid")) with false.
  change (streq (bs "web_url") (bs "receive_dir")) with false.
  change (streq (bs "web_url") (bs "port")) with false.
  change (streq (bs "web_url") (bs "web_url")) with true. cbv iota zeta.
  by rewrite copy_str_fits by done.
Qed.

Lemma assign_log_path a :
  daemon_state_assign (bs "log_path") (log_path s) a =
  ReadState (with_log_path (log_path s) (rs_state a)) (have_pid a) (have_receive_dir a) (have_port a).
Proof.
  destruct Hs as (_ & _ & _ & _ & _ & _ & Hl & _). unfold daemon_state_assign.
  change (streq (bs "log_path") (bs "pid")) with false.
  change (streq (bs "log_path") (bs "receive_dir")) with false.
  change (streq (bs "log_path") (bs "port")) with false.
  change (streq (bs "log_path") (bs "web_url")) with false.
  change (streq (bs "log_path") (bs "log_path")) with true. cbv iota zeta.
  by rewrite copy_str_fits by done.
Qed.

Lemma assign_daemon_mode a :
  daemon_state_assign (bs "daemon_mode") (sdec (daemon_mode s)) a =
  ReadState (with_daemon_mode (daemon_mode s) (rs_state a))
            (have_pid a) (have_receive_dir a) (have_port a).
Proof.
  destruct Hs as (_ & _ & [-> | ->] & _); reflexivity.
Qed.
End Assign.

Lemma daemon_state_text_length s : exists n, length (daemon_state_text s) = (6 + n)%nat.
Proof.
  assert (6 <= length (daemon_state_text s))%nat.
  { rewrite daemon_state_text_kv. unfold kv. len_lia. }
  exists (length (daemon_state_text s) - 6)%nat. lia.
Qed.

Lemma daemon_state_parse_text s :
  state_ok s -> daemon_state_parse (daemon_state_text s) = (0, s).
Proof.
  intros Hs. pose proof Hs as (Hpid & Hport & Hmode & Hne & Hdir & Hurl & Hlog & Cdir & Curl & Clog).
  assert (Hm : 0 <= daemon_mode s <= LONG_MAX) by (unfold LONG_MAX; lia).
  pose proof (udec_short (pid s) ltac:(lia)). pose proof (udec_short (daemon_mode s) Hm).
  pose proof (udec_short (port s) ltac:(unfold LONG_MAX; lia)).
  assert (Hkeys : Forall key_ok
    [bs "pid"; bs "receive_dir"; bs "port"; bs "web_url"; bs "log_path"; bs "daemon_mode"]).
  { repeat constructor; try (by apply (bool_decide_unpack _)); by vm_compute. }
  rewrite !Forall_cons in Hkeys. destruct Hkeys as (K1 & K2 & K3 & K4 & K5 & K6 & _).
  unfold daemon_state_parse. destruct (daemon_state_text_length s) as [n ->].
  rewrite daemon_state_text_kv. cbn [Nat.add].
  assert (Hcap : 64 < PATH_CAP) by done. unfold WEB_URL_CAP in Hurl.
  assert (zlen (web_url s) < PATH_CAP) by (unfold PATH_CAP; lia).
  rewrite lines_step; [|done|rewrite sdec_pos by lia; apply udec_line; lia|rewrite sdec_pos; lia].
  rewrite assign_pid by done.
  rewrite lines_step by done. rewrite assign_receive_dir by done.
  rewrite lines_step; [|done|apply udec_line; lia|lia]. rewrite assign_port by done.
  rewrite lines_step by done. rewrite assign_web_url by done.
  rewrite lines_step by done. rewrite assign_log_path by done.
  rewrite lines_step; [|done|rewrite sdec_pos by lia; apply udec_line; lia|rewrite sdec_pos; lia].
  rewrite assign_daemon_mode by done. by destruct n, s.
Qed.

(** *** The file *)

(** The attempts are those of transfer_io.c, but for how giving up is told. *)
Lemma daemon_state_open_temp_server pid path attempts tmp (Q : protocol_result_t * bytes * Z -> world -> Prop) w :
  wp (transfer_open_temp pid path attempts tmp) Q w ->
  wp (daemon_state_open_temp pid path attempts tmp) (fun o w' =>
    (exists t fd, o = Some (t, fd) /\ fd <> -1 /\ Q (PROTOCOL_OK, t, fd) w') \/
    ((o = None \/ exists t, o = Some (t, -1)) /\
     exists r t, r <> PROTOCOL_OK /\ Q (r, t, -1) w')) w.
Proof.
  revert tmp w. induction attempts as [|k attempts IH]; intros tmp w;
    cbn [transfer_open_temp daemon_state_open_temp].
  { intros H. right. split; [right; by exists tmp|]. by exists PROTOCOL_ERR_IO, tmp. }
  destruct (fs_build_temp_path PATH_CAP (Some path) pid k) as [r t].
  destruct (negb (r =? 0)).
  { intros H. right. split; [by left|]. by exists PROTOCOL_ERR_INVALID_ARGUMENT, t. }
  intros H%wp_bind_inv. apply wp_bind. eapply wp_mono; [exact H|]. intros fd w1. cbv beta.
  destruct (Z.eqb_spec fd (-1)); cbn [negb]; cycle 1.
  { intros H1. left. by exists t, fd. }
  intros H1%wp_bind_inv. apply wp_bind, wp_get_errno. unfold wp, get_errno in H1.
  destruct (w_errno w1 =? EEXIST); cbn [negb]; [by apply IH|].
  right. split; [by left|]. by exists PROTOCOL_ERR_IO, t.
Qed.

Lemma remove_temp_spec f0 tmp d w :
  stored f0 tmp d (-1) (w_files w) -> f_fs f0 !! tmp = None -> tmp <> [] ->
  wp (fs_remove_ignore_error (Some tmp) ;;! ret 1) (fun r w' =>
    r = 1 /\ only_files w w' /\ f_fds (w_files w') = f_fds f0 /\ f_next f0 <= f_next (w_files w') /\
    (f_fs (w_files w') = f_fs f0 \/
     w_faults w <> [] /\ exists m, f_fs (w_files w') = <[tmp := NFile d m]> (f_fs f0))) w.
Proof.
  intros Hst Hno Hne. wp_step.
  pose proof (transfer_cleanup_spec f0 tmp d (-1) PROTOCOL_ERR_IO w Hst Hno Hne ltac:(done)) as H.
  unfold transfer_cleanup in H. change (negb (-1 =? -1)) with false in H. cbv iota in H.
  change (negb (result_ok PROTOCOL_ERR_IO)) with true in H.
  rewrite bool_decide_eq_false_2 in H by done. cbn [negb andb] in H.
  apply wp_bind_inv in H. eapply wp_mono; [exact H|]. intros [] w1 H1. wp_step. by split.
Qed.

(** What writing the file may come to: it holds the text, or it is as it was. *)
Definition text_file_outcome (path text : bytes) (r : Z) (w w' : world) : Prop :=
  f_fds (w_files w') = f_fds (w_files w) /\ f_next (w_files w) <= f_next (w_files w') /\
  (r = 0 /\ (exists m, f_fs (w_files w') = <[path := NFile text m]> (f_fs (w_files w))) \/
   r = 1 /\ (f_fs (w_files w') = f_fs (w_files w) \/
     w_faults w <> [] /\ exists d k m, 0 <= k < 3 /\
       f_fs (w_files w) !! temp_path_text path (e_pid (w_env w)) k = None /\
       f_fs (w_files w') =
         <[temp_path_text path (e_pid (w_env w)) k := NFile d m]> (f_fs (w_files w)))).

(** The directory can take the file. *)
Definition text_file_ready (path : bytes) (w : world) : Prop :=
  zlen (temp_path_text path (e_pid (w_env w)) 0) < PATH_CAP /\
  parent_ok (f_fs (w_files w)) path = true /\
  (forall m, f_fs (w_files w) !! path <> Some (NDir m)) /\
  exists k, 0 <= k < 3 /\ f_fs (w_files w) !! temp_path_text path (e_pid (w_env w)) k = None.

(** What [daemon_state_write_text_file] comes to. *)
Definition text_file_written (path text : bytes) (w : world) (r : Z) (w' : world) : Prop :=
  only_files w w' /\ text_file_outcome path text r w w' /\
  (w_faults w = [] -> text_file_ready path w -> r = 0).

(** The temporary file holds [d] and is closed; the attempt is given up. *)
Lemma text_file_given_up path text k d w w2 :
  0 <= k < 3 -> f_fs (w_files w) !! temp_path_text path (e_pid (w_env w)) k = None ->
  only_files w w2 ->
  stored (w_files w) (temp_path_text path (e_pid (w_env w)) k) d (-1) (w_files w2) ->
  ~ (w_faults w = [] /\ text_file_ready path w) ->
  wp (fs_remove_ignore_error (Some (temp_path_text path (e_pid (w_env w)) k)) ;;! ret 1)
    (text_file_written path text w) w2.
Proof.
  intros Hk Hno Hf2 Hst2 Hlive. eapply wp_mono; [apply remove_temp_spec; [exact Hst2|done|apply temp_path_nonempty]|].
  intros r w3 (-> & Hf3 & Hfds & Hn & Hfs). split; [by etrans|]. split.
  - split; [done|]. split; [done|]. right. split; [done|].
    destruct Hfs as [?|(Hne & m & Hm)]; [by left|right]. split.
    + intros E. apply Hne. eapply only_io_no_faults; [|done]. frame.
    + by exists d, k, m.
  - intros E Hr. by destruct Hlive.
Qed.

(** The temporary file holds the whole text and is closed: it is renamed. *)
Lemma text_file_commit path text k w w3 :
  0 <= k < 3 -> f_fs (w_files w) !! temp_path_text path (e_pid (w_env w)) k = None ->
  only_files w w3 ->
  stored (w_files w) (temp_path_text path (e_pid (w_env w)) k) text (-1) (w_files w3) ->
  wp (let! r := fs_commit_temp_file (Some (temp_path_text path (e_pid (w_env w)) k)) (Some path) in
      if negb (r =? 0) then
        fs_remove_ignore_error (Some (temp_path_text path (e_pid (w_env w)) k)) ;;! ret 1
      else ret 0) (text_file_written path text w) w3.
Proof.
  intros Hk Hno Hf13 Hst3.
  pose proof Hst3 as ([m Hm] & Hn & Hfds). change (-1 =? -1) with true in Hfds. cbv iota in Hfds.
  wp_step. unfold fs_commit_temp_file. wp_step.
  apply (wp_sys_rename _ _ text m); [by rewrite Hm, lookup_insert_eq| |].
  - intros e w4 Hf4 Hw4 _ H4. wp_step. cbn [negb Z.eqb].
    eapply text_file_given_up; [done|done|by etrans|by rewrite Hw4|]. intros (E & _ & Hp & Hdir & _).
    destruct H4 as [H4|[m' H4]].
    + eapply only_io_no_faults; [|exact E]. frame.
    + rewrite Hm, parent_ok_insert in H4; done.
    + rewrite Hm, lookup_insert_ne in H4; [by apply Hdir in H4|]. apply temp_path_neq.
  - intros w4 Hf4 Hw4. wp_step. cbn [negb Z.eqb]. wp_step. split; [by etrans|]. split; [|done].
    unfold text_file_outcome. rewrite Hw4. simpl. split; [done|]. split; [done|]. left. split; [done|].
    exists m. by rewrite Hm, delete_insert_id.
Qed.

(** No temporary file could be opened. *)
Lemma text_file_unopened path text w w1 :
  only_files w w1 -> w_files w1 = w_files w ->
  ~ (w_faults w = [] /\ text_file_ready path w) -> wp (ret 1) (text_file_written path text w) w1.
Proof.
  intros Hf1 Hw1 Hno. wp_step. split; [done|]. split; [|by intros; destruct Hno].
  unfold text_file_outcome. rewrite Hw1. split_and!; [done|lia|]. right. auto.
Qed.

Lemma daemon_state_write_text_file_spec path text w :
  fds_ok (w_files w) ->
  wp (daemon_state_write_text_file path text) (text_file_written path text w) w.
Proof.
  intros Hok. unfold daemon_state_write_text_file. do 3 wp_step.
  eapply wp_mono.
  { apply daemon_state_open_temp_server.
    apply (transfer_open_temp_spec (e_pid (w_env w)) path [0; 1; 2] []);
      [set_solver by lia|apply Hok]. }
  intros o w1 [(tmp & fd & -> & Hfd & Hf1 & H1 & _ & _)|[Ho (r & t & Hr & Hf1 & _ & Hw1 & Hlive)]];
    cycle 1.
  { assert (wp (ret 1) (text_file_written path text w) w1); [|by destruct Ho as [->|[t' ->]]].
    apply text_file_unopened; [done|by apply Hw1|].
    intros (E & Hl & Hp & _ & k & Hk & Hno). destruct Hr. apply Hlive; try done.
    exists k. split; [|done]. assert (k = 0 \/ k = 1 \/ k = 2) by lia. set_solver. }
  destruct (H1 eq_refl) as (k & Hk & -> & -> & Hopen).
  pose proof (temp_opened_at _ _ _ _ Hok Hopen) as [Hat Hok1].
  assert (Hno : f_fs (w_files w) !! temp_path_text path (e_pid (w_env w)) k = None) by apply Hopen.
  destruct (Z.eqb_spec (f_next (w_files w)) (-1)); [done|]. cbv iota. unfold strlen.
  wp_step. wp_use (fs_write_all_spec (f_next (w_files w))
    (temp_path_text path (e_pid (w_env w)) k) text []); [done|].
  intros n2 w2 (Hf2 & H2 & d & rest & Hd & Hn2 & Hg). rewrite app_nil_l in Hg.
  pose proof (opened_stored _ _ _ _ _ _ _ Hok Hopen eq_refl Hg) as Hst.
  assert (Hf12 : only_files w w2) by (by etrans).
  assert (Hfl : w_faults w = [] -> w_faults w1 = []) by (apply only_io_no_faults; frame).
  assert (Hfl2 : w_faults w = [] -> w_faults w2 = []) by (apply only_io_no_faults; frame).
  destruct (Z.eqb_spec n2 (zlen text)) as [Hall|Hshort]; cbn [negb]; cycle 1.
  { wp_step. wp_use stored_close; [done|done|]. intros r w3 (Hf3 & _ & Hst3).
    eapply text_file_given_up; [done|done|by etrans|done|]. intros (E & _). apply Hshort, H2. auto. }
  assert (d = text) as ->.
  { subst n2. destruct Hn2 as [Hn2|Hn2]; [lia|]. rewrite Hd in Hn2.
    destruct rest; [by rewrite Hd, app_nil_r|]. rewrite length_app in Hn2. simpl in Hn2. lia. }
  wp_step. wp_use stored_close; [done|done|]. intros r w3 (Hf3 & H3 & Hst3).
  assert (Hf13 : only_files w w3) by (by etrans).
  destruct (Z.eqb_spec r 0) as [->|Hr]; cbn [negb]; cycle 1.
  { eapply text_file_given_up; [done|done|done|done|]. intros (E & _). apply Hr, H3. auto. }
  by apply text_file_commit.
Qed.

Definition tmp_dir (tmpdir : option bytes) : bytes :=
  match tmpdir with None | Some [] => bs "/tmp" | Some tmp => tmp end.

(** The files of the daemon lie in that directory. *)
Lemma daemon_state_global_path_ok tmpdir name :
  zlen (entry_path (tmp_dir tmpdir) name) < PATH_CAP ->
  daemon_state_global_path tmpdir name PATH_CAP = (0, entry_path (tmp_dir tmpdir) name).
Proof.
  intros Hl. unfold daemon_state_global_path, daemon_state_tmp_dir. fold (tmp_dir tmpdir).
  rewrite copy_str_fits; [|unfold entry_path in Hl; len_lia|done]. cbn [negb Z.eqb].
  by apply fs_join_path_fits.
Qed.

(** When the path does not fit nothing is written. *)
Lemma daemon_state_global_path_0 tmpdir name out :
  daemon_state_global_path tmpdir name PATH_CAP = (0, out) ->
  out = entry_path (tmp_dir tmpdir) name /\ zlen out < PATH_CAP.
Proof.
  unfold daemon_state_global_path, daemon_state_tmp_dir. fold (tmp_dir tmpdir).
  unfold daemon_state_copy_str. pose proof (snprintf_fits PATH_CAP (tmp_dir tmpdir)) as Hf.
  destruct (snprintf PATH_CAP (tmp_dir tmpdir)) as [n o]. cbn [fst snd] in Hf.
  destruct (snprintf_failed n PATH_CAP); cbn [negb Z.eqb]; [done|].
  destruct (Hf eq_refl) as (_ & _ & ->). apply fs_join_path_0.
Qed.

Lemma daemon_state_default_state_path_ok tmpdir :
  zlen (state_path tmpdir) < PATH_CAP ->
  daemon_state_default_state_path tmpdir PATH_CAP = (0, state_path tmpdir).
Proof. apply daemon_state_global_path_ok. Qed.

Lemma daemon_state_default_state_path_0 tmpdir out :
  daemon_state_default_state_path tmpdir PATH_CAP = (0, out) -> out = state_path tmpdir.
Proof. intros H%daemon_state_global_path_0. apply H. Qed.

Lemma daemon_state_text_fits s :
  state_ok s -> snprintf TEXT_CAP (daemon_state_text s) =
    (zlen (daemon_state_text s), daemon_state_text s) /\
  snprintf_failed (zlen (daemon_state_text s)) TEXT_CAP = false.
Proof.
  intros (Hpid & Hport & Hmode & Hne & Hdir & Hurl & Hlog & _).
  pose proof (udec_short (pid s) ltac:(lia)).
  pose proof (udec_short (daemon_mode s) ltac:(unfold LONG_MAX; lia)).
  pose proof (udec_short (port s) ltac:(unfold LONG_MAX; lia)).
  assert (zlen (daemon_state_text s) < TEXT_CAP).
  { rewrite daemon_state_text_kv, !sdec_pos by lia. unfold kv, TEXT_CAP, PATH_CAP, WEB_URL_CAP in *.
    len_lia. }
  apply snprintf_ok; [done|]. unfold TEXT_CAP, INT_MAX in *. lia.
Qed.

Lemma daemon_state_write_spec s w :
  fds_ok (w_files w) ->
  wp (daemon_state_write (Some s)) (fun r w' =>
    only_files w w' /\
    (exists text, (state_ok s -> text = daemon_state_text s) /\
       text_file_outcome (state_path (e_tmpdir (w_env w))) text r w w') /\
    (w_faults w = [] -> state_ok s -> zlen (state_path (e_tmpdir (w_env w))) < PATH_CAP ->
       text_file_ready (state_path (e_tmpdir (w_env w))) w -> r = 0)) w.
Proof.
  intros Hok. unfold daemon_state_write. do 2 wp_step.
  assert (Hgiveup : forall Q : Prop, ~ Q -> wp (ret 1) (fun r w' =>
    only_files w w' /\
    (exists text, (state_ok s -> text = daemon_state_text s) /\
       text_file_outcome (state_path (e_tmpdir (w_env w))) text r w w') /\
    (Q -> r = 0)) w).
  { intros Q HQ. wp_step. split; [done|]. split; [|done]. exists (daemon_state_text s).
    split; [done|]. unfold text_file_outcome. split_and!; [done|lia|]. right. auto. }
  assert (Hcurry : forall m, (forall Q : Prop,
    (Q <-> (w_faults w = [] /\ state_ok s /\ zlen (state_path (e_tmpdir (w_env w))) < PATH_CAP /\
       text_file_ready (state_path (e_tmpdir (w_env w))) w)) -> wp m (fun r w' =>
    only_files w w' /\
    (exists text, (state_ok s -> text = daemon_state_text s) /\
       text_file_outcome (state_path (e_tmpdir (w_env w))) text r w w') /\
    (Q -> r = 0)) w) -> wp m (fun r w' =>
    only_files w w' /\
    (exists text, (state_ok s -> text = daemon_state_text s) /\
       text_file_outcome (state_path (e_tmpdir (w_env w))) text r w w') /\
    (w_faults w = [] -> state_ok s -> zlen (state_path (e_tmpdir (w_env w))) < PATH_CAP ->
       text_file_ready (state_path (e_tmpdir (w_env w))) w -> r = 0)) w).
  { intros m H. eapply wp_mono; [by apply (H _ (iff_refl _))|]. intros r w' (H1 & H2 & H3).
    split_and!; auto. }
  apply Hcurry. intros Q HQ.
  destruct (daemon_state_default_state_path (e_tmpdir (w_env w)) PATH_CAP) as [r p] eqn:Ep.
  destruct (_ || _) eqn:Eguard.
  { apply Hgiveup. intros (_ & Hs & Hl & _)%HQ. rewrite daemon_state_default_state_path_ok in Ep by done.
    injection Ep as <- <-. destruct Hs as (? & ? & _ & Hne & _).
    rewrite bool_decide_eq_false_2 in Eguard by done. cbn [negb Z.eqb] in Eguard. lia. }
  apply orb_false_elim in Eguard as [_ Hr%negb_false_iff]. apply Z.eqb_eq in Hr. subst r.
  apply daemon_state_default_state_path_0 in Ep. subst p.
  destruct (snprintf TEXT_CAP (daemon_state_text s)) as [n text] eqn:Et.
  destruct (snprintf_failed n TEXT_CAP) eqn:Ef.
  { apply Hgiveup. intros (_ & Hs & _)%HQ. destruct (daemon_state_text_fits s Hs) as [E1 E2].
    rewrite E1 in Et. apply (f_equal fst) in Et. cbn [fst] in Et. congruence. }
  wp_use daemon_state_write_text_file_spec; [done|]. intros r w' (Hf & Ho & Hl). split; [done|]. split.
  - exists text. split; [|done]. intros Hs. destruct (daemon_state_text_fits s Hs) as [E1 _].
    rewrite E1 in Et. by apply (f_equal snd) in Et.
  - intros (E & _ & _ & Hrdy)%HQ. by apply Hl.
Qed.

Lemma daemon_state_read_spec s m w :
  zlen (state_path (e_tmpdir (w_env w))) < PATH_CAP -> state_ok s ->
  f_fs (w_files w) !! state_path (e_tmpdir (w_env w)) = Some (NFile (daemon_state_text s) m) ->
  fds_ok (w_files w) -> w_faults w = [] ->
  wp daemon_state_read (fun x w' =>
    x = (0, Some s) /\ f_fs (w_files w') = f_fs (w_files w) /\ f_fds (w_files w') = f_fds (w_files w)) w.
Proof.
  intros Hl Hs Hfile [Hn Hok] E. unfold daemon_state_read. do 2 wp_step.
  rewrite daemon_state_default_state_path_ok by done. cbn [negb Z.eqb]. wp_step.
  eapply wp_sys_open_file; [done|done|]. intros w1 Hf1 Hw1.
  assert (E1 : w_faults w1 = []) by (eapply only_io_no_faults; [|done]; frame).
  destruct (Z.eqb_spec (f_next (w_files w)) (-1)); [lia|]. cbv iota. wp_step.
  assert (Hc : stream_contents (f_next (w_files w)) w1 = Some (daemon_state_text s, w1)).
  { unfold stream_contents, bind, pop_fault, get. rewrite E1, Hw1. simpl.
    rewrite lookup_insert_eq, Hfile. unfold ret. by rewrite ztake_ge by lia. }
  unfold wp at 1. rewrite Hc. wp_step. apply wp_sys_close. intros r w2 Hf2 _ _ Hw2.
  rewrite daemon_state_parse_text by done. wp_step. rewrite Hw2, Hw1. simpl. split_and!; try done.
  apply delete_insert_id. apply Hok. lia.
Qed.

(** *** Example *)

Definition demo_state : daemon_state_t :=
  DaemonState 4711 (bs "/srv/in") (bs "http://10.0.0.1:9000/") (bs "/tmp/hf-daemon.log") 9000 1.

Lemma demo_state_ok : state_ok demo_state.
Proof.
  unfold state_ok. split_and!; try (by vm_compute); try (by right);
    by apply (bool_decide_unpack _).
Qed.

(** A line break in the directory's name is a line break in the file: what is
    read back is another directory. *)
Lemma daemon_state_newline_lost :
  let s := DaemonState 1 (bs "/srv/a" ++ 10 :: bs "receive_dir=/b") [] [] 80 0 in
  daemon_state_parse (daemon_state_text s) = (0, DaemonState 1 (bs "/b") [] [] 80 0).
Proof. vm_compute. reflexivity. Qed.

(** ** Properties *)

(** C39: the state file is replaced atomically: whatever fails, [daemon_state_write]
    always returns; on 0 the state file holds the text of the state and nothing
    else changed; on 1 every file that existed is as it was, at worst a new
    temporary file is left; no descriptor leaks; and a valid state is refused
    only when a call fails or the directory cannot take the file. *)
Theorem daemon_state_write_atomic s w (Hfds : fds_ok (w_files w)) :
  wp (daemon_state_write (Some s)) (fun r w' =>
    (exists text, (state_ok s -> text = daemon_state_text s) /\
       text_file_outcome (state_path (e_tmpdir (w_env w))) text r w w') /\
    (w_faults w = [] -> state_ok s -> zlen (state_path (e_tmpdir (w_env w))) < PATH_CAP ->
       text_file_ready (state_path (e_tmpdir (w_env w))) w -> r = 0)) w.
Proof. wp_use daemon_state_write_spec; [done|]. by intros r w' (_ & H). Qed.

Lemma daemon_state_write_atomic_witness :
  let w := demo_world [FErr EEXIST; FNone; FShort 9; FErr EIO] [] (demo_files ∅) in
  wp (daemon_state_write (Some demo_state)) (fun r w' =>
    (exists text, (state_ok demo_state -> text = daemon_state_text demo_state) /\
       text_file_outcome (state_path (e_tmpdir (w_env w))) text r w w') /\
    (w_faults w = [] -> state_ok demo_state -> zlen (state_path (e_tmpdir (w_env w))) < PATH_CAP ->
       text_file_ready (state_path (e_tmpdir (w_env w))) w -> r = 0)) w.
Proof. apply daemon_state_write_atomic, demo_files_ok. Defined.

(** What a daemon wrote is what a command reads: after a [daemon_state_write]
    of a valid state that returned 0 -- whatever failed on the way --
    [daemon_state_read] in the same environment, when nothing fails, returns 0 and
    that state. *)
Theorem daemon_state_roundtrip s w (Hs : state_ok s) (Hfds : fds_ok (w_files w))
    (Hpath : zlen (state_path (e_tmpdir (w_env w))) < PATH_CAP) :
  wp (daemon_state_write (Some s)) (fun r w1 =>
    r = 0 -> w_faults w1 = [] -> wp daemon_state_read (fun x w2 =>
      x = (0, Some s) /\ f_fs (w_files w2) = f_fs (w_files w1)) w1) w.
Proof.
  wp_use daemon_state_write_spec; [done|].
  intros r w1 (Hf1 & (text & Htext & Hfd & Hn & [(_ & m & Hm)|[-> _]]) & _); [|done].
  rewrite (Htext Hs) in Hm. assert (He : w_env w1 = w_env w) by frame. intros _ E.
  eapply wp_mono; [apply (daemon_state_read_spec s m)|].
  - by rewrite He.
  - done.
  - rewrite He, Hm. apply lookup_insert_eq.
  - by eapply fds_ok_same.
  - done.
  - by intros x w2 (-> & ? & _).
Qed.

Lemma daemon_state_roundtrip_witness :
  let w := demo_world [FErr EEXIST] [] (demo_files {[bs "/tmp" := NDir 0]}) in
  wp (daemon_state_write (Some demo_state)) (fun r w1 =>
    r = 0 -> w_faults w1 = [] -> wp daemon_state_read (fun x w2 =>
      x = (0, Some demo_state) /\ f_fs (w_files w2) = f_fs (w_files w1)) w1) w.
Proof.
  apply daemon_state_roundtrip; [apply demo_state_ok|apply demo_files_ok|by vm_compute].
Defined.
