(* ===== verification/EndToEnd.v ===== *)
(** * The client and the server together (src/client.c, src/server.c)

    A command run against a connection thread: the bytes one side sent are the
    bytes the other receives. The theorems run the two sides on the two streams
    of one connection and show that the streams agree: the client, given the
    replies, sends a request to which the server's answer is those replies. *)

From S2P Require Import Prelude CLib World Logic Fs Net Protocol TransferIo MessageStore Cli.
From S2P Require Import AppService Server Client.

(** ** Definitions *)

(** A world a command may start in: no failures, nothing sent yet, and [replies]
    to come. *)
Record client_ready (opt : client_opt_t) (replies : bytes) (w : world) : Prop := {
  cl_nofail : w_faults w = [];
  cl_ip : inet_pton (c_ip opt) = true;
  cl_kernel : e_splice_direct (w_env w) = false;
  cl_fds : fds_ok (w_files w);
  cl_sizes : sizes_fit (f_fs (w_files w));
  cl_out : n_out (w_net w) = [];
  cl_in : n_in (w_net w) = replies
}.

(** A world a connection thread may start in: no failures and nothing sent. *)
Definition server_ready (conn : Z) (opt : server_opt_t) (base : bytes) (w : world) : Prop :=
  conn_ready conn opt base w /\ w_faults w = [] /\ n_out (w_net w) = [].

(** ** Properties *)

(** C1: sending a file end to end: when nothing fails, the source is a regular
    file of at most 100 GB with a valid name and the served directory can take
    it, [client] against [handle_protocol_connection] succeeds on both sides: the
    server stores exactly the bytes of the source under the source's base name
    and its replies are the ones the client waited for. *)
Theorem send_file_end_to_end opt p c m wc conn sopt base ws
    (Hclient : client_ready opt (reply_ready_ok ++ reply_final_ok) wc)
    (Hserver : server_ready conn sopt base ws)
    (Htype : c_msg_type opt = HF_MSG_TYPE_SEND_FILE) (Hpath : c_path opt = Some p)
    (Hsource : f_fs (w_files wc) !! p = Some (NFile c m)) (Hsize : zlen c <= HF_MAX_FILE_SIZE)
    (Hname : Forall is_char (basename p)) (Hok : file_name_ok (basename p))
    (Hlen : name_length_ok (basename p)) (Hupload : upload_ready base (basename p) PATH_CAP ws) :
  wp (client (Some opt)) (fun rc wc' =>
    rc = 0 /\ f_fs (w_files wc') = f_fs (w_files wc) /\
    (n_in (w_net ws) = n_out (w_net wc') ->
     wp (handle_protocol_connection conn sopt) (fun rs ws' =>
       rs = 0 /\ n_out (w_net ws') = n_in (w_net wc) /\
       exists m', f_fs (w_files ws') =
         <[entry_path base (basename p) := NFile c m']> (f_fs (w_files ws))) ws)) wc.
Proof.
  destruct Hclient as [Hnf Hip _ Hfds Hsz Hout Hin].
  unfold client. rewrite Htype, Z.eqb_refl.
  wp_use client_send_file_raw_spec; [done|done|done|rewrite Hin; by apply demo_bytes|].
  intros rc wc' (_ & Hfs & _ & Ho & Hlive).
  destruct (Hlive Hnf c m [] Hsource Hsize Hlen Hip) as [-> _]; [by rewrite app_nil_r|].
  destruct Ho as [(_ & c' & m' & Hc' & _ & Hs & _)|[? _]]; [|done].
  assert (c' = c) as ->.
  { unfold resolved in Hc'. rewrite Hsource in Hc'. rewrite Hsource in Hc'. by injection Hc'. }
  split; [done|]. split; [done|]. intros Hstream.
  destruct Hserver as (Hready & Hnf2 & Hout2).
  unfold said_all in Hs. rewrite Hout, app_nil_l in Hs. rewrite Hs, Htype in Hstream.
  wp_use (connection_stores_file conn sopt base (basename p) c []); try done.
  - proto_lia.
  - rewrite Hstream. unfold file_request, request_header.
    by rewrite encode_file_prefix_ok, app_nil_r, <- app_assoc.
  - intros rs ws' (-> & _ & Hreply & _ & _ & Hst). by rewrite Hreply, Hout2, Hin.
Qed.

Definition demo_client (p message remote output : option bytes) (msg_type : Z) : client_opt_t :=
  ClientOpt p remote output message (bs "127.0.0.1") 9000 msg_type.

Definition demo_source : gmap bytes node := {[bs "src/f" := NFile [1; 2] 9]}.

Lemma demo_source_sizes : sizes_fit demo_source.
Proof.
  intros p c m H. unfold demo_source in H. apply lookup_singleton_Some in H as [_ H].
  injection H as <- _. simpl. lia.
Qed.

Lemma demo_client_ready opt replies files :
  c_ip opt = bs "127.0.0.1" -> sizes_fit files ->
  client_ready opt replies (demo_world [] replies (demo_files files)).
Proof. intros Hip Hs. split; try done. simpl. by rewrite Hip. Qed.

Lemma demo_server_ready input files :
  forallb (fun b => (0 <=? b) && (b <? 256)) input = true -> sizes_fit files ->
  server_ready 5 (ServerOpt (Some (bs "d")) 9000 7) (bs "d") (demo_world [] input (demo_files files)).
Proof. intros Hin Hs. split; [by apply demo_conn_ready|done]. Qed.

Lemma send_file_end_to_end_witness :
  let opt := demo_client (Some (bs "src/f")) None None None HF_MSG_TYPE_SEND_FILE in
  let wc := demo_world [] (reply_ready_ok ++ reply_final_ok) (demo_files demo_source) in
  let ws := demo_world [] (file_request HF_MSG_TYPE_SEND_FILE (bs "f") 2 ++ [1; 2])
              (demo_files demo_dir) in
  wp (client (Some opt)) (fun rc wc' =>
    rc = 0 /\ f_fs (w_files wc') = f_fs (w_files wc) /\
    (n_in (w_net ws) = n_out (w_net wc') ->
     wp (handle_protocol_connection 5 (ServerOpt (Some (bs "d")) 9000 7)) (fun rs ws' =>
       rs = 0 /\ n_out (w_net ws') = n_in (w_net wc) /\
       exists m', f_fs (w_files ws') =
         <[entry_path (bs "d") (bs "f") := NFile [1; 2] m']> (f_fs (w_files ws))) ws)) wc.
Proof.
  intros opt wc ws.
  apply (send_file_end_to_end opt (bs "src/f") [1; 2] 9 wc 5 (ServerOpt (Some (bs "d")) 9000 7)
           (bs "d") ws);
    [apply demo_client_ready; [reflexivity|apply demo_source_sizes]
    |apply demo_server_ready; [reflexivity|apply demo_dir_sizes_fit]
    |reflexivity|reflexivity|reflexivity|by vm_compute|by apply (bool_decide_unpack _)
    |by apply fs_validate_file_name_iff|by vm_compute|apply demo_server_upload_ready].
Defined.

(** C17: getting a file end to end: when nothing fails and the server has a
    regular file of that name of at most 100 GB, [client] against
    [handle_protocol_connection] succeeds on both sides: the client stores
    exactly the server's bytes under the output path, or under the name asked
    for when none was given, and the server's files are as they were. *)
Theorem get_file_end_to_end opt name c m wc conn sopt base ws
    (Hclient : client_ready opt
       ((reply_ready_ok ++ prefix_wire name (zlen c)) ++ c ++ reply_final_ok) wc)
    (Hserver : server_ready conn sopt base ws)
    (Hbytes : Forall is_byte (n_in (w_net wc)))
    (Htype : c_msg_type opt = HF_MSG_TYPE_GET_FILE) (Hremote : c_remote_path opt = Some name)
    (Hfile : f_fs (w_files ws) !! entry_path base name = Some (NFile c m))
    (Hsize : zlen c <= HF_MAX_FILE_SIZE)
    (Hname : Forall is_char name) (Hok : file_name_ok name) (Hrel : relative_path_ok name)
    (Hlen : name_length_ok name) (Hcap : zlen (entry_path base name) < PATH_CAP)
    (Hready : get_ready (c_output_path opt) name wc) :
  wp (client (Some opt)) (fun rc wc' =>
    rc = 0 /\
    (exists m', f_fs (w_files wc') =
       <[default name (c_output_path opt) := NFile c m']> (f_fs (w_files wc))) /\
    (n_in (w_net ws) = n_out (w_net wc') ->
     wp (handle_protocol_connection conn sopt) (fun rs ws' =>
       rs = 0 /\ n_out (w_net ws') = n_in (w_net wc) /\
       f_fs (w_files ws') = f_fs (w_files ws)) ws)) wc.
Proof.
  destruct Hclient as [Hnf Hip Hk Hfds Hsz Hout Hin].
  unfold client. rewrite Htype. change (HF_MSG_TYPE_GET_FILE =? HF_MSG_TYPE_SEND_FILE) with false.
  change (HF_MSG_TYPE_GET_FILE =? HF_MSG_TYPE_TEXT_MESSAGE) with false. rewrite Z.eqb_refl. cbv iota.
  wp_use client_get_file_spec; [done|done|done|done|].
  intros rc wc' (_ & _ & _ & Ho & Hlive).
  assert (Hin' : n_in (w_net wc) =
    (reply_ready_ok ++ prefix_wire name (zlen c)) ++ c ++ reply_final_ok ++ []).
  { by rewrite app_nil_r. }
  destruct (Hlive Hnf name c [] Hok Hlen Hip Hname Hlen Hsize Hready Hin') as [-> Hend].
  destruct Ho as [(_ & Hs & raw & d & m' & Hraw & Hd & _ & Hgot & Hfs)|[? _]]; [|done].
  rewrite Hend, Hin' in Hgot. rewrite <- !app_assoc in Hgot. apply app_inv_head in Hgot.
  apply prefix_wire_inj in Hgot as (<- & Hl & Hgot); try done; try proto_lia.
  apply app_eq_len in Hgot as [<- _]; [|done]. rewrite cstr_no_nul in Hfs by done.
  split; [done|]. split; [by exists m'|]. intros Hstream.
  destruct Hserver as (Hsready & Hnf2 & Hout2).
  unfold said_all in Hs. rewrite Hout, app_nil_l in Hs. rewrite Hs in Hstream.
  wp_use (connection_serves_file conn sopt base name [] c m); try done.
  - rewrite Hstream. unfold get_request, request_header.
    by rewrite encode_file_name_only_ok, app_nil_r.
  - intros rs ws' (-> & _ & Hfs' & Hreply). rewrite Hreply, Hout2, Hin, encode_file_prefix_ok by done.
    done.
Qed.

Lemma get_file_end_to_end_witness :
  let opt := demo_client None None (Some (bs "f")) (Some (bs "out")) HF_MSG_TYPE_GET_FILE in
  let wc := demo_world [] ((reply_ready_ok ++ prefix_wire (bs "f") 2) ++ [1; 2] ++ reply_final_ok)
              (demo_files demo_source) in
  let ws := demo_world [] (get_request (bs "f")) (demo_files demo_shared) in
  wp (client (Some opt)) (fun rc wc' =>
    rc = 0 /\
    (exists m', f_fs (w_files wc') =
       <[default (bs "f") (c_output_path opt) := NFile [1; 2] m']> (f_fs (w_files wc))) /\
    (n_in (w_net ws) = n_out (w_net wc') ->
     wp (handle_protocol_connection 5 (ServerOpt (Some (bs "d")) 9000 7)) (fun rs ws' =>
       rs = 0 /\ n_out (w_net ws') = n_in (w_net wc) /\
       f_fs (w_files ws') = f_fs (w_files ws)) ws)) wc.
Proof.
  intros opt wc ws.
  apply (get_file_end_to_end opt (bs "f") [1; 2] 9 wc 5 (ServerOpt (Some (bs "d")) 9000 7)
           (bs "d") ws);
    [apply demo_client_ready; [reflexivity|apply demo_source_sizes]
    |apply demo_server_ready; [vm_compute; reflexivity|apply demo_sizes_fit]
    |by apply demo_bytes|reflexivity|reflexivity|reflexivity|by vm_compute
    |by apply (bool_decide_unpack _)|by apply fs_validate_file_name_iff
    |by apply fs_validate_relative_path_iff|by vm_compute|by vm_compute|].
  split; [|done]. split_and!; [by vm_compute|by vm_compute|intros m; by vm_compute|].
  exists 0. split; [lia|by vm_compute].
Defined.

(** Sending a text message end to end: when nothing fails and the text has at
    most 256 KiB, [client] against [handle_protocol_connection] succeeds on both
    sides: the store's next version is the text without its trailing white
    space, code point by code point. *)
Theorem send_message_end_to_end opt cps wc conn sopt base ws
    (Hclient : client_ready opt reply_final_ok wc) (Hserver : server_ready conn sopt base ws)
    (Htype : c_msg_type opt = HF_MSG_TYPE_TEXT_MESSAGE)
    (Hmessage : c_message opt = Some (utf8_text cps))
    (Hscalar : Forall scalar cps) (Hnul : Forall (fun c => c <> 0) cps)
    (Hsize : zlen (utf8_text cps) <= HF_PROTOCOL_MAX_TEXT_MESSAGE_SIZE) :
  wp (client (Some opt)) (fun rc wc' =>
    rc = 0 /\
    (n_in (w_net ws) = n_out (w_net wc') ->
     wp (handle_protocol_connection conn sopt) (fun rs ws' =>
       rs = 0 /\ n_out (w_net ws') = n_in (w_net wc) /\
       ms_message (p_store (w_prog ws')) = Some (utf8_text (rstrip cps)) /\
       ms_version (p_store (w_prog ws')) = u64 (ms_version (p_store (w_prog ws)) + 1)) ws)) wc.
Proof.
  destruct Hclient as [Hnf Hip _ Hfds _ Hout Hin].
  unfold client. rewrite Htype.
  change (HF_MSG_TYPE_TEXT_MESSAGE =? HF_MSG_TYPE_SEND_FILE) with false.
  rewrite Z.eqb_refl. cbv iota.
  wp_use client_send_message_spec; [done|apply Hfds|rewrite Hin; by apply demo_bytes|].
  intros rc wc' (_ & _ & _ & _ & Ho & Hlive).
  destruct (Hlive Hnf [] Hsize Hip) as [-> _]; [by rewrite app_nil_r|].
  destruct (Ho eq_refl) as (_ & Hs & _). split; [done|]. intros Hstream.
  destruct Hserver as (Hready & Hnf2 & Hout2).
  unfold said_all in Hs. rewrite Hout, app_nil_l in Hs. rewrite Hs in Hstream.
  wp_use (connection_stores_message conn sopt base cps []); try done.
  - rewrite Hstream. unfold message_request. by rewrite app_nil_r.
  - intros rs ws' (-> & _ & Hreply & _ & Hst). rewrite Hreply, Hout2, Hin, Hst. done.
Qed.

Lemma send_message_end_to_end_witness :
  let opt := demo_client None (Some (utf8_text [8364; 33; 10])) None None HF_MSG_TYPE_TEXT_MESSAGE in
  let wc := demo_world [] reply_final_ok (demo_files demo_source) in
  let ws := demo_world [] (message_request (utf8_text [8364; 33; 10])) (demo_files demo_dir) in
  wp (client (Some opt)) (fun rc wc' =>
    rc = 0 /\
    (n_in (w_net ws) = n_out (w_net wc') ->
     wp (handle_protocol_connection 5 (ServerOpt (Some (bs "d")) 9000 7)) (fun rs ws' =>
       rs = 0 /\ n_out (w_net ws') = n_in (w_net wc) /\
       ms_message (p_store (w_prog ws')) = Some (utf8_text (rstrip [8364; 33; 10])) /\
       ms_version (p_store (w_prog ws')) = u64 (ms_version (p_store (w_prog ws)) + 1)) ws)) wc.
Proof.
  intros opt wc ws.
  apply (send_message_end_to_end opt [8364; 33; 10] wc 5 (ServerOpt (Some (bs "d")) 9000 7) (bs "d") ws);
    [apply demo_client_ready; [reflexivity|apply demo_source_sizes]
    |apply demo_server_ready; [vm_compute; reflexivity|apply demo_dir_sizes_fit]
    |reflexivity|reflexivity|repeat constructor; lia|repeat constructor; lia|by vm_compute].
Defined.
