(* ===== verification/Connection.v ===== *)
(** * The connection threads (src/server.c)

    Starting a thread for an accepted connection, and the thread itself: it finds
    out which of the two protocols the peer speaks, serves it, closes the socket
    and leaves the tracker. The tracker is shared with the other threads (see
    ConnTracker), so its state is passed in where a critical section starts and
    passed out where it ends. *)

From S2P Require Import Prelude CLib World Logic ConnTracker.
From S2P Require Import Signals Fs Net Protocol TransferIo MessageStore HttpBuf HttpJson.
From S2P Require Import Cli AppService PicoHttp HttpRequest HttpResponse WebUi HttpFiles HttpMessages Http Server.

(** ** Definitions *)

(** [entry] is the address of the tracker's entry. *)
Record server_conn_ctx_t := ConnCtx {
  ctx_conn : Z;
  ctx_opt : server_opt_t;
  ctx_entry : Z
}.

Definition server_set_connection_recv_timeout (conn timeout_ms : Z) : M Z :=
  let! r := sys_sockcall in ret (if r <? 0 then 1 else 0).

(** [pthread_create]: 0 or an error. *)
Definition sys_pthread_create : M Z :=
  let! f := pop_fault in
  match f with FErr e => ret e | _ => ret 0 end.

(** [block] is the address [malloc] returns for the entry if it succeeds. The
    result comes with the context of the new thread, if there is one. *)
Definition server_start_connection_thread (conn : Z) (ser_opt : server_opt_t) (block : Z)
    (t : server_conn_tracker_t) : M (Z * option server_conn_ctx_t * server_conn_tracker_t) :=
  let! ctx := sys_malloc in
  if negb ctx then ret (1, None, t)
  else
    let! _ := server_set_connection_recv_timeout conn 15000 in
    let! allocated := sys_malloc in
    let '(entry, t) := server_conn_tracker_begin (if allocated then Some block else None) conn t in
    match entry with
    | None => ret (1, None, t)
    | Some entry =>
        let! err := sys_pthread_create in
        if negb (err =? 0) then
          match server_conn_tracker_end (Some entry) t with
          | None => out_of_fuel
          | Some (_, t) => ret (1, None, t)
          end
        else ret (0, Some (ConnCtx conn ser_opt entry), t)
    end.

(** The [switch] of [server_connection_thread_main]; [None]: it still streams. *)
Definition server_serve_connection (rounds : nat) (conn : Z) (opt : server_opt_t) : M (option Z) :=
  let! kind := server_detect_connection_kind conn in
  match kind with
  | SERVER_CONN_KIND_HTTP => handle_http_connection rounds conn opt
  | SERVER_CONN_KIND_PROTOCOL => finished (handle_protocol_connection conn opt)
  | SERVER_CONN_KIND_INVALID => ret (Some 1)
  end.

(** The thread, for a number of rounds of the stream; [t] is the tracker when it
    gets there. The result: is the main thread woken, and the tracker. *)
Definition server_connection_thread_main (rounds : nat) (ctx : server_conn_ctx_t)
    (t : server_conn_tracker_t) : M (option (bool * server_conn_tracker_t)) :=
  let! r := server_serve_connection rounds (ctx_conn ctx) (ctx_opt ctx) in
  match r with
  | None => ret None
  | Some _ =>
      let! _ := socket_close (ctx_conn ctx) in
      match server_conn_tracker_end (Some (ctx_entry ctx)) t with
      | None => out_of_fuel
      | Some bt => ret (Some bt)
      end
  end.

(** *** Specifications *)

(** The state in which a connection is accepted. *)
Definition connection_ready (conn : Z) (opt : server_opt_t) (base : bytes) (w : world) : Prop :=
  http_ready conn opt base w /\ Forall is_byte (n_in (w_net w)).

(** What a connection of either protocol may change: what an HTTP connection may,
    or an entry directly inside the served directory. *)
Definition connection_effect (base : bytes) (w w' : world) : Prop :=
  http_effect base w w' \/
  p_store (w_prog w') = p_store (w_prog w) /\ exists p name d m, entry_name base p = Some name /\
    f_fs (w_files w') = <[p := NFile d m]> (f_fs (w_files w)).

(** The request of the client program to store a file. *)
Definition store_file_request (name body : bytes) : bytes :=
  snd (encode_header (Some (Header HF_PROTOCOL_MAGIC HF_PROTOCOL_VERSION HF_MSG_TYPE_SEND_FILE
         HF_MSG_FLAG_NONE (proto_file_transfer_prefix_size (zlen name) + zlen body)))) ++
  snd (encode_file_prefix (Some name) (zlen body)) ++ body.

(** And to store a text message. *)
Definition store_message_request (cps : list Z) : bytes :=
  snd (encode_header (Some (Header HF_PROTOCOL_MAGIC HF_PROTOCOL_VERSION
         HF_MSG_TYPE_TEXT_MESSAGE HF_MSG_FLAG_NONE (zlen (utf8_text cps))))) ++ utf8_text cps.

(** ** Theorems *)

Lemma detect_kind_spec conn w :
  wp (server_detect_connection_kind conn) (fun k w' => only_errno w w' /\
    (forall b0 b1 rest, w_faults w = [] -> n_in (w_net w) = b0 :: b1 :: rest ->
       k = if (b0 =? 4) && (b1 =? 41) then SERVER_CONN_KIND_PROTOCOL
           else if (65 <=? b0) && (b0 <=? 90) then SERVER_CONN_KIND_HTTP
           else SERVER_CONN_KIND_PROTOCOL)) w.
Proof.
  unfold server_detect_connection_kind. wp_step. apply wp_sys_recv_peek; [lia| |].
  - intros w' Hf Hlt. simpl. wp_step. split; [done|]. intros b0 b1 rest E.
    apply no_faults_flen in E. lia.
  - intros d rest w' Hf Hin Hle H0.
    change (u8 (Z.shiftr HF_PROTOCOL_MAGIC 8)) with 4.
    change (u8 (Z.land HF_PROTOCOL_MAGIC 255)) with 41.
    destruct (Z.ltb_spec (zlen d) 0); [lia|]. destruct (Z.ltb_spec (zlen d) 2) as [Hs|Hs].
    { wp_step. split; [done|]. intros b0 b1 rest' E Hin'. specialize (H0 E). rewrite Hin' in H0.
      cbn [length] in H0. lia. }
    destruct d as [|b0 [|b1 d]]; [simpl in Hs; lia..|]. cbn [nth].
    assert (Hk : forall k, k = (if (b0 =? 4) && (b1 =? 41) then SERVER_CONN_KIND_PROTOCOL
           else if (65 <=? b0) && (b0 <=? 90) then SERVER_CONN_KIND_HTTP
           else SERVER_CONN_KIND_PROTOCOL) -> only_errno w w' /\
      (forall b0 b1 rest, w_faults w = [] -> n_in (w_net w) = b0 :: b1 :: rest ->
       k = if (b0 =? 4) && (b1 =? 41) then SERVER_CONN_KIND_PROTOCOL
           else if (65 <=? b0) && (b0 <=? 90) then SERVER_CONN_KIND_HTTP
           else SERVER_CONN_KIND_PROTOCOL)).
    { intros k ->. split; [done|]. intros x y r _ E. rewrite Hin in E. by injection E as -> -> _. }
    destruct ((b0 =? 4) && (b1 =? 41)); [wp_step; by apply Hk|].
    destruct ((65 <=? b0) && (b0 <=? 90)); wp_step; by apply Hk.
Qed.

(** *** Starting a thread *)

(** The listener starts a thread, which owns a new entry, or leaves no trace. *)
Definition start_outcome (conn : Z) (opt : server_opt_t) (block : Z) (l : list Z)
    (t : server_conn_tracker_t) (calm : Prop) (r : Z) (ctx : option server_conn_ctx_t)
    (t' : server_conn_tracker_t) : Prop :=
  r = 1 /\ ctx = None /\ (exists l', tracker_ok t' l') /\ dom (entries t') = dom (entries t) /\
    shutting_down t' = shutting_down t /\ (calm -> shutting_down t = true) \/
  r = 0 /\ ctx = Some (ConnCtx conn opt block) /\ tracker_ok t' (block :: l) /\
    dom (entries t') = {[block]} ∪ dom (entries t) /\ shutting_down t' = false /\
    shutting_down t = false.

Lemma server_start_connection_thread_spec conn opt block t l w :
  tracker_ok t l -> entries t !! block = None -> Z.of_nat (base.size (entries t)) + 1 < 2 ^ 32 ->
  wp (server_start_connection_thread conn opt block t) (fun '(r, ctx, t') w' =>
    only_errno w w' /\ start_outcome conn opt block l t (w_faults w = []) r ctx t') w.
Proof.
  intros Hok Hb Hsz. unfold server_start_connection_thread, server_set_connection_recv_timeout.
  assert (Hno : forall w', only_errno w w' -> (w_faults w = [] -> shutting_down t = true) ->
    wp (ret (1, None, t)) (fun '(r, ctx, t') w' =>
      only_errno w w' /\ start_outcome conn opt block l t (w_faults w = []) r ctx t') w').
  { intros w' Hf E. wp_step. split; [done|]. left. by split_and!; [..|exists l| | |]. }
  assert (Hcalm : forall w', (flen w' < flen w)%nat -> w_faults w = [] -> shutting_down t = true).
  { intros w' H. rewrite no_faults_flen. lia. }
  wp_step. apply wp_sys_malloc; intros w1 Hf1 H1; cbn [negb]; [apply Hno; eauto|].
  assert (Hgo : forall w2, only_errno w w2 ->
    wp (let! allocated := sys_malloc in
        let '(entry, t) := server_conn_tracker_begin (if allocated then Some block else None) conn t in
        match entry with
        | None => ret (1, None, t)
        | Some entry =>
            let! err := sys_pthread_create in
            if negb (err =? 0) then
              match server_conn_tracker_end (Some entry) t with
              | None => out_of_fuel
              | Some (_, t) => ret (1, None, t)
              end
            else ret (0, Some (ConnCtx conn opt entry), t)
        end) (fun '(r, ctx, t') w' =>
      only_errno w w' /\ start_outcome conn opt block l t (w_faults w = []) r ctx t') w2).
  { intros w2 Hf2. wp_step. apply wp_sys_malloc; intros w3 Hf3 H3.
    { apply Hno; [by etrans|]. apply (Hcalm w3). assert (flen w2 <= flen w)%nat by frame. lia. }
    destruct (server_conn_tracker_begin (Some block) conn t) as [[p|] t1] eqn:Hbeg; cycle 1.
    { unfold server_conn_tracker_begin in Hbeg. destruct (shutting_down t) eqn:Es; [|done].
      injection Hbeg as <-. apply Hno; [by etrans|done]. }
    assert (p = block) as ->.
    { unfold server_conn_tracker_begin in Hbeg. by destruct (shutting_down t); simplify_eq. }
    destruct (begin_ok _ _ _ _ _ Hok Hb Hsz Hbeg) as (Hok1 & Hs & Hs1 & _ & Hd1).
    wp_step. unfold sys_pthread_create. wp_step. apply wp_pop_fault. intros f w4 Hf4 _ Hlt H0.
    assert (Hf : only_errno w w4) by (etrans; [done|by etrans]).
    assert (Hyes : wp (ret (0, Some (ConnCtx conn opt block), t1)) (fun '(r, ctx, t') w' =>
      only_errno w w' /\ start_outcome conn opt block l t (w_faults w = []) r ctx t') w4).
    { wp_step. split; [done|]. right. by split_and!. }
    destruct f as [|e|n]; wp_step; [done| |done]. destruct (Z.eqb_spec e 0) as [->|He]; [done|].
    cbn [negb].
    destruct (end_ok block t1 (block :: l) Hok1) as (b & t2 & l2 & -> & Hok2 & Hd2 & Hsd2 & _); [by left|].
    wp_step. split; [done|]. left. split_and!; [done|done|by exists l2| |congruence|].
    - apply not_elem_of_dom in Hb. rewrite Hd2, Hd1. clear -Hb. set_solver.
    - intros E. assert (flen w3 <= flen w)%nat by frame. apply no_faults_flen in E.
      assert (Hlt' : (flen w4 < flen w3)%nat) by (by apply Hlt). lia. }
  wp_step. wp_step. apply wp_sys_sockcall; intros w2 Hf2 H2; wp_step; apply Hgo; by etrans.
Qed.

(** *** Serving a connection *)

Lemma http_to_conn_ready conn opt base w :
  connection_ready conn opt base w -> conn_ready conn opt base w.
Proof. intros [[H1 H2 H3 H4 H5 [H6 _] _] H7]. by split. Qed.

Lemma connection_ready_errno conn opt base w w1 :
  connection_ready conn opt base w -> only_errno w w1 -> connection_ready conn opt base w1.
Proof.
  intros [Hr Hb] Hf. split.
  - eapply http_ready_net; [done|by apply only_errno_net].
  - assert (w_net w1 = w_net w) as -> by apply Hf. done.
Qed.

Lemma connection_outcome_effect base w w' rc :
  connection_outcome base w w' rc -> connection_effect base w w' /\ (rc = 0 \/ rc = 1).
Proof.
  assert (Hrc : forall r, (if result_ok r then 0 else 1) = 0 \/ (if result_ok r then 0 else 1) = 1).
  { intros r. destruct (result_ok r); auto. }
  intros [Hw Hp _|h b e _ _ _ Hw _ Hyes Hno|h b w1 r _ _ _ _ Hf1 _ Hp Hft|h b w1 r _ _ _ _ _ _ Hp Hfs _];
    (split; [|auto]).
  - left. apply he_none; [by rewrite Hw|by rewrite Hp].
  - left. destruct (decide (e = PROTOCOL_OK)) as [->|He].
    + destruct (Hyes eq_refl) as (raw & _ & _ & _ & Hst). by eapply he_message; [rewrite Hw|].
    + apply he_none; [by rewrite Hw|by apply Hno].
  - assert (Hw1 : w_files w1 = w_files w) by frame.
    destruct (transfer_confined _ _ _ _ _ Hft) as [H|H]; rewrite Hw1 in H.
    + left. by apply he_none; [|rewrite Hp].
    + right. by rewrite Hp.
  - left. by apply he_none; [|rewrite Hp].
Qed.

Lemma connection_effect_errno base w w1 w' :
  only_errno w w1 -> connection_effect base w1 w' -> connection_effect base w w'.
Proof.
  intros Hf [H|(H1 & H2)].
  - left. apply (http_effect_after base [] w w1); [by apply only_errno_net| |done].
    assert (w_net w1 = w_net w) as -> by apply Hf. done.
  - right. assert (Hw : w_files w1 = w_files w) by frame. assert (Hp : w_prog w1 = w_prog w) by frame.
    by rewrite <- Hw, <- Hp.
Qed.

Lemma server_serve_connection_spec rounds conn opt base w :
  connection_ready conn opt base w ->
  wp (server_serve_connection rounds conn opt) (fun r w' =>
    f_fds (w_files w') = f_fds (w_files w) /\ fds_ok (w_files w') /\
    (r = None \/ r = Some 0 \/ r = Some 1) /\ connection_effect base w w') w.
Proof.
  intros Hready. unfold server_serve_connection. wp_step. wp_use detect_kind_spec.
  intros k w1 [Hf _]. pose proof (connection_ready_errno _ _ _ _ _ Hready Hf) as Hready1.
  assert (Hw : w_files w1 = w_files w) by frame.
  destruct k.
  - wp_step. rewrite Hw. split; [done|]. split; [apply Hready|]. split; [auto|].
    left. apply he_none; [by rewrite Hw|]. assert (w_prog w1 = w_prog w) as -> by frame. done.
  - apply wp_finished. wp_use handle_protocol_connection_spec; [by apply http_to_conn_ready|].
    intros rc w2 (Hfd & Hok & [He Hrc]%connection_outcome_effect). rewrite Hfd, Hw.
    split; [done|]. split; [done|]. split; [right; destruct Hrc as [->| ->]; auto|].
    by eapply connection_effect_errno.
  - wp_use handle_http_connection_promise; [apply Hready1|].
    intros r w2 (Hfd & Hok & Hr & He). rewrite Hfd, Hw. split; [done|]. split; [done|].
    split; [done|]. eapply connection_effect_errno; [done|by left].
Qed.

(** When nothing fails the first two bytes decide. *)
Lemma serve_http rounds conn opt b0 b1 rest Q w :
  w_faults w = [] -> n_in (w_net w) = b0 :: b1 :: rest -> 65 <= b0 <= 90 ->
  (forall w1, only_errno w w1 -> wp (handle_http_connection rounds conn opt) Q w1) ->
  wp (server_serve_connection rounds conn opt) Q w.
Proof.
  intros E Hin Hb HQ. unfold server_serve_connection. wp_step. wp_use detect_kind_spec.
  intros k w1 [Hf Hk]. rewrite (Hk b0 b1 rest E Hin).
  destruct (Z.eqb_spec b0 4); [lia|]. destruct (Z.leb_spec 65 b0); [|lia].
  destruct (Z.leb_spec b0 90); [|lia]. by apply HQ.
Qed.

Lemma serve_protocol rounds conn opt rest Q w :
  w_faults w = [] -> n_in (w_net w) = 4 :: 41 :: rest ->
  (forall w1, only_errno w w1 ->
     wp (handle_protocol_connection conn opt) (fun r w' => Q (Some r) w') w1) ->
  wp (server_serve_connection rounds conn opt) Q w.
Proof.
  intros E Hin HQ. unfold server_serve_connection. wp_step. wp_use detect_kind_spec.
  intros k w1 [Hf Hk]. rewrite (Hk 4 41 rest E Hin). by apply wp_finished, HQ.
Qed.

(** An HTTP request reaches the HTTP server. *)
Lemma serve_request rounds conn opt base b0 b1 m p q hs body Q w :
  http_ready conn opt base w -> request_sent (b0 :: b1 :: m) p q hs body w -> w_faults w = [] ->
  65 <= b0 <= 90 ->
  (forall w1, only_errno w w1 -> http_ready conn opt base w1 ->
     request_sent (b0 :: b1 :: m) p q hs body w1 -> w_faults w1 = [] ->
     wp (handle_http_connection rounds conn opt) Q w1) ->
  wp (server_serve_connection rounds conn opt) Q w.
Proof.
  intros Hready Hsent Hcalm Hb HQ. pose proof Hsent as [Hok Hsize Hin].
  eapply serve_http; [done|exact Hin|done|]. intros w1 Hf.
  assert (En : w_net w1 = w_net w) by apply Hf. apply HQ; [done| | |].
  - eapply http_ready_net; [done|by apply only_errno_net].
  - split; [done|done|by rewrite En].
  - eapply only_io_no_faults; [apply Hf|done].
Qed.

(** *** Leaving *)

Lemma connection_effect_then base w w1 w' :
  connection_effect base w w1 -> only_errno w1 w' -> connection_effect base w w'.
Proof.
  intros H Hf. assert (Ew : w_files w' = w_files w1) by frame. assert (Ep : w_prog w' = w_prog w1) by frame.
  assert (En : w_net w' = w_net w1) by apply Hf. assert (Ea : w_waits w' = w_waits w1) by frame.
  destruct H as [H|H]; [left|right; by rewrite Ew, Ep].
  destruct H as [H4 H5|rel p d m H4 H5 H6|rel k c m H4 H5 H6 H7 H8 H9|m H4 H5|used H4 H5 H6];
    rewrite <- ?Ew, <- ?Ep, <- ?En, <- ?Ea in *.
  - by apply he_none.
  - by apply (he_file _ _ _ rel p d m).
  - by apply (he_temp _ _ _ rel k c m).
  - by apply (he_message _ _ _ m).
  - by apply (he_stream _ _ _ used).
Qed.

Lemma wp_socket_close s Q w :
  (forall r w', only_errno w w' -> Q r w') -> wp (socket_close s) Q w.
Proof.
  intros H. unfold socket_close. wp_step; [wp_step; by apply H|].
  apply wp_sys_sockcall; intros w' Hf _; by apply H.
Qed.

(** ** Properties *)


Definition demo_tracker : server_conn_tracker_t :=
  snd (server_conn_tracker_begin (Some 70) 4 (snd (server_conn_tracker_init true tracker_zero))).

Lemma demo_tracker_ok : tracker_ok demo_tracker [70].
Proof.
  split; [split; [done|eexists; split; [by vm_compute|done]]|].
  split; [repeat constructor; by intros ?%elem_of_nil|]. split; [by vm_compute|]. split; [done|].
  intros p e H. unfold demo_tracker in H. simpl in H.
  apply lookup_insert_Some in H as [[_ <-]|[_ H]]; [done|by apply lookup_empty_Some in H].
Qed.

Lemma demo_connection_ready faults input :
  forallb (fun b => (0 <=? b) && (b <? 256)) input = true ->
  connection_ready 4 demo_http_opt (bs "d") (demo_world faults input (demo_files demo_http_fs)).
Proof.
  intros H. split; [apply demo_http_ready|]. apply Forall_forall. intros b Hb.
  rewrite forallb_forall in H. apply list_elem_of_In in Hb. specialize (H b Hb). unfold is_byte. lia.
Qed.


(** Starting a connection's thread: [server_start_connection_thread] returns 0
    with the context for the new thread and exactly one more entry in the tracker,
    or 1 with the tracker's entries as they were -- also when [pthread_create]
    fails after the entry was made; it always succeeds when no call fails and no
    shutdown began, and never once one did. *)
Theorem server_start_connection_thread_exact conn opt block t l w
    (Htracker : tracker_ok t l) (Hfresh : entries t !! block = None)
    (Hsize : Z.of_nat (base.size (entries t)) + 1 < 2 ^ 32) :
  wp (server_start_connection_thread conn opt block t) (fun '(r, ctx, t') w' =>
    w_files w' = w_files w /\ w_prog w' = w_prog w /\
    start_outcome conn opt block l t (w_faults w = []) r ctx t') w.
Proof.
  wp_use server_start_connection_thread_spec; [done|done|done|]. intros [[r ctx] t'] w' [Hf H].
  split; [frame|]. split; [frame|done].
Qed.

Lemma server_start_connection_thread_exact_witness :
  let w := demo_world [FNone; FErr EIO; FNone; FErr EPERM] [] (demo_files demo_http_fs) in
  wp (server_start_connection_thread 5 demo_http_opt 71 demo_tracker) (fun '(r, ctx, t') w' =>
    w_files w' = w_files w /\ w_prog w' = w_prog w /\
    start_outcome 5 demo_http_opt 71 [70] demo_tracker (w_faults w = []) r ctx t') w.
Proof.
  apply server_start_connection_thread_exact; [apply demo_tracker_ok|by vm_compute|by vm_compute].
Defined.

(** C8: a file sent by the client program is served to browsers: when nothing
    fails, a connection with the client's upload request -- header, name, size and
    contents of the binary protocol -- is answered ready and final, and the next
    connection's HTTP GET for that name, however percent-encoded, is answered with
    the size and exactly those contents. *)
Theorem sent_file_downloads rounds rounds' conn conn' opt base keep name body hs rest rest' w
    (Hready : connection_ready conn opt base w) (Hconn : 0 <= conn') (Hcalls : w_faults w = [])
    (Hname : Forall is_char name) (Hok : file_name_ok name) (Hlen : name_length_ok name)
    (Hroom : upload_ready base name PATH_CAP w) (Hsize : zlen body < 2 ^ 63) (Hkeep : keep 37 = false)
    (Hin : n_in (w_net w) = store_file_request name body ++ rest) :
  wp (server_serve_connection rounds conn opt) (fun r w1 =>
    r = Some 0 /\ said_all (reply_ready_ok ++ reply_final_ok) w w1 /\
    forall w2, next_connection w1 w2 ->
      request_sent (bs "GET") (bs "/api/files/" ++ percent_encode keep name) [] hs rest' w2 ->
      wp (server_serve_connection rounds' conn' opt) (fun r w3 =>
        r = Some 0 /\ said_all (http_file_header (zlen body) (safe_name_of name) ++ body) w2 w3) w2) w.
Proof.
  unfold store_file_request in Hin. rewrite <- !app_assoc in Hin.
  eapply serve_protocol; [done|exact Hin|]. intros w1 Hf1.
  pose proof (connection_ready_errno _ _ _ _ _ Hready Hf1) as Hready1.
  assert (En : w_net w1 = w_net w) by apply Hf1. assert (Ew : w_files w1 = w_files w) by frame.
  assert (Ec : w_faults w1 = []) by (eapply only_io_no_faults; [apply Hf1|done]).
  assert (Hroom1 : upload_ready base name PATH_CAP w1).
  { eapply upload_ready_same; [| |exact Hroom]; frame. }
  wp_use (connection_stores_file conn opt base name body rest);
    [by apply http_to_conn_ready|done|done|done|done|done|done|by rewrite En|].
  intros rc w2 (-> & _ & Hout & Hio & Hfds & m & Hfs). rewrite En in Hout. rewrite Ew in Hfs.
  split; [done|]. split; [done|]. intros w3 Hnext Hsent. pose proof Hnext as (E1 & E2 & E3 & E4 & E5).
  destruct Hready as [Hready _]. pose proof Hready as [_ _ _ Hsz _ Hst Hl].
  assert (Hp2 : w_prog w2 = w_prog w).
  { destruct Hio as (_ & -> & _). frame. }
  assert (Hready3 : http_ready conn' opt base w3).
  { eapply (next_connection_ready conn conn' opt base w w2); try done; rewrite ?Hp2.
    - destruct Hio as (-> & _). frame.
    - intros p c k. rewrite Hfs. intros [[_ [= <- _]]|[_ H]]%lookup_insert_Some; [done|by eapply Hsz].
    - by apply stream_ready_version.
    - by apply stream_ready_version.
    - done. }
  eapply serve_request; [done|exact Hsent|done|split; by vm_compute|]. intros w4 Hf4 Hready4 Hsent4 Hcalm4.
  destruct Hroom as (Hrel & _ & Hcap & _).
  assert (Hne : name <> []) by (intros ->; by apply fs_validate_relative_path_iff in Hrel).
  assert (Ew4 : w_files w4 = w_files w3) by frame.
  wp_use (http_get_calm rounds' conn' opt base keep name hs rest' body m); try done.
  - unfold name_length_ok, HF_PROTOCOL_MAX_FILE_NAME_LEN, HF_HTTP_PATH_MAX in *. lia.
  - by destruct name.
  - by rewrite Ew4, E1, Hfs, lookup_insert_eq.
  - intros r w5 [-> Hs]. split; [done|]. eapply said_all_after; [|done]. f_equal. apply Hf4.
Qed.

Lemma sent_file_downloads_witness :
  let w := demo_world [] (store_file_request (bs "f") [7; 8] ++ []) (demo_files demo_http_fs) in
  wp (server_serve_connection 1 4 demo_http_opt) (fun r w1 =>
    r = Some 0 /\ said_all (reply_ready_ok ++ reply_final_ok) w w1 /\
    forall w2, next_connection w1 w2 ->
      request_sent (bs "GET") demo_name_path [] [] [] w2 ->
      wp (server_serve_connection 1 5 demo_http_opt) (fun r w3 =>
        r = Some 0 /\ said_all (http_file_header 2 (safe_name_of (bs "f")) ++ [7; 8]) w2 w3) w2) w.
Proof.
  apply (sent_file_downloads 1 1 4 5 demo_http_opt (bs "d") isdigit (bs "f") [7; 8] [] [] []);
    [apply demo_connection_ready; vm_compute; reflexivity|lia|reflexivity|by_decision| | | |
     simpl; lia|reflexivity|reflexivity].
  - apply fs_validate_file_name_iff. vm_compute. reflexivity.
  - unfold name_length_ok, HF_PROTOCOL_MAX_FILE_NAME_LEN. simpl. lia.
  - apply demo_put_ready.
Defined.

(** A text message sent by the client program is shown to browsers: when
    nothing fails, a connection with the client's message request is answered with
    the final OK frame, and the next connection's HTTP GET for the latest message
    is answered with that text, without the white space at its end, escaped as a
    JSON string. *)
Theorem sent_message_reads rounds rounds' conn conn' opt base cps hs rest rest' w
    (Hready : connection_ready conn opt base w) (Hconn : 0 <= conn') (Hcalls : w_faults w = [])
    (Hscalar : Forall scalar cps) (Hnul : Forall (fun c => c <> 0) cps)
    (Hsize : zlen (utf8_text cps) <= HF_PROTOCOL_MAX_TEXT_MESSAGE_SIZE)
    (Hin : n_in (w_net w) = store_message_request cps ++ rest) :
  wp (server_serve_connection rounds conn opt) (fun r w1 =>
    r = Some 0 /\ said_all reply_final_ok w w1 /\
    forall w2, next_connection w1 w2 ->
      request_sent (bs "GET") (bs "/api/messages/latest") [] hs rest' w2 ->
      wp (server_serve_connection rounds' conn' opt) (fun r w3 =>
        r = Some 0 /\ said_all (latest_response (Some (utf8_text (rstrip cps)))) w2 w3) w2) w.
Proof.
  unfold store_message_request in Hin. rewrite <- !app_assoc in Hin.
  eapply serve_protocol; [done|exact Hin|]. intros w1 Hf1.
  pose proof (connection_ready_errno _ _ _ _ _ Hready Hf1) as Hready1.
  assert (En : w_net w1 = w_net w) by apply Hf1. assert (Ew : w_files w1 = w_files w) by frame.
  assert (Ep : w_prog w1 = w_prog w) by frame.
  assert (Ec : w_faults w1 = []) by (eapply only_io_no_faults; [apply Hf1|done]).
  wp_use (connection_stores_message conn opt base cps rest);
    [by apply http_to_conn_ready|done|done|done|done|by rewrite En|].
  intros rc w2 (-> & _ & Hout & (He & Hw & _) & Hp). rewrite En in Hout. rewrite Ep in Hp.
  split; [done|]. split; [done|]. intros w3 Hnext Hsent. pose proof Hnext as (E1 & E2 & E3 & E4 & E5).
  destruct Hready as [Hready _]. pose proof Hready as [_ _ Hfds Hsz _ Hst Hl].
  assert (Hready3 : http_ready conn' opt base w3).
  { eapply (next_connection_ready conn conn' opt base w w2); try done; rewrite ?Hw, ?Ew, ?Hp; try done.
    - rewrite He. frame.
    - by apply stream_ready_version.
    - cbn [store_set ms_version]. unfold u64. apply Z.mod_pos_bound. lia.
    - cbn [store_set ms_message default]. unfold message_small, id.
      pose proof (rstrip_text_length cps). unfold HF_PROTOCOL_MAX_TEXT_MESSAGE_SIZE in Hsize. lia. }
  eapply serve_request; [done|exact Hsent|done|split; by vm_compute|]. intros w4 Hf4 Hready4 Hsent4 Hcalm4.
  assert (Ep4 : w_prog w4 = w_prog w3) by frame.
  wp_use (http_latest_calm rounds' conn' opt base hs rest'); [done|done|done|].
  intros r w5 [-> Hs]. rewrite Ep4, E2, Hp in Hs. split; [done|].
  eapply said_all_after; [|exact Hs]. f_equal. apply Hf4.
Qed.

Lemma sent_message_reads_witness :
  let w := demo_world [] (store_message_request [8364; 33; 10] ++ []) (demo_files demo_http_fs) in
  wp (server_serve_connection 1 4 demo_http_opt) (fun r w1 =>
    r = Some 0 /\ said_all reply_final_ok w w1 /\
    forall w2, next_connection w1 w2 ->
      request_sent (bs "GET") (bs "/api/messages/latest") [] [] [] w2 ->
      wp (server_serve_connection 1 5 demo_http_opt) (fun r w3 =>
        r = Some 0 /\ said_all (latest_response (Some (utf8_text [8364; 33]))) w2 w3) w2) w.
Proof.
  apply (sent_message_reads 1 1 4 5 demo_http_opt (bs "d") [8364; 33; 10] [] [] []);
    [apply demo_connection_ready; vm_compute; reflexivity|lia|reflexivity|by_decision|by_decision|
     by vm_compute|reflexivity].
Defined.
