(* ===== verification/Control.v ===== *)
(** * The commands about the daemon (src/control.c)

    The page's address, "hf status" and "hf stop" of the POSIX build. Other
    processes appear through the answers [kill] gives: a list of the answers to
    come, and a list of the calls made. What the commands print is in Terminal. *)

From S2P Require Import Prelude CLib World Logic.
From S2P Require Import Signals Fs Net Protocol TransferIo Cli AppService DaemonState.

(** ** Definitions *)

(** 0 or the error of each call of [kill] to come -- when none is left the process
    is gone -- and the calls made so far. *)
Record procs_t := Procs {
  p_answers : list Z;
  p_kills : list (Z * Z)
}.

(** [kill(pid, sig)]: 0 or [errno]. *)
Definition sys_kill (pid sig : Z) (p : procs_t) : Z * procs_t :=
  (hd ESRCH (p_answers p), Procs (tl (p_answers p)) (p_kills p ++ [(pid, sig)])).

(** The conversion of a [long] to the 32 bits of [pid_t]. *)
Definition pid_t_of (pid : Z) : Z := (pid + 2 ^ 31) mod 2 ^ 32 - 2 ^ 31.

(** [host]: what [net_primary_ipv4] finds out, if anything. The result, the URL and
    [*phone_reachable_out]. *)
Definition control_build_url (host : option bytes) (port url_out_cap : Z) : Z * bytes * Z :=
  if (url_out_cap =? 0) || (port =? 0) then (1, [], 0)
  else
    let phone_reachable := match host with Some _ => 1 | None => 0 end in
    let '(n, url) :=
      snprintf url_out_cap
        (bs "http://" ++ default (bs "127.0.0.1") host ++ [58] ++ udec port ++ [47]) in
    ((if snprintf_failed n url_out_cap then 1 else 0), url, phone_reachable).

Definition control_pid_is_running (pid : Z) (p : procs_t) : Z * procs_t :=
  if pid <=? 0 then (0, p)
  else
    let '(err, p) := sys_kill (pid_t_of pid) 0 p in
    if err =? 0 then (1, p) else ((if err =? EPERM then 1 else 0), p).

(** [None] is the result 1. *)
Definition control_load_running_state (p : procs_t) : M (option daemon_state_t * procs_t) :=
  let! (r, state) := daemon_state_read in
  match state with
  | Some state =>
      if negb (r =? 0) then let! _ := daemon_state_cleanup_files in ret (None, p)
      else
        let '(running, p) := control_pid_is_running (pid state) p in
        if running =? 0 then let! _ := daemon_state_cleanup_files in ret (None, p)
        else ret (Some state, p)
  | None => let! _ := daemon_state_cleanup_files in ret (None, p)
  end.

Definition control_report_already_stopped : M Z :=
  let! _ := daemon_state_cleanup_files in ret 0.

Definition control_status (p : procs_t) : M (Z * procs_t) :=
  let! (state, p) := control_load_running_state p in
  ret ((match state with None => 1 | Some _ => 0 end), p).

(** The loop of [control_stop]: [n] polls are left. *)
Fixpoint control_stop_poll (n : nat) (pid : Z) (p : procs_t) : procs_t :=
  match n with
  | O => p
  | S n =>
      let '(running, p) := control_pid_is_running pid p in
      if running =? 0 then p else control_stop_poll n pid p
  end.

Definition control_stop (p : procs_t) : M (Z * procs_t) :=
  let! (state, p) := control_load_running_state p in
  match state with
  | None => ret (0, p)
  | Some state =>
      let '(err, p) := sys_kill (pid_t_of (pid state)) SIGTERM p in
      if negb (err =? 0) then
        if err =? ESRCH then let! r := control_report_already_stopped in ret (r, p)
        else ret (1, p)
      else
        let p := control_stop_poll 100 (pid state) p in
        let '(running, p) := control_pid_is_running (pid state) p in
        if negb (running =? 0) then ret (1, p)
        else let! _ := daemon_state_cleanup_files in ret (0, p)
  end.

(** *** Specifications *)

(** The answer of a process that is there. *)
Definition alive (err : Z) : bool := (err =? 0) || (err =? EPERM).

(** [k] polls of [pid]. *)
Definition polled (k : nat) (pid : Z) (p : procs_t) : procs_t :=
  Procs (drop k (p_answers p)) (p_kills p ++ replicate k (pid_t_of pid, 0)).

(** The result of "hf stop" and the calls of [kill] it made for the process [q],
    when the [i]-th call was answered with [ans i]. *)
Inductive stop_outcome (q : Z) (ans : nat -> Z) : Z -> list (Z * Z) -> Prop :=
  | stop_no_daemon : stop_outcome q ans 0 []
  | stop_not_running : alive (ans 0%nat) = false -> stop_outcome q ans 0 [(q, 0)]
  | stop_already_gone : alive (ans 0%nat) = true -> ans 1%nat = ESRCH ->
      stop_outcome q ans 0 [(q, 0); (q, SIGTERM)]
  | stop_refused : alive (ans 0%nat) = true -> ans 1%nat <> 0 -> ans 1%nat <> ESRCH ->
      stop_outcome q ans 1 [(q, 0); (q, SIGTERM)]
  | stop_waited k : alive (ans 0%nat) = true -> ans 1%nat = 0 -> (1 <= k <= 101)%nat ->
      stop_outcome q ans (if alive (ans (S k)) then 1 else 0)
        ((q, 0) :: (q, SIGTERM) :: replicate k (q, 0)).

(** The state file is as it was, or gone. *)
Definition state_file_kept (w w' : world) : Prop := f_fs (w_files w') = f_fs (w_files w).
Definition state_file_removed (w w' : world) : Prop :=
  f_fs (w_files w') = delete (state_path (e_tmpdir (w_env w))) (f_fs (w_files w)).

(** What the commands do to this process. *)
Definition quiet (w w' : world) : Prop :=
  only_io w w' /\ w_net w' = w_net w /\ f_fds (w_files w') = f_fds (w_files w).

(** The daemon [s] is recorded. *)
Definition recorded (s : daemon_state_t) (w : world) : Prop :=
  state_ok s /\ pid s < 2 ^ 31 /\ zlen (state_path (e_tmpdir (w_env w))) < PATH_CAP /\
  exists m, f_fs (w_files w) !! state_path (e_tmpdir (w_env w)) = Some (NFile (daemon_state_text s) m).

(** ** Theorems *)

Lemma pid_t_of_id pid : 0 <= pid < 2 ^ 31 -> pid_t_of pid = pid.
Proof. intros H. unfold pid_t_of. rewrite Z.mod_small; lia. Qed.

Lemma control_pid_is_running_spec pid p :
  0 < pid -> control_pid_is_running pid p =
    ((if alive (hd ESRCH (p_answers p)) then 1 else 0), polled 1 pid p).
Proof.
  intros Hp. unfold control_pid_is_running, sys_kill, alive, polled.
  destruct (Z.leb_spec pid 0); [lia|]. destruct (p_answers p) as [|a l]; cbn [hd tl drop replicate];
    repeat case_match; try done; lia.
Qed.

Lemma polled_0 pid p : polled 0 pid p = p.
Proof. destruct p. unfold polled. simpl. by rewrite app_nil_r. Qed.

Lemma polled_plus i k pid p : polled k pid (polled i pid p) = polled (i + k) pid p.
Proof.
  unfold polled. cbn [p_answers p_kills].
  by rewrite drop_drop, replicate_add, <- app_assoc.
Qed.

(** The answer to the call after [k] polls. *)
Definition answer (p : procs_t) (k : nat) : Z := nth k (p_answers p) ESRCH.

Lemma hd_answer k pid p : hd ESRCH (p_answers (polled k pid p)) = answer p k.
Proof.
  unfold polled, answer. cbn [p_answers]. generalize (p_answers p). intros l. revert k.
  induction l as [|a l IH]; intros [|k]; cbn [drop hd nth]; done.
Qed.

Lemma answer_polled i k pid p : answer (polled i pid p) k = answer p (i + k).
Proof. by rewrite <- (hd_answer k pid (polled i pid p)), polled_plus, hd_answer. Qed.

Lemma control_stop_poll_spec n pid p :
  0 < pid -> exists k, (k <= n)%nat /\ control_stop_poll n pid p = polled k pid p /\
    (k = n \/ exists j, k = S j /\ alive (answer p j) = false).
Proof.
  intros Hp. revert p. induction n as [|n IH]; intros p; cbn [control_stop_poll].
  { exists 0%nat. rewrite polled_0. split_and!; [lia|done|by left]. }
  rewrite control_pid_is_running_spec, <- (polled_0 pid p), hd_answer, polled_0 by done.
  destruct (alive (answer p 0)) eqn:E0.
  - change (1 =? 0) with false. cbv iota. destruct (IH (polled 1 pid p)) as (k & Hk & -> & H).
    exists (S k). rewrite polled_plus. split_and!; [lia|done|].
    destruct H as [->|(j & -> & Hj)]; [by left|]. right. exists (S j). by rewrite answer_polled in Hj.
  - change (0 =? 0) with true. cbv iota. exists 1%nat. split_and!; [lia|done|]. right. by exists 0%nat.
Qed.

Lemma control_build_url_fits host port cap :
  0 < port <= 65535 -> 32 < cap <= INT_MAX -> zlen (default [] host) <= 15 ->
  control_build_url host port cap =
    (0, bs "http://" ++ default (bs "127.0.0.1") host ++ [58] ++ udec port ++ [47],
     match host with Some _ => 1 | None => 0 end).
Proof.
  intros Hp Hc Hh. unfold control_build_url.
  destruct (Z.eqb_spec cap 0); [lia|]. destruct (Z.eqb_spec port 0); [lia|]. cbn [orb].
  assert (Hu : zlen (udec port) <= 5) by (apply udec_digits; lia).
  set (url := bs "http://" ++ _).
  assert (Hl : zlen url < cap).
  { subst url. rewrite !length_app. destruct host as [h|]; cbn [default length bs] in *; unfold id in *; lia. }
  destruct (snprintf_ok cap url Hl) as [-> ->]; [lia|done].
Qed.

(** *** The state file *)

Lemma daemon_state_assign_pid key value a :
  (have_pid a = true -> 0 < pid (rs_state a)) ->
  have_pid (daemon_state_assign key value a) = true -> 0 < pid (rs_state (daemon_state_assign key value a)).
Proof.
  intros H. unfold daemon_state_assign. cbv zeta.
  repeat case_match; cbn [have_pid rs_state with_pid with_receive_dir with_web_url with_log_path
    with_port with_daemon_mode pid]; try done; lia.
Qed.

Lemma daemon_state_lines_pid fuel content a :
  (have_pid a = true -> 0 < pid (rs_state a)) ->
  have_pid (daemon_state_lines fuel content a) = true -> 0 < pid (rs_state (daemon_state_lines fuel content a)).
Proof.
  revert content a. induction fuel as [|fuel IH]; intros content a H; cbn [daemon_state_lines]; [done|].
  destruct content as [|c content]; [done|]. destruct (fgets _ _) as [line rest]. apply IH.
  unfold daemon_state_line. destruct (strchr _ 61); [|done]. by apply daemon_state_assign_pid.
Qed.

Lemma daemon_state_parse_pid content s : daemon_state_parse content = (0, s) -> 0 < pid s.
Proof.
  unfold daemon_state_parse. intros [= H <-].
  apply daemon_state_lines_pid; [done|]. by destruct (have_pid _).
Qed.

Lemma quiet_released w w' :
  only_files w w' -> files_released (w_files w) (w_files w') ->
  quiet w w' /\ state_file_kept w w'.
Proof. intros [H1 H2] (H3 & H4 & _). by repeat split; try apply H1. Qed.

(** Reading the state, whatever fails: it is there with a positive process. *)
Lemma daemon_state_read_any w :
  fds_ok (w_files w) ->
  wp daemon_state_read (fun '(r, state) w' =>
    only_files w w' /\ files_released (w_files w) (w_files w') /\
    (r = 0 -> exists s, state = Some s /\ 0 < pid s)) w.
Proof.
  intros Hok. unfold daemon_state_read. do 2 wp_step.
  assert (Hno : forall w', only_files w w' -> w_files w' = w_files w ->
    wp (ret (1, None)) (fun '(r, state) w' =>
    only_files w w' /\ files_released (w_files w) (w_files w') /\
    (r = 0 -> exists s, state = Some s /\ 0 < pid s)) w').
  { intros w' Hf Hw. wp_step. rewrite Hw. split; [done|]. split; [split_and!; done|done]. }
  destruct (daemon_state_default_state_path _ _) as [r path]. wp_step; [by apply Hno|]. wp_step.
  apply wp_sys_open_rdonly.
  { intros w1 Hf Hw _. change (-1 =? -1) with true. cbv iota. by apply Hno. }
  intros n w1 Hf1 _ Hw1. destruct Hok as [Hn Hok].
  destruct (Z.eqb_spec (f_next (w_files w)) (-1)); [lia|]. wp_step.
  assert (Hs : wp (stream_contents (f_next (w_files w))) (fun _ w' => only_errno w1 w') w1).
  { unfold stream_contents. wp_step. apply wp_pop_fault. intros f w2 Hf2 _ _ _. wp_step.
    assert (Hgo : forall d : bytes, wp (ret d) (fun _ w' => only_errno w1 w') w2) by (intros d; by wp_step).
    assert (Hfail : forall e, wp (fail_with e (@nil Z)) (fun _ w' => only_errno w1 w') w2).
    { intros e. apply wp_fail_with. frame. }
    wp_step. repeat case_match; first [apply Hfail|apply Hgo]. }
  eapply wp_mono; [exact Hs|]. intros content w2 Hf2. wp_step. apply wp_sys_close.
  intros x w3 Hf3 _ _ Hw3. destruct (daemon_state_parse content) as [r2 s] eqn:Ep. wp_step.
  assert (Hw2 : w_files w2 = w_files w1) by frame. rewrite Hw2, Hw1 in Hw3.
  split; [etrans; [exact Hf1|etrans; [|exact Hf3]]; frame|].
  split; [by eapply opened_close|]. intros ->. exists s. split; [done|by eapply daemon_state_parse_pid].
Qed.

(** And when nothing fails it is the recorded one. *)
Lemma daemon_state_read_both w :
  fds_ok (w_files w) ->
  wp daemon_state_read (fun '(r, state) w' =>
    (only_files w w' /\ files_released (w_files w) (w_files w') /\
     (r = 0 -> exists s, state = Some s /\ 0 < pid s)) /\
    (w_faults w = [] -> forall s, recorded s w -> r = 0 /\ state = Some s)) w.
Proof.
  intros Hok. pose proof (daemon_state_read_any w Hok) as H. unfold wp in *.
  destruct (daemon_state_read w) as [[[r state] w']|] eqn:E; [|done]. split; [done|].
  intros Hcalm s (Hs & _ & Hl & m & Hf).
  pose proof (daemon_state_read_spec s m w Hl Hs Hf Hok Hcalm) as H2. unfold wp in H2.
  rewrite E in H2. destruct H2 as [[= -> ->] _]. done.
Qed.

Lemma cleanup_files_spec w :
  (forall m, f_fs (w_files w) !! state_path (e_tmpdir (w_env w)) <> Some (NDir m)) ->
  wp daemon_state_cleanup_files (fun _ w' =>
    only_files w w' /\ f_fds (w_files w') = f_fds (w_files w) /\ f_next (w_files w') = f_next (w_files w) /\
    (state_file_kept w w' \/ state_file_removed w w') /\
    (w_faults w = [] -> zlen (state_path (e_tmpdir (w_env w))) < PATH_CAP -> state_file_removed w w')) w.
Proof.
  intros Hnd. unfold daemon_state_cleanup_files. do 2 wp_step.
  destruct (daemon_state_default_state_path (e_tmpdir (w_env w)) PATH_CAP) as [r path] eqn:Ep.
  destruct (Z.eqb_spec r 0) as [->|Hr]; cycle 1.
  { wp_step. split_and!; try done; [by left|]. intros _ Hl.
    rewrite daemon_state_default_state_path_ok in Ep by done. by injection Ep as <- _. }
  apply daemon_state_default_state_path_0 in Ep as ->. wp_use fs_remove_ignore_error_spec; [done|].
  intros _ w' (Hf & Hw & Hdone). split; [done|]. unfold state_file_kept, state_file_removed.
  destruct Hw as [Hw|Hw]; rewrite Hw in *; split_and!; try done; auto.
Qed.

(** *** The commands *)

Lemma quiet_refl_io w w' : only_files w w' -> f_fds (w_files w') = f_fds (w_files w) -> quiet w w'.
Proof. intros [H1 H2] H3. by split. Qed.

Lemma control_load_running_state_spec p w :
  fds_ok (w_files w) ->
  (forall m, f_fs (w_files w) !! state_path (e_tmpdir (w_env w)) <> Some (NDir m)) ->
  wp (control_load_running_state p) (fun '(state, p') w' =>
    only_files w w' /\ f_fds (w_files w') = f_fds (w_files w) /\
    (state_file_kept w w' \/ state = None /\ state_file_removed w w') /\
    match state with
    | None => p' = p \/ exists s, p' = polled 1 (pid s) p /\ alive (answer p 0) = false
    | Some s => 0 < pid s /\ p' = polled 1 (pid s) p /\ alive (answer p 0) = true
    end /\
    (w_faults w = [] -> forall s, recorded s w ->
       match state with
       | Some s' => s' = s /\ w_faults w' = []
       | None => state_file_removed w w' /\ alive (answer p 0) = false /\ p' = polled 1 (pid s) p
       end)) w.
Proof.
  intros Hok Hnd. unfold control_load_running_state. wp_step.
  wp_use daemon_state_read_both; [done|]. intros [r state] w1 ((Hf1 & (Hfs & Hfd & Hn) & Hpos) & Hcalm).
  assert (Hee : w_env w1 = w_env w) by frame.
  assert (Hclean : forall p', (p' = p \/ exists s, p' = polled 1 (pid s) p /\ alive (answer p 0) = false) ->
    (w_faults w = [] -> forall s, recorded s w ->
       alive (answer p 0) = false /\ p' = polled 1 (pid s) p) ->
    wp (let! _ := daemon_state_cleanup_files in ret (None, p')) (fun '(state, p') w' =>
    only_files w w' /\ f_fds (w_files w') = f_fds (w_files w) /\
    (state_file_kept w w' \/ state = None /\ state_file_removed w w') /\
    match state with
    | None => p' = p \/ exists s, p' = polled 1 (pid s) p /\ alive (answer p 0) = false
    | Some s => 0 < pid s /\ p' = polled 1 (pid s) p /\ alive (answer p 0) = true
    end /\
    (w_faults w = [] -> forall s, recorded s w ->
       match state with
       | Some s' => s' = s /\ w_faults w' = []
       | None => state_file_removed w w' /\ alive (answer p 0) = false /\ p' = polled 1 (pid s) p
       end)) w1).
  { intros p' Hp' Hdead. wp_step. wp_use cleanup_files_spec; [by rewrite Hee, Hfs|].
    intros _ w2 (Hf2 & Hfd2 & _ & Hst & Hdone). wp_step.
    unfold state_file_kept, state_file_removed in *. rewrite Hee, Hfs in *.
    split; [by etrans|]. split; [congruence|]. split; [destruct Hst; auto|]. split; [done|].
    intros E s Hs. split; [|by eapply Hdead]. apply Hdone; [|by destruct Hs as (_ & _ & ? & _)].
    eapply only_io_no_faults; [|done]; frame. }
  destruct state as [s|]; cycle 1.
  { apply Hclean; [by left|]. intros E s Hs. by destruct (Hcalm E s Hs). }
  destruct (Z.eqb_spec r 0) as [->|Hr]; cbn [negb]; cycle 1.
  { apply Hclean; [by left|]. intros E s' Hs. by destruct (Hcalm E s' Hs). }
  destruct (Hpos eq_refl) as (s' & [= <-] & Hp). rewrite control_pid_is_running_spec by done.
  rewrite <- (polled_0 (pid s) p), hd_answer, polled_0.
  destruct (alive (answer p 0)) eqn:Ea.
  - change (1 =? 0) with false. cbv iota. wp_step. split; [done|]. split; [done|]. split; [by left|].
    split; [done|]. intros E s' Hs. destruct (Hcalm E s' Hs) as [_ [= ->]]. split; [done|].
    eapply only_io_no_faults; [|done]; frame.
  - change (0 =? 0) with true. cbv iota. apply Hclean; [right; by exists s|].
    intros E s' Hs. by destruct (Hcalm E s' Hs) as [_ [= ->]].
Qed.

(** *** Stopping *)

(** The calls so far: the test, the signal and [k] polls. *)
Definition signalled (k : nat) (pid : Z) (p : procs_t) : procs_t :=
  Procs (drop (2 + k) (p_answers p))
    (p_kills p ++ (pid_t_of pid, 0) :: (pid_t_of pid, SIGTERM) :: replicate k (pid_t_of pid, 0)).

Lemma sys_kill_polled pid p :
  sys_kill (pid_t_of pid) SIGTERM (polled 1 pid p) = (answer p 1, signalled 0 pid p).
Proof.
  unfold sys_kill. rewrite hd_answer. unfold polled, signalled. cbn [p_answers p_kills replicate].
  rewrite <- app_assoc. f_equal. f_equal. by destruct (p_answers p) as [|a [|b l]].
Qed.

Lemma polled_signalled i k pid p : polled k pid (signalled i pid p) = signalled (i + k) pid p.
Proof.
  unfold polled, signalled. cbn [p_answers p_kills]. rewrite drop_drop, replicate_add, <- app_assoc.
  f_equal.
Qed.

Lemma answer_signalled i k pid p : answer (signalled i pid p) k = answer p (2 + i + k).
Proof.
  pose proof (answer_polled (2 + i) k pid p) as H. unfold answer, polled, signalled in *.
  cbn [p_answers] in *. exact H.
Qed.

(** The process ends before the last of [n] polls and does not come back. *)
Definition ends_within (n : nat) (p : procs_t) : Prop :=
  exists i, (i < n)%nat /\ forall j, alive (answer p (2 + j)) = bool_decide (j < i)%nat.

(** After the signal: the polls, and the last test. *)
Lemma control_stop_waits n pid p :
  0 < pid -> exists k, (1 <= k <= S n)%nat /\
    control_pid_is_running pid (control_stop_poll n pid (signalled 0 pid p)) =
      ((if alive (answer p (S k)) then 1 else 0), signalled k pid p) /\
    (ends_within n p -> alive (answer p (S k)) = false).
Proof.
  intros Hp. destruct (control_stop_poll_spec n pid (signalled 0 pid p) Hp) as (k & Hk & -> & H).
  exists (S k). rewrite control_pid_is_running_spec, hd_answer, polled_plus, polled_signalled by done.
  rewrite answer_signalled. replace (k + 1)%nat with (S k) by lia.
  split; [lia|]. split; [done|]. intros (i & Hi & Hends).
  change (S (S k)) with (2 + k)%nat. rewrite Hends. apply bool_decide_eq_false_2.
  destruct H as [->|(j & -> & Hj)]; [lia|]. rewrite answer_signalled in Hj.
  change (2 + 0 + j)%nat with (2 + j)%nat in Hj. rewrite Hends in Hj.
  apply bool_decide_eq_false in Hj. lia.
Qed.

Lemma pid_t_of_range pid : - 2 ^ 31 <= pid_t_of pid < 2 ^ 31.
Proof. unfold pid_t_of. pose proof (Z.mod_pos_bound (pid + 2 ^ 31) (2 ^ 32)). lia. Qed.

(** What [control_stop] promises for a daemon that is recorded. *)
Definition stop_promise (p : procs_t) (q r : Z) (calls : list (Z * Z)) (w w' : world) : Prop :=
  w_faults w = [] -> forall s, recorded s w ->
    (r = 0 -> state_file_removed w w') /\ (forall call, call ∈ calls -> fst call = pid s) /\
    (alive (answer p 0) = true -> answer p 1 = 0 -> ends_within 100 p ->
       r = 0 /\ (pid s, SIGTERM) ∈ calls).

Definition stop_result (p : procs_t) (w : world) (x : Z * procs_t) (w' : world) : Prop :=
  let '(r, p') := x in
  quiet w w' /\ (state_file_kept w w' \/ r = 0 /\ state_file_removed w w') /\
  exists q calls, - 2 ^ 31 <= q < 2 ^ 31 /\ p_kills p' = p_kills p ++ calls /\
    stop_outcome q (answer p) r calls /\ stop_promise p q r calls w w'.

Lemma stop_cleanup w w1 :
  (forall m, f_fs (w_files w) !! state_path (e_tmpdir (w_env w)) <> Some (NDir m)) ->
  only_files w w1 -> f_fds (w_files w1) = f_fds (w_files w) -> state_file_kept w w1 ->
  wp daemon_state_cleanup_files (fun _ w' =>
    quiet w w' /\ (state_file_kept w w' \/ state_file_removed w w') /\
    (w_faults w = [] -> zlen (state_path (e_tmpdir (w_env w))) < PATH_CAP -> state_file_removed w w')) w1.
Proof.
  intros Hnd Hf Hfd Hfs. assert (Hee : w_env w1 = w_env w) by frame. unfold state_file_kept in Hfs.
  wp_use cleanup_files_spec; [by rewrite Hee, Hfs|]. intros _ w2 (Hf2 & Hfd2 & _ & Hst & Hdone).
  unfold state_file_kept, state_file_removed in *. rewrite Hee, Hfs in *.
  split; [apply quiet_refl_io; [by etrans|congruence]|]. split; [done|]. intros E. apply Hdone.
  eapply only_io_no_faults; [|done]; frame.
Qed.

(** No daemon was found running. *)
Lemma stop_without_daemon p p1 w w1 :
  quiet w w1 -> (state_file_kept w w1 \/ state_file_removed w w1) ->
  (p1 = p \/ exists s, p1 = polled 1 (pid s) p /\ alive (answer p 0) = false) ->
  (w_faults w = [] -> forall s, recorded s w ->
     state_file_removed w w1 /\ alive (answer p 0) = false /\ p1 = polled 1 (pid s) p) ->
  stop_result p w (0, p1) w1.
Proof.
  intros Hq Hst Hp1 Hcalm1. split; [done|]. split; [destruct Hst; auto|].
  destruct Hp1 as [->|(s & -> & Hdead)].
  - exists 0, []. split; [lia|]. split; [by rewrite app_nil_r|]. split; [constructor|].
    intros E s Hs. destruct (Hcalm1 E s Hs) as (Hrm & Hdead & _). split; [done|].
    split; [by intros call ?%elem_of_nil|]. by rewrite Hdead.
  - exists (pid_t_of (pid s)), [(pid_t_of (pid s), 0)]. split; [apply pid_t_of_range|].
    split; [done|]. split; [by constructor|]. intros E s' Hs.
    destruct (Hcalm1 E s' Hs) as (Hrm & _ & Hsame). split; [done|]. split; [|by rewrite Hdead].
    apply (f_equal p_kills) in Hsame. unfold polled in Hsame. cbn [p_kills replicate] in Hsame.
    apply app_inv_head in Hsame as [= ->]. intros call ->%list_elem_of_singleton.
    destruct Hs as (Hs & Hlt & _). cbn [fst]. apply pid_t_of_id. destruct Hs as [? _]. lia.
Qed.

(** The daemon of the state [s] was found running and sent [SIGTERM], and then
    polled [k] times. *)
Lemma stop_with_daemon p s k r calls w w' :
  0 < pid s -> (w_faults w = [] -> forall s', recorded s' w -> s = s') ->
  quiet w w' -> (state_file_kept w w' \/ r = 0 /\ state_file_removed w w') ->
  calls = (pid_t_of (pid s), 0) :: (pid_t_of (pid s), SIGTERM) :: replicate k (pid_t_of (pid s), 0) ->
  stop_outcome (pid_t_of (pid s)) (answer p) r calls ->
  (w_faults w = [] -> zlen (state_path (e_tmpdir (w_env w))) < PATH_CAP -> r = 0 ->
   state_file_removed w w') ->
  (answer p 1 = 0 -> ends_within 100 p -> r = 0) ->
  stop_result p w (r, signalled k (pid s) p) w'.
Proof.
  intros Hpos Hsame Hq Hst -> Hout Hrm Hend. split; [done|]. split; [done|].
  eexists (pid_t_of (pid s)), _. split; [apply pid_t_of_range|]. split; [done|]. split; [done|].
  intros E s' Hs. destruct (Hsame E s' Hs). pose proof Hs as (Hs' & Hlt & Hl & _).
  assert (Eq : pid_t_of (pid s) = pid s) by (apply pid_t_of_id; lia).
  split; [by apply Hrm|]. split.
  - intros call Hin. apply elem_of_cons in Hin as [->|Hin]; [done|].
    apply elem_of_cons in Hin as [->|Hin]; [done|]. by apply elem_of_replicate in Hin as [-> _].
  - intros _ H1 H2. split; [by apply Hend|]. rewrite Eq. right. by left.
Qed.

Lemma control_stop_spec p w :
  fds_ok (w_files w) ->
  (forall m, f_fs (w_files w) !! state_path (e_tmpdir (w_env w)) <> Some (NDir m)) ->
  wp (control_stop p) (stop_result p w) w.
Proof.
  intros Hok Hnd. unfold control_stop. wp_step. wp_use control_load_running_state_spec; [done|done|].
  intros [state p1] w1 (Hf1 & Hfd1 & Hst1 & Hp1 & Hcalm1). destruct state as [s|]; cycle 1.
  { wp_step. apply stop_without_daemon; [by apply quiet_refl_io|by destruct Hst1 as [?|[_ ?]]; auto|done|done]. }
  destruct Hp1 as (Hpos & -> & Ha0). rewrite sys_kill_polled.
  destruct Hst1 as [Hkept|[? _]]; [|done].
  assert (Hsame : w_faults w = [] -> forall s', recorded s' w -> s = s').
  { intros E s' Hs. by destruct (Hcalm1 E s' Hs). }
  assert (Hcalls : forall k r w', quiet w w' -> (state_file_kept w w' \/ r = 0 /\ state_file_removed w w') -> _)
    by (intros k r w' Hq Hst; exact (stop_with_daemon p s k r _ w w' Hpos Hsame Hq Hst eq_refl)).
  destruct (Z.eqb_spec (answer p 1) 0) as [E1|E1]; cbn [negb]; cycle 1.
  { destruct (Z.eqb_spec (answer p 1) ESRCH) as [E2|E2].
    - wp_step. unfold control_report_already_stopped. wp_step.
      wp_use (stop_cleanup w w1); [done|done|done|done|]. intros _ w2 (Hq & Hst & Hrm). do 2 wp_step.
      apply (Hcalls 0%nat); [done|destruct Hst; auto|by constructor|by auto|done].
    - wp_step. apply (Hcalls 0%nat); [by apply quiet_refl_io|by left|by constructor|done|done]. }
  destruct (control_stop_waits 100 (pid s) p Hpos) as (k & Hk & -> & Hends).
  pose proof (stop_waited (pid_t_of (pid s)) (answer p) k Ha0 E1 Hk) as Hout.
  destruct (alive (answer p (S k))) eqn:Ea.
  - change (negb (1 =? 0)) with true. cbv iota. wp_step.
    apply Hcalls; [by apply quiet_refl_io|by left|done|done|]. intros _ H. by specialize (Hends H).
  - change (negb (0 =? 0)) with false. cbv iota. wp_step.
    wp_use (stop_cleanup w w1); [done|done|done|done|]. intros _ w2 (Hq & Hst & Hrm). wp_step.
    apply Hcalls; [done|destruct Hst; auto|done|by auto|done].
Qed.

(** *** Examples *)

Definition demo_daemon_fs : gmap bytes node :=
  <[bs "/tmp/hf-daemon.state" := NFile (daemon_state_text demo_state) 5]> {[bs "/tmp" := NDir 0]}.

Definition demo_control : world := demo_world [] [] (demo_files demo_daemon_fs).

(** A process number beyond 32 bits is cut off: the state file names the process
    [2^32 - 1], and the signal goes to every process there is. *)
Lemma control_stop_signals_all :
  let s := DaemonState 4294967295 (bs "/srv") [] [] 80 0 in
  let fs := <[bs "/tmp/hf-daemon.state" := NFile (daemon_state_text s) 5]> demo_daemon_fs in
  (fun '(r, p, w) => (r, p_kills p)) <$>
    control_stop (Procs [0; 0] []) (demo_world [] [] (demo_files fs)) =
  Some (0, [(-1, 0); (-1, SIGTERM); (-1, 0); (-1, 0)]).
Proof. vm_compute. reflexivity. Qed.

(** ** Properties *)



(** "hf status" tells whether the daemon runs: whatever fails, [control_status]
    returns 0 only if the state could be read and its process answered, changes
    nothing but, on 1, the state file, which it may remove, and signals nothing;
    when no call fails and a daemon is recorded it returns 0 exactly if that
    process is there, and otherwise the stale state file is gone. *)
Theorem control_status_truthful p w
    (Hfds : fds_ok (w_files w))
    (Hfile : forall m, f_fs (w_files w) !! state_path (e_tmpdir (w_env w)) <> Some (NDir m)) :
  wp (control_status p) (fun '(r, p') w' =>
    quiet w w' /\ (state_file_kept w w' \/ r = 1 /\ state_file_removed w w') /\
    (r = 0 \/ r = 1) /\ (r = 0 -> alive (answer p 0) = true) /\
    (exists q k, (k <= 1)%nat /\ p_kills p' = p_kills p ++ replicate k (q, 0)) /\
    (w_faults w = [] -> forall s, recorded s w ->
       r = (if alive (answer p 0) then 0 else 1) /\ p_kills p' = p_kills p ++ [(pid s, 0)] /\
       (r = 1 -> state_file_removed w w'))) w.
Proof.
  unfold control_status. wp_step. wp_use control_load_running_state_spec; [done|done|].
  intros [state p1] w1 (Hf1 & Hfd1 & Hst1 & Hp1 & Hcalm1). wp_step.
  split; [by apply quiet_refl_io|].
  assert (Eq : forall s, recorded s w -> pid_t_of (pid s) = pid s).
  { intros s ((? & _) & ? & _). apply pid_t_of_id. lia. }
  destruct state as [s|].
  - destruct Hp1 as (Hpos & -> & Ha). split; [destruct Hst1 as [?|[? _]]; [by left|done]|].
    split; [auto|]. split; [done|]. split; [by exists (pid_t_of (pid s)), 1%nat|].
    intros E s' Hs. destruct (Hcalm1 E s' Hs) as [-> _]. rewrite Ha. split; [done|].
    split; [|done]. unfold polled. cbn [p_kills replicate]. by rewrite Eq.
  - split; [destruct Hst1 as [?|[_ ?]]; auto|]. split; [auto|]. split; [done|]. split.
    { destruct Hp1 as [->|(s & -> & _)]; [exists 0, 0%nat; split; [lia|by rewrite app_nil_r]|].
      by exists (pid_t_of (pid s)), 1%nat. }
    intros E s' Hs. destruct (Hcalm1 E s' Hs) as (Hrm & -> & ->). split; [done|]. split; [|done].
    unfold polled. cbn [p_kills replicate]. by rewrite Eq.
Qed.

Lemma control_status_truthful_witness :
  let p := Procs [ESRCH] [] in
  wp (control_status p) (fun '(r, p') w' =>
    quiet demo_control w' /\ (state_file_kept demo_control w' \/ r = 1 /\ state_file_removed demo_control w') /\
    (r = 0 \/ r = 1) /\ (r = 0 -> alive (answer p 0) = true) /\
    (exists q k, (k <= 1)%nat /\ p_kills p' = p_kills p ++ replicate k (q, 0)) /\
    (w_faults demo_control = [] -> forall s, recorded s demo_control ->
       r = (if alive (answer p 0) then 0 else 1) /\ p_kills p' = p_kills p ++ [(pid s, 0)] /\
       (r = 1 -> state_file_removed demo_control w'))) demo_control.
Proof.
  apply control_status_truthful; [apply demo_files_ok|]. intros m. vm_compute. discriminate.
Defined.
