(* ===== verification/Daemon.v ===== *)
(** * The daemon's state and address (src/server.c)

    Recording the daemon for the other commands, refusing to start twice, and the
    thread that keeps the recorded address up to date. [net_primary_ipv4] is the
    network's answer at each call, an argument (Address models it). The listener is
    in Listener, the start of the process and its end in Process. *)

From S2P Require Import Prelude CLib World Logic Signals Fs Net Protocol TransferIo MessageStore.
From S2P Require Import Cli AppService DaemonState Control.

(** ** Definitions *)

(** The result and what the caller's buffer holds. *)
Definition server_build_current_web_url (host : option bytes) (port web_url_out_cap : Z)
    : Z * bytes :=
  if (web_url_out_cap =? 0) || (port =? 0) then (1, [])
  else
    let '(r, web_url, _) := control_build_url host port web_url_out_cap in
    if negb (r =? 0) then (1, []) else (0, web_url).

(** [web_url_out_cap] is 0 for a [NULL] buffer. The result and the buffer. *)
Definition server_persist_daemon_state (host : option bytes) (ser_opt : server_opt_t)
    (log_path : option bytes) (daemon_mode web_url_out_cap : Z) : M (Z * bytes) :=
  match s_path ser_opt with
  | None | Some [] => ret (1, [])
  | Some path =>
      if (s_port ser_opt =? 0) || (s_pid ser_opt <=? 0) then ret (1, [])
      else
        let '(r, web_url) := server_build_current_web_url host (s_port ser_opt) WEB_URL_CAP in
        let web_url := if negb (r =? 0) then [] else web_url in
        let state :=
          DaemonState (s_pid ser_opt) (snd (snprintf PATH_CAP path)) web_url
            (snd (snprintf PATH_CAP (default [] log_path))) (s_port ser_opt)
            (if negb (daemon_mode =? 0) then 1 else 0) in
        let web_url_out :=
          if 0 <? web_url_out_cap then snd (snprintf web_url_out_cap web_url) else [] in
        let! r := daemon_state_write (Some state) in ret (r, web_url_out)
  end.

Definition server_pid_is_running_long (pid : Z) (p : procs_t) : Z * procs_t :=
  if pid <=? 0 then (0, p)
  else
    let '(err, p) := sys_kill (pid_t_of pid) 0 p in
    if err =? 0 then (1, p) else ((if err =? EPERM then 1 else 0), p).

Definition server_prepare_daemon_state (p : procs_t) : M (Z * procs_t) :=
  let! (r, state) := daemon_state_read in
  match state with
  | Some state =>
      if r =? 0 then
        let '(running, p) := server_pid_is_running_long (pid state) p in
        if negb (running =? 0) then ret (1, p)
        else let! _ := daemon_state_cleanup_files in ret (0, p)
      else ret (0, p)
  | None => ret (0, p)
  end.

(** *** The watcher *)

Definition SERVER_STATE_REFRESH_INTERVAL_SECONDS : Z := 60.

Record server_state_watcher_ctx_t := WatcherCtx {
  wc_receive_dir : bytes;
  wc_log_path : bytes;
  wc_pid : Z;
  wc_port : Z;
  wc_daemon_mode : Z;
  wc_last_web_url : bytes
}.

(** [usleep]: other threads run meanwhile. *)
Definition server_sleep_ms (timeout_ms : Z) : M unit :=
  let! w := get in
  match w_waits w with
  | [] => ret tt
  | e :: waits => modify (set_waits waits) ;;! run_others (acts_of e)
  end.

(** The loop; [fuel] bounds the number of turns. *)
Fixpoint server_wait_loop (fuel : nat) (remaining_ms : Z) : M Z :=
  match fuel with
  | O => out_of_fuel
  | S fuel =>
      if 0 <? remaining_ms then
        let chunk_ms := if 1000 <? remaining_ms then 1000 else remaining_ms in
        let! stop := shutdown_requested in
        if negb (stop =? 0) then ret 1
        else
          server_sleep_ms chunk_ms ;;!
          server_wait_loop fuel (u32 (remaining_ms - chunk_ms))
      else let! stop := shutdown_requested in ret (if negb (stop =? 0) then 1 else 0)
  end.

Definition server_wait_for_refresh_interval (seconds : Z) : M Z :=
  let remaining_ms := u32 (seconds * 1000) in
  server_wait_loop (S (Z.to_nat ((remaining_ms + 999) / 1000))) remaining_ms.

(** What [server_start_state_watcher] puts into the context; [None]: it refuses. *)
Definition server_watcher_ctx (ser_opt : server_opt_t) (log_path : option bytes)
    (daemon_mode : Z) (initial_web_url : bytes) : option server_state_watcher_ctx_t :=
  match s_path ser_opt with
  | None | Some [] => None
  | Some path =>
      if (s_port ser_opt =? 0) || (s_pid ser_opt <=? 0) then None
      else
        Some (WatcherCtx (snd (snprintf PATH_CAP path))
                (snd (snprintf PATH_CAP (default [] log_path))) (s_pid ser_opt) (s_port ser_opt)
                (if negb (daemon_mode =? 0) then 1 else 0)
                (snd (snprintf WEB_URL_CAP initial_web_url)))
  end.

(** [server_state_watcher_main] for a number of turns, with the network's answers;
    the result: has it ended, and the context and the answers left. *)
Fixpoint server_state_watcher_main (rounds : nat) (ctx : server_state_watcher_ctx_t)
    (hosts : list (option bytes))
    : M (bool * server_state_watcher_ctx_t * list (option bytes)) :=
  match rounds with
  | O => ret (false, ctx, hosts)
  | S rounds =>
      let! stop := shutdown_requested in
      if negb (stop =? 0) then ret (true, ctx, hosts)
      else
        let! r := server_wait_for_refresh_interval SERVER_STATE_REFRESH_INTERVAL_SECONDS in
        if negb (r =? 0) then ret (true, ctx, hosts)
        else
          let '(r, web_url) :=
            server_build_current_web_url (default None (head hosts)) (wc_port ctx) WEB_URL_CAP in
          let hosts := tl hosts in
          let web_url := if negb (r =? 0) then [] else web_url in
          if negb (streq web_url (wc_last_web_url ctx)) then
            let opt := ServerOpt (Some (wc_receive_dir ctx)) (wc_port ctx) (wc_pid ctx) in
            let log_path := match wc_log_path ctx with [] => None | l => Some l end in
            let! (r, _) :=
              server_persist_daemon_state (default None (head hosts)) opt log_path
                (wc_daemon_mode ctx) 0 in
            let hosts := tl hosts in
            if negb (r =? 0) then server_state_watcher_main rounds ctx hosts
            else
              server_state_watcher_main rounds
                (WatcherCtx (wc_receive_dir ctx) (wc_log_path ctx) (wc_pid ctx) (wc_port ctx)
                   (wc_daemon_mode ctx) (snd (snprintf WEB_URL_CAP web_url))) hosts
          else server_state_watcher_main rounds ctx hosts
  end.

(** *** Specifications *)

(** The page's address. *)
Definition page_url (host : option bytes) (port : Z) : bytes :=
  bs "http://" ++ default (bs "127.0.0.1") host ++ [58] ++ udec port ++ [47].

(** What is recorded of a daemon. *)
Definition daemon_record (opt : server_opt_t) (log_path : option bytes) (daemon_mode : Z)
    (web_url : bytes) : daemon_state_t :=
  DaemonState (s_pid opt) (default [] (s_path opt)) web_url (default [] log_path) (s_port opt)
    (if negb (daemon_mode =? 0) then 1 else 0).

(** Options a daemon runs with, and an address of the network. *)
Record daemon_opt_ok (opt : server_opt_t) (log_path : option bytes) : Prop := {
  do_path : default [] (s_path opt) <> [] /\ zlen (default [] (s_path opt)) < PATH_CAP /\
            Forall line_char (default [] (s_path opt));
  do_log : zlen (default [] log_path) < PATH_CAP /\ Forall line_char (default [] log_path);
  do_port : 0 < s_port opt <= 65535;
  do_pid : 0 < s_pid opt < 2 ^ 31
}.
Definition host_ok (host : option bytes) : Prop :=
  zlen (default [] host) <= 15 /\ Forall line_char (default [] host).

(** The directory of the state file can take it. *)
Definition state_ready (w : world) : Prop :=
  zlen (state_path (e_tmpdir (w_env w))) < PATH_CAP /\
  text_file_ready (state_path (e_tmpdir (w_env w))) w.

(** ** Theorems *)

Lemma page_url_ok host port :
  0 < port <= 65535 -> host_ok host ->
  zlen (page_url host port) < WEB_URL_CAP /\ Forall line_char (page_url host port).
Proof.
  intros Hp [Hl Hh]. assert (Hu : zlen (udec port) <= 5) by (apply udec_digits; lia).
  unfold page_url, WEB_URL_CAP. split.
  - rewrite !length_app. destruct host as [h|]; cbn [default length bs] in *; unfold id in *; lia.
  - rewrite !Forall_app. split; [by_decision|]. split; [destruct host; [done|by_decision]|].
    split; [by_decision|]. split; [apply udec_line; lia|by_decision].
Qed.

Lemma server_build_current_web_url_ok host port :
  0 < port <= 65535 -> host_ok host ->
  server_build_current_web_url host port WEB_URL_CAP = (0, page_url host port).
Proof.
  intros Hp [Hl Hh]. unfold server_build_current_web_url.
  change (WEB_URL_CAP =? 0) with false. destruct (Z.eqb_spec port 0); [lia|]. cbn [orb].
  rewrite control_build_url_fits; [done|done| |done]. by vm_compute.
Qed.

Lemma snprintf_whole cap text : zlen text < cap -> cap <= 2 ^ 20 -> snd (snprintf cap text) = text.
Proof. intros H1 H2. destruct (snprintf_ok cap text H1) as [-> _]; [unfold INT_MAX; lia|done]. Qed.

Lemma daemon_record_ok opt logp mode host :
  daemon_opt_ok opt logp -> host_ok host ->
  state_ok (daemon_record opt logp mode (page_url host (s_port opt))).
Proof.
  intros [(H1 & H2 & H3) [H4 H5] H6 H7] Hh. destruct (page_url_ok host (s_port opt) H6 Hh) as [H8 H9].
  unfold state_ok, daemon_record, LONG_MAX. cbn [pid port daemon_mode receive_dir web_url log_path].
  split_and!; try done; try lia. destruct (negb (mode =? 0)); auto.
Qed.

Lemma server_persist_spec host opt log_path daemon_mode cap w :
  daemon_opt_ok opt log_path -> host_ok host -> fds_ok (w_files w) ->
  let s := daemon_record opt log_path daemon_mode (page_url host (s_port opt)) in
  wp (server_persist_daemon_state host opt log_path daemon_mode cap) (fun '(r, _) w' =>
    only_files w w' /\ text_file_outcome (state_path (e_tmpdir (w_env w))) (daemon_state_text s) r w w' /\
    (w_faults w = [] -> state_ready w -> r = 0) /\
    (r = 0 -> zlen (state_path (e_tmpdir (w_env w))) < PATH_CAP -> recorded s w')) w.
Proof.
  intros Hopt Hh Hfds s. pose proof (daemon_record_ok opt log_path daemon_mode host Hopt Hh) as Hok.
  pose proof Hopt as [(H1 & H2 & H3) [H4 H5] H6 H7]. unfold server_persist_daemon_state.
  destruct (s_path opt) as [[|c path]|] eqn:Ep; [done| |done].
  cbn [default from_option] in H1, H2, H3. unfold id in H1, H2, H3.
  destruct (Z.eqb_spec (s_port opt) 0); [lia|]. destruct (Z.leb_spec (s_pid opt) 0); [lia|]. cbn [orb].
  rewrite server_build_current_web_url_ok by done. change (negb (0 =? 0)) with false. cbv zeta iota.
  rewrite !snprintf_whole by done.
  assert (Es : DaemonState (s_pid opt) (c :: path) (page_url host (s_port opt)) (default [] log_path)
    (s_port opt) (if negb (daemon_mode =? 0) then 1 else 0) = s).
  { unfold s, daemon_record. by rewrite Ep. }
  rewrite Es. wp_step. wp_use daemon_state_write_spec; [done|].
  intros r w1 (Hf & (text & Htext & Hout) & Hlive). rewrite (Htext Hok) in Hout. wp_step.
  split; [done|]. split; [done|]. split; [intros E [Hl Hr]; by apply Hlive|].
  intros -> Hl. assert (He : w_env w1 = w_env w) by frame. split; [done|]. split; [cbn; lia|].
  rewrite He. split; [done|]. destruct Hout as (_ & _ & [[_ [m Hm]]|[? _]]); [|done].
  exists m. by rewrite Hm, lookup_insert_eq.
Qed.

(** *** Refusing to start twice *)

Lemma server_pid_is_running_same pid p : server_pid_is_running_long pid p = control_pid_is_running pid p.
Proof. reflexivity. Qed.

(** What [server_prepare_daemon_state] promises. *)
Definition prepare_result (p : procs_t) (w : world) (x : Z * procs_t) (w' : world) : Prop :=
  let '(r, p') := x in
  quiet w w' /\ fds_ok (w_files w') /\
  (state_file_kept w w' \/ r = 0 /\ state_file_removed w w') /\ (r = 0 \/ r = 1) /\
  (exists q k, (k <= 1)%nat /\ p_kills p' = p_kills p ++ replicate k (q, 0)) /\
  (r = 1 -> alive (answer p 0) = true) /\
  (w_faults w = [] -> forall s, recorded s w ->
     r = (if alive (answer p 0) then 1 else 0) /\ p_kills p' = p_kills p ++ [(pid s, 0)] /\
     (r = 0 -> state_file_removed w w')) /\
  f_next (w_files w) <= f_next (w_files w').

Lemma server_prepare_spec p w :
  fds_ok (w_files w) ->
  (forall m, f_fs (w_files w) !! state_path (e_tmpdir (w_env w)) <> Some (NDir m)) ->
  wp (server_prepare_daemon_state p) (prepare_result p w) w.
Proof.
  intros Hok Hnd. unfold server_prepare_daemon_state. wp_step.
  wp_use daemon_state_read_both; [done|].
  intros [r state] w1 ((Hf1 & Hrel & Hpos) & Hcalm). pose proof Hrel as (Hfs & Hfd & Hn).
  assert (Hok1 : fds_ok (w_files w1)) by (by eapply released_ok).
  assert (Hnone : (w_faults w = [] -> forall s, recorded s w -> False) -> prepare_result p w (0, p) w1).
  { intros H. split; [by apply quiet_refl_io|]. split; [done|]. split; [by left|]. split; [auto|].
    split; [exists 0, 0%nat; split; [lia|by rewrite app_nil_r]|]. split; [done|].
    split; [|done]. intros E s Hs. by destruct (H E s Hs). }
  destruct state as [s|]; cycle 1.
  { wp_step. apply Hnone. intros E s Hs. by destruct (Hcalm E s Hs). }
  destruct (Z.eqb_spec r 0) as [->|Hr]; cycle 1.
  { wp_step. apply Hnone. intros E s' Hs. by destruct (Hcalm E s' Hs). }
  destruct (Hpos eq_refl) as (s' & [= <-] & Hp).
  rewrite server_pid_is_running_same, control_pid_is_running_spec by done.
  rewrite <- (polled_0 (pid s) p), hd_answer, polled_0.
  assert (Ekills : exists q k, (k <= 1)%nat /\ p_kills (polled 1 (pid s) p) = p_kills p ++ replicate k (q, 0)).
  { by exists (pid_t_of (pid s)), 1%nat. }
  assert (Erec : w_faults w = [] -> forall s', recorded s' w -> p_kills (polled 1 (pid s) p) = p_kills p ++ [(pid s', 0)]).
  { intros E s' Hs. destruct (Hcalm E s' Hs) as [_ [= <-]]. unfold polled. cbn [p_kills replicate].
    destruct Hs as ((? & _) & ? & _). by rewrite pid_t_of_id by lia. }
  destruct (alive (answer p 0)) eqn:Ea.
  - change (negb (1 =? 0)) with true. cbv iota. wp_step. unfold prepare_result. rewrite Ea.
    split; [by apply quiet_refl_io|]. split; [done|]. split; [by left|]. split; [auto|].
    split; [done|]. split; [done|]. split; [|done].
    intros E s' Hs. split; [done|]. split; [by apply Erec|done].
  - change (negb (0 =? 0)) with false. cbv iota. wp_step.
    assert (Hee : w_env w1 = w_env w) by frame.
    wp_use cleanup_files_spec; [by rewrite Hee, Hfs|].
    intros _ w2 (Hf2 & Hfd2 & Hn2 & Hst & Hdone). wp_step. unfold prepare_result. rewrite Ea.
    unfold state_file_kept, state_file_removed in *. rewrite Hee, Hfs in *.
    split; [apply quiet_refl_io; [by etrans|congruence]|].
    split; [eapply fds_ok_same; [exact Hok1|done|lia]|].
    split; [destruct Hst; auto|]. split; [auto|]. split; [done|]. split; [done|].
    split; [|lia]. intros E s' Hs. split; [done|]. split; [by apply Erec|]. intros _. apply Hdone.
    + eapply only_io_no_faults; [|done]; frame.
    + by destruct Hs as (_ & _ & ? & _).
Qed.

(** *** Waiting *)

(** What happened while the thread slept. *)
Definition slept (used : list wait_event) (w w' : world) : Prop :=
  w_waits w = used ++ w_waits w' /\ only_prog w w' /\ w_faults w' = w_faults w /\
  p_store (w_prog w') = run_acts (others used) (p_store (w_prog w)) /\
  p_shutdown (w_prog w') = run_requests (others used) (p_shutdown (w_prog w)).

Lemma slept_nil w : slept [] w w.
Proof. by repeat split. Qed.

Lemma slept_trans u1 u2 w1 w2 w3 : slept u1 w1 w2 -> slept u2 w2 w3 -> slept (u1 ++ u2) w1 w3.
Proof.
  intros (H1 & H2 & H3 & H4 & H5) (K1 & K2 & K3 & K4 & K5). unfold slept.
  rewrite map_app, concat_app. split; [by rewrite H1, K1, app_assoc|]. split; [by etrans|].
  split; [congruence|]. split.
  - by rewrite K4, H4, run_acts_app.
  - rewrite K5, H5. by unfold run_requests; rewrite fold_left_app.
Qed.

Lemma server_sleep_spec ms w :
  wp (server_sleep_ms ms) (fun _ w' => exists used, (length used <= 1)%nat /\ slept used w w') w.
Proof.
  unfold server_sleep_ms. do 2 wp_step. destruct (w_waits w) as [|e waits] eqn:E.
  - wp_step. exists []. split; [simpl; lia|apply slept_nil].
  - wp_step. exists [e]. split; [simpl; lia|]. unfold slept. cbn [map concat].
    rewrite app_nil_r. by repeat split.
Qed.

Lemma server_wait_loop_spec fuel ms w :
  0 <= ms <= 1000 * Z.of_nat fuel -> ms < 2 ^ 32 ->
  wp (server_wait_loop (S fuel) ms) (fun r w' => exists used,
    (length used <= fuel)%nat /\ slept used w w' /\
    r = (if negb (g_requested (p_shutdown (w_prog w')) =? 0) then 1 else 0)) w.
Proof.
  revert ms w. induction fuel as [|fuel IH]; intros ms w Hms Hu; [set (loop := server_wait_loop 0)|
    set (loop := server_wait_loop (S fuel)) in IH];
    match goal with |- wp _ ?Q w => change (wp (if 0 <? ms then
        let chunk_ms := if 1000 <? ms then 1000 else ms in
        let! stop := shutdown_requested in
        if negb (stop =? 0) then ret 1
        else server_sleep_ms chunk_ms ;;! loop (u32 (ms - chunk_ms))
      else let! stop := shutdown_requested in ret (if negb (stop =? 0) then 1 else 0)) Q w) end;
    cbv zeta; set (stop := if negb (g_requested (p_shutdown (w_prog w)) =? 0) then 1 else 0);
    (destruct (Z.ltb_spec 0 ms); [|wp_step; apply shutdown_requested_spec; fold stop; wp_step; exists [];
      split; [simpl; lia|]; split; [apply slept_nil|]; subst stop; by repeat case_match]); [lia|].
  wp_step. apply shutdown_requested_spec. fold stop. destruct (negb (stop =? 0)) eqn:Es.
  { wp_step. exists []. split; [simpl; lia|]. split; [apply slept_nil|]. subst stop.
    by destruct (negb (g_requested (p_shutdown (w_prog w)) =? 0)). }
  set (chunk := if 1000 <? ms then 1000 else ms).
  assert (Hc : 0 < chunk <= ms /\ ms - chunk <= 1000 * Z.of_nat fuel).
  { subst chunk. destruct (Z.ltb_spec 1000 ms); lia. }
  wp_step. wp_use server_sleep_spec. intros _ w1 (u1 & Hu1 & Hs1).
  unfold u32. rewrite Z.mod_small by lia.
  eapply wp_mono; [apply IH; lia|]. intros r w2 (u2 & Hu2 & Hs2 & ->).
  exists (u1 ++ u2). rewrite length_app. split; [lia|]. split; [by eapply slept_trans|done].
Qed.

Lemma server_wait_for_refresh_spec seconds w :
  0 <= seconds < 2 ^ 22 ->
  wp (server_wait_for_refresh_interval seconds) (fun r w' => exists used,
    (length used <= Z.to_nat seconds)%nat /\ slept used w w' /\
    r = (if negb (g_requested (p_shutdown (w_prog w')) =? 0) then 1 else 0)) w.
Proof.
  intros Hs. unfold server_wait_for_refresh_interval.
  assert (E : u32 (seconds * 1000) = seconds * 1000) by (unfold u32; rewrite Z.mod_small; lia).
  assert (Ed : (seconds * 1000 + 999) / 1000 = seconds).
  { symmetry. apply (Z.div_unique _ _ _ 999); lia. }
  rewrite E, Ed. cbv zeta.
  eapply wp_mono; [apply server_wait_loop_spec; lia|]. done.
Qed.

(** *** The watcher *)

Definition ctx_opt (ctx : server_state_watcher_ctx_t) : server_opt_t :=
  ServerOpt (Some (wc_receive_dir ctx)) (wc_port ctx) (wc_pid ctx).
Definition ctx_log (ctx : server_state_watcher_ctx_t) : option bytes :=
  match wc_log_path ctx with [] => None | l => Some l end.

(** What the watcher records for an address. *)
Definition ctx_record (ctx : server_state_watcher_ctx_t) (url : bytes) : daemon_state_t :=
  daemon_record (ctx_opt ctx) (ctx_log ctx) (wc_daemon_mode ctx) url.

Lemma recorded_same s w w' :
  w_env w' = w_env w -> w_files w' = w_files w -> recorded s w -> recorded s w'.
Proof. unfold recorded. by intros -> ->. Qed.

Lemma state_ready_same w w' :
  w_env w' = w_env w -> w_files w' = w_files w -> state_ready w -> state_ready w'.
Proof. unfold state_ready, text_file_ready. by intros -> ->. Qed.

(** A turn of the watcher up to the comparison of the addresses. *)
Lemma watcher_turn rounds ctx h hosts Q w :
  0 < wc_port ctx <= 65535 -> host_ok h ->
  (forall w', only_prog w w' -> w_faults w' = w_faults w ->
     g_requested (p_shutdown (w_prog w')) <> 0 -> Q (true, ctx, h :: hosts) w') ->
  (forall w', only_prog w w' -> w_faults w' = w_faults w ->
     wp (let web_url := page_url h (wc_port ctx) in
         if negb (streq web_url (wc_last_web_url ctx)) then
           let! (r, _) :=
             server_persist_daemon_state (default None (head hosts)) (ctx_opt ctx) (ctx_log ctx)
               (wc_daemon_mode ctx) 0 in
           let hosts := tl hosts in
           if negb (r =? 0) then server_state_watcher_main rounds ctx hosts
           else
             server_state_watcher_main rounds
               (WatcherCtx (wc_receive_dir ctx) (wc_log_path ctx) (wc_pid ctx) (wc_port ctx)
                  (wc_daemon_mode ctx) (snd (snprintf WEB_URL_CAP web_url))) hosts
         else server_state_watcher_main rounds ctx hosts) Q w') ->
  wp (server_state_watcher_main (S rounds) ctx (h :: hosts)) Q w.
Proof.
  intros Hp Hh Hstop Hgo. cbn [server_state_watcher_main]. wp_step. apply shutdown_requested_spec.
  destruct (Z.eqb_spec (g_requested (p_shutdown (w_prog w))) 0) as [E0|E0]; cbn [negb].
  - change (negb (0 =? 0)) with false. cbv iota. wp_step.
    wp_use server_wait_for_refresh_spec; [by vm_compute|].
    intros r w1 (used & _ & (_ & Hf & Ef & _) & ->).
    destruct (Z.eqb_spec (g_requested (p_shutdown (w_prog w1))) 0) as [E1|E1]; cbn [negb].
    + change (negb (0 =? 0)) with false. cbv iota. cbn [head default tl].
      unfold id. rewrite server_build_current_web_url_ok by done.
      change (negb (0 =? 0)) with false. cbv zeta iota. by apply Hgo.
    + change (negb (1 =? 0)) with true. cbv iota. wp_step. by apply Hstop.
  - change (negb (1 =? 0)) with true. cbv iota. wp_step. by apply Hstop.
Qed.

(** While the network's address is the recorded one nothing is written. *)
Lemma watcher_steady rounds n ctx h w :
  0 < wc_port ctx <= 65535 -> host_ok h -> wc_last_web_url ctx = page_url h (wc_port ctx) ->
  (rounds <= n)%nat ->
  wp (server_state_watcher_main rounds ctx (replicate n h)) (fun '(ended, ctx', _) w' =>
    only_prog w w' /\ ctx' = ctx /\
    (ended = true -> g_requested (p_shutdown (w_prog w')) <> 0)) w.
Proof.
  intros Hp Hh Hlast. revert n w. induction rounds as [|rounds IH]; intros n w Hn.
  { cbn [server_state_watcher_main]. wp_step. split; [done|]. by split. }
  destruct n as [|n]; [lia|]. cbn [replicate]. apply watcher_turn; [done|done| |].
  - intros w' Hf _ Hr. by split.
  - intros w' Hf _. cbv zeta. unfold streq. rewrite bool_decide_eq_true_2 by done. cbn [negb].
    eapply wp_mono; [apply IH; lia|]. intros [[ended ctx'] hosts] w2 (Hf2 & H1 & H2).
    split; [by etrans|done].
Qed.

Lemma watcher_follows rounds n ctx h w :
  daemon_opt_ok (ctx_opt ctx) (ctx_log ctx) -> host_ok h -> fds_ok (w_files w) -> state_ready w ->
  w_faults w = [] -> recorded (ctx_record ctx (wc_last_web_url ctx)) w -> (S rounds < n)%nat ->
  wp (server_state_watcher_main (S rounds) ctx (replicate n h)) (fun '(ended, ctx', _) w' =>
    (exists url, recorded (ctx_record ctx url) w') /\
    (ended = true -> g_requested (p_shutdown (w_prog w')) <> 0) /\
    (ended = false -> wc_last_web_url ctx' = page_url h (wc_port ctx) /\
       recorded (ctx_record ctx (page_url h (wc_port ctx))) w')) w.
Proof.
  intros Hopt Hh Hfds Hready Hcalm Hrec Hn. pose proof (do_port _ _ Hopt) as Hp. cbn [ctx_opt s_port] in Hp.
  destruct n as [|[|n]]; [lia|lia|]. cbn [replicate]. apply watcher_turn; [done|done| |].
  { intros w' (He & _ & Hw & _) _ Hr. split; [eexists; by eapply recorded_same|done]. }
  intros w1 (He & _ & Hw & _) Hc. cbv zeta. cbn [head default tl]. unfold id.
  assert (Hrec1 : recorded (ctx_record ctx (wc_last_web_url ctx)) w1) by (by eapply recorded_same).
  unfold streq. case_bool_decide as Eu; cbn [negb].
  - change (h :: replicate n h) with (replicate (S n) h).
    eapply wp_mono; [apply watcher_steady; [done|done|by symmetry|lia]|].
    intros [[ended ctx'] hosts] w2 ((He2 & _ & Hw2 & _) & -> & H2). rewrite <- Eu in Hrec1.
    assert (Hrec2 : recorded (ctx_record ctx (page_url h (wc_port ctx))) w2) by (by eapply recorded_same).
    split; [by eexists|]. split; [done|]. intros _. split; [by symmetry|done].
  - wp_step. wp_use server_persist_spec; [done|done|by rewrite Hw|].
    intros [r x] w2 (Hf2 & _ & Hr & Hrec2). cbn [ctx_opt s_port] in Hrec2.
    rewrite Hr in * by (rewrite ?Hc; done || by eapply state_ready_same).
    change (negb (0 =? 0)) with false. cbv iota.
    destruct (page_url_ok h (wc_port ctx) Hp Hh) as [Hl _].
    rewrite snprintf_whole by done.
    eapply wp_mono; [apply watcher_steady; [done|done|done|lia]|].
    intros [[ended ctx'] hosts] w3 ((He3 & _ & Hw3 & _) & -> & H3).
    assert (Hrec3 : recorded (ctx_record ctx (page_url h (wc_port ctx))) w3).
    { eapply recorded_same; [exact He3|exact Hw3|]. apply Hrec2; [done|]. rewrite He. apply Hready. }
    split; [by eexists|]. split; [done|]. by intros _.
Qed.

(** *** Examples *)

Definition demo_ctx : server_state_watcher_ctx_t :=
  WatcherCtx (bs "/srv") (bs "/tmp/hf-daemon.log") 4711 9000 1 (page_url None 9000).

Definition demo_host (d : Z) : option bytes := Some (bs "10.0.0." ++ [d]).

(** The watcher asks the network twice. When the address changes in between, and
    changes back, the file keeps the one in between. *)
Lemma watcher_keeps_old_address :
  let record url := NFile (daemon_state_text (ctx_record demo_ctx url)) 5 in
  let fs := <[bs "/tmp/hf-daemon.state" := record (page_url None 9000)]> {[bs "/tmp" := NDir 0]} in
  (fun '(_, ctx, _, w) =>
     (wc_last_web_url ctx,
      match f_fs (w_files w) !! bs "/tmp/hf-daemon.state" with
      | Some (NFile text _) => web_url (snd (daemon_state_parse text))
      | _ => []
      end)) <$>
    server_state_watcher_main 5 demo_ctx
      [demo_host 49; demo_host 50; demo_host 49; demo_host 49; demo_host 49; demo_host 49]
      (demo_world [] [] (demo_files fs)) =
  Some (page_url (demo_host 49) 9000, page_url (demo_host 50) 9000).
Proof. vm_compute. reflexivity. Qed.

(** ** Properties *)

(** A daemon that recorded itself is found: after [server_persist_daemon_state]
    -- which succeeds when nothing fails and the directory can take the file, and
    whatever fails writes the whole file or leaves the old one -- returned 0,
    "hf status", when nothing fails, returns 0 exactly if the recorded process is
    there. *)
Theorem persisted_daemon_is_found host opt logp mode cap p w
    (Hopt : daemon_opt_ok opt logp) (Hhost : host_ok host) (Hfds : fds_ok (w_files w))
    (Hpath : zlen (state_path (e_tmpdir (w_env w))) < PATH_CAP) :
  wp (server_persist_daemon_state host opt logp mode cap) (fun '(r, _) w1 =>
    text_file_outcome (state_path (e_tmpdir (w_env w)))
      (daemon_state_text (daemon_record opt logp mode (page_url host (s_port opt)))) r w w1 /\
    (w_faults w = [] -> state_ready w -> r = 0) /\
    (r = 0 -> w_faults w1 = [] ->
     wp (control_status p) (fun '(rs, p') w2 =>
       rs = (if alive (answer p 0) then 0 else 1) /\ p_kills p' = p_kills p ++ [(s_pid opt, 0)]) w1)) w.
Proof.
  wp_use server_persist_spec; [done|done|done|]. intros [r x] w1 (Hf & Hout & Hlive & Hrec).
  split; [done|]. split; [done|]. intros Hr Hcalm. specialize (Hrec Hr Hpath).
  assert (Hok1 : fds_ok (w_files w1)) by (destruct Hout as (H1 & H2 & _); by eapply fds_ok_same).
  unfold control_status. wp_step. wp_use control_load_running_state_spec; [done| |].
  { intros m Hm. destruct Hrec as (_ & _ & _ & m' & Hm'). congruence. }
  intros [state p1] w2 (_ & _ & _ & Hp1 & Hc). specialize (Hc Hcalm _ Hrec). wp_step.
  assert (Epid : pid_t_of (s_pid opt) = s_pid opt) by (apply pid_t_of_id; destruct (do_pid _ _ Hopt); lia).
  destruct state as [s|].
  - destruct Hc as [-> _]. destruct Hp1 as (_ & -> & ->). split; [done|].
    unfold polled. cbn [p_kills replicate daemon_record pid]. by rewrite Epid.
  - destruct Hc as (_ & -> & ->). split; [done|].
    unfold polled. cbn [p_kills replicate daemon_record pid]. by rewrite Epid.
Qed.

Definition demo_daemon_opt : server_opt_t := ServerOpt (Some (bs "/srv")) 9000 4711.

Lemma demo_daemon_opt_ok : daemon_opt_ok demo_daemon_opt (Some (bs "/tmp/hf-daemon.log")).
Proof.
  split; [split; [done|split; [by vm_compute|by_decision]]|split; [by vm_compute|by_decision]| |];
    cbn [s_port s_pid demo_daemon_opt]; lia.
Qed.

Lemma demo_host_ok d : 48 <= d <= 57 -> host_ok (demo_host d).
Proof.
  intros Hd. split; [by vm_compute|]. unfold demo_host. cbn [default]. unfold id.
  apply Forall_app. split; [by_decision|]. repeat constructor; unfold is_char; lia.
Qed.

Definition demo_state_world (faults : list fault) : world :=
  demo_world faults [] (demo_files {[bs "/tmp" := NDir 0]}).

Lemma persisted_daemon_is_found_witness :
  let w := demo_state_world [FErr EEXIST; FNone; FShort 9] in
  let logp := Some (bs "/tmp/hf-daemon.log") in
  let p := Procs [EPERM] [] in
  wp (server_persist_daemon_state (demo_host 55) demo_daemon_opt logp 1 256) (fun '(r, _) w1 =>
    text_file_outcome (state_path (e_tmpdir (w_env w)))
      (daemon_state_text (daemon_record demo_daemon_opt logp 1 (page_url (demo_host 55) 9000))) r w w1 /\
    (w_faults w = [] -> state_ready w -> r = 0) /\
    (r = 0 -> w_faults w1 = [] ->
     wp (control_status p) (fun '(rs, p') w2 =>
       rs = (if alive (answer p 0) then 0 else 1) /\ p_kills p' = p_kills p ++ [(4711, 0)]) w1)) w.
Proof.
  apply (persisted_daemon_is_found (demo_host 55) demo_daemon_opt);
    [apply demo_daemon_opt_ok|apply demo_host_ok; lia|apply demo_files_ok|by vm_compute].
Defined.

(** No second daemon: [server_prepare_daemon_state] returns 1 only if a process
    answered for a state that could be read, and then changes nothing; otherwise
    it returns 0, and at most removes the state file; when no call fails and a
    daemon is recorded it returns 1 exactly if that process is there, and
    otherwise the stale state file is gone. Nothing is signalled. *)
Theorem no_second_daemon p w
    (Hfds : fds_ok (w_files w))
    (Hfile : forall m, f_fs (w_files w) !! state_path (e_tmpdir (w_env w)) <> Some (NDir m)) :
  wp (server_prepare_daemon_state p) (fun '(r, p') w' =>
    quiet w w' /\ fds_ok (w_files w') /\
    (state_file_kept w w' \/ r = 0 /\ state_file_removed w w') /\ (r = 0 \/ r = 1) /\
    (exists q k, (k <= 1)%nat /\ p_kills p' = p_kills p ++ replicate k (q, 0)) /\
    (r = 1 -> alive (answer p 0) = true) /\
    (w_faults w = [] -> forall s, recorded s w ->
       r = (if alive (answer p 0) then 1 else 0) /\ p_kills p' = p_kills p ++ [(pid s, 0)] /\
       (r = 0 -> state_file_removed w w'))) w.
Proof.
  wp_use server_prepare_spec; [done|done|]. intros [r p'] w' (H1 & H2 & H3 & H4 & H5 & H6 & H7 & _).
  by split_and!.
Qed.

Lemma no_second_daemon_witness :
  let p := Procs [0] [] in
  wp (server_prepare_daemon_state p) (fun '(r, p') w' =>
    quiet demo_control w' /\ fds_ok (w_files w') /\
    (state_file_kept demo_control w' \/ r = 0 /\ state_file_removed demo_control w') /\ (r = 0 \/ r = 1) /\
    (exists q k, (k <= 1)%nat /\ p_kills p' = p_kills p ++ replicate k (q, 0)) /\
    (r = 1 -> alive (answer p 0) = true) /\
    (w_faults demo_control = [] -> forall s, recorded s demo_control ->
       r = (if alive (answer p 0) then 1 else 0) /\ p_kills p' = p_kills p ++ [(pid s, 0)] /\
       (r = 0 -> state_file_removed demo_control w'))) demo_control.
Proof. apply no_second_daemon; [apply demo_files_ok|]. intros m. vm_compute. discriminate. Defined.

(** C37: the recorded address follows the network: when nothing fails, the directory
    can take the file and the network reports one address from now on, a daemon
    that is recorded stays recorded throughout, and after one or more turns the
    watcher has ended, after a request to shut down, or the state file holds that
    address and the watcher knows it does. *)
Theorem watcher_follows_network rounds n ctx h w
    (Hopt : daemon_opt_ok (ctx_opt ctx) (ctx_log ctx)) (Hhost : host_ok h) (Hfds : fds_ok (w_files w))
    (Hready : state_ready w) (Hcalls : w_faults w = [])
    (Hrecorded : recorded (ctx_record ctx (wc_last_web_url ctx)) w) (Hn : (S rounds < n)%nat) :
  wp (server_state_watcher_main (S rounds) ctx (replicate n h)) (fun '(ended, ctx', _) w' =>
    (exists url, recorded (ctx_record ctx url) w') /\
    (ended = true -> g_requested (p_shutdown (w_prog w')) <> 0) /\
    (ended = false -> wc_last_web_url ctx' = page_url h (wc_port ctx) /\
       recorded (ctx_record ctx (page_url h (wc_port ctx))) w')) w.
Proof. by apply watcher_follows. Qed.

Definition demo_watched : world :=
  demo_world [] [] (demo_files
    (<[bs "/tmp/hf-daemon.state" := NFile (daemon_state_text (ctx_record demo_ctx (page_url None 9000))) 5]>
      {[bs "/tmp" := NDir 0]})).

Lemma watcher_follows_network_witness :
  let w := demo_watched in let h := demo_host 55 in
  wp (server_state_watcher_main 3 demo_ctx (replicate 4 h)) (fun '(ended, ctx', _) w' =>
    (exists url, recorded (ctx_record demo_ctx url) w') /\
    (ended = true -> g_requested (p_shutdown (w_prog w')) <> 0) /\
    (ended = false -> wc_last_web_url ctx' = page_url h 9000 /\
       recorded (ctx_record demo_ctx (page_url h 9000)) w')) w.
Proof.
  apply (watcher_follows_network 2 4 demo_ctx (demo_host 55));
    [apply demo_daemon_opt_ok|apply demo_host_ok; lia|apply demo_files_ok| |reflexivity| |lia].
  - split; [by vm_compute|]. split; [by vm_compute|]. split; [by vm_compute|].
    split; [intros m; by vm_compute|]. exists 0. split; [lia|by vm_compute].
  - split; [|split; [by vm_compute|split; [by vm_compute|exists 5; by vm_compute]]].
    apply (daemon_record_ok demo_daemon_opt (Some (bs "/tmp/hf-daemon.log")) 1 None demo_daemon_opt_ok).
    split; [by vm_compute|constructor].
Defined.

(** The watcher notices a shutdown in time: whatever other threads do, waiting
    for the refresh interval ends after at most one sleep per second; the result
    is 1 exactly if a shutdown was requested by then; nothing but what the other
    threads did has changed. *)
Theorem refresh_interval_exact seconds w (Hseconds : 0 <= seconds < 2 ^ 22) :
  wp (server_wait_for_refresh_interval seconds) (fun r w' => exists used,
    (length used <= Z.to_nat seconds)%nat /\ w_waits w = used ++ w_waits w' /\
    w_files w' = w_files w /\ p_store (w_prog w') = run_acts (others used) (p_store (w_prog w)) /\
    (r = 1 <-> g_requested (p_shutdown (w_prog w')) <> 0) /\ (r = 0 \/ r = 1)) w.
Proof.
  wp_use server_wait_for_refresh_spec; [done|]. intros r w' (used & Hl & (H1 & (_ & _ & H2 & _) & _ & H3 & _) & ->).
  exists used. split; [done|]. split; [done|]. split; [done|]. split; [done|].
  destruct (Z.eqb_spec (g_requested (p_shutdown (w_prog w'))) 0); cbn [negb]; split; (done || auto).
Qed.

Lemma refresh_interval_exact_witness :
  let w := set_waits [WTimeout [ActSet [97]]; WTimeout [ActRequest 15]] demo_watched in
  wp (server_wait_for_refresh_interval 60) (fun r w' => exists used,
    (length used <= Z.to_nat 60)%nat /\ w_waits w = used ++ w_waits w' /\
    w_files w' = w_files w /\ p_store (w_prog w') = run_acts (others used) (p_store (w_prog w)) /\
    (r = 1 <-> g_requested (p_shutdown (w_prog w')) <> 0) /\ (r = 0 \/ r = 1)) w.
Proof. apply (refresh_interval_exact 60). lia. Defined.
