(* ===== verification/Address.v ===== *)
(** * The machine's address on the local network (src/net.c, src/control.c)

    [net_primary_ipv4] asks the kernel which address it would use towards a public
    host, without sending anything, and [control_build_url] puts it into the
    page's URL. [Control] and [Daemon] take the answer as an argument; here it is
    computed. The argument [local] is the address the kernel gives the socket. *)

From S2P Require Import Prelude CLib World Logic Net Client DaemonState.
From S2P Require Import Control Daemon.

(** ** Definitions *)

(** [inet_ntop(AF_INET, &addr, out, cap)]: the four bytes of the address, the most
    significant first, in decimal; [None] when the text and its NUL do not fit. *)
Definition inet_ntop_text (addr : Z) : bytes :=
  udec (addr / 2 ^ 24) ++ [46] ++ udec (addr / 2 ^ 16 mod 256) ++ [46] ++
  udec (addr / 2 ^ 8 mod 256) ++ [46] ++ udec (addr mod 256).
Definition inet_ntop (addr cap : Z) : option bytes :=
  if cap <=? zlen (inet_ntop_text addr) then None else Some (inet_ntop_text addr).

(** The result and the text in [out]. *)
Definition net_primary_ipv4 (local out_cap : Z) : M (Z * bytes) :=
  if out_cap =? 0 then ret (1, [])
  else
    let! sock := sys_socket in
    if is_socket_invalid sock then ret (1, [])
    else if negb (inet_pton (bs "8.8.8.8")) then
      let! _ := socket_close sock in ret (1, [])
    else
      let! r := sys_sockcall in
      if negb (r =? 0) then let! _ := socket_close sock in ret (1, [])
      else
        let! r := sys_sockcall in
        if negb (r =? 0) then let! _ := socket_close sock in ret (1, [])
        else
          match inet_ntop local out_cap with
          | None => let! _ := socket_close sock in ret (1, [])
          | Some out =>
              let! _ := socket_close sock in
              if streq out (bs "0.0.0.0") || streq out (bs "127.0.0.1") then ret (1, out)
              else ret (0, out)
          end.

Definition DISCOVERED_IP_CAP : Z := 64.

(** [control_build_url], with the call that finds the address. *)
Definition control_build_url_here (local port url_out_cap : Z) : M (Z * bytes * Z) :=
  if (url_out_cap =? 0) || (port =? 0) then ret (1, [], 0)
  else
    let! (r, discovered_ip) := net_primary_ipv4 local DISCOVERED_IP_CAP in
    ret (control_build_url (if r =? 0 then Some discovered_ip else None) port url_out_cap).

(** ** Theorems *)

(** One number of a dotted quad is read back: its digits after the first ... *)
Lemma inet_pton_digits ds rest octets v :
  Forall (fun c => isdigit c = true) ds -> 0 < v -> v * 10 ^ zlen ds + dec_value ds <= 255 ->
  inet_pton_octets (ds ++ rest) octets true v =
  inet_pton_octets rest octets true (v * 10 ^ zlen ds + dec_value ds).
Proof.
  intros Hd. revert v. induction Hd as [|c ds Hc Hd IH]; intros v Hv Hb.
  { rewrite Z.mul_1_r, Z.add_0_r. done. }
  pose proof (dec_value_nonneg ds Hd). pose proof (Z.pow_pos_nonneg 10 (zlen ds)).
  rewrite dec_value_cons in *. cbn [List.length] in *.
  rewrite Nat2Z.inj_succ, Z.pow_succ_r in * by lia. cbn [app inet_pton_octets].
  rewrite Hc. assert (48 <= c <= 57) by (unfold isdigit in Hc; lia).
  destruct (Z.eqb_spec v 0); [lia|]. cbn [andb].
  destruct (Z.ltb_spec 255 (v * 10 + (c - 48))); [nia|]. rewrite IH by nia. f_equal. lia.
Qed.

(** ... and the first one, which is not '0' unless it is the only one. *)
Lemma udec_first o : 0 < o < 256 -> 48 < hd 0 (udec o).
Proof.
  intros Ho. assert (o ∈ map Z.of_nat (seq 1 255)) as H.
  { apply list_elem_of_In, in_map_iff. exists (Z.to_nat o). split; [lia|]. apply in_seq. lia. }
  clear Ho. revert o H. apply Forall_forall. by_decision.
Qed.

Lemma inet_pton_octet o rest octets :
  0 <= o < 256 -> 0 <= octets <= 3 ->
  inet_pton_octets (udec o ++ rest) octets false 0 = inet_pton_octets rest (octets + 1) true o.
Proof.
  intros Ho Hk. destruct (Z.eq_dec o 0) as [->|Hz].
  { cbn. by destruct (Z.ltb_spec 4 (octets + 1)); [lia|]. }
  destruct (udec_spec o ltac:(lia)) as (Hne & Hd & Hv). pose proof (udec_first o ltac:(lia)) as H0.
  destruct (udec o) as [|c ds]; [done|]. cbn [hd] in H0. apply Forall_cons in Hd as [Hc Hd].
  pose proof (dec_value_nonneg ds Hd). rewrite dec_value_cons in Hv.
  pose proof (Z.pow_pos_nonneg 10 (zlen ds)). cbn [app inet_pton_octets]. rewrite Hc. cbn [andb].
  destruct (Z.ltb_spec 255 (0 * 10 + (c - 48))); [nia|].
  destruct (Z.ltb_spec 4 (octets + 1)); [lia|]. rewrite inet_pton_digits; [f_equal; lia|done|lia|lia].
Qed.

Lemma inet_pton_dot rest octets v :
  octets <> 4 -> inet_pton_octets (46 :: rest) octets true v = inet_pton_octets rest octets false 0.
Proof. intros H. cbn [inet_pton_octets]. change (isdigit 46) with false. cbn. by destruct (Z.eqb_spec octets 4). Qed.

Lemma octets_range addr :
  0 <= addr < 2 ^ 32 ->
  0 <= addr / 2 ^ 24 < 256 /\ 0 <= addr / 2 ^ 16 mod 256 < 256 /\ 0 <= addr / 2 ^ 8 mod 256 < 256 /\
  0 <= addr mod 256 < 256.
Proof. intros H. split; [lia|]. split_and!; apply Z.mod_pos_bound; lia. Qed.

Lemma inet_pton_ntop addr : 0 <= addr < 2 ^ 32 -> inet_pton (inet_ntop_text addr) = true.
Proof.
  intros (H1 & H2 & H3 & H4)%octets_range. unfold inet_pton, inet_ntop_text. cbn [app].
  rewrite !inet_pton_octet by lia. rewrite !inet_pton_dot by done.
  rewrite inet_pton_octet by lia. rewrite inet_pton_dot by done.
  rewrite inet_pton_octet by lia. rewrite inet_pton_dot by done.
  rewrite <- (app_nil_r (udec (addr mod 256))), inet_pton_octet by lia. done.
Qed.

(** A dotted quad ends its first number at the first dot, so addresses with the
    same text are the same. *)
Lemma dotted_inj a b x y :
  0 <= a -> 0 <= b -> udec a ++ 46 :: x = udec b ++ 46 :: y -> a = b /\ x = y.
Proof.
  intros Ha Hb E. destruct (udec_spec a Ha) as (_ & Da & Va), (udec_spec b Hb) as (_ & Db & Vb).
  assert (Hnd : forall ds, Forall (fun c => isdigit c = true) ds -> 46 ∉ ds).
  { intros ds Hd H. rewrite Forall_forall in Hd. by specialize (Hd _ H). }
  assert (Hl : Some (length (udec a)) = Some (length (udec b))).
  { rewrite <- (strchr_app (udec a) x 46), E by auto. by apply strchr_app; auto. }
  apply app_inj_1 in E as [E1 [= E2]]; [|congruence]. split; [|done]. by rewrite <- Va, <- Vb, E1.
Qed.

Lemma inet_ntop_inj a b :
  0 <= a < 2 ^ 32 -> 0 <= b < 2 ^ 32 -> inet_ntop_text a = inet_ntop_text b -> a = b.
Proof.
  intros Ha Hb. destruct (octets_range a Ha) as ([A1 _] & [A2 _] & [A3 _] & [A4 _]).
  destruct (octets_range b Hb) as ([B1 _] & [B2 _] & [B3 _] & [B4 _]). unfold inet_ntop_text. cbn [app].
  intros (E1 & E)%dotted_inj; [|done..]. apply dotted_inj in E as (E2 & E); [|done..].
  apply dotted_inj in E as (E3 & E); [|done..].
  assert (E4 : a mod 256 = b mod 256).
  { destruct (udec_spec _ A4) as (_ & _ & <-), (udec_spec _ B4) as (_ & _ & <-). by rewrite E. }
  clear -E1 E2 E3 E4. lia.
Qed.

Lemma inet_ntop_line addr :
  0 <= addr < 2 ^ 32 ->
  zlen (inet_ntop_text addr) <= 15 /\ Forall line_char (inet_ntop_text addr).
Proof.
  intros (H1 & H2 & H3 & H4)%octets_range. unfold inet_ntop_text.
  assert (Hu : forall n, 0 <= n < 256 -> zlen (udec n) <= 3) by (intros; apply udec_digits; lia).
  split.
  - rewrite !length_app. pose proof (Hu _ H1). pose proof (Hu _ H2). pose proof (Hu _ H3).
    pose proof (Hu _ H4). cbn [length]. lia.
  - rewrite !Forall_app. split_and!; try (apply udec_line; lia); by_decision.
Qed.

(** Addresses a page can be reached at from another machine. *)
Definition reachable (addr : Z) : Prop :=
  0 <= addr < 2 ^ 32 /\ addr <> 0 /\ addr <> 127 * 2 ^ 24 + 1.

Lemma reachable_text addr :
  0 <= addr < 2 ^ 32 ->
  streq (inet_ntop_text addr) (bs "0.0.0.0") || streq (inet_ntop_text addr) (bs "127.0.0.1") = false
  <-> reachable addr.
Proof.
  intros Ha. unfold reachable.
  change (bs "0.0.0.0") with (inet_ntop_text 0). change (bs "127.0.0.1") with (inet_ntop_text (127 * 2 ^ 24 + 1)).
  rewrite orb_false_iff, !streq_false. split.
  - intros [H1 H2]. split_and!; try lia; intros ->; done.
  - intros (_ & H1 & H2). split; intros E%inet_ntop_inj; lia.
Qed.

Lemma net_primary_ipv4_spec local w :
  0 <= local < 2 ^ 32 -> 0 <= f_next (w_files w) ->
  wp (net_primary_ipv4 local DISCOVERED_IP_CAP) (fun '(r, out) w' =>
    only_files w w' /\ next_fd (w_files w) (w_files w') /\
    (r = 1 \/ r = 0 /\ reachable local /\ out = inet_ntop_text local) /\
    (w_faults w = [] -> reachable local -> r = 0)) w.
Proof.
  intros Hl Hn. unfold net_primary_ipv4. change (DISCOVERED_IP_CAP =? 0) with false. cbv iota.
  wp_step. apply wp_sys_socket.
  { intros w1 Hf1 Hlt. change (is_socket_invalid (-1)) with true. cbv iota. wp_step.
    assert (w_files w1 = w_files w) as -> by frame.
    split_and!; auto using next_fd_refl; [frame|]. rewrite no_faults_flen. lia. }
  intros w1 Hf1 Hfd1. assert (is_socket_invalid (f_next (w_files w)) = false) as ->
    by (unfold is_socket_invalid; lia). cbv iota. change (inet_pton (bs "8.8.8.8")) with true.
  cbn [negb].
  assert (Hclose : forall w2 r out, only_errno w1 w2 ->
            (r = 1 \/ r = 0 /\ reachable local /\ out = inet_ntop_text local) ->
            (w_faults w = [] -> reachable local -> r = 0) ->
            wp (let! _ := socket_close (f_next (w_files w)) in ret (r, out)) (fun '(r, out) w' =>
              only_files w w' /\ next_fd (w_files w) (w_files w') /\
              (r = 1 \/ r = 0 /\ reachable local /\ out = inet_ntop_text local) /\
              (w_faults w = [] -> reachable local -> r = 0)) w2).
  { intros w2 r out Hf2 Hr Hlive. wp_step. wp_use socket_close_spec. intros x w3 Hf3. wp_step.
    assert (w_files w3 = w_files w1) as -> by frame. split_and!; [|done..]. frame. }
  assert (Hfl : forall w2, only_errno w1 w2 -> (flen w2 < flen w1)%nat -> w_faults w = [] -> False).
  { intros w2 _ Hlt E. assert (w_faults w1 = []) as Hn1%no_faults_flen by (eapply only_io_no_faults; [|done]; frame).
    lia. }
  wp_step. apply wp_sys_sockcall; intros w2 Hf2 H2; cbn [negb Z.eqb].
  { apply Hclose; [done|by left|]. intros E. by destruct (Hfl w2 Hf2 H2 E). }
  wp_step. apply wp_sys_sockcall; intros w3 Hf3 H3; cbn [negb Z.eqb].
  { apply Hclose; [by etrans|by left|]. intros E. destruct (Hfl w3); [by etrans| |done].
    assert ((flen w2 <= flen w1)%nat) by frame. lia. }
  destruct (inet_ntop_line local Hl) as [Hlen _]. unfold inet_ntop.
  destruct (Z.leb_spec DISCOVERED_IP_CAP (zlen (inet_ntop_text local))); [unfold DISCOVERED_IP_CAP in *; lia|].
  pose proof (reachable_text local Hl) as Hr.
  assert (Hf : only_errno w1 w3) by (by etrans).
  destruct (streq _ _ || streq _ _) eqn:E.
  - apply Hclose; [done|by left|]. intros _ Hreach%Hr. congruence.
  - apply Hclose; [done| |done]. right. split_and!; [done|by apply Hr|done].
Qed.

(** ** Properties *)

(** The page's address: whatever fails, [control_build_url] gives one; it names
    this machine's address on the network, as a dotted quad [inet_pton] reads and
    that other machines can reach, or else the loopback address, and says which of
    the two it is. With a network and no failures it is the machine's address. *)
Theorem page_address_usable local port w
    (Hlocal : 0 <= local < 2 ^ 32) (Hport : 0 < port <= 65535) (Hnext : 0 <= f_next (w_files w)) :
  wp (control_build_url_here local port WEB_URL_CAP) (fun '(r, url, phone_reachable) w' =>
    only_files w w' /\ next_fd (w_files w) (w_files w') /\ r = 0 /\
    exists host, host_ok host /\ url = page_url host port /\
      match host with
      | Some ip => phone_reachable = 1 /\ inet_pton ip = true /\ reachable local /\ ip = inet_ntop_text local
      | None => phone_reachable = 0
      end /\
      (w_faults w = [] -> reachable local -> host = Some (inet_ntop_text local))) w.
Proof.
  unfold control_build_url_here. change (WEB_URL_CAP =? 0) with false.
  destruct (Z.eqb_spec port 0); [lia|]. cbn [orb].
  wp_step. wp_use net_primary_ipv4_spec; [done|done|]. intros [r ip] w' (Hf & Hfd & Hr & Hlive). wp_step.
  assert (Hok : host_ok (if r =? 0 then Some ip else None)).
  { destruct Hr as [->|(-> & _ & ->)]; [split; simpl; [lia|constructor]|]. by apply inet_ntop_line. }
  rewrite control_build_url_fits; [|done|by vm_compute|by destruct Hok].
  split_and!; [done|done|done|]. exists (if r =? 0 then Some ip else None). split_and!; [done|done| |].
  - destruct Hr as [->|(-> & Hr & ->)]; [done|]. cbn [Z.eqb]. split_and!; try done. by apply inet_pton_ntop.
  - intros E H. destruct Hr as [->|(-> & _ & ->)]; [by specialize (Hlive E H)|done].
Qed.

Lemma page_address_usable_witness :
  let w := demo_world [FNone; FErr EIO] [] (demo_files ∅) in
  wp (control_build_url_here (192 * 2 ^ 24 + 168 * 2 ^ 16 + 7) 9000 WEB_URL_CAP)
    (fun '(r, url, phone_reachable) w' =>
    only_files w w' /\ next_fd (w_files w) (w_files w') /\ r = 0 /\
    exists host, host_ok host /\ url = page_url host 9000 /\
      match host with
      | Some ip => phone_reachable = 1 /\ inet_pton ip = true /\
                   reachable (192 * 2 ^ 24 + 168 * 2 ^ 16 + 7) /\
                   ip = inet_ntop_text (192 * 2 ^ 24 + 168 * 2 ^ 16 + 7)
      | None => phone_reachable = 0
      end /\
      (w_faults w = [] -> reachable (192 * 2 ^ 24 + 168 * 2 ^ 16 + 7) ->
       host = Some (inet_ntop_text (192 * 2 ^ 24 + 168 * 2 ^ 16 + 7)))) w.
Proof. apply (page_address_usable (192 * 2 ^ 24 + 168 * 2 ^ 16 + 7) 9000); [lia|lia|by vm_compute]. Defined.

(** Without failures the page is at the machine's address. *)
Example demo_page_address :
  let w := demo_world [] [] (demo_files ∅) in
  fst <$> control_build_url_here (192 * 2 ^ 24 + 168 * 2 ^ 16 + 7) 9000 WEB_URL_CAP w =
    Some (0, bs "http://192.168.0.7:9000/", 1).
Proof. reflexivity. Qed.
