(* ===== verification/Listener.v ===== *)
(** * The listener (src/server.c, and net_wait_readable of src/net.c)

    The main thread of the server: it opens the listening socket and accepts
    connections until a shutdown is requested. Other threads -- the connections,
    signals, the watcher -- run while it waits in [select]; what they do is part
    of the event the wait sees. The tracker's system (see ConnTracker) is passed
    along, so a run of the listener is a path of that transition system. *)

From S2P Require Import Prelude CLib World Logic ConnTracker.
From S2P Require Import Signals Fs Net Protocol TransferIo MessageStore HttpBuf HttpJson.
From S2P Require Import Cli AppService PicoHttp HttpRequest HttpResponse WebUi HttpFiles HttpMessages Http Server.
From S2P Require Import Connection.

(** ** Definitions *)

(** *** Other threads *)

(** A connection's thread closes its socket, or leaves the tracker: the last two
    statements of [server_connection_thread_main]. *)
Inductive thread_act :=
  | ThreadCloses (entry : Z)
  | ThreadEnds (entry : Z).

(** What the other threads do during one wait: messages, shutdowns and signals,
    steps of connection threads, and changes of files. *)
Record other_acts := Others {
  oa_store : list store_act;
  oa_threads : list thread_act;
  oa_files : list (bytes * option node)
}.

(** An act that is not possible does not happen. *)
Definition run_thread_act (a : thread_act) (s : system) : system :=
  match a with
  | ThreadCloses p =>
      match threads s !! p, entries (tracker s) !! p with
      | Some Running, Some e =>
          System (tracker s) (<[p := Closed]> (threads s)) (open_socks s ∖ {[conn e]}) (main s)
      | _, _ => s
      end
  | ThreadEnds p =>
      match threads s !! p, server_conn_tracker_end (Some p) (tracker s) with
      | Some Closed, Some (broadcast, t) =>
          System t (delete p (threads s)) (open_socks s) (wake broadcast (main s))
      | _, _ => s
      end
  end.

Definition run_thread_acts (acts : list thread_act) (s : system) : system :=
  fold_left (fun s a => run_thread_act a s) acts s.

Definition change_file (fs : gmap bytes node) (c : bytes * option node) : gmap bytes node :=
  match snd c with Some n => <[fst c := n]> fs | None => delete (fst c) fs end.

Definition run_other_acts (acts : other_acts) (s : system) : M system :=
  run_others (oa_store acts) ;;!
  modify (fun w =>
    set_files (set_fs (fold_left change_file (oa_files acts) (f_fs (w_files w))) (w_files w)) w) ;;!
  ret (run_thread_acts (oa_threads acts) s).

(** What one call of [select] sees: the other threads, and whether a connection
    waits to be accepted. *)
Record listen_event := ListenEvent { le_others : other_acts; le_ready : bool }.

(** *** The socket *)

(** [select] on one socket after the other threads ran: 1 or 0, or -1. *)
Definition sys_select (sock : Z) (timeval : Z * Z) (ready : bool) : M Z :=
  let! f := pop_fault in
  match f with FErr e => fail_with e (-1) | _ => ret (if ready then 1 else 0) end.

(** The result and [*ready_out], for a pointer that is not [NULL]. *)
Definition net_wait_readable (sock timeout_ms : Z) (ready : bool) : M (Z * Z) :=
  if is_socket_invalid sock then ret (1, 0)
  else
    let tv := (timeout_ms / 1000, (timeout_ms mod 1000) * 1000) in
    let! rc := sys_select sock tv ready in
    if rc <? 0 then
      let! errno := get_errno in
      if errno =? EINTR then ret (0, 0) else ret (1, 0)
    else if rc =? 0 then ret (0, 0)
    else ret (0, if ready then 1 else 0).

(** [accept]: a new descriptor number, or -1. *)
Definition sys_accept : M Z := sys_socket.

(** The result and [*sock_out]; [bind_ip] is what [inet_pton] is given. *)
Definition create_listener_socket (bind_ip : option bytes) (port : Z) : M (Z * Z) :=
  let! sock := sys_socket in
  if is_socket_invalid sock then ret (1, -1)
  else
    let fail := let! _ := socket_close sock in ret (1, -1) in
    let! r := sys_sockcall in
    if r <? 0 then fail
    else if (match bind_ip with
             | None | Some [] => false
             | Some ip => negb (inet_pton ip)
             end) then fail
    else
      let! r := sys_sockcall in
      if r <? 0 then fail
      else
        let! r := sys_sockcall in
        if r =? -1 then fail else ret (0, sock).

(** *** The loop *)

(** [malloc] returns a block that is not in use. *)
Definition heap_block (t : server_conn_tracker_t) : Z :=
  map_fold (fun p _ m => Z.max (p + 1) m) 1 (entries t).

(** What follows a successful [accept]; [exit_code] is passed along. *)
Definition server_accepted (sock_conn : Z) (ser_opt : server_opt_t) (exit_code : Z) (s : system)
    : M (Z * system) :=
  let p := heap_block (tracker s) in
  let! (r, ctx, t) := server_start_connection_thread sock_conn ser_opt p (tracker s) in
  if negb (r =? 0) then
    let! _ := socket_close sock_conn in
    ret (1, System t (threads s) (open_socks s) (main s))
  else
    ret (exit_code,
         System t (<[p := Running]> (threads s)) ({[sock_conn]} ∪ open_socks s) (main s)).

(** The loop, for as many waits as there are events; [None]: it still accepts. *)
Fixpoint server_run_listener (events : list listen_event) (sock : Z) (ser_opt : server_opt_t)
    (exit_code : Z) (s : system) : M (option Z * system) :=
  let! stop := shutdown_requested in
  if negb (stop =? 0) then ret (Some shutdown_exit_code, s)
  else
    match events with
    | [] => ret (None, s)
    | ev :: events =>
        let! s := run_other_acts (le_others ev) s in
        let! (r, ready) := net_wait_readable sock 250 (le_ready ev) in
        if negb (r =? 0) then
          let! stop := shutdown_requested in
          if negb (stop =? 0) then ret (Some shutdown_exit_code, s)
          else server_run_listener events sock ser_opt 1 s
        else if ready =? 0 then server_run_listener events sock ser_opt exit_code s
        else
          let! conn := sys_accept in
          if is_socket_invalid conn then
            let! errno := get_errno in
            if errno =? EINTR then server_run_listener events sock ser_opt exit_code s
            else
              let! stop := shutdown_requested in
              if negb (stop =? 0) then ret (Some shutdown_exit_code, s)
              else server_run_listener events sock ser_opt exit_code s
          else
            let! (exit_code, s) := server_accepted conn ser_opt exit_code s in
            server_run_listener events sock ser_opt exit_code s
    end.

(** *** Specifications *)

Notation all_store os := (concat (map oa_store os)).
Notation all_files os := (concat (map oa_files os)).

(** What changed while the other threads did [os]: nothing else, but for [errno]
    and the next descriptor number. *)
Record meanwhile (os : list other_acts) (w w' : world) : Prop := {
  mw_env : w_env w' = w_env w;
  mw_net : w_net w' = w_net w;
  mw_waits : w_waits w' = w_waits w;
  mw_faults : (flen w' <= flen w)%nat;
  mw_store : p_store (w_prog w') = run_acts (all_store os) (p_store (w_prog w));
  mw_shutdown : p_shutdown (w_prog w') = run_requests (all_store os) (p_shutdown (w_prog w));
  mw_fs : f_fs (w_files w') = fold_left change_file (all_files os) (f_fs (w_files w));
  mw_fds : f_fds (w_files w') = f_fds (w_files w);
  mw_pipes : f_pipes (w_files w') = f_pipes (w_files w);
  mw_next : f_next (w_files w) <= f_next (w_files w')
}.

(** The system while the listener runs: at most [n] connections, all of whose
    threads were created, on sockets below [next]. *)
Record accepting (n next : Z) (s : system) : Prop := {
  ac_ok : system_ok s;
  ac_main : main s = Accepting;
  ac_created : forall p, threads s !! p <> Some Starting;
  ac_socks : forall k, k ∈ open_socks s -> k < next;
  ac_size : Z.of_nat (base.size (entries (tracker s))) <= n
}.

(** How the loop ends: not before a shutdown is requested, and at the next test. *)
Definition listener_end (done rest : list listen_event) (r : option Z) (w w' : world) : Prop :=
  r = None /\ rest = [] /\ g_requested (p_shutdown (w_prog w')) = 0 \/
  r = Some 130 /\ g_requested (p_shutdown (w_prog w')) <> 0 /\
    (done = [] \/ exists before ev, done = before ++ [ev] /\
       g_requested (run_requests (all_store (map le_others before)) (p_shutdown (w_prog w))) = 0).

(** When nothing fails and no connection ends, every connection that waited to be
    accepted is being served. *)
Definition all_served (sock : Z) (done : list listen_event) (s s' : system) (w : world) : Prop :=
  w_faults w = [] -> 0 <= sock -> 0 <= f_next (w_files w) ->
  Forall (fun ev => oa_threads (le_others ev) = []) done ->
  base.size (threads s') = (base.size (threads s) + length (List.filter le_ready done))%nat.

(** ** Theorems *)

Lemma meanwhile_frame w w' : only_files w w' -> next_fd (w_files w) (w_files w') -> meanwhile [] w w'.
Proof.
  intros [(He & Hp & Hw & Hl) Hn] (H1 & H2 & H3 & H4). by split; try done; rewrite ?Hp.
Qed.

Lemma meanwhile_errno w w' : only_errno w w' -> meanwhile [] w w'.
Proof.
  intros [[Hio Hf] Hn]. apply meanwhile_frame; [by split|]. rewrite Hf. by repeat split.
Qed.

Lemma meanwhile_trans o1 o2 w1 w2 w3 :
  meanwhile o1 w1 w2 -> meanwhile o2 w2 w3 -> meanwhile (o1 ++ o2) w1 w3.
Proof.
  intros [A1 A2 A3 A4 A5 A6 A7 A8 A9 A10] [B1 B2 B3 B4 B5 B6 B7 B8 B9 B10].
  split; try congruence; try lia.
  - by rewrite B5, A5, map_app, concat_app, run_acts_app.
  - by rewrite B6, A6, map_app, concat_app, run_requests_app.
  - by rewrite B7, A7, map_app, concat_app, fold_left_app.
Qed.

Lemma meanwhile_then o w1 w2 w3 : meanwhile o w1 w2 -> meanwhile [] w2 w3 -> meanwhile o w1 w3.
Proof. intros H1 H2. rewrite <- (app_nil_r o). by eapply meanwhile_trans. Qed.

Lemma run_other_acts_spec acts s w :
  wp (run_other_acts acts s) (fun s' w' =>
    s' = run_thread_acts (oa_threads acts) s /\ meanwhile [acts] w w' /\
    w_faults w' = w_faults w) w.
Proof.
  unfold run_other_acts, run_others. do 5 wp_step. split; [done|]. split; [|done].
  split; simpl; rewrite ?app_nil_r; try done; lia.
Qed.

(** *** The other threads are steps of the system *)

Lemma run_thread_act_steps a s : steps s (run_thread_act a s).
Proof.
  destruct s as [t ths socks m]. destruct a as [p|p]; cbn [run_thread_act threads tracker main open_socks].
  - destruct (ths !! p) as [[| |]|] eqn:Ep; try apply steps_refl.
    destruct (entries t !! p) as [e|] eqn:Ee; [|apply steps_refl].
    eapply steps_one; [by eapply step_close|apply steps_refl].
  - destruct (ths !! p) as [[| |]|] eqn:Ep; try apply steps_refl.
    destruct (server_conn_tracker_end (Some p) t) as [[b t']|] eqn:Ee; [|apply steps_refl].
    eapply steps_one; [by eapply step_end|apply steps_refl].
Qed.

Lemma steps_ok s s' : system_ok s -> steps s s' -> system_ok s'.
Proof. intros Hok H. induction H; [done|]. eapply step_ok; [|done]. auto. Qed.

Lemma run_thread_acts_steps acts s : steps s (run_thread_acts acts s).
Proof.
  revert s. induction acts as [|a acts IH]; intros s; [apply steps_refl|].
  eapply steps_trans; [apply run_thread_act_steps|apply IH].
Qed.

(** Threads that end take connections away. *)
Lemma run_thread_act_shrinks a s :
  system_ok s -> main s = Accepting ->
  let s' := run_thread_act a s in
  main s' = Accepting /\ open_socks s' ⊆ open_socks s /\
  dom (entries (tracker s')) ⊆ dom (entries (tracker s)) /\
  ((forall p, threads s !! p <> Some Starting) -> forall p, threads s' !! p <> Some Starting).
Proof.
  destruct s as [t ths socks m]. intros Hok Hm. simpl in Hm. subst m.
  assert (Hsame : main (System t ths socks Accepting) = Accepting /\ socks ⊆ socks /\
    dom (entries t) ⊆ dom (entries t) /\
    ((forall p, ths !! p <> Some Starting) -> forall p, ths !! p <> Some Starting)) by done.
  destruct a as [p|p]; cbn [run_thread_act threads tracker main open_socks].
  - destruct (ths !! p) as [[| |]|] eqn:Ep; try done.
    destruct (entries t !! p) as [e|] eqn:Ee; [|done]. simpl. split; [done|].
    split; [clear; set_solver|]. split; [done|]. intros H q. destruct (decide (q = p)) as [->|Hne].
    + by rewrite lookup_insert_eq.
    + by rewrite lookup_insert_ne.
  - destruct (ths !! p) as [[| |]|] eqn:Ep; try done.
    destruct (threads_entries _ _ _ Hok Ep) as (l & Hl & Hin). simpl in Hl.
    destruct (end_ok p t l Hl Hin) as (b & t' & l' & -> & _ & Hd & _). simpl. split; [done|].
    split; [done|]. split; [rewrite Hd; clear; set_solver|]. intros H q Hq.
    apply lookup_delete_Some in Hq as [_ Hq]. by apply (H q).
Qed.

Lemma size_dom_le (m1 m2 : gmap Z server_conn_entry_t) :
  dom m1 ⊆ dom m2 -> (base.size m1 <= base.size m2)%nat.
Proof. intros H. rewrite <- !size_dom. by apply subseteq_size. Qed.

Lemma run_thread_acts_accepting acts n next s :
  accepting n next s ->
  steps s (run_thread_acts acts s) /\ accepting n next (run_thread_acts acts s).
Proof.
  intros H. split; [apply run_thread_acts_steps|]. revert s H.
  induction acts as [|a acts IH]; intros s [H1 H2 H3 H4 H5]; [done|]. apply IH.
  destruct (run_thread_act_shrinks a s H1 H2) as (G1 & G2 & G3 & G4). split; auto.
  - eapply steps_ok; [done|apply run_thread_act_steps].
  - apply size_dom_le in G3. lia.
Qed.

(** *** Calls *)

Lemma heap_block_fresh t : entries t !! heap_block t = None.
Proof.
  unfold heap_block. set (b := map_fold _ _ _).
  assert (H : forall p e, entries t !! p = Some e -> p < b).
  { unfold b. apply (map_fold_weak_ind (fun m es => forall p e, es !! p = Some e -> p < m)).
    - intros p e. by rewrite lookup_empty.
    - intros i x es m Hi IH p e [[-> ->]|[_ Hp]]%lookup_insert_Some; [lia|].
      specialize (IH _ _ Hp). lia. }
  destruct (entries t !! b) as [e|] eqn:E; [|done]. specialize (H _ _ E). lia.
Qed.

Lemma net_wait_readable_spec sock ms ready w :
  wp (net_wait_readable sock ms ready) (fun '(r, rd) w' => only_errno w w' /\
    (r = 0 \/ r = 1 /\ rd = 0) /\ (rd = 0 \/ rd = 1 /\ ready = true) /\
    (w_faults w = [] -> 0 <= sock -> r = 0 /\ rd = if ready then 1 else 0)) w.
Proof.
  unfold net_wait_readable, is_socket_invalid. destruct (Z.ltb_spec sock 0) as [Hs|Hs].
  { wp_step. split; [done|]. split; [auto|]. split; [auto|]. lia. }
  wp_step. apply (wp_simple_call None).
  - intros w1 Hf Hlt. change (-1 <? 0) with true. cbv iota. wp_step. wp_step.
    assert (w_faults w = [] -> False) by (rewrite no_faults_flen; lia).
    destruct (w_errno w1 =? EINTR); wp_step; (split; [done|split; [auto|split; [auto|done]]]).
  - intros w1 Hf _. destruct ready; simpl; wp_step; (split; [done|split; [auto|split; [auto|done]]]).
Qed.

Lemma wp_sys_accept Q w :
  (forall w', only_errno w w' -> (flen w' < flen w)%nat -> Q (-1) w') ->
  (forall w', only_files w w' -> next_fd (w_files w) (w_files w') ->
     f_next (w_files w') = f_next (w_files w) + 1 -> Q (f_next (w_files w)) w') ->
  wp sys_accept Q w.
Proof.
  intros He Hok. unfold sys_accept, sys_socket. apply (wp_transfer (fun e => fail_with e (-1))).
  - intros e w' Hf Hlt. apply wp_fail_with. apply He; frame.
  - intros f w' Hf _. do 5 wp_step. assert (w_files w' = w_files w) as Hw by frame. rewrite Hw.
    apply Hok; [frame| |done]. split_and!; simpl; try done. lia.
Qed.

(** The thread, operation by operation. *)
Lemma server_start_connection_thread_ops conn opt block t l w :
  tracker_ok t l -> entries t !! block = None -> Z.of_nat (base.size (entries t)) + 1 < 2 ^ 32 ->
  wp (server_start_connection_thread conn opt block t) (fun '(r, ctx, t') w' =>
    only_errno w w' /\
    (r = 1 /\ ctx = None /\ t' = t \/
     exists t1, server_conn_tracker_begin (Some block) conn t = (Some block, t1) /\
       (r = 1 /\ ctx = None /\ (exists b, server_conn_tracker_end (Some block) t1 = Some (b, t')) \/
        r = 0 /\ ctx = Some (ConnCtx conn opt block) /\ t' = t1))) w.
Proof.
  intros Hok Hb Hsz. unfold server_start_connection_thread, server_set_connection_recv_timeout.
  set (Q := fun '(r, ctx, t') w' => _).
  assert (Hno : forall w', only_errno w w' -> wp (ret (1, None, t)) Q w').
  { intros w' Hf. wp_step. split; [done|]. by left. }
  wp_step. apply wp_sys_malloc; intros w1 Hf1 _; cbn [negb]; [by apply Hno|].
  wp_step. wp_step. apply wp_sys_sockcall; intros w2 Hf2 _; wp_step.
  all: assert (Hf12 : only_errno w w2) by (by etrans).
  all: wp_step; apply wp_sys_malloc; intros w3 Hf3 _; [by apply Hno; etrans|].
  all: destruct (server_conn_tracker_begin (Some block) conn t) as [[p|] t1] eqn:Hbeg;
    [|unfold server_conn_tracker_begin in Hbeg; destruct (shutting_down t); [|done];
      injection Hbeg as <-; apply Hno; by etrans].
  all: assert (p = block) as -> by
    (unfold server_conn_tracker_begin in Hbeg; by destruct (shutting_down t); simplify_eq).
  all: destruct (begin_ok _ _ _ _ _ Hok Hb Hsz Hbeg) as (Hok1 & _).
  all: destruct (end_ok block t1 (block :: l) Hok1) as (b & t2 & l2 & E2 & _); [by left|].
  all: wp_step; unfold sys_pthread_create; wp_step; apply wp_pop_fault; intros f w4 Hf4 _ _ _.
  all: assert (Hf : only_errno w w4) by (etrans; [done|by etrans]).
  all: assert (Hyes : wp (ret (0, Some (ConnCtx conn opt block), t1)) Q w4) by
    (wp_step; split; [done|]; right; exists t1; split; [done|]; by right).
  all: destruct f as [|e|n]; wp_step; [done| |done].
  all: destruct (Z.eqb_spec e 0) as [->|He]; [done|]; cbn [negb]; rewrite E2; wp_step.
  all: split; [done|]; right; exists t1; split; [done|]; left; eauto.
Qed.

(** The state after the listener accepted [sock] in [System t ths socks Accepting]:
    the tracker's entry for the connection is a new one. *)
Section accepted.
Context (sock n next : Z) (t t1 : server_conn_tracker_t) (ths : gmap Z conn_phase) (socks : gset Z).
Notation s := (System t ths socks Accepting).
Notation p := (heap_block t).
Hypothesis (Hacc : accepting n next s) (Hsock : next <= sock) (Hn : n + 1 < 2 ^ 32).

Lemma accepted_fresh : sock ∉ socks /\ ths !! p = None /\ entries t !! p = None.
Proof using Hacc Hsock.
  destruct Hacc as [(Hd & _) _ _ H4 _]. cbn [tracker threads open_socks main] in *.
  pose proof (heap_block_fresh t) as Hb. split; [intros H; apply H4 in H; lia|]. split; [|done].
  apply not_elem_of_dom. rewrite <- Hd. by apply not_elem_of_dom.
Qed.

(** No entry was made. *)
Lemma accepted_refused : accepting (n + 1) (sock + 1) s.
Proof using Hacc Hsock.
  destruct Hacc as [H1 H2 H3 H4 H5]. split; try done; [|lia]. intros k Hk. apply H4 in Hk. lia.
Qed.

Hypothesis (Hbegin : server_conn_tracker_begin (Some p) sock t = (Some p, t1)).

Lemma accepted_begin :
  step s (System t1 (<[p := Starting]> ths) ({[sock]} ∪ socks) Accepting).
Proof using Hacc Hsock Hn Hbegin.
  destruct accepted_fresh as (? & ? & ?). pose proof (ac_size _ _ _ Hacc) as H5. simpl in H5.
  by eapply step_begin; [| |lia|].
Qed.

Lemma accepted_entries :
  exists l, tracker_ok t1 (p :: l) /\ dom (entries t1) = {[p]} ∪ dom (entries t) /\
    base.size (entries t1) = S (base.size (entries t)).
Proof using Hacc Hsock Hn Hbegin.
  destruct accepted_fresh as (_ & _ & Hb). pose proof (ac_size _ _ _ Hacc) as H5. simpl in H5.
  destruct Hacc as [(_ & (l & Hl) & _) _ _ _ _]. cbn [tracker] in Hl.
  destruct (begin_ok _ _ _ _ _ Hl Hb ltac:(lia) Hbegin) as (Hok1 & _ & _ & _ & Hd1).
  exists l. split_and!; [done|done|]. rewrite <- !size_dom, Hd1, size_union, size_singleton; [done|].
  apply not_elem_of_dom in Hb. clear -Hb. set_solver.
Qed.

(** The thread could not be started: the entry is given up. *)
Lemma accepted_failed b t' :
  server_conn_tracker_end (Some p) t1 = Some (b, t') ->
  steps s (System t' ths socks Accepting) /\
  accepting (n + 1) (sock + 1) (System t' ths socks Accepting).
Proof using Hacc Hsock Hn Hbegin.
  intros Hend. destruct accepted_fresh as (Hnew & Hp & _).
  destruct accepted_entries as (l & Hok1 & Hd1 & _).
  assert (He : exists e, entries t1 !! p = Some e /\ conn e = sock).
  { unfold server_conn_tracker_begin in Hbegin. destruct (shutting_down t); [done|].
    injection Hbegin as <-. cbn [entries set_count set_head set_entries]. rewrite lookup_insert_eq.
    eexists. split; [done|done]. }
  destruct He as (e & He & Hc).
  assert (Hall : steps s (System t' ths socks Accepting)).
  { eapply steps_one; [exact accepted_begin|]. eapply steps_one; [|apply steps_refl].
    assert (System t' ths socks Accepting =
      System t' (delete p (<[p := Starting]> ths)) (({[sock]} ∪ socks) ∖ {[conn e]}) (wake b Accepting))
      as ->; [|eapply step_spawn_fails; [by rewrite lookup_insert_eq|done|done]].
    rewrite delete_insert_id by done. rewrite Hc. f_equal. clear -Hnew. set_solver. }
  split; [done|]. destruct Hacc as [H1 H2 H3 H4 H5]. split; simpl; try done.
  - by eapply steps_ok.
  - intros k Hk. apply H4 in Hk. lia.
  - destruct (end_ok p t1 (p :: l) Hok1) as (b' & t2 & l2 & E & _ & Hd2 & _); [by left|].
    rewrite Hend in E. injection E as -> ->. assert (dom (entries t2) ⊆ dom (entries t)) as Hsub.
    { rewrite Hd2, Hd1. clear. set_solver. }
    apply size_dom_le in Hsub. simpl in H5. lia.
Qed.

(** The thread runs. *)
Lemma accepted_started :
  let s' := System t1 (<[p := Running]> ths) ({[sock]} ∪ socks) Accepting in
  steps s s' /\ accepting (n + 1) (sock + 1) s' /\
  base.size (threads s') = S (base.size (threads s)).
Proof using Hacc Hsock Hn Hbegin.
  intros s'. destruct accepted_fresh as (Hnew & Hp & _).
  destruct accepted_entries as (l & _ & _ & Hsize).
  assert (Hall : steps s s').
  { eapply steps_one; [exact accepted_begin|]. eapply steps_one; [|apply steps_refl].
    unfold s'. rewrite <- (insert_insert_eq ths p Running Starting). apply step_spawn.
    by rewrite lookup_insert_eq. }
  split; [done|]. split; [|simpl; by rewrite map_size_insert_None].
  destruct Hacc as [H1 H2 H3 H4 H5]. split; simpl; try done.
  - by eapply steps_ok.
  - intros q. destruct (decide (q = p)) as [->|Hne]; [by rewrite lookup_insert_eq|].
    rewrite lookup_insert_ne by done. apply H3.
  - intros k [->%elem_of_singleton|Hk]%elem_of_union; [lia|]. apply H4 in Hk. lia.
  - rewrite Hsize. simpl in H5. lia.
Qed.
End accepted.

(** An accepted connection gets its thread, or is closed and leaves no trace. *)
Lemma server_accepted_spec sock opt ec n next s w :
  accepting n next s -> next <= sock -> n + 1 < 2 ^ 32 ->
  wp (server_accepted sock opt ec s) (fun '(ec', s') w' =>
    only_errno w w' /\ steps s s' /\ accepting (n + 1) (sock + 1) s' /\
    (w_faults w = [] -> base.size (threads s') = S (base.size (threads s)))) w.
Proof.
  intros Ha Hs Hn. destruct s as [t ths socks m]. pose proof Ha as [H1 Hmain _ _ H5].
  cbn [main tracker threads open_socks] in *. subst m.
  pose proof H1 as (_ & (l & Hl) & _ & Hsd). cbn [main tracker] in Hl, Hsd.
  pose proof (heap_block_fresh t) as Hb.
  unfold server_accepted. cbn [tracker threads open_socks main]. wp_step.
  eapply wp_mono; [eapply wp_conj;
    [eapply server_start_connection_thread_ops|eapply server_start_connection_thread_spec];
    [exact Hl|exact Hb|lia|exact Hl|exact Hb|lia]|].
  intros [[r ctx] t'] w1 [(Hf & Hops) [_ Hcalm]].
  assert (Hfail : r = 1 -> w_faults w = [] -> False).
  { intros -> E. destruct Hcalm as [(_ & _ & _ & _ & _ & H)|[? _]]; [|done]. apply H in E. congruence. }
  clear Hcalm. destruct Hops as [(-> & -> & ->)|(t1 & Hbeg & [(-> & -> & b & Hend)|(-> & -> & ->)])].
  - change (negb (1 =? 0)) with true. cbv iota. wp_step. apply wp_socket_close. intros x w2 Hf2. wp_step.
    split_and!; [by etrans|apply steps_refl|by eapply accepted_refused|].
    intros E. by destruct (Hfail eq_refl E).
  - change (negb (1 =? 0)) with true. cbv iota. wp_step. apply wp_socket_close. intros x w2 Hf2. wp_step.
    destruct (accepted_failed _ _ _ _ _ _ _ Ha Hs Hn Hbeg _ _ Hend) as [Hall Hacc].
    split_and!; [by etrans|done|done|]. intros E. by destruct (Hfail eq_refl E).
  - change (negb (0 =? 0)) with false. cbv iota. wp_step.
    destruct (accepted_started _ _ _ _ _ _ _ Ha Hs Hn Hbeg) as (Hall & Hacc & Hsz).
    by split_and!.
Qed.

Lemma accepting_weaken n n' next next' s :
  accepting n next s -> n <= n' -> next <= next' -> accepting n' next' s.
Proof. intros [? ? ? H ?] ??. split; try done; [|lia]. intros k Hk. apply H in Hk. lia. Qed.

(** What the loop promises from its test on. *)
Definition listener_promise (n sock : Z) (events : list listen_event) (s : system) (w : world)
    (x : option Z * system) (w' : world) : Prop :=
  exists done rest, events = done ++ rest /\ meanwhile (map le_others done) w w' /\
    steps s (snd x) /\ accepting (n + zlen done) (f_next (w_files w')) (snd x) /\
    listener_end done rest (fst x) w w' /\ all_served sock done s (snd x) w.

Lemma listener_promise_stop n sock next events s w w' :
  meanwhile [] w w' -> accepting n next s -> next <= f_next (w_files w') ->
  g_requested (p_shutdown (w_prog w')) <> 0 -> listener_promise n sock events s w (Some 130, s) w'.
Proof.
  intros Hm Ha Hn Hg. exists [], events. split; [done|]. split; [done|]. split; [apply steps_refl|].
  split; [eapply accepting_weaken; [done|simpl; lia|lia]|]. split; [right; auto|].
  intros _ _ _ _. simpl. lia.
Qed.

Lemma meanwhile_calm o w w' : meanwhile o w w' -> w_faults w = [] -> w_faults w' = [].
Proof. intros H. rewrite !no_faults_flen. pose proof (mw_faults _ _ _ H). lia. Qed.

(** One turn: the wait, what is done with its outcome ([w1] to [w2], [s1] to [s2]),
    and the rest of the loop. *)
Lemma listener_promise_turn n sock ev events s s1 s2 x w w1 w2 w' :
  g_requested (p_shutdown (w_prog w)) = 0 ->
  meanwhile [le_others ev] w w1 -> meanwhile [] w1 w2 -> steps s s1 -> steps s1 s2 ->
  all_served sock [ev] s s2 w ->
  listener_promise (n + 1) sock events s2 w2 x w' -> listener_promise n sock (ev :: events) s w x w'.
Proof.
  intros Hg H1 H2 Hs1 Hs2 Hev (dn & rest & -> & Hm & Hst & Ha & Hend & Hall).
  pose proof (meanwhile_then _ _ _ _ H1 H2) as H12.
  exists (ev :: dn), rest. split; [done|].
  split; [exact (meanwhile_trans _ _ _ _ _ H12 Hm)|].
  split; [eapply steps_trans; [exact Hs1|]; eapply steps_trans; [exact Hs2|done]|].
  split; [eapply accepting_weaken; [done|len_lia|lia]|]. split.
  - destruct Hend as [H|(Hr & Hq & Hd)]; [by left|]. right. split; [done|]. split; [done|]. right.
    destruct Hd as [->|(before & e & -> & Hb)]; [by exists [], ev|].
    exists (ev :: before), e. split; [done|]. rewrite <- Hb, (mw_shutdown _ _ _ H12).
    cbn [map concat]. by rewrite run_requests_app, app_nil_r.
  - intros E Hs Hn [He Hl]%Forall_cons. pose proof (mw_next _ _ _ H12).
    rewrite Hall; [|by eapply meanwhile_calm|done|lia|done].
    rewrite Hev; [|done|done|done|by constructor]. simpl. destruct (le_ready ev); simpl; lia.
Qed.

(** The loop ends after a wait because a shutdown was requested meanwhile. *)
Lemma listener_promise_last n sock next ev events s s1 w w1 w2 :
  g_requested (p_shutdown (w_prog w)) = 0 ->
  meanwhile [le_others ev] w w1 -> meanwhile [] w1 w2 -> steps s s1 -> accepting n next s1 ->
  next <= f_next (w_files w2) -> all_served sock [ev] s s1 w -> g_requested (p_shutdown (w_prog w2)) <> 0 ->
  listener_promise n sock (ev :: events) s w (Some 130, s1) w2.
Proof.
  intros Hg H1 H2 Hs Ha Hn Hev Hq.
  eapply listener_promise_turn; [done|done|done|exact Hs|apply steps_refl|done|].
  eapply listener_promise_stop; [by apply meanwhile_errno| |reflexivity|done].
  eapply accepting_weaken; [done|lia|lia].
Qed.

(** A wait that finds no connection, or fails. *)
Lemma all_served_none sock ev s w :
  (w_faults w = [] -> 0 <= sock -> 0 <= f_next (w_files w) -> le_ready ev = false) ->
  all_served sock [ev] s (run_thread_acts (oa_threads (le_others ev)) s) w.
Proof.
  intros H E Hs Hn [He _]%Forall_cons. rewrite He. simpl. rewrite H by done. simpl. lia.
Qed.

(** The turn of the loop for [ev]: the other threads have taken [s] and [w] to
    [s1] and [w1], and the loop keeps its promise for the events that follow. *)
Section listener_turn.
Context (events : list listen_event) (ev : listen_event) (sock n : Z) (opt : server_opt_t).
Context (s s1 : system) (w w1 : world).
Hypothesis (Hloop : forall ec s n w,
  accepting n (f_next (w_files w)) s -> n + zlen events < 2 ^ 32 ->
  wp (server_run_listener events sock opt ec s) (listener_promise n sock events s w) w).
Hypothesis (Hrun : g_requested (p_shutdown (w_prog w)) = 0).
Hypothesis (Hothers : meanwhile [le_others ev] w w1) (Hcalm : w_faults w1 = w_faults w).
Hypothesis (Hs1 : s1 = run_thread_acts (oa_threads (le_others ev)) s) (Hsteps : steps s s1).
Hypothesis (Ha1 : accepting n (f_next (w_files w)) s1) (Hn : n + 1 + zlen events < 2 ^ 32).

(** The loop goes on. *)
Lemma listener_goes_on ec s2 w2 :
  meanwhile [] w1 w2 -> steps s1 s2 -> all_served sock [ev] s s2 w ->
  accepting (n + 1) (f_next (w_files w2)) s2 ->
  wp (server_run_listener events sock opt ec s2) (listener_promise n sock (ev :: events) s w) w2.
Proof using Hloop Hrun Hothers Hsteps Hn.
  intros Hm2 Hs2 Hev2 Ha2. wp_use Hloop; [done|lia|]. intros x w' H. by eapply listener_promise_turn.
Qed.

Lemma listener_same ec w2 :
  meanwhile [] w1 w2 -> all_served sock [ev] s s1 w ->
  wp (server_run_listener events sock opt ec s1) (listener_promise n sock (ev :: events) s w) w2.
Proof using Hloop Hrun Hothers Hsteps Ha1 Hn.
  intros Hm2 Hev2. apply listener_goes_on; [done|apply steps_refl|done|].
  pose proof (mw_next _ _ _ Hm2). pose proof (mw_next _ _ _ Hothers).
  eapply accepting_weaken; [done|lia|lia].
Qed.

(** It ends when a shutdown was requested. *)
Lemma listener_tests ec w2 :
  meanwhile [] w1 w2 -> all_served sock [ev] s s1 w ->
  wp (let! stop := shutdown_requested in
      if negb (stop =? 0) then ret (Some shutdown_exit_code, s1)
      else server_run_listener events sock opt ec s1) (listener_promise n sock (ev :: events) s w) w2.
Proof using Hloop Hrun Hothers Hsteps Ha1 Hn.
  intros Hm2 Hev2. wp_step. apply shutdown_requested_spec.
  pose proof (mw_next _ _ _ Hm2). pose proof (mw_next _ _ _ Hothers).
  destruct (Z.eqb_spec (g_requested (p_shutdown (w_prog w2))) 0) as [H2|H2]; cbn [negb Z.eqb].
  - by apply listener_same.
  - wp_step. eapply listener_promise_last; [done|exact Hothers|done|done|exact Ha1|lia|done|done].
Qed.

(** A call failed, so nothing is promised about the connections. *)
Lemma listener_failed w2 w3 :
  (flen w3 < flen w2)%nat -> meanwhile [] w1 w2 -> all_served sock [ev] s s1 w.
Proof using Hcalm Hs1.
  clear Hn Ha1 Hloop.
  intros Hlt Hm2. rewrite Hs1. apply all_served_none. intros E. exfalso. rewrite <- Hcalm in E.
  apply (meanwhile_calm _ _ _ Hm2), no_faults_flen in E. lia.
Qed.

(** A connection may be waiting. *)
Lemma listener_accepts ec w2 :
  meanwhile [] w1 w2 -> le_ready ev = true ->
  wp (let! conn := sys_accept in
      if is_socket_invalid conn then
        let! errno := get_errno in
        if errno =? EINTR then server_run_listener events sock opt ec s1
        else
          let! stop := shutdown_requested in
          if negb (stop =? 0) then ret (Some shutdown_exit_code, s1)
          else server_run_listener events sock opt ec s1
      else
        let! (exit_code, s) := server_accepted conn opt ec s1 in
        server_run_listener events sock opt exit_code s)
    (listener_promise n sock (ev :: events) s w) w2.
Proof using All.
  intros Hm2 Hready. pose proof (mw_next _ _ _ Hm2) as Hnext2. pose proof (mw_next _ _ _ Hothers) as Hnext1.
  wp_step. apply wp_sys_accept.
  - intros w3 Hf3 Hlt. pose proof (meanwhile_then _ _ _ _ Hm2 (meanwhile_errno _ _ Hf3)) as Hm3.
    change (is_socket_invalid (-1)) with true. cbv iota. wp_step. wp_step.
    destruct (w_errno w3 =? EINTR); [apply listener_same|apply listener_tests]; try done;
      by eapply listener_failed.
  - intros w3 Hf3 Hn3 Hlast. pose proof (meanwhile_then _ _ _ _ Hm2 (meanwhile_frame _ _ Hf3 Hn3)) as Hm3.
    unfold is_socket_invalid. destruct (Z.ltb_spec (f_next (w_files w2)) 0) as [Hneg|Hpos].
    { wp_step. wp_step. assert (all_served sock [ev] s s1 w) by (intros E Hs Hp; lia).
      destruct (w_errno w3 =? EINTR); [by apply listener_same|by apply listener_tests]. }
    wp_step. wp_use server_accepted_spec;
      [eapply accepting_weaken; [exact Ha1|reflexivity|]|reflexivity|lia|]; [lia|].
    intros [ec' s2] w4 (Hf4 & Hs2 & Ha2 & Hev). apply listener_goes_on; [|done| |].
    + eapply meanwhile_then; [exact Hm3|by apply meanwhile_errno].
    + intros E Hs Hp [He _]%Forall_cons. rewrite Hev.
      2:{ eapply meanwhile_calm; [exact Hm3|congruence]. }
      rewrite Hs1, He. simpl. rewrite Hready. simpl. lia.
    + eapply accepting_weaken; [exact Ha2|lia|]. assert (w_files w4 = w_files w3) as -> by frame. lia.
Qed.
End listener_turn.

Lemma server_run_listener_spec events sock opt ec s n w :
  accepting n (f_next (w_files w)) s -> n + zlen events < 2 ^ 32 ->
  wp (server_run_listener events sock opt ec s) (listener_promise n sock events s w) w.
Proof.
  revert ec s n w. induction events as [|ev events IH]; intros ec s n w Ha Hn; cbn [server_run_listener];
    wp_step; apply shutdown_requested_spec;
    (destruct (Z.eqb_spec (g_requested (p_shutdown (w_prog w))) 0) as [Hg|Hg]; cbn [negb Z.eqb];
     [|wp_step; eapply listener_promise_stop; [by apply meanwhile_errno|done|done|done]]).
  { wp_step. exists [], []. split; [done|]. split; [by apply meanwhile_errno|].
    split; [apply steps_refl|]. split; [eapply accepting_weaken; [done|simpl; lia|lia]|].
    split; [by left|]. intros _ _ _ _. simpl. lia. }
  cbn [length] in Hn. assert (Hn' : n + 1 + zlen events < 2 ^ 32) by lia.
  wp_step. wp_use run_other_acts_spec. intros s1 w1 (Hs1 & Hm1 & Hcalm1).
  destruct (run_thread_acts_accepting (oa_threads (le_others ev)) _ _ _ Ha) as [Hst1 Ha1].
  pose proof (all_served_none sock ev s w) as Hnone. rewrite <- Hs1 in Hst1, Ha1, Hnone.
  wp_step. wp_use net_wait_readable_spec. intros [r rd] w2 (Hf2 & Hr & Hrd & Hc2).
  rewrite Hcalm1 in Hc2. pose proof (meanwhile_errno _ _ Hf2) as Hm2.
  destruct Hr as [->|[-> _]]; cbn [negb Z.eqb].
  2:{ eapply listener_tests; try done. apply Hnone. intros E Hs. by destruct (Hc2 E Hs) as [[=] _]. }
  destruct Hrd as [->|[-> Hready]]; cbn [Z.eqb].
  - eapply listener_same; try done. apply Hnone. intros E Hs _.
    destruct (Hc2 E Hs) as [_ H]. by destruct (le_ready ev).
  - by eapply listener_accepts.
Qed.

(** *** Opening the socket *)

Lemma create_listener_socket_spec port w :
  0 <= f_next (w_files w) ->
  wp (create_listener_socket None port) (fun '(r, sock) w' =>
    meanwhile [] w w' /\ (r = 0 /\ 0 <= sock < f_next (w_files w') \/ r = 1 /\ sock = -1) /\
    (w_faults w = [] -> r = 0)) w.
Proof.
  intros Hn. unfold create_listener_socket. wp_step. apply wp_sys_accept.
  { intros w1 Hf Hlt. change (is_socket_invalid (-1)) with true. cbv iota. wp_step.
    split; [by apply meanwhile_errno|]. split; [auto|].
    rewrite no_faults_flen. lia. }
  intros w1 Hf1 Hn1 Hlast. pose proof (meanwhile_frame _ _ Hf1 Hn1) as Hm1.
  unfold is_socket_invalid. destruct (Z.ltb_spec (f_next (w_files w)) 0) as [|_]; [lia|].
  set (sock := f_next (w_files w)) in *.
  assert (Hfail : forall w2 w3, only_errno w1 w2 -> (flen w3 < flen w2)%nat -> only_errno w2 w3 ->
    wp (let! _ := socket_close sock in ret (1, -1)) (fun '(r, sock) w' =>
      meanwhile [] w w' /\ (r = 0 /\ 0 <= sock < f_next (w_files w') \/ r = 1 /\ sock = -1) /\
      (w_faults w = [] -> r = 0)) w3).
  { intros w2 w3 Hf2 Hlt Hf3. wp_step. apply wp_socket_close. intros x w4 Hf4. wp_step.
    split; [|split; [auto|]].
    - eapply meanwhile_then; [exact Hm1|]. apply meanwhile_errno. etrans; [done|by etrans].
    - intros E. apply (meanwhile_calm _ _ _ Hm1) in E.
      assert (w_faults w2 = []) as E2 by (eapply only_io_no_faults; [|done]; frame).
      apply no_faults_flen in E2. lia. }
  wp_step. apply wp_sys_sockcall; intros w2 Hf2 H2; [by eapply (Hfail w1 w2)|].
  change (0 <? 0) with false. cbv iota. wp_step.
  apply wp_sys_sockcall; intros w3 Hf3 H3; [by eapply (Hfail w2 w3)|].
  change (0 <? 0) with false. cbv iota. wp_step.
  apply wp_sys_sockcall; intros w4 Hf4 H4; [by eapply (Hfail w3 w4); [etrans|..]|].
  change (0 =? -1) with false. cbv iota. wp_step.
  assert (Hall : only_errno w1 w4) by (etrans; [done|by etrans]).
  split; [eapply meanwhile_then; [exact Hm1|by apply meanwhile_errno]|]. split; [|done].
  left. split; [done|]. assert (w_files w4 = w_files w1) as -> by frame. lia.
Qed.

(** ** Properties *)

(** C12: the listener refines the tracker's transition system: whatever fails, a run
    of [server_run_listener] -- its waits, its accepts, the threads it starts, and
    what the other threads do meanwhile -- is a path of that system from one
    accepting state to another, in which every connection on the list has its
    thread. It changes nothing itself but descriptors; it returns, with 130, exactly
    when a shutdown was requested, and does not wait again after the request. When
    nothing fails and no connection ends, every connection that waited is served. *)
Theorem server_run_listener_refines events sock opt exit_code s w
    (Hs : reachable s) (Hmain : main s = Accepting) (Hcreated : forall p, threads s !! p <> Some Starting)
    (Hsocks : forall k, k ∈ open_socks s -> k < f_next (w_files w))
    (Hcount : Z.of_nat (base.size (entries (tracker s))) + zlen events < 2 ^ 32) :
  wp (server_run_listener events sock opt exit_code s) (fun '(r, s') w' =>
    exists done rest, events = done ++ rest /\ meanwhile (map le_others done) w w' /\
      steps s s' /\ main s' = Accepting /\ (forall p, threads s' !! p <> Some Starting) /\
      listener_end done rest r w w' /\ all_served sock done s s' w) w.
Proof.
  wp_use server_run_listener_spec; [|exact Hcount|].
  - split; [by apply reachable_ok|done|done|done|reflexivity].
  - intros [r s'] w' (dn & rest & -> & Hm & Hst & Ha & Hend & Hall). exists dn, rest.
    split_and!; try done; apply Ha.
Qed.

(** Two connections, then SIGTERM while a third waits. *)
Definition demo_listen : list listen_event :=
  [ListenEvent (Others [] [] []) true;
   ListenEvent (Others [ActSet (bs "x")] [] []) false;
   ListenEvent (Others [] [ThreadCloses 1] [(bs "d/f", Some (NFile [1] 2))]) true;
   ListenEvent (Others [ActRequest SIGTERM] [ThreadEnds 1] []) true;
   ListenEvent (Others [] [] []) true].

Lemma server_run_listener_refines_witness :
  let w := demo_world [FShort 1; FErr EINTR] [] (demo_files demo_http_fs) in
  wp (server_run_listener demo_listen 3 demo_http_opt 0 system_start) (fun '(r, s') w' =>
    exists done rest, demo_listen = done ++ rest /\ meanwhile (map le_others done) w w' /\
      steps system_start s' /\ main s' = Accepting /\ (forall p, threads s' !! p <> Some Starting) /\
      listener_end done rest r w w' /\ all_served 3 done system_start s' w) w.
Proof.
  apply server_run_listener_refines; [apply steps_refl|reflexivity| | |by vm_compute].
  - intros p. cbn [threads system_start]. by rewrite lookup_empty.
  - intros k Hk. by apply elem_of_empty in Hk.
Defined.

(** The same without failures: it ends with the fourth event, two threads left. *)
Example demo_listen_run :
  (fun '(r, s, w) => (r, length (map_to_list (threads s)), g_signal (p_shutdown (w_prog w)))) <$>
    server_run_listener demo_listen 3 demo_http_opt 0 system_start
      (demo_world [] [] (demo_files demo_http_fs)) = Some (Some 130, 2%nat, SIGTERM).
Proof. vm_compute. reflexivity. Qed.
