(* ===== verification/Process.v ===== *)
(** * The life of the server process (src/server.c)

    From the command to the last byte: [server] forks, the parent waits for one
    byte, the child redirects its standard descriptors, opens the listener,
    records itself, reports, serves, and cleans up. What other threads do appears
    where the main thread waits, as in Listener. *)

From S2P Require Import Prelude CLib World Logic ConnTracker.
From S2P Require Import Signals Fs Net Protocol TransferIo MessageStore HttpBuf HttpJson.
From S2P Require Import Cli AppService PicoHttp HttpRequest HttpResponse WebUi HttpFiles HttpMessages Http Server.
From S2P Require Import Client DaemonState Control Daemon Connection Listener.

(** ** Definitions *)

(** *** The pipe to the parent *)

(** The write end, -1 when it is closed, and what was written to it. *)
Record ready_pipe := ReadyPipe { rp_fd : Z; rp_written : bytes }.

(** [write] on the pipe: how many bytes it took. *)
Definition sys_write_pipe (data : bytes) (p : ready_pipe) : M (Z * ready_pipe) :=
  let! f := pop_fault in
  match f with
  | FErr e => fail_with e (-1, p)
  | _ =>
      let d := ztake (limit f (zlen data)) data in
      ret (zlen d, ReadyPipe (rp_fd p) (rp_written p ++ d))
  end.

(** [read] on the other end when [content] is all that is written until the last
    writer closes it. *)
Definition sys_read_pipe (content : bytes) (len : Z) : M (Z * bytes) :=
  let! f := pop_fault in
  match f with
  | FErr e => fail_with e (-1, [])
  | _ => let d := ztake (limit f len) content in ret (zlen d, d)
  end.

Definition server_notify_parent (status : Z) (p : ready_pipe) : M (Z * ready_pipe) :=
  if rp_fd p <? 0 then ret (0, p)
  else
    let! (n, p) := sys_write_pipe [status] p in
    let! saved_errno := get_errno in
    let! _ := sys_close (rp_fd p) in
    set_errno saved_errno ;;!
    ret ((if n =? 1 then 0 else 1), ReadyPipe (-1) (rp_written p)).

(** *** The watcher's thread *)

(** The result and the context of the new thread. *)
Definition server_start_state_watcher (ser_opt : server_opt_t) (log_path : option bytes)
    (daemon_mode : Z) (initial_web_url : bytes) : M (Z * option server_state_watcher_ctx_t) :=
  match server_watcher_ctx ser_opt log_path daemon_mode initial_web_url with
  | None => ret (1, None)
  | Some ctx =>
      let! allocated := sys_malloc in
      if negb allocated then ret (1, None)
      else
        let! err := sys_pthread_create in
        if negb (err =? 0) then ret (1, None) else ret (0, Some ctx)
  end.

(** [others]: what runs until the watcher has ended. *)
Definition server_join_state_watcher (ctx : option server_state_watcher_ctx_t)
    (others : other_acts) (s : system) : M system :=
  match ctx with None => ret s | Some _ => run_other_acts others s end.

(** *** The main thread *)

(** What the environment contributes: the network's answer, the waits of the
    listener, what runs while the watcher is joined, and the waits for the last
    connection. *)
Record process_env := ProcessEnv {
  pe_host : option bytes;
  pe_listen : list listen_event;
  pe_join : other_acts;
  pe_idle : list other_acts
}.

Definition set_main (m : main_phase) (s : system) : system :=
  System (tracker s) (threads s) (open_socks s) m.

(** [server_conn_tracker_init], with the two calls of pthread. *)
Definition process_tracker_init (t : server_conn_tracker_t) : M (Z * server_conn_tracker_t) :=
  if initialized t then ret (server_conn_tracker_init true t)
  else
    let! r := sys_pthread_init in
    if negb (r =? 0) then ret (server_conn_tracker_init false t)
    else let! r := sys_pthread_init in ret (server_conn_tracker_init (r =? 0) t).

(** The loop of [server_conn_tracker_wait_idle]; [false]: it still waits. *)
Fixpoint process_wait_idle (waits : list other_acts) (s : system) : M (bool * system) :=
  if server_conn_tracker_wait_idle (tracker s) then ret (true, set_main Idle s)
  else
    match waits with
    | [] => ret (false, set_main Waiting s)
    | others :: waits =>
        let! s := run_other_acts others (set_main Waiting s) in
        process_wait_idle waits (set_main ShutDown s)
    end.

(** From the label [CLEAN_UP] on. *)
Definition process_clean_up (daemon_mode : Z) (ready_notified : bool) (p : ready_pipe) (s : system)
    : M (ready_pipe * system) :=
  let! p := (if (0 <=? rp_fd p) && negb ready_notified then
               let! (_, p) := server_notify_parent 0 p in ret p
             else ret p) in
  (if negb (daemon_mode =? 0) then daemon_state_cleanup_files else ret tt) ;;!
  message_store_cleanup ;;!
  ret (p, System (server_conn_tracker_cleanup (tracker s)) (threads s) (open_socks s) CleanedUp).

(** From the label [CLOSE_SOCK] on; [false]: it still waits for connections. *)
Definition process_close_sock (env : process_env) (sock : Z)
    (watcher : option server_state_watcher_ctx_t) (daemon_mode : Z) (ready_notified : bool)
    (p : ready_pipe) (s : system) : M (bool * ready_pipe * system) :=
  shutdown_request ;;!
  let! s := server_join_state_watcher watcher (pe_join env) s in
  message_store_shutdown ;;!
  let! _ := socket_close sock in
  match server_conn_tracker_shutdown_all (tracker s) with
  | None => out_of_fuel
  | Some (_, t) =>
      let! (idle, s) := process_wait_idle (pe_idle env) (System t (threads s) (open_socks s) ShutDown) in
      if negb idle then ret (false, p, s)
      else
        let! (p, s) := process_clean_up daemon_mode ready_notified p s in ret (true, p, s)
  end.

(** The result of the process, [None] while it runs. *)
Notation process_result := (option Z * ready_pipe * system)%type.

Definition process_exit (exit_code : Z) (m : M (bool * ready_pipe * system)) : M process_result :=
  let! (ended, p, s) := m in ret ((if ended : bool then Some exit_code else None), p, s).

(** From the report to the parent on. *)
Definition process_serve (env : process_env) (ser_opt : server_opt_t) (sock : Z)
    (watcher : option server_state_watcher_ctx_t) (daemon_mode : Z) (p : ready_pipe) (s : system)
    : M process_result :=
  let close_sock := process_close_sock env sock watcher daemon_mode in
  let! (r, ready_notified, p) :=
    (if 0 <=? rp_fd p then
       let! (r, p) := server_notify_parent 1 p in ret (r, r =? 0, p)
     else ret (0, false, p)) in
  if negb (r =? 0) then process_exit 1 (close_sock ready_notified p s)
  else
    let! (exit_code, s) := server_run_listener (pe_listen env) sock ser_opt 0 s in
    match exit_code with
    | None => ret (None, p, s)
    | Some exit_code => process_exit exit_code (close_sock ready_notified p s)
    end.

(** From [create_listener_socket] on. *)
Definition process_listen (env : process_env) (ser_opt : server_opt_t) (log_path : option bytes)
    (daemon_mode : Z) (p : ready_pipe) (s : system) : M process_result :=
  let close_sock sock := process_exit 1 (process_close_sock env sock None daemon_mode false p s) in
  let! (r, sock) := create_listener_socket None (s_port ser_opt) in
  if negb (r =? 0) then close_sock sock
  else if negb (daemon_mode =? 0) then
    let! (r, initial_web_url) :=
      server_persist_daemon_state (pe_host env) ser_opt log_path daemon_mode 256 in
    if negb (r =? 0) then close_sock sock
    else
      let! (_, watcher) := server_start_state_watcher ser_opt log_path daemon_mode initial_web_url in
      process_serve env ser_opt sock watcher daemon_mode p s
  else process_serve env ser_opt sock None daemon_mode p s.

Definition server_run_process (env : process_env) (ser_opt : server_opt_t) (log_path : option bytes)
    (daemon_mode : Z) (p : ready_pipe) (t : server_conn_tracker_t) : M process_result :=
  let stop := fun t =>
    let! (p, s) := process_clean_up daemon_mode false p (System t ∅ ∅ Accepting) in
    ret (Some 1, p, s) in
  match s_path ser_opt with
  | None | Some [] => stop t
  | Some _ =>
      let! r := message_store_init in
      if negb (r =? 0) then stop t
      else
        let! (r, t) := process_tracker_init t in
        if negb (r =? 0) then stop t
        else process_listen env ser_opt log_path daemon_mode p (System t ∅ ∅ Accepting)
  end.

(** *** Starting the daemon *)

Definition O_APPEND : Z := 1024.
Definition EADDRINUSE : Z := 98.

(** [dup2]. *)
Definition sys_dup2 (old new : Z) : M Z :=
  let! f := pop_fault in
  match f with
  | FErr e => fail_with e (-1)
  | _ =>
      let! w := get in
      match f_fds (w_files w) !! old with
      | Some d => modify (set_fd new d) ;;! ret new
      | None => fail_with EBADF (-1)
      end
  end.

Definition server_redirect_stdio (log_path : bytes) : M Z :=
  let! err_fd := sys_open log_path (Z.lor O_CREAT (Z.lor O_WRONLY O_APPEND)) in
  if err_fd <? 0 then ret 1
  else
    let! null_fd := sys_open (bs "/dev/null") O_RDONLY in
    if null_fd <? 0 then let! _ := sys_close err_fd in ret 1
    else
      let close_both r :=
        let! _ := sys_close null_fd in
        let! _ := sys_close err_fd in
        ret r in
      let! r := sys_dup2 null_fd 0 in
      if r <? 0 then close_both 1
      else
        let! r := sys_dup2 null_fd 1 in
        if r <? 0 then close_both 1
        else
          let! r := sys_dup2 err_fd 2 in
          if r <? 0 then close_both 1 else close_both 0.

(** [reported]: what the child writes to the pipe before it closes it. *)
Definition server_wait_for_daemon_ready (ready_fd : Z) (reported : bytes) : M Z :=
  let! (n, status) := sys_read_pipe reported 1 in
  let! _ := sys_close ready_fd in
  if (n =? 1) && (nth 0 status 0 =? 1) then ret 0
  else let! _ := sys_sockcall in ret 1.

(** Which process goes on: the one that called [fork] when it fails, the parent,
    or the child. The process id of the world is the id of that process. *)
Inductive fork_result :=
  | ForkFails
  | ForkParent (reported : bytes)
  | ForkChild.

(** What the child does. *)
Definition server_child (env : process_env) (opt : server_opt_t) (log_path : bytes) (write_fd : Z)
    (t : server_conn_tracker_t) : M process_result :=
  let p := ReadyPipe write_fd [] in
  let s := System t ∅ ∅ Accepting in
  let refuse := let! (_, p) := server_notify_parent 0 p in ret (Some 1, p, s) in
  let! r := sys_sockcall in
  if r <? 0 then refuse
  else
    let! r := server_redirect_stdio log_path in
    if negb (r =? 0) then refuse
    else
      let! w := get in
      let child_opt := ServerOpt (s_path opt) (s_port opt) (e_pid (w_env w)) in
      server_run_process env child_opt (Some log_path) 1 p t.

Definition server (env : process_env) (fork : fork_result) (ser_opt : option server_opt_t)
    (procs : procs_t) (t : server_conn_tracker_t) : M (process_result * procs_t) :=
  let s := System t ∅ ∅ Accepting in
  let done r procs := ret (Some r, ReadyPipe (-1) [], s, procs) in
  match ser_opt with
  | None => done 1 procs
  | Some opt =>
      let! w := get in
      let '(r, log_path) := daemon_state_default_log_path (e_tmpdir (w_env w)) PATH_CAP in
      if negb (r =? 0) then done 1 procs
      else
        let! (r, procs) := server_prepare_daemon_state procs in
        if negb (r =? 0) then done 1 procs
        else
          let! ready_pipe := sys_pipe in
          match ready_pipe with
          | None => done 1 procs
          | Some (read_fd, write_fd) =>
              match fork with
              | ForkFails =>
                  let! _ := sys_close read_fd in
                  let! _ := sys_close write_fd in
                  done 1 procs
              | ForkParent reported =>
                  let! _ := sys_close write_fd in
                  let! r := server_wait_for_daemon_ready read_fd reported in
                  done (if negb (r =? 0) then 1 else 0) procs
              | ForkChild =>
                  let! _ := sys_close read_fd in
                  let! x := server_child env opt log_path write_fd t in
                  ret (x, procs)
              end
          end
  end.

(** *** The program (src/hfile.c) *)

(** [main]; [None]: the process still runs. *)
Definition hfile_command (env : process_env) (fork : fork_result) (o : Opt) (procs : procs_t)
    (t : server_conn_tracker_t) : M (option Z) :=
  match mode o with
  | server_mode =>
      let! (x, _) := server env fork (Some (init_server_opt o (ServerOpt None 0 0))) procs t in
      ret (fst (fst x))
  | client_mode => let! r := client (Some (init_client_opt o)) in ret (Some r)
  | status_mode => let! (r, _) := control_status procs in ret (Some r)
  | stop_mode => let! (r, _) := control_stop procs in ret (Some r)
  end.

Definition hfile_main (env : process_env) (fork : fork_result) (argv : list bytes) (procs : procs_t)
    (t : server_conn_tracker_t) : M (option Z) :=
  let clean_up r := shutdown_cleanup ;;! ret (Some r) in
  let! r := shutdown_init in
  if negb (r =? 0) then clean_up 1
  else
    match parse_args argv server_mode with
    | (PARSE_HELP, _) => clean_up 0
    | (PARSE_ERR, _) => clean_up 1
    | (PARSE_OK, o) =>
        let! r := hfile_command env fork o procs t in
        match r with
        | None => ret None
        | Some r =>
            let! sig := shutdown_signal_number in
            let r := if negb (sig =? 0) then shutdown_exit_code else r in
            clean_up r
        end
    end.

(** *** Specifications *)

(** The changes do not put a directory in the place of [path]. *)
Definition no_dir_at (path : bytes) (changes : list (bytes * option node)) : Prop :=
  Forall (fun c => fst c = path -> forall m, snd c <> Some (NDir m)) changes.

(** The state of the process since [w0]: its descriptors are [fds], and the path of
    the state file does not name a directory. *)
Record process_ok (w0 : world) (fds : gmap Z fdesc) (w : world) : Prop := {
  po_env : w_env w = w_env w0;
  po_faults : (flen w <= flen w0)%nat;
  po_fds : f_fds (w_files w) = fds;
  po_files : fds_ok (w_files w);
  po_state : forall m, f_fs (w_files w) !! state_path (e_tmpdir (w_env w0)) <> Some (NDir m)
}.

(** The program's statics, after the cleanup. *)
Definition store_cleaned (s : message_store_state_t) : Prop :=
  ms_initialized s = false.

(** What follows the label [CLEAN_UP] leaves: no message store, no tracker, and,
    when nothing fails, no state file. *)
Definition cleaned_up (w0 w : world) (s : system) : Prop :=
  ms_initialized (p_store (w_prog w)) = false /\ initialized (tracker s) = false /\
  threads s = ∅ /\ main s = CleanedUp /\
  (w_faults w0 = [] -> zlen (state_path (e_tmpdir (w_env w0))) < PATH_CAP ->
   f_fs (w_files w) !! state_path (e_tmpdir (w_env w0)) = None).

(** What became of the pipe when [b] was reported, or could not be. *)
Definition reported (b : Z) (p p' : ready_pipe) : Prop :=
  rp_fd p' = -1 /\ (rp_written p' = rp_written p ++ [b] \/ rp_written p' = rp_written p).

(** ** Theorems *)

(** *** The state of the process *)

Lemma change_files_no_dir path changes fs :
  no_dir_at path changes -> (forall m, fs !! path <> Some (NDir m)) ->
  forall m, fold_left change_file changes fs !! path <> Some (NDir m).
Proof.
  intros H. revert fs. induction H as [|[q o] changes Hc _ IH]; intros fs Hfs; [done|].
  apply IH. intros m. unfold change_file. cbn [fst snd] in *.
  destruct o as [n|]; destruct (decide (q = path)) as [->|Hne].
  - rewrite lookup_insert_eq. intros [= ->]. by apply (Hc eq_refl m).
  - by rewrite lookup_insert_ne.
  - by rewrite lookup_delete_eq.
  - by rewrite lookup_delete_ne.
Qed.

Lemma no_dir_one path o : no_dir_at path (oa_files o) -> no_dir_at path (all_files [o]).
Proof. cbn [map concat]. by rewrite app_nil_r. Qed.

Lemma fds_ok_files f f' : fds_ok f -> f_fds f' = f_fds f -> f_next f <= f_next f' -> fds_ok f'.
Proof. intros [H0 H] E Hn. split; [lia|]. intros n Hle. rewrite E. apply H. lia. Qed.

Lemma process_ok_files w0 fds w w' :
  process_ok w0 fds w -> w_env w' = w_env w -> (flen w' <= flen w)%nat ->
  f_fds (w_files w') = f_fds (w_files w) -> f_next (w_files w) <= f_next (w_files w') ->
  (forall m, f_fs (w_files w') !! state_path (e_tmpdir (w_env w0)) <> Some (NDir m)) ->
  process_ok w0 fds w'.
Proof.
  intros [H1 H2 H3 H4 H5] He Hl Hf Hn Hd.
  split; [congruence|lia|congruence|by eapply fds_ok_files|done].
Qed.

Lemma process_ok_same w0 fds w w' :
  process_ok w0 fds w -> w_env w' = w_env w -> (flen w' <= flen w)%nat -> w_files w' = w_files w ->
  process_ok w0 fds w'.
Proof.
  intros H He Hl Hf. eapply process_ok_files; [exact H|done|done|by rewrite Hf|rewrite Hf; lia|].
  rewrite Hf. apply H.
Qed.

Lemma process_ok_meanwhile w0 fds os w w' :
  process_ok w0 fds w -> no_dir_at (state_path (e_tmpdir (w_env w0))) (all_files os) ->
  meanwhile os w w' -> process_ok w0 fds w'.
Proof.
  intros H Hd [H1 _ _ H2 _ _ H3 H4 _ H5].
  eapply process_ok_files; [exact H|done|done|done|done|]. rewrite H3.
  apply change_files_no_dir; [done|apply H].
Qed.

Lemma process_ok_calm w0 fds w : process_ok w0 fds w -> w_faults w0 = [] -> w_faults w = [].
Proof. intros H. rewrite !no_faults_flen. pose proof (po_faults _ _ _ H). lia. Qed.

(** *** The pieces *)

Lemma server_notify_parent_spec b p w0 fds w :
  process_ok w0 fds w -> 0 <= rp_fd p ->
  wp (server_notify_parent b p) (fun '(r, p') w' =>
    process_ok w0 (delete (rp_fd p) fds) w' /\ w_prog w' = w_prog w /\
    f_fs (w_files w') = f_fs (w_files w) /\ f_next (w_files w') = f_next (w_files w) /\ rp_fd p' = -1 /\
    (r = 0 /\ rp_written p' = rp_written p ++ [b] \/ r = 1 /\ rp_written p' = rp_written p) /\
    (w_faults w = [] -> r = 0)) w.
Proof.
  intros Hok Hfd. unfold server_notify_parent. destruct (Z.ltb_spec (rp_fd p) 0); [lia|].
  wp_step. unfold sys_write_pipe.
  set (Q := fun '(r, p') w' => _).
  assert (Hgo : forall n d w1, only_errno w w1 ->
    (n =? 1) = true /\ d = [b] \/ (n =? 1) = false /\ d = [] /\ w_faults w <> [] ->
    wp (let! saved_errno := get_errno in
        let! _ := sys_close (rp_fd p) in
        set_errno saved_errno ;;!
        ret ((if n =? 1 then 0 else 1), ReadyPipe (-1) (rp_written p ++ d))) Q w1).
  { intros n d w1 Hf1 Hd. do 3 wp_step. apply wp_sys_close. intros x w2 Hf2 _ _ Hw2.
    wp_step. unfold set_errno. do 2 wp_step.
    assert (Hw : w_files w1 = w_files w) by frame. rewrite Hw in Hw2. unfold Q.
    cbn [set_errno_w w_files w_prog]. rewrite Hw2. cbn [set_fds f_fs f_next rp_fd rp_written].
    split; [|split; [frame|split; [done|split; [done|split; [done|]]]]].
    - destruct Hok as [K1 K2 K3 [K4 K5] K6].
      split; cbn [set_errno_w w_files w_env]; rewrite ?Hw2; cbn [set_fds f_fds f_fs]; try done.
      + assert (w_env w2 = w_env w) as -> by frame. done.
      + change (flen w2 <= flen w0)%nat. assert (flen w2 <= flen w)%nat by frame. lia.
      + by rewrite K3.
      + split; [done|]. cbn [f_next f_fds set_fds]. intros k Hk. rewrite lookup_delete_None.
        right. by apply K5.
    - destruct Hd as [[-> ->]|(-> & -> & Hne)].
      + split; [by left|done].
      + split; [right; by rewrite app_nil_r|done]. }
  wp_step. apply wp_pop_fault. intros f w1 Hf1 _ Hlt H0. destruct f as [|e|k].
  - wp_step. apply (Hgo 1 [b]); [done|]. by left.
  - wp_step. pose proof (Hgo (-1) [] (set_errno_w e w1)) as Hs. rewrite app_nil_r in Hs.
    apply Hs; [frame|]. right. split; [done|]. split; [done|]. intros E. by destruct (H0 E) as [? _].
  - assert (Hne : w_faults w <> []) by (intros E; by destruct (H0 E) as [? _]).
    wp_step. cbv zeta. apply Hgo; [done|]. cbn [limit List.length].
    destruct (Z.leb_spec 1 k) as [Hk|Hk].
    + left. replace (Z.max 0 (Z.min k (Z.of_nat 1))) with 1 by lia. done.
    + right. replace (Z.max 0 (Z.min k (Z.of_nat 1))) with 0 by lia. done.
Qed.

Lemma run_thread_acts_waiting acts s :
  main s = Waiting \/ main s = ShutDown ->
  main (run_thread_acts acts s) = Waiting \/ main (run_thread_acts acts s) = ShutDown.
Proof.
  revert s. induction acts as [|a acts IH]; intros s Hs; [done|]. apply IH.
  destruct a as [p|p]; cbn [run_thread_act].
  - destruct (threads s !! p) as [[| |]|]; try done. by destruct (entries (tracker s) !! p).
  - destruct (threads s !! p) as [[| |]|]; try done.
    destruct (server_conn_tracker_end (Some p) (tracker s)) as [[b t]|]; [|done]. cbn [main].
    destruct Hs as [->| ->]; [|by right]. destruct b; auto.
Qed.

(** The main thread's steps, on a system as a whole. *)
Lemma step_wait_main s :
  main s = ShutDown -> server_conn_tracker_wait_idle (tracker s) = false -> steps s (set_main Waiting s).
Proof.
  destruct s as [t ths socks m]. cbn [main tracker]. intros -> H.
  eapply steps_one; [by apply step_wait|apply steps_refl].
Qed.
Lemma step_idle_main s :
  main s = ShutDown -> server_conn_tracker_wait_idle (tracker s) = true -> steps s (set_main Idle s).
Proof.
  destruct s as [t ths socks m]. cbn [main tracker]. intros -> H.
  eapply steps_one; [by apply step_idle|apply steps_refl].
Qed.
Lemma step_woken_main s : main s = Waiting \/ main s = ShutDown -> steps s (set_main ShutDown s).
Proof.
  destruct s as [t ths socks m]. cbn [main]. intros [->| ->]; [|apply steps_refl].
  eapply steps_one; [apply step_spurious|apply steps_refl].
Qed.

(** A wait for the last connection is a path of the system. *)
Lemma wait_steps acts s :
  main s = ShutDown -> server_conn_tracker_wait_idle (tracker s) = false ->
  steps s (set_main ShutDown (run_thread_acts acts (set_main Waiting s))).
Proof.
  intros Hm Hw. eapply steps_trans; [by apply step_wait_main|].
  eapply steps_trans; [apply run_thread_acts_steps|]. apply step_woken_main, run_thread_acts_waiting.
  by left.
Qed.

(** How waiting for the last connection ends: with the list empty, or not yet. *)
Lemma process_wait_idle_spec waits s w0 fds w :
  process_ok w0 fds w -> no_dir_at (state_path (e_tmpdir (w_env w0))) (all_files waits) ->
  main s = ShutDown ->
  wp (process_wait_idle waits s) (fun '(idle, s') w' =>
    process_ok w0 fds w' /\ steps s s' /\
    (idle = true /\ main s' = Idle \/
     idle = false /\ main s' = Waiting /\ server_conn_tracker_wait_idle (tracker s') = false) /\
    (server_conn_tracker_wait_idle (tracker s) = true -> idle = true)) w.
Proof.
  revert s w. induction waits as [|others waits IH]; intros s w Hok Hd Hm; cbn [process_wait_idle];
    destruct (server_conn_tracker_wait_idle (tracker s)) eqn:Ew.
  1,3: wp_step; (split; [done|]); (split; [by apply step_idle_main|]); (split; [by left|done]).
  - wp_step. split; [done|]. split; [by apply step_wait_main|]. split; [by right|done].
  - unfold no_dir_at in Hd. cbn [map concat] in Hd. apply Forall_app in Hd as [Hd1 Hd2].
    wp_step. wp_use run_other_acts_spec. intros s1 w1 (-> & Hm1 & _).
    wp_use IH; [|exact Hd2|done|].
    { eapply process_ok_meanwhile; [exact Hok|by apply no_dir_one|exact Hm1]. }
    intros [idle s'] w' (Hok' & Hst & Hend & _). split; [done|].
    split; [eapply steps_trans; [by apply wait_steps|exact Hst]|]. split; [done|discriminate].
Qed.

Lemma process_ok_store w0 fds s w :
  process_ok w0 fds w -> process_ok w0 fds (set_prog (Prog s (p_shutdown (w_prog w))) w).
Proof. intros H. by eapply process_ok_same. Qed.

Lemma message_store_shutdown_ok w0 fds w :
  process_ok w0 fds w ->
  wp message_store_shutdown (fun _ w' => process_ok w0 fds w' /\
    p_shutdown (w_prog w') = p_shutdown (w_prog w) /\ w_files w' = w_files w) w.
Proof.
  intros H. unfold message_store_shutdown. wp_step. apply wp_get_store.
  destruct (ms_initialized (p_store (w_prog w))); cbn [negb].
  - apply wp_put_store. split; [by apply process_ok_store|done].
  - by wp_step.
Qed.

Lemma message_store_cleanup_ok w0 fds w :
  process_ok w0 fds w ->
  wp message_store_cleanup (fun _ w' => process_ok w0 fds w' /\
    ms_initialized (p_store (w_prog w')) = false /\ w_files w' = w_files w) w.
Proof.
  intros H. unfold message_store_cleanup. wp_step. apply wp_get_store.
  destruct (ms_initialized (p_store (w_prog w))) eqn:E; cbn [negb]; [|by wp_step].
  wp_step. wp_use message_store_shutdown_ok; [done|]. intros _ w1 (H1 & _ & Hf).
  wp_step. apply wp_get_store, wp_put_store. split; [by apply process_ok_store|done].
Qed.

(** *** From CLEAN_UP on *)

(** The pipe after the cleanup of a process that has not reported yet. *)
Definition report_failure (ready_notified : bool) (p p' : ready_pipe) : Prop :=
  if (0 <=? rp_fd p) && negb ready_notified then reported 0 p p' else p' = p.

Definition fds_after (ready_notified : bool) (p : ready_pipe) (fds : gmap Z fdesc) : gmap Z fdesc :=
  if (0 <=? rp_fd p) && negb ready_notified then delete (rp_fd p) fds else fds.

Lemma tracker_cleaned t : initialized (server_conn_tracker_cleanup t) = false.
Proof. unfold server_conn_tracker_cleanup. by destruct (initialized t) eqn:E. Qed.

Lemma process_clean_up_spec notified p s w0 fds w :
  process_ok w0 fds w -> threads s = ∅ ->
  wp (process_clean_up 1 notified p s) (fun '(p', s') w' =>
    process_ok w0 (fds_after notified p fds) w' /\ report_failure notified p p' /\
    s' = System (server_conn_tracker_cleanup (tracker s)) (threads s) (open_socks s) CleanedUp /\
    cleaned_up w0 w' s') w.
Proof.
  intros Hok Hth. unfold process_clean_up, report_failure, fds_after. wp_step.
  set (c := (0 <=? rp_fd p) && negb notified). set (fds' := if c then _ else fds).
  assert (Hgo : forall p' w1, process_ok w0 fds' w1 -> (if c then reported 0 p p' else p' = p) ->
    wp ((if negb (1 =? 0) then daemon_state_cleanup_files else ret tt) ;;!
        message_store_cleanup ;;!
        ret (p', System (server_conn_tracker_cleanup (tracker s)) (threads s) (open_socks s) CleanedUp))
      (fun '(p', s') w' => process_ok w0 fds' w' /\ (if c then reported 0 p p' else p' = p) /\
        s' = System (server_conn_tracker_cleanup (tracker s)) (threads s) (open_socks s) CleanedUp /\
        cleaned_up w0 w' s') w1).
  { intros p' w1 Hok1 Hp'. change (negb (1 =? 0)) with true. cbv iota. wp_step.
    wp_use cleanup_files_spec; [rewrite (po_env _ _ _ Hok1); apply Hok1|].
    intros _ w2 (Hf2 & Hfd & Hn & Hst & Hcalm).
    unfold state_file_kept, state_file_removed in *. rewrite (po_env _ _ _ Hok1) in *.
    assert (Hok2 : process_ok w0 fds' w2).
    { eapply process_ok_files; [exact Hok1|frame|frame|done|lia|]. intros m.
      destruct Hst as [->| ->]; [apply Hok1|]. by rewrite lookup_delete_eq. }
    wp_step. wp_use message_store_cleanup_ok; [done|]. intros _ w3 (Hok3 & Hi & Hw3). wp_step.
    split; [done|]. split; [done|]. split; [done|]. split; [done|].
    split; [apply tracker_cleaned|]. split; [done|]. split; [done|].
    intros E Hl. rewrite Hw3, Hcalm; [by rewrite lookup_delete_eq| |done]. by eapply process_ok_calm. }
  unfold c, fds' in *. destruct (Z.leb_spec 0 (rp_fd p)) as [Hfd|Hfd]; cbn [andb] in *;
    [destruct notified; cbn [negb] in *|].
  - wp_step. by apply Hgo.
  - wp_step. wp_use server_notify_parent_spec; [done|done|]. intros [r p'] w1 (Hok1 & _ & _ & _ & Hp & Hw & _).
    wp_step. apply Hgo; [done|]. split; [done|]. destruct Hw as [[_ ?]|[_ ?]]; auto.
  - wp_step. by apply Hgo.
Qed.

(** *** From CLOSE_SOCK on *)

Lemma run_thread_acts_none acts s : threads s = ∅ -> run_thread_acts acts s = s.
Proof.
  intros Hs. induction acts as [|a acts IH]; [done|].
  change (run_thread_acts acts (run_thread_act a s) = s).
  assert (run_thread_act a s = s) as ->; [|done].
  destruct a; cbn [run_thread_act]; by rewrite Hs, lookup_empty.
Qed.

Lemma server_join_state_watcher_spec watcher others s w0 fds w n next :
  process_ok w0 fds w -> accepting n next s ->
  no_dir_at (state_path (e_tmpdir (w_env w0))) (oa_files others) ->
  wp (server_join_state_watcher watcher others s) (fun s' w' =>
    process_ok w0 fds w' /\ steps s s' /\ accepting n next s' /\ (threads s = ∅ -> s' = s) /\
    (g_requested (p_shutdown (w_prog w)) <> 0 -> g_requested (p_shutdown (w_prog w')) <> 0)) w.
Proof.
  intros Hok Ha Hd. unfold server_join_state_watcher. destruct watcher as [ctx|].
  - wp_use run_other_acts_spec. intros s' w' (-> & Hm & _).
    split; [eapply process_ok_meanwhile; [exact Hok|by apply no_dir_one|exact Hm]|].
    destruct (run_thread_acts_accepting (oa_threads others) _ _ _ Ha). split; [done|]. split; [done|].
    split; [apply run_thread_acts_none|]. rewrite (mw_shutdown _ _ _ Hm). apply run_requests_requested.
  - wp_step. split; [done|]. split; [apply steps_refl|done].
Qed.

(** [process_close_sock], with a system that accepts no more. *)
Definition close_result (w0 : world) (fds : gmap Z fdesc) (notified : bool) (p : ready_pipe) (s : system)
    (x : bool * ready_pipe * system) (w : world) : Prop :=
  let '(ended, p', s') := x in
  steps s s' /\
  (ended = true /\ process_ok w0 (fds_after notified p fds) w /\ report_failure notified p p' /\
     cleaned_up w0 w s' \/
   ended = false /\ process_ok w0 fds w /\ p' = p /\ main s' = Waiting /\
     server_conn_tracker_wait_idle (tracker s') = false) /\
  (threads s = ∅ -> ended = true).

Lemma process_close_sock_spec env sock watcher notified p s w0 fds w n next :
  process_ok w0 fds w -> accepting n next s ->
  no_dir_at (state_path (e_tmpdir (w_env w0))) (oa_files (pe_join env)) ->
  no_dir_at (state_path (e_tmpdir (w_env w0))) (all_files (pe_idle env)) ->
  wp (process_close_sock env sock watcher 1 notified p s) (close_result w0 fds notified p s) w.
Proof.
  intros Hok Ha Hj Hi. unfold process_close_sock. wp_step. unfold shutdown_request.
  wp_step. apply wp_get_shutdown. unfold put_shutdown. do 2 wp_step.
  wp_use server_join_state_watcher_spec; [by eapply process_ok_same|exact Ha|exact Hj|].
  intros s1 w1 (Hok1 & Hst1 & Ha1 & Hnone & _).
  wp_step. wp_use message_store_shutdown_ok; [done|]. intros _ w2 (Hok2 & _ & _).
  wp_step. apply wp_socket_close. intros x w3 Hf3.
  assert (Hok3 : process_ok w0 fds w3) by (eapply process_ok_same; [exact Hok2|frame|frame|frame]).
  destruct s1 as [t ths socks m]. destruct Ha1 as [Hsys Hm Hcr _ _]. cbn [main] in Hm. subst m.
  pose proof Hsys as (Hd & (l & Hl) & Hinit & _). cbn [tracker threads] in *.
  destruct (shutdown_all_ok t l Hl Hinit) as (t' & Et & Hl' & Hdown & Hi' & Hd').
  cbn [open_socks threads tracker]. rewrite Et.
  set (s2 := System t' ths socks ShutDown).
  assert (Hst2 : steps s s2).
  { eapply steps_trans; [exact Hst1|]. eapply steps_one; [by apply step_stop|].
    eapply steps_one; [|apply steps_refl]. by eapply step_shutdown. }
  assert (Hok2s : system_ok s2).
  { eapply steps_ok; [exact Hsys|]. eapply steps_one; [by apply step_stop|].
    eapply steps_one; [|apply steps_refl]. by eapply step_shutdown. }
  assert (Hidle : threads s = ∅ -> server_conn_tracker_wait_idle (tracker s2) = true).
  { intros E. specialize (Hnone E). destruct Hl' as (_ & _ & Hdl & Hn & _).
    rewrite <- Hnone in E. cbn [threads] in E. subst ths. rewrite dom_empty_L in Hd.
    rewrite Hd', Hd in Hdl. destruct l as [|q l].
    - unfold server_conn_tracker_wait_idle, s2. cbn [tracker]. rewrite Hn. apply orb_true_r.
    - exfalso. clear -Hdl. set_solver. }
  wp_step. wp_use process_wait_idle_spec; [exact Hok3|exact Hi|done|].
  intros [idle s3] w4 (Hok4 & Hst3 & Hend & Hlive).
  assert (Hst : steps s s3) by (by eapply steps_trans).
  destruct Hend as [[-> Hm3]|(-> & Hm3 & Hw3)]; cbn [negb].
  - wp_step. assert (Hth : threads s3 = ∅).
    { assert (Hs3 : system_ok s3) by (by eapply steps_ok). destruct Hs3 as (_ & _ & H). rewrite Hm3 in H. apply H. }
    wp_use process_clean_up_spec; [exact Hok4|exact Hth|]. intros [p' s4] w5 (Hok5 & Hp & -> & Hcl). wp_step.
    split; [|split; [by left|done]]. eapply steps_trans; [exact Hst|].
    destruct s3 as [t3 ths3 socks3 m3]. cbn [main] in Hm3. subst m3.
    eapply steps_one; [apply step_cleanup|apply steps_refl].
  - wp_step. split; [done|]. split; [by right|]. intros E. by rewrite Hlive in * by auto.
Qed.

(** *** The whole process *)

Lemma server_start_state_watcher_spec opt logp mode url w :
  wp (server_start_state_watcher opt logp mode url) (fun _ w' => only_errno w w') w.
Proof.
  unfold server_start_state_watcher. destruct (server_watcher_ctx opt logp mode url) as [ctx|]; [|by wp_step].
  wp_step. apply wp_sys_malloc; intros w1 Hf1 _; cbn [negb]; [by wp_step|].
  wp_step. unfold sys_pthread_create. wp_step. apply wp_pop_fault. intros f w2 Hf2 _ _ _.
  assert (only_errno w w2) by (by etrans).
  destruct f as [|e|k]; wp_step; [by wp_step| |by wp_step]. by destruct (negb (e =? 0)); wp_step.
Qed.

(** How the process ends, or goes on, when [fd] is the pipe's end and [fds] are its
    descriptors: it could not start; or it served -- from [w1] on, where it was
    recorded as [rec] and had reported so. *)
Inductive process_end (env : process_env) (opt : server_opt_t) (rec : daemon_state_t) (fds : gmap Z fdesc)
    (w0 : world) : process_result -> world -> Prop :=
  | process_failed p s w :
      rp_fd p = -1 -> rp_written p = [0] \/ rp_written p = [] ->
      process_ok w0 fds w -> cleaned_up w0 w s -> process_end env opt rec fds w0 (Some 1, p, s) w
  | process_served sock w1 lr s1 w2 r s w :
      0 <= sock -> recorded rec w1 -> process_ok w0 fds w1 ->
      server_run_listener (pe_listen env) sock opt 0 system_start w1 = Some ((lr, s1), w2) ->
      process_ok w0 fds w -> steps system_start s ->
      lr = None /\ r = None /\ s = s1 /\ g_requested (p_shutdown (w_prog w)) = 0 \/
      lr = Some 130 /\ r = None /\ main s = Waiting /\ server_conn_tracker_wait_idle (tracker s) = false \/
      lr = Some 130 /\ r = Some 130 /\ cleaned_up w0 w s ->
      process_end env opt rec fds w0 (r, ReadyPipe (-1) [1], s) w.

(** The changes of other threads, all through the run. *)
Definition env_no_dir (path : bytes) (env : process_env) : Prop :=
  no_dir_at path (all_files (map le_others (pe_listen env))) /\
  no_dir_at path (oa_files (pe_join env)) /\ no_dir_at path (all_files (pe_idle env)).

Lemma start_accepting next : 0 <= next -> accepting 0 next system_start.
Proof.
  intros H. split; [apply start_ok|done| |intros k Hk; by apply elem_of_empty in Hk|done].
  intros p. cbn [threads system_start]. by rewrite lookup_empty.
Qed.

(** Closing down before anything was served. *)
Lemma close_sock_early env opt rec sock watcher p w0 fds w :
  process_ok w0 fds w -> env_no_dir (state_path (e_tmpdir (w_env w0))) env ->
  (0 <= rp_fd p /\ rp_written p = [] \/ rp_fd p = -1 /\ rp_written p = []) ->
  wp (process_exit 1 (process_close_sock env sock watcher 1 false p system_start))
     (process_end env opt rec (fds_after false p fds) w0) w.
Proof.
  intros Hok (_ & Hj & Hi) Hp. unfold process_exit. wp_step.
  wp_use process_close_sock_spec; [exact Hok|by apply (start_accepting 0)|exact Hj|exact Hi|].
  intros [[ended p'] s'] w' (_ & [(-> & Hok' & Hr & Hc)|(-> & _)] & Hlive).
  - wp_step. unfold report_failure in Hr. destruct (Z.leb_spec 0 (rp_fd p)) as [Hfd|Hfd]; cbn [andb negb] in Hr.
    + destruct Hp as [[_ Hw]|[? _]]; [|lia]. destruct Hr as [Hr1 Hr2]. rewrite Hw in Hr2.
      by constructor.
    + subst p'. destruct Hp as [[? _]|[Hp Hw]]; [lia|]. constructor; auto.
  - by specialize (Hlive eq_refl).
Qed.

Lemma process_serve_spec env opt rec sock watcher fd w0 fds w :
  process_ok w0 fds w -> env_no_dir (state_path (e_tmpdir (w_env w0))) env -> 0 <= fd -> 0 <= sock ->
  recorded rec w -> zlen (pe_listen env) < 2 ^ 32 ->
  wp (process_serve env opt sock watcher 1 (ReadyPipe fd []) system_start) (fun x w' =>
    process_end env opt rec (delete fd fds) w0 x w' /\
    (w_faults w = [] -> rp_written (snd (fst x)) = [1])) w.
Proof.
  intros Hok Hd Hfd Hsock Hrec Hlen. unfold process_serve. cbn [rp_fd].
  destruct (Z.leb_spec 0 fd); [|lia]. wp_step. wp_step.
  wp_use server_notify_parent_spec; [exact Hok|done|].
  intros [r p] w1 (Hok1 & Hp1 & Hfs1 & _ & Hfd1 & Hw1 & Hcalm). cbn [rp_fd rp_written] in *. wp_step.
  destruct Hw1 as [[-> Hw1]|[-> Hw1]]; cbn [negb Z.eqb].
  2:{ eapply wp_mono; [eapply (close_sock_early env opt rec _ _ _ _ _ _ Hok1 Hd); by right|].
      intros x w' Hx. unfold fds_after in Hx. rewrite Hfd1 in Hx. split; [exact Hx|].
      intros E. by specialize (Hcalm E). }
  assert (Hrec1 : recorded rec w1).
  { unfold recorded. rewrite Hfs1, (po_env _ _ _ Hok1), <- (po_env _ _ _ Hok). exact Hrec. }
  destruct p as [fd' wr]. cbn [rp_fd rp_written app] in *. subst fd' wr.
  wp_step. eapply wp_mono; [eapply wp_with_run, server_run_listener_spec|].
  { apply start_accepting. apply Hok1. }
  { lia. }
  intros [lr s1] w2 [Hrun (dn & rest & Hev & Hm & Hst & Ha & Hend & _)]. cbn [fst snd] in *.
  destruct Hd as (Hl & Hj & Hi).
  assert (Hok2 : process_ok w0 (delete fd fds) w2).
  { eapply process_ok_meanwhile; [exact Hok1| |exact Hm]. rewrite Hev, map_app, map_app, concat_app in Hl.
    by apply Forall_app in Hl as [? _]. }
  destruct Hend as [(-> & -> & Hg)|(-> & _ & _)].
  - wp_step. split; [|done]. eapply process_served; [exact Hsock|exact Hrec1|exact Hok1|exact Hrun|exact Hok2|exact Hst|by left].
  - unfold process_exit. wp_step. wp_use process_close_sock_spec; [exact Hok2|exact Ha|exact Hj|exact Hi|].
    intros [[ended p'] s'] w' (Hst' & Hcl & _). assert (Hall : steps system_start s') by (by eapply steps_trans).
    wp_step. destruct Hcl as [(-> & Hok' & -> & Hc)|(-> & Hok' & -> & Hm' & Hw')].
    + split; [|done]. eapply process_served; [exact Hsock|exact Hrec1|exact Hok1|exact Hrun|exact Hok'|exact Hall|].
      right. by right.
    + split; [|done]. eapply process_served; [exact Hsock|exact Hrec1|exact Hok1|exact Hrun|exact Hok'|exact Hall|].
      right. by left.
Qed.

Lemma process_ok_persisted w0 fds text r w w' :
  process_ok w0 fds w -> only_files w w' ->
  text_file_outcome (state_path (e_tmpdir (w_env w))) text r w w' -> process_ok w0 fds w'.
Proof.
  intros Hok Hf (Hfd & Hn & Hout). eapply process_ok_files; [exact Hok|frame|frame|done|done|].
  assert (Hins : forall p d k, f_fs (w_files w') = <[p := NFile d k]> (f_fs (w_files w)) ->
    forall m, f_fs (w_files w') !! state_path (e_tmpdir (w_env w0)) <> Some (NDir m)).
  { intros p d k -> m. destruct (decide (p = state_path (e_tmpdir (w_env w0)))) as [->|Hne].
    - by rewrite lookup_insert_eq.
    - rewrite lookup_insert_ne by done. apply Hok. }
  destruct Hout as [(_ & m & Hm)|(_ & [Hm|(_ & d & k & m & _ & _ & Hm)])]; [by eapply Hins| |by eapply Hins].
  rewrite Hm. apply Hok.
Qed.

Lemma state_ready_fs w w' :
  w_env w' = w_env w -> f_fs (w_files w') = f_fs (w_files w) -> state_ready w -> state_ready w'.
Proof. unfold state_ready, text_file_ready. by intros -> ->. Qed.

(** What the process promises, from before the listening socket on. *)
Definition process_promise (env : process_env) (opt : server_opt_t) (rec : daemon_state_t) (fd : Z)
    (w0 : world) (fds : gmap Z fdesc) (w : world) (x : process_result) (w' : world) : Prop :=
  process_end env opt rec (delete fd fds) w0 x w' /\
  (w_faults w = [] -> state_ready w -> rp_written (snd (fst x)) = [1]).

Lemma process_listen_spec env opt logp fd w0 fds w :
  process_ok w0 fds w -> env_no_dir (state_path (e_tmpdir (w_env w0))) env -> 0 <= fd ->
  daemon_opt_ok opt (Some logp) -> host_ok (pe_host env) -> zlen (pe_listen env) < 2 ^ 32 ->
  zlen (state_path (e_tmpdir (w_env w0))) < PATH_CAP ->
  wp (process_listen env opt (Some logp) 1 (ReadyPipe fd []) system_start)
     (process_promise env opt (daemon_record opt (Some logp) 1 (page_url (pe_host env) (s_port opt))) fd w0 fds w) w.
Proof.
  intros Hok Hd Hfd Hopt Hhost Hlen Hpath. unfold process_listen.
  set (rec := daemon_record opt (Some logp) 1 (page_url (pe_host env) (s_port opt))).
  assert (Hclose : forall sock w1, process_ok w0 fds w1 -> (w_faults w = [] -> state_ready w -> False) ->
    wp (process_exit 1 (process_close_sock env sock None 1 false (ReadyPipe fd []) system_start))
      (process_promise env opt rec fd w0 fds w) w1).
  { intros sock w1 Hok1 Hno. eapply wp_mono; [eapply (close_sock_early env opt rec _ _ _ _ _ _ Hok1 Hd); by left|].
    intros x w' Hx. unfold fds_after in Hx. cbn [rp_fd] in Hx. destruct (Z.leb_spec 0 fd); [|lia].
    split; [exact Hx|]. intros E Hr. by destruct (Hno E Hr). }
  wp_step. wp_use create_listener_socket_spec; [apply Hok|].
  intros [r sock] w1 (Hm1 & Hr & Hcalm1).
  assert (Hok1 : process_ok w0 fds w1) by (eapply (process_ok_meanwhile _ _ []); [exact Hok|constructor|exact Hm1]).
  destruct Hr as [[-> Hsock]|[-> _]]; cbn [negb Z.eqb].
  2:{ apply Hclose; [exact Hok1|]. intros E _. by specialize (Hcalm1 E). }
  wp_step. assert (He1 : w_env w1 = w_env w0) by apply Hok1.
  wp_use server_persist_spec; [exact Hopt|exact Hhost|apply Hok1|].
  intros [r url] w2 (Hf2 & Hout & Hcalm2 & Hrec). rewrite He1 in *.
  assert (Hok2 : process_ok w0 fds w2).
  { eapply process_ok_persisted; [exact Hok1|exact Hf2|]. rewrite He1. exact Hout. }
  assert (Hcalm : w_faults w = [] -> state_ready w -> r = 0).
  { intros E Hr. apply Hcalm2; [by eapply meanwhile_calm|].
    eapply state_ready_fs; [|exact (mw_fs _ _ _ Hm1)|exact Hr]. apply Hm1. }
  destruct (Z.eqb_spec r 0) as [->|Hr]; cbn [negb].
  2:{ apply Hclose; [exact Hok2|]. intros E H. by destruct (Hr (Hcalm E H)). }
  wp_step. wp_use server_start_state_watcher_spec. intros [r' watcher] w3 Hf3.
  assert (Hw3 : w_files w3 = w_files w2) by frame.
  assert (Hok3 : process_ok w0 fds w3) by (eapply process_ok_same; [exact Hok2|frame|frame|done]).
  eapply wp_mono; [eapply (process_serve_spec env opt rec);
    [exact Hok3|exact Hd|exact Hfd| | |exact Hlen]|].
  - apply Hsock.
  - eapply recorded_same; [|exact Hw3|]; [|by apply Hrec].
    by rewrite (po_env _ _ _ Hok3), (po_env _ _ _ Hok2).
  - intros x w' [Hx H1]. split; [exact Hx|]. intros E _. apply H1.
    apply (meanwhile_calm _ _ _ Hm1) in E.
    assert (w_faults w2 = []) as E2 by (eapply only_io_no_faults; [|exact E]; frame).
    eapply only_io_no_faults; [|exact E2]; frame.
Qed.

Lemma process_ok_refl w :
  fds_ok (w_files w) ->
  (forall m, f_fs (w_files w) !! state_path (e_tmpdir (w_env w)) <> Some (NDir m)) ->
  process_ok w (f_fds (w_files w)) w.
Proof. by split. Qed.

(** The initialisations change no more than the message store. *)
Lemma message_store_init_ok w0 fds w :
  process_ok w0 fds w ->
  wp message_store_init (fun r w' => process_ok w0 fds w' /\ w_files w' = w_files w /\
    (flen w' <= flen w)%nat /\ (w_faults w = [] -> r = 0)) w.
Proof.
  intros Hok. unfold message_store_init. wp_step. apply wp_get_store.
  destruct (ms_initialized (p_store (w_prog w))); [by wp_step|].
  assert (Hinit : forall Q w1, (forall r w2, only_errno w1 w2 -> (w_faults w1 = [] -> r = 0) -> Q r w2) ->
    wp sys_pthread_init Q w1).
  { intros Q w1 HQ. unfold sys_pthread_init. wp_step. apply wp_pop_fault. intros f w2 Hf _ _ H0.
    destruct f; wp_step; apply HQ; try done. intros E. by destruct (H0 E). }
  assert (Hsame : forall w1, only_errno w w1 -> process_ok w0 fds w1 /\ w_files w1 = w_files w /\
    (flen w1 <= flen w)%nat).
  { intros w1 Hf. split; [eapply process_ok_same; [exact Hok|frame|frame|frame]|]. split; frame. }
  wp_step. apply Hinit. intros r w1 Hf1 H1. destruct (Z.eqb_spec r 0) as [->|Hr]; cbn [negb].
  2:{ wp_step. destruct (Hsame _ Hf1) as (A & B & C). split; [done|]. split; [done|]. split; [done|].
      intros E. by destruct (Hr (H1 E)). }
  wp_step. apply Hinit. intros r w2 Hf2 H2. assert (Hf12 : only_errno w w2) by (by etrans).
  destruct (Hsame _ Hf12) as (A & B & C).
  destruct (Z.eqb_spec r 0) as [->|Hr]; cbn [negb].
  2:{ wp_step. split; [done|]. split; [done|]. split; [done|]. intros E. destruct Hr. apply H2.
      eapply only_io_no_faults; [|exact E]; frame. }
  wp_step. apply wp_put_store. wp_step. split; [by apply process_ok_store|]. done.
Qed.

Lemma process_tracker_init_spec w :
  wp (process_tracker_init tracker_zero) (fun '(r, t) w' => only_errno w w' /\
    (r = 0 /\ System t ∅ ∅ Accepting = system_start \/ r = 1 /\ t = tracker_zero) /\
    (w_faults w = [] -> r = 0)) w.
Proof.
  unfold process_tracker_init. change (initialized tracker_zero) with false. cbv iota.
  unfold sys_pthread_init. wp_step. wp_step. apply wp_pop_fault. intros f w1 Hf1 _ _ H0.
  assert (Hsnd : wp (let! r := (let! f := pop_fault in match f with FErr _ => ret 1 | _ => ret 0 end) in
      ret (server_conn_tracker_init (r =? 0) tracker_zero)) (fun '(r, t) w' => only_errno w w' /\
    (r = 0 /\ System t ∅ ∅ Accepting = system_start \/ r = 1 /\ t = tracker_zero) /\
    (w_faults w = [] -> r = 0)) w1).
  { wp_step. wp_step. apply wp_pop_fault. intros g w2 Hf2 _ _ H1.
    assert (only_errno w w2) by (by etrans).
    destruct g; do 2 wp_step; (split; [done|split; [auto|]]); try done.
    intros E. assert (w_faults w1 = []) as E1 by (eapply only_io_no_faults; [|exact E]; frame).
    by destruct (H1 E1). }
  destruct f; wp_step; [exact Hsnd| |exact Hsnd]. change (negb (1 =? 0)) with true. cbv iota. wp_step.
  split; [done|]. split; [auto|]. intros E. by destruct (H0 E).
Qed.

Lemma server_run_process_spec env opt logp fd w0 fds w :
  process_ok w0 fds w -> env_no_dir (state_path (e_tmpdir (w_env w0))) env -> 0 <= fd ->
  daemon_opt_ok opt (Some logp) -> host_ok (pe_host env) -> zlen (pe_listen env) < 2 ^ 32 ->
  zlen (state_path (e_tmpdir (w_env w0))) < PATH_CAP ->
  wp (server_run_process env opt (Some logp) 1 (ReadyPipe fd []) tracker_zero)
     (process_promise env opt (daemon_record opt (Some logp) 1 (page_url (pe_host env) (s_port opt))) fd w0 fds w) w.
Proof.
  intros Hok Hd Hfd Hopt Hhost Hlen Hpath. unfold server_run_process.
  set (rec := daemon_record opt (Some logp) 1 (page_url (pe_host env) (s_port opt))).
  assert (Hstop : forall w1, process_ok w0 fds w1 -> (w_faults w = [] -> False) ->
    wp (let! (p, s) := process_clean_up 1 false (ReadyPipe fd []) (System tracker_zero ∅ ∅ Accepting) in
        ret (Some 1, p, s)) (process_promise env opt rec fd w0 fds w) w1).
  { intros w1 Hok1 Hno. wp_step. wp_use process_clean_up_spec; [exact Hok1|done|].
    intros [p s] w2 (Hok2 & Hr & _ & Hc). wp_step. unfold fds_after, report_failure in *. cbn [rp_fd] in *.
    destruct (Z.leb_spec 0 fd); [|lia]. cbn [andb negb] in *. destruct Hr as [Hr1 Hr2].
    split; [by constructor|]. intros E _. by destruct (Hno E). }
  pose proof Hopt as [(Hne & _) _ _ _]. destruct (s_path opt) as [[|c path]|] eqn:Ep; [done| |done].
  wp_step. wp_use message_store_init_ok; [exact Hok|]. intros r w1 (Hok1 & Hw1 & Hl1 & H1).
  destruct (Z.eqb_spec r 0) as [->|Hr]; cbn [negb]; [|apply Hstop; [exact Hok1|auto]].
  wp_step. wp_use process_tracker_init_spec. intros [r t] w2 (Hf2 & Ht & H2).
  assert (Hok2 : process_ok w0 fds w2) by (eapply process_ok_same; [exact Hok1|frame|frame|frame]).
  assert (Hcalm1 : w_faults w = [] -> w_faults w1 = []) by (rewrite !no_faults_flen; lia).
  destruct Ht as [[-> Hs]|[-> ->]]; cbn [negb Z.eqb].
  2:{ apply Hstop; [exact Hok2|]. intros E. by specialize (H2 (Hcalm1 E)). }
  rewrite Hs. eapply wp_mono; [by eapply process_listen_spec|].
  intros x w' [Hx Hy]. split; [exact Hx|]. intros E Hr. apply Hy.
  - eapply only_io_no_faults; [|by apply Hcalm1]. frame.
  - eapply state_ready_same; [| |exact Hr].
    + by rewrite (po_env _ _ _ Hok2), (po_env _ _ _ Hok).
    + rewrite <- Hw1. frame.
Qed.

(** *** Redirecting the standard descriptors *)

(** [open] without O_EXCL succeeds on such a path. *)
Definition openable (fs : gmap bytes node) (path : bytes) (flags : Z) : Prop :=
  match fs !! path with
  | Some (NFile _ _) | Some (NOther _) => True
  | None => has_flag flags O_CREAT = true /\ parent_ok fs path = true
  | _ => False
  end.

(** [open] without O_TRUNC: one more descriptor, and at most one more, empty, file. *)
Lemma wp_sys_open_any path flags Q w :
  has_flag flags O_TRUNC = false -> has_flag flags O_EXCL = false ->
  (forall w', only_files w w' -> w_files w' = w_files w ->
     (w_faults w = [] -> openable (f_fs (w_files w)) path flags -> False) -> Q (-1) w') ->
  (forall fs d w', only_files w w' ->
     fs = f_fs (w_files w) \/
       (has_flag flags O_CREAT = true /\ f_fs (w_files w) !! path = None /\
        exists m, fs = <[path := NFile [] m]> (f_fs (w_files w))) ->
     w_files w' = Files fs (<[f_next (w_files w) := d]> (f_fds (w_files w))) (f_next (w_files w) + 1)
       (f_pipes (w_files w)) -> Q (f_next (w_files w)) w') ->
  wp (sys_open path flags) Q w.
Proof.
  intros Htr Hex He Hok. unfold sys_open. apply (wp_transfer (fun e => fail_with e (-1))).
  - intros e w' Hf Hlt. apply wp_fail_with, He; try frame. intros E _. apply no_faults_flen in E. lia.
  - intros f w' Hf _. do 2 wp_step. assert (w_files w' = w_files w) as Hw by frame. rewrite Hw.
    assert (Hfail : forall e, (openable (f_fs (w_files w)) path flags -> False) ->
      wp (fail_with e (-1)) Q w').
    { intros e Hno. apply wp_fail_with, He; [frame|done|auto]. }
    assert (Halloc : forall d fs w1, only_files w w1 ->
      fs = f_fs (w_files w) \/
        (has_flag flags O_CREAT = true /\ f_fs (w_files w) !! path = None /\
         exists m, fs = <[path := NFile [] m]> (f_fs (w_files w))) ->
      w_files w1 = Files fs (f_fds (w_files w)) (f_next (w_files w)) (f_pipes (w_files w)) ->
      wp (alloc_fd d) Q w1).
    { intros d fs w1 Hf1 Hfs Hw1. wp_step. rewrite Hw1. cbn [f_next f_fs f_fds f_pipes].
      eapply Hok; [|exact Hfs|reflexivity]. frame. }
    assert (Hsame : forall d, wp (alloc_fd d) Q w').
    { intros d. eapply Halloc; [frame|by left|]. rewrite Hw. by destruct (w_files w). }
    assert (Hnode : forall p n, (forall k, n = NDir k -> openable (f_fs (w_files w)) path flags -> False) ->
      wp (open_node p n flags) Q w').
    { intros p n Hdir. unfold open_node. rewrite Htr. destruct n as [c m|m|t m|m]; cbv zeta iota.
      - wp_step. wp_step. apply Hsame.
      - destruct (has_flag flags O_WRONLY); [|apply Hsame]. apply Hfail. by apply (Hdir m).
      - apply Hsame.
      - apply Hsame. }
    unfold openable in *. destruct (f_fs (w_files w) !! path) as [n|] eqn:Ep.
    + rewrite Hex, andb_false_r. destruct n as [c m|m|t m|m]; try (apply Hnode; by intros).
      destruct (has_flag flags O_NOFOLLOW); [by apply Hfail|].
      destruct (f_fs (w_files w) !! t) as [n'|]; [|by apply Hfail].
      destruct n'; first [by apply Hfail|apply Hnode; by intros].
    + destruct (has_flag flags O_CREAT && parent_ok (f_fs (w_files w)) path) eqn:Ec.
      * apply andb_prop in Ec as [Ec _].
        wp_step. wp_step. eapply Halloc; [frame|right; split; [done|split; [done|by eexists]]|]. cbn [w_files set_file set_files set_fs f_fs].
        by rewrite Hw.
      * apply Hfail. intros [H1 H2]. by rewrite H1, H2 in Ec.
Qed.

(** The log and the null device can be opened. *)
Definition redirect_ready (log_path : bytes) (w : world) : Prop :=
  openable (f_fs (w_files w)) log_path (Z.lor O_CREAT (Z.lor O_WRONLY O_APPEND)) /\
  (exists m, f_fs (w_files w) !! bs "/dev/null" = Some (NOther m)) /\ log_path <> bs "/dev/null".

Lemma process_ok_opened w0 fds fs d w w' path :
  process_ok w0 fds w -> only_files w w' ->
  fs = f_fs (w_files w) \/ (exists m, fs = <[path := NFile [] m]> (f_fs (w_files w))) ->
  w_files w' = Files fs (<[f_next (w_files w) := d]> (f_fds (w_files w))) (f_next (w_files w) + 1)
    (f_pipes (w_files w)) ->
  process_ok w0 (<[f_next (w_files w) := d]> fds) w'.
Proof.
  intros [H1 H2 H3 [H4 H5] H6] Hf Hfs Hw. split.
  - rewrite <- H1. frame.
  - assert (flen w' <= flen w)%nat by frame. lia.
  - by rewrite Hw, <- H3.
  - rewrite Hw. split; cbn [f_next f_fds]; [lia|]. intros k Hk. rewrite lookup_insert_ne by lia. apply H5. lia.
  - rewrite Hw. cbn [f_fs]. destruct Hfs as [->|[m ->]]; [done|]. intros k.
    destruct (decide (path = state_path (e_tmpdir (w_env w0)))) as [->|Hne].
    + by rewrite lookup_insert_eq.
    + by rewrite lookup_insert_ne.
Qed.

Lemma process_ok_closed w0 fds w w' fd :
  process_ok w0 fds w -> only_files w w' ->
  w_files w' = set_fds (delete fd (f_fds (w_files w))) (w_files w) -> process_ok w0 (delete fd fds) w'.
Proof.
  intros [H1 H2 H3 [H4 H5] H6] Hf Hw. split; rewrite ?Hw; cbn [f_fds f_fs set_fds].
  - rewrite <- H1. frame.
  - assert (flen w' <= flen w)%nat by frame. lia.
  - by rewrite H3.
  - split; cbn [f_next f_fds set_fds]; [done|]. intros k Hk. rewrite lookup_delete_None. right. by apply H5.
  - done.
Qed.

(** [dup2] of an open descriptor to a number in use. *)
Lemma sys_dup2_spec old new d w0 fds w :
  process_ok w0 fds w -> fds !! old = Some d -> 0 <= new < f_next (w_files w) ->
  wp (sys_dup2 old new) (fun r w' => 
    (r = -1 /\ process_ok w0 fds w' /\ w_faults w <> [] \/ r = new /\ process_ok w0 (<[new := d]> fds) w') /\
    f_next (w_files w') = f_next (w_files w) /\ (flen w' <= flen w)%nat /\ w_prog w' = w_prog w) w.
Proof.
  intros Hok Hold Hnew. unfold sys_dup2. apply (wp_transfer (fun e => fail_with e (-1))).
  - intros e w' Hf Hlt. wp_step. assert (Hw : w_files w' = w_files w) by frame.
    split; [left; split; [done|]; split|split; [by rewrite <- Hw|split; [change (flen w' <= flen w)%nat; lia|]]].
    + eapply process_ok_same; [exact Hok|frame| |done]. change (flen w' <= flen w)%nat. lia.
    + intros E. apply no_faults_flen in E. lia.
    + cbn [w_prog set_errno_w]. frame.
  - intros f w' Hf _. do 2 wp_step. assert (Hw : w_files w' = w_files w) by frame.
    rewrite Hw, (po_fds _ _ _ Hok), Hold. wp_step. wp_step. wp_step.
    destruct Hok as [H1 H2 H3 [H4 H5] H6]. split; [right; split; [done|]|].
    + split; cbn [w_env w_files set_fd set_files set_fds f_fds f_fs]; rewrite ?Hw; try done.
      * rewrite <- H1. frame.
      * change (flen w' <= flen w0)%nat. assert (flen w' <= flen w)%nat by frame. lia.
      * by rewrite H3.
      * split; cbn [f_next f_fds set_fds]; [done|]. intros k Hk. rewrite lookup_insert_ne by lia. by apply H5.
    + cbn [w_files set_fd set_files set_fds f_next w_prog]. rewrite Hw. split; [done|].
      change (flen (set_fd new d w')) with (flen w'). split; frame.
Qed.

(** [fds'] differs from [fds] in the three standard descriptors only. *)
Definition same_but_std (fds fds' : gmap Z fdesc) : Prop := forall k, 3 <= k -> fds' !! k = fds !! k.

Definition redirect_result (log : bytes) (w0 : world) (fds : gmap Z fdesc) (w : world) (r : Z) (w' : world)
    : Prop :=
  (r = 0 \/ r = 1) /\ w_prog w' = w_prog w /\ (flen w' <= flen w)%nat /\
  (exists fds', process_ok w0 fds' w' /\ same_but_std fds fds') /\
  (w_faults w = [] -> redirect_ready log w -> r = 0) /\
  (f_fs (w_files w') = f_fs (w_files w) \/
   f_fs (w_files w) !! log = None /\ exists m, f_fs (w_files w') = <[log := NFile [] m]> (f_fs (w_files w))).

Lemma close_both_spec a b w0 fds w (r : Z) :
  process_ok w0 fds w ->
  wp (let! _ := sys_close a in let! _ := sys_close b in ret r) (fun r' w' => r' = r /\
    process_ok w0 (delete b (delete a fds)) w' /\ w_prog w' = w_prog w /\ (flen w' <= flen w)%nat /\
    f_fs (w_files w') = f_fs (w_files w)) w.
Proof.
  intros Hok. wp_step. apply wp_sys_close. intros x w1 Hf1 _ _ Hw1.
  wp_step. apply wp_sys_close. intros y w2 Hf2 _ _ Hw2. wp_step. split; [done|].
  split; [by eapply process_ok_closed; [eapply process_ok_closed| |]|].
  split; [frame|]. split; [frame|]. by rewrite Hw2, Hw1.
Qed.

(** [sys_dup2] changes no file. *)
Lemma sys_dup2_fs old new w Q :
  wp (sys_dup2 old new) Q w ->
  wp (sys_dup2 old new) (fun r w' => Q r w' /\ f_fs (w_files w') = f_fs (w_files w)) w.
Proof.
  intros H. apply wp_conj; [done|]. clear H. unfold sys_dup2.
  apply (wp_transfer (fun e => fail_with e (-1))).
  - intros e w' Hf _. wp_step. assert (Hw : w_files w' = w_files w) by frame. by cbn; rewrite Hw.
  - intros f w' Hf _. do 2 wp_step. assert (Hw : w_files w' = w_files w) by frame.
    destruct (f_fds (w_files w') !! old); [do 3 wp_step|wp_step]; by cbn; rewrite Hw.
Qed.

Section Redirect.
(** Both files are open: the log as [n], the null device as [n + 1]. *)
Context (log : bytes) (w0 w : world) (fs1 : gmap bytes node) (fds : gmap Z fdesc) (n : Z) (d d2 : fdesc).
Context (Hn : 3 <= n) (Hnone : forall k, n <= k -> fds !! k = None).
Context (Hlog : fs1 = f_fs (w_files w) \/
  f_fs (w_files w) !! log = None /\ exists m, fs1 = <[log := NFile [] m]> (f_fs (w_files w))).

Record redirecting (fds' : gmap Z fdesc) (w' : world) : Prop := {
  rd_ok : process_ok w0 fds' w';
  rd_fds : same_but_std (<[n + 1 := d2]> (<[n := d]> fds)) fds';
  rd_faults : (flen w' <= flen w)%nat;
  rd_prog : w_prog w' = w_prog w;
  rd_fs : f_fs (w_files w') = fs1;
  rd_next : f_next (w_files w') = n + 2
}.

Notation close_both r := (let! _ := sys_close (n + 1) in let! _ := sys_close n in ret r).

(** The redirection ends with both descriptors closed. *)
Lemma redirecting_close r fds' w' :
  redirecting fds' w' -> r = 0 \/ r = 1 -> (w_faults w = [] -> r = 0) ->
  wp (close_both r) (redirect_result log w0 fds w) w'.
Proof.
  intros [Hok Hsame Hl Hp Hf _] Hr H0. wp_use close_both_spec; [exact Hok|].
  intros r' w4 (-> & Hok4 & Hp4 & Hl4 & Hf4). split; [done|]. split; [congruence|]. split; [lia|].
  split; [eexists; split; [exact Hok4|]|split; [auto|rewrite Hf4, Hf; exact Hlog]].
  intros k Hk. destruct (decide (k = n)) as [->|Hne1]; [by rewrite lookup_delete_eq, Hnone by lia|].
  rewrite lookup_delete_ne by done. destruct (decide (k = n + 1)) as [->|Hne2].
  { by rewrite lookup_delete_eq, Hnone by lia. }
  rewrite lookup_delete_ne, Hsame by done. by rewrite !lookup_insert_ne by done.
Qed.

(** One call of [dup2]. *)
Lemma redirecting_dup old new (k : Z -> M Z) fds' w' :
  redirecting fds' w' -> old = n \/ old = n + 1 -> 0 <= new < 3 ->
  (forall fds4 w4, redirecting fds4 w4 -> wp (k new) (redirect_result log w0 fds w) w4) ->
  wp (let! r := sys_dup2 old new in if r <? 0 then close_both 1 else k r)
    (redirect_result log w0 fds w) w'.
Proof.
  intros [Hok Hsame Hl Hp Hf Hnx] Hold Hnew Hk.
  assert (exists d', fds' !! old = Some d') as [d' Hd'].
  { rewrite Hsame by lia. destruct Hold as [->| ->].
    - rewrite lookup_insert_ne by lia. rewrite lookup_insert_eq. eauto.
    - rewrite lookup_insert_eq. eauto. }
  wp_step. eapply wp_mono; [eapply sys_dup2_fs, sys_dup2_spec; [exact Hok|exact Hd'|lia]|].
  intros r w4 [([(-> & Hok4 & Hne)|[-> Hok4]] & Hnx4 & Hl4 & Hp4) Hf4].
  - change (-1 <? 0) with true. cbv iota. eapply redirecting_close; [|auto|].
    + split; [exact Hok4|exact Hsame|lia|congruence|congruence|lia].
    + intros E. destruct Hne. apply no_faults_flen. apply no_faults_flen in E. lia.
  - destruct (Z.ltb_spec new 0); [lia|]. eapply Hk.
    split; [exact Hok4| |lia|congruence|congruence|lia].
    intros x Hx. rewrite lookup_insert_ne by lia. by apply Hsame.
Qed.
End Redirect.

Lemma server_redirect_stdio_spec log w0 fds w :
  process_ok w0 fds w -> 3 <= f_next (w_files w) ->
  wp (server_redirect_stdio log) (redirect_result log w0 fds w) w.
Proof.
  intros Hok Hn. unfold server_redirect_stdio. wp_step. apply wp_sys_open_any; [done|done| |].
  { intros w1 Hf1 Hw1 Hno. change (-1 <? 0) with true. cbv iota. wp_step. split; [auto|].
    split; [frame|]. split; [frame|]. split; [exists fds; split; [|done]|].
    - eapply process_ok_same; [exact Hok|frame|frame|done].
    - split; [intros E [H _]; by destruct (Hno E H)|]. left. by rewrite Hw1. }
  intros fs d w1 Hf1 Hfs Hw1. destruct (Z.ltb_spec (f_next (w_files w)) 0) as [|_]; [lia|].
  assert (Hlog : fs = f_fs (w_files w) \/ f_fs (w_files w) !! log = None /\
    exists m, fs = <[log := NFile [] m]> (f_fs (w_files w))) by (destruct Hfs as [?|(_ & ?)]; auto).
  assert (Hfs' : fs = f_fs (w_files w) \/ exists m, fs = <[log := NFile [] m]> (f_fs (w_files w))) by
    (destruct Hfs as [?|(_ & _ & ?)]; auto).
  pose proof (process_ok_opened _ _ _ _ _ _ _ Hok Hf1 Hfs' Hw1) as Hok1.
  assert (Hnone : forall k, f_next (w_files w) <= k -> fds !! k = None).
  { intros k Hk. rewrite <- (po_fds _ _ _ Hok). by apply (po_files _ _ _ Hok). }
  set (n := f_next (w_files w)) in *.
  assert (Hn1 : f_next (w_files w1) = n + 1) by by rewrite Hw1.
  assert (Hfs1 : f_fs (w_files w1) = fs) by by rewrite Hw1.
  wp_step. apply wp_sys_open_any; [done|done| |].
  { intros w2 Hf2 Hw2 Hno. change (-1 <? 0) with true. cbv iota. wp_step. apply wp_sys_close.
    intros x w3 Hf3 _ _ Hw3. wp_step. split; [auto|]. split; [frame|]. split; [frame|].
    split; [eexists; split; [eapply process_ok_closed; [|exact Hf3|exact Hw3]|]|].
    - eapply process_ok_same; [exact Hok1|frame|frame|done].
    - intros k Hk. rewrite delete_insert_id by (apply Hnone; lia). done.
    - split; [|rewrite Hw3; cbn [f_fs set_fds]; by rewrite Hw2, Hfs1].
      intros E (_ & (m & Hm) & Hne). exfalso. apply Hno; [eapply only_io_no_faults; [|exact E]; frame|].
      assert (Hd : f_fs (w_files w1) !! bs "/dev/null" = Some (NOther m)).
      { rewrite Hfs1. destruct Hfs' as [->|[m' ->]]; [done|]. by rewrite lookup_insert_ne. }
      unfold openable. by rewrite Hd. }
  intros fs2 d2 w2 Hf2 Hfs2 Hw2. destruct (Z.ltb_spec (f_next (w_files w1)) 0) as [|_]; [lia|].
  destruct Hfs2 as [Hfs2|[? _]]; [|done].
  pose proof (process_ok_opened _ _ _ _ _ _ [] Hok1 Hf2 (or_introl Hfs2) Hw2) as Hok2. rewrite Hn1 in *.
  eapply (redirecting_dup log w0 w fs fds n d d2 Hn Hnone Hlog); [|auto|lia|].
  { split; [exact Hok2|done|frame|frame|by rewrite Hw2, Hfs2, Hfs1|rewrite Hw2; cbn [f_next]; lia]. }
  intros fds4 w4 A. eapply (redirecting_dup log w0 w fs fds n d d2 Hn Hnone Hlog); [exact A|auto|lia|].
  intros fds5 w5 B. eapply (redirecting_dup log w0 w fs fds n d d2 Hn Hnone Hlog n 2
    (fun r => let! _ := sys_close (n + 1) in let! _ := sys_close n in ret 0)); [exact B|auto|lia|].
  intros fds6 w6 C. eapply redirecting_close; [exact Hnone|exact Hlog|exact C|auto|done].
Qed.

(** *** The child and the parent *)

Definition log_path (tmpdir : option bytes) : bytes := entry_path (tmp_dir tmpdir) (bs "hf-daemon.log").

(** The options and the record of the daemon the process becomes. *)
Definition child_opt (opt : server_opt_t) (w : world) : server_opt_t :=
  ServerOpt (s_path opt) (s_port opt) (e_pid (w_env w)).
Definition child_record (env : process_env) (opt : server_opt_t) (w : world) : daemon_state_t :=
  daemon_record (child_opt opt w) (Some (log_path (e_tmpdir (w_env w)))) 1
    (page_url (pe_host env) (s_port opt)).

(** How the child ends or goes on; the descriptors are [fds]. *)
Inductive child_end (env : process_env) (opt : server_opt_t) (fds : gmap Z fdesc) (w0 : world)
    : process_result -> world -> Prop :=
  | child_refused p s w :
      rp_fd p = -1 -> rp_written p = [0] \/ rp_written p = [] -> process_ok w0 fds w ->
      threads s = ∅ -> child_end env opt fds w0 (Some 1, p, s) w
  | child_process x w :
      process_end env (child_opt opt w0) (child_record env opt w0) fds w0 x w ->
      child_end env opt fds w0 x w.

(** Everything is in place for a daemon to start. *)
Definition start_ready (w : world) : Prop :=
  state_ready w /\ redirect_ready (log_path (e_tmpdir (w_env w))) w.

Lemma log_path_ne_state tmpdir rest : log_path tmpdir <> state_path tmpdir ++ rest.
Proof.
  unfold log_path, state_path, entry_path. fold (tmp_dir tmpdir). rewrite <- !app_assoc.
  intros H%app_inv_head. destruct (bool_decide (last (tmp_dir tmpdir) = Some 47)); discriminate.
Qed.

Lemma parent_ok_insert_none fs p n path :
  fs !! p = None -> parent_ok fs path = true -> parent_ok (<[p := n]> fs) path = true.
Proof.
  intros Hp. unfold parent_ok. destruct (strrchr path 47) as [[|i]|]; [done| |done].
  destruct (decide (p = take (S i) path)) as [<-|Hne]; [by rewrite Hp|].
  rewrite lookup_insert_ne by done. destruct (fs !! take (S i) path) as [[| |t k|]|]; try done.
  destruct (decide (p = t)) as [<-|Hne2]; [by rewrite Hp|]. by rewrite lookup_insert_ne.
Qed.

(** Creating the log does not stand in the way of the state file. *)
Lemma state_ready_log w w' :
  w_env w' = w_env w ->
  f_fs (w_files w') = f_fs (w_files w) \/
    f_fs (w_files w) !! log_path (e_tmpdir (w_env w)) = None /\
    (exists m, f_fs (w_files w') = <[log_path (e_tmpdir (w_env w)) := NFile [] m]> (f_fs (w_files w))) ->
  state_ready w -> state_ready w'.
Proof.
  intros He [Hfs|(Hno & m & Hfs)]; [by apply state_ready_fs|].
  intros (H1 & H2 & H3 & H4 & k & Hk & H5). unfold state_ready, text_file_ready. rewrite He, Hfs.
  split; [done|]. split; [done|]. split; [by apply parent_ok_insert_none|]. split.
  - intros j. rewrite lookup_insert_ne; [by apply H4|].
    rewrite <- (app_nil_r (state_path _)). apply log_path_ne_state.
  - exists k. split; [done|]. rewrite lookup_insert_ne; [done|]. apply log_path_ne_state.
Qed.

Lemma server_child_spec env opt fd w0 fds w :
  process_ok w0 fds w -> 3 <= f_next (w_files w) -> env_no_dir (state_path (e_tmpdir (w_env w0))) env ->
  3 <= fd -> daemon_opt_ok (child_opt opt w0) (Some (log_path (e_tmpdir (w_env w0)))) ->
  host_ok (pe_host env) -> zlen (pe_listen env) < 2 ^ 32 ->
  zlen (state_path (e_tmpdir (w_env w0))) < PATH_CAP ->
  wp (server_child env opt (log_path (e_tmpdir (w_env w0))) fd tracker_zero) (fun x w' =>
    (exists fds', same_but_std (delete fd fds) fds' /\ child_end env opt fds' w0 x w') /\
    (w_faults w = [] -> start_ready w -> rp_written (snd (fst x)) = [1])) w.
Proof.
  intros Hok Hn Hd Hfd Hopt Hhost Hlen Hpath. unfold server_child.
  set (log := log_path (e_tmpdir (w_env w0))) in *.
  assert (Hdel : forall fds', same_but_std fds fds' -> same_but_std (delete fd fds) (delete fd fds')).
  { intros fds' H k Hk. destruct (decide (k = fd)) as [->|Hne]; [by rewrite !lookup_delete_eq|].
    rewrite !lookup_delete_ne by done. by apply H. }
  assert (Hrefuse : forall fds1 w1, process_ok w0 fds1 w1 -> same_but_std fds fds1 ->
    (w_faults w = [] -> start_ready w -> False) ->
    wp (let! (_, p) := server_notify_parent 0 (ReadyPipe fd []) in
        ret (Some 1, p, System tracker_zero ∅ ∅ Accepting)) (fun x w' =>
      (exists fds', same_but_std (delete fd fds) fds' /\ child_end env opt fds' w0 x w') /\
      (w_faults w = [] -> start_ready w -> rp_written (snd (fst x)) = [1])) w1).
  { intros fds1 w1 Hok1 Hsame Hno. wp_step. wp_use server_notify_parent_spec; [exact Hok1|cbn; lia|].
    intros [r p] w2 (Hok2 & _ & _ & _ & Hp & Hw & _). cbn [rp_fd rp_written app] in *. wp_step.
    split; [|intros E Hs; by destruct (Hno E Hs)]. eexists. split; [by apply Hdel|].
    apply child_refused; [done| |exact Hok2|done]. destruct Hw as [[_ ?]|[_ ?]]; auto. }
  wp_step. apply wp_sys_sockcall; intros w1 Hf1 H1.
  { change (-1 <? 0) with true. cbv iota. eapply Hrefuse; [|done|].
    - eapply process_ok_same; [exact Hok|frame|frame|frame].
    - rewrite no_faults_flen. lia. }
  change (0 <? 0) with false. cbv iota.
  assert (Hw1 : w_files w1 = w_files w) by frame.
  assert (Hok1 : process_ok w0 fds w1) by (eapply process_ok_same; [exact Hok|frame|frame|frame]).
  wp_step. wp_use server_redirect_stdio_spec; [exact Hok1|by rewrite Hw1|].
  intros r w2 (Hr & _ & Hl2 & (fds2 & Hok2 & Hsame) & Hcalm & Hfs2). rewrite Hw1 in Hfs2.
  assert (He : forall w', process_ok w0 fds w' -> w_env w' = w_env w).
  { intros w' H. by rewrite (po_env _ _ _ H), (po_env _ _ _ Hok). }
  assert (Hc1 : w_faults w = [] -> w_faults w1 = []) by (apply only_io_no_faults; frame).
  assert (Hlog : log_path (e_tmpdir (w_env w)) = log) by (unfold log; by rewrite (po_env _ _ _ Hok)).
  destruct (Z.eqb_spec r 0) as [->|Hne]; cbn [negb].
  2:{ eapply Hrefuse; [exact Hok2|exact Hsame|]. intros E [_ Hrd]. destruct Hne. apply Hcalm; [auto|].
      unfold redirect_ready in *. by rewrite Hw1, <- Hlog. }
  wp_step. wp_step. rewrite (po_env _ _ _ Hok2). fold (child_opt opt w0).
  eapply wp_mono; [eapply server_run_process_spec; [exact Hok2|exact Hd|lia|exact Hopt|exact Hhost|done|done]|].
  intros x w' [Hx Hy]. split.
  - exists (delete fd fds2). split; [by apply Hdel|]. apply child_process. exact Hx.
  - intros E [Hs _]. apply Hy.
    + apply no_faults_flen. specialize (Hc1 E). apply no_faults_flen in Hc1. lia.
    + eapply state_ready_log; [|rewrite Hlog; exact Hfs2|exact Hs].
      by rewrite (po_env _ _ _ Hok2), (po_env _ _ _ Hok).
Qed.

(** The parent believes what it reads. *)
Lemma server_wait_for_daemon_ready_spec fd reported w :
  wp (server_wait_for_daemon_ready fd reported) (fun r _ =>
    (r = 0 \/ r = 1) /\ (r = 0 -> exists rest, reported = 1 :: rest) /\
    (w_faults w = [] -> (exists rest, reported = 1 :: rest) -> r = 0)) w.
Proof.
  unfold server_wait_for_daemon_ready. set (Q := fun r (_ : world) => _). wp_step. unfold sys_read_pipe.
  assert (Hfail : forall w1 n status, (w_faults w = [] -> (exists rest, reported = 1 :: rest) -> False) ->
    (n =? 1) && (nth 0 status 0 =? 1) = false ->
    wp (let! _ := sys_close fd in
        if (n =? 1) && (nth 0 status 0 =? 1) then ret 0 else let! _ := sys_sockcall in ret 1) Q w1).
  { intros w1 n status Hno Hc. wp_step. apply wp_sys_close. intros x w2 _ _ _ _. rewrite Hc.
    wp_step. apply wp_sys_sockcall; intros w3 _ _; wp_step; (split; [auto|split; [discriminate|]]);
      intros E H; by destruct (Hno E H). }
  apply (wp_transfer (fun e => fail_with e (-1, []))).
  - intros e w1 _ Hlt. wp_step. apply Hfail; [|done]. rewrite no_faults_flen. lia.
  - intros f w1 _ H0. wp_step. destruct (Bool.bool_dec ((zlen (ztake (limit f 1) reported) =? 1) &&
      (nth 0 (ztake (limit f 1) reported) 0 =? 1)) true) as [Hc|Hc%not_true_is_false].
    + wp_step. apply wp_sys_close. intros x w2 _ _ _ _. rewrite Hc. wp_step. split; [auto|]. split; [|done].
      intros _. apply andb_prop in Hc as [_ Hc%Z.eqb_eq]. destruct reported as [|b rest].
      * by destruct (Z.to_nat (limit f 1)).
      * exists rest. destruct (Z.to_nat (limit f 1)); [done|]. simpl in Hc. by subst b.
    + apply Hfail; [|done]. intros E [rest ->]. destruct (H0 E) as [-> _]. by vm_compute in Hc.
Qed.

(** *** The command *)

Lemma wp_sys_pipe_any Q w :
  (forall w', only_files w w' -> w_files w' = w_files w -> (w_faults w <> []) -> Q None w') ->
  (forall pipes w', only_files w w' ->
     w_files w' = Files (f_fs (w_files w))
       (<[f_next (w_files w) + 1 := FdPipeW (f_next (w_files w))]>
          (<[f_next (w_files w) := FdPipeR]> (f_fds (w_files w)))) (f_next (w_files w) + 2) pipes ->
     Q (Some (f_next (w_files w), f_next (w_files w) + 1)) w') ->
  wp sys_pipe Q w.
Proof.
  intros He Hp. unfold sys_pipe. apply (wp_transfer (fun e => fail_with e None)).
  - intros e w' Hf Hlt. apply wp_fail_with, He; try frame. rewrite no_faults_flen. lia.
  - intros f w' Hf _. do 7 wp_step. assert (w_files w' = w_files w) as Hw by frame.
    rewrite <- Hw in Hp. eapply Hp; [frame|]. unfold set_pipe, set_files, set_pipes. simpl. f_equal. lia.
Qed.

(** Where the process is after [pipe]; [f] are the files at the start. *)
Lemma process_ok_pipe w0 fds w w' pipes :
  process_ok w0 fds w -> only_files w w' ->
  w_files w' = Files (f_fs (w_files w))
    (<[f_next (w_files w) + 1 := FdPipeW (f_next (w_files w))]>
      (<[f_next (w_files w) := FdPipeR]> (f_fds (w_files w)))) (f_next (w_files w) + 2) pipes ->
  process_ok w0 (<[f_next (w_files w) + 1 := FdPipeW (f_next (w_files w))]>
    (<[f_next (w_files w) := FdPipeR]> fds)) w'.
Proof.
  intros [H1 H2 H3 [H4 H5] H6] Hf Hw. split; rewrite ?Hw; cbn [f_fds f_fs].
  - rewrite <- H1. frame.
  - assert (flen w' <= flen w)%nat by frame. lia.
  - by rewrite H3.
  - split; cbn [f_next f_fds]; [lia|]. intros k Hk. rewrite !lookup_insert_ne by lia. apply H5. lia.
  - done.
Qed.

Lemma parent_ok_delete fs p path :
  (forall m, fs !! p <> Some (NDir m)) -> (length path <= length p)%nat ->
  parent_ok fs path = true -> parent_ok (delete p fs) path = true.
Proof.
  intros Hp Hl. unfold parent_ok. destruct (strrchr path 47) as [[|i]|] eqn:Er; [done| |done].
  apply strrchr_lt in Er. rewrite lookup_delete_ne by (intros E; apply (f_equal length) in E; len_lia).
  destruct (fs !! take (S i) path) as [[| |t k|]|]; try done.
  destruct (decide (p = t)) as [<-|Hne]; [|by rewrite lookup_delete_ne].
  destruct (fs !! p) as [[| | |]|] eqn:E; try done. by destruct (Hp mtime).
Qed.

Lemma state_path_length tmpdir : zlen (state_path tmpdir) = zlen (log_path tmpdir) + 2.
Proof.
  unfold state_path, log_path, entry_path, tmp_dir. rewrite !length_app. cbn [bs length]. lia.
Qed.

Lemma state_path_ne_null tmpdir : state_path tmpdir <> bs "/dev/null".
Proof.
  unfold state_path, entry_path. fold (tmp_dir tmpdir). intros H%(f_equal last).
  rewrite !last_app in H. discriminate.
Qed.

(** Removing a stale state file does not stand in the way of a new start. *)
Lemma start_ready_prepared w w' :
  w_env w' = w_env w -> (forall m, f_fs (w_files w) !! state_path (e_tmpdir (w_env w)) <> Some (NDir m)) ->
  state_file_kept w w' \/ state_file_removed w w' -> start_ready w -> start_ready w'.
Proof.
  intros He Hnd Hfs [(H1 & H2 & H3 & H4 & k & Hk & H5) (H6 & [m H7] & H8)].
  set (sp := state_path (e_tmpdir (w_env w))) in *. set (log := log_path (e_tmpdir (w_env w))) in *.
  assert (Hlog : log <> sp) by (unfold log, sp; rewrite <- (app_nil_r (state_path _)); apply log_path_ne_state).
  destruct Hfs as [Hfs|Hfs]; [unfold state_file_kept in Hfs|unfold state_file_removed in Hfs; fold sp in Hfs];
    (split; [unfold state_ready, text_file_ready|unfold redirect_ready, openable]; rewrite He, Hfs;
     fold sp; fold log).
  - split; [done|]. split; [done|]. split; [done|]. split; [done|]. by exists k.
  - split; [done|]. split; [by exists m|done].
  - split; [done|]. split; [done|]. split; [by apply parent_ok_delete|]. split.
    + intros j. by rewrite lookup_delete_eq.
    + exists k. split; [done|]. by rewrite lookup_delete_None; right.
  - split; [|split; [|done]].
    + unfold openable in H6. fold log in H6. rewrite lookup_delete_ne by done.
      destruct (f_fs (w_files w) !! log) as [[| | |]|]; try done.
      destruct H6 as [Hc H6]. split; [done|]. apply parent_ok_delete; [done| |done].
      pose proof (state_path_length (e_tmpdir (w_env w))) as Hl. fold sp log in Hl. lia.
    + exists m. rewrite lookup_delete_ne; [done|]. apply state_path_ne_null.
Qed.

(** What the command finds: options that can be recorded, an address, a path for the
    state file that fits and is no directory, the three standard descriptors. *)
Record start_ok (env : process_env) (opt : server_opt_t) (w : world) : Prop := {
  so_opt : daemon_opt_ok (child_opt opt w) (Some (log_path (e_tmpdir (w_env w))));
  so_host : host_ok (pe_host env);
  so_listen : zlen (pe_listen env) < 2 ^ 32;
  so_path : zlen (state_path (e_tmpdir (w_env w))) < PATH_CAP;
  so_fds : fds_ok (w_files w);
  so_std : 3 <= f_next (w_files w);
  so_state : forall m, f_fs (w_files w) !! state_path (e_tmpdir (w_env w)) <> Some (NDir m);
  so_env : env_no_dir (state_path (e_tmpdir (w_env w))) env
}.

(** [server] up to [fork]. *)
Lemma server_until_fork env fork opt procs w Q :
  start_ok env opt w ->
  let s := System tracker_zero ∅ ∅ Accepting in
  let stop procs := ((Some 1, ReadyPipe (-1) [], s), procs) : process_result * procs_t in
  (forall procs' w', process_ok w (f_fds (w_files w)) w' ->
     (w_faults w = [] -> alive (answer procs 0) = true) -> Q (stop procs') w') ->
  (forall procs' n w', 3 <= n -> f_next (w_files w') = n + 2 ->
     process_ok w (<[n + 1 := FdPipeW n]> (<[n := FdPipeR]> (f_fds (w_files w)))) w' ->
     (forall k, n <= k -> f_fds (w_files w) !! k = None) ->
     (w_faults w = [] -> w_faults w' = []) -> (start_ready w -> start_ready w') ->
     wp (match fork with
         | ForkFails =>
             let! _ := sys_close n in let! _ := sys_close (n + 1) in ret (stop procs')
         | ForkParent reported =>
             let! _ := sys_close (n + 1) in
             let! r := server_wait_for_daemon_ready n reported in
             ret ((Some (if negb (r =? 0) then 1 else 0), ReadyPipe (-1) [], s), procs')
         | ForkChild =>
             let! _ := sys_close n in
             let! x := server_child env opt (log_path (e_tmpdir (w_env w))) (n + 1) tracker_zero in
             ret (x, procs')
         end) Q w') ->
  wp (server env fork (Some opt) procs tracker_zero) Q w.
Proof.
  intros [_ _ _ Hpath Hfds Hstd Hnd _] s stop Hstop Hgo. unfold server. wp_step. wp_step.
  unfold daemon_state_default_log_path. rewrite daemon_state_global_path_ok.
  2:{ pose proof (state_path_length (e_tmpdir (w_env w))). unfold log_path in *. lia. }
  fold (log_path (e_tmpdir (w_env w))). cbn [negb Z.eqb].
  wp_step. wp_use server_prepare_spec; [exact Hfds|exact Hnd|].
  intros [r procs1] w1 ((Hio & Hn1 & Hfd1) & Hok1 & Hst & Hr & _ & Halive & Hcalm & Hnext).
  assert (Hst' : state_file_kept w w1 \/ state_file_removed w w1) by (destruct Hst as [?|[_ ?]]; auto).
  assert (Hp1 : process_ok w (f_fds (w_files w)) w1).
  { split; [apply Hio|apply Hio|done|done|]. intros m.
    destruct Hst' as [->| ->]; [apply Hnd|]. by rewrite lookup_delete_eq. }
  destruct (Z.eqb_spec r 0) as [->|Hne]; cbn [negb].
  2:{ wp_step. apply Hstop; [done|]. intros _. apply Halive. by destruct Hr. }
  wp_step. apply wp_sys_pipe_any.
  { intros w2 Hf2 Hw2 Hne. wp_step. apply Hstop; [eapply process_ok_same; [exact Hp1|frame|frame|done]|].
    intros E. destruct Hne. by eapply only_io_no_faults. }
  intros pipes w2 Hf2 Hw2. set (n := f_next (w_files w1)) in *.
  eapply Hgo; [lia|by rewrite Hw2|by eapply process_ok_pipe| | |].
  - intros k Hk. rewrite <- Hfd1. by apply Hok1.
  - intros E. eapply only_io_no_faults; [|by eapply only_io_no_faults]. frame.
  - intros H. assert (start_ready w1) as [H1 H2] by (by eapply start_ready_prepared; [apply Hio| |exact Hst'|]).
    assert (He : w_env w2 = w_env w1) by frame. assert (Hfs : f_fs (w_files w2) = f_fs (w_files w1)) by by rewrite Hw2.
    split; [by eapply state_ready_fs|]. unfold redirect_ready. by rewrite He, Hfs.
Qed.

(** *** The command *)

(** [shutdown_init] resets the flags; [main] starts its command in such a world. *)
Definition fresh_start (w w1 : world) : Prop :=
  w_env w1 = w_env w /\ w_net w1 = w_net w /\ w_files w1 = w_files w /\ w_waits w1 = w_waits w /\
  w_prog w1 = Prog (p_store (w_prog w)) (Shutdown 0 0) /\ (flen w1 <= flen w)%nat.

(** What the command of [o] finds: descriptors, sizes and bytes as a process has
    them, and what each command relies on. *)
Record command_ready (env : process_env) (o : Opt) (w : world) : Prop := {
  cr_fds : fds_ok (w_files w);
  cr_sizes : sizes_fit (f_fs (w_files w));
  cr_bytes : Forall is_byte (n_in (w_net w));
  cr_kernel : e_splice_direct (w_env w) = false;
  cr_state : forall m, f_fs (w_files w) !! state_path (e_tmpdir (w_env w)) <> Some (NDir m);
  cr_server : mode o = server_mode -> start_ok env (init_server_opt o (ServerOpt None 0 0)) w
}.

Lemma command_ready_fresh env o w w1 : command_ready env o w -> fresh_start w w1 -> command_ready env o w1.
Proof.
  intros [H1 H2 H3 H4 H5 H6] (He & Hn & Hf & _). split; rewrite ?He, ?Hn, ?Hf; try done.
  intros Hm. destruct (H6 Hm) as [S1 S2 S3 S4 S5 S6 S7 S8].
  split; rewrite ?He, ?Hf; try done. unfold child_opt. by rewrite He.
Qed.

(** Every command comes to its end, or still serves. *)
Lemma client_returns opt w :
  fds_ok (w_files w) -> sizes_fit (f_fs (w_files w)) -> Forall is_byte (n_in (w_net w)) ->
  e_splice_direct (w_env w) = false -> wp (client (Some opt)) (fun _ _ => True) w.
Proof.
  intros Hfds Hsz Hb Hk. unfold client.
  destruct (c_msg_type opt =? HF_MSG_TYPE_SEND_FILE).
  { destruct (c_path opt) as [p|] eqn:E; [by eapply wp_mono; [by apply (client_send_file_raw_spec opt p)|]|].
    unfold client_send_file_raw, client_send_file_steps. rewrite E. cbn [fs_basename_from_path negb Z.eqb].
    wp_step. wp_step. wp_step. wp_use socket_close_spec. intros r w1 _. cbn [negb Z.eqb]. by do 3 wp_step. }
  destruct (c_msg_type opt =? HF_MSG_TYPE_TEXT_MESSAGE).
  { set (opt' := ClientOpt (c_path opt) (c_remote_path opt) (c_output_path opt)
                   (Some (default [] (c_message opt))) (c_ip opt) (c_port opt) (c_msg_type opt)).
    change (wp (client_send_message opt') (fun _ _ => True) w).
    eapply wp_mono; [eapply (client_send_message_spec opt'); [reflexivity|apply Hfds|done]|done]. }
  destruct (c_msg_type opt =? HF_MSG_TYPE_GET_FILE); [|by wp_step].
  destruct (c_remote_path opt) as [remote|] eqn:E; [by eapply wp_mono; [by apply (client_get_file_spec opt remote)|]|].
  unfold client_get_file. rewrite E. by wp_step.
Qed.

Lemma server_returns env fork opt procs w :
  start_ok env opt w -> wp (server env fork (Some opt) procs tracker_zero) (fun _ _ => True) w.
Proof.
  intros Hok. apply server_until_fork; [exact Hok|done|].
  intros p2 n w2 Hn Hnext Hok2 _ _ _. pose proof Hok as [S1 S2 S3 S4 _ _ _ S8].
  destruct fork as [|reported|]; wp_step; apply wp_sys_close; intros r w3 Hf3 _ _ Hw3.
  - wp_step. apply wp_sys_close. intros. by wp_step.
  - wp_step. wp_use server_wait_for_daemon_ready_spec. intros. by wp_step.
  - wp_step. wp_use server_child_spec; [by eapply process_ok_closed| |exact S8|lia|exact S1|exact S2|exact S3|exact S4|].
    { rewrite Hw3. cbn [f_next set_fds]. lia. }
    intros. by wp_step.
Qed.

Lemma hfile_command_returns env fork o procs w :
  command_ready env o w -> wp (hfile_command env fork o procs tracker_zero) (fun _ _ => True) w.
Proof.
  intros [H1 H2 H3 H4 H5 H6]. unfold hfile_command. destruct (mode o) eqn:Em; wp_step.
  - wp_use server_returns; [by apply H6|]. intros [] w1 _. by wp_step.
  - wp_use client_returns; [done..|]. intros r w1 _. by wp_step.
  - unfold control_status. wp_step. wp_use control_load_running_state_spec; [done|done|].
    intros [s p'] w2 _. by do 2 wp_step.
  - wp_use control_stop_spec; [done|done|]. intros [r p'] w2 _. by wp_step.
Qed.

(** The child's run of [server]: it ends before [fork], or it is that of a child. *)
Lemma server_forked_child env opt procs w :
  start_ok env opt w ->
  wp (server env ForkChild (Some opt) procs tracker_zero) (fun '(x, _) w' =>
    (rp_written (snd (fst x)) = [] \/
     exists fds, same_but_std (f_fds (w_files w)) fds /\ child_end env opt fds w x w') /\
    (w_faults w = [] -> start_ready w -> alive (answer procs 0) = false ->
     rp_written (snd (fst x)) = [1])) w.
Proof.
  intros Hstart. apply server_until_fork; [exact Hstart| |].
  { intros p2 w2 _ Hal. cbn [fst snd rp_written]. split; [by left|].
    intros E _ Ha; specialize (Hal E); congruence. }
  intros p2 n w2 Hn Hnext Hok2 Hnone Hcalm Hready. pose proof Hstart as [S1 S2 S3 S4 S5 S6 S7 S8].
  wp_step. apply wp_sys_close. intros r w3 Hf3 _ _ Hw3.
  assert (Hok3 := process_ok_closed _ _ _ _ _ Hok2 Hf3 Hw3).
  assert (Hnext3 : f_next (w_files w3) = n + 2) by (rewrite Hw3; exact Hnext).
  wp_step. wp_use server_child_spec; [exact Hok3|lia|exact S8|lia|exact S1|exact S2|exact S3|exact S4|].
  intros x w4 [(fds & Hsame & Hend) Hlive]. wp_step. split.
  - right. exists fds. split; [|done]. intros k Hk. rewrite Hsame by done.
    destruct (decide (k = n + 1)) as [->|H1]; [by rewrite lookup_delete_eq, Hnone by lia|].
    rewrite lookup_delete_ne by done. destruct (decide (k = n)) as [->|H2].
    + by rewrite lookup_delete_eq, Hnone by lia.
    + by rewrite lookup_delete_ne, !lookup_insert_ne by done.
  - intros E Hs _. apply Hlive.
    + eapply only_io_no_faults; [|by apply Hcalm]. frame.
    + destruct (Hready Hs) as [A B]. assert (He : w_env w3 = w_env w2) by frame.
      assert (Hfs : f_fs (w_files w3) = f_fs (w_files w2)) by by rewrite Hw3.
      split; [by eapply state_ready_fs|]. unfold redirect_ready. by rewrite He, Hfs.
Qed.

Lemma child_end_reports env opt fds w0 x w :
  child_end env opt fds w0 x w ->
  rp_written (snd (fst x)) = [1] \/ rp_written (snd (fst x)) = [0] \/ rp_written (snd (fst x)) = [].
Proof. by intros [p s w4 _ [|]|y w4 [p s w4' _ [|]|]]; auto. Qed.

(** A child that reported 1 was recorded and served from then on. *)
Lemma child_end_reported env opt fds w0 x w :
  child_end env opt fds w0 x w -> rp_written (snd (fst x)) = [1] ->
  exists sock w1 lr s1 w2, 0 <= sock /\ recorded (child_record env opt w0) w1 /\ process_ok w0 fds w1 /\
    server_run_listener (pe_listen env) sock (child_opt opt w0) 0 system_start w1 = Some ((lr, s1), w2) /\
    process_ok w0 fds w /\
    (lr = None \/
     lr = Some 130 /\ fst (fst x) = None /\ main (snd x) = Waiting \/
     lr = Some 130 /\ fst (fst x) = Some 130 /\ cleaned_up w0 w (snd x)).
Proof.
  intros [p s w4 _ Hwr _ _|y w4 [p s w4' _ Hwr _ _|sock w1 lr s1 w2 rr s w4' Hs Hrec Hp1 Hrun Hp2 _ Hend]] E;
    cbn [fst snd rp_written] in *; [by destruct Hwr; congruence..|].
  exists sock, w1, lr, s1, w2. split_and!; try done.
  destruct Hend as [(-> & _)|[(-> & -> & Hm & _)|(-> & -> & Hc)]]; [by left|right; by left|right; by right].
Qed.

(** ** Properties *)


(** A daemon that serves connections until SIGTERM; the watcher's last write and the
    end of two connections come in while it shuts down. *)
Definition demo_process_env : process_env :=
  ProcessEnv (demo_host 55) demo_listen
    (Others [] [] [(bs "/tmp/hf-daemon.state", Some (NFile [] 9))])
    [Others [] [ThreadCloses 3; ThreadCloses 2; ThreadEnds 2] []; Others [] [ThreadEnds 3] []].

Definition demo_start_fs : gmap bytes node :=
  <[bs "/dev/null" := NOther 0]> {[bs "/tmp" := NDir 0]}.

Lemma demo_env_no_dir : env_no_dir (bs "/tmp/hf-daemon.state") demo_process_env.
Proof. split; [|split]; repeat constructor; cbn [fst snd]; done. Qed.


(** The same run without failures, to its end. *)
Example demo_process_run :
  (fun '(r, p, s, w) => (r, rp_written p, main s, base.size (threads s),
     map fst (map_to_list (f_fs (w_files w))))) <$>
    server_run_process demo_process_env demo_daemon_opt (Some (bs "/tmp/hf-daemon.log")) 1
        (ReadyPipe 5 []) tracker_zero (demo_world [] [] (demo_files demo_start_fs)) =
  Some (Some 130, [1], CleanedUp, 0%nat, map fst (map_to_list (<[bs "d/f" := NFile [1] 2]> demo_start_fs))).
Proof. vm_compute. reflexivity. Qed.

(** A second daemon that finds the port taken ([bind] fails) removes the record of
    the daemon that has it. *)
Lemma second_daemon_removes_record :
  let w := set_faults (replicate 6 FNone ++ [FErr EADDRINUSE]) demo_control in
  recorded demo_state w /\
  wp (server_run_process demo_process_env demo_daemon_opt (Some (bs "/tmp/hf-daemon.log")) 1
        (ReadyPipe 5 []) tracker_zero) (fun x w' =>
    fst (fst x) = Some 1 /\ f_fs (w_files w') !! bs "/tmp/hf-daemon.state" = None) w.
Proof.
  split; [|by vm_compute]. split; [apply demo_state_ok|]. split; [by vm_compute|]. split; [by vm_compute|].
  exists 5. vm_compute. reflexivity.
Qed.


Definition demo_start_world (faults : list fault) : world := demo_world faults [] (demo_files demo_start_fs).

Lemma demo_start_ok faults : start_ok demo_process_env demo_daemon_opt (demo_start_world faults).
Proof.
  split; [|apply demo_host_ok; lia|by vm_compute|by vm_compute|apply demo_files_ok|done| |apply demo_env_no_dir].
  - split; [split; [done|split; [by vm_compute|by_decision]]|split; [by vm_compute|by_decision]| |];
      cbn [s_port s_pid child_opt demo_daemon_opt demo_start_world demo_world w_env demo_env e_pid]; lia.
  - intros m. vm_compute. discriminate.
Qed.


Lemma sys_sigaction_spec sig Q w :
  (forall r w', only_errno w w' -> r = 0 \/ r = -1 -> (w_faults w = [] -> r = 0) -> Q r w') ->
  wp (sys_sigaction sig) Q w.
Proof.
  intros H. apply (wp_simple_call None).
  - intros w' Hf Hlt. apply H; [done|auto|]. rewrite no_faults_flen. lia.
  - intros w' Hf _. apply H; auto.
Qed.

Lemma shutdown_init_spec w :
  wp shutdown_init (fun r w' => fresh_start w w' /\ (r = 0 \/ r = 1) /\ (w_faults w = [] -> r = 0)) w.
Proof.
  unfold shutdown_init, put_shutdown. do 2 wp_step. set (w1 := set_prog _ w).
  assert (Hfresh : forall w2, only_errno w1 w2 -> fresh_start w w2).
  { intros w2 Hf. assert (Hp : w_prog w2 = w_prog w1) by frame. assert (flen w2 <= flen w1)%nat by frame.
    split; [change (w_env w) with (w_env w1); frame|]. split; [change (w_net w) with (w_net w1); frame|].
    split; [change (w_files w) with (w_files w1); frame|].
    split; [change (w_waits w) with (w_waits w1); frame|]. split; [by rewrite Hp|done]. }
  wp_step. apply sys_sigaction_spec. intros r w2 Hf2 Hr H2.
  destruct Hr as [->| ->]; cbn [negb Z.eqb]; [|wp_step; split; [auto|split; [auto|]; intros E; by specialize (H2 E)]].
  wp_step. apply sys_sigaction_spec. intros r w3 Hf3 Hr H3. wp_step.
  assert (Hf13 : only_errno w1 w3) by (by etrans). split; [auto|].
  destruct Hr as [->| ->]; cbn [negb Z.eqb]; [auto|]. split; [auto|]. intros E.
  assert (w_faults w2 = []) as E2 by (apply (only_io_no_faults w1); [frame|exact E]). by specialize (H3 E2).
Qed.


