(* ===== verification/Session.v ===== *)
(** * A daemon and the commands about it (server.c, control.c together)

    "hf" in one terminal, "hf status", "hf stop" and a second "hf" in others: the
    daemon's own run of [server] (Process), and the runs of [control_status],
    [control_stop] and [server_prepare_daemon_state] (Control, Daemon) of other
    processes that look at the same files. *)

From S2P Require Import Prelude CLib World Logic ConnTracker.
From S2P Require Import Signals Fs Net Protocol TransferIo MessageStore HttpBuf HttpJson.
From S2P Require Import Cli AppService PicoHttp HttpRequest HttpResponse WebUi HttpFiles HttpMessages Http Server.
From S2P Require Import Client DaemonState Control Daemon Connection Listener Process.

(** *** Specifications *)

(** Another process on the machine of [w], at that moment; nothing fails to it. *)
Record beside (w wo : world) : Prop := {
  bs_fs : f_fs (w_files wo) = f_fs (w_files w);
  bs_tmpdir : e_tmpdir (w_env wo) = e_tmpdir (w_env w);
  bs_fds : fds_ok (w_files wo);
  bs_calm : w_faults wo = []
}.

(** What the commands do when the daemon [daemon] is recorded in [w]; [p] answers
    for processes. "status" tells whether it is there, "stop" signals it and nothing
    else, and succeeds if it ends in time, and a second "hf" does not start while it
    is there. *)
Definition commands_find (daemon : Z) (w : world) : Prop :=
  forall wo p, beside w wo ->
    wp (control_status p) (fun '(r, p') _ =>
      r = (if alive (answer p 0) then 0 else 1) /\ p_kills p' = p_kills p ++ [(daemon, 0)]) wo /\
    wp (control_stop p) (fun '(r, p') _ => exists calls, p_kills p' = p_kills p ++ calls /\
      Forall (fun call => fst call = daemon) calls /\
      (alive (answer p 0) = true -> answer p 1 = 0 -> ends_within 100 p ->
       r = 0 /\ (daemon, SIGTERM) ∈ calls)) wo /\
    wp (server_prepare_daemon_state p) (fun '(r, p') _ =>
      r = (if alive (answer p 0) then 1 else 0) /\ p_kills p' = p_kills p ++ [(daemon, 0)]) wo.

(** What they do when there is none: they call no process, and "hf" may start. *)
Definition commands_find_none (w : world) : Prop :=
  forall wo p, beside w wo ->
    wp (control_status p) (fun '(r, p') _ => r = 1 /\ p' = p) wo /\
    wp (control_stop p) (fun '(r, p') _ => r = 0 /\ p' = p) wo /\
    wp (server_prepare_daemon_state p) (fun '(r, p') _ => r = 0 /\ p' = p) wo.

(** ** Theorems *)

Lemma recorded_beside s w wo : recorded s w -> beside w wo -> recorded s wo.
Proof. intros H [Hf He _ _]. unfold recorded. by rewrite Hf, He. Qed.

Lemma recorded_pid s w : recorded s w -> pid_t_of (pid s) = pid s.
Proof. intros ((? & _) & ? & _). apply pid_t_of_id. lia. Qed.

Lemma recorded_find s w : recorded s w -> commands_find (pid s) w.
Proof.
  intros Hrec wo p Hb. pose proof (recorded_beside _ _ _ Hrec Hb) as Hs. destruct Hb as [_ _ Hfds E].
  assert (Hnd : forall m, f_fs (w_files wo) !! state_path (e_tmpdir (w_env wo)) <> Some (NDir m)).
  { intros m. destruct Hs as (_ & _ & _ & k & ->). discriminate. }
  split; [|split].
  - unfold control_status. wp_step. wp_use control_load_running_state_spec; [done|done|].
    intros [st p1] w1 (_ & _ & _ & Hp & Hcalm). wp_step. pose proof (Hcalm E s Hs) as Hc.
    destruct st as [s'|].
    + destruct Hp as (_ & -> & ->). destruct Hc as [-> _]. split; [done|].
      unfold polled. cbn [p_kills replicate]. by rewrite (recorded_pid s wo).
    + destruct Hc as (_ & -> & ->). split; [done|].
      unfold polled. cbn [p_kills replicate]. by rewrite (recorded_pid s wo).
  - wp_use control_stop_spec; [done|done|]. intros [r p1] w1 (_ & _ & q & calls & _ & Hk & _ & Hpr).
    exists calls. split; [done|]. destruct (Hpr E s Hs) as (_ & Hpid & Hlive). split; [|done].
    by apply Forall_forall.
  - wp_use server_prepare_spec; [done|done|]. intros [r p1] w1 (_ & _ & _ & _ & _ & _ & Hcalm & _).
    destruct (Hcalm E s Hs) as (Hr & Hk & _). by split.
Qed.

(** No state file: nothing is read. *)
Lemma daemon_state_read_none w :
  f_fs (w_files w) !! state_path (e_tmpdir (w_env w)) = None ->
  wp daemon_state_read (fun x w' => x = (1, None) /\ w_files w' = w_files w /\ w_env w' = w_env w) w.
Proof.
  intros Hnone. unfold daemon_state_read. do 2 wp_step.
  destruct (daemon_state_default_state_path (e_tmpdir (w_env w)) PATH_CAP) as [r path] eqn:Ep.
  destruct (Z.eqb_spec r 0) as [->|Hr]; cbn [negb]; [|by wp_step].
  apply daemon_state_default_state_path_0 in Ep as ->. wp_step. apply wp_sys_open_rdonly.
  - intros w1 Hf1 Hw1 _. change (-1 =? -1) with true. cbv iota. wp_step. split; [done|]. split; [done|frame].
  - intros n w1 _ Hn _. unfold resolved in Hn. rewrite Hnone in Hn. congruence.
Qed.

Lemma no_record_none w :
  f_fs (w_files w) !! state_path (e_tmpdir (w_env w)) = None -> commands_find_none w.
Proof.
  intros Hnone wo p [Hf He _ _].
  assert (Hno : f_fs (w_files wo) !! state_path (e_tmpdir (w_env wo)) = None) by by rewrite Hf, He.
  assert (Hload : wp (control_load_running_state p) (fun x _ => x = (None, p)) wo).
  { unfold control_load_running_state. wp_step. wp_use daemon_state_read_none; [exact Hno|].
    intros x w1 (-> & Hw1 & He1). wp_step. wp_use cleanup_files_spec; [intros m; by rewrite He1, Hw1, Hno|].
    intros _ w2 _. by wp_step. }
  split; [|split].
  - unfold control_status. wp_step. eapply wp_mono; [exact Hload|]. intros x w1 ->. by wp_step.
  - unfold control_stop. wp_step. eapply wp_mono; [exact Hload|]. intros x w1 ->. by wp_step.
  - unfold server_prepare_daemon_state. wp_step. wp_use daemon_state_read_none; [exact Hno|].
    intros x w1 (-> & _). by wp_step.
Qed.

(** A signal that came in stays. *)
Lemma run_requests_has sig acts s :
  ActRequest sig ∈ acts -> g_requested (run_requests acts s) <> 0.
Proof.
  intros (l1 & l2 & ->)%list_elem_of_split. rewrite run_requests_app.
  change (run_requests (ActRequest sig :: l2) (run_requests l1 s)) with
    (run_requests l2 (shutdown_set_requested sig (run_requests l1 s))).
  by apply run_requests_requested.
Qed.

(** The listener ends when one of its waits sees a signal. *)
Lemma listener_ends_on_signal events ev sig sock opt w lr s w' :
  0 <= f_next (w_files w) -> zlen events < 2 ^ 32 -> ev ∈ events -> ActRequest sig ∈ oa_store (le_others ev) ->
  server_run_listener events sock opt 0 system_start w = Some ((lr, s), w') -> lr = Some 130.
Proof.
  intros Hn Hlen Hev Hsig Hrun.
  pose proof (server_run_listener_spec events sock opt 0 system_start 0 w (start_accepting _ Hn) Hlen) as H.
  unfold wp in H. rewrite Hrun in H. destruct H as (dn & rest & -> & Hm & _ & _ & Hend & _).
  destruct Hend as [(_ & -> & Hg)|(Hr & _)]; [|done]. exfalso. rewrite app_nil_r in *.
  rewrite (mw_shutdown _ _ _ Hm) in Hg. revert Hg. apply (run_requests_has sig).
  apply list_elem_of_In, in_concat. exists (oa_store (le_others ev)).
  split; apply list_elem_of_In; [|done].
  by apply list_elem_of_fmap_2, list_elem_of_fmap_2.
Qed.

(** ** Properties *)


Lemma demo_start_ready : start_ready (demo_start_world []).
Proof.
  split; [split; [by vm_compute|]; split; [by vm_compute|]; split; [by vm_compute|]; split|].
  - intros m. vm_compute. discriminate.
  - exists 0. split; [lia|by vm_compute].
  - split; [by vm_compute|]. split; [by exists 0|by vm_compute].
Qed.

