(* ===== verification/Concurrent.v ===== *)
(** * Uploads and downloads at the same time (src/transfer_io.c, src/app_service.c)

    Every connection has its thread, and all of them work in one directory. Here a
    thread that stores an upload, or reads a file for a download, is a machine that
    makes one system call per step; a schedule says whose turn it is and how the
    call ends. Files are inodes, so that an open descriptor keeps its file when the
    name goes to another one. A run of [transfer_recv_with] (TransferIo) is proved
    to be a run of its machine. *)

From S2P Require Import Prelude CLib World Logic Fs Net Protocol TransferIo.
From S2P Require Import Cli AppService HttpResponse HttpFiles.

(** ** Definitions *)

(** *** The directory *)

(** What a name stands for: a regular file, or anything else. *)
Inductive dentry :=
  | Reg (inode : Z)
  | Special (n : node).

(** The names, the contents of the files -- also of those that have lost their
    name -- and the next free inode. *)
Record store := Store {
  st_dir : gmap bytes dentry;
  st_inodes : gmap Z bytes;
  st_next : Z
}.

(** How the next system call of a thread ends: it does its work, it moves at most
    [n] bytes, or it fails. *)
Inductive event :=
  | Works
  | Moves (n : Z)
  | Fails (errno : Z).

(** *** Uploads *)

(** Where a thread is in [transfer_recv_socket_file]: opening a temporary file,
    receiving into it ([got] has been written), closing, renaming, removing it, or
    done; [left] is the file that could not be removed. *)
Inductive upload_phase :=
  | Opening (attempt : Z)
  | Receiving (tmp : bytes) (inode : Z) (got : bytes)
  | Closing (tmp : bytes) (inode : Z) (got : bytes)
  | Committing (tmp : bytes) (inode : Z) (got : bytes)
  | Removing (tmp : bytes) (inode : Z) (got : bytes)
  | Stored (got : bytes)
  | Failed (left : option bytes).

(** The final path, the announced size, and the bytes the peer will send. *)
Record upload := Upload {
  u_full : bytes;
  u_size : Z;
  u_peer : bytes;
  u_phase : upload_phase
}.

Definition set_phase (ph : upload_phase) (u : upload) : upload :=
  Upload (u_full u) (u_size u) (u_peer u) ph.

(** After [EEXIST]. *)
Definition next_attempt (attempt : Z) : upload_phase :=
  if attempt + 1 <? 3 then Opening (attempt + 1) else Failed None.

(** One call of the thread; [None]: it makes no such call. *)
Definition upload_step (pid : Z) (ev : event) (u : upload) (s : store) : option (upload * store) :=
  let stay ph := Some (set_phase ph u, s) in
  match u_phase u, ev with
  | Opening attempt, Works =>
      let tmp := temp_path_text (u_full u) pid attempt in
      match st_dir s !! tmp with
      | Some _ => stay (next_attempt attempt)
      | None =>
          Some (set_phase (Receiving tmp (st_next s) []) u,
                Store (<[tmp := Reg (st_next s)]> (st_dir s)) (<[st_next s := []]> (st_inodes s))
                  (st_next s + 1))
      end
  | Opening attempt, Fails e =>
      stay (if e =? EEXIST then next_attempt attempt else Failed None)
  | Receiving tmp i got, Moves n =>
      let d := ztake (Z.min n (u_size u - zlen got)) (zdrop (zlen got) (u_peer u)) in
      match st_inodes s !! i with
      | Some c =>
          Some (set_phase (Receiving tmp i (got ++ d)) u,
                Store (st_dir s) (<[i := write_at c (zlen got) d]> (st_inodes s)) (st_next s))
      | None => None
      end
  | Receiving tmp i got, Works =>
      if zlen got =? u_size u then stay (Closing tmp i got) else None
  | Receiving tmp i got, Fails _ => stay (Removing tmp i got)
  | Closing tmp i got, Works => stay (Committing tmp i got)
  | Closing tmp i got, Fails _ => stay (Removing tmp i got)
  | Committing tmp i got, Works =>
      match st_dir s !! tmp, st_dir s !! u_full u with
      | None, _ | _, Some (Special (NDir _)) => stay (Removing tmp i got)
      | Some e, _ =>
          Some (set_phase (Stored got) u,
                Store (<[u_full u := e]> (delete tmp (st_dir s))) (st_inodes s) (st_next s))
      end
  | Committing tmp i got, Fails _ => stay (Removing tmp i got)
  | Removing tmp i got, Works =>
      Some (set_phase (Failed None) u, Store (delete tmp (st_dir s)) (st_inodes s) (st_next s))
  | Removing tmp i got, Fails _ => stay (Failed (Some tmp))
  | _, _ => None
  end.

(** *** Downloads *)

(** Where a thread is in [app_prepare_download] and the loop that sends the file:
    [sent] is what the peer received, [size] what [fstat] said. *)
Inductive download_phase :=
  | Looking
  | Opened (inode : Z)
  | Sending (inode size : Z) (sent : bytes)
  | Sent (sent : bytes)
  | Refused
  | Broken (sent : bytes).

Record download := Download { d_path : bytes; d_phase : download_phase }.

Definition download_step (ev : event) (d : download) (s : store) : option download :=
  let stay ph := Some (Download (d_path d) ph) in
  match d_phase d, ev with
  | Looking, Works =>
      match st_dir s !! d_path d with
      | Some (Reg i) => stay (Opened i)
      | _ => stay Refused
      end
  | Looking, Fails _ | Opened _, Fails _ => stay Refused
  | Opened i, Works =>
      match st_inodes s !! i with
      | Some c => stay (Sending i (zlen c) [])
      | None => None
      end
  | Sending i size sent, Moves n =>
      match st_inodes s !! i with
      | Some c => stay (Sending i size
                          (sent ++ ztake (Z.min n (size - zlen sent)) (zdrop (zlen sent) c)))
      | None => None
      end
  | Sending i size sent, Works => if zlen sent =? size then stay (Sent sent) else None
  | Sending i size sent, Fails _ => stay (Broken sent)
  | _, _ => None
  end.

(** *** All threads *)

Inductive thread :=
  | Uploading (u : upload)
  | Downloading (d : download).

Record server_files := ServerFiles { sf_store : store; sf_threads : gmap Z thread }.

(** The turn of thread [t]; a turn that is not possible changes nothing. *)
Definition turn (pid : Z) (s : server_files) (te : Z * event) : server_files :=
  let '(t, ev) := te in
  match sf_threads s !! t with
  | Some (Uploading u) =>
      match upload_step pid ev u (sf_store s) with
      | Some (u, st) => ServerFiles st (<[t := Uploading u]> (sf_threads s))
      | None => s
      end
  | Some (Downloading d) =>
      match download_step ev d (sf_store s) with
      | Some d => ServerFiles (sf_store s) (<[t := Downloading d]> (sf_threads s))
      | None => s
      end
  | None => s
  end.

Definition run_schedule (pid : Z) (schedule : list (Z * event)) (s : server_files) : server_files :=
  fold_left (turn pid) schedule s.

(** *** Specifications *)

(** The temporary file of a running upload, its inode, and what it holds. *)
Definition owned (u : upload) : option (bytes * Z * bytes) :=
  match u_phase u with
  | Receiving tmp i got | Closing tmp i got | Committing tmp i got | Removing tmp i got =>
      Some (tmp, i, got)
  | _ => None
  end.

(** The bytes an upload stores when it succeeds. *)
Definition whole (u : upload) (d : bytes) : Prop :=
  zlen d = u_size u /\ d = ztake (u_size u) (u_peer u).

(** The temporary names of an upload. *)
Definition temp_name (pid : Z) (u : upload) (p : bytes) : Prop :=
  exists k, 0 <= k < 3 /\ p = temp_path_text (u_full u) pid k.

(** The contents of the regular file [p]. *)
Definition contents (s : store) (p c : bytes) : Prop :=
  exists i, st_dir s !! p = Some (Reg i) /\ st_inodes s !! i = Some c.

(** What [p] may hold after a start in [s0]: what it held at the start, or all that
    the peer of an upload to [p] sent, which reported success. *)
Definition version (s0 s : server_files) (p c : bytes) : Prop :=
  contents (sf_store s0) p c \/
  exists t u, sf_threads s !! t = Some (Uploading u) /\ u_full u = p /\ u_phase u = Stored c /\ whole u c.

(** The start: any number of threads that have made no call yet; nobody stores to
    a name that is a temporary name of another. *)
Record ready (pid : Z) (s : server_files) : Prop := {
  rd_inodes : forall p i, st_dir (sf_store s) !! p = Some (Reg i) ->
    i < st_next (sf_store s) /\ is_Some (st_inodes (sf_store s) !! i);
  rd_names : forall p q i, st_dir (sf_store s) !! p = Some (Reg i) ->
    st_dir (sf_store s) !! q = Some (Reg i) -> p = q;
  rd_uploads : forall t u, sf_threads s !! t = Some (Uploading u) ->
    u_phase u = Opening 0 /\ 0 <= u_size u;
  rd_downloads : forall t d, sf_threads s !! t = Some (Downloading d) -> d_phase d = Looking;
  rd_targets : forall t u t' u', sf_threads s !! t = Some (Uploading u) ->
    sf_threads s !! t' = Some (Uploading u') -> ~ temp_name pid u' (u_full u)
}.

(** A name that is nobody's temporary name. *)
Definition plain_name (pid : Z) (s : server_files) (p : bytes) : Prop :=
  forall t u, sf_threads s !! t = Some (Uploading u) -> ~ temp_name pid u p.

(** The request of a thread does not change. *)
Definition same_request (th0 th : thread) : Prop :=
  match th0, th with
  | Uploading u0, Uploading u => exists ph, u = set_phase ph u0
  | Downloading d0, Downloading d => d_path d = d_path d0
  | _, _ => False
  end.

(** [p] is a file that was created after the start. *)
Definition stored_since (s0 s : store) (p : bytes) : Prop :=
  exists i, st_dir s !! p = Some (Reg i) /\ st_next s0 <= i.

(** The phases an upload can be in: what it owns is its own, and what it has
    stored stays. *)
Definition upload_ok (pid : Z) (s0 : store) (s : store) (u : upload) : Prop :=
  match u_phase u with
  | Opening k => 0 <= k < 3
  | Receiving tmp i got | Removing tmp i got =>
      temp_name pid u tmp /\ st_dir s0 !! tmp = None /\ st_next s0 <= i < st_next s /\
      st_dir s !! tmp = Some (Reg i) /\ st_inodes s !! i = Some got /\
      zlen got <= u_size u /\ got = ztake (zlen got) (u_peer u)
  | Closing tmp i got | Committing tmp i got =>
      temp_name pid u tmp /\ st_dir s0 !! tmp = None /\ st_next s0 <= i < st_next s /\
      st_dir s !! tmp = Some (Reg i) /\ st_inodes s !! i = Some got /\ whole u got
  | Stored d => whole u d /\ stored_since s0 s (u_full u)
  | Failed (Some tmp) => temp_name pid u tmp /\ st_dir s0 !! tmp = None
  | Failed None => True
  end.

(** Where the entry of a name comes from. *)
Inductive origin (s0 s : server_files) (p : bytes) : Prop :=
  | from_start : st_dir (sf_store s) !! p = st_dir (sf_store s0) !! p -> origin s0 s p
  | from_upload t u d i :
      sf_threads s !! t = Some (Uploading u) -> u_full u = p -> u_phase u = Stored d ->
      st_dir (sf_store s) !! p = Some (Reg i) -> st_inodes (sf_store s) !! i = Some d ->
      st_next (sf_store s0) <= i -> origin s0 s p
  | from_running t u i got :
      sf_threads s !! t = Some (Uploading u) -> owned u = Some (p, i, got) -> origin s0 s p
  | from_failure t u :
      sf_threads s !! t = Some (Uploading u) -> u_phase u = Failed (Some p) -> origin s0 s p.

(** An inode that holds [c], and that no running upload writes to. *)
Definition settled (s : server_files) (i : Z) (c : bytes) : Prop :=
  st_inodes (sf_store s) !! i = Some c /\ i < st_next (sf_store s) /\
  forall t u tmp j got, sf_threads s !! t = Some (Uploading u) -> owned u = Some (tmp, j, got) -> j <> i.

(** A download reads one version of its file, from its first byte on. *)
Definition download_ok (s0 s : server_files) (d : download) : Prop :=
  match d_phase d with
  | Looking | Refused => True
  | Opened i => exists c, version s0 s (d_path d) c /\ settled s i c
  | Sending i size sent => exists c, version s0 s (d_path d) c /\ settled s i c /\ size = zlen c /\
      zlen sent <= size /\ sent = ztake (zlen sent) c
  | Sent sent => version s0 s (d_path d) sent
  | Broken sent => exists c, version s0 s (d_path d) c /\ sent = ztake (zlen sent) c
  end.

(** Names stand for inodes that exist, different names for different ones. *)
Definition store_ok (s : store) : Prop :=
  (forall p i, st_dir s !! p = Some (Reg i) -> i < st_next s /\ is_Some (st_inodes s !! i)) /\
  (forall p q i, st_dir s !! p = Some (Reg i) -> st_dir s !! q = Some (Reg i) -> p = q).

(** What holds at every moment after a start in [s0]. *)
Record invariant (pid : Z) (s0 s : server_files) : Prop := {
  iv_ready : ready pid s0;
  iv_requests : forall t th, sf_threads s !! t = Some th ->
    exists th0, sf_threads s0 !! t = Some th0 /\ same_request th0 th;
  iv_store : store_ok (sf_store s);
  iv_next : st_next (sf_store s0) <= st_next (sf_store s);
  iv_old : forall i, i < st_next (sf_store s0) -> st_inodes (sf_store s) !! i = st_inodes (sf_store s0) !! i;
  iv_uploads : forall t u, sf_threads s !! t = Some (Uploading u) ->
    upload_ok pid (sf_store s0) (sf_store s) u;
  iv_apart : forall t t' u u' p q i got got', sf_threads s !! t = Some (Uploading u) ->
    sf_threads s !! t' = Some (Uploading u') -> owned u = Some (p, i, got) ->
    owned u' = Some (q, i, got') -> t = t';
  iv_origin : forall p, origin s0 s p;
  iv_downloads : forall t d, sf_threads s !! t = Some (Downloading d) ->
    plain_name pid s0 (d_path d) -> download_ok s0 s d
}.

(** The store stands for the file system. *)
Definition view (s : store) (fs : gmap bytes node) : Prop :=
  forall p, match st_dir s !! p with
            | None => fs !! p = None
            | Some (Reg i) => exists c m, st_inodes s !! i = Some c /\ fs !! p = Some (NFile c m)
            | Some (Special n) => fs !! p = Some n /\ forall c m, n <> NFile c m
            end.

(** The result of the code and the phase its machine ends in. *)
Definition ends_as (r : protocol_result_t) (ph : upload_phase) : Prop :=
  match ph with Stored _ => r = PROTOCOL_OK | Failed _ => r <> PROTOCOL_OK | _ => False end.

(** A run of the code from [w] to [w'] with result [r] is a run of thread [t]. *)
Definition runs_thread (base name : bytes) (size : Z) (s : store) (t : Z) (threads : gmap Z thread)
    (w : world) (r : protocol_result_t) (w' : world) : Prop :=
  let u := Upload (target_path base name) size (n_in (w_net w)) (Opening 0) in
  exists schedule ph s', Forall (fun te => fst te = t) schedule /\
    run_schedule (e_pid (w_env w)) schedule (ServerFiles s (<[t := Uploading u]> threads)) =
      ServerFiles s' (<[t := Uploading (set_phase ph u)]> threads) /\
    ends_as r ph /\ view s' (f_fs (w_files w')).

(** The reply of a request for the file [rel] and the phase its machine ends in. *)
Definition answers_as (rel : bytes) (r : Z) (w w' : world) (ph : download_phase) : Prop :=
  match ph with
  | Refused => exists text, error_reply text /\ answered text r w w'
  | Sent c => r = 0 /\ said_all (http_file_header (zlen c) (safe_name_of rel) ++ c) w w'
  | Broken sent => r <> 0 /\ exists size begun, said_all (begun ++ sent) w w' /\
      begun `prefix_of` http_file_header size (safe_name_of rel) /\
      (sent <> [] -> begun = http_file_header size (safe_name_of rel))
  | _ => False
  end.

(** A run of [http_send_file] from [w] to [w'] with result [r] is a run of thread [t]. *)
Definition serves_thread (base rel : bytes) (s : store) (t : Z) (threads : gmap Z thread)
    (w : world) (r : Z) (w' : world) : Prop :=
  let d := Download (entry_path base rel) in
  exists schedule ph, Forall (fun te => fst te = t) schedule /\
    run_schedule (e_pid (w_env w)) schedule (ServerFiles s (<[t := Downloading (d Looking)]> threads)) =
      ServerFiles s (<[t := Downloading (d ph)]> threads) /\
    answers_as rel r w w' ph /\ view s (f_fs (w_files w')).

(** What is left for an upload to do when nothing fails. *)
Definition rest_of_upload (t : Z) (u : upload) : list (Z * event) :=
  match u_phase u with
  | Opening _ => [(t, Works); (t, Moves (u_size u)); (t, Works); (t, Works); (t, Works)]
  | Receiving _ _ got => [(t, Moves (u_size u - zlen got)); (t, Works); (t, Works); (t, Works)]
  | Closing _ _ _ => [(t, Works); (t, Works)]
  | Committing _ _ _ => [(t, Works)]
  | _ => []
  end.

(** ** Theorems *)

Lemma owned_ok pid s0 s u tmp i got :
  upload_ok pid s0 s u -> owned u = Some (tmp, i, got) ->
  temp_name pid u tmp /\ st_dir s0 !! tmp = None /\ st_next s0 <= i < st_next s /\
  st_dir s !! tmp = Some (Reg i) /\ st_inodes s !! i = Some got.
Proof.
  unfold upload_ok, owned. destruct (u_phase u) as [| | | | | |[]]; try done; intros H [= <- <- <-]; naive_solver.
Qed.

Lemma request_upload pid s0 s t u :
  invariant pid s0 s -> sf_threads s !! t = Some (Uploading u) ->
  exists u0 ph, sf_threads s0 !! t = Some (Uploading u0) /\ u = set_phase ph u0.
Proof.
  intros H Ht. destruct (iv_requests _ _ _ H _ _ Ht) as ([u0|d0] & H0 & Hs); [|done].
  destruct Hs as [ph ->]. eauto.
Qed.

(** Nobody's target is a temporary name, at any moment. *)
Lemma targets_plain pid s0 s t u t' u' :
  invariant pid s0 s -> sf_threads s !! t = Some (Uploading u) ->
  sf_threads s !! t' = Some (Uploading u') -> ~ temp_name pid u' (u_full u).
Proof.
  intros H Ht Ht'. destruct (request_upload _ _ _ _ _ H Ht) as (u0 & ph & H0 & ->).
  destruct (request_upload _ _ _ _ _ H Ht') as (u0' & ph' & H0' & ->).
  exact (rd_targets _ _ (iv_ready _ _ _ H) _ _ _ _ H0 H0').
Qed.

Lemma plain_not_temp pid s0 s p t u :
  invariant pid s0 s -> plain_name pid s0 p -> sf_threads s !! t = Some (Uploading u) -> ~ temp_name pid u p.
Proof.
  intros H Hp Ht. destruct (request_upload _ _ _ _ _ H Ht) as (u0 & ph & H0 & ->). exact (Hp _ _ H0).
Qed.

(** The inode of a name that is not the temporary name of a running upload is
    nobody's. *)
Lemma named_settled pid s0 s p i c :
  invariant pid s0 s -> st_dir (sf_store s) !! p = Some (Reg i) -> st_inodes (sf_store s) !! i = Some c ->
  (forall t u, sf_threads s !! t = Some (Uploading u) -> ~ temp_name pid u p) -> settled s i c.
Proof.
  intros H Hp Hi Hn. split; [done|]. split; [by apply (proj1 (iv_store _ _ _ H) p i)|].
  intros t u tmp j got Ht Ho ->. destruct (owned_ok _ _ _ _ _ _ _ (iv_uploads _ _ _ H _ _ Ht) Ho) as (Htmp & _ & _ & Hd & _).
  apply (Hn t u Ht). by rewrite (proj2 (iv_store _ _ _ H) p tmp i Hp Hd).
Qed.

(** *** Turns of uploads *)

Section Move.
Context (pid : Z) (s0 s : server_files) (t : Z) (u : upload) (ph : upload_phase) (st : store).
Hypothesis Hinv : invariant pid s0 s.
Hypothesis Ht : sf_threads s !! t = Some (Uploading u).
(** The upload is not over, ... *)
Hypothesis Hrunning : match u_phase u with Stored _ | Failed _ => False | _ => True end.
(** ... what it owns after the turn is what it owned before, or new, ... *)
Hypothesis Hown : forall tmp i got, owned (set_phase ph u) = Some (tmp, i, got) ->
  (exists got0, owned u = Some (tmp, i, got0)) \/ st_next (sf_store s) <= i.
(** ... the store is as it was but for its own file and names nobody else owns, ... *)
Hypothesis Hstore : store_ok st.
Hypothesis Hnext : st_next (sf_store s) <= st_next st.
Hypothesis Hinodes : forall i, i < st_next (sf_store s) ->
  (forall tmp j got, owned u = Some (tmp, j, got) -> j <> i) ->
  st_inodes st !! i = st_inodes (sf_store s) !! i.
Hypothesis Hok : upload_ok pid (sf_store s0) st (set_phase ph u).
Let s' := ServerFiles st (<[t := Uploading (set_phase ph u)]> (sf_threads s)).
Hypothesis Hdir : forall p, st_dir st !! p = st_dir (sf_store s) !! p \/
  origin s0 s' p /\ forall t2 u2 i got, t2 <> t -> sf_threads s !! t2 = Some (Uploading u2) ->
    owned u2 <> Some (p, i, got).
(** ... what has been stored stays or is replaced by a new file, ... *)
Hypothesis Hkeep : forall t2 u2, sf_threads s !! t2 = Some (Uploading u2) ->
  st_dir st !! u_full u2 = st_dir (sf_store s) !! u_full u2 \/ stored_since (sf_store s0) st (u_full u2).
(** ... and its temporary name is still its own, or gone, or left behind. *)
Hypothesis Htmp : forall tmp i got, owned u = Some (tmp, i, got) -> origin s0 s' tmp.

Lemma move_other t2 u2 :
  t2 <> t -> sf_threads s !! t2 = Some (Uploading u2) -> sf_threads s' !! t2 = Some (Uploading u2).
Proof. intros Hne H. cbn. by rewrite lookup_insert_ne. Qed.

Lemma move_thread t2 u2 :
  sf_threads s' !! t2 = Some (Uploading u2) ->
  t2 = t /\ u2 = set_phase ph u \/ t2 <> t /\ sf_threads s !! t2 = Some (Uploading u2).
Proof.
  cbn. destruct (decide (t2 = t)) as [->|Hne].
  - rewrite lookup_insert_eq. intros [= <-]. by left.
  - rewrite lookup_insert_ne by done. by right.
Qed.

Lemma move_version p c : version s0 s p c -> version s0 s' p c.
Proof.
  intros [H|(t2 & u2 & H2 & Hf & Hph & Hw)]; [by left|right]. exists t2, u2. split; [|done].
  apply move_other; [|done]. intros ->. rewrite Ht in H2. injection H2 as <-. by rewrite Hph in Hrunning.
Qed.

Lemma move_inode t2 u2 tmp i got :
  t2 <> t -> sf_threads s !! t2 = Some (Uploading u2) -> owned u2 = Some (tmp, i, got) ->
  st_inodes st !! i = st_inodes (sf_store s) !! i /\ st_dir st !! tmp = st_dir (sf_store s) !! tmp.
Proof.
  intros Hne H2 Ho. pose proof (owned_ok _ _ _ _ _ _ _ (iv_uploads _ _ _ Hinv _ _ H2) Ho) as (_ & _ & Hi & _).
  split.
  - apply Hinodes; [lia|]. intros tmp' j got' Ho' ->. apply Hne. by eapply (iv_apart _ _ _ Hinv).
  - destruct (Hdir tmp) as [?|[_ Hno]]; [done|]. by destruct (Hno t2 u2 i got Hne H2).
Qed.

Lemma move_upload_ok t2 u2 :
  t2 <> t -> sf_threads s !! t2 = Some (Uploading u2) -> upload_ok pid (sf_store s0) st u2.
Proof.
  intros Hne H2. pose proof (iv_uploads _ _ _ Hinv _ _ H2) as H.
  pose proof (fun tmp i got => move_inode t2 u2 tmp i got Hne H2) as Hm. unfold upload_ok, owned in *.
  destruct (u_phase u2) as [|tmp i got|tmp i got|tmp i got|tmp i got|d|]; try done;
    [destruct (Hm tmp i got eq_refl) as [-> ->]; naive_solver lia..|].
  destruct H as [Hw (i & Hi & Hn)]. split; [done|].
  destruct (Hkeep _ _ H2) as [E|]; [|done]. exists i. by rewrite E.
Qed.

Lemma move_settled i c : settled s i c -> settled s' i c.
Proof.
  intros (Hi & Hl & Hno). split; [|split].
  - cbn. rewrite Hinodes; [done|done|]. intros tmp j got Ho. by apply (Hno t u tmp j got Ht).
  - cbn. lia.
  - intros t2 u2 tmp j got H2 Ho. apply move_thread in H2 as [[-> ->]|[Hne H2]]; [|by eapply Hno].
    destruct (Hown _ _ _ Ho) as [[got0 Ho0]|Hj]; [by eapply Hno|lia].
Qed.

Lemma move_origin p : origin s0 s' p.
Proof.
  destruct (Hdir p) as [Hp|[Hp _]]; [|done].
  destruct (iv_origin _ _ _ Hinv p) as [H|t2 u2 d i H2 Hf Hph Hd Hi Hn|t2 u2 i got H2 Ho|t2 u2 H2 Hph].
  - apply from_start. cbn. congruence.
  - assert (t2 <> t) as Hne by (intros ->; rewrite Ht in H2; injection H2 as <-; by rewrite Hph in Hrunning).
    apply (from_upload _ _ _ t2 u2 d i); [by apply move_other|done|done|cbn; congruence| |done].
    cbn. rewrite Hinodes; [done|by apply (proj1 (iv_store _ _ _ Hinv) p i)|].
    intros tmp j got Ho ->. pose proof (owned_ok _ _ _ _ _ _ _ (iv_uploads _ _ _ Hinv _ _ Ht) Ho) as (Htn & _ & _ & Hdt & _).
    apply (targets_plain _ _ _ _ _ _ _ Hinv H2 Ht). by rewrite Hf, (proj2 (iv_store _ _ _ Hinv) p tmp i Hd Hdt).
  - destruct (decide (t2 = t)) as [->|Hne]; [|by apply (from_running _ _ _ t2 u2 i got); [apply move_other|]].
    rewrite Ht in H2. injection H2 as <-. by eapply Htmp.
  - assert (t2 <> t) as Hne by (intros ->; rewrite Ht in H2; injection H2 as <-; by rewrite Hph in Hrunning).
    apply (from_failure _ _ _ t2 u2); [by apply move_other|done].
Qed.

Lemma move_invariant : invariant pid s0 s'.
Proof.
  pose proof Hinv as [I1 I2 I3 I4 I5 I6 I7 I8 I9]. split.
  - done.
  - intros t2 th H2. cbn in H2. destruct (decide (t2 = t)) as [->|Hne].
    + rewrite lookup_insert_eq in H2. injection H2 as <-.
      destruct (request_upload _ _ _ _ _ Hinv Ht) as (u0 & ph0 & H0 & ->).
      exists (Uploading u0). split; [done|]. by exists ph.
    + rewrite lookup_insert_ne in H2 by done. by apply I2.
  - done.
  - cbn. lia.
  - intros i Hi. cbn. rewrite Hinodes; [by apply I5|lia|]. intros tmp j got Ho ->.
    pose proof (owned_ok _ _ _ _ _ _ _ (I6 _ _ Ht) Ho). lia.
  - intros t2 u2 H2. apply move_thread in H2 as [[-> ->]|[Hne H2]]; [done|by eapply move_upload_ok].
  - assert (Hnew : forall t2 u2 tmp q i got got2, t2 <> t -> sf_threads s !! t2 = Some (Uploading u2) ->
      owned (set_phase ph u) = Some (tmp, i, got) -> owned u2 = Some (q, i, got2) -> False).
    { intros t2 u2 tmp q i got got2 Hne H2 Ho Ho2. destruct (Hown _ _ _ Ho) as [[got0 Ho0]|Hj].
      - apply Hne. by eapply I7.
      - pose proof (owned_ok _ _ _ _ _ _ _ (I6 _ _ H2) Ho2). lia. }
    intros t2 t3 u2 u3 p q i got got' H2 H3 Ho2 Ho3.
    apply move_thread in H2 as [[-> ->]|[Hne2 H2]]; apply move_thread in H3 as [[-> ->]|[Hne3 H3]]; try done.
    + by destruct (Hnew _ _ _ _ _ _ _ Hne3 H3 Ho2 Ho3).
    + by destruct (Hnew _ _ _ _ _ _ _ Hne2 H2 Ho3 Ho2).
    + by eapply I7.
  - intros p. apply move_origin.
  - intros t2 d H2 Hp. cbn in H2. destruct (decide (t2 = t)) as [->|Hne]; [by rewrite lookup_insert_eq in H2|].
    rewrite lookup_insert_ne in H2 by done. specialize (I9 _ _ H2 Hp). unfold download_ok in *.
    destruct (d_phase d); naive_solver eauto using move_version, move_settled.
Qed.
End Move.

(** A turn that leaves the store alone. *)
Lemma stay_invariant pid s0 s t u ph :
  invariant pid s0 s -> sf_threads s !! t = Some (Uploading u) ->
  match u_phase u with Stored _ | Failed _ => False | _ => True end ->
  upload_ok pid (sf_store s0) (sf_store s) (set_phase ph u) ->
  (forall x, owned (set_phase ph u) = Some x -> owned u = Some x) ->
  (forall tmp i got, owned u = Some (tmp, i, got) ->
     owned (set_phase ph u) = Some (tmp, i, got) \/ ph = Failed (Some tmp)) ->
  invariant pid s0 (ServerFiles (sf_store s) (<[t := Uploading (set_phase ph u)]> (sf_threads s))).
Proof.
  intros H Ht Hrun Hok H1 H2. apply (move_invariant pid s0 s t u); try done.
  - intros tmp i got Ho%H1. left. by exists got.
  - apply H.
  - intros p. by left.
  - intros t2 u2 _. by left.
  - intros tmp i got Ho. destruct (H2 _ _ _ Ho) as [Ho' | ->].
    + eapply from_running; [cbn; by rewrite lookup_insert_eq|done].
    + eapply from_failure; [cbn; by rewrite lookup_insert_eq|done].
Qed.

(** A new temporary file. *)
Lemma create_invariant pid s0 s t u k tmp :
  invariant pid s0 s -> sf_threads s !! t = Some (Uploading u) -> u_phase u = Opening k -> 0 <= k < 3 ->
  0 <= u_size u -> tmp = temp_path_text (u_full u) pid k -> st_dir (sf_store s) !! tmp = None ->
  let i := st_next (sf_store s) in
  invariant pid s0 (ServerFiles
    (Store (<[tmp := Reg i]> (st_dir (sf_store s))) (<[i := []]> (st_inodes (sf_store s))) (i + 1))
    (<[t := Uploading (set_phase (Receiving tmp i []) u)]> (sf_threads s))).
Proof.
  intros H Ht Hph Hk Hs Htmp Hnone i. pose proof H as [I1 I2 [I3a I3b] I4 I5 I6 I7 I8 I9].
  assert (Hnou : owned u = None) by (unfold owned; by rewrite Hph).
  assert (Hfresh : forall p, st_dir (sf_store s) !! p <> Some (Reg i)) by (intros p Hp%I3a; lia).
  assert (Hname : temp_name pid (set_phase (Receiving tmp i []) u) tmp) by (by exists k).
  assert (Hold : st_dir (sf_store s0) !! tmp = None).
  { destruct (I8 tmp) as [E|t2 u2 d j H2 Hf _ Hd _ _|t2 u2 j got H2 Ho|t2 u2 H2 Hph2]; [congruence|congruence| |].
    - pose proof (owned_ok _ _ _ _ _ _ _ (I6 _ _ H2) Ho) as (_ & ? & _). done.
    - pose proof (I6 _ _ H2) as Hok. unfold upload_ok in Hok. rewrite Hph2 in Hok. apply Hok. }
  apply (move_invariant pid s0 s t u); try done.
  - by rewrite Hph.
  - intros tmp' j got [= <- <- <-]. right. done.
  - split; cbn.
    + intros p j. destruct (decide (p = tmp)) as [->|Hne].
      * rewrite lookup_insert_eq. intros [= <-]. rewrite lookup_insert_eq. split; [lia|done].
      * rewrite lookup_insert_ne by done. intros Hp. destruct (I3a _ _ Hp) as [? ?].
        rewrite lookup_insert_ne by (unfold i; lia). split; [unfold i; lia|done].
    + intros p q j. destruct (decide (p = tmp)) as [->|Hp], (decide (q = tmp)) as [->|Hq]; try done;
        rewrite ?lookup_insert_eq, ?lookup_insert_ne by done.
      * intros [= <-] Hj. by destruct (Hfresh q).
      * intros Hj [= <-]. by destruct (Hfresh p).
      * apply I3b.
  - cbn. lia.
  - intros j Hj _. cbn. rewrite lookup_insert_ne; [done|unfold i; lia].
  - cbn. split; [done|]. split; [done|]. split; [unfold i; lia|]. rewrite !lookup_insert_eq. done.
  - intros p. cbn. destruct (decide (p = tmp)) as [->|Hne]; [right|left; by rewrite lookup_insert_ne].
    split; [eapply from_running; [cbn; by rewrite lookup_insert_eq|done]|].
    intros t2 u2 j got _ H2 Ho. pose proof (owned_ok _ _ _ _ _ _ _ (I6 _ _ H2) Ho) as (_ & _ & _ & ? & _). congruence.
  - intros t2 u2 H2. left. cbn. rewrite lookup_insert_ne; [done|]. intros E.
    apply (targets_plain _ _ _ _ _ _ _ H H2 Ht). exists k. by rewrite <- E.
  - intros tmp' j got. by rewrite Hnou.
Qed.

(** Some more bytes into the own file. *)
Lemma peer_prefix (got peer : bytes) n size :
  zlen got <= size -> got = ztake (zlen got) peer ->
  let d := ztake (Z.min n (size - zlen got)) (zdrop (zlen got) peer) in
  zlen (got ++ d) <= size /\ got ++ d = ztake (zlen (got ++ d)) peer.
Proof.
  intros Hl Hp d. assert (Hd : zlen d <= size - zlen got) by (unfold d; len_lia). split; [len_lia|].
  assert (Hs : forall m (l : bytes), take (length (take m l)) l = take m l).
  { intros m l. rewrite length_take. destruct (le_ge_dec m (length l)).
    - by rewrite Nat.min_l.
    - by rewrite Nat.min_r, !take_ge by lia. }
  rewrite length_app, Nat2Z.inj_add, <- take_take_drop_app, <- Hp by lia. f_equal.
  rewrite Nat2Z.id. unfold d. by rewrite Hs.
Qed.

Lemma append_invariant pid s0 s t u n tmp i got c :
  invariant pid s0 s -> sf_threads s !! t = Some (Uploading u) -> u_phase u = Receiving tmp i got ->
  st_inodes (sf_store s) !! i = Some c ->
  let d := ztake (Z.min n (u_size u - zlen got)) (zdrop (zlen got) (u_peer u)) in
  invariant pid s0 (ServerFiles
    (Store (st_dir (sf_store s)) (<[i := write_at c (zlen got) d]> (st_inodes (sf_store s)))
       (st_next (sf_store s)))
    (<[t := Uploading (set_phase (Receiving tmp i (got ++ d)) u)]> (sf_threads s))).
Proof.
  intros H Ht Hph Hc d. pose proof (iv_uploads _ _ _ H _ _ Ht) as Hok. unfold upload_ok in Hok. rewrite Hph in Hok.
  destruct Hok as (Hname & Hold & Hi & Hd & Hgot & Hl & Hp). rewrite Hc in Hgot. injection Hgot as ->.
  rewrite write_at_end. destruct (peer_prefix got (u_peer u) n (u_size u) Hl Hp) as [Hl' Hp'].
  assert (Ho : owned u = Some (tmp, i, got)) by (unfold owned; by rewrite Hph).
  apply (move_invariant pid s0 s t u); try done.
  - by rewrite Hph.
  - intros tmp' j got' [= <- <- <-]. left. by exists got.
  - destruct (iv_store _ _ _ H) as [Ha Hb]. split; cbn; [|exact Hb]. intros p j Hj.
    destruct (Ha p j Hj) as [? ?]. split; [done|]. destruct (decide (j = i)) as [->|Hne].
    + by rewrite lookup_insert_eq.
    + by rewrite lookup_insert_ne.
  - cbn. intros j _ Hne. rewrite lookup_insert_ne; [done|]. by eapply Hne.
  - cbn. rewrite lookup_insert_eq. by split_and!; try apply Hi.
  - intros p. by left.
  - intros t2 u2 _. by left.
  - intros tmp' j got' Ho'. rewrite Ho in Ho'. injection Ho' as <- <- <-.
    eapply from_running; [cbn; by rewrite lookup_insert_eq|done].
Qed.

(** Nobody else owns the temporary file of a running upload. *)
Lemma temp_is_own pid s0 s t u tmp i got t2 u2 j got2 :
  invariant pid s0 s -> sf_threads s !! t = Some (Uploading u) -> owned u = Some (tmp, i, got) ->
  t2 <> t -> sf_threads s !! t2 = Some (Uploading u2) -> owned u2 <> Some (tmp, j, got2).
Proof.
  intros H Ht Ho Hne H2 Ho2. pose proof (owned_ok _ _ _ _ _ _ _ (iv_uploads _ _ _ H _ _ Ht) Ho) as (_ & _ & _ & Hd & _).
  pose proof (owned_ok _ _ _ _ _ _ _ (iv_uploads _ _ _ H _ _ H2) Ho2) as (_ & _ & _ & Hd2 & _).
  rewrite Hd in Hd2. injection Hd2 as <-. apply Hne. by eapply (iv_apart _ _ _ H).
Qed.

(** Deleting an own temporary file leaves the targets alone. *)
Lemma delete_keeps pid s0 s t u tmp i got :
  invariant pid s0 s -> sf_threads s !! t = Some (Uploading u) -> owned u = Some (tmp, i, got) ->
  forall t2 u2, sf_threads s !! t2 = Some (Uploading u2) ->
    delete tmp (st_dir (sf_store s)) !! u_full u2 = st_dir (sf_store s) !! u_full u2.
Proof.
  intros H Ht Ho t2 u2 H2. rewrite lookup_delete_ne; [done|]. intros E.
  pose proof (owned_ok _ _ _ _ _ _ _ (iv_uploads _ _ _ H _ _ Ht) Ho) as (Hn & _).
  apply (targets_plain _ _ _ _ _ _ _ H H2 Ht). by rewrite <- E.
Qed.

(** The rename. *)
Lemma commit_invariant pid s0 s t u tmp i got :
  invariant pid s0 s -> sf_threads s !! t = Some (Uploading u) -> u_phase u = Committing tmp i got ->
  invariant pid s0 (ServerFiles
    (Store (<[u_full u := Reg i]> (delete tmp (st_dir (sf_store s)))) (st_inodes (sf_store s))
       (st_next (sf_store s)))
    (<[t := Uploading (set_phase (Stored got) u)]> (sf_threads s))).
Proof.
  intros H Ht Hph. pose proof (iv_uploads _ _ _ H _ _ Ht) as Hok. unfold upload_ok in Hok. rewrite Hph in Hok.
  destruct Hok as (Hname & Hold & Hi & Hd & Hgot & Hw). destruct (iv_store _ _ _ H) as [Ha Hb].
  assert (Ho : owned u = Some (tmp, i, got)) by (unfold owned; by rewrite Hph).
  assert (Hne : tmp <> u_full u) by (destruct Hname as (k & _ & ->); apply temp_path_neq).
  set (s' := ServerFiles _ _). pose proof (delete_keeps _ _ _ _ _ _ _ _ H Ht Ho) as Hkeep.
  assert (Htmp : origin s0 s' tmp).
  { apply from_start. cbn. by rewrite lookup_insert_ne, lookup_delete_eq. }
  apply (move_invariant pid s0 s t u); try done.
  - by rewrite Hph.
  - assert (Hno : forall q, q <> tmp -> st_dir (sf_store s) !! q <> Some (Reg i)).
    { intros q Hq Hqi. apply Hq. by eapply Hb. }
    split; cbn.
    + intros p j Hj. destruct (decide (p = u_full u)) as [->|Hp].
      * rewrite lookup_insert_eq in Hj. injection Hj as <-. split; [lia|by rewrite Hgot].
      * rewrite lookup_insert_ne in Hj by done. apply lookup_delete_Some in Hj as [_ Hj]. by eapply Ha.
    + intros p q j Hp Hq. apply lookup_insert_Some in Hp as [[<- [= <-]]|[Hp Hpj]];
        apply lookup_insert_Some in Hq as [[<- Hqj]|[Hq Hqj]]; try done.
      * apply lookup_delete_Some in Hqj as [? Hqj]. by destruct (Hno q).
      * apply lookup_delete_Some in Hpj as [? Hpj]. injection Hqj as <-. by destruct (Hno p).
      * apply lookup_delete_Some in Hpj as [_ Hpj]. apply lookup_delete_Some in Hqj as [_ Hqj]. by eapply Hb.
  - split; [done|]. exists i. cbn. rewrite lookup_insert_eq. split; [done|apply Hi].
  - intros p. cbn. destruct (decide (p = u_full u)) as [->|Hp].
    + right. split.
      * eapply (from_upload _ _ _ t (set_phase (Stored got) u) got i); cbn; rewrite ?lookup_insert_eq; done || lia.
      * intros t2 u2 j got2 _ H2 Ho2.
        pose proof (owned_ok _ _ _ _ _ _ _ (iv_uploads _ _ _ H _ _ H2) Ho2) as (Hn2 & _).
        by destruct (targets_plain _ _ _ _ _ _ _ H Ht H2).
    + rewrite lookup_insert_ne by done. destruct (decide (p = tmp)) as [->|Hpt]; [right|left; by rewrite lookup_delete_ne].
      split; [done|]. intros t2 u2 j got2 Hne2 H2. exact (temp_is_own _ _ _ _ _ _ _ _ _ _ _ _ H Ht Ho Hne2 H2).
  - intros t2 u2 H2. cbn. destruct (decide (u_full u2 = u_full u)) as [->|Hn2].
    + right. exists i. cbn. rewrite lookup_insert_eq. split; [done|apply Hi].
    + left. rewrite lookup_insert_ne by done. by eapply Hkeep.
  - intros tmp' j got' Ho'. rewrite Ho in Ho'. by injection Ho' as <- <- <-.
Qed.

(** The removal of the own temporary file. *)
Lemma remove_invariant pid s0 s t u tmp i got :
  invariant pid s0 s -> sf_threads s !! t = Some (Uploading u) -> u_phase u = Removing tmp i got ->
  invariant pid s0 (ServerFiles
    (Store (delete tmp (st_dir (sf_store s))) (st_inodes (sf_store s)) (st_next (sf_store s)))
    (<[t := Uploading (set_phase (Failed None) u)]> (sf_threads s))).
Proof.
  intros H Ht Hph. pose proof (iv_uploads _ _ _ H _ _ Ht) as Hok. unfold upload_ok in Hok. rewrite Hph in Hok.
  destruct Hok as (Hname & Hold & Hi & Hd & Hgot & _). destruct (iv_store _ _ _ H) as [Ha Hb].
  assert (Ho : owned u = Some (tmp, i, got)) by (unfold owned; by rewrite Hph).
  set (s' := ServerFiles _ _). pose proof (delete_keeps _ _ _ _ _ _ _ _ H Ht Ho) as Hkeep.
  assert (Htmp : origin s0 s' tmp) by (apply from_start; cbn; by rewrite lookup_delete_eq).
  apply (move_invariant pid s0 s t u); try done.
  - by rewrite Hph.
  - split; cbn.
    + intros p j [_ Hj]%lookup_delete_Some. by eapply Ha.
    + intros p q j [_ Hp]%lookup_delete_Some [_ Hq]%lookup_delete_Some. by eapply Hb.
  - intros p. cbn. destruct (decide (p = tmp)) as [->|Hpt]; [right|left; by rewrite lookup_delete_ne].
    split; [done|]. intros t2 u2 j got2 Hne2 H2. exact (temp_is_own _ _ _ _ _ _ _ _ _ _ _ _ H Ht Ho Hne2 H2).
  - intros t2 u2 H2. left. by eapply Hkeep.
  - intros tmp' j got' Ho'. rewrite Ho in Ho'. by injection Ho' as <- <- <-.
Qed.

Lemma next_attempt_ok pid s0 s u k :
  0 <= k < 3 -> upload_ok pid s0 s (set_phase (next_attempt k) u) /\ owned (set_phase (next_attempt k) u) = None.
Proof.
  intros Hk. unfold next_attempt, upload_ok, owned.
  destruct (Z.ltb_spec (k + 1) 3); cbn; (split; [lia || done|done]).
Qed.

(** Any turn of an upload. *)
Lemma upload_turn_invariant pid s0 s t u ev u' st :
  invariant pid s0 s -> sf_threads s !! t = Some (Uploading u) ->
  upload_step pid ev u (sf_store s) = Some (u', st) ->
  invariant pid s0 (ServerFiles st (<[t := Uploading u']> (sf_threads s))).
Proof.
  intros H Ht. pose proof (iv_uploads _ _ _ H _ _ Ht) as Hok. unfold upload_ok in Hok. unfold upload_step.
  assert (Hs : 0 <= u_size u).
  { destruct (request_upload _ _ _ _ _ H Ht) as (u0 & ph & H0 & ->).
    by destruct (rd_uploads _ _ (iv_ready _ _ _ H) _ _ H0) as [_ ?]. }
  destruct (u_phase u) as [k|tmp i got|tmp i got|tmp i got|tmp i got|d|left] eqn:Hph; destruct ev as [|n|e]; try done.
  all: assert (Hstay : forall ph, upload_ok pid (sf_store s0) (sf_store s) (set_phase ph u) ->
    (forall x, owned (set_phase ph u) = Some x -> owned u = Some x) ->
    (forall tmp i got, owned u = Some (tmp, i, got) ->
       owned (set_phase ph u) = Some (tmp, i, got) \/ ph = Failed (Some tmp)) ->
    invariant pid s0 (ServerFiles (sf_store s) (<[t := Uploading (set_phase ph u)]> (sf_threads s))))
    by (intros ph; apply stay_invariant; [done|done|by rewrite Hph]).
  all: unfold owned in Hstay at 2 3; rewrite Hph in Hstay; cbn in Hstay.
  - destruct (st_dir (sf_store s) !! _) as [e|] eqn:E; intros [= <- <-].
    + destruct (next_attempt_ok pid (sf_store s0) (sf_store s) u k Hok) as [H1 H2].
      apply Hstay; [done|by rewrite H2|done].
    + by apply (create_invariant pid s0 s t u k).
  - intros [= <- <-]. destruct (next_attempt_ok pid (sf_store s0) (sf_store s) u k Hok) as [H1 H2].
    destruct (e =? EEXIST); apply Hstay; by rewrite ?H2.
  - destruct (Z.eqb_spec (zlen got) (u_size u)) as [E|]; [|done]. intros [= <- <-].
    apply Hstay; [|auto|naive_solver]. destruct Hok as (? & ? & ? & ? & ? & ? & Hp).
    split_and!; try done; try lia. split; cbn; [done|by rewrite <- E].
  - destruct (st_inodes (sf_store s) !! i) as [c|] eqn:E; [|done]. intros [= <- <-].
    by apply append_invariant.
  - intros [= <- <-]. apply Hstay; [done|auto|naive_solver].
  - intros [= <- <-]. apply Hstay; [done|auto|naive_solver].
  - intros [= <- <-]. apply Hstay; [|auto|naive_solver]. destruct Hok as (? & ? & ? & ? & ? & Hw1 & Hw2).
    split_and!; try done; try lia; by rewrite Hw1.
  - destruct Hok as (Hname & Hold & Hi & Hd & Hgot & Hw1 & Hw2). rewrite Hd.
    assert (Hrem : invariant pid s0 (ServerFiles (sf_store s)
              (<[t := Uploading (set_phase (Removing tmp i got) u)]> (sf_threads s)))).
    { apply Hstay; [|auto|naive_solver]. split_and!; try done; try lia; by rewrite Hw1. }
    destruct (st_dir (sf_store s) !! u_full u) as [[j|[]]|]; intros [= <- <-]; try exact Hrem;
      by apply (commit_invariant pid s0 s t u tmp i got).
  - intros [= <- <-]. apply Hstay; [|auto|naive_solver]. destruct Hok as (? & ? & ? & ? & ? & Hw1 & Hw2).
    split_and!; try done; try lia; by rewrite Hw1.
  - intros [= <- <-]. by apply (remove_invariant pid s0 s t u tmp i got).
  - intros [= <- <-]. apply Hstay; [|done|naive_solver]. split; apply Hok.
Qed.

(** *** Turns of downloads *)

(** A plain name that stands for a file stands for one of its versions, which
    nobody writes to any more. *)
Lemma plain_version pid s0 s p i :
  invariant pid s0 s -> plain_name pid s0 p -> st_dir (sf_store s) !! p = Some (Reg i) ->
  exists c, st_inodes (sf_store s) !! i = Some c /\ version s0 s p c /\ settled s i c.
Proof.
  intros H Hp Hi. destruct (proj1 (iv_store _ _ _ H) p i Hi) as [_ [c Hc]]. exists c. split; [done|]. split.
  2:{ eapply named_settled; [exact H|exact Hi|exact Hc|]. intros t u Ht. exact (plain_not_temp _ _ _ _ _ _ H Hp Ht). }
  destruct (iv_origin _ _ _ H p) as [E|t u d j Ht Hf Hph Hd Hj _|t u j got Ht Ho|t u Ht Hph].
  - left. exists i. rewrite <- E. split; [done|].
    rewrite <- (iv_old _ _ _ H); [done|]. apply (rd_inodes _ _ (iv_ready _ _ _ H) p). congruence.
  - right. exists t, u. rewrite Hi in Hd. injection Hd as <-. rewrite Hc in Hj. injection Hj as ->.
    split_and!; try done; pose proof (iv_uploads _ _ _ H _ _ Ht) as Hok; unfold upload_ok in Hok;
      rewrite Hph in Hok; apply Hok.
  - destruct (owned_ok _ _ _ _ _ _ _ (iv_uploads _ _ _ H _ _ Ht) Ho) as (Hn & _).
    by destruct (plain_not_temp _ _ _ _ _ _ H Hp Ht).
  - pose proof (iv_uploads _ _ _ H _ _ Ht) as Hok. unfold upload_ok in Hok. rewrite Hph in Hok.
    destruct Hok as [Hn _]. by destruct (plain_not_temp _ _ _ _ _ _ H Hp Ht).
Qed.

Section DownloadTurn.
Context (pid : Z) (s0 s : server_files) (t : Z) (d d' : download).
Hypothesis Hinv : invariant pid s0 s.
Hypothesis Ht : sf_threads s !! t = Some (Downloading d).
Hypothesis Hpath : d_path d' = d_path d.
Let s' := ServerFiles (sf_store s) (<[t := Downloading d']> (sf_threads s)).

Lemma download_turn_uploads t2 u : sf_threads s' !! t2 = Some (Uploading u) <-> sf_threads s !! t2 = Some (Uploading u).
Proof.
  cbn. destruct (decide (t2 = t)) as [->|Hne]; [|by rewrite lookup_insert_ne].
  rewrite lookup_insert_eq, Ht. by split.
Qed.

Lemma download_turn_version p c : version s0 s p c -> version s0 s' p c.
Proof.
  intros [H|(t2 & u & H2 & H)]; [by left|right]. exists t2, u. by rewrite download_turn_uploads.
Qed.

Lemma download_turn_settled i c : settled s i c -> settled s' i c.
Proof.
  intros (H1 & H2 & H3). split; [done|]. split; [done|]. intros t2 u tmp j got.
  rewrite download_turn_uploads. apply H3.
Qed.

Lemma download_turn_ok d2 : download_ok s0 s d2 -> download_ok s0 s' d2.
Proof.
  unfold download_ok. destruct (d_phase d2); naive_solver eauto using download_turn_version, download_turn_settled.
Qed.

Lemma download_turn_invariant :
  (plain_name pid s0 (d_path d) -> download_ok s0 s d') -> invariant pid s0 s'.
Proof.
  intros Hd. pose proof Hinv as [I1 I2 I3 I4 I5 I6 I7 I8 I9]. split; try done.
  - intros t2 th. cbn. destruct (decide (t2 = t)) as [->|Hne]; [|rewrite lookup_insert_ne by done; apply I2].
    rewrite lookup_insert_eq. intros [= <-]. destruct (I2 _ _ Ht) as ([u0|d0] & H0 & Hs); [done|].
    exists (Downloading d0). split; [done|]. cbn in *. congruence.
  - intros t2 u. rewrite download_turn_uploads. apply I6.
  - intros t2 t3 u2 u3 p q i got got'. rewrite !download_turn_uploads. apply I7.
  - intros p. destruct (I8 p) as [H|t2 u d2 i H2|t2 u i got H2|t2 u H2].
    + by apply from_start.
    + eapply from_upload; [by apply download_turn_uploads|done..].
    + eapply from_running; [by apply download_turn_uploads|done].
    + eapply from_failure; [by apply download_turn_uploads|done].
  - intros t2 d2. cbn. destruct (decide (t2 = t)) as [->|Hne].
    + rewrite lookup_insert_eq. intros [= <-] Hp. apply download_turn_ok, Hd. by rewrite <- Hpath.
    + rewrite lookup_insert_ne by done. intros H2 Hp. by apply download_turn_ok, (I9 t2).
Qed.
End DownloadTurn.

(** Any turn of a download. *)
Lemma download_step_invariant pid s0 s t d ev d' :
  invariant pid s0 s -> sf_threads s !! t = Some (Downloading d) ->
  download_step ev d (sf_store s) = Some d' ->
  invariant pid s0 (ServerFiles (sf_store s) (<[t := Downloading d']> (sf_threads s))).
Proof.
  intros H Ht Hstep. assert (Hpath : d_path d' = d_path d).
  { revert Hstep. unfold download_step. cbv zeta. repeat case_match; intros; by simplify_eq/=. }
  apply (download_turn_invariant pid s0 s t d d' H Ht Hpath). intros Hp.
  pose proof (iv_downloads _ _ _ H _ _ Ht Hp) as Hok. unfold download_ok in *. rewrite Hpath.
  revert Hstep. unfold download_step.
  destruct (d_phase d) as [|i|i size sent|sent| |sent]; destruct ev as [|n|e]; try done.
  - destruct (st_dir (sf_store s) !! d_path d) as [[i|]|] eqn:E; intros [= <-]; cbn; try done.
    destruct (plain_version _ _ _ _ _ H Hp E) as (c & _ & Hv & Hs). by exists c.
  - by intros [= <-].
  - destruct Hok as (c & Hv & Hs). rewrite (proj1 Hs). intros [= <-]. cbn. exists c. split_and!; try done.
    simpl. lia.
  - by intros [= <-].
  - destruct (Z.eqb_spec (zlen sent) size) as [E|]; [|done]. intros [= <-]. cbn.
    destruct Hok as (c & Hv & _ & -> & _ & Hsent). rewrite E, ztake_ge in Hsent by lia. by subst c.
  - destruct Hok as (c & Hv & Hs & -> & Hl & Hsent). rewrite (proj1 Hs). intros [= <-]. cbn. exists c.
    destruct (peer_prefix sent c n (zlen c) Hl Hsent) as [Hl' Hp']. by split_and!.
  - intros [= <-]. cbn. destruct Hok as (c & Hv & _ & _ & _ & Hsent). by exists c.
Qed.

(** *** All schedules *)

Lemma turn_invariant pid s0 s te : invariant pid s0 s -> invariant pid s0 (turn pid s te).
Proof.
  intros H. destruct te as [t ev]. unfold turn. destruct (sf_threads s !! t) as [[u|d]|] eqn:Ht; [| |done].
  - destruct (upload_step pid ev u (sf_store s)) as [[u' st]|] eqn:E; [|done]. by eapply upload_turn_invariant.
  - destruct (download_step ev d (sf_store s)) as [d'|] eqn:E; [|done]. by eapply download_step_invariant.
Qed.

Lemma schedule_invariant pid s0 schedule s :
  invariant pid s0 s -> invariant pid s0 (run_schedule pid schedule s).
Proof. revert s. induction schedule as [|te sched IH]; intros s H; [done|]. by apply IH, turn_invariant. Qed.

Lemma start_invariant pid s : ready pid s -> invariant pid s s.
Proof.
  intros H. pose proof H as [H1 H2 H3 H4 H5].
  assert (Hno : forall t u x, sf_threads s !! t = Some (Uploading u) -> owned u <> Some x).
  { intros t u x Ht. unfold owned. by rewrite (proj1 (H3 _ _ Ht)). }
  split; try done.
  - intros t [u|d] Ht; exists (Uploading u) || exists (Downloading d); (split; [done|]); cbn; [|done].
    exists (u_phase u). by destruct u.
  - intros t u Ht. unfold upload_ok. rewrite (proj1 (H3 _ _ Ht)). lia.
  - intros t t' u u' p q i got got' Ht _ Ho. by destruct (Hno _ _ _ Ht Ho).
  - intros p. by apply from_start.
  - intros t d Ht _. unfold download_ok. by rewrite (H4 _ _ Ht).
Qed.

Lemma run_invariant pid s0 schedule : ready pid s0 -> invariant pid s0 (run_schedule pid schedule s0).
Proof. intros H. by apply schedule_invariant, start_invariant. Qed.

(** *** The code and its machine *)

Lemma run_schedule_app pid l1 l2 s : run_schedule pid (l1 ++ l2) s = run_schedule pid l2 (run_schedule pid l1 s).
Proof. apply fold_left_app. Qed.

(** One turn of a thread whose place in the map is known. *)
Lemma upload_turn pid st threads t u ev u' st' :
  upload_step pid ev u st = Some (u', st') ->
  turn pid (ServerFiles st (<[t := Uploading u]> threads)) (t, ev) =
    ServerFiles st' (<[t := Uploading u']> threads).
Proof. intros H. cbn. by rewrite lookup_insert_eq, H, insert_insert_eq. Qed.

(** The first [k] names are taken. *)
Lemma run_taken pid st threads t u (k : nat) :
  u_phase u = Opening 0 -> (k < 3)%nat ->
  run_schedule pid (replicate k (t, Fails EEXIST)) (ServerFiles st (<[t := Uploading u]> threads)) =
    ServerFiles st (<[t := Uploading (set_phase (Opening (Z.of_nat k)) u)]> threads).
Proof.
  intros Hph. induction k as [|k IH]; intros Hk; [by destruct u; cbn in *; subst|].
  rewrite replicate_S_end, run_schedule_app, IH by lia. unfold run_schedule. cbn [fold_left].
  erewrite upload_turn; [done|]. cbn. unfold next_attempt. destruct (Z.ltb_spec (Z.of_nat k + 1) 3); [|lia].
  by rewrite Nat2Z.inj_succ.
Qed.

(** Up to a temporary file that holds the first bytes of the peer. *)
Lemma run_received pid st threads t u (k : nat) d rest :
  let tmp := temp_path_text (u_full u) pid (Z.of_nat k) in
  let i := st_next st in
  u_phase u = Opening 0 -> (k < 3)%nat -> st_dir st !! tmp = None -> u_peer u = d ++ rest -> zlen d <= u_size u ->
  run_schedule pid (replicate k (t, Fails EEXIST) ++ [(t, Works); (t, Moves (zlen d))])
    (ServerFiles st (<[t := Uploading u]> threads)) =
  ServerFiles (Store (<[tmp := Reg i]> (st_dir st)) (<[i := d]> (st_inodes st)) (i + 1))
    (<[t := Uploading (set_phase (Receiving tmp i d) u)]> threads).
Proof.
  cbv zeta. intros Hph Hk Hnone Hpeer Hd. rewrite run_schedule_app, run_taken by done.
  unfold run_schedule. cbn [fold_left].
  erewrite upload_turn; [|unfold upload_step; cbn [u_phase set_phase u_full]; by rewrite Hnone].
  erewrite upload_turn; [|unfold upload_step; cbn [u_phase set_phase st_inodes u_size u_peer List.length];
                          by rewrite lookup_insert_eq].
  assert (E : ztake (Z.min (zlen d) (u_size u - 0)) (zdrop 0 (u_peer u)) = d).
  { rewrite Z.min_l, Hpeer by lia. change (zdrop 0 (d ++ rest)) with (d ++ rest). by rewrite ztake_app_exact. }
  cbn [List.length]. change (Z.of_nat 0) with 0. rewrite E. cbn [st_dir st_next app].
  rewrite insert_insert_eq. unfold write_at. change (ztake 0 []) with (@nil Z). cbn [List.length app].
  change (Z.to_nat 0 - 0)%nat with 0%nat. rewrite zdrop_ge, app_nil_r by (simpl; lia). done.
Qed.

(** A regular file does not replace a directory. *)
Lemma rename_not_dir a b c m w :
  f_fs (w_files w) !! a = Some (NFile c m) ->
  wp (sys_rename a b) (fun r _ => r = 0 -> forall m', f_fs (w_files w) !! b <> Some (NDir m')) w.
Proof.
  intros Ha. unfold sys_rename. apply (wp_transfer (fun e => fail_with e (-1))).
  - intros e w' _ _. by apply wp_fail_with.
  - intros f w' Hf _. do 2 wp_step. assert (Hw : w_files w' = w_files w) by frame. rewrite Hw, Ha.
    destruct (f_fs (w_files w) !! b) as [[]|]; repeat wp_step; congruence.
Qed.

Lemma finalize_not_dir f0 tmp full d out cap w :
  stored f0 tmp d out (w_files w) -> out <> -1 -> tmp <> full ->
  wp (transfer_finalize_output out tmp full cap) (fun '(r, _, _) _ =>
    r = PROTOCOL_OK -> forall m, f_fs f0 !! full <> Some (NDir m)) w.
Proof.
  intros Hst Ho Hne. unfold transfer_finalize_output.
  destruct (cap =? 0); [by wp_step|]. destruct (cap <? _); [by wp_step|].
  wp_step. destruct (Z.eqb_spec out (-1)); [done|]. simpl negb. cbv iota.
  wp_use stored_close; [done|done|]. intros r1 w1 (_ & _ & [m Hm] & _).
  destruct (negb (r1 =? 0)); [by wp_step|]. wp_step. unfold fs_commit_temp_file. wp_step.
  wp_use rename_not_dir; [by rewrite Hm, lookup_insert_eq|]. intros r w2 H. wp_step.
  destruct (Z.eqb_spec r 0) as [->|Hr]; simpl negb; cbv iota; wp_step; [|done].
  intros _ m'. specialize (H eq_refl m'). by rewrite Hm, lookup_insert_ne in H.
Qed.

Lemma cleanup_returns r out tmp w : wp (transfer_cleanup r out tmp) (fun _ _ => True) w.
Proof.
  assert (Hrem : forall w, wp (fs_remove_ignore_error (Some tmp)) (fun _ _ => True) w).
  { intros w0. unfold fs_remove_ignore_error, sys_remove. wp_step.
    apply (wp_transfer (fun e => fail_with e (-1))); intros; [by wp_step; wp_step|].
    do 2 wp_step. repeat case_match; by repeat wp_step. }
  unfold transfer_cleanup. wp_step. destruct (negb (out =? -1)); wp_step.
  - unfold fs_close. apply wp_sys_close. intros r1 w1 _ _ _ _. wp_step. destruct (_ && _); [apply Hrem|by wp_step].
  - destruct (_ && _); [apply Hrem|by wp_step].
Qed.

(** An upload that succeeds found a free temporary name, and no directory in the
    place of the file. *)
Lemma transfer_recv_with_facts recv_body `{!BodyReceiver recv_body} conn base name size cap w :
  0 <= conn -> 0 <= size < 2 ^ 64 -> 0 < cap ->
  e_splice_direct (w_env w) = false -> fds_ok (w_files w) ->
  wp (transfer_recv_with recv_body conn (Some base) (Some name) size cap) (fun '(r, _) _ =>
    r = PROTOCOL_OK ->
    (exists k, 0 <= k < 3 /\ f_fs (w_files w) !! upload_temp w base name k = None) /\
    forall m, f_fs (w_files w) !! target_path base name <> Some (NDir m)) w.
Proof.
  intros Hconn Hsize Hcap He Hok. unfold transfer_recv_with.
  rewrite !bool_decide_eq_false_2 by done. destruct (Z.eqb_spec cap 0); [lia|]. cbn [orb].
  wp_step. wp_use transfer_prepare_output_spec; [done|].
  intros [[[r full] tmp] fd] w1 (Hf1 & H1 & _ & _).
  unfold result_ok at 1. case_bool_decide as Hr; simpl negb; cbv iota; [|by wp_step].
  destruct (H1 Hr) as (_ & -> & k & Hk & Htmp & Hfd & Ho).
  pose proof (temp_opened_at _ _ _ _ Hok Ho) as [Hat Hok1].
  wp_step. eapply wp_mono; [apply (body_received conn fd tmp []); try done|].
  { subst fd. apply Hok. } { destruct (only_files_io _ _ Hf1) as (E & _). by rewrite E. } { by rewrite Hfd. }
  intros r2 w2 (_ & d & lost & _ & _ & Hg & _).
  pose proof (opened_stored _ _ _ _ _ _ _ Hok Ho Hfd Hg) as Hst. rewrite app_nil_l in Hst.
  assert (Hfdne : fd <> -1) by (destruct Hok; lia).
  unfold result_ok at 1. case_bool_decide as Hr2; simpl negb; cbv iota.
  - wp_step. wp_use finalize_not_dir; [done|done|rewrite Htmp; apply temp_path_neq|].
    intros [[r3 out] path] w3 H3. wp_step. wp_use cleanup_returns. intros _ w4 _. wp_step.
    intros E. split; [|by apply H3]. exists k. split; [done|]. rewrite <- Htmp. apply Ho.
  - wp_step. wp_use cleanup_returns. intros _ w4 _. by wp_step.
Qed.

Lemma view_none s fs p : view s fs -> fs !! p = None -> st_dir s !! p = None.
Proof.
  intros Hv Hp. specialize (Hv p). destruct (st_dir s !! p) as [[i|n]|]; [|destruct Hv; congruence|done].
  destruct Hv as (c & m & _ & E). congruence.
Qed.

(** A name that gets a new file. *)
Lemma view_new s fs p d m n :
  store_ok s -> view s fs ->
  view (Store (<[p := Reg (st_next s)]> (st_dir s)) (<[st_next s := d]> (st_inodes s)) n) (<[p := NFile d m]> fs).
Proof.
  intros [Hok _] Hv q. cbn. destruct (decide (q = p)) as [->|Hne].
  - rewrite lookup_insert_eq. exists d, m. by rewrite !lookup_insert_eq.
  - rewrite !lookup_insert_ne by done. specialize (Hv q).
    destruct (st_dir s !! q) as [[i|]|] eqn:E; try done. rewrite lookup_insert_ne; [done|].
    destruct (Hok q i E). lia.
Qed.

(** The turns after the last byte: close, rename. *)
Lemma run_stored pid st threads t u tmp i d :
  u_phase u = Receiving tmp i d -> zlen d = u_size u -> st_dir st !! tmp = Some (Reg i) ->
  (forall m, st_dir st !! u_full u <> Some (Special (NDir m))) ->
  run_schedule pid [(t, Works); (t, Works); (t, Works)] (ServerFiles st (<[t := Uploading u]> threads)) =
  ServerFiles (Store (<[u_full u := Reg i]> (delete tmp (st_dir st))) (st_inodes st) (st_next st))
    (<[t := Uploading (set_phase (Stored d) u)]> threads).
Proof.
  intros Hph Hd Htmp Hdir. unfold run_schedule. cbn [fold_left].
  erewrite upload_turn; [|unfold upload_step; rewrite Hph; by rewrite (proj2 (Z.eqb_eq _ _) Hd)].
  erewrite upload_turn; [|done].
  erewrite upload_turn; [|unfold upload_step; cbn [u_phase set_phase u_full]; rewrite Htmp; cbv zeta].
  2:{ destruct (st_dir st !! u_full u) as [[|[]]|] eqn:E; try done. by destruct (Hdir mtime). }
  done.
Qed.

(** A failure that leaves the file. *)
Lemma run_left pid st threads t u tmp i d :
  u_phase u = Receiving tmp i d ->
  run_schedule pid [(t, Fails EIO); (t, Fails EIO)] (ServerFiles st (<[t := Uploading u]> threads)) =
  ServerFiles st (<[t := Uploading (set_phase (Failed (Some tmp)) u)]> threads).
Proof.
  intros Hph. unfold run_schedule. cbn [fold_left].
  erewrite upload_turn; [|unfold upload_step; by rewrite Hph]. by erewrite upload_turn.
Qed.

Lemma same_thread l (t : Z) (k : nat) :
  Forall (fun te : Z * event => te.1 = t) l -> Forall (fun te => te.1 = t) (replicate k (t, Fails EEXIST) ++ l).
Proof. intros H. apply Forall_app. split; [|done]. by apply Forall_replicate. Qed.

(** What [upload_outcome] allows is what the machine does. *)
Lemma outcome_runs base name size s t threads r saved w w' :
  store_ok s -> view s (f_fs (w_files w)) ->
  upload_outcome base name size r saved w w' ->
  (r = PROTOCOL_OK ->
    (exists k, 0 <= k < 3 /\ f_fs (w_files w) !! upload_temp w base name k = None) /\
    forall m, f_fs (w_files w) !! target_path base name <> Some (NDir m)) ->
  runs_thread base name size s t threads w r w'.
Proof.
  intros Hok Hv (d & lost & Hin & _ & _ & _ & Hout) Hfacts.
  set (u := Upload (target_path base name) size (n_in (w_net w)) (Opening 0)).
  assert (Hnone : forall k, f_fs (w_files w) !! upload_temp w base name k = None ->
            st_dir s !! temp_path_text (u_full u) (e_pid (w_env w)) k = None).
  { intros k. apply (view_none _ _ _ Hv). }
  unfold runs_thread. cbv zeta. fold u. destruct (decide (r = PROTOCOL_OK)) as [->|Hr].
  - destruct Hout as (Hd & -> & _ & _ & m & Hfs). destruct (Hfacts eq_refl) as [(k & Hk & Htmp) Hdir].
    rewrite <- (Z2Nat.id k) in Htmp by lia. assert (Hk' : (Z.to_nat k < 3)%nat) by lia.
    set (tmp := temp_path_text (u_full u) (e_pid (w_env w)) (Z.of_nat (Z.to_nat k))).
    exists ((replicate (Z.to_nat k) (t, Fails EEXIST) ++ [(t, Works); (t, Moves (zlen d))]) ++
            [(t, Works); (t, Works); (t, Works)]), (Stored d).
    eexists. split_and!; [rewrite <- app_assoc; apply same_thread; by repeat constructor| |done|].
    + rewrite run_schedule_app, (run_received _ s threads t u _ d (n_in (w_net w'))); try done;
        [|by apply Hnone|cbn; lia].
      rewrite (run_stored _ _ _ _ _ tmp (st_next s) d); [done|done|done|apply lookup_insert_eq|].
      intros m'. cbn. rewrite lookup_insert_ne by apply temp_path_neq. intros E.
      specialize (Hv (target_path base name)). rewrite E in Hv. by apply (Hdir m'), Hv.
    + cbn. rewrite Hfs, delete_insert_id by by apply Hnone. by apply view_new.
  - destruct Hout as (_ & Hd & [Hfs|(_ & k & m & Hk & Htmp & Hfs)]).
    + exists [(t, Fails EIO)], (Failed None), s. split_and!; [by repeat constructor| |done|by rewrite Hfs].
      unfold run_schedule. cbn [fold_left]. by erewrite upload_turn.
    + rewrite <- (Z2Nat.id k) in Htmp, Hfs by lia. assert (Hk' : (Z.to_nat k < 3)%nat) by lia.
      exists ((replicate (Z.to_nat k) (t, Fails EEXIST) ++ [(t, Works); (t, Moves (zlen d))]) ++
              [(t, Fails EIO); (t, Fails EIO)]). eexists (Failed (Some _)). eexists.
      split_and!; [rewrite <- app_assoc; apply same_thread; by repeat constructor| |done|].
      * rewrite run_schedule_app, (run_received _ s threads t u _ d (lost ++ n_in (w_net w'))); try done;
          [|by apply Hnone].
        by erewrite run_left.
      * rewrite Hfs. by apply view_new.
Qed.

(** *** What the threads leave *)

(** The target of an upload that reported success holds all the bytes of an upload
    to it that did. *)
Lemma stored_stays pid s0 s t u d :
  invariant pid s0 s -> sf_threads s !! t = Some (Uploading u) -> u_phase u = Stored d ->
  exists t' u' c, sf_threads s !! t' = Some (Uploading u') /\ u_full u' = u_full u /\
    u_phase u' = Stored c /\ whole u' c /\ contents (sf_store s) (u_full u) c.
Proof.
  intros H Ht Hph. pose proof (iv_uploads _ _ _ H) as Hok. pose proof (Hok _ _ Ht) as Hu.
  unfold upload_ok in Hu. rewrite Hph in Hu. destruct Hu as (_ & i & Hi & Hn).
  destruct (iv_origin _ _ _ H (u_full u)) as [E|t2 u2 d2 j H2 Hf Hph2 Hd Hj _|t2 u2 j got H2 Ho|t2 u2 H2 Hph2].
  - rewrite Hi in E. destruct (rd_inodes _ _ (iv_ready _ _ _ H) (u_full u) i); [done|lia].
  - exists t2, u2, d2. split_and!; try done; [|by exists j]. pose proof (Hok _ _ H2) as Hu2.
    unfold upload_ok in Hu2. rewrite Hph2 in Hu2. apply Hu2.
  - destruct (owned_ok _ _ _ _ _ _ _ (Hok _ _ H2) Ho) as [Hn2 _].
    by destruct (targets_plain _ _ _ _ _ _ _ H Ht H2).
  - pose proof (Hok _ _ H2) as Hu2. unfold upload_ok in Hu2. rewrite Hph2 in Hu2.
    destruct Hu2 as [Hn2 _]. by destruct (targets_plain _ _ _ _ _ _ _ H Ht H2).
Qed.

(** A running upload has its file for itself. *)
Lemma running_file pid s0 s t u tmp i got :
  invariant pid s0 s -> sf_threads s !! t = Some (Uploading u) -> owned u = Some (tmp, i, got) ->
  contents (sf_store s) tmp got /\ zlen got <= u_size u /\ got = ztake (zlen got) (u_peer u).
Proof.
  intros H Ht Ho. pose proof (iv_uploads _ _ _ H _ _ Ht) as Hok.
  destruct (owned_ok _ _ _ _ _ _ _ Hok Ho) as (_ & _ & _ & Hd & Hi). split; [by exists i|].
  unfold upload_ok, owned in *. destruct (u_phase u); try done; injection Ho as <- <- <-;
    destruct Hok as (_ & _ & _ & _ & _ & Hw); [exact Hw| | |exact Hw]; destruct Hw as [-> Hw2]; by split.
Qed.

(** Names nobody has stored to are as they were. *)
Lemma others_same pid s0 s p :
  invariant pid s0 s ->
  (forall t u, sf_threads s !! t = Some (Uploading u) ->
     u_phase u <> Failed (Some p) /\ (forall i got, owned u <> Some (p, i, got)) /\
     (u_full u = p -> forall d, u_phase u <> Stored d)) ->
  st_dir (sf_store s) !! p = st_dir (sf_store s0) !! p /\
  forall c, contents (sf_store s0) p c -> contents (sf_store s) p c.
Proof.
  intros H Hno. assert (E : st_dir (sf_store s) !! p = st_dir (sf_store s0) !! p).
  { destruct (iv_origin _ _ _ H p) as [E|t2 u2 d2 j H2 Hf Hph2 _ _ _|t2 u2 j got H2 Ho|t2 u2 H2 Hph2]; [done|..];
      destruct (Hno _ _ H2) as (Ha & Hb & Hc); [by destruct (Hc Hf d2)|by destruct (Hb j got)|done]. }
  split; [done|]. intros c (i & Hi & Hc). exists i. rewrite E. split; [done|].
  rewrite (iv_old _ _ _ H); [done|]. by destruct (rd_inodes _ _ (iv_ready _ _ _ H) p i).
Qed.

(** A download that has begun has one version in hand. *)
Lemma download_version pid s0 s t d :
  invariant pid s0 s -> sf_threads s !! t = Some (Downloading d) -> plain_name pid s0 (d_path d) ->
  match d_phase d with
  | Looking | Refused => True
  | Opened i => exists c, version s0 s (d_path d) c
  | Sending i size sent => exists c, version s0 s (d_path d) c /\ size = zlen c /\ sent = ztake (zlen sent) c
  | Sent sent => version s0 s (d_path d) sent
  | Broken sent => exists c, version s0 s (d_path d) c /\ sent = ztake (zlen sent) c
  end.
Proof.
  intros H Ht Hp. pose proof (iv_downloads _ _ _ H _ _ Ht Hp) as Hok. unfold download_ok in Hok.
  destruct (d_phase d); naive_solver.
Qed.

(** The missing bytes complete what has been received. *)
Lemma received_rest (got peer : bytes) size :
  zlen got <= size <= zlen peer -> got = ztake (zlen got) peer ->
  got ++ ztake (Z.min (size - zlen got) (size - zlen got)) (zdrop (zlen got) peer) = ztake size peer.
Proof.
  intros Hl Hp. rewrite Z.min_id. rewrite Hp at 1. rewrite take_take_drop. f_equal. lia.
Qed.

(** From the last bytes on. *)
Lemma run_rest_received pid st threads t u tmp i got :
  u_phase u = Receiving tmp i got -> st_inodes st !! i = Some got -> st_dir st !! tmp = Some (Reg i) ->
  (forall m, st_dir st !! u_full u <> Some (Special (NDir m))) ->
  zlen got <= u_size u <= zlen (u_peer u) -> got = ztake (zlen got) (u_peer u) ->
  exists st', run_schedule pid [(t, Moves (u_size u - zlen got)); (t, Works); (t, Works); (t, Works)]
      (ServerFiles st (<[t := Uploading u]> threads)) =
    ServerFiles st' (<[t := Uploading (set_phase (Stored (ztake (u_size u) (u_peer u))) u)]> threads).
Proof.
  intros Hph Hi Hd Hdir Hl Hp. eexists.
  change [(t, Moves (u_size u - zlen got)); (t, Works); (t, Works); (t, Works)]
    with ([(t, Moves (u_size u - zlen got))] ++ [(t, Works); (t, Works); (t, Works)]).
  rewrite run_schedule_app. unfold run_schedule at 2. cbn [fold_left].
  erewrite upload_turn; [|unfold upload_step; rewrite Hph, Hi; cbv zeta; rewrite received_rest by done; reflexivity].
  erewrite run_stored; [reflexivity|reflexivity|cbn; len_lia|exact Hd|exact Hdir].
Qed.

Lemma run_rest_committing pid st threads t u tmp i got :
  u_phase u = Committing tmp i got -> st_dir st !! tmp = Some (Reg i) ->
  (forall m, st_dir st !! u_full u <> Some (Special (NDir m))) ->
  exists st', run_schedule pid [(t, Works)] (ServerFiles st (<[t := Uploading u]> threads)) =
    ServerFiles st' (<[t := Uploading (set_phase (Stored got) u)]> threads).
Proof.
  intros Hph Hd Hdir. eexists. unfold run_schedule. cbn [fold_left].
  erewrite upload_turn; [reflexivity|]. unfold upload_step. rewrite Hph, Hd.
  destruct (st_dir st !! u_full u) as [[|[]]|] eqn:E; try done. by destruct (Hdir mtime).
Qed.

(** An upload needs no turn of another thread. *)
Lemma rest_completes pid s0 s t u :
  invariant pid s0 s -> sf_threads s !! t = Some (Uploading u) ->
  match u_phase u with
  | Opening k => st_dir (sf_store s) !! temp_path_text (u_full u) pid k = None
  | Receiving _ _ _ | Closing _ _ _ | Committing _ _ _ => True
  | _ => False
  end ->
  u_size u <= zlen (u_peer u) -> (forall m, st_dir (sf_store s) !! u_full u <> Some (Special (NDir m))) ->
  exists st', run_schedule pid (rest_of_upload t u)
      (ServerFiles (sf_store s) (<[t := Uploading u]> (sf_threads s))) =
    ServerFiles st' (<[t := Uploading (set_phase (Stored (ztake (u_size u) (u_peer u))) u)]> (sf_threads s)).
Proof.
  intros H Ht Hph Hl Hdir. pose proof (iv_uploads _ _ _ H _ _ Ht) as Hok.
  assert (Hs : 0 <= u_size u).
  { destruct (request_upload _ _ _ _ _ H Ht) as (u0 & ph & H0 & ->).
    by destruct (rd_uploads _ _ (iv_ready _ _ _ H) _ _ H0) as [_ ?]. }
  unfold upload_ok, rest_of_upload in *.
  destruct (u_phase u) as [k|tmp i got|tmp i got|tmp i got| | |] eqn:E; try done.
  - set (tmp := temp_path_text (u_full u) pid k) in *. set (i := st_next (sf_store s)).
    change [(t, Works); (t, Moves (u_size u)); (t, Works); (t, Works); (t, Works)]
      with ([(t, Works)] ++ [(t, Moves (u_size u)); (t, Works); (t, Works); (t, Works)]).
    rewrite run_schedule_app. unfold run_schedule at 2. cbn [fold_left].
    erewrite upload_turn; [|unfold upload_step; rewrite E; fold tmp; rewrite Hph; reflexivity].
    destruct (run_rest_received pid
      (Store (<[tmp := Reg i]> (st_dir (sf_store s))) (<[i := []]> (st_inodes (sf_store s))) (i + 1))
      (sf_threads s) t (set_phase (Receiving tmp i []) u) tmp i []) as [st' E'];
      [reflexivity|apply lookup_insert_eq|apply lookup_insert_eq| |cbn; lia|done|].
    + intros m. cbn. rewrite lookup_insert_ne by apply temp_path_neq. apply Hdir.
    + exists st'. cbn [u_size set_phase u_peer List.length] in E'. by rewrite Z.sub_0_r in E'.
  - destruct Hok as (_ & _ & _ & Hd & Hi & Hgot & Hp). by apply (run_rest_received pid _ _ t u tmp i got).
  - destruct Hok as (_ & _ & _ & Hd & Hi & Hw1 & Hw2). rewrite <- Hw2.
    change [(t, Works); (t, Works)] with ([(t, Works)] ++ [(t, Works)]).
    rewrite run_schedule_app. unfold run_schedule at 2. cbn [fold_left].
    erewrite upload_turn; [|unfold upload_step; rewrite E; reflexivity].
    by apply (run_rest_committing pid _ _ t (set_phase (Committing tmp i got) u) tmp i got).
  - destruct Hok as (_ & _ & _ & Hd & Hi & Hw1 & Hw2). rewrite <- Hw2.
    by apply (run_rest_committing pid _ _ t u tmp i got).
Qed.

(** *** A download and its machine *)

Lemma download_turn pid st threads t d ev d' :
  download_step ev d st = Some d' ->
  turn pid (ServerFiles st (<[t := Downloading d]> threads)) (t, ev) =
    ServerFiles st (<[t := Downloading d']> threads).
Proof. intros H. cbn. by rewrite lookup_insert_eq, H, insert_insert_eq. Qed.

(** Up to the first bytes of the file. *)
Lemma run_sending pid st threads t path i c sent rest :
  st_dir st !! path = Some (Reg i) -> st_inodes st !! i = Some c -> c = sent ++ rest ->
  run_schedule pid [(t, Works); (t, Works); (t, Moves (zlen sent))]
    (ServerFiles st (<[t := Downloading (Download path Looking)]> threads)) =
  ServerFiles st (<[t := Downloading (Download path (Sending i (zlen c) sent))]> threads).
Proof.
  intros Hd Hi Hc. unfold run_schedule. cbn [fold_left].
  erewrite download_turn; [|unfold download_step; cbn [d_phase d_path]; rewrite Hd; reflexivity].
  erewrite download_turn; [|unfold download_step; cbn [d_phase d_path]; rewrite Hi; reflexivity].
  erewrite download_turn; [|unfold download_step; cbn [d_phase d_path]; rewrite Hi; reflexivity].
  cbn [app d_path List.length]. change (zdrop (Z.of_nat 0) c) with c.
  rewrite Z.min_l by (rewrite Hc; len_lia). by rewrite Hc, ztake_app_exact.
Qed.

(** A prefix of two texts ends in the first or in the second. *)
Lemma prefix_app_split (p h c : bytes) :
  p `prefix_of` h ++ c ->
  exists begun sent, p = begun ++ sent /\ begun `prefix_of` h /\ sent `prefix_of` c /\ (sent <> [] -> begun = h).
Proof.
  intros [r Hr]. destruct (app_eq_inv _ _ _ _ (eq_sym Hr)) as [(k & -> & ->)|(k & -> & ->)].
  - exists h, k. split_and!; [done|done|by exists r|done].
  - exists p, []. rewrite app_nil_r. split_and!; [done|by exists k|by exists c|done].
Qed.

(** What [file_outcome] allows is what the machine does. *)
Lemma answer_runs base rel s t threads r w w' :
  view s (f_fs (w_files w)) -> file_outcome base rel r w w' ->
  serves_thread base rel s t threads w r w'.
Proof.
  intros Hv [(text & He & Ha)|(_ & c & m & Hf & Hio & Hrel & _ & Hr & Hs & Hall)].
  - exists [(t, Fails EIO)], Refused. split; [by repeat constructor|]. split; [|split].
    + unfold run_schedule. cbn [fold_left]. by erewrite download_turn.
    + by exists text.
    + destruct Ha as (_ & (-> & _) & _). done.
  - assert (Hc : exists i, st_dir s !! entry_path base rel = Some (Reg i) /\ st_inodes s !! i = Some c).
    { specialize (Hv (entry_path base rel)). destruct (st_dir s !! _) as [[i|n]|]; [| |congruence].
      - destruct Hv as (c' & m' & Hi & E). exists i. split; [done|]. congruence.
      - destruct Hv as [E Hn]. rewrite Hf in E. injection E as <-. by destruct (Hn c m). }
    destruct Hc as (i & Hd & Hi). assert (Hv' : view s (f_fs (w_files w'))) by (by destruct Hrel as [-> _]).
    destruct (decide (r = 0)) as [->|Hne].
    + exists ([(t, Works); (t, Works); (t, Moves (zlen c))] ++ [(t, Works)]), (Sent c).
      split; [by repeat constructor|]. split; [|split; [split; [done|by apply Hall]|done]].
      rewrite run_schedule_app, (run_sending _ s threads t _ i c c []) by (done || by rewrite app_nil_r).
      unfold run_schedule. cbn [fold_left]. erewrite download_turn; [done|].
      unfold download_step. cbn [d_phase]. by rewrite Z.eqb_refl.
    + destruct Hs as (p & Hp & Hsaid).
      destruct (prefix_app_split _ _ _ Hp) as (begun & sent & -> & Hb & [rest Hsent] & Hfull).
      exists ([(t, Works); (t, Works); (t, Moves (zlen sent))] ++ [(t, Fails EIO)]), (Broken sent).
      split; [by repeat constructor|]. split; [|split; [split; [done|]|done]].
      * rewrite run_schedule_app, (run_sending _ s threads t _ i c sent rest) by done.
        unfold run_schedule. cbn [fold_left]. by erewrite download_turn.
      * by exists (zlen c), begun.
Qed.

(** *** An example, and what [rd_targets] excludes *)

Definition demo_store : store :=
  Store (<[bs "d/a" := Reg 0]> {[bs "d" := Special (NDir 0)]}) {[0 := [9; 9]]} 1.

(** Two uploads to "d/a", one to "d/b", and a download of "d/a". *)
Definition demo_threads : server_files :=
  ServerFiles demo_store
    (<[1 := Uploading (Upload (bs "d/a") 3 [1; 2; 3] (Opening 0))]>
    (<[2 := Uploading (Upload (bs "d/a") 2 [4; 5] (Opening 0))]>
    (<[3 := Uploading (Upload (bs "d/b") 1 [6; 7] (Opening 0))]>
     {[4 := Downloading (Download (bs "d/a") Looking)]}))).

(** The lookup [H] in a concrete map: a case for each key. *)
Ltac concrete_lookup H :=
  repeat (apply lookup_insert_Some in H as [[<- [= <-]]|[_ H]]);
  try (apply lookup_singleton_Some in H as [<- [= <-]]).

Lemma demo_uploads t u :
  sf_threads demo_threads !! t = Some (Uploading u) ->
  u_phase u = Opening 0 /\ 0 <= u_size u /\ (u_full u = bs "d/a" \/ u_full u = bs "d/b").
Proof. intros H. cbn [demo_threads sf_threads] in H. concrete_lookup H; try done; cbn; split_and!; auto; lia. Qed.

(** A name below "d" of one character is nobody's temporary name. *)
Lemma demo_plain p : p = bs "d/a" \/ p = bs "d/b" -> plain_name 7 demo_threads p.
Proof.
  intros Hp t u Ht (k & Hk & E). apply demo_uploads in Ht as (_ & _ & Hf).
  apply (f_equal length) in E. unfold temp_path_text in E. rewrite !length_app in E.
  destruct Hp as [-> | ->], Hf as [Hf|Hf]; rewrite Hf in E; cbn in E; lia.
Qed.

Lemma demo_ready : ready 7 demo_threads.
Proof.
  assert (Hd : forall p i, st_dir demo_store !! p = Some (Reg i) -> p = bs "d/a" /\ i = 0).
  { intros p i H. cbn [demo_store st_dir] in H. by concrete_lookup H. }
  split.
  - intros p i [_ ->]%Hd. by split; [|eexists].
  - by intros p q i [-> _]%Hd [-> _]%Hd.
  - intros t u Ht%demo_uploads. destruct Ht as (? & ? & _). by split.
  - intros t d Ht. cbn [demo_threads sf_threads] in Ht. by concrete_lookup Ht.
  - intros t u t' u' Ht%demo_uploads Ht'. by apply (demo_plain (u_full u)) in Ht'; [|apply Ht].
Qed.

(** The second upload overtakes the first, while the first version is downloaded. *)
Definition demo_schedule : list (Z * event) :=
  [(1, Works); (4, Works); (1, Moves 2); (2, Works); (2, Works); (4, Works); (2, Moves 5);
   (2, Works); (4, Moves 1); (2, Works); (2, Works); (3, Works); (1, Moves 1); (4, Moves 1);
   (4, Works); (3, Fails EIO); (1, Works); (1, Works); (1, Works); (3, Works)].

Example demo_run :
  let s := run_schedule 7 demo_schedule demo_threads in
  contents (sf_store s) (bs "d/a") [1; 2; 3] /\
  sf_threads s !! 4 = Some (Downloading (Download (bs "d/a") (Sent [9; 9]))) /\
  st_dir (sf_store s) !! temp_path_text (bs "d/a") 7 0 = None /\ st_dir (sf_store s) !! bs "d/b" = None.
Proof. split_and!; [exists 1; by vm_compute|by vm_compute..]. Qed.

(** Nothing keeps an upload away from the temporary name of another: "d/a" holds
    the bytes of the upload to "d/a.tmp.7.0" after the upload of [1; 2; 3] to it
    reported success, and the other upload, which reported success as well, has no
    file. *)
Lemma uploads_mix_on_temp_name :
  let tmp := temp_path_text (bs "d/a") 7 0 in
  let u1 := Upload (bs "d/a") 3 [1; 2; 3] in
  let u2 := Upload tmp 2 [4; 5] in
  let s := run_schedule 7
    [(1, Works); (1, Moves 3); (1, Works); (1, Works);
     (2, Works); (2, Moves 2); (2, Works); (2, Works); (2, Works); (1, Works)]
    (ServerFiles demo_store
      (<[1 := Uploading (u1 (Opening 0))]> {[2 := Uploading (u2 (Opening 0))]})) in
  sf_threads s !! 1 = Some (Uploading (u1 (Stored [1; 2; 3]))) /\
  sf_threads s !! 2 = Some (Uploading (u2 (Stored [4; 5]))) /\
  contents (sf_store s) (bs "d/a") [4; 5] /\ st_dir (sf_store s) !! tmp = None.
Proof. split_and!; [by vm_compute..|exists 2; by vm_compute|by vm_compute]. Qed.

(** A temporary file can be downloaded like any other: the peer gets the part that
    has arrived so far as the whole file. *)
Lemma download_of_temp_file :
  let tmp := temp_path_text (bs "d/a") 7 0 in
  let s := run_schedule 7
    [(1, Works); (1, Moves 1); (2, Works); (2, Works); (2, Moves 1); (2, Works)]
    (ServerFiles demo_store
      (<[1 := Uploading (Upload (bs "d/a") 3 [1; 2; 3] (Opening 0))]>
        {[2 := Downloading (Download tmp Looking)]})) in
  sf_threads s !! 2 = Some (Downloading (Download tmp (Sent [1]))).
Proof. by vm_compute. Qed.

(** ** Properties *)

(** C5: uploads never mix. Any number of connection threads store uploads and read
    files in one directory at the same time, interleaved in any way, with any
    system calls failing or moving any number of bytes. If no upload has the
    temporary name of another as its target, then at every moment: a file under a
    name that is not a temporary one is as it was at the start, or holds all the
    bytes that the peer of one upload to that name sent, which reported success;
    an upload that reported success is not lost, except to another one to the same
    name; every running upload has a file of its own with exactly the bytes it
    wrote; and a name nobody has stored to, or left a temporary file under because
    the system refused to remove it, is as it was. *)
Theorem uploads_never_mix pid s0 schedule (Hready : ready pid s0) :
  let s := run_schedule pid schedule s0 in
  (forall p c, plain_name pid s0 p -> contents (sf_store s) p c -> version s0 s p c) /\
  (forall t u d, sf_threads s !! t = Some (Uploading u) -> u_phase u = Stored d ->
     exists t' u' c, sf_threads s !! t' = Some (Uploading u') /\ u_full u' = u_full u /\
       u_phase u' = Stored c /\ whole u' c /\ contents (sf_store s) (u_full u) c) /\
  (forall t u tmp i got, sf_threads s !! t = Some (Uploading u) -> owned u = Some (tmp, i, got) ->
     contents (sf_store s) tmp got /\ zlen got <= u_size u /\ got = ztake (zlen got) (u_peer u)) /\
  (forall p, (forall t u, sf_threads s !! t = Some (Uploading u) ->
        u_phase u <> Failed (Some p) /\ (forall i got, owned u <> Some (p, i, got)) /\
        (u_full u = p -> forall d, u_phase u <> Stored d)) ->
     st_dir (sf_store s) !! p = st_dir (sf_store s0) !! p /\
     forall c, contents (sf_store s0) p c -> contents (sf_store s) p c).
Proof.
  intros s. pose proof (run_invariant pid s0 schedule Hready) as H. fold s in H. split_and!.
  - intros p c Hp (i & Hi & Hc). destruct (plain_version _ _ _ _ _ H Hp Hi) as (c' & Hc' & Hv & _). congruence.
  - intros t u d. by eapply stored_stays.
  - intros t u tmp i got. by eapply running_file.
  - intros p. by eapply others_same.
Qed.

Lemma uploads_never_mix_witness :
  let s0 := demo_threads in
  let s := run_schedule 7 demo_schedule s0 in
  (forall p c, plain_name 7 s0 p -> contents (sf_store s) p c -> version s0 s p c) /\
  (forall t u d, sf_threads s !! t = Some (Uploading u) -> u_phase u = Stored d ->
     exists t' u' c, sf_threads s !! t' = Some (Uploading u') /\ u_full u' = u_full u /\
       u_phase u' = Stored c /\ whole u' c /\ contents (sf_store s) (u_full u) c) /\
  (forall t u tmp i got, sf_threads s !! t = Some (Uploading u) -> owned u = Some (tmp, i, got) ->
     contents (sf_store s) tmp got /\ zlen got <= u_size u /\ got = ztake (zlen got) (u_peer u)) /\
  (forall p, (forall t u, sf_threads s !! t = Some (Uploading u) ->
        u_phase u <> Failed (Some p) /\ (forall i got, owned u <> Some (p, i, got)) /\
        (u_full u = p -> forall d, u_phase u <> Stored d)) ->
     st_dir (sf_store s) !! p = st_dir (sf_store s0) !! p /\
     forall c, contents (sf_store s0) p c -> contents (sf_store s) p c).
Proof. apply uploads_never_mix, demo_ready. Defined.

(** C6: a download is a snapshot, also while uploads replace the file: in every
    interleaving a download of a name that is not a temporary one that finishes has
    sent exactly one version of the file -- the one of the start or all the bytes of
    one upload that reported success -- and one that is under way or broke off has
    sent the first bytes of one version, whose size it announced. *)
Theorem downloads_are_snapshots pid s0 schedule t d (Hready : ready pid s0)
    (Hplain : plain_name pid s0 (d_path d)) :
  let s := run_schedule pid schedule s0 in
  sf_threads s !! t = Some (Downloading d) ->
  match d_phase d with
  | Looking | Refused => True
  | Opened i => exists c, version s0 s (d_path d) c
  | Sending i size sent => exists c, version s0 s (d_path d) c /\ size = zlen c /\ sent = ztake (zlen sent) c
  | Sent sent => version s0 s (d_path d) sent
  | Broken sent => exists c, version s0 s (d_path d) c /\ sent = ztake (zlen sent) c
  end.
Proof. intros s Ht. by apply (download_version pid s0 s t d); [apply run_invariant|..]. Qed.

Lemma downloads_are_snapshots_witness :
  version demo_threads (run_schedule 7 demo_schedule demo_threads) (bs "d/a") [9; 9].
Proof.
  refine (downloads_are_snapshots 7 demo_threads demo_schedule 4 (Download (bs "d/a") (Sent [9; 9]))
            demo_ready (demo_plain _ (or_introl eq_refl)) _).
  vm_compute. reflexivity.
Defined.

(** C14: uploads do not wait for each other: at every moment of every interleaving, an
    upload that has its temporary file, or finds its next temporary name free, whose
    peer sends enough and whose target is not a directory succeeds with at most five
    turns of its own, whatever the others are doing, and stores what its peer sent. *)
Theorem uploads_need_no_other pid s0 schedule t u (Hready : ready pid s0) :
  let s := run_schedule pid schedule s0 in
  sf_threads s !! t = Some (Uploading u) ->
  match u_phase u with
  | Opening k => st_dir (sf_store s) !! temp_path_text (u_full u) pid k = None
  | Receiving _ _ _ | Closing _ _ _ | Committing _ _ _ => True
  | _ => False
  end ->
  u_size u <= zlen (u_peer u) -> (forall m, st_dir (sf_store s) !! u_full u <> Some (Special (NDir m))) ->
  let s' := run_schedule pid (schedule ++ rest_of_upload t u) s0 in
  let d := ztake (u_size u) (u_peer u) in
  sf_threads s' !! t = Some (Uploading (set_phase (Stored d) u)) /\
  (forall t', t' <> t -> sf_threads s' !! t' = sf_threads s !! t').
Proof.
  intros s Ht Hph Hl Hdir s' d. pose proof (run_invariant pid s0 schedule Hready) as H. fold s in H.
  destruct (rest_completes pid s0 s t u H Ht Hph Hl Hdir) as [st' E].
  assert (Es : ServerFiles (sf_store s) (<[t := Uploading u]> (sf_threads s)) = s)
    by (destruct s; cbn in *; by rewrite insert_id).
  rewrite Es in E. unfold s'. rewrite run_schedule_app. fold s. rewrite E. cbn. split.
  - by rewrite lookup_insert_eq.
  - intros t' Hne. by rewrite lookup_insert_ne.
Qed.

Lemma uploads_need_no_other_witness :
  let u := Upload (bs "d/a") 3 [1; 2; 3] in
  let early := take 4 demo_schedule in
  let s := run_schedule 7 early demo_threads in
  let s' := run_schedule 7 (early ++ [(1, Moves 1); (1, Works); (1, Works); (1, Works)]) demo_threads in
  sf_threads s' !! 1 = Some (Uploading (u (Stored [1; 2; 3]))) /\
  (forall t', t' <> 1 -> sf_threads s' !! t' = sf_threads s !! t').
Proof.
  refine (uploads_need_no_other 7 demo_threads (take 4 demo_schedule) 1
    (Upload (bs "d/a") 3 [1; 2; 3] (Receiving (temp_path_text (bs "d/a") 7 0) 1 [1; 2])) demo_ready _ _ _ _);
    [vm_compute; reflexivity|exact I|simpl; lia|intros m; vm_compute; discriminate].
Defined.

(** C7: the upload machine is the code: whatever the network and the file system do,
    a run of [transfer_recv_socket_file], and one of [transfer_recv_socket_http_file],
    is a run of its thread of the machine, from the store that stands for the file
    system before to the one that stands for it afterwards; the code reports success
    exactly when the machine ends in [Stored]. *)
Theorem upload_runs_its_thread conn base name size cap w s t threads
    (Hconn : 0 <= conn) (Hsize : 0 <= size < 2 ^ 64) (Hcap : 0 < cap)
    (Hkernel : e_splice_direct (w_env w) = false) (Hfds : fds_ok (w_files w))
    (Hstore : store_ok s) (Hview : view s (f_fs (w_files w))) :
  wp (transfer_recv_socket_file conn (Some base) (Some name) size cap)
    (fun '(r, _) w' => runs_thread base name size s t threads w r w') w /\
  wp (transfer_recv_socket_http_file conn (Some base) (Some name) size cap)
    (fun '(r, _) w' => runs_thread base name size s t threads w r w') w.
Proof.
  split; (eapply wp_mono; [apply wp_conj;
    [by apply transfer_recv_with_spec; try apply _|by apply transfer_recv_with_facts; try apply _]|]);
    intros [r saved] w' [(_ & Hout & _) Hfacts]; by eapply outcome_runs.
Qed.

Lemma demo_view : view demo_store (<[bs "d/a" := NFile [9; 9] 5]> {[bs "d" := NDir 0]}).
Proof.
  intros p. cbn [demo_store st_dir].
  destruct (decide (p = bs "d/a")) as [->|H1]; [by exists [9; 9], 5|]. rewrite !lookup_insert_ne by done.
  destruct (decide (p = bs "d")) as [->|H2]; [by vm_compute|]. by rewrite !lookup_singleton_ne.
Qed.

Lemma demo_store_ok : store_ok demo_store.
Proof. split; [apply (rd_inodes _ _ demo_ready)|apply (rd_names _ _ demo_ready)]. Qed.

Lemma upload_runs_its_thread_witness :
  let w := demo_world [FNone; FErr EEXIST; FNone; FShort 2] [1; 2; 3]
             (demo_files (<[bs "d/a" := NFile [9; 9] 5]> {[bs "d" := NDir 0]})) in
  wp (transfer_recv_socket_file 5 (Some (bs "d")) (Some (bs "a")) 3 4096)
    (fun '(r, _) w' => runs_thread (bs "d") (bs "a") 3 demo_store 1 ∅ w r w') w /\
  wp (transfer_recv_socket_http_file 5 (Some (bs "d")) (Some (bs "a")) 3 4096)
    (fun '(r, _) w' => runs_thread (bs "d") (bs "a") 3 demo_store 1 ∅ w r w') w.
Proof.
  apply upload_runs_its_thread;
    [lia|lia|lia|reflexivity|apply demo_files_ok|apply demo_store_ok|apply demo_view].
Defined.

(** C13: the download machine is the code: whatever fails, a run of [http_send_file] is
    a run of its thread of the machine; the machine ends in [Refused] when the peer
    gets an error, in [Sent c] when the code returns 0 and the peer gets the header and
    then [c], and in [Broken sent] when the peer gets a part of the header, or the
    header and then [sent]. *)
Theorem download_runs_its_thread conn opt base rel w s t threads
    (Hconn : 0 <= conn) (Hbase : s_path opt = Some base) (Hfds : fds_ok (w_files w))
    (Hsizes : sizes_fit (f_fs (w_files w))) (Hview : view s (f_fs (w_files w))) :
  wp (http_send_file conn opt rel) (fun r w' => serves_thread base rel s t threads w r w') w.
Proof. wp_use http_send_file_spec; [done..|]. intros r w' [Hout _]. by apply answer_runs. Qed.

Lemma download_runs_its_thread_witness :
  let w := demo_world [FNone; FNone; FShort 3; FErr EIO] []
             (demo_files (<[bs "d/a" := NFile [9; 9] 5]> {[bs "d" := NDir 0]})) in
  wp (http_send_file 4 (ServerOpt (Some (bs "d")) 9000 0) (bs "a"))
    (fun r w' => serves_thread (bs "d") (bs "a") demo_store 1 ∅ w r w') w.
Proof.
  apply download_runs_its_thread; [lia|reflexivity|apply demo_files_ok| |apply demo_view].
  apply sizes_fit_intro. vm_compute. reflexivity.
Defined.
