(* ===== verification/Terminal.v ===== *)
(** * What the program prints (src/control.c, src/server.c, src/cli.c, src/client.c)

    The text the commands write for the user to read: the fields of the status, the
    QR code of the page's address, drawn with half blocks, the usage, the names of
    the errors. A function of the code that prints is a function to the bytes it
    writes; the stream it writes to is always there. The QR encoder is third-party
    code and a parameter; how a code is read out of its buffer is not. *)

From S2P Require Import Prelude CLib World Logic.
From S2P Require Import Signals Fs Net Protocol TransferIo Cli AppService DaemonState Control.

(** ** Definitions *)

(** *** Fields *)

(** ["%-12s"]. *)
Definition pad_right (width : nat) (s : bytes) : bytes := s ++ replicate (width - length s) 32.

Definition control_print_rich_field (label value : option bytes) : bytes :=
  match label, value with
  | Some label, Some value => bs "  " ++ pad_right 12 label ++ [32] ++ value ++ [10]
  | _, _ => []
  end.

Definition control_print_rich_field_num (label : option bytes) (value : Z) : bytes :=
  match label with
  | None => []
  | Some _ =>
      let '(n, buf) := snprintf 64 (udec value) in
      if snprintf_failed n 64 then [] else control_print_rich_field label (Some buf)
  end.

Definition banner_lines : list bytes :=
  [bs "    __ _______ __   ";
   bs "   / // / __(_) /__ ";
   bs "  / _  / _// / / -_)";
   bs " /_//_/_/ /_/_/\__/";
   bs "https://github.com/syhhyl/HFile"].

Definition control_print_startup_banner : bytes := concat (map (fun line => line ++ [10]) banner_lines).

(** *** The QR code *)

Inductive qrcodegen_Ecc :=
  | qrcodegen_Ecc_LOW
  | qrcodegen_Ecc_MEDIUM
  | qrcodegen_Ecc_QUARTILE
  | qrcodegen_Ecc_HIGH.

(** A buffer: the size, then the modules, eight in a byte, row after row. *)
Definition qrcodegen_getSize (qrcode : bytes) : Z := nth 0 qrcode 0.

Definition getBit (x i : Z) : bool := negb (Z.land (Z.shiftr x i) 1 =? 0).

Definition getModuleBounded (qrcode : bytes) (x y : Z) : bool :=
  let index := y * nth 0 qrcode 0 + x in
  getBit (nth (Z.to_nat (Z.shiftr index 3 + 1)) qrcode 0) (Z.land index 7).

Definition qrcodegen_getModule (qrcode : bytes) (x y : Z) : bool :=
  let qrsize := nth 0 qrcode 0 in
  ((0 <=? x) && (x <? qrsize) && (0 <=? y) && (y <? qrsize)) && getModuleBounded qrcode x y.

(** One character: a full block, an upper or a lower half, or a blank. *)
Definition qr_cell (top bottom : bool) : bytes :=
  if top && bottom then [226; 150; 136]
  else if top then [226; 150; 128]
  else if bottom then [226; 150; 132]
  else [32].

(** The module at (x, y), or 0 outside of the code. *)
Definition qr_module (qr : bytes) (size x y : Z) : bool :=
  if (0 <=? x) && (x <? size) && (0 <=? y) && (y <? size) then qrcodegen_getModule qr x y else false.

(** The inner loop, from column [x] on. *)
Fixpoint qr_row (fuel : nat) (qr : bytes) (size border y x : Z) : bytes :=
  match fuel with
  | O => []
  | S fuel =>
      if x <? size + border then
        qr_cell (qr_module qr size x y) (qr_module qr size x (y + 1)) ++ qr_row fuel qr size border y (x + 1)
      else []
  end.

(** The outer loop, from row [y] on. *)
Fixpoint qr_rows (fuel : nat) (qr : bytes) (size border y : Z) : bytes :=
  match fuel with
  | O => []
  | S fuel =>
      if y <? size + border then
        qr_row (Z.to_nat (size + 2 * border)) qr size border y (- border) ++ [10] ++
        qr_rows fuel qr size border (y + 2)
      else []
  end.

Section Printing.
(** [qrcodegen_encodeText(url, temp, qr, ecc, ...)]: the buffer [qr], or failure. *)
Context (qrcodegen_encodeText : bytes -> qrcodegen_Ecc -> option bytes).

(** The result and the text; [ferror] tells whether the stream has failed. *)
Definition control_print_qr_to (url : option bytes) (border : Z) (ecc : qrcodegen_Ecc) (ferror : bool)
    : Z * bytes :=
  match url with
  | None => (1, [])
  | Some url =>
      if bool_decide (url = []) || (border <? 0) then (1, [])
      else
        match qrcodegen_encodeText url ecc with
        | None => (1, [])
        | Some qr =>
            let size := qrcodegen_getSize qr in
            let text := qr_rows (S (Z.to_nat (size + 2 * border))) qr size border (- border) in
            (if ferror then 1 else 0, text)
        end
  end.

(** The result is ignored. *)
Definition print_qr (url : bytes) : bytes := snd (control_print_qr_to (Some url) 1 qrcodegen_Ecc_LOW false).

(** [host]: what [net_primary_ipv4] finds out. *)
Definition control_print_server_access_details (host receive_dir : option bytes) (port : Z)
    (daemon_mode : bool) : bytes :=
  match receive_dir with
  | None => []
  | Some _ =>
      let '(_, url, phone_reachable) := control_build_url host port 256 in
      control_print_startup_banner ++
      control_print_rich_field (Some (bs "Receive Dir")) receive_dir ++
      (if bool_decide (url = []) then []
       else
         control_print_rich_field (Some (bs "Web")) (Some url) ++
         (if phone_reachable =? 0 then
            control_print_rich_field (Some (bs "Mobile"))
              (Some (bs "LAN IPv4 not detected, using localhost"))
          else [])) ++
      (if daemon_mode then []
       else control_print_rich_field (Some (bs "Status")) (Some (bs "Waiting for files and messages"))) ++
      (if bool_decide (url = []) then [] else print_qr url)
  end.

Definition control_print_status (state : option daemon_state_t) : bytes :=
  match state with
  | None => []
  | Some state =>
      control_print_startup_banner ++
      control_print_rich_field (Some (bs "Receive Dir")) (Some (receive_dir state)) ++
      control_print_rich_field_num (Some (bs "PID")) (u64 (pid state)) ++
      control_print_rich_field (Some (bs "Web")) (Some (web_url state)) ++
      (if bool_decide (web_url state = []) then [] else print_qr (web_url state))
  end.

(** "hf status" with what it prints. *)
Definition control_status_printed (p : procs_t) : M (Z * procs_t * bytes) :=
  let! (state, p) := control_load_running_state p in
  match state with
  | None =>
      ret (1, p, control_print_startup_banner ++
                 control_print_rich_field (Some (bs "Status")) (Some (bs "No running daemon")))
  | Some _ => ret (0, p, control_print_status state)
  end.
End Printing.

(** "hf stop" with what it prints to the standard output. *)
Definition already_stopped : bytes := bs "already stopped" ++ [10].

Definition control_stop_printed (p : procs_t) : M (Z * procs_t * bytes) :=
  let! (state, p) := control_load_running_state p in
  match state with
  | None => ret (0, p, already_stopped)
  | Some state =>
      let '(err, p) := sys_kill (pid_t_of (pid state)) SIGTERM p in
      if negb (err =? 0) then
        if err =? ESRCH then let! r := control_report_already_stopped in ret (r, p, already_stopped)
        else ret (1, p, [])
      else
        let p := control_stop_poll 100 (pid state) p in
        let '(running, p) := control_pid_is_running (pid state) p in
        if negb (running =? 0) then ret (1, p, [])
        else
          let! _ := daemon_state_cleanup_files in
          ret (0, p, control_print_startup_banner ++
                     control_print_rich_field_num (Some (bs "PID")) (u64 (pid state)) ++
                     control_print_rich_field (Some (bs "Result")) (Some (bs "Server stopped")))
  end.

(** *** The other texts *)

(** [isatty(fileno(stderr))] is [stderr_isatty]. *)
Definition server_print_shutdown_notice (stderr_isatty : bool) : M bytes :=
  let! signal := shutdown_signal_number in
  let add_leading_newline := (signal =? SIGINT) && stderr_isatty in
  ret ((if add_leading_newline then [10] else []) ++ bs "shutdown requested, stopping server" ++ [10]).

Definition usage_forms : list bytes :=
  [bs " -d <server_path> [-p <port>]";
   bs " -c <file_path> [-i <ip>] [-p <port>]";
   bs " -g <remote_file> [-o <local_path>] [-i <ip>] [-p <port>]";
   bs " -m <message> [-i <ip>] [-p <port>]";
   bs " status";
   bs " stop"].

Definition usage (argv0 : bytes) : bytes :=
  bs "usage:" ++ [10] ++ concat (map (fun form => bs "  " ++ argv0 ++ form ++ [10]) usage_forms).

Definition client_protocol_result_name (res : protocol_result_t) : bytes :=
  match res with
  | PROTOCOL_OK => bs "ok"
  | PROTOCOL_ERR_HEADER_MAGIC => bs "header magic"
  | PROTOCOL_ERR_HEADER_VERSION => bs "header version"
  | PROTOCOL_ERR_HEADER_MSG_TYPE => bs "header msg type"
  | PROTOCOL_ERR_HEADER_MSG_FLAG => bs "header msg flag"
  | PROTOCOL_ERR_INVALID_ARGUMENT => bs "invalid argument"
  | PROTOCOL_ERR_FILE_NAME_LEN => bs "file name length"
  | PROTOCOL_ERR_INVALID_FILE_NAME => bs "invalid file name"
  | PROTOCOL_ERR_PAYLOAD_SIZE_MISMATCH => bs "payload size mismatch"
  | PROTOCOL_ERR_IO => bs "io"
  | PROTOCOL_ERR_SHORT_WRITE => bs "short write"
  | PROTOCOL_ERR_ALLOC => bs "alloc"
  | PROTOCOL_ERR_EOF => bs "unexpected eof"
  | _ => bs "unknown"
  end.

(** *** Specifications *)

(** What a reader sees of a printed code: for each line the upper and the lower
    halves of its characters; [row] has been read of the current line. *)
Fixpoint qr_read (text : bytes) (row : list (bool * bool)) : list (list (bool * bool)) :=
  match text with
  | [] => []
  | c :: text =>
      if c =? 10 then row :: qr_read text []
      else if c =? 32 then qr_read text (row ++ [(false, false)])
      else
        match text with
        | _ :: d :: text => qr_read text (row ++ [((d =? 136) || (d =? 128), (d =? 136) || (d =? 132))])
        | _ => []
        end
  end.

(** The colour of the point (x, y) of the picture, if it is part of it. *)
Definition pixel (lines : list (list (bool * bool))) (x y : Z) : option bool :=
  line ← lines !! Z.to_nat (y / 2);
  cell ← line !! Z.to_nat x;
  Some (if y mod 2 =? 0 then fst cell else snd cell).

(** The words of a line; [word] has been read of the current one. *)
Fixpoint words (line word : bytes) : list bytes :=
  match line with
  | [] => [word]
  | c :: line => if c =? 32 then word :: words line [] else words line (word ++ [c])
  end.

(** The arguments a line of the usage stands for: the brackets of the optional parts
    removed, and the names of the values replaced by values. *)
Definition usage_args (value : bytes -> bytes) (argv0 form : bytes) : list bytes :=
  map (fun word => if bool_decide (head word = Some 60) then value word else word)
    (words (List.filter (fun c => negb ((c =? 91) || (c =? 93))) (argv0 ++ form)) []).

(** The number of lines. *)
Definition qr_height (size border : Z) : Z := (size + 2 * border + 1) / 2.

(** The text of "hf stop". *)
Inductive stop_text (p p' : procs_t) : Z -> bytes -> Prop :=
  | text_failed : stop_text p p' 1 []
  | text_already : stop_text p p' 0 already_stopped
  | text_stopped q k : (1 <= k <= 101)%nat -> 0 < q -> alive (answer p (S k)) = false ->
      p' = signalled k q p ->
      stop_text p p' 0
        (control_print_startup_banner ++ control_print_rich_field_num (Some (bs "PID")) (u64 q) ++
         control_print_rich_field (Some (bs "Result")) (Some (bs "Server stopped"))).

(** ** Theorems *)

Lemma qr_module_eq qr x y : qr_module qr (qrcodegen_getSize qr) x y = qrcodegen_getModule qr x y.
Proof. unfold qr_module, qrcodegen_getModule, qrcodegen_getSize. by destruct (_ && _). Qed.

Lemma qr_row_eq fuel qr size border y x :
  (Z.to_nat (size + border - x) <= fuel)%nat ->
  qr_row fuel qr size border y x =
  concat (map (fun x => qr_cell (qr_module qr size x y) (qr_module qr size x (y + 1)))
            (seqZ x (size + border - x))).
Proof.
  revert x. induction fuel as [|fuel IH]; intros x Hf; cbn [qr_row].
  { by rewrite seqZ_nil by lia. }
  destruct (Z.ltb_spec x (size + border)); [|by rewrite seqZ_nil by lia].
  rewrite seqZ_cons, IH by lia. cbn [map concat]. do 3 f_equal. f_equal; lia.
Qed.

Lemma qr_rows_eq fuel qr size border k :
  0 <= k -> 0 <= size + 2 * border -> (Z.to_nat (qr_height size border - k) <= fuel)%nat ->
  qr_rows fuel qr size border (2 * k - border) =
  concat (map (fun k => qr_row (Z.to_nat (size + 2 * border)) qr size border (2 * k - border) (- border) ++ [10])
            (seqZ k (qr_height size border - k))).
Proof.
  unfold qr_height. revert k. induction fuel as [|fuel IH]; intros k Hk Hs Hf; cbn [qr_rows].
  { by rewrite seqZ_nil by lia. }
  destruct (Z.ltb_spec (2 * k - border) (size + border)); [|by rewrite seqZ_nil by lia].
  rewrite seqZ_cons by lia. cbn [map concat]. rewrite <- app_assoc. do 2 f_equal.
  replace (2 * k - border + 2) with (2 * Z.succ k - border) by lia.
  rewrite IH by lia. do 3 f_equal. lia.
Qed.

(** *** Reading a code *)

Lemma qr_read_cell top bottom text row :
  qr_read (qr_cell top bottom ++ text) row = qr_read text (row ++ [(top, bottom)]).
Proof. by destruct top, bottom. Qed.

Lemma qr_read_row cells rest row :
  qr_read (concat (map (fun c => qr_cell (fst c) (snd c)) cells) ++ [10] ++ rest) row =
  (row ++ cells) :: qr_read rest [].
Proof.
  revert row. induction cells as [|[top bottom] cells IH]; intros row; [by rewrite app_nil_r|].
  cbn [map concat]. by rewrite <- app_assoc, qr_read_cell, IH, <- app_assoc.
Qed.

Lemma qr_read_rows (cells : Z -> list (bool * bool)) l :
  qr_read (concat (map (fun k => concat (map (fun c => qr_cell (fst c) (snd c)) (cells k)) ++ [10]) l)) [] =
  map cells l.
Proof.
  induction l as [|k l IH]; [done|]. cbn [map concat]. rewrite <- app_assoc, qr_read_row, IH. done.
Qed.

(** The lines of a printed code, as a reader sees them. *)
Lemma control_print_qr_read encode url border ecc ferror qr :
  url <> [] -> 0 <= border -> encode url ecc = Some qr -> 0 <= qrcodegen_getSize qr ->
  let size := qrcodegen_getSize qr in
  exists text, control_print_qr_to encode (Some url) border ecc ferror = (if ferror then 1 else 0, text) /\
    qr_read text [] =
      map (fun k => map (fun x => (qrcodegen_getModule qr x (2 * k - border),
                                   qrcodegen_getModule qr x (2 * k - border + 1)))
                      (seqZ (- border) (size + 2 * border)))
        (seqZ 0 (qr_height size border)).
Proof.
  intros Hurl Hb He Hs size. unfold control_print_qr_to.
  rewrite bool_decide_eq_false_2 by done. destruct (Z.ltb_spec border 0); [lia|]. cbn [orb]. rewrite He.
  fold size. eexists. split; [done|]. replace (- border) with (2 * 0 - border) at 1 by lia.
  rewrite qr_rows_eq by (unfold qr_height; lia). rewrite Z.sub_0_r.
  rewrite <- (qr_read_rows (fun k => map (fun x => (qrcodegen_getModule qr x (2 * k - border),
     qrcodegen_getModule qr x (2 * k - border + 1))) (seqZ (- border) (size + 2 * border)))).
  do 2 f_equal. apply map_ext. intros k. f_equal. rewrite qr_row_eq by lia. rewrite map_map.
  replace (size + border - - border) with (size + 2 * border) by lia.
  f_equal. apply map_ext. intros x. cbn [fst snd]. unfold size. by rewrite !qr_module_eq.
Qed.

(** A point of a picture given by its lines. *)
Lemma pixel_grid (f : Z -> Z -> bool * bool) x0 width height x y :
  0 <= x -> 0 <= y ->
  pixel (map (fun k => map (fun x => f k x) (seqZ x0 width)) (seqZ 0 height)) x y =
  if (x <? width) && (y <? 2 * height) then
    Some (if y mod 2 =? 0 then fst (f (y / 2) (x0 + x)) else snd (f (y / 2) (x0 + x)))
  else None.
Proof.
  intros Hx Hy. unfold pixel. rewrite (list_lookup_fmap _ _ _ : map _ _ !! _ = _).
  destruct (Z.ltb_spec y (2 * height)); cycle 1.
  { rewrite lookup_seqZ_ge by lia. by rewrite andb_false_r. }
  rewrite lookup_seqZ_lt by lia. cbn [fmap option_fmap option_map mbind option_bind].
  rewrite (list_lookup_fmap _ _ _ : map _ _ !! _ = _).
  destruct (Z.ltb_spec x width); [|by rewrite lookup_seqZ_ge by lia].
  rewrite lookup_seqZ_lt by lia. cbn [fmap option_fmap option_map mbind option_bind andb].
  rewrite !Z2Nat.id by lia. by rewrite Z.add_0_l.
Qed.

(** *** What the commands show *)

(** The page of a server: the URL on the "Web" line is the one in the QR code, and
    the note about the missing address is there exactly when there is none. *)
Lemma access_details_page encode host dir port daemon_mode :
  0 < port <= 65535 -> zlen (default [] host) <= 15 ->
  let url := bs "http://" ++ default (bs "127.0.0.1") host ++ [58] ++ udec port ++ [47] in
  control_print_server_access_details encode host (Some dir) port daemon_mode =
    control_print_startup_banner ++
    control_print_rich_field (Some (bs "Receive Dir")) (Some dir) ++
    (control_print_rich_field (Some (bs "Web")) (Some url) ++
     match host with
     | None => control_print_rich_field (Some (bs "Mobile")) (Some (bs "LAN IPv4 not detected, using localhost"))
     | Some _ => []
     end) ++
    (if daemon_mode then []
     else control_print_rich_field (Some (bs "Status")) (Some (bs "Waiting for files and messages"))) ++
    print_qr encode url.
Proof.
  intros Hp Hh url. unfold control_print_server_access_details.
  rewrite control_build_url_fits by (done || lia). fold url. rewrite !bool_decide_eq_false_2 by done.
  by destruct host.
Qed.

(** The commands with their output run as the commands do. *)
Lemma control_status_printed_run encode p w :
  (let! (r, p, _) := control_status_printed encode p in ret (r, p)) w = control_status p w.
Proof.
  unfold control_status_printed, control_status, bind.
  destruct (control_load_running_state p w) as [[[[s|] p'] w']|]; done.
Qed.

Lemma control_stop_printed_run p w :
  (let! (r, p, _) := control_stop_printed p in ret (r, p)) w = control_stop p w.
Proof.
  unfold control_stop_printed, control_stop, bind.
  destruct (control_load_running_state p w) as [[[[s|] p1] w1]|]; [|done..].
  destruct (sys_kill _ _ p1) as [err p2]. destruct (negb (err =? 0)).
  - destruct (err =? ESRCH); [|done]. by destruct (control_report_already_stopped w1) as [[]|].
  - destruct (control_pid_is_running _ _) as [running p3]. destruct (negb (running =? 0)); [done|].
    by destruct (daemon_state_cleanup_files w1) as [[]|].
Qed.

Lemma control_stop_printed_text p w :
  fds_ok (w_files w) ->
  (forall m, f_fs (w_files w) !! state_path (e_tmpdir (w_env w)) <> Some (NDir m)) ->
  wp (control_stop_printed p) (fun '(r, p', text) _ => stop_text p p' r text) w.
Proof.
  intros Hok Hnd. unfold control_stop_printed. wp_step. wp_use control_load_running_state_spec; [done|done|].
  intros [state p1] w1 (Hf1 & Hfd1 & Hst1 & Hp1 & _). destruct state as [s|]; [|wp_step; constructor].
  destruct Hp1 as (Hpos & -> & Ha0). rewrite sys_kill_polled. destruct Hst1 as [Hkept|[? _]]; [|done].
  destruct (negb (answer p 1 =? 0)).
  { destruct (answer p 1 =? ESRCH); [|wp_step; constructor]. wp_step.
    unfold control_report_already_stopped. wp_step. wp_use (stop_cleanup w w1); [done..|].
    intros _ w2 _. do 2 wp_step. constructor. }
  destruct (control_stop_waits 100 (pid s) p Hpos) as (k & Hk & -> & _).
  destruct (alive (answer p (S k))) eqn:Ea.
  { change (negb (1 =? 0)) with true. cbv iota. wp_step. constructor. }
  change (negb (0 =? 0)) with false. cbv iota. wp_step. wp_use (stop_cleanup w w1); [done..|]. intros _ w2 _. wp_step. by eapply text_stopped.
Qed.

(** *** Examples *)

(** A code of 21 rows with a dark module at the top left and one below it. *)
Definition demo_qr : bytes := [21; 1; 0; 32] ++ replicate 53 0.

Example demo_qr_first_line :
  take 4 (snd (control_print_qr_to (fun _ _ => Some demo_qr) (Some (bs "x")) 0 qrcodegen_Ecc_LOW false)) =
  [226; 150; 136; 32].
Proof. by vm_compute. Qed.

(** Every form of the usage is accepted. *)
Example usage_accepted :
  let value name := if bool_decide (name = bs "<port>") then bs "80" else
                    if bool_decide (name = bs "<ip>") then bs "10.0.0.1" else bs "x" in
  forallb (fun form => match parse_args (usage_args value (bs "hf") form) server_mode with
                       | (PARSE_OK, _) => true
                       | _ => false
                       end) usage_forms = true.
Proof. by vm_compute. Qed.

(** A text that is too long has no name of its own: the client prints the one of no
    error code at all. *)
Lemma message_too_large_unknown :
  client_protocol_result_name PROTOCOL_ERR_MSG_TOO_LARGE = bs "unknown" /\
  forall res, client_protocol_result_name res = bs "unknown" -> res = PROTOCOL_ERR_MSG_TOO_LARGE.
Proof. split; [done|]. by intros []. Qed.

(** ** Properties *)

(** C33: the printed QR code is the code: whatever the encoder returned, the lines of
    half blocks [control_print_qr_to] writes show, point by point, exactly the
    modules of the code with [border] light points around it -- and one more light row
    at the end when the height is odd -- so the text determines the code. *)
Theorem control_print_qr_faithful encode url border ecc ferror qr
    (Hurl : url <> []) (Hborder : 0 <= border) (Hqr : encode url ecc = Some qr)
    (Hsize : 0 <= qrcodegen_getSize qr) :
  let '(r, text) := control_print_qr_to encode (Some url) border ecc ferror in
  let width := qrcodegen_getSize qr + 2 * border in
  r = (if ferror then 1 else 0) /\
  forall x y, 0 <= x -> 0 <= y ->
    pixel (qr_read text []) x y =
    if (x <? width) && (y <? 2 * ((width + 1) / 2)) then Some (qrcodegen_getModule qr (x - border) (y - border))
    else None.
Proof.
  destruct (control_print_qr_read encode url border ecc ferror qr) as (text & -> & Ht); [done..|].
  cbv zeta. split; [done|]. intros x y Hx Hy. rewrite Ht.
  rewrite (pixel_grid (fun k x => (qrcodegen_getModule qr x (2 * k - border),
                                   qrcodegen_getModule qr x (2 * k - border + 1)))) by done.
  unfold qr_height. destruct (_ && _); [|done]. cbn [fst snd]. f_equal.
  destruct (Z.eqb_spec (y mod 2) 0); f_equal; lia.
Qed.

Lemma control_print_qr_faithful_witness :
  let encode (url : bytes) (ecc : qrcodegen_Ecc) := Some demo_qr in
  let '(r, text) := control_print_qr_to encode (Some (bs "http://10.0.0.1:80/")) 1 qrcodegen_Ecc_LOW false in
  r = 0 /\
  forall x y, 0 <= x -> 0 <= y ->
    pixel (qr_read text []) x y =
    if (x <? 23) && (y <? 2 * ((23 + 1) / 2)) then Some (qrcodegen_getModule demo_qr (x - 1) (y - 1))
    else None.
Proof.
  apply (control_print_qr_faithful (fun _ _ => Some demo_qr) (bs "http://10.0.0.1:80/") 1 qrcodegen_Ecc_LOW
           false demo_qr); [discriminate|lia|reflexivity|vm_compute; discriminate].
Defined.


